(* ===== verification/_CoqProject ===== *)
-Q . S2P
Prelude.v
Realtime.v
Store.v
Queries.v
Authz.v
Wp.v
AuthzFacts.v
Guild.v
User.v
GuildFacts.v
UserFacts.v
Channel.v
ChannelFacts.v
Scylla.v
Mentions.v
Message.v
Wpm.v
MessageFacts.v
MessageStateFacts.v
MessageReads.v
SqlSplit.v
Redis.v
Middleware.v
MiddlewareFacts.v
AuthService.v
AuthServiceFacts.v
Presence.v
PresenceFacts.v
Media.v
MediaFacts.v
Voice.v
VoiceFacts.v
VoiceCalls.v
Sync.v
SyncFacts.v
Rpc.v
GuildApi.v
GuildApiFacts.v
UserApi.v
UserApiFacts.v
ChannelApi.v
MessageApi.v
MessageApiFacts.v
Stream.v
StreamFacts.v
Gateway.v
GatewayRoutes.v
GatewayFacts.v
Reach.v
Threads.v
ThreadsFacts.v
Config.v
HttpLog.v
Init.v
TokenThreads.v
