(* ===== verification/Prelude.v ===== *)
(** * ndiscord_backend: a verification development

    The repository is the backend of a chat platform in Go: guilds with roles
    and permissions, channels, messages, friendships and blocks, voice rooms,
    presence, uploads and accounts, served over gRPC and, through a gateway,
    over HTTP.  This library models the
    services under [src/internal/] as programs in a state-and-failure monad
    over an explicit world and proves what they guarantee; where the code does
    not guarantee what it means to, a theorem states what it does instead.

    ** How the program is put together

    A request passes the interceptors (rate limit, then authentication), a
    handler turns it into a call of a service, and the service runs
    statements on PostgreSQL (guilds, members, roles, channels, friendships,
    users, media), ScyllaDB (messages and what belongs to them) and Redis
    (tokens, one-time passwords, presence, voice rooms, rate counters),
    asks the permission layer, and publishes events on NATS subjects.  The
    HTTP gateway turns a URL and a body into the message of a method and
    calls the same chain.  The services reach each other through small Go
    interfaces.

    ** The files, and what they model

    - [Prelude]: Go errors ([error]), outcomes ([Ok], [Err], [Panic]), the
      monad [GoM] with its loops and its [?>] for wrapped errors, the
      [steps] relation of programs (what a program may do to its state) with
      the automation [steps_auto], and list, map and string lemmas.
    - [Store]: the world ([Db], [Cass], Redis keyspace, channel cache, bus,
      interaction counter) and the environment [Env] (clock, faults, fresh
      identifiers); [Realtime]: [shared/realtime/channel.go] and the payload
      records; [Queries]: the sqlc statements of [gen/db]; [Scylla]: the CQL
      statements of [gen/scylladb]; [Redis]: the commands and [strconv].
    - [Authz] and [AuthzFacts]: [shared/authz/client.go], the permission
      layer; [Wp] and [Wpm]: program logics for the services, over the
      PostgreSQL tables and over the message store and the bus.
    - [Guild], [GuildFacts]: [features/guild]; [User], [UserFacts]:
      [features/user]; [Channel], [ChannelFacts]: [features/channel].
    - [Mentions], [Message], [MessageFacts], [MessageStateFacts],
      [MessageReads]: [features/message] (Modules [MessageRepo] and
      [MessageService]).
    - [Middleware], [MiddlewareFacts]: [shared/middleware] (Modules [Auth]
      and [RateLimit]); [AuthService], [AuthServiceFacts]: [features/auth].
    - [Presence], [PresenceFacts]: [features/presence]; [Media],
      [MediaFacts]: [features/media]; [Voice], [VoiceFacts], [VoiceCalls]:
      [features/voice] (Modules [VoiceState], [VoiceService], [Webhook],
      [VoiceHandler]).
    - [Sync], [SyncFacts]: [features/sync]; [SqlSplit]:
      [shared/sqlutil/split.go].
    - [Rpc]: what the gRPC handlers share, and the logic [answers];
      [GuildApi], [GuildApiFacts]: [features/guild/handler.go] and the
      dispatch of the guild service; [UserApi], [UserApiFacts],
      [ChannelApi], [MessageApi], [MessageApiFacts]: the handlers of users,
      channels and messages.
    - [Stream], [StreamFacts]: [features/stream] (Modules [Resolver] and
      [StreamHandler]) and [MultiSubscribe] of [shared/realtime/nats.go]
      (Module [PubSub]).  An open stream runs over the list of things that
      happen while it is open ([action]): a message NATS brings to one of its
      subscriptions, or any change of the world made elsewhere.
    - [Gateway]: [internal/app/gateway.go] and [gateway_sse.go], and what the
      generated gateway files share (routes, the fields of a message and
      where they come from); [GatewayRoutes]: the routes, the request
      functions and the registrations of [gen/*/v1/*.pb.gw.go];
      [GatewayFacts]: what a URL may do.
    - [Reach]: sending and streaming put together.
    - [Threads], [ThreadsFacts]: the membership requests of
      [features/guild/service.go] once more, cut at their statements
      ([thread]), and the pools in which they interleave ([pool_step]); a
      thread that runs alone is the definition of [Guild].  [TokenThreads]:
      [RefreshToken] of [features/auth/service.go] likewise.
    - [Config]: [shared/config/config.go]; [HttpLog]:
      [shared/middleware/http.go]; [Init]: [cmd/init/main.go], which runs the
      migrations through [SqlSplit].
    A method of a service is the definition of the same name, its guards in
    the order of the code; [src/internal/features/guild/service.go]'s
    [KickMember] is [Guild.GuildService.KickMember].  A dependency that may
    be nil is a boolean or an option among the arguments.

    ** The groups of theorems

    - Permissions: [Check] answers [Authorized] and never errs on the
      permissive side; the channel check is the declarative precedence of
      overrides; nobody grants what he does not hold.
    - The guild endpoints: from the bearer token to the tables, who may do
      what; every call ends in a response or a status; what a denied caller
      is told.
    - Guilds: an invariant of ownership, membership and bans over all
      operations, and the exact outcome of joining and kicking.
    - Friendships: every operation refines an abstract state machine of the
      two users, and a block persists until its author lifts it.
    - Messages: what sending, editing and deleting write and publish; a
      listing is a window of the live messages; who may read.
    - Accounts: the gate in front of every method, tokens (round trip,
      rotation), passwords and codes, rate limits.
    - Presence, media, voice and sync: round trips through the stores, the
      rooms' state, what a response may reveal, and the compositions in which
      one service breaks another.
    - Streams: what a subscriber gets comes from the guilds and channels he
      may see, and where it does not: a stream keeps the subjects it opened
      with, replays what was cached, and signs its user off when it ends.
    - A message that is sent reaches every open stream of a guild member who
      may see the channel.
    - The REST surface: which URL is which method, that the variables of a
      path win over the body, that a REST call is authorised as the gRPC call
      is, and what the gateway loses (one method has no URL, callers share
      rate limits).
    - Interleavings: the owner of a guild stays a member whatever joins,
      leaves, kicks and bans interleave; a ban, the limit of an invite and a
      transfer of ownership do not survive a request that checked before them,
      and two refreshes spend one token.
    - The SQL splitter: termination and a round trip; the migrations: what is
      executed, in which order, and that no failure of a statement shows.
    - The configuration and the gateway's log: what a variable means that is
      missing or unreadable, and when the logged status is the one sent.

    ** The environment

    [faults] says for every interaction with a store whether it is answered,
    refused or executed with the reply lost; [fault_free] is the hypothesis
    of theorems about what happens when all answer.  [row_order] is the
    database's choice between two rows where a query without ORDER BY takes
    one.  The clock is a function
    of the interaction counter, in microseconds; CQL timestamps keep
    milliseconds. In the theorems of the services a request runs from its
    start to its end; [Threads] interleaves the membership requests of the
    guild service and the refresh of a token statement by statement, and a
    stream is interleaved with whole requests, once it is open. Code outside the repository is a class
    with the laws the code relies on, each with a concrete instance for the
    worked examples: [UuidText], [CqlTypes], [RedisServer]
    ([reference_redis]), [Jwt], [Bcrypt], [VoiceJson], [LiveKit],
    [NatsServer], [StreamJson], [GatewayRuntime]; object storage and the
    mailer are arguments.

    ** Bounds and fuel

    The loops over handles take ten attempts, as in the code
    ([maxHandleAttempts]); [split_loop] takes the length of the text as fuel,
    which [SplitStatements_terminates] shows to be enough.  Integers are [Z]
    with [int32] and [int64] conversions written out where the code
    converts.

    ** Idealisations

    UUIDs are positive numbers with a printer and one parser for all of the
    libraries' parsers (the law: parsing what was printed); rows of a query
    come in the order of the map unless the statement orders them (the one
    friendship row of a pair excepted, which [row_order] of the environment
    chooses), and Go's map iteration likewise; RFC 3339 texts are kept as instants; logging is
    left out; a pipeline is its commands in sequence; the presence and guild
    services are assumed to have their Redis and NATS clients;
    [strings.ToLower] and ILIKE are arguments of the searches, and
    [strings.ToUpper] and [time.ParseDuration] of [Init] and [Config]; status texts
    made of an error's text are kept as the format; the ORDER BY of
    [ListChannelOverrides] is left out; a message that arrives while a stream
    is still subscribing is left out, and so is the JSON text [null].

    ** Not modelled

    The NATS connection and the marshalling of what is published (a payload
    is appended to the bus), the application wiring, the OpenAPI document and
    the Swagger pages, logging, metrics, mail and client constructors, the
    rest of the generated code (marshalling, the clients of the services, the
    gateway's in-process twins, which nothing calls), and the statements
    nothing calls: I/O, glue or generated code.  Interleavings of the
    services other than the guild service's membership requests and the
    refresh of a token. *)

From Stdlib Require Export ZArith Lia Ascii String.
From stdpp Require Export base tactics option list sorting strings gmap.

Declare Scope go_scope.
Delimit Scope go_scope with go.

(** ** Go errors

    Every package-level [errors.New] sentinel is a [Sentinel] tagged with the
    variable that holds it: Go compares sentinels by pointer, so two variables
    are never equal even when their texts are.  [Errorf] is [fmt.Errorf]
    without a [%w] verb, [ErrorfW] is [fmt.Errorf] with one.  [Driver] is an
    error handed back by pgx, gocql or go-redis, [Status] a gRPC status. *)
Inductive driver_error :=
  | NoRows | UniqueViolation | ForeignKeyViolation | CheckViolation
  | NotNullViolation | NumericOutOfRange | InvalidRowCount | NotFound | InvalidRequest
  | RedisNil | WrongType | Unavailable.

(** The gRPC status codes the handlers and interceptors answer with. *)
Inductive code :=
  | InvalidArgument | NotFoundCode | AlreadyExists | PermissionDenied | ResourceExhausted
  | FailedPrecondition | Internal | UnavailableCode | Unauthenticated | Unimplemented.

Inductive error :=
  | Sentinel (var text : string)
  | Status (c : code) (msg : string)
  | Errorf (format : string)
  | ErrorfW (format : string) (wrapped : error)
  | Driver (reason : driver_error).

#[global] Instance driver_error_eq_dec : EqDecision driver_error.
Proof. solve_decision. Defined.
#[global] Instance code_eq_dec : EqDecision code.
Proof. solve_decision. Defined.
#[global] Instance error_eq_dec : EqDecision error.
Proof. solve_decision. Defined.

(** [errors.Is]: walk the [%w] chain. *)
Fixpoint errors_Is (e target : error) : bool :=
  bool_decide (e = target) ||
  match e with
  | ErrorfW _ e' => errors_Is e' target
  | _ => false
  end.

Lemma errors_Is_refl e : errors_Is e e = true.
Proof. destruct e; simpl; by rewrite bool_decide_eq_true_2. Qed.

Lemma errors_Is_wrap fmt e target :
  errors_Is e target = true → errors_Is (ErrorfW fmt e) target = true.
Proof. simpl. intros ->. apply orb_true_r. Qed.

(** ** The Go state monad

    A Go call runs against a state [S] and ends in a value, in an error
    value, or in a run-time panic (nil dereference); the state changes made
    before an error or a panic stay. *)
Inductive outcome (A : Type) :=
  | Ok (a : A)
  | Err (e : error)
  | Panic.
Arguments Ok {_} _. Arguments Err {_} _. Arguments Panic {_}.

Definition GoM (S A : Type) : Type := S → outcome A * S.

#[global] Instance gom_ret {S} : MRet (GoM S) := λ A a s, (Ok a, s).
#[global] Instance gom_bind {S} : MBind (GoM S) := λ A B k m s,
  match m s with
  | (Ok a, s') => k a s'
  | (Err e, s') => (Err e, s')
  | (Panic, s') => (Panic, s')
  end.

Section Combinators.
Context {S : Type}.

Definition fail {A} (e : error) : GoM S A := λ s, (Err e, s).
Definition go_panic {A} : GoM S A := λ s, (Panic, s).

(** [v, err := f()] with both results kept. *)
Definition try {A} (m : GoM S A) : GoM S (error + A) := λ s,
  match m s with
  | (Ok a, s') => (Ok (inr a), s')
  | (Err e, s') => (Ok (inl e), s')
  | (Panic, s') => (Panic, s')
  end.

(** [_ = f()] and [_, _ = f()]. *)
Definition ignore {A} (m : GoM S A) : GoM S unit := λ s,
  match m s with
  | (Panic, s') => (Panic, s')
  | (_, s') => (Ok tt, s')
  end.

(** [v, err := f(); if err != nil { return h(err) }]. *)
Definition on_err {A} (m : GoM S A) (h : error → error) : GoM S A := λ s,
  match m s with
  | (Err e, s') => (Err (h e), s')
  | r => r
  end.

(** [if !b { return e }]. *)
Definition ensure (b : bool) (e : error) : GoM S unit :=
  if b then mret tt else fail e.

(** [if b { ... }] with no value. *)
Definition when (b : bool) (m : GoM S unit) : GoM S unit :=
  if b then m else mret tt.

(** A dereference: nil panics. *)
Definition deref {A} (p : option A) : GoM S A :=
  match p with Some a => mret a | None => go_panic end.

(** A total read of the state. *)
Definition gets {A} (f : S → A) : GoM S A := λ s, (Ok (f s), s).
Definition modify (f : S → S) : GoM S unit := λ s, (Ok tt, f s).

(** [for _, x := range xs { body }]: an error or panic leaves the loop. *)
Fixpoint for_each {A} (xs : list A) (body : A → GoM S unit) : GoM S unit :=
  match xs with
  | [] => mret tt
  | x :: xs => body x ≫= λ _, for_each xs body
  end.

(** A loop that threads an accumulator. *)
Fixpoint for_fold {A B} (xs : list A) (acc : B) (body : B → A → GoM S B) : GoM S B :=
  match xs with
  | [] => mret acc
  | x :: xs => body acc x ≫= λ acc', for_fold xs acc' body
  end.
End Combinators.

Notation "m '?>' h" := (on_err m h) (at level 61, left associativity) : go_scope.
Open Scope go_scope.

(** A run is known once its outcome is. *)
Lemma run_fst {S A} (m : GoM S A) s o : (m s).1 = o → m s = (o, (m s).2).
Proof. destruct (m s); simpl; congruence. Qed.

(** ** Inversion of successful runs *)
Section Inversion.
Context {S : Type}.
Implicit Types s : S.

Lemma ret_inv {A} (a : A) s o s' :
  (mret a : GoM S A) s = (o, s') → o = Ok a ∧ s' = s.
Proof. by injection 1 as <- <-. Qed.

Lemma bind_Ok_inv {A B} (m : GoM S A) (k : A → GoM S B) s b s' :
  (m ≫= k) s = (Ok b, s') → ∃ a s1, m s = (Ok a, s1) ∧ k a s1 = (Ok b, s').
Proof.
  unfold mbind, gom_bind. destruct (m s) as [[a|e|] s1] eqn:E; [|done..].
  intros H. by exists a, s1.
Qed.

Lemma try_Ok_inv {A} (m : GoM S A) s r s' :
  try m s = (Ok r, s') →
  match r with
  | inr a => m s = (Ok a, s')
  | inl e => m s = (Err e, s')
  end.
Proof. unfold try. destruct (m s) as [[a|e|] s1]; by intros [= <- <-]. Qed.

Lemma ignore_Ok_inv {A} (m : GoM S A) s u s' :
  ignore m s = (Ok u, s') → (∃ a, m s = (Ok a, s')) ∨ (∃ e, m s = (Err e, s')).
Proof. unfold ignore. destruct (m s) as [[a|e|] s1]; intros H; simplify_eq; eauto. Qed.

Lemma on_err_Ok_inv {A} (m : GoM S A) h s a s' :
  (m ?> h) s = (Ok a, s') → m s = (Ok a, s').
Proof. unfold on_err. by destruct (m s) as [[?|?|] ?]. Qed.

Lemma ensure_Ok_inv b e s u s' :
  (ensure b e : GoM S unit) s = (Ok u, s') → b = true ∧ s' = s.
Proof. unfold ensure, fail, mret, gom_ret. destruct b; intros H; by simplify_eq. Qed.

Lemma fail_Ok_inv {A} e s (a : A) s' : (fail e : GoM S A) s = (Ok a, s') → False.
Proof. done. Qed.

Lemma deref_Ok_inv {A} (p : option A) s a s' :
  (deref p : GoM S A) s = (Ok a, s') → p = Some a ∧ s' = s.
Proof. unfold deref, go_panic, mret, gom_ret. destruct p; intros H; by simplify_eq. Qed.

Lemma gets_inv {A} (f : S → A) s o s' :
  gets f s = (o, s') → o = Ok (f s) ∧ s' = s.
Proof. by injection 1 as <- <-. Qed.

Lemma bind_ret_l {A B} (a : A) (k : A → GoM S B) : (mret a ≫= k) = k a.
Proof. done. Qed.

(** Runs of a sequence from runs of its parts. *)
Lemma bind_run {A B} (m : GoM S A) (k : A → GoM S B) s a s' :
  m s = (Ok a, s') → (m ≫= k) s = k a s'.
Proof. intros E. unfold mbind, gom_bind. by rewrite E. Qed.
Lemma bind_Err {A B} (m : GoM S A) (k : A → GoM S B) s e s' :
  m s = (Err e, s') → (m ≫= k) s = (Err e, s').
Proof. intros E. unfold mbind, gom_bind. by rewrite E. Qed.
Lemma on_err_Err {A} (m : GoM S A) h s e s' :
  m s = (Err e, s') → (m ?> h) s = (Err (h e), s').
Proof. intros E. unfold on_err. by rewrite E. Qed.
End Inversion.

(** [go_inv H] unwinds a successful run [H : m s = (Ok _, _)] into the
    successful runs of its parts. *)
Ltac go_inv H :=
  repeat match type of H with
  | (mbind _ _) _ = (Ok _, _) =>
      let a := fresh "a" in let s1 := fresh "w" in let H1 := fresh "R" in
      apply bind_Ok_inv in H as (a & s1 & H1 & H); go_inv H1
  | (mret _) _ = (_, _) => apply ret_inv in H as [H ->]; simplify_eq
  | try _ _ = (Ok _, _) => apply try_Ok_inv in H
  | (on_err _ _) _ = (Ok _, _) => apply on_err_Ok_inv in H
  | ensure _ _ _ = (Ok _, _) => apply ensure_Ok_inv in H as [H ->]
  | fail _ _ = (Ok _, _) => destruct (fail_Ok_inv _ _ _ _ H)
  | deref _ _ = (Ok _, _) => apply deref_Ok_inv in H as [H ->]
  | gets _ _ = (_, _) => apply gets_inv in H as [H ->]; simplify_eq
  end.

(** ** What every run of a program does to the state

    [steps R m]: whatever the outcome, the final state is [R]-related to the
    initial one.  With [R] a preorder this composes over every combinator, so
    an invariant ([inv_rel I]) or a frame condition ([same f]) of a whole
    handler follows from its primitive statements. *)
Definition steps {S A} (R : relation S) (m : GoM S A) : Prop :=
  ∀ s, R s (m s).2.

Definition inv_rel {S} (I : S → Prop) : relation S := λ s s', I s → I s'.
Definition same {S T} (f : S → T) : relation S := λ s s', f s' = f s.

#[global] Instance inv_rel_preorder {S} (I : S → Prop) : PreOrder (inv_rel I).
Proof. split; unfold inv_rel; intro; intros; auto. Qed.
#[global] Instance same_preorder {S T} (f : S → T) : PreOrder (same f).
Proof. split; unfold same; [done|]. intros ???. congruence. Qed.

Section Steps.
Context {S : Type} (R : relation S) `{!PreOrder R}.

Lemma steps_ret {A} (a : A) : steps R (mret a : GoM S A).
Proof. intros s. apply (@reflexivity _ R _). Qed.
Lemma steps_fail {A} e : steps R (fail e : GoM S A).
Proof. intros s. apply (@reflexivity _ R _). Qed.
Lemma steps_panic {A} : steps R (go_panic : GoM S A).
Proof. intros s. apply (@reflexivity _ R _). Qed.
Lemma steps_gets {A} (f : S → A) : steps R (gets f).
Proof. intros s. apply (@reflexivity _ R _). Qed.
Lemma steps_bind {A B} (m : GoM S A) (k : A → GoM S B) :
  steps R m → (∀ a, steps R (k a)) → steps R (m ≫= k).
Proof.
  intros Hm Hk s. specialize (Hm s). unfold mbind, gom_bind.
  destruct (m s) as [[a|e|] s1]; simpl in *; [|done..].
  etrans; [exact Hm|apply Hk].
Qed.
Lemma steps_try {A} (m : GoM S A) : steps R m → steps R (try m).
Proof. intros Hm s. specialize (Hm s). unfold try. by destruct (m s) as [[?|?|] ?]. Qed.
Lemma steps_ignore {A} (m : GoM S A) : steps R m → steps R (ignore m).
Proof. intros Hm s. specialize (Hm s). unfold ignore. by destruct (m s) as [[?|?|] ?]. Qed.
Lemma steps_on_err {A} (m : GoM S A) h : steps R m → steps R (m ?> h).
Proof. intros Hm s. specialize (Hm s). unfold on_err. by destruct (m s) as [[?|?|] ?]. Qed.
Lemma steps_ensure b e : steps R (ensure b e).
Proof. destruct b; [apply steps_ret|apply steps_fail]. Qed.
Lemma steps_when b m : steps R m → steps R (when b m).
Proof. destruct b; [done|]. intros _. apply steps_ret. Qed.
Lemma steps_deref {A} (p : option A) : steps R (deref p).
Proof. destruct p; [apply steps_ret|apply steps_panic]. Qed.
Lemma steps_for_each {A} (xs : list A) body :
  (∀ x, steps R (body x)) → steps R (for_each xs body).
Proof.
  intros Hb. induction xs as [|x xs IH]; [apply steps_ret|].
  apply steps_bind; auto.
Qed.
Lemma steps_for_fold {A B} (xs : list A) (body : B → A → GoM S B) acc :
  (∀ b x, steps R (body b x)) → steps R (for_fold xs acc body).
Proof.
  intros Hb. revert acc. induction xs as [|x xs IH]; intros acc; [apply steps_ret|].
  apply steps_bind; auto.
Qed.
Lemma steps_Ok {A} (m : GoM S A) s o s' : steps R m → m s = (o, s') → R s s'.
Proof. intros Hm E. specialize (Hm s). by rewrite E in Hm. Qed.
End Steps.

Create HintDb steps.
Create HintDb go.
Create HintDb reflect.
#[export] Hint Resolve steps_ret steps_fail steps_panic steps_gets steps_try steps_ignore
  steps_on_err steps_ensure steps_when steps_deref : steps.

(** [steps_auto] walks a program along its binds and case distinctions and
    closes the leaves with the lemmas of the [steps] database. *)
Ltac steps_step :=
  first
    [ solve [eauto 3 with steps typeclass_instances]
    | match goal with |- ∀ _, _ => intro end
    | apply steps_bind; [apply _| |]
    | apply steps_try | apply steps_ignore | apply steps_on_err
    | apply steps_when; [apply _| ..]
    | apply steps_for_each; [apply _| ..] | apply steps_for_fold; [apply _| ..]
    | progress cbv zeta
    | match goal with
      | |- steps _ (match ?x with _ => _ end) => destruct x
      end ].
Ltac steps_auto := repeat steps_step.

(** The constant at the head of an application. *)
Ltac head_of t := match t with ?f _ => head_of f | _ => t end.

(** ** Strings *)

Fixpoint strip_prefix (pre s : string) : option string :=
  match pre, s with
  | EmptyString, _ => Some s
  | String c pre, String d s => if Ascii.eqb c d then strip_prefix pre s else None
  | String _ _, EmptyString => None
  end.

(** [strings.HasPrefix] and [strings.TrimPrefix]. *)
Definition HasPrefix (s pre : string) : bool := bool_decide (is_Some (strip_prefix pre s)).
Definition TrimPrefix (s pre : string) : string := default s (strip_prefix pre s).

Lemma strip_prefix_app pre s : strip_prefix pre (pre +:+ s) = Some s.
Proof.
  induction pre as [|c pre IH]; [done|].
  change (String c pre +:+ s)%string with (String c (pre +:+ s)).
  cbn [strip_prefix]. rewrite Ascii.eqb_refl. apply IH.
Qed.

Lemma TrimPrefix_app pre s : TrimPrefix (pre +:+ s) pre = s.
Proof. unfold TrimPrefix. by rewrite strip_prefix_app. Qed.
#[export] Hint Rewrite TrimPrefix_app : go.

Definition string_eqb (s t : string) : bool := bool_decide (s = t).

(** A Go [map[string]string] literal that is never written after init. *)
Fixpoint assoc {V} (k : string) (l : list (string * V)) : option V :=
  match l with
  | [] => None
  | (k', v) :: l => if string_eqb k k' then Some v else assoc k l
  end.

Lemma assoc_elem_of {V} k (v : V) l : assoc k l = Some v → (k, v) ∈ l.
Proof.
  induction l as [|[k' v'] l IH]; simpl; [done|].
  unfold string_eqb. case_bool_decide; intros; simplify_eq; [left|right; auto].
Qed.

(** ** Machine integers *)
Definition wrap_signed (bits : Z) (z : Z) : Z :=
  ((z + 2 ^ (bits - 1)) `mod` 2 ^ bits - 2 ^ (bits - 1))%Z.
Definition int32 : Z → Z := wrap_signed 32.
Definition max_int32 : Z := 2147483647%Z.

Lemma int32_range z : (- 2 ^ 31 ≤ int32 z < 2 ^ 31)%Z.
Proof.
  unfold int32, wrap_signed. change (2 ^ (32 - 1))%Z with 2147483648%Z.
  change (2 ^ 32)%Z with 4294967296%Z. change (2 ^ 31)%Z with 2147483648%Z.
  pose proof (Z.mod_pos_bound (z + 2147483648) 4294967296) as H. lia.
Qed.
Lemma int32_id z : (- 2 ^ 31 ≤ z < 2 ^ 31)%Z → int32 z = z.
Proof.
  change (2 ^ 31)%Z with 2147483648%Z. intros H. unfold int32, wrap_signed.
  change (2 ^ (32 - 1))%Z with 2147483648%Z. change (2 ^ 32)%Z with 4294967296%Z.
  rewrite Z.mod_small; lia.
Qed.

(** ** Decidable existentials over tables *)
Section Tables.
Context {K V : Type} `{Countable K}.
Implicit Types m : gmap K V.

(** [EXISTS (SELECT 1 FROM m WHERE P)]. *)
Definition map_existsb (P : K → V → bool) m : bool :=
  existsb (uncurry P) (map_to_list m).

Lemma map_existsb_true P m :
  map_existsb P m = true ↔ ∃ k v, m !! k = Some v ∧ P k v = true.
Proof.
  unfold map_existsb. rewrite existsb_exists. split.
  - intros ([k v] & Hin%list_elem_of_In & HP). apply elem_of_map_to_list in Hin. eauto.
  - intros (k & v & Hk & HP). exists (k, v). split; [|done].
    apply list_elem_of_In, elem_of_map_to_list, Hk.
Qed.

(** [SELECT * FROM m WHERE P], in the order of the map. *)
Definition rows (P : K → V → bool) m : list V :=
  (filter (λ kv, P kv.1 kv.2 = true) (map_to_list m)).*2.

Lemma elem_of_rows P m v : v ∈ rows P m ↔ ∃ k, m !! k = Some v ∧ P k v = true.
Proof.
  unfold rows. rewrite list_elem_of_fmap. split.
  - intros ([k v'] & -> & [HP Hin]%list_elem_of_filter).
    apply elem_of_map_to_list in Hin. eauto.
  - intros (k & Hk & HP). exists (k, v). split; [done|].
    apply list_elem_of_filter. split; [done|]. by apply elem_of_map_to_list.
Qed.

(** A decidable property of every row, checked by computation. *)
Lemma map_check (P : K → V → bool) m :
  forallb (λ kv, P kv.1 kv.2) (map_to_list m) = true → ∀ k v, m !! k = Some v → P k v = true.
Proof.
  intros HP k v Hk. rewrite forallb_forall in HP.
  apply (HP (k, v)), list_elem_of_In, elem_of_map_to_list, Hk.
Qed.

Lemma map_existsb_false P m :
  map_existsb P m = false ↔ ∀ k v, m !! k = Some v → P k v = false.
Proof.
  rewrite <- not_true_iff_false, map_existsb_true. split.
  - intros Hn k v Hk. destruct (P k v) eqn:E; [|done]. exfalso. eauto.
  - intros Hall (k & v & Hk & HP). rewrite (Hall _ _ Hk) in HP. done.
Qed.
End Tables.

Ltac check_rows P :=
  let k := fresh "k" in let v := fresh "v" in let Hv := fresh "Hv" in
  intros k v Hv;
  refine (bool_decide_eq_true_1 _ (map_check P _ _ k v Hv)); vm_compute; reflexivity.

(** [assoc] on a list without repeated keys is membership. *)
Lemma assoc_NoDup {V} (l : list (string * V)) k v :
  NoDup l.*1 → assoc k l = Some v ↔ (k, v) ∈ l.
Proof.
  intros Hnd. split; [apply assoc_elem_of|].
  induction l as [|[k' v'] l IH]; simpl in *; [by intros ?%not_elem_of_nil|].
  apply NoDup_cons in Hnd as [Hk Hnd]. intros [[= -> ->]|Hin]%elem_of_cons.
  - unfold string_eqb. by rewrite bool_decide_eq_true_2.
  - unfold string_eqb. rewrite bool_decide_eq_false_2; [by auto|].
    intros ->. apply Hk. apply list_elem_of_fmap. by exists (k', v).
Qed.

Lemma bool_true_iff (a b : bool) : (a = true ↔ b = true) → a = b.
Proof. destruct a, b; naive_solver. Qed.

(** A partial map that is injective on the elements of a list keeps it free of
    repetitions. *)
Lemma NoDup_omap_inj {A B} (f : A → option B) l :
  (∀ x y z, x ∈ l → y ∈ l → f x = Some z → f y = Some z → x = y) → NoDup l → NoDup (omap f l).
Proof.
  intros Hinj. induction 1 as [|x l Hx Hl IH]; simpl; [constructor|].
  assert (NoDup (omap f l)) by (apply IH; intros; eapply Hinj; eauto using list_elem_of_further).
  destruct (f x) as [y|] eqn:E; [|done]. constructor; [|done].
  intros (x' & Hx' & E')%list_elem_of_omap. apply Hx.
  by rewrite (Hinj x x' y); [|left|right| |].
Qed.

Lemma length_omap_le {A B} (f : A → option B) l : length (omap f l) ≤ length l.
Proof.
  induction l as [|x l IH]; [done|]. change (length (x :: l)) with (S (length l)).
  simpl. destruct (f x); simpl; lia || (unfold omap in IH; lia).
Qed.

(** A run that is known to succeed. *)
Definition is_Ok {A} (o : outcome A) : bool := match o with Ok _ => true | _ => false end.
Lemma run_Ok {S A} (m : GoM S A) s : is_Ok (m s).1 = true → ∃ a, m s = (Ok a, (m s).2).
Proof. destruct (m s) as [[a|e|] s']; [|done..]. by exists a. Qed.
