(* ===== verification/Realtime.v ===== *)
(** * Realtime: NATS subjects and the payloads published on them

    Models [src/internal/shared/realtime/channel.go] (the subject builders)
    and the fields of the stream messages ([streamv1]) that the services fill
    in before they call [realtime.Publish]. *)
From S2P Require Import Prelude.

(** ** Subjects (channel.go) *)
Definition GuildChannelMessage (guildID channelID : string) : string :=
  "guild." +:+ guildID +:+ ".channel.message." +:+ channelID.
Definition GuildChannelTyping (guildID channelID : string) : string :=
  "guild." +:+ guildID +:+ ".channel.typing." +:+ channelID.
Definition GuildChannelVoice (guildID channelID : string) : string :=
  "guild." +:+ guildID +:+ ".channel.voice." +:+ channelID.
Definition GuildChannelVoiceChat (guildID channelID : string) : string :=
  "guild." +:+ guildID +:+ ".channel.voicechat." +:+ channelID.
Definition GuildEvents (guildID : string) : string := "guild." +:+ guildID +:+ ".events".
Definition DmMessage (userID channelID : string) : string :=
  "dm." +:+ userID +:+ ".message." +:+ channelID.
Definition DmChannels (userID : string) : string := "dm." +:+ userID +:+ ".channels".
Definition DmCall (userID : string) : string := "dm." +:+ userID +:+ ".call".
Definition DmTyping (userID channelID : string) : string :=
  "dm." +:+ userID +:+ ".typing." +:+ channelID.
Definition FriendActivity (userID : string) : string := "friend." +:+ userID +:+ ".activity".

(** *** Wildcard subjects, which the streams subscribe to *)
Definition GuildAllMessages (guildID : string) : string :=
  "guild." +:+ guildID +:+ ".channel.message.*".
Definition GuildAllTyping (guildID : string) : string :=
  "guild." +:+ guildID +:+ ".channel.typing.*".
Definition GuildAllVoice (guildID : string) : string :=
  "guild." +:+ guildID +:+ ".channel.voice.*".
Definition GuildAllVoiceChat (guildID : string) : string :=
  "guild." +:+ guildID +:+ ".channel.voicechat.*".
Definition DmAllMessages (userID : string) : string := "dm." +:+ userID +:+ ".message.*".
Definition DmAllTyping (userID : string) : string := "dm." +:+ userID +:+ ".typing.*".

(** ** Enumerations of the stream protocol *)
Inductive GuildEventType :=
  | GUILD_EVENT_UNSPECIFIED | GUILD_EVENT_MEMBER_ADD | GUILD_EVENT_MEMBER_REMOVE
  | GUILD_EVENT_MEMBER_BAN | GUILD_EVENT_MEMBER_UNBAN | GUILD_EVENT_UPDATE
  | GUILD_EVENT_DELETE | GUILD_EVENT_ROLE_CREATE | GUILD_EVENT_ROLE_UPDATE
  | GUILD_EVENT_ROLE_DELETE | GUILD_EVENT_ROLE_ASSIGN | GUILD_EVENT_ROLE_REMOVE
  | GUILD_EVENT_CHANNEL_CREATE | GUILD_EVENT_CHANNEL_UPDATE | GUILD_EVENT_CHANNEL_DELETE.
Inductive ChannelLifecycleType :=
  | CHANNEL_LIFECYCLE_UNSPECIFIED | CHANNEL_LIFECYCLE_CREATE
  | CHANNEL_LIFECYCLE_UPDATE | CHANNEL_LIFECYCLE_DELETE.
Inductive FriendEventType :=
  | FRIEND_EVENT_UNSPECIFIED | FRIEND_EVENT_PRESENCE_UPDATE | FRIEND_EVENT_PROFILE_UPDATE
  | FRIEND_EVENT_REQUEST | FRIEND_EVENT_ACCEPTED | FRIEND_EVENT_DECLINED
  | FRIEND_EVENT_REMOVED | FRIEND_EVENT_REQUEST_CANCELLED.
Inductive PresenceStatus :=
  | PRESENCE_STATUS_UNSPECIFIED | PRESENCE_STATUS_ONLINE | PRESENCE_STATUS_IDLE
  | PRESENCE_STATUS_DND | PRESENCE_STATUS_OFFLINE.
Inductive ChatEventType :=
  | CHAT_EVENT_UNSPECIFIED | CHAT_EVENT_CREATE | CHAT_EVENT_UPDATE | CHAT_EVENT_DELETE
  | CHAT_EVENT_PIN | CHAT_EVENT_UNPIN | CHAT_EVENT_REACTION_ADD
  | CHAT_EVENT_REACTION_REMOVE | CHAT_EVENT_READ_RECEIPT.

#[global] Instance GuildEventType_eq_dec : EqDecision GuildEventType.
Proof. solve_decision. Defined.
#[global] Instance ChannelLifecycleType_eq_dec : EqDecision ChannelLifecycleType.
Proof. solve_decision. Defined.
#[global] Instance ChatEventType_eq_dec : EqDecision ChatEventType.
Proof. solve_decision. Defined.

(** ** Payloads.  Fields left at their protobuf zero value are [""], [0], []. *)
Record GuildEvent := {
  ge_event : GuildEventType; ge_action : GuildEventType; ge_guild_id : string;
  ge_user_id : string; ge_channel_id : string; ge_name : string;
  ge_icon_url : string; ge_banner_url : string; ge_role_id : string;
  ge_reason : string; ge_parent_id : string; ge_topic : string;
  ge_type : Z; ge_position : Z; ge_role_name : string; ge_role_color : string;
  ge_role_position : Z; ge_role_permissions : list string
}.

Record DmChannelMemberPb := {
  dcm_id : string; dcm_username : string; dcm_display_name : string;
  dcm_avatar_url : string; dcm_status : string
}.
Record DmChannelEvent := {
  dce_type : ChannelLifecycleType; dce_id : string; dce_name : string;
  dce_channel_type : Z; dce_members : list DmChannelMemberPb
}.

Record FriendActivityEvent := {
  fae_event : FriendEventType; fae_user_id : string; fae_username : string;
  fae_display_name : string; fae_status : PresenceStatus; fae_custom_status : string;
  fae_avatar_url : string; fae_channel_id : string; fae_timestamp : option Z
}.

Record ChatReactionCount := {
  crc_user : list string; crc_emoji : string; crc_count : Z; crc_me : bool
}.
Record ChatAttachment := {
  ca_id : string; ca_filename : string; ca_url : string; ca_content_type : string; ca_size : Z
}.
Record ChatForwardedReference := {
  cfr_channel_id : string; cfr_message_id : string; cfr_author_id : string
}.
Record TextChannelEvent := {
  tce_type : ChatEventType; tce_guild_id : string; tce_channel_id : string;
  tce_message_id : string; tce_author_id : string; tce_sender_id : string;
  tce_content : string; tce_msg_type : Z; tce_pinned : bool; tce_deleted : bool;
  tce_emoji : string; tce_reply_to_id : string; tce_edited_at : option Z;
  tce_created_at : option Z; tce_attachments : list ChatAttachment;
  tce_mention_user_ids : list string; tce_reactions : list ChatReactionCount;
  tce_forwarded_from : option ChatForwardedReference
}.

(** [DmChatEvent] and [VoiceChatEvent], which only the streams name. *)
Record DmChatEvent := {
  dme_type : ChatEventType; dme_channel_id : string; dme_message_id : string;
  dme_sender_id : string; dme_author_id : string; dme_content : string;
  dme_timestamp : option Z; dme_reply_to_id : string;
  dme_attachments : list ChatAttachment; dme_msg_type : Z; dme_pinned : bool;
  dme_deleted : bool; dme_emoji : string; dme_edited_at : option Z;
  dme_created_at : option Z; dme_mention_user_ids : list string;
  dme_reactions : list ChatReactionCount;
  dme_forwarded_from : option ChatForwardedReference
}.
Record VoiceChatEvent := {
  vce_type : ChatEventType; vce_guild_id : string; vce_channel_id : string;
  vce_message_id : string; vce_author_id : string; vce_content : string;
  vce_timestamp : option Z; vce_sender_id : string; vce_reply_to_id : string;
  vce_attachments : list ChatAttachment; vce_msg_type : Z; vce_pinned : bool;
  vce_deleted : bool; vce_emoji : string; vce_edited_at : option Z;
  vce_created_at : option Z; vce_mention_user_ids : list string;
  vce_reactions : list ChatReactionCount;
  vce_forwarded_from : option ChatForwardedReference
}.

Record TypingEvent := {
  te_channel_id : string; te_guild_id : string; te_user_id : string;
  te_username : string; te_timestamp : Z
}.

(** Voice: [VoiceStateEvent] and [DmCallEvent]. *)
Inductive VoiceAction :=
  | VOICE_ACTION_UNSPECIFIED | VOICE_ACTION_JOIN | VOICE_ACTION_LEAVE
  | VOICE_ACTION_PARTICIPANT_JOINED | VOICE_ACTION_PARTICIPANT_LEFT
  | VOICE_ACTION_TRACK_UPDATE | VOICE_ACTION_STATE_SYNC | VOICE_ACTION_STATE_UPDATE
  | VOICE_ACTION_ROOM_STARTED | VOICE_ACTION_ROOM_FINISHED.
Inductive VoiceTrackType :=
  | VOICE_TRACK_UNSPECIFIED | VOICE_TRACK_AUDIO | VOICE_TRACK_VIDEO | VOICE_TRACK_SCREEN_SHARE.
Inductive VoiceEvent := VOICE_EVENT_UNSPECIFIED | VOICE_EVENT_STATE_UPDATE.
Inductive DmCallType :=
  | DM_CALL_UNSPECIFIED | DM_CALL_INCOMING | DM_CALL_ACCEPTED | DM_CALL_REJECTED
  | DM_CALL_ENDED | DM_CALL_PARTICIPANT_LEFT.
Record VoiceStateEvent := {
  vse_event : VoiceEvent; vse_guild_id : string; vse_channel_id : string; vse_user_id : string;
  vse_self_mute : bool; vse_self_deaf : bool; vse_video : bool; vse_streaming : bool;
  vse_timestamp : option Z; vse_action : VoiceAction; vse_sid : string; vse_name : string;
  vse_metadata : string; vse_track_type : VoiceTrackType; vse_published : bool;
  vse_room_active_since : Z
}.
Record DmCallEvent := {
  dc_type : DmCallType; dc_channel_id : string; dc_caller_id : string;
  dc_participant_id : string; dc_video : bool; dc_timestamp : option Z
}.

Inductive event :=
  | EvGuild (e : GuildEvent)
  | EvDmChannel (e : DmChannelEvent)
  | EvFriend (e : FriendActivityEvent)
  | EvText (e : TextChannelEvent)
  | EvTyping (e : TypingEvent)
  | EvVoice (e : VoiceStateEvent)
  | EvDmCall (e : DmCallEvent).

(** A [GuildEvent] with only the routing fields set. *)
Definition guild_event (t : GuildEventType) (guildID : string) : GuildEvent :=
  {| ge_event := t; ge_action := t; ge_guild_id := guildID; ge_user_id := "";
     ge_channel_id := ""; ge_name := ""; ge_icon_url := ""; ge_banner_url := "";
     ge_role_id := ""; ge_reason := ""; ge_parent_id := ""; ge_topic := "";
     ge_type := 0%Z; ge_position := 0%Z; ge_role_name := ""; ge_role_color := "";
     ge_role_position := 0%Z; ge_role_permissions := [] |}.
