(* ===== verification/Store.v ===== *)
(** * Store: the state every service works on

    The PostgreSQL tables ([src/gen/db/models.go], schema in
    [src/db/timescale/migrations/]), the ScyllaDB tables
    ([src/gen/scylladb/models.go]), the Redis keys, the NATS connection and the
    in-process channel cache, with the primitive calls the repositories make
    on them.

    A table is a finite map from its primary key.  Identifiers ([UUID],
    [TIMEUUID]) are positive numbers, of which the code only uses equality and,
    for TIMEUUIDs, the clustering order.  Times are microseconds in [Z]. *)
From S2P Require Import Prelude Realtime.

Abbreviation uuid := positive (only parsing).
Abbreviation time := Z (only parsing).

(** ** Rows of gen/db/models.go *)
Record User := mkUser {
  u_id : uuid; u_username : string; u_email : string; u_password_hash : string;
  u_avatar_url : string; u_bio : string; u_status : string; u_created_at : time;
  u_updated_at : time; u_verified : bool; u_deleted : bool;
  u_background_color : string; u_display_name : string
}.
Record Friendship := mkFriendship {
  f_user_id : uuid; f_friend_id : uuid; f_status : string; f_created_at : time;
  f_deleted : bool; f_updated_at : time
}.
Record Guild := mkGuild {
  g_id : uuid; g_name : string; g_description : string; g_icon_url : string;
  g_owner_id : uuid; g_created_at : time; g_deleted : bool; g_updated_at : time;
  g_banner_url : string
}.
Record GuildMember := mkGuildMember {
  gm_guild_id : uuid; gm_user_id : uuid; gm_nickname : string; gm_joined_at : time;
  gm_deleted : bool; gm_updated_at : time; gm_invite_code : option string;
  gm_invited_by : option uuid
}.
Record Role := mkRole {
  r_id : uuid; r_guild_id : uuid; r_name : string; r_color : string; r_position : Z;
  r_created_at : time; r_deleted : bool; r_updated_at : time
}.
Record RoleMember := mkRoleMember {
  rm_role_id : uuid; rm_user_id : uuid; rm_deleted : bool; rm_updated_at : time
}.
Record Channel := mkChannel {
  c_id : uuid; c_guild_id : option uuid; c_name : string; c_type : Z; c_topic : string;
  c_position : Z; c_parent_id : option uuid; c_created_at : time; c_deleted : bool;
  c_updated_at : time
}.
Record DmChannelMember := mkDmChannelMember {
  dm_channel_id : uuid; dm_user_id : uuid; dm_deleted : bool; dm_updated_at : time
}.
Record Invite := mkInvite {
  i_code : string; i_guild_id : uuid; i_channel_id : uuid; i_creator_id : uuid;
  i_max_uses : Z; i_uses : Z; i_expires_at : option time; i_created_at : time;
  i_deleted : bool; i_updated_at : time
}.
Record InviteUse := mkInviteUse {
  iu_id : uuid; iu_invite_code : string; iu_guild_id : uuid; iu_user_id : uuid;
  iu_inviter_id : uuid; iu_used_at : time
}.
Record Ban := mkBan {
  b_guild_id : uuid; b_user_id : uuid; b_reason : string; b_created_at : time;
  b_deleted : bool; b_updated_at : time
}.
Record MediaFile := mkMediaFile {
  mf_id : uuid; mf_uploader_id : uuid; mf_filename : string; mf_content_type : string;
  mf_size : Z; mf_bucket_key : string; mf_confirmed : bool; mf_created_at : time;
  mf_deleted : bool; mf_updated_at : time
}.
Record Permission := mkPermission { p_id : Z; p_name : string }.
Record RolePermission := mkRolePermission {
  rp_role_id : uuid; rp_permission_id : Z; rp_created_at : time
}.
Record ChannelPermissionOverwrite := mkOverwrite {
  cpo_channel_id : uuid; cpo_target_type : string; cpo_target_id : uuid;
  cpo_permission_id : Z; cpo_effect : string; cpo_created_at : time
}.

(** ** Rows of gen/scylladb/models.go: every column is nullable *)
Record Messages := mkMessages {
  m_channel_id : option uuid; m_id : option uuid; m_author_id : option uuid;
  m_content : option string; m_type : option Z; m_reply_to_id : option uuid;
  m_pinned : option bool; m_deleted : option bool; m_edited_at : option time;
  m_updated_at : option time; m_created_at : option time;
  m_forwarded_from_channel_id : option uuid; m_forwarded_from_message_id : option uuid;
  m_forwarded_from_author_id : option uuid; m_mention_user_ids : option (list uuid)
}.
Record MessageAttachments := mkMessageAttachments {
  ma_channel_id : option uuid; ma_message_id : option uuid; ma_id : option uuid;
  ma_filename : option string; ma_url : option string; ma_content_type : option string;
  ma_size : option Z
}.
Record MessageReactions := mkMessageReactions {
  mr_channel_id : option uuid; mr_message_id : option uuid; mr_emoji : option string;
  mr_user_id : option uuid
}.
Record ReadStates := mkReadStates {
  rs_user_id : option uuid; rs_channel_id : option uuid;
  rs_last_read_message_id : option uuid; rs_mention_count : option Z
}.
Record MessageEditHistory := mkMessageEditHistory {
  mh_channel_id : option uuid; mh_message_id : option uuid; mh_old_content : option string;
  mh_edited_at : option time
}.

(** ** The PostgreSQL database *)
Record Db := mkDb {
  users : gmap uuid User;
  friendships : gmap (uuid * uuid) Friendship;
  guilds : gmap uuid Guild;
  guild_members : gmap (uuid * uuid) GuildMember;
  roles : gmap uuid Role;
  role_members : gmap (uuid * uuid) RoleMember;
  channels : gmap uuid Channel;
  dm_channel_members : gmap (uuid * uuid) DmChannelMember;
  invites : gmap string Invite;
  invite_uses : gmap uuid InviteUse;
  bans : gmap (uuid * uuid) Ban;
  media_files : gmap uuid MediaFile;
  permissions : gmap Z Permission;
  role_permissions : gmap (uuid * Z) RolePermission;
  channel_permission_overwrites : gmap (uuid * string * uuid * Z) ChannelPermissionOverwrite
}.

Definition with_users (x : gmap uuid User) (d : Db) : Db :=
  mkDb x (d.(friendships)) (d.(guilds)) (d.(guild_members)) (d.(roles))
    (d.(role_members)) (d.(channels)) (d.(dm_channel_members)) (d.(invites))
    (d.(invite_uses)) (d.(bans)) (d.(media_files)) (d.(permissions))
    (d.(role_permissions)) (d.(channel_permission_overwrites)).
Definition with_friendships (x : gmap (uuid * uuid) Friendship) (d : Db) : Db :=
  mkDb (d.(users)) x (d.(guilds)) (d.(guild_members)) (d.(roles)) (d.(role_members))
    (d.(channels)) (d.(dm_channel_members)) (d.(invites)) (d.(invite_uses)) (d.(bans))
    (d.(media_files)) (d.(permissions)) (d.(role_permissions))
    (d.(channel_permission_overwrites)).
Definition with_guilds (x : gmap uuid Guild) (d : Db) : Db :=
  mkDb (d.(users)) (d.(friendships)) x (d.(guild_members)) (d.(roles))
    (d.(role_members)) (d.(channels)) (d.(dm_channel_members)) (d.(invites))
    (d.(invite_uses)) (d.(bans)) (d.(media_files)) (d.(permissions))
    (d.(role_permissions)) (d.(channel_permission_overwrites)).
Definition with_guild_members (x : gmap (uuid * uuid) GuildMember) (d : Db) : Db :=
  mkDb (d.(users)) (d.(friendships)) (d.(guilds)) x (d.(roles)) (d.(role_members))
    (d.(channels)) (d.(dm_channel_members)) (d.(invites)) (d.(invite_uses)) (d.(bans))
    (d.(media_files)) (d.(permissions)) (d.(role_permissions))
    (d.(channel_permission_overwrites)).
Definition with_roles (x : gmap uuid Role) (d : Db) : Db :=
  mkDb (d.(users)) (d.(friendships)) (d.(guilds)) (d.(guild_members)) x
    (d.(role_members)) (d.(channels)) (d.(dm_channel_members)) (d.(invites))
    (d.(invite_uses)) (d.(bans)) (d.(media_files)) (d.(permissions))
    (d.(role_permissions)) (d.(channel_permission_overwrites)).
Definition with_role_members (x : gmap (uuid * uuid) RoleMember) (d : Db) : Db :=
  mkDb (d.(users)) (d.(friendships)) (d.(guilds)) (d.(guild_members)) (d.(roles)) x
    (d.(channels)) (d.(dm_channel_members)) (d.(invites)) (d.(invite_uses)) (d.(bans))
    (d.(media_files)) (d.(permissions)) (d.(role_permissions))
    (d.(channel_permission_overwrites)).
Definition with_channels (x : gmap uuid Channel) (d : Db) : Db :=
  mkDb (d.(users)) (d.(friendships)) (d.(guilds)) (d.(guild_members)) (d.(roles))
    (d.(role_members)) x (d.(dm_channel_members)) (d.(invites)) (d.(invite_uses))
    (d.(bans)) (d.(media_files)) (d.(permissions)) (d.(role_permissions))
    (d.(channel_permission_overwrites)).
Definition with_dm_channel_members (x : gmap (uuid * uuid) DmChannelMember) (d : Db) : Db :=
  mkDb (d.(users)) (d.(friendships)) (d.(guilds)) (d.(guild_members)) (d.(roles))
    (d.(role_members)) (d.(channels)) x (d.(invites)) (d.(invite_uses)) (d.(bans))
    (d.(media_files)) (d.(permissions)) (d.(role_permissions))
    (d.(channel_permission_overwrites)).
Definition with_invites (x : gmap string Invite) (d : Db) : Db :=
  mkDb (d.(users)) (d.(friendships)) (d.(guilds)) (d.(guild_members)) (d.(roles))
    (d.(role_members)) (d.(channels)) (d.(dm_channel_members)) x (d.(invite_uses))
    (d.(bans)) (d.(media_files)) (d.(permissions)) (d.(role_permissions))
    (d.(channel_permission_overwrites)).
Definition with_invite_uses (x : gmap uuid InviteUse) (d : Db) : Db :=
  mkDb (d.(users)) (d.(friendships)) (d.(guilds)) (d.(guild_members)) (d.(roles))
    (d.(role_members)) (d.(channels)) (d.(dm_channel_members)) (d.(invites)) x
    (d.(bans)) (d.(media_files)) (d.(permissions)) (d.(role_permissions))
    (d.(channel_permission_overwrites)).
Definition with_bans (x : gmap (uuid * uuid) Ban) (d : Db) : Db :=
  mkDb (d.(users)) (d.(friendships)) (d.(guilds)) (d.(guild_members)) (d.(roles))
    (d.(role_members)) (d.(channels)) (d.(dm_channel_members)) (d.(invites))
    (d.(invite_uses)) x (d.(media_files)) (d.(permissions)) (d.(role_permissions))
    (d.(channel_permission_overwrites)).
Definition with_media_files (x : gmap uuid MediaFile) (d : Db) : Db :=
  mkDb (d.(users)) (d.(friendships)) (d.(guilds)) (d.(guild_members)) (d.(roles))
    (d.(role_members)) (d.(channels)) (d.(dm_channel_members)) (d.(invites))
    (d.(invite_uses)) (d.(bans)) x (d.(permissions)) (d.(role_permissions))
    (d.(channel_permission_overwrites)).
Definition with_permissions (x : gmap Z Permission) (d : Db) : Db :=
  mkDb (d.(users)) (d.(friendships)) (d.(guilds)) (d.(guild_members)) (d.(roles))
    (d.(role_members)) (d.(channels)) (d.(dm_channel_members)) (d.(invites))
    (d.(invite_uses)) (d.(bans)) (d.(media_files)) x (d.(role_permissions))
    (d.(channel_permission_overwrites)).
Definition with_role_permissions (x : gmap (uuid * Z) RolePermission) (d : Db) : Db :=
  mkDb (d.(users)) (d.(friendships)) (d.(guilds)) (d.(guild_members)) (d.(roles))
    (d.(role_members)) (d.(channels)) (d.(dm_channel_members)) (d.(invites))
    (d.(invite_uses)) (d.(bans)) (d.(media_files)) (d.(permissions)) x
    (d.(channel_permission_overwrites)).
Definition with_channel_permission_overwrites (x : gmap (uuid * string * uuid * Z) ChannelPermissionOverwrite) (d : Db) : Db :=
  mkDb (d.(users)) (d.(friendships)) (d.(guilds)) (d.(guild_members)) (d.(roles))
    (d.(role_members)) (d.(channels)) (d.(dm_channel_members)) (d.(invites))
    (d.(invite_uses)) (d.(bans)) (d.(media_files)) (d.(permissions))
    (d.(role_permissions)) x.

(** ** The ScyllaDB keyspace *)
Record Cass := mkCass {
  messages : gmap (uuid * uuid) Messages;
  message_attachments : gmap (uuid * uuid * uuid) MessageAttachments;
  message_reactions : gmap (uuid * uuid * string * uuid) MessageReactions;
  read_states : gmap (uuid * uuid) ReadStates;
  message_edit_history : gmap (uuid * uuid * time) MessageEditHistory
}.

Definition with_messages (x : gmap (uuid * uuid) Messages) (d : Cass) : Cass :=
  mkCass x (d.(message_attachments)) (d.(message_reactions)) (d.(read_states))
    (d.(message_edit_history)).
Definition with_message_attachments (x : gmap (uuid * uuid * uuid) MessageAttachments) (d : Cass) : Cass :=
  mkCass (d.(messages)) x (d.(message_reactions)) (d.(read_states))
    (d.(message_edit_history)).
Definition with_message_reactions (x : gmap (uuid * uuid * string * uuid) MessageReactions) (d : Cass) : Cass :=
  mkCass (d.(messages)) (d.(message_attachments)) x (d.(read_states))
    (d.(message_edit_history)).
Definition with_read_states (x : gmap (uuid * uuid) ReadStates) (d : Cass) : Cass :=
  mkCass (d.(messages)) (d.(message_attachments)) (d.(message_reactions)) x
    (d.(message_edit_history)).
Definition with_message_edit_history (x : gmap (uuid * uuid * time) MessageEditHistory) (d : Cass) : Cass :=
  mkCass (d.(messages)) (d.(message_attachments)) (d.(message_reactions))
    (d.(read_states)) x.

(** ** Redis: values with an optional expiry *)
Inductive redis_value :=
  | RString (s : string)
  | RHash (h : gmap string string).
Record redis_entry := mkRedisEntry { re_value : redis_value; re_expires : option time }.

(** One entry of [authz.Client.chanGuildCache]; [""] stands for a DM channel. *)
Record chanGuildEntry := mkChanGuildEntry { cge_guildID : string; cge_expiresAt : time }.

(** ** The world a request runs in *)
Record World := mkWorld {
  db : Db;
  cass : Cass;
  redis : gmap string redis_entry;
  chanGuildCache : gmap string chanGuildEntry;
  bus : list (string * event);
  tick : nat
}.

Definition with_db (d : Db) (w : World) : World :=
  mkWorld d w.(cass) w.(redis) w.(chanGuildCache) w.(bus) w.(tick).
Definition with_cass (c : Cass) (w : World) : World :=
  mkWorld w.(db) c w.(redis) w.(chanGuildCache) w.(bus) w.(tick).
Definition with_redis (r : gmap string redis_entry) (w : World) : World :=
  mkWorld w.(db) w.(cass) r w.(chanGuildCache) w.(bus) w.(tick).
Definition with_cache (c : gmap string chanGuildEntry) (w : World) : World :=
  mkWorld w.(db) w.(cass) w.(redis) c w.(bus) w.(tick).
Definition with_bus (b : list (string * event)) (w : World) : World :=
  mkWorld w.(db) w.(cass) w.(redis) w.(chanGuildCache) b w.(tick).
Definition bump (w : World) : World :=
  mkWorld w.(db) w.(cass) w.(redis) w.(chanGuildCache) w.(bus) (S w.(tick)).

(** ** What is outside the repository

    The environment answers, for every interaction in turn, what the clock
    reads, whether the statement is lost, and which identifier the generator
    returns.  [Refused] is a failure before the statement took effect,
    [ReplyLost] one after it was committed.  [row_order] is the database's
    choice between two rows that a statement without ORDER BY may return.
    [authz_wired] says whether the
    services were given an [*authz.Client] ([false]: a nil pointer). *)
Inductive fault := NoFault | Refused | ReplyLost.

Class Env := {
  clock : nat → time;
  faults : nat → fault;
  fresh : nat → uuid;
  row_order : nat → bool;
  authz_wired : bool
}.

(** The text form of a UUID (google/uuid, pgtype, gocql): printing is
    canonical and parsing inverts it; the empty string never parses. *)
Class UuidText := {
  uuid_print : uuid → string;
  uuid_parse : string → option uuid;
  uuid_parse_print : ∀ u, uuid_parse (uuid_print u) = Some u;
  uuid_parse_empty : uuid_parse "" = None
}.

Section UuidTextFacts.
Context `{!UuidText}.

Lemma uuid_print_nonempty u : uuid_print u ≠ "".
Proof. intros E. pose proof (uuid_parse_print u) as Hu. by rewrite E, uuid_parse_empty in Hu. Qed.

#[global] Instance uuid_print_inj : Inj (=) (=) uuid_print.
Proof.
  intros u v E. pose proof (uuid_parse_print u) as Hu.
  rewrite E, uuid_parse_print in Hu. by simplify_eq.
Qed.
End UuidTextFacts.

(** What the message store relies on about identifiers: [gocql.UUID{}] is a
    UUID of its own; a TIMEUUID column takes version 1 UUIDs only (the server
    refuses any other bound value), which [gocql.TimeUUID] generates and the
    zero UUID is not; TIMEUUIDs are totally ordered, by their rank. *)
Class CqlTypes := {
  zero_uuid : uuid;
  is_timeuuid : uuid → bool;
  timeuuid_rank : uuid → N;
  time_uuid : nat → uuid;
  timeuuid_rank_inj :: Inj (=) (=) timeuuid_rank;
  time_uuid_ok : ∀ n, is_timeuuid (time_uuid n) = true;
  zero_not_timeuuid : is_timeuuid zero_uuid = false
}.

(** No interaction fails. *)
Definition fault_free `{Env} : Prop := ∀ n, faults n = NoFault.

(** ** Primitive calls *)
Section Primitives.
Context `{Env}.

(** [time.Now()]. *)
Definition now : GoM World time := λ w, (Ok (clock w.(tick)), bump w).

(** A generated identifier ([uuid.New], [gocql.RandomUUID]). *)
Definition new_uuid : GoM World uuid := λ w, (Ok (fresh w.(tick)), bump w).

(** [gocql.TimeUUID()]. *)
Definition TimeUUID `{!CqlTypes} : GoM World uuid := λ w, (Ok (time_uuid w.(tick)), bump w).

(** [gocql.RandomUUID()], which reads the entropy source. *)
Definition RandomUUID : GoM World uuid := λ w,
  (match faults w.(tick) with
   | NoFault => Ok (fresh w.(tick))
   | _ => Err (Driver Unavailable)
   end, bump w).

(** [rand.Read(b)] with [len(b) = n]: arbitrary bytes of the environment, or the
    error of the entropy source. *)
Definition rand_Read (n : nat) : GoM World (list Z) := λ w,
  match faults w.(tick) with
  | NoFault =>
      (Ok ((λ i, Z.land (Z.shiftr (Zpos (fresh w.(tick))) (8 * Z.of_nat i)) 255) <$> seq 0 n),
       bump w)
  | _ => (Err (Driver Unavailable), bump w)
  end.

(** [rand.Int(rand.Reader, max)]: a number below [max]; [None] is the nil
    result of a failed read, whose error the callers drop. *)
Definition rand_Int (max : Z) : GoM World (option Z) := λ w,
  (Ok (match faults w.(tick) with
       | NoFault => Some (Z.modulo (Zpos (fresh w.(tick))) max)
       | _ => None
       end), bump w).

(** One request to a service that owns the component [get]/[put] of the
    world: it sees the time and a fresh identifier, and is atomic. *)
Definition external {T A} (get : World → T) (put : T → World → World)
    (f : time → uuid → T → error + (A * T)) : GoM World A := λ w,
  let w' := bump w in
  match faults w.(tick) with
  | Refused => (Err (Driver Unavailable), w')
  | NoFault =>
      match f (clock w.(tick)) (fresh w.(tick)) (get w) with
      | inl e => (Err e, w')
      | inr (a, x) => (Ok a, put x w')
      end
  | ReplyLost =>
      match f (clock w.(tick)) (fresh w.(tick)) (get w) with
      | inl e => (Err e, w')
      | inr (_, x) => (Err (Driver Unavailable), put x w')
      end
  end.

(** A SQL statement: [NOW()], [gen_random_uuid()], the tables. *)
Definition sql {A} : (time → uuid → Db → error + (A * Db)) → GoM World A :=
  external db with_db.
(** A SQL statement that only reads. *)
Definition query {A} (f : Db → error + A) : GoM World A :=
  sql (λ _ _ d, match f d with inl e => inl e | inr a => inr (a, d) end).
(** A SQL statement that reads one of several rows, whichever comes first. *)
Definition query_any {A} (f : bool → Db → error + A) : GoM World A := λ w,
  query (f (row_order w.(tick))) w.
(** A CQL statement and a Redis command. *)
Definition cql {A} : (time → uuid → Cass → error + (A * Cass)) → GoM World A :=
  external cass with_cass.
Definition redis_cmd {A} :
    (time → uuid → gmap string redis_entry → error + (A * gmap string redis_entry)) →
    GoM World A :=
  external redis with_redis.

(** [_ = realtime.Publish(lpb, subject, payload)]: the payload is handed to
    the NATS connection; every caller drops the error. *)
Definition Publish (subject : string) (e : event) : GoM World unit :=
  modify (λ w, with_bus (w.(bus) ++ [(subject, e)]) w).
End Primitives.

(** ** Lemmas about the primitives *)
Section PrimitiveFacts.
Context `{Env}.

Lemma external_Ok_inv {T A} (get : World → T) put (f : time → uuid → T → error + (A * T)) w a w' :
  external get put f w = (Ok a, w') →
  ∃ x, f (clock w.(tick)) (fresh w.(tick)) (get w) = inr (a, x) ∧ w' = put x (bump w).
Proof.
  unfold external. destruct (faults _); [|done|].
  - destruct (f _ _ _) as [e|[a' x]]; intros; simplify_eq; eauto.
  - destruct (f _ _ _) as [e|[a' x]]; intros; simplify_eq.
Qed.

Lemma external_run {T A} (get : World → T) put (f : time → uuid → T → error + (A * T)) w :
  faults w.(tick) = NoFault →
  external get put f w =
    match f (clock w.(tick)) (fresh w.(tick)) (get w) with
    | inl e => (Err e, bump w)
    | inr (a, x) => (Ok a, put x (bump w))
    end.
Proof. unfold external. by intros ->. Qed.

Lemma sql_Ok_inv {A} (f : time → uuid → Db → error + (A * Db)) w a w' :
  sql f w = (Ok a, w') →
  ∃ d, f (clock w.(tick)) (fresh w.(tick)) w.(db) = inr (a, d) ∧ w' = with_db d (bump w).
Proof. apply external_Ok_inv. Qed.

Lemma query_Ok_inv {A} (f : Db → error + A) w a w' :
  query f w = (Ok a, w') → f w.(db) = inr a ∧ db w' = db w.
Proof.
  intros (d & Hf & ->)%sql_Ok_inv. destruct (f (db w)); by simplify_eq/=.
Qed.

Lemma query_db {A} (f : Db → error + A) w o w' : query f w = (o, w') → db w' = db w.
Proof.
  unfold query, sql, external. destruct (f (db w)), (faults (tick w)); intros; by simplify_eq/=.
Qed.

Lemma sql_run {A} (f : time → uuid → Db → error + (A * Db)) w :
  faults w.(tick) = NoFault →
  sql f w = match f (clock w.(tick)) (fresh w.(tick)) w.(db) with
            | inl e => (Err e, bump w)
            | inr (a, d) => (Ok a, with_db d (bump w))
            end.
Proof. apply external_run. Qed.

Lemma query_run {A} (f : Db → error + A) w :
  faults w.(tick) = NoFault →
  query f w = match f w.(db) with inl e => (Err e, bump w) | inr a => (Ok a, bump w) end.
Proof.
  intros Hn. unfold query. rewrite sql_run by done.
  destruct (f (db w)); [done|]. by destruct w.
Qed.
End PrimitiveFacts.

(** Relations between worlds given by a relation between one component. *)
Definition on_db (R : relation Db) : relation World := λ w w', R w.(db) w'.(db).
Definition on_cass (R : relation Cass) : relation World := λ w w', R w.(cass) w'.(cass).

#[global] Instance on_db_preorder R `{!PreOrder R} : PreOrder (on_db R).
Proof. split; [intros ?; unfold on_db; reflexivity|]. intros ???. unfold on_db. by etrans. Qed.
#[global] Instance on_cass_preorder R `{!PreOrder R} : PreOrder (on_cass R).
Proof. split; [intros ?; unfold on_cass; reflexivity|]. intros ???. unfold on_cass. by etrans. Qed.

(** Only the part of the world that a statement writes can change. *)
Section StepPrimitives.
Context `{Env}.

Lemma steps_external {T A} (R : relation World) `{!PreOrder R} (get : World → T) put
    (f : time → uuid → T → error + (A * T)) :
  (∀ w, R w (bump w)) →
  (∀ w a x, f (clock w.(tick)) (fresh w.(tick)) (get w) = inr (a, x) → R w (put x (bump w))) →
  steps R (external get put f).
Proof.
  intros Hb Hf w. unfold external.
  destruct (faults _), (f (clock (tick w)) (fresh (tick w)) (get w)) as [?|[??]] eqn:E;
    simpl; eauto.
Qed.

Lemma steps_sql {A} (R : relation Db) `{!PreOrder R} (f : time → uuid → Db → error + (A * Db)) :
  (∀ t u d a d', f t u d = inr (a, d') → R d d') → steps (on_db R) (sql f).
Proof.
  intros Hf. apply steps_external; [apply _|intros; unfold on_db; simpl; reflexivity|].
  intros w a x E. exact (Hf _ _ _ _ _ E).
Qed.

Lemma steps_query {A} (R : relation Db) `{!PreOrder R} (f : Db → error + A) :
  steps (on_db R) (query f).
Proof.
  apply steps_sql; [apply _|]. intros t u d a d'. destruct (f d); intros; by simplify_eq.
Qed.

Lemma steps_query_any {A} (R : relation Db) `{!PreOrder R} (f : bool → Db → error + A) :
  steps (on_db R) (query_any f).
Proof. intros w. by apply steps_query. Qed.

Lemma steps_now (R : relation Db) `{!PreOrder R} : steps (on_db R) now.
Proof. intros w. unfold on_db; simpl; reflexivity. Qed.
Lemma steps_new_uuid (R : relation Db) `{!PreOrder R} : steps (on_db R) new_uuid.
Proof. intros w. unfold on_db; simpl; reflexivity. Qed.
Lemma steps_rand_Read (R : relation Db) `{!PreOrder R} n : steps (on_db R) (rand_Read n).
Proof. intros w. unfold rand_Read. destruct (faults _); unfold on_db; simpl; reflexivity. Qed.
Lemma steps_rand_Int (R : relation Db) `{!PreOrder R} max : steps (on_db R) (rand_Int max).
Proof. intros w. unfold on_db; simpl; reflexivity. Qed.
Lemma steps_Publish (R : relation Db) `{!PreOrder R} s e : steps (on_db R) (Publish s e).
Proof. intros w. unfold on_db; simpl; reflexivity. Qed.
Lemma steps_cql_db {A} (R : relation Db) `{!PreOrder R} (f : time → uuid → Cass → error + (A * Cass)) :
  steps (on_db R) (cql f).
Proof. apply steps_external; [apply _|intros; unfold on_db; simpl; reflexivity..]. Qed.
Lemma steps_redis_db {A} (R : relation Db) `{!PreOrder R} f :
  steps (on_db R) (redis_cmd f : GoM World A).
Proof. apply steps_external; [apply _|intros; unfold on_db; simpl; reflexivity..]. Qed.

Lemma steps_cql {A} (R : relation Cass) `{!PreOrder R} (f : time → uuid → Cass → error + (A * Cass)) :
  (∀ t u c a c', f t u c = inr (a, c') → R c c') → steps (on_cass R) (cql f).
Proof.
  intros Hf. apply steps_external; [apply _|intros; unfold on_cass; simpl; reflexivity|].
  intros w a x E. exact (Hf _ _ _ _ _ E).
Qed.
Lemma steps_sql_cass {A} (R : relation Cass) `{!PreOrder R} (f : time → uuid → Db → error + (A * Db)) :
  steps (on_cass R) (sql f).
Proof. apply steps_external; [apply _|intros; unfold on_cass; simpl; reflexivity..]. Qed.
Lemma steps_query_cass {A} (R : relation Cass) `{!PreOrder R} (f : Db → error + A) :
  steps (on_cass R) (query f).
Proof. apply steps_sql_cass, _. Qed.
Lemma steps_query_any_cass {A} (R : relation Cass) `{!PreOrder R} (f : bool → Db → error + A) :
  steps (on_cass R) (query_any f).
Proof. intros w. by apply steps_query_cass. Qed.
Lemma steps_now_cass (R : relation Cass) `{!PreOrder R} : steps (on_cass R) now.
Proof. intros w. unfold on_cass; simpl; reflexivity. Qed.
Lemma steps_new_uuid_cass (R : relation Cass) `{!PreOrder R} : steps (on_cass R) new_uuid.
Proof. intros w. unfold on_cass; simpl; reflexivity. Qed.
Lemma steps_Publish_cass (R : relation Cass) `{!PreOrder R} s e : steps (on_cass R) (Publish s e).
Proof. intros w. unfold on_cass; simpl; reflexivity. Qed.
Lemma steps_redis_cass {A} (R : relation Cass) `{!PreOrder R} f :
  steps (on_cass R) (redis_cmd f : GoM World A).
Proof. apply steps_external; [apply _|intros; unfold on_cass; simpl; reflexivity..]. Qed.

(** *** The interaction counter

    Every interaction moves it forward by one, whatever it answers. *)
Lemma external_tick {T A} (get : World → T) put (f : time → uuid → T → error + (A * T)) w :
  (∀ x v, tick (put x v) = tick v) → tick (external get put f w).2 = S (tick w).
Proof.
  intros Hp. unfold external.
  destruct (faults _), (f (clock (tick w)) (fresh (tick w)) (get w)) as [?|[??]]; simpl; by rewrite ?Hp.
Qed.
Definition later : relation World := λ w w', tick w ≤ tick w'.
#[global] Instance later_preorder : PreOrder later.
Proof. split; unfold later; [intros w; lia|intros ???; lia]. Qed.
Lemma later_sql {A} (f : time → uuid → Db → error + (A * Db)) : steps later (sql f).
Proof. intros w. unfold later, sql. rewrite external_tick by done. lia. Qed.
Lemma later_query {A} (f : Db → error + A) : steps later (query f).
Proof. apply later_sql. Qed.
Lemma later_cql {A} (f : time → uuid → Cass → error + (A * Cass)) : steps later (cql f).
Proof. intros w. unfold later, cql. rewrite external_tick by done. lia. Qed.
Lemma later_now : steps later now.
Proof. intros w. unfold later. simpl. lia. Qed.
Lemma later_Publish s e : steps later (Publish s e).
Proof. intros w. unfold later. simpl. lia. Qed.
End StepPrimitives.
#[export] Hint Resolve later_sql later_query later_cql later_now later_Publish : steps.

#[export] Hint Resolve steps_query steps_query_any steps_query_any_cass steps_now steps_new_uuid steps_rand_Read steps_rand_Int steps_Publish steps_cql_db
  steps_redis_db steps_sql_cass steps_query_cass steps_now_cass steps_new_uuid_cass
  steps_Publish_cass steps_redis_cass : steps.

(** A statement that leaves alone what the relation compares. *)
Ltac frame_sql := apply steps_sql; [apply _|]; intros ? ? ? ? ? Hf;
  repeat case_match; simplify_eq/=; reflexivity.

(** ** Empty stores and a concrete environment for worked examples *)
Definition empty_db : Db := mkDb ∅ ∅ ∅ ∅ ∅ ∅ ∅ ∅ ∅ ∅ ∅ ∅ ∅ ∅ ∅.
Definition empty_cass : Cass := mkCass ∅ ∅ ∅ ∅ ∅.
Definition empty_world : World := mkWorld empty_db empty_cass ∅ ∅ [] 0.

(** A clock that advances one second per interaction, no failures, and
    identifiers counted from 1000. *)
Definition demo_env (wired : bool) : Env := {|
  clock n := (Z.of_nat n * 1000000)%Z;
  faults _ := NoFault;
  fresh n := Pos.of_nat (1000 + n);
  row_order _ := false;
  authz_wired := wired
|}.

Definition demo_wired : Env := demo_env true.

(** UUID text as binary digits, most significant last. *)
Fixpoint bits_print (u : uuid) : string :=
  match u with
  | xH => "1"
  | xO u => String "0" (bits_print u)
  | xI u => String "1" (bits_print u)
  end.
Fixpoint bits_parse (s : string) : option uuid :=
  match s with
  | "" => None
  | String c s' =>
      if Ascii.eqb c "0" then xO <$> bits_parse s'
      else if Ascii.eqb c "1" then
        match s' with "" => Some xH | _ => xI <$> bits_parse s' end
      else None
  end%string.

Lemma bits_parse_print u : bits_parse (bits_print u) = Some u.
Proof.
  induction u as [u IH|u IH|]; [|simpl; by rewrite IH|done].
  change (bits_print (xI u)) with (String "1" (bits_print u)). cbn [bits_parse].
  destruct (bits_print u) eqn:E; [by destruct u|]. rewrite IH. done.
Qed.

Definition demo_uuid : UuidText := {|
  uuid_print := bits_print; uuid_parse := bits_parse;
  uuid_parse_print := bits_parse_print; uuid_parse_empty := eq_refl
|}.

(** The zero UUID is 1, every other identifier is a TIMEUUID. *)
Definition demo_cql : CqlTypes.
Proof.
  refine {| zero_uuid := 1%positive; is_timeuuid u := negb (Pos.eqb u 1);
            timeuuid_rank := Npos; time_uuid n := Pos.of_nat (5000 + n) |}.
  - intros n. apply negb_true_iff, Pos.eqb_neq. lia.
  - reflexivity.
Defined.
