(* ===== verification/Queries.v ===== *)
(** * Queries: the sqlc statements of src/gen/db

    One definition per [:one], [:many] or [:exec] statement of
    [src/gen/db/guilds.sql.go], [roles.sql.go], [channels.sql.go],
    [friendships.sql.go], [users.sql.go], [sync.sql.go] and [media.sql.go].  A [:one]
    statement that selects or returns no row answers [NoRows]; an [UPDATE]
    with [:exec] that matches no row succeeds.  [ON CONFLICT], foreign keys,
    unique constraints, [COALESCE] and [NOW()] are those of the statement and
    of the migrations.  Where SQL leaves the order of rows open the model
    takes the order of the table map. *)
From S2P Require Import Prelude Realtime Store.

(** ** SQL helpers *)
Section Helpers.
Context {K V : Type} `{Countable K}.

Definition has (m : gmap K V) (k : K) : bool :=
  match m !! k with Some _ => true | None => false end.

Lemma has_true m k : has m k = true ↔ is_Some (m !! k).
Proof. unfold has. destruct (m !! k) as [v|]; split; [eauto|done|done|by intros [? ?]]. Qed.
End Helpers.

(** A nullable foreign key. *)
Definition has_opt {V} (m : gmap uuid V) (k : option uuid) : bool :=
  match k with Some k => has m k | None => true end.

Definition no_rows {A} : error + A := inl (Driver NoRows).
Definition one {A} (o : option A) : error + A :=
  match o with Some a => inr a | None => no_rows end.
Definition fk_violation {A} : error + A := inl (Driver ForeignKeyViolation).

(** [WHERE deleted = FALSE] on the row found by primary key. *)
Definition live {A} (deleted : A → bool) (o : option A) : option A :=
  match o with Some a => if deleted a then None else Some a | None => None end.

Lemma live_Some {A} (deleted : A → bool) (o : option A) (a : A) :
  live deleted o = Some a ↔ o = Some a ∧ deleted a = false.
Proof.
  unfold live. split.
  - destruct o as [b|]; [|discriminate]. destruct (deleted b) eqn:E; intros Hb; by simplify_eq.
  - intros [-> ->]. reflexivity.
Qed.

Definition coalesce {A} (o : option A) (a : A) : A := default a o.

(** [LIMIT n OFFSET m] *)
Definition limit_offset {A} (limit offset : Z) (l : list A) : error + list A :=
  if (limit <? 0)%Z || (offset <? 0)%Z then inl (Driver InvalidRowCount)
  else inr (take (Z.to_nat limit) (drop (Z.to_nat offset) l)).

(** [ORDER BY key] *)
Definition key_le {A} (key : A → Z) : relation A := λ a b, (key a ≤ key b)%Z.
#[global] Instance key_le_dec {A} (key : A → Z) : RelDecision (key_le key).
Proof. intros a b. unfold key_le. apply _. Defined.
#[global] Instance key_le_total {A} (key : A → Z) : Total (key_le key).
Proof. intros a b. unfold key_le. lia. Qed.
#[global] Instance key_le_trans {A} (key : A → Z) : Transitive (key_le key).
Proof. intros a b c. unfold key_le. lia. Qed.

Definition order_by {A} (key : A → Z) (l : list A) : list A := merge_sort (key_le key) l.

Definition uuid_eqb (a b : uuid) : bool := bool_decide (a = b).
Definition ouuid_eqb (a b : option uuid) : bool := bool_decide (a = b).

(** ** Row updates *)
Definition guild_member_deleted (t : time) (m : GuildMember) : GuildMember :=
  mkGuildMember (gm_guild_id m) (gm_user_id m) (gm_nickname m) (gm_joined_at m) true t
    (gm_invite_code m) (gm_invited_by m).
Definition guild_deleted (t : time) (g : Guild) : Guild :=
  mkGuild (g_id g) (g_name g) (g_description g) (g_icon_url g) (g_owner_id g)
    (g_created_at g) true t (g_banner_url g).
Definition guild_owned_by (owner : uuid) (g : Guild) : Guild :=
  mkGuild (g_id g) (g_name g) (g_description g) (g_icon_url g) owner
    (g_created_at g) (g_deleted g) (g_updated_at g) (g_banner_url g).
Definition ban_deleted (t : time) (b : Ban) : Ban :=
  mkBan (b_guild_id b) (b_user_id b) (b_reason b) (b_created_at b) true t.
Definition invite_deleted (t : time) (i : Invite) : Invite :=
  mkInvite (i_code i) (i_guild_id i) (i_channel_id i) (i_creator_id i) (i_max_uses i)
    (i_uses i) (i_expires_at i) (i_created_at i) true t.
Definition invite_used (i : Invite) : Invite :=
  mkInvite (i_code i) (i_guild_id i) (i_channel_id i) (i_creator_id i) (i_max_uses i)
    (i_uses i + 1)%Z (i_expires_at i) (i_created_at i) (i_deleted i) (i_updated_at i).
Definition role_deleted (t : time) (r : Role) : Role :=
  mkRole (r_id r) (r_guild_id r) (r_name r) (r_color r) (r_position r) (r_created_at r) true t.
Definition role_member_set (deleted : bool) (t : time) (rm : RoleMember) : RoleMember :=
  mkRoleMember (rm_role_id rm) (rm_user_id rm) deleted t.
Definition channel_deleted (t : time) (c : Channel) : Channel :=
  mkChannel (c_id c) (c_guild_id c) (c_name c) (c_type c) (c_topic c) (c_position c)
    (c_parent_id c) (c_created_at c) true t.
Definition dm_member_set (deleted : bool) (t : time) (m : DmChannelMember) : DmChannelMember :=
  mkDmChannelMember (dm_channel_id m) (dm_user_id m) deleted t.
Definition friendship_deleted (t : time) (f : Friendship) : Friendship :=
  mkFriendship (f_user_id f) (f_friend_id f) (f_status f) (f_created_at f) true t.
Definition friendship_status (s : string) (f : Friendship) : Friendship :=
  mkFriendship (f_user_id f) (f_friend_id f) s (f_created_at f) (f_deleted f) (f_updated_at f).
Definition user_deleted (t : time) (u : User) : User :=
  mkUser (u_id u) (u_username u) (u_email u) (u_password_hash u) (u_avatar_url u) (u_bio u)
    (u_status u) (u_created_at u) t (u_verified u) true (u_background_color u) (u_display_name u).
Definition user_verified (t : time) (u : User) : User :=
  mkUser (u_id u) (u_username u) (u_email u) (u_password_hash u) (u_avatar_url u) (u_bio u)
    (u_status u) (u_created_at u) t true (u_deleted u) (u_background_color u) (u_display_name u).
Definition media_confirmed (m : MediaFile) : MediaFile :=
  mkMediaFile (mf_id m) (mf_uploader_id m) (mf_filename m) (mf_content_type m) (mf_size m)
    (mf_bucket_key m) true (mf_created_at m) (mf_deleted m) (mf_updated_at m).
Definition media_deleted (t : time) (m : MediaFile) : MediaFile :=
  mkMediaFile (mf_id m) (mf_uploader_id m) (mf_filename m) (mf_content_type m) (mf_size m)
    (mf_bucket_key m) (mf_confirmed m) (mf_created_at m) true t.

Module Queries.
Section Statements.
Context `{Env}.

(** *** guilds.sql.go *)
Definition AddGuildMember (guildID userID : uuid) (nickname : string)
    (inviteCode : option string) (invitedBy : option uuid) : GoM World GuildMember :=
  sql (λ t _ d,
    if has d.(guilds) guildID && has d.(users) userID && has_opt d.(users) invitedBy then
      let row := match d.(guild_members) !! (guildID, userID) with
        | Some m => mkGuildMember (gm_guild_id m) (gm_user_id m) nickname (gm_joined_at m)
                      false t inviteCode invitedBy
        | None => mkGuildMember guildID userID nickname t false t inviteCode invitedBy
        end in
      inr (row, with_guild_members (<[(guildID, userID) := row]> d.(guild_members)) d)
    else fk_violation).

Definition CountGuildMembers (guildID : uuid) : GoM World Z :=
  query (λ d, inr (Z.of_nat (length
    (rows (λ k m, uuid_eqb k.1 guildID && negb (gm_deleted m)) d.(guild_members))))).

Definition CreateBan (guildID userID : uuid) (reason : string) : GoM World Ban :=
  sql (λ t _ d,
    if has d.(guilds) guildID && has d.(users) userID then
      let row := match d.(bans) !! (guildID, userID) with
        | Some b => mkBan (b_guild_id b) (b_user_id b) reason (b_created_at b) false t
        | None => mkBan guildID userID reason t false t
        end in
      inr (row, with_bans (<[(guildID, userID) := row]> d.(bans)) d)
    else fk_violation).

Definition CreateGuild (name description iconURL : string) (ownerID : uuid) : GoM World Guild :=
  sql (λ t id d,
    if has d.(guilds) id then inl (Driver UniqueViolation)
    else if has d.(users) ownerID then
      let row := mkGuild id name description iconURL ownerID t false t "" in
      inr (row, with_guilds (<[id := row]> d.(guilds)) d)
    else fk_violation).

Definition CreateInvite (code : string) (guildID : uuid) (channelID : option uuid)
    (creatorID : uuid) (maxUses : Z) (expiresAt : option time) : GoM World Invite :=
  sql (λ t _ d,
    match channelID with
    | None => inl (Driver NotNullViolation)
    | Some channelID =>
        if has d.(invites) code then inl (Driver UniqueViolation)
        else if has d.(guilds) guildID && has d.(channels) channelID && has d.(users) creatorID
        then
          let row := mkInvite code guildID channelID creatorID maxUses 0 expiresAt t false t in
          inr (row, with_invites (<[code := row]> d.(invites)) d)
        else fk_violation
    end).

Definition DeleteBan (guildID userID : uuid) : GoM World unit :=
  sql (λ t _ d, inr (tt, with_bans (alter (ban_deleted t) (guildID, userID) d.(bans)) d)).

Definition DeleteGuild (id : uuid) : GoM World unit :=
  sql (λ t _ d, inr (tt, with_guilds (alter (guild_deleted t) id d.(guilds)) d)).

Definition DeleteInvite (code : string) : GoM World unit :=
  sql (λ t _ d, inr (tt, with_invites (alter (invite_deleted t) code d.(invites)) d)).

Definition GetBan (guildID userID : uuid) : GoM World Ban :=
  query (λ d, one (live b_deleted (d.(bans) !! (guildID, userID)))).

Definition GetGuildByID (id : uuid) : GoM World Guild :=
  query (λ d, one (live g_deleted (d.(guilds) !! id))).

Definition GetGuildMember (guildID userID : uuid) : GoM World GuildMember :=
  query (λ d, one (live gm_deleted (d.(guild_members) !! (guildID, userID)))).

Definition GetInvite (code : string) : GoM World Invite :=
  query (λ d, one (live i_deleted (d.(invites) !! code))).

Definition IncrementInviteUses (code : string) : GoM World unit :=
  sql (λ _ _ d,
    match d.(invites) !! code with
    | Some i =>
        if (i_uses i <? max_int32)%Z
        then inr (tt, with_invites (<[code := invite_used i]> d.(invites)) d)
        else inl (Driver NumericOutOfRange)
    | None => inr (tt, d)
    end).

Definition ListGuildMembers (guildID : uuid) (limit offset : Z) : GoM World (list GuildMember) :=
  query (λ d, limit_offset limit offset (order_by gm_joined_at
    (rows (λ k m, uuid_eqb k.1 guildID && negb (gm_deleted m)) d.(guild_members)))).

Definition ListUserGuilds (userID : uuid) : GoM World (list Guild) :=
  query (λ d, inr (rows (λ id g,
    negb (g_deleted g) &&
    match d.(guild_members) !! (id, userID) with
    | Some gm => negb (gm_deleted gm)
    | None => false
    end) d.(guilds))).

Definition RecordInviteUse (code : string) (guildID userID inviterID : uuid) :
    GoM World InviteUse :=
  sql (λ t id d,
    if has d.(invite_uses) id then inl (Driver UniqueViolation)
    else if has d.(invites) code && has d.(guilds) guildID && has d.(users) userID &&
            has d.(users) inviterID then
      let row := mkInviteUse id code guildID userID inviterID t in
      inr (row, with_invite_uses (<[id := row]> d.(invite_uses)) d)
    else fk_violation).

Definition RemoveGuildMember (guildID userID : uuid) : GoM World unit :=
  sql (λ t _ d, inr (tt,
    with_guild_members (alter (guild_member_deleted t) (guildID, userID) d.(guild_members)) d)).

Definition TransferGuildOwnership (id ownerID : uuid) : GoM World Guild :=
  sql (λ _ _ d,
    match d.(guilds) !! id with
    | None => no_rows
    | Some g =>
        if has d.(users) ownerID then
          let row := guild_owned_by ownerID g in
          inr (row, with_guilds (<[id := row]> d.(guilds)) d)
        else fk_violation
    end).

Record UpdateGuildParams := mkUpdateGuildParams {
  ug_ID : uuid; ug_Name : option string; ug_Description : option string;
  ug_IconUrl : option string; ug_BannerUrl : option string
}.

Definition UpdateGuild (arg : UpdateGuildParams) : GoM World Guild :=
  sql (λ _ _ d,
    match d.(guilds) !! arg.(ug_ID) with
    | None => no_rows
    | Some g =>
        let row := mkGuild (g_id g) (coalesce arg.(ug_Name) (g_name g))
          (coalesce arg.(ug_Description) (g_description g))
          (coalesce arg.(ug_IconUrl) (g_icon_url g)) (g_owner_id g) (g_created_at g)
          (g_deleted g) (g_updated_at g) (coalesce arg.(ug_BannerUrl) (g_banner_url g)) in
        inr (row, with_guilds (<[arg.(ug_ID) := row]> d.(guilds)) d)
    end).

(** *** roles.sql.go *)
Definition AssignRole (roleID userID : uuid) : GoM World unit :=
  sql (λ t _ d,
    if has d.(roles) roleID && has d.(users) userID then
      let row := match d.(role_members) !! (roleID, userID) with
        | Some rm => role_member_set false t rm
        | None => mkRoleMember roleID userID false t
        end in
      inr (tt, with_role_members (<[(roleID, userID) := row]> d.(role_members)) d)
    else fk_violation).

Definition CreateRole (guildID : uuid) (name color : string) (position : Z) : GoM World Role :=
  sql (λ t id d,
    if has d.(roles) id then inl (Driver UniqueViolation)
    else if has d.(guilds) guildID then
      let row := mkRole id guildID name color position t false t in
      inr (row, with_roles (<[id := row]> d.(roles)) d)
    else fk_violation).

Definition DeleteRole (id : uuid) : GoM World unit :=
  sql (λ t _ d, inr (tt, with_roles (alter (role_deleted t) id d.(roles)) d)).

Definition GetEveryoneRole (guildID : uuid) : GoM World Role :=
  query (λ d, one (head (rows (λ _ r,
    uuid_eqb (r_guild_id r) guildID && string_eqb (r_name r) "@everyone" &&
    negb (r_deleted r)) d.(roles)))).

Definition GetRoleByID (id : uuid) : GoM World Role :=
  query (λ d, one (live r_deleted (d.(roles) !! id))).

Definition ListGuildRoles (guildID : uuid) : GoM World (list Role) :=
  query (λ d, inr (order_by r_position
    (rows (λ _ r, uuid_eqb (r_guild_id r) guildID && negb (r_deleted r)) d.(roles)))).

Definition ListUserRoles (userID guildID : uuid) : GoM World (list Role) :=
  query (λ d, inr (rows (λ id r,
    uuid_eqb (r_guild_id r) guildID && negb (r_deleted r) &&
    match d.(role_members) !! (id, userID) with
    | Some rm => negb (rm_deleted rm)
    | None => false
    end) d.(roles))).

Definition RemoveRole (roleID userID : uuid) : GoM World unit :=
  sql (λ t _ d, inr (tt,
    with_role_members (alter (role_member_set true t) (roleID, userID) d.(role_members)) d)).

Record UpdateRoleParams := mkUpdateRoleParams {
  ur_ID : uuid; ur_Name : option string; ur_Color : option string; ur_Position : option Z
}.

Definition UpdateRole (arg : UpdateRoleParams) : GoM World Role :=
  sql (λ _ _ d,
    match d.(roles) !! arg.(ur_ID) with
    | None => no_rows
    | Some r =>
        let row := mkRole (r_id r) (r_guild_id r) (coalesce arg.(ur_Name) (r_name r))
          (coalesce arg.(ur_Color) (r_color r)) (coalesce arg.(ur_Position) (r_position r))
          (r_created_at r) (r_deleted r) (r_updated_at r) in
        inr (row, with_roles (<[arg.(ur_ID) := row]> d.(roles)) d)
    end).

(** *** channels.sql.go *)
Definition AddDMChannelMember (channelID userID : uuid) : GoM World unit :=
  sql (λ t _ d,
    if has d.(channels) channelID && has d.(users) userID then
      let row := match d.(dm_channel_members) !! (channelID, userID) with
        | Some m => dm_member_set false t m
        | None => mkDmChannelMember channelID userID false t
        end in
      inr (tt, with_dm_channel_members
                 (<[(channelID, userID) := row]> d.(dm_channel_members)) d)
    else fk_violation).

Record CreateChannelParams := mkCreateChannelParams {
  cc_GuildID : option uuid; cc_Name : string; cc_Type : Z; cc_Topic : string;
  cc_Position : Z; cc_ParentID : option uuid
}.

Definition CreateChannel (arg : CreateChannelParams) : GoM World Channel :=
  sql (λ t id d,
    if has d.(channels) id then inl (Driver UniqueViolation)
    else if has_opt d.(guilds) arg.(cc_GuildID) && has_opt d.(channels) arg.(cc_ParentID) then
      let row := mkChannel id arg.(cc_GuildID) arg.(cc_Name) arg.(cc_Type) arg.(cc_Topic)
        arg.(cc_Position) arg.(cc_ParentID) t false t in
      inr (row, with_channels (<[id := row]> d.(channels)) d)
    else fk_violation).

Definition CreateDMChannel (name : string) (type : Z) : GoM World Channel :=
  sql (λ t id d,
    if has d.(channels) id then inl (Driver UniqueViolation)
    else
      let row := mkChannel id None name type "" 0 None t false t in
      inr (row, with_channels (<[id := row]> d.(channels)) d)).

Definition DeleteChannel (id : uuid) : GoM World unit :=
  sql (λ t _ d, inr (tt, with_channels (alter (channel_deleted t) id d.(channels)) d)).

Definition GetChannelByID (id : uuid) : GoM World Channel :=
  query (λ d, one (live c_deleted (d.(channels) !! id))).

(** The live membership of [u] in channel [c]. *)
Definition dm_live (d : Db) (c u : uuid) : bool :=
  match d.(dm_channel_members) !! (c, u) with
  | Some m => negb (dm_deleted m)
  | None => false
  end.

Definition GetDMChannelBetweenUsers (userID userID_2 : uuid) : GoM World Channel :=
  query (λ d, one (head (rows (λ id c,
    Z.eqb (c_type c) 5 && negb (c_deleted c) && dm_live d id userID && dm_live d id userID_2)
    d.(channels)))).

Record DMChannelMemberProfile := mkDMChannelMemberProfile {
  dp_ID : uuid; dp_Username : string; dp_DisplayName : string; dp_AvatarUrl : string;
  dp_Status : string
}.

Definition GetDMChannelMemberProfiles (channelID : uuid) :
    GoM World (list DMChannelMemberProfile) :=
  query (λ d, inr (omap (λ m,
    match d.(users) !! dm_user_id m with
    | Some u => if u_deleted u then None else
        Some (mkDMChannelMemberProfile (u_id u) (u_username u) (u_display_name u)
                (u_avatar_url u) (u_status u))
    | None => None
    end) (rows (λ k m, uuid_eqb k.1 channelID && negb (dm_deleted m)) d.(dm_channel_members)))).

Definition GetDMChannelMembers (channelID : uuid) : GoM World (list uuid) :=
  query (λ d, inr (dm_user_id <$>
    rows (λ k m, uuid_eqb k.1 channelID && negb (dm_deleted m)) d.(dm_channel_members))).

Definition IsDMChannelMember (channelID userID : uuid) : GoM World bool :=
  query (λ d, inr (dm_live d channelID userID)).

Definition ListDMChannels (userID : uuid) : GoM World (list Channel) :=
  query (λ d, inr (rows (λ id c,
    (Z.eqb (c_type c) 5 || Z.eqb (c_type c) 6) && negb (c_deleted c) && dm_live d id userID)
    d.(channels))).

Definition ListGuildChannels (guildID : uuid) : GoM World (list Channel) :=
  query (λ d, inr (order_by c_position
    (rows (λ _ c, ouuid_eqb (c_guild_id c) (Some guildID) && negb (c_deleted c)) d.(channels)))).

Definition RemoveDMChannelMember (channelID userID : uuid) : GoM World unit :=
  sql (λ t _ d, inr (tt, with_dm_channel_members
    (alter (dm_member_set true t) (channelID, userID) d.(dm_channel_members)) d)).

Record UpdateChannelParams := mkUpdateChannelParams {
  uc_ID : uuid; uc_Name : option string; uc_Topic : option string; uc_Position : option Z;
  uc_ParentID : option uuid
}.

Definition UpdateChannel (arg : UpdateChannelParams) : GoM World Channel :=
  sql (λ _ _ d,
    match d.(channels) !! arg.(uc_ID) with
    | None => no_rows
    | Some c =>
        if has_opt d.(channels) arg.(uc_ParentID) then
          let row := mkChannel (c_id c) (c_guild_id c) (coalesce arg.(uc_Name) (c_name c))
            (c_type c) (coalesce arg.(uc_Topic) (c_topic c))
            (coalesce arg.(uc_Position) (c_position c))
            (match arg.(uc_ParentID) with Some p => Some p | None => c_parent_id c end)
            (c_created_at c) (c_deleted c) (c_updated_at c) in
          inr (row, with_channels (<[arg.(uc_ID) := row]> d.(channels)) d)
        else fk_violation
    end).

(** *** friendships.sql.go *)
Definition CreateFriendship (userID friendID : uuid) (status : string) : GoM World Friendship :=
  sql (λ t _ d,
    if has d.(users) userID && has d.(users) friendID then
      let row := match d.(friendships) !! (userID, friendID) with
        | Some f => mkFriendship (f_user_id f) (f_friend_id f) status (f_created_at f) false t
        | None => mkFriendship userID friendID status t false t
        end in
      inr (row, with_friendships (<[(userID, friendID) := row]> d.(friendships)) d)
    else fk_violation).

Definition DeleteFriendship (userID friendID : uuid) : GoM World unit :=
  sql (λ t _ d, inr (tt, with_friendships
    (alter (friendship_deleted t) (friendID, userID)
      (alter (friendship_deleted t) (userID, friendID) d.(friendships))) d)).

(** No ORDER BY: of two live rows of the pair the database returns either. *)
Definition GetFriendship (userID friendID : uuid) : GoM World Friendship :=
  query_any (λ back_first d,
    let there := live f_deleted (d.(friendships) !! (userID, friendID)) in
    let back := live f_deleted (d.(friendships) !! (friendID, userID)) in
    one (if back_first then back ∪ there else there ∪ back)).

Definition ListBlocked (userID : uuid) : GoM World (list User) :=
  query (λ d, inr (rows (λ id _,
    match d.(friendships) !! (userID, id) with
    | Some f => string_eqb (f_status f) "blocked" && negb (f_deleted f)
    | None => false
    end) d.(users))).

(** [users u LEFT JOIN dm_channel_members d ON u.id = d.user_id]. *)
Definition dm_left_join (d : Db) (u : uuid) : list (option uuid) :=
  match rows (λ k _, uuid_eqb k.2 u) d.(dm_channel_members) with
  | [] => [None]
  | ms => (λ m, Some (dm_channel_id m)) <$> ms
  end.

Definition ListFriends (userID : uuid) : GoM World (list (User * option uuid)) :=
  query (λ d, inr (
    u ← (map_to_list d.(users)).*2;
    c ← dm_left_join d (u_id u);
    _ ← rows (λ k f,
           ((uuid_eqb k.2 (u_id u) && uuid_eqb k.1 userID) ||
            (uuid_eqb k.1 (u_id u) && uuid_eqb k.2 userID)) &&
           string_eqb (f_status f) "accepted" && negb (f_deleted f)) d.(friendships);
    [(u, c)])).

Definition ListPendingIncoming (friendID : uuid) : GoM World (list (Friendship * User)) :=
  query (λ d, inr (omap (λ f, pair f <$> d.(users) !! f_user_id f)
    (rows (λ k f, uuid_eqb k.2 friendID && string_eqb (f_status f) "pending" &&
                  negb (f_deleted f)) d.(friendships)))).

Definition ListPendingOutgoing (userID : uuid) : GoM World (list (Friendship * User)) :=
  query (λ d, inr (omap (λ f, pair f <$> d.(users) !! f_friend_id f)
    (rows (λ k f, uuid_eqb k.1 userID && string_eqb (f_status f) "pending" &&
                  negb (f_deleted f)) d.(friendships)))).

Definition UpdateFriendshipStatus (userID friendID : uuid) (status : string) :
    GoM World Friendship :=
  sql (λ _ _ d,
    match d.(friendships) !! (userID, friendID) with
    | None => no_rows
    | Some f =>
        let row := friendship_status status f in
        inr (row, with_friendships (<[(userID, friendID) := row]> d.(friendships)) d)
    end).

(** *** users.sql.go *)
Definition CreateUser (username displayName email passwordHash : string) : GoM World User :=
  sql (λ t id d,
    if has d.(users) id ||
       map_existsb (λ _ u, string_eqb (u_username u) username || string_eqb (u_email u) email)
         d.(users)
    then inl (Driver UniqueViolation)
    else
      let row := mkUser id username email passwordHash "" "" "offline" t t false false ""
                   displayName in
      inr (row, with_users (<[id := row]> d.(users)) d)).

Definition DeleteUser (id : uuid) : GoM World unit :=
  sql (λ t _ d, inr (tt, with_users (alter (user_deleted t) id d.(users)) d)).

Definition GetUserByEmail (email : string) : GoM World User :=
  query (λ d, one (head (rows (λ _ u, string_eqb (u_email u) email && negb (u_deleted u))
                           d.(users)))).

Definition GetUserByID (id : uuid) : GoM World User := query (λ d, one (d.(users) !! id)).

Definition GetUserByUsername (username : string) : GoM World User :=
  query (λ d, one (head (rows (λ _ u, string_eqb (u_username u) username && negb (u_deleted u))
                           d.(users)))).

(** [username ILIKE '%' || $1 || '%']: the operator is PostgreSQL's, an
    argument here, of the text and the pattern. *)
Definition search_pattern (q : string) : string := "%" +:+ q +:+ "%".
Definition search_rows (ILIKE : string → string → bool) (q : string) (d : Db) : list User :=
  rows (λ _ u, ILIKE (u_username u) (search_pattern q) && negb (u_deleted u)) d.(users).
Definition username_le : relation User := λ a b, String.le (u_username a) (u_username b).
#[global] Instance username_le_dec : RelDecision username_le.
Proof. intros a b. unfold username_le. apply _. Defined.

Definition CountSearchUsers (ILIKE : string → string → bool) (q : string) : GoM World Z :=
  query (λ d, inr (Z.of_nat (length (search_rows ILIKE q d)))).
Definition SearchUsers (ILIKE : string → string → bool) (q : string) (limit offset : Z) :
    GoM World (list User) :=
  query (λ d, limit_offset limit offset (merge_sort username_le (search_rows ILIKE q d))).

Record UpdateUserParams := mkUpdateUserParams {
  uu_ID : uuid; uu_Username : option string; uu_DisplayName : option string;
  uu_AvatarUrl : option string; uu_Bio : option string; uu_Status : option string;
  uu_BackgroundColor : option string
}.

Definition UpdateUser (arg : UpdateUserParams) : GoM World User :=
  sql (λ t _ d,
    match d.(users) !! arg.(uu_ID) with
    | None => no_rows
    | Some u =>
        let username := coalesce arg.(uu_Username) (u_username u) in
        if map_existsb (λ id v, negb (uuid_eqb id arg.(uu_ID)) &&
                                string_eqb (u_username v) username) d.(users)
        then inl (Driver UniqueViolation)
        else
          let row := mkUser (u_id u) username (u_email u) (u_password_hash u)
            (coalesce arg.(uu_AvatarUrl) (u_avatar_url u)) (coalesce arg.(uu_Bio) (u_bio u))
            (coalesce arg.(uu_Status) (u_status u)) (u_created_at u) t (u_verified u)
            (u_deleted u) (coalesce arg.(uu_BackgroundColor) (u_background_color u))
            (coalesce arg.(uu_DisplayName) (u_display_name u)) in
          inr (row, with_users (<[arg.(uu_ID) := row]> d.(users)) d)
    end).

Definition VerifyUser (id : uuid) : GoM World User :=
  sql (λ t _ d,
    match d.(users) !! id with
    | None => no_rows
    | Some u => let row := user_verified t u in
                inr (row, with_users (<[id := row]> d.(users)) d)
    end).

(** *** sync.sql.go *)
(** [guild_id IN (SELECT gm.guild_id FROM guild_members gm WHERE gm.user_id = $1 AND NOT deleted)] *)
Definition member_of (d : Db) (userID guildID : uuid) : bool :=
  match d.(guild_members) !! (guildID, userID) with
  | Some gm => negb (gm_deleted gm)
  | None => false
  end.

Definition SyncChannels (userID : uuid) (updatedAt : time) : GoM World (list Channel) :=
  query (λ d, inr (rows (λ id c,
    (updatedAt <? c_updated_at c)%Z &&
    (match c_guild_id c with Some g => member_of d userID g | None => false end ||
     dm_live d id userID)) d.(channels))).

Definition SyncDmMembers (userID : uuid) (updatedAt : time) : GoM World (list DmChannelMember) :=
  query (λ d, inr (rows (λ k m,
    (updatedAt <? dm_updated_at m)%Z && dm_live d k.1 userID) d.(dm_channel_members))).

(** A row of [SyncFriendships]: the friendship, the other user's row and one
    DM channel of the [friend_id] side; the timestamp is not a filter. *)
Record SyncFriendshipsRow := mkSyncFriendshipsRow {
  sfr_friendship : Friendship; sfr_user : option User; sfr_channel : option uuid
}.
Definition SyncFriendships (userID : uuid) : GoM World (list SyncFriendshipsRow) :=
  query (λ d, inr (
    f ← rows (λ k _, uuid_eqb k.1 userID || uuid_eqb k.2 userID) d.(friendships);
    let other := if uuid_eqb (f_user_id f) userID then f_friend_id f else f_user_id f in
    c ← dm_left_join d (f_friend_id f);
    [mkSyncFriendshipsRow f (d.(users) !! other) c])).

Definition SyncGuildMembers (userID : uuid) (updatedAt : time) : GoM World (list GuildMember) :=
  query (λ d, inr (rows (λ k m,
    (updatedAt <? gm_updated_at m)%Z && member_of d userID k.1) d.(guild_members))).

Definition SyncGuilds (userID : uuid) (updatedAt : time) : GoM World (list Guild) :=
  query (λ d, inr (rows (λ id g,
    member_of d userID id && (updatedAt <? g_updated_at g)%Z) d.(guilds))).

Definition SyncRoles (userID : uuid) (updatedAt : time) : GoM World (list Role) :=
  query (λ d, inr (rows (λ _ r,
    (updatedAt <? r_updated_at r)%Z && member_of d userID (r_guild_id r)) d.(roles))).

Definition SyncUsers (updatedAt : time) (id : uuid) : GoM World (list User) :=
  query (λ d, inr (rows (λ uid u,
    (updatedAt <? u_updated_at u)%Z &&
    (uuid_eqb uid id ||
     match d.(friendships) !! (id, uid) with Some f => negb (f_deleted f) | None => false end ||
     match d.(friendships) !! (uid, id) with Some f => negb (f_deleted f) | None => false end ||
     map_existsb (λ k _, uuid_eqb k.2 uid && member_of d id k.1) d.(guild_members)))
    d.(users))).

(** *** media.sql.go *)
Definition ConfirmMediaFile (id : uuid) : GoM World MediaFile :=
  sql (λ _ _ d,
    match d.(media_files) !! id with
    | None => no_rows
    | Some m => let row := media_confirmed m in
                inr (row, with_media_files (<[id := row]> d.(media_files)) d)
    end).

Definition CreateMediaFile (uploaderID : uuid) (filename contentType : string) (size : Z)
    (bucketKey : string) : GoM World MediaFile :=
  sql (λ t id d,
    if has d.(media_files) id then inl (Driver UniqueViolation)
    else if has d.(users) uploaderID then
      let row := mkMediaFile id uploaderID filename contentType size bucketKey false t false t in
      inr (row, with_media_files (<[id := row]> d.(media_files)) d)
    else fk_violation).

Definition DeleteMediaFile (id : uuid) : GoM World unit :=
  sql (λ t _ d, inr (tt, with_media_files (alter (media_deleted t) id d.(media_files)) d)).

Definition GetMediaFile (id : uuid) : GoM World MediaFile :=
  query (λ d, one (live mf_deleted (d.(media_files) !! id))).
End Statements.
End Queries.
