(* ===== verification/Authz.v ===== *)
(** * Authz: the Postgres-backed permission layer

    Models [src/internal/shared/authz/client.go]: the permission catalogue,
    [Check] and its typed wrappers, the channel-scoped checks with their
    overrides and the channel-to-guild cache, the role and override mutations,
    the role hierarchy test [CanActOn] and the listing functions.  The SQL
    texts become boolean functions of the tables; their meaning is given by
    the propositions [IsOwner], [HoldsRole], [Grants] and [Authorized]. *)
From S2P Require Import Prelude Realtime Store Queries.

(** ** Keys *)
Definition UserKey (userID : string) : string := "user:" +:+ userID.
Definition GuildKey (guildID : string) : string := "guild:" +:+ guildID.
Definition ChannelKey (channelID : string) : string := "channel:" +:+ channelID.
Definition RoleKey (roleID : string) : string := "role:" +:+ roleID.

(** ** Permission names *)
Definition PermissionRelation : list (string * string) :=
  [("VIEW_CHANNELS", "can_view_channels");
   ("SEND_MESSAGES", "can_send_messages");
   ("MANAGE_MESSAGES", "can_manage_messages");
   ("MANAGE_CHANNELS", "can_manage_channels");
   ("MANAGE_GUILD", "can_manage_guild");
   ("KICK_MEMBERS", "can_kick");
   ("BAN_MEMBERS", "can_ban");
   ("MANAGE_ROLES", "can_manage_roles");
   ("MANAGE_INVITES", "can_manage_invites");
   ("ADD_REACTIONS", "can_add_reactions");
   ("CONNECT", "can_connect");
   ("SPEAK", "can_speak");
   ("STREAM", "can_stream");
   ("MUTE_MEMBERS", "can_mute_members");
   ("DEAFEN_MEMBERS", "can_deafen_members");
   ("MENTION_EVERYONE", "can_mention_everyone");
   ("MANAGE_EMOJIS", "can_manage_emojis");
   ("MANAGE_WEBHOOKS", "can_manage_webhooks");
   ("VIEW_AUDIT_LOG", "can_view_audit_log");
   ("VIEW_GUILD_INSIGHTS", "can_view_guild_insights");
   ("MANAGE_NICKNAMES", "can_manage_nicknames");
   ("CHANGE_NICKNAME", "can_change_nickname");
   ("CREATE_GUILD_EXPRESSIONS", "can_create_guild_expressions");
   ("MODERATE_MEMBERS", "can_moderate_members");
   ("VIEW_CREATOR_MONETIZATION_ANALYTICS", "can_view_monetization");
   ("SEND_TTS_MESSAGES", "can_send_tts");
   ("EMBED_LINKS", "can_embed_links");
   ("ATTACH_FILES", "can_attach_files");
   ("READ_MESSAGE_HISTORY", "can_read_message_history");
   ("USE_EXTERNAL_EMOJIS", "can_use_external_emojis");
   ("USE_EXTERNAL_STICKERS", "can_use_external_stickers");
   ("USE_EXTERNAL_SOUNDS", "can_use_external_sounds");
   ("USE_EXTERNAL_APPS", "can_use_external_apps");
   ("PRIORITY_SPEAKER", "can_priority_speaker");
   ("MOVE_MEMBERS", "can_move_members");
   ("USE_VAD", "can_use_vad");
   ("REQUEST_TO_SPEAK", "can_request_to_speak");
   ("USE_SOUNDBOARD", "can_use_soundboard");
   ("USE_EMBEDDED_ACTIVITIES", "can_use_embedded_activities");
   ("SEND_VOICE_MESSAGES", "can_send_voice_messages");
   ("SEND_POLLS", "can_send_polls");
   ("PIN_MESSAGES", "can_pin_messages");
   ("BYPASS_SLOWMODE", "can_bypass_slowmode");
   ("CREATE_PUBLIC_THREADS", "can_create_public_threads");
   ("CREATE_PRIVATE_THREADS", "can_create_private_threads");
   ("SEND_MESSAGES_IN_THREADS", "can_send_messages_in_threads");
   ("MANAGE_THREADS", "can_manage_threads");
   ("CREATE_EVENTS", "can_create_events");
   ("MANAGE_EVENTS", "can_manage_events");
   ("ADMINISTRATOR", "admin")].

(** [relationToName], built at init by inverting [PermissionRelation]. *)
Definition relationToName : list (string * string) :=
  (λ '(name, rel), (rel, name)) <$> PermissionRelation.

(** ** The questions the SQL texts ask *)
Section Rbac.
Implicit Types (d : Db) (u g rid : uuid).

(** [g.id = $2 AND g.owner_id = $1 AND g.deleted = FALSE] *)
Definition owner_sql d u g : bool :=
  match live g_deleted (d.(guilds) !! g) with
  | Some row => uuid_eqb (g_owner_id row) u
  | None => false
  end.

(** [role_members rm JOIN roles r ON r.id = rm.role_id AND r.guild_id = $2 AND
    NOT r.deleted WHERE rm.user_id = $1 AND NOT rm.deleted], for one role. *)
Definition holds_role_sql d u g rid : bool :=
  match live rm_deleted (d.(role_members) !! (rid, u)), live r_deleted (d.(roles) !! rid) with
  | Some _, Some r => uuid_eqb (r_guild_id r) g
  | _, _ => false
  end.

(** [role_permissions rp JOIN permissions p ON p.id = rp.permission_id WHERE
    rp.role_id = r.id AND p.name = name]. *)
Definition grants_sql d rid (name : string) : bool :=
  map_existsb (λ k _,
    uuid_eqb k.1 rid &&
    match d.(permissions) !! k.2 with Some p => string_eqb (p_name p) name | None => false end)
    d.(role_permissions).

Definition some_role_sql d u g (P : uuid → bool) : bool :=
  map_existsb (λ k _, uuid_eqb k.2 u && holds_role_sql d u g k.1 && P k.1) d.(role_members).

(** [checkSQL] *)
Definition checkSQL d u g (name : string) : bool :=
  owner_sql d u g ||
  some_role_sql d u g (λ rid, grants_sql d rid name || grants_sql d rid "ADMINISTRATOR").

(** The query of [isOwnerOrAdmin]. *)
Definition ownerOrAdminSQL d u g : bool :=
  owner_sql d u g || some_role_sql d u g (λ rid, grants_sql d rid "ADMINISTRATOR").

(** [COALESCE(MAX(r.position), -1)] over the live roles of [u] in [g]. *)
Definition role_positions d u g : list Z :=
  omap (λ k, if uuid_eqb k.1.2 u && holds_role_sql d u g k.1.1
             then r_position <$> d.(roles) !! k.1.1 else None)
    (map_to_list d.(role_members)).
Definition coalesce_max (l : list Z) : Z :=
  match l with [] => (-1)%Z | x :: l => foldr Z.max x l end.
Definition top_position d u g : Z := coalesce_max (role_positions d u g).

(** The query of [CanActOn]. *)
Definition canActOnSQL d actor target g : bool :=
  negb (owner_sql d target g) &&
  (owner_sql d actor g || (top_position d target g <? top_position d actor g)%Z).

(** The query of [applyChannelOverride]: (layer, effect) rows, [ORDER BY layer DESC]. *)
Definition override_rows d (uid : uuid) (gid : option uuid) (channel : uuid) (name : string) :
    list (Z * string) :=
  order_by (λ r, - r.1)%Z
    (omap (λ '((ch, tgt, tid, pid), o),
       if uuid_eqb ch channel &&
          match d.(permissions) !! pid with
          | Some p => string_eqb (p_name p) name
          | None => false
          end &&
          ((string_eqb tgt "user" && uuid_eqb tid uid) ||
           (string_eqb tgt "role" &&
            match gid with Some g => holds_role_sql d uid g tid | None => false end))
       then Some (if string_eqb tgt "user" then 2%Z else 1%Z, cpo_effect o)
       else None)
     (map_to_list d.(channel_permission_overwrites))).

(** [SELECT id FROM permissions WHERE name = $n] *)
Definition permission_ids d (name : string) : list Z :=
  p_id <$> rows (λ _ p, string_eqb (p_name p) name) d.(permissions).

(** [ORDER BY name] *)
Definition sort_names (l : list string) : list string := merge_sort String.le l.
End Rbac.

(** The row loop of [applyChannelOverride]: the effects seen so far in the user
    and in the role layer. *)
Definition override_step (acc : string * string) (row : Z * string) : string * string :=
  let '(userEffect, roleEffect) := acc in
  let '(layer, effect) := row in
  if Z.eqb layer 2 then
    (if negb (string_eqb userEffect "deny") then effect else userEffect, roleEffect)
  else if Z.eqb layer 1 then
    (userEffect, if negb (string_eqb roleEffect "allow") then effect else roleEffect)
  else acc.

(** The final [switch] of [applyChannelOverride]. *)
Definition override_decision (effects : string * string) (guildAllowed : bool) : bool :=
  let '(userEffect, roleEffect) := effects in
  if string_eqb userEffect "deny" then false
  else if string_eqb userEffect "allow" then true
  else if string_eqb roleEffect "deny" then false
  else if string_eqb roleEffect "allow" then true
  else guildAllowed.

Definition chanGuildCacheTTL : Z := 300000000.
Definition chanGuildCacheMax : nat := 5000.

Module Authz.
Section Client.
Context `{Env} `{!UuidText}.

Definition parseUUID (s : string) : GoM World uuid :=
  match uuid_parse s with
  | Some u => mret u
  | None => fail (Errorf "cannot parse UUID")
  end.

(** [parseUUID] where the caller answers [b] on an error. *)
Definition with_uuid {A} (s : string) (otherwise : GoM World A) (k : uuid → GoM World A) :
    GoM World A :=
  match uuid_parse s with Some u => k u | None => otherwise end.

(** A query whose error the caller turns into [b]. *)
Definition query_or (b : bool) (q : Db → bool) : GoM World bool :=
  r ← try (query (λ d, inr (q d)));
  mret (match r with inr x => x | inl _ => b end).

Definition Check (userKey relation objectKey : string) : GoM World bool :=
  if negb authz_wired then mret true else
  let userID := TrimPrefix userKey "user:" in
  let guildID := TrimPrefix objectKey "guild:" in
  match assoc relation relationToName with
  | None => mret false
  | Some permName =>
      with_uuid userID (mret false) (λ uid,
      with_uuid guildID (mret false) (λ gid,
      query_or false (λ d, checkSQL d uid gid permName)))
  end.

Definition CanGuildPermission (userID guildID relation : string) : GoM World bool :=
  Check (UserKey userID) relation (GuildKey guildID).
Definition CanManageGuild (userID guildID : string) : GoM World bool :=
  Check (UserKey userID) "can_manage_guild" (GuildKey guildID).
Definition CanKick (userID guildID : string) : GoM World bool :=
  Check (UserKey userID) "can_kick" (GuildKey guildID).
Definition CanBan (userID guildID : string) : GoM World bool :=
  Check (UserKey userID) "can_ban" (GuildKey guildID).
Definition CanManageRoles (userID guildID : string) : GoM World bool :=
  Check (UserKey userID) "can_manage_roles" (GuildKey guildID).
Definition CanManageChannels (userID guildID : string) : GoM World bool :=
  Check (UserKey userID) "can_manage_channels" (GuildKey guildID).
Definition CanManageInvites (userID guildID : string) : GoM World bool :=
  Check (UserKey userID) "can_manage_invites" (GuildKey guildID).
Definition CanAddReactions (userID guildID : string) : GoM World bool :=
  Check (UserKey userID) "can_add_reactions" (GuildKey guildID).
Definition CanPinMessages (userID guildID : string) : GoM World bool :=
  Check (UserKey userID) "can_pin_messages" (GuildKey guildID).
Definition CanAttachFiles (userID guildID : string) : GoM World bool :=
  Check (UserKey userID) "can_attach_files" (GuildKey guildID).
Definition CanMentionEveryone (userID guildID : string) : GoM World bool :=
  Check (UserKey userID) "can_mention_everyone" (GuildKey guildID).
Definition CanReadMessageHistory (userID guildID : string) : GoM World bool :=
  Check (UserKey userID) "can_read_message_history" (GuildKey guildID).
Definition CanConnect (userID guildID : string) : GoM World bool :=
  Check (UserKey userID) "can_connect" (GuildKey guildID).
Definition CanSpeak (userID guildID : string) : GoM World bool :=
  Check (UserKey userID) "can_speak" (GuildKey guildID).
Definition CanStream (userID guildID : string) : GoM World bool :=
  Check (UserKey userID) "can_stream" (GuildKey guildID).
Definition CanMuteMembers (userID guildID : string) : GoM World bool :=
  Check (UserKey userID) "can_mute_members" (GuildKey guildID).
Definition CanDeafenMembers (userID guildID : string) : GoM World bool :=
  Check (UserKey userID) "can_deafen_members" (GuildKey guildID).
Definition CanMoveMembers (userID guildID : string) : GoM World bool :=
  Check (UserKey userID) "can_move_members" (GuildKey guildID).

(** *** Channel-scoped checks *)
Definition cacheChannelGuild (channelID guildID : string) : GoM World unit :=
  t ← now;
  modify (λ w,
    let base := if decide (chanGuildCacheMax ≤ size w.(chanGuildCache))
                then ∅ else w.(chanGuildCache) in
    with_cache (<[channelID := mkChanGuildEntry guildID (t + chanGuildCacheTTL)%Z]> base) w).

(** [(guildID, isDM, err)] *)
Definition resolveChannelGuild (channelID : string) : GoM World (string * bool) :=
  t ← now;
  cached ← gets (λ w,
    match w.(chanGuildCache) !! channelID with
    | Some e => if (t <? cge_expiresAt e)%Z then Some (cge_guildID e) else None
    | None => None
    end);
  match cached with
  | Some guildID => mret (guildID, string_eqb guildID "")
  | None =>
      chUUID ← parseUUID channelID;
      guildID ← query (λ d, one (c_guild_id <$> live c_deleted (d.(channels) !! chUUID)));
      let result := match guildID with Some g => uuid_print g | None => "" end in
      _ ← cacheChannelGuild channelID result;
      mret (result, string_eqb result "")
  end.

Definition isDMMember (userID channelID : string) : GoM World bool :=
  with_uuid userID (mret false) (λ uid,
  with_uuid channelID (mret false) (λ chUUID,
  query_or false (λ d, Queries.dm_live d chUUID uid))).

Definition isOwnerOrAdmin (userID guildID : string) : GoM World bool :=
  with_uuid userID (mret false) (λ uid,
  with_uuid guildID (mret false) (λ gid,
  query_or false (λ d, ownerOrAdminSQL d uid gid))).

Definition applyChannelOverride (userID guildID channelID relation : string)
    (guildAllowed : bool) : GoM World bool :=
  match assoc relation relationToName with
  | None => mret guildAllowed
  | Some permName =>
      with_uuid userID (mret guildAllowed) (λ uid,
      with_uuid channelID (mret guildAllowed) (λ chUUID,
      r ← try (query (λ d, inr (override_rows d uid (uuid_parse guildID) chUUID permName)));
      match r with
      | inl _ => mret guildAllowed
      | inr rows => mret (override_decision (foldl override_step ("", "") rows) guildAllowed)
      end))
  end.

Definition checkChannel (userID channelID relation : string) : GoM World bool :=
  if negb authz_wired then mret true else
  r ← try (resolveChannelGuild channelID);
  match r with
  | inl _ => mret false
  | inr (guildID, isDM) =>
      if isDM : bool then isDMMember userID channelID else
      bypass ← isOwnerOrAdmin userID guildID;
      if bypass : bool then mret true else
      guildAllowed ← Check (UserKey userID) relation (GuildKey guildID);
      applyChannelOverride userID guildID channelID relation guildAllowed
  end.

Definition CanViewChannel (userID channelID : string) : GoM World bool :=
  checkChannel userID channelID "can_view_channels".
Definition CanSendInChannel (userID channelID : string) : GoM World bool :=
  checkChannel userID channelID "can_send_messages".
Definition CanManageChannel (userID channelID : string) : GoM World bool :=
  checkChannel userID channelID "can_manage_channels".

(** *** Role and override mutations *)
Definition AddUserToRole (userID roleID : string) : GoM World unit :=
  if negb authz_wired then mret tt else
  uid ← parseUUID userID;
  rid ← parseUUID roleID;
  Queries.AssignRole rid uid.

Definition RemoveUserFromRole (userID roleID : string) : GoM World unit :=
  if negb authz_wired then mret tt else
  uid ← parseUUID userID;
  rid ← parseUUID roleID;
  Queries.RemoveRole rid uid.

(** [name, ok := relationToName[relation]; if !ok { return error }] *)
Definition relation_name (relation : string) : GoM World string :=
  match assoc relation relationToName with
  | Some name => mret name
  | None => fail (Errorf "authz: unknown relation %q")
  end.

Definition GrantRolePermission (roleID guildID relation : string) : GoM World unit :=
  if negb authz_wired then mret tt else
  name ← relation_name relation;
  rid ← parseUUID roleID;
  sql (λ t _ d,
    let new := filter (λ pid, has d.(role_permissions) (rid, pid) = false)
                 (permission_ids d name) in
    if bool_decide (new ≠ []) && negb (has d.(roles) rid) then fk_violation else
    inr (tt, with_role_permissions
      (foldr (λ pid m, <[(rid, pid) := mkRolePermission rid pid t]> m) d.(role_permissions) new)
      d)).

Definition RevokeRolePermission (roleID guildID relation : string) : GoM World unit :=
  if negb authz_wired then mret tt else
  name ← relation_name relation;
  rid ← parseUUID roleID;
  sql (λ _ _ d,
    inr (tt, with_role_permissions
      (foldr (λ pid m, delete (rid, pid) m) d.(role_permissions) (permission_ids d name)) d)).

Definition SetChannelOverride (channelID targetType targetID relation effect : string) :
    GoM World unit :=
  if negb authz_wired then mret tt else
  _ ← ensure (string_eqb targetType "role" || string_eqb targetType "user")
        (Errorf "authz: invalid target_type %q");
  _ ← ensure (string_eqb effect "allow" || string_eqb effect "deny")
        (Errorf "authz: invalid effect %q");
  name ← relation_name relation;
  chUUID ← parseUUID channelID;
  tUUID ← parseUUID targetID;
  sql (λ t _ d,
    let pids := permission_ids d name in
    if bool_decide (pids ≠ []) && negb (has d.(channels) chUUID) then fk_violation else
    inr (tt, with_channel_permission_overwrites
      (foldr (λ pid m, <[(chUUID, targetType, tUUID, pid) :=
                           mkOverwrite chUUID targetType tUUID pid effect t]> m)
         d.(channel_permission_overwrites) pids) d)).

Definition DeleteChannelOverride (channelID targetType targetID relation : string) :
    GoM World unit :=
  if negb authz_wired then mret tt else
  name ← relation_name relation;
  chUUID ← parseUUID channelID;
  tUUID ← parseUUID targetID;
  sql (λ _ _ d,
    inr (tt, with_channel_permission_overwrites
      (foldr (λ pid m, delete (chUUID, targetType, tUUID, pid) m)
         d.(channel_permission_overwrites) (permission_ids d name)) d)).

Record ChannelOverride := mkChannelOverride {
  co_TargetType : string; co_TargetID : uuid; co_Permission : string; co_Effect : string
}.

(** The [ORDER BY target_type, target_id, p.name] is not modelled: the rows come
    in table order. *)
Definition ListChannelOverrides (channelID : string) : GoM World (list ChannelOverride) :=
  if negb authz_wired then mret [] else
  chUUID ← parseUUID channelID;
  query (λ d, inr (omap (λ '((ch, tgt, tid, pid), o),
    if uuid_eqb ch chUUID then
      p ← d.(permissions) !! pid;
      Some (mkChannelOverride tgt tid (p_name p) (cpo_effect o))
    else None) (map_to_list d.(channel_permission_overwrites)))).

Definition CanActOn (actorID targetID guildID : string) : GoM World bool :=
  if negb authz_wired then mret true else
  with_uuid actorID (mret false) (λ actor,
  with_uuid targetID (mret false) (λ target,
  with_uuid guildID (mret false) (λ guild,
  query_or false (λ d, canActOnSQL d actor target guild)))).

Definition ListGuildPermissions (userID guildID : string) : GoM World (list string) :=
  if negb authz_wired then mret [] else
  uid ← parseUUID userID;
  gid ← parseUUID guildID;
  full ← query (λ d, inr (ownerOrAdminSQL d uid gid));
  if full : bool then
    query (λ d, inr (sort_names (p_name <$> (map_to_list d.(permissions)).*2)))
  else
    query (λ d, inr (sort_names (remove_dups
      (p_name <$> rows (λ pid _,
         some_role_sql d uid gid (λ rid, has d.(role_permissions) (rid, pid)))
         d.(permissions))))).

Definition ListRolePermissions (roleID : string) : GoM World (list string) :=
  if negb authz_wired then mret [] else
  rid ← parseUUID roleID;
  query (λ d, inr (sort_names
    (p_name <$> rows (λ pid _, has d.(role_permissions) (rid, pid)) d.(permissions)))).
End Client.
End Authz.

(** ** The abstract specification *)
Section Spec.
Implicit Types (d : Db) (u g rid ch : uuid).

(** The guild is live and [u] owns it. *)
Definition IsOwner d u g : Prop :=
  ∃ row, d.(guilds) !! g = Some row ∧ g_deleted row = false ∧ g_owner_id row = u.
(** [u] is a live member of the live role [rid], which belongs to guild [g]. *)
Definition HoldsRole d u g rid : Prop :=
  ∃ rm r, d.(role_members) !! (rid, u) = Some rm ∧ rm_deleted rm = false ∧
          d.(roles) !! rid = Some r ∧ r_deleted r = false ∧ r_guild_id r = g.
(** Role [rid] carries the permission called [name]. *)
Definition Grants d rid (name : string) : Prop :=
  ∃ pid rp p, d.(role_permissions) !! (rid, pid) = Some rp ∧
              d.(permissions) !! pid = Some p ∧ p_name p = name.
Definition IsAdmin d u g : Prop := ∃ rid, HoldsRole d u g rid ∧ Grants d rid "ADMINISTRATOR".
(** What [Check] is meant to decide. *)
Definition Authorized d u g (name : string) : Prop :=
  IsOwner d u g ∨ IsAdmin d u g ∨ ∃ rid, HoldsRole d u g rid ∧ Grants d rid name.

(** An override of permission [name] on channel [ch] aimed at user [u], or at
    a role of [g] that [u] holds. *)
Definition UserOverride d ch u (name effect : string) : Prop :=
  ∃ pid o p, d.(channel_permission_overwrites) !! (ch, "user", u, pid) = Some o ∧
             cpo_effect o = effect ∧ d.(permissions) !! pid = Some p ∧ p_name p = name.
Definition RoleOverride d g ch u (name effect : string) : Prop :=
  ∃ rid pid o p, d.(channel_permission_overwrites) !! (ch, "role", rid, pid) = Some o ∧
             cpo_effect o = effect ∧ d.(permissions) !! pid = Some p ∧ p_name p = name ∧
             HoldsRole d u g rid.

(** Who may use permission [name] on channel [ch]: a DM channel asks for
    membership; in a guild, owner and administrators always pass, then a
    user override decides (deny first), then a role override (allow first),
    then the guild-level grant. *)
Definition ChannelRule d u ch (name : string) (guild : option uuid) : Prop :=
  match guild with
  | None => ∃ m, d.(dm_channel_members) !! (ch, u) = Some m ∧ dm_deleted m = false
  | Some g =>
      IsOwner d u g ∨ IsAdmin d u g ∨
      (¬ UserOverride d ch u name "deny" ∧
       (UserOverride d ch u name "allow" ∨
        RoleOverride d g ch u name "allow" ∨
        (¬ RoleOverride d g ch u name "deny" ∧ Authorized d u g name)))
  end.
Definition ChannelAuthorized d u ch (name : string) : Prop :=
  ∃ c, d.(channels) !! ch = Some c ∧ c_deleted c = false ∧ ChannelRule d u ch name (c_guild_id c).

(** The [CHECK (effect IN ('allow', 'deny'))] and
    [CHECK (target_type IN ('role', 'user'))] constraints. *)
Definition override_wf (k : uuid * string * uuid * Z) (o : ChannelPermissionOverwrite) : Prop :=
  (cpo_effect o = "allow" ∨ cpo_effect o = "deny") ∧
  (k.1.1.2 = "role" ∨ k.1.1.2 = "user").
Definition overrides_wf d : Prop := map_Forall override_wf d.(channel_permission_overwrites).

(** [permissions.id] is the key and [permissions.name] is UNIQUE. *)
Definition permissions_wf d : Prop :=
  (∀ pid p, d.(permissions) !! pid = Some p → p_id p = pid) ∧
  (∀ pid pid' p p', d.(permissions) !! pid = Some p → d.(permissions) !! pid' = Some p' →
     p_name p = p_name p' → pid = pid').
End Spec.

(** ** The SQL texts decide the specification *)
Section Decides.
Implicit Types (d : Db) (u g rid ch : uuid).

Lemma uuid_eqb_true (a b : uuid) : uuid_eqb a b = true ↔ a = b.
Proof. apply bool_decide_eq_true. Qed.
Lemma string_eqb_true a b : string_eqb a b = true ↔ a = b.
Proof. apply bool_decide_eq_true. Qed.
Lemma string_eqb_refl a : string_eqb a a = true.
Proof. by apply string_eqb_true. Qed.

Lemma owner_sql_true d u g : owner_sql d u g = true ↔ IsOwner d u g.
Proof.
  unfold owner_sql, IsOwner. destruct (live _ _) as [row|] eqn:E.
  - apply live_Some in E as [E Hd]. rewrite uuid_eqb_true. split; [eauto|].
    intros (row' & ? & _ & ?). by simplify_eq.
  - split; [done|]. intros (row & Hg & Hd & _).
    assert (live g_deleted (d.(guilds) !! g) = Some row) by by apply live_Some. congruence.
Qed.

Lemma holds_role_sql_true d u g rid : holds_role_sql d u g rid = true ↔ HoldsRole d u g rid.
Proof.
  unfold holds_role_sql, HoldsRole. split.
  - destruct (live rm_deleted _) as [rm|] eqn:E1; [|done].
    destruct (live r_deleted _) as [r|] eqn:E2; [|done].
    apply live_Some in E1 as [??], E2 as [??]. rewrite uuid_eqb_true. intros. eauto 10.
  - intros (rm & r & H1 & H2 & H3 & H4 & H5).
    rewrite H1, H3. simpl. rewrite H2, H4. by apply uuid_eqb_true.
Qed.

Lemma grants_sql_true d rid name : grants_sql d rid name = true ↔ Grants d rid name.
Proof.
  unfold grants_sql, Grants. rewrite map_existsb_true. split.
  - intros ([r pid] & rp & Hk & [Hr HP]%andb_true_iff). apply uuid_eqb_true in Hr. simpl in *.
    destruct (d.(permissions) !! pid) as [p|] eqn:Hp; [|done].
    apply string_eqb_true in HP. subst. eauto 10.
  - intros (pid & rp & p & Hrp & Hp & Hn). exists (rid, pid), rp. split; [done|]. simpl.
    rewrite Hp, andb_true_iff, uuid_eqb_true, string_eqb_true. done.
Qed.

Lemma some_role_sql_true d u g P :
  some_role_sql d u g P = true ↔ ∃ rid, HoldsRole d u g rid ∧ P rid = true.
Proof.
  unfold some_role_sql. rewrite map_existsb_true. split.
  - intros ([rid u'] & rm & Hk & H). apply andb_true_iff in H as [[Hu Hh]%andb_true_iff HP].
    apply uuid_eqb_true in Hu. simpl in *. subst. apply holds_role_sql_true in Hh. eauto.
  - intros (rid & Hh & HP). pose proof Hh as (rm & r & Hrm & _).
    exists (rid, u), rm. split; [done|]. simpl.
    by rewrite HP, (proj2 (uuid_eqb_true u u)), (proj2 (holds_role_sql_true _ _ _ _) Hh).
Qed.

Lemma ownerOrAdminSQL_true d u g : ownerOrAdminSQL d u g = true ↔ IsOwner d u g ∨ IsAdmin d u g.
Proof.
  unfold ownerOrAdminSQL, IsAdmin. rewrite orb_true_iff, owner_sql_true, some_role_sql_true.
  by setoid_rewrite grants_sql_true.
Qed.

Lemma checkSQL_true d u g name : checkSQL d u g name = true ↔ Authorized d u g name.
Proof.
  unfold checkSQL, Authorized, IsAdmin. rewrite orb_true_iff, owner_sql_true, some_role_sql_true.
  setoid_rewrite orb_true_iff. setoid_rewrite grants_sql_true. naive_solver.
Qed.
End Decides.
#[export] Hint Rewrite uuid_eqb_true string_eqb_true owner_sql_true holds_role_sql_true
  grants_sql_true ownerOrAdminSQL_true checkSQL_true andb_true_iff orb_true_iff : reflect.
