(* ===== verification/Wp.v ===== *)
(** * Wp: weakest preconditions over the tables

    [wpd m Q d]: from every world whose tables are [d], whatever the clock, the
    interaction counter, the cache and the other stores hold, the outcome of
    [m] and the tables it leaves satisfy [Q].  The rules follow the program;
    a statement that may be lost contributes the branch guarded by
    [can_fail], which a fault-free environment discharges. *)
From S2P Require Import Prelude Realtime Store Queries Authz.

Definition wpd {A} (m : GoM World A) (Q : outcome A → Db → Prop) (d : Db) : Prop :=
  ∀ w, w.(db) = d → Q (m w).1 (m w).2.(db).

Definition can_fail `{Env} : Prop := ∃ n, faults n ≠ NoFault.
Definition lost : error := Driver Unavailable.

Lemma fault_free_not_can_fail `{Env} : fault_free → ¬ can_fail.
Proof. intros Hn [n Hf]. by rewrite Hn in Hf. Qed.

(** The postcondition that only constrains successful runs. *)
Definition on_Ok {A} (P : A → Db → Prop) (Q : Db → Prop) (o : outcome A) (d : Db) : Prop :=
  match o with Ok a => P a d | _ => Q d end.

Section Rules.
Context `{Env}.

Lemma wpd_run {A} (m : GoM World A) Q w o w' :
  wpd m Q w.(db) → m w = (o, w') → Q o w'.(db).
Proof. intros Hm E. specialize (Hm w eq_refl). by rewrite E in Hm. Qed.

Lemma wpd_mono {A} (m : GoM World A) (Q Q' : outcome A → Db → Prop) d :
  wpd m Q d → (∀ o d', Q o d' → Q' o d') → wpd m Q' d.
Proof. intros Hm HQ w Hw. apply HQ, Hm, Hw. Qed.

(** A hypothesis of the postcondition that does not depend on the run. *)
Lemma wpd_impl {A} (m : GoM World A) (P : Prop) (Q : outcome A → Db → Prop) d :
  (P → wpd m Q d) → wpd m (λ o d', P → Q o d') d.
Proof. intros Hm w Hw HP. by apply Hm. Qed.

Lemma wpd_ret {A} (a : A) (Q : outcome A → Db → Prop) d : Q (Ok a) d → wpd (mret a) Q d.
Proof. intros HQ w <-. exact HQ. Qed.
Lemma wpd_fail {A} e (Q : outcome A → Db → Prop) d : Q (Err e) d → wpd (fail e) Q d.
Proof. intros HQ w <-. exact HQ. Qed.
Lemma wpd_panic {A} (Q : outcome A → Db → Prop) d : Q Panic d → wpd go_panic Q d.
Proof. intros HQ w <-. exact HQ. Qed.

Lemma wpd_bind {A B} (m : GoM World A) (k : A → GoM World B) Q d :
  wpd m (λ o d', match o with
                 | Ok a => wpd (k a) Q d'
                 | Err e => Q (Err e) d'
                 | Panic => Q Panic d'
                 end) d → wpd (m ≫= k) Q d.
Proof.
  intros Hm w Hw. specialize (Hm w Hw). unfold mbind, gom_bind.
  destruct (m w) as [[a|e|] w1]; simpl in *; [|done..]. by apply Hm.
Qed.
Lemma wpd_try {A} (m : GoM World A) Q d :
  wpd m (λ o d', match o with
                 | Ok a => Q (Ok (inr a)) d'
                 | Err e => Q (Ok (inl e)) d'
                 | Panic => Q Panic d'
                 end) d → wpd (try m) Q d.
Proof.
  intros Hm w Hw. specialize (Hm w Hw). unfold try. by destruct (m w) as [[a|e|] w1].
Qed.
Lemma wpd_ignore {A} (m : GoM World A) Q d :
  wpd m (λ o d', match o with Panic => Q Panic d' | _ => Q (Ok tt) d' end) d → wpd (ignore m) Q d.
Proof.
  intros Hm w Hw. specialize (Hm w Hw). unfold ignore. by destruct (m w) as [[a|e|] w1].
Qed.
Lemma wpd_on_err {A} (m : GoM World A) h Q d :
  wpd m (λ o d', match o with Err e => Q (Err (h e)) d' | _ => Q o d' end) d → wpd (m ?> h) Q d.
Proof.
  intros Hm w Hw. specialize (Hm w Hw). unfold on_err. by destruct (m w) as [[a|e|] w1].
Qed.
Lemma wpd_ensure b e (Q : outcome unit → Db → Prop) d :
  (b = true → Q (Ok tt) d) → (b = false → Q (Err e) d) → wpd (ensure b e) Q d.
Proof. destruct b; intros H1 H2; [apply wpd_ret|apply wpd_fail]; auto. Qed.
Lemma wpd_deref {A} (p : option A) (Q : outcome A → Db → Prop) d :
  (∀ a, p = Some a → Q (Ok a) d) → (p = None → Q Panic d) → wpd (deref p) Q d.
Proof. destruct p; intros H1 H2; [apply wpd_ret|apply wpd_panic]; auto. Qed.

(** A loop keeps an invariant of the tables. *)
Lemma wpd_for_each {A} (xs : list A) body (I : Db → Prop) (Q : outcome unit → Db → Prop) d :
  I d →
  (∀ x d', x ∈ xs → I d' → wpd (body x) (λ o d'', match o with Ok _ => I d'' | _ => Q o d'' end) d') →
  (∀ d', I d' → Q (Ok tt) d') →
  wpd (for_each xs body) Q d.
Proof.
  intros HI Hb HQ. revert d HI. induction xs as [|x xs IH]; intros d HI; simpl.
  { by apply wpd_ret, HQ. }
  apply wpd_bind. eapply wpd_mono; [apply Hb; [left|done]|].
  intros [[]|e|] d' Hd'; [|done..]. apply IH; [|done].
  intros y d'' Hy. apply Hb. by right.
Qed.

(** A program whose runs only relate the tables by [R]. *)
Lemma wpd_steps {A} (R : relation Db) (m : GoM World A) (Q : outcome A → Db → Prop) d :
  steps (on_db R) m → (∀ o d', R d d' → Q o d') → wpd m Q d.
Proof. intros Hm HQ w <-. apply HQ, Hm. Qed.

Lemma wpd_now Q d : (∀ t, Q (Ok t) d) → wpd now Q d.
Proof. intros HQ w <-. apply HQ. Qed.
Lemma wpd_new_uuid Q d : (∀ u, Q (Ok u) d) → wpd new_uuid Q d.
Proof. intros HQ w <-. apply HQ. Qed.
Lemma wpd_rand_Read n Q d :
  (∀ b, length b = n → Q (Ok b) d) → (can_fail → Q (Err lost) d) → wpd (rand_Read n) Q d.
Proof.
  intros HQ HE w <-. unfold rand_Read.
  destruct (faults _) eqn:E; simpl.
  - apply HQ. by rewrite length_fmap, length_seq.
  - apply HE. exists (tick w). by rewrite E.
  - apply HE. exists (tick w). by rewrite E.
Qed.
Lemma wpd_rand_Int max (Q : outcome (option Z) → Db → Prop) d :
  (0 < max)%Z → (∀ n, (0 ≤ n < max)%Z → Q (Ok (Some n)) d) → (can_fail → Q (Ok None) d) →
  wpd (rand_Int max) Q d.
Proof.
  intros Hm HQ HE w <-. unfold rand_Int. simpl. destruct (faults _) eqn:E.
  - apply HQ, Z.mod_pos_bound, Hm.
  - apply HE. exists (tick w). by rewrite E.
  - apply HE. exists (tick w). by rewrite E.
Qed.
Lemma wpd_gets {A} (f : World → A) (Q : outcome A → Db → Prop) d :
  (∀ a, Q (Ok a) d) → wpd (gets f) Q d.
Proof. intros HQ w <-. apply HQ. Qed.
Lemma wpd_Publish s e Q d : Q (Ok tt) d → wpd (Publish s e) Q d.
Proof. intros HQ w <-. apply HQ. Qed.

Lemma wpd_sql {A} (f : time → uuid → Db → error + (A * Db)) (Q : outcome A → Db → Prop) d :
  (∀ t n, match f t (fresh n) d with
           | inl e => Q (Err e) d
           | inr (a, d') => Q (Ok a) d' ∧ (can_fail → Q (Err lost) d')
           end) →
  (can_fail → Q (Err lost) d) → wpd (sql f) Q d.
Proof.
  intros Hf HE w <-. unfold sql, external.
  specialize (Hf (clock w.(tick)) w.(tick)).
  destruct (faults w.(tick)) eqn:E.
  - destruct (f _ _ _) as [e|[a d']]; simpl; [done|apply Hf].
  - apply HE. exists (tick w). by rewrite E.
  - destruct (f _ _ _) as [e|[a d']]; simpl; [done|].
    apply Hf. exists (tick w). by rewrite E.
Qed.

Lemma wpd_query {A} (f : Db → error + A) (Q : outcome A → Db → Prop) d :
  match f d with inl e => Q (Err e) d | inr a => Q (Ok a) d end →
  (can_fail → Q (Err lost) d) → wpd (query f) Q d.
Proof.
  intros Hf HE. apply wpd_sql; [|done]. intros _ _. by destruct (f d).
Qed.

(** A statement on the other stores leaves the tables alone. *)
Lemma wpd_cql {A} (f : time → uuid → Cass → error + (A * Cass)) Q d :
  (∀ o, Q o d) → wpd (cql f) Q d.
Proof.
  intros HQ w <-. unfold cql, external.
  repeat case_match; apply HQ.
Qed.
Lemma wpd_redis {A} f (Q : outcome A → Db → Prop) d : (∀ o, Q o d) → wpd (redis_cmd f) Q d.
Proof.
  intros HQ w <-. unfold redis_cmd, external.
  repeat case_match; apply HQ.
Qed.

Lemma wpd_query_any {A} (f : bool → Db → error + A) (Q : outcome A → Db → Prop) d :
  (∀ x, wpd (query (f x)) Q d) → wpd (query_any f) Q d.
Proof. intros Hq w Hd. by apply Hq. Qed.
Lemma wpd_one {A} (f : Db → option A) (Q : outcome A → Db → Prop) d :
  (∀ a, f d = Some a → Q (Ok a) d) →
  (f d = None → Q (Err (Driver NoRows)) d) → (can_fail → Q (Err lost) d) →
  wpd (query (λ d, one (f d))) Q d.
Proof.
  intros Ha Hn HE. apply wpd_query; [|done]. destruct (f d) as [a|]; simpl; auto.
Qed.
End Rules.

(** ** The permission layer, as its clients see it

    Every guild-level test answers a boolean and leaves the tables alone; a
    positive answer of a wired client means [Authorized]. *)
Section AuthzRules.
Context `{Env} `{!UuidText}.

Lemma wpd_query_or b q Q d :
  Q (Ok (q d)) d → (can_fail → Q (Ok b) d) → wpd (Authz.query_or b q) Q d.
Proof.
  intros HQ HE. unfold Authz.query_or. apply wpd_bind, wpd_try, wpd_query; [by apply wpd_ret|].
  intros Hf. by apply wpd_ret, HE.
Qed.

Lemma wpd_Check u g relation name (Q : outcome bool → Db → Prop) d :
  assoc relation relationToName = Some name →
  (∀ b, (authz_wired = true → b = true → Authorized d u g name) →
        (¬ can_fail → authz_wired = true → Authorized d u g name → b = true) → Q (Ok b) d) →
  wpd (Authz.Check (UserKey (uuid_print u)) relation (GuildKey (uuid_print g))) Q d.
Proof.
  intros Hr HQ. unfold Authz.Check. rewrite Hr.
  destruct authz_wired eqn:Hw; simpl; [|apply wpd_ret, HQ; [done|by intros]].
  unfold UserKey, GuildKey, Authz.with_uuid. rewrite !TrimPrefix_app, !uuid_parse_print.
  apply wpd_query_or.
  - apply HQ; [by intros _ ?%checkSQL_true|]. intros _ _. apply checkSQL_true.
  - intros Hf. apply HQ; [done|]. by intros.
Qed.

Lemma wpd_CanActOn a b g (Q : outcome bool → Db → Prop) d :
  (∀ x, (authz_wired = true → x = true → canActOnSQL d a b g = true) → Q (Ok x) d) →
  wpd (Authz.CanActOn (uuid_print a) (uuid_print b) (uuid_print g)) Q d.
Proof.
  intros HQ. unfold Authz.CanActOn.
  destruct authz_wired eqn:Hw; simpl; [|by apply wpd_ret, HQ].
  unfold Authz.with_uuid. rewrite !uuid_parse_print. apply wpd_query_or; intros; by apply HQ.
Qed.

(** The answer of a guild test, for any relation of the catalogue. *)
Lemma wpd_Check_any userKey relation objectKey (Q : outcome bool → Db → Prop) d :
  (∀ b, Q (Ok b) d) → wpd (Authz.Check userKey relation objectKey) Q d.
Proof.
  intros HQ. unfold Authz.Check, Authz.with_uuid.
  destruct (negb authz_wired); [by apply wpd_ret|].
  destruct (assoc relation relationToName); [|by apply wpd_ret].
  repeat (case_match; [|by apply wpd_ret]).
  apply wpd_query_or; auto.
Qed.

Lemma wpd_ListRolePermissions r (Q : outcome (list string) → Db → Prop) d :
  (∀ l, Q (Ok l) d) → (∀ e, Q (Err e) d) → wpd (Authz.ListRolePermissions (uuid_print r)) Q d.
Proof.
  intros HQ HE. unfold Authz.ListRolePermissions, Authz.parseUUID.
  destruct (negb authz_wired); [by apply wpd_ret|]. rewrite uuid_parse_print, bind_ret_l.
  apply wpd_query; auto.
Qed.
End AuthzRules.

(** [wpd_auto] applies the rule of the head construct until only facts about
    the tables are left. *)
Ltac wpd_unfold m := let h := head_of m in unfold h.
Ltac wpd_step :=
  match goal with
  | |- wpd (mbind _ _) _ _ => apply wpd_bind
  | |- wpd (mret _) _ _ => apply wpd_ret
  | |- wpd (fail _) _ _ => apply wpd_fail
  | |- wpd go_panic _ _ => apply wpd_panic
  | |- wpd (try _) _ _ => apply wpd_try
  | |- wpd (ignore _) _ _ => apply wpd_ignore
  | |- wpd (on_err _ _) _ _ => apply wpd_on_err
  | |- wpd (ensure _ _) _ _ => apply wpd_ensure; intro
  | |- wpd (deref _) _ _ => apply wpd_deref; intros
  | |- wpd now _ _ => apply wpd_now; intro
  | |- wpd new_uuid _ _ => apply wpd_new_uuid; intro
  | |- wpd (rand_Read _) _ _ => apply wpd_rand_Read; intros
  | |- wpd (rand_Int _) _ _ => apply wpd_rand_Int; [lia|intros|intros]
  | |- wpd (gets _) _ _ => apply wpd_gets; intro
  | |- wpd (Publish _ _) _ _ => apply wpd_Publish
  | |- wpd (cql _) _ _ => apply wpd_cql; intros [?|?|]
  | |- wpd (redis_cmd _) _ _ => apply wpd_redis; intros [?|?|]
  | |- wpd (query (λ _, one _)) _ _ => apply wpd_one; intros
  | |- wpd (query _) _ _ => apply wpd_query; [|intros]
  | |- wpd (sql _) _ _ => apply wpd_sql; [intros ? ?|intros]
  | |- wpd (Authz.CanActOn _ _ _) _ _ => apply wpd_CanActOn; intros
  | |- wpd (Authz.ListRolePermissions _) _ _ => apply wpd_ListRolePermissions; intros
  | |- wpd (Authz.Check (UserKey _) ?r (GuildKey _)) _ _ =>
      first [ eapply wpd_Check; [reflexivity|intros] | apply wpd_Check_any; intros ]
  | |- wpd (match ?x with _ => _ end) _ _ => destruct x eqn:?
  | |- wpd ?m _ _ => wpd_unfold m
  end; cbv beta iota zeta.
Ltac wpd_auto := repeat wpd_step.
