(* ===== verification/AuthzFacts.v ===== *)
(** * AuthzFacts: what the permission layer guarantees

    The guild check decides [Authorized] and fails closed; the channel check
    decides [ChannelAuthorized]; the override loop implements a precedence that
    does not depend on the order of the rows; the role hierarchy is a strict
    order; grants and revocations change exactly one entry of the grant
    relation; the channel cache stays bounded. *)
From S2P Require Import Prelude Realtime Store Queries Authz Wp.

(** ** The override loop

    [effect_of] is the effect a layer ends up with: the absorbing effect [top]
    if some row of the layer carries it, otherwise the other effect if some row
    carries that, otherwise none. *)
Definition effect_of (top other : string) (layer : Z) (rows : list (Z * string)) : string :=
  if decide ((layer, top) ∈ rows) then top
  else if decide ((layer, other) ∈ rows) then other else "".

Definition allow_or_deny (row : Z * string) : Prop := row.2 = "allow" ∨ row.2 = "deny".

(** One more row, in the row's layer or in another. *)
Lemma effect_of_snoc top other layer rows (row : Z * string) :
  top ≠ other → top ≠ "" → row.2 = top ∨ row.2 = other →
  effect_of top other layer (rows ++ [row]) =
    if Z.eqb row.1 layer
    then (if string_eqb (effect_of top other layer rows) top then top else row.2)
    else effect_of top other layer rows.
Proof.
  intros Hne Hemp He. destruct row as [l e]; simpl in *. unfold effect_of, string_eqb.
  assert (∀ x : Z * string, x ∈ rows ++ [(l, e)] ↔ x ∈ rows ∨ x = (l, e)) as Hin
    by (intros; rewrite elem_of_app, list_elem_of_singleton; done).
  destruct (Z.eqb_spec l layer) as [->|Hl]; repeat case_decide; repeat case_bool_decide;
    rewrite ?Hin in *; destruct He; naive_solver.
Qed.

Lemma override_fold rows :
  Forall allow_or_deny rows →
  foldl override_step ("", "") rows =
    (effect_of "deny" "allow" 2 rows, effect_of "allow" "deny" 1 rows).
Proof.
  induction rows as [|[layer effect] rows IH] using rev_ind; [done|].
  rewrite Forall_app, Forall_singleton, foldl_app. intros [Hrows He].
  rewrite IH by done. unfold allow_or_deny in He. simpl in He.
  rewrite !effect_of_snoc by (simpl; tauto || done). cbn [foldl override_step fst snd].
  destruct (Z.eqb_spec layer 2) as [->|H2]; [|destruct (Z.eqb_spec layer 1) as [->|H1]].
  - simpl. f_equal. unfold string_eqb. by case_bool_decide.
  - simpl. f_equal. unfold string_eqb. by case_bool_decide.
  - done.
Qed.

(** ** The override query *)
Section OverrideRows.
Implicit Types (d : Db) (u g ch : uuid).

(** A row of layer 2 is a user override, a row of layer 1 a role override. *)
Lemma elem_of_override_rows d u (og : option uuid) ch name layer effect :
  (layer, effect) ∈ override_rows d u og ch name ↔
  (layer = 2%Z ∧ UserOverride d ch u name effect) ∨
  (layer = 1%Z ∧ ∃ g, og = Some g ∧ RoleOverride d g ch u name effect).
Proof.
  unfold override_rows, order_by. rewrite merge_sort_Permutation, list_elem_of_omap.
  unfold UserOverride, RoleOverride. split.
  - intros ([[[[ch' tgt] tid] pid] o] & Hin & He). apply elem_of_map_to_list in Hin.
    destruct (uuid_eqb ch' ch) eqn:Hch; [|done]. apply uuid_eqb_true in Hch as ->.
    destruct (d.(permissions) !! pid) as [p|] eqn:Hp; [|done].
    destruct (string_eqb (p_name p) name) eqn:Hn; [|done]. apply string_eqb_true in Hn.
    destruct (string_eqb tgt "user") eqn:Hu; simpl in He.
    + apply string_eqb_true in Hu as ->. destruct (uuid_eqb tid u) eqn:Ht; simpl in He.
      * apply uuid_eqb_true in Ht as ->. simplify_eq. left. eauto 10.
      * done.
    + destruct (string_eqb tgt "role") eqn:Hr; [|done]. apply string_eqb_true in Hr as ->.
      destruct og as [g|]; [|done]. destruct (holds_role_sql d u g tid) eqn:Hh; [|done].
      apply holds_role_sql_true in Hh. simpl in He. simplify_eq. right. eauto 15.
  - intros [(-> & pid & o & p & Ho & <- & Hp & Hn)
           |(-> & g & -> & rid & pid & o & p & Ho & <- & Hp & Hn & Hh)].
    + exists ((ch, "user", u, pid), o). split; [by apply elem_of_map_to_list|].
      rewrite Hp, (proj2 (string_eqb_true _ _) Hn), !(proj2 (uuid_eqb_true _ _) eq_refl). done.
    + exists ((ch, "role", rid, pid), o). split; [by apply elem_of_map_to_list|].
      rewrite Hp, (proj2 (string_eqb_true _ _) Hn), !(proj2 (uuid_eqb_true _ _) eq_refl).
      rewrite (proj2 (holds_role_sql_true _ _ _ _) Hh). done.
Qed.

Lemma override_rows_effects d u og ch name :
  overrides_wf d → Forall allow_or_deny (override_rows d u og ch name).
Proof.
  intros Hwf. apply Forall_forall. intros [layer effect] Hin.
  apply elem_of_override_rows in Hin as [(_ & pid & o & p & Ho & <- & _)
    |(_ & g & _ & rid & pid & o & p & Ho & <- & _)]; exact (proj1 (Hwf _ _ Ho)).
Qed.

(** The loop and the switch together: the declared precedence. *)
Lemma override_precedence d u g ch name allowed :
  overrides_wf d →
  override_decision (foldl override_step ("", "") (override_rows d u (Some g) ch name)) allowed = true ↔
  ¬ UserOverride d ch u name "deny" ∧
  (UserOverride d ch u name "allow" ∨ RoleOverride d g ch u name "allow" ∨
   (¬ RoleOverride d g ch u name "deny" ∧ allowed = true)).
Proof.
  intros Hwf. rewrite override_fold by by apply override_rows_effects.
  assert (∀ e, (2%Z, e) ∈ override_rows d u (Some g) ch name ↔ UserOverride d ch u name e) as HU
    by (intros e; rewrite elem_of_override_rows; naive_solver).
  assert (∀ e, (1%Z, e) ∈ override_rows d u (Some g) ch name ↔ RoleOverride d g ch u name e) as HR
    by (intros e; rewrite elem_of_override_rows; naive_solver).
  unfold effect_of. repeat case_decide; rewrite ?HU, ?HR in *; simpl; naive_solver.
Qed.
End OverrideRows.

(** ** Runs of the building blocks *)
Section Runs.
Context `{Env} `{!UuidText}.
Implicit Types w : World.

Lemma query_or_run b q w :
  faults w.(tick) = NoFault → Authz.query_or b q w = (Ok (q w.(db)), bump w).
Proof.
  intros Hn. unfold Authz.query_or, mbind, gom_bind, try.
  rewrite query_run by done. done.
Qed.

(** The answer is the table's, or the default when the statement is lost. *)
Lemma query_or_cases b q w :
  ∃ x, Authz.query_or b q w = (Ok x, bump w) ∧ (x = q w.(db) ∨ x = b).
Proof.
  unfold Authz.query_or, mbind, gom_bind, try, query, sql, external.
  destruct w as [d ? ? ? ? n]; simpl.
  destruct (faults n); eexists; (split; [reflexivity|auto]).
Qed.

Lemma with_uuid_print {A} u (o : GoM World A) k :
  Authz.with_uuid (uuid_print u) o k = k u.
Proof. unfold Authz.with_uuid. by rewrite uuid_parse_print. Qed.

Lemma UserKey_trim s : TrimPrefix (UserKey s) "user:" = s.
Proof. apply TrimPrefix_app. Qed.
Lemma GuildKey_trim s : TrimPrefix (GuildKey s) "guild:" = s.
Proof. apply TrimPrefix_app. Qed.

Lemma Check_run u g relation name w :
  authz_wired = true → faults w.(tick) = NoFault →
  assoc relation relationToName = Some name →
  Authz.Check (UserKey (uuid_print u)) relation (GuildKey (uuid_print g)) w =
    (Ok (checkSQL w.(db) u g name), bump w).
Proof.
  intros Hw Hn Hr. unfold Authz.Check. rewrite Hw, Hr. simpl.
  rewrite UserKey_trim, GuildKey_trim, !with_uuid_print. by apply query_or_run.
Qed.

Lemma with_uuid_false {A} s (k : uuid → GoM World A) (o : A) w x w' :
  Authz.with_uuid s (mret o) k w = (Ok x, w') →
  (x = o ∧ w' = w) ∨ ∃ u, uuid_parse s = Some u ∧ k u w = (Ok x, w').
Proof.
  unfold Authz.with_uuid. destruct (uuid_parse s) as [u|]; [eauto|].
  intros [? ->]%ret_inv. simplify_eq. auto.
Qed.
End Runs.
#[export] Hint Rewrite @UserKey_trim @GuildKey_trim @with_uuid_print : go.

(** ** The channel-to-guild cache *)
Definition guild_text `{!UuidText} (c : Channel) : string :=
  match c_guild_id c with Some g => uuid_print g | None => "" end.

(** Every unexpired entry tells the truth about a live channel. *)
Definition cache_coherent `{Env} `{!UuidText} (w : World) : Prop :=
  ∀ text e, w.(chanGuildCache) !! text = Some e → (clock w.(tick) < cge_expiresAt e)%Z →
    ∃ ch c, text = uuid_print ch ∧ w.(db).(channels) !! ch = Some c ∧ c_deleted c = false ∧
            cge_guildID e = guild_text c.

Section CacheBound.
Context `{Env}.

Definition cache_bounded (w : World) : Prop := size w.(chanGuildCache) ≤ chanGuildCacheMax.

Lemma steps_query_cache {A} (q : Db → error + A) : steps (inv_rel cache_bounded) (query q).
Proof. apply steps_external; [apply _|unfold inv_rel, cache_bounded; simpl; auto..]. Qed.
Lemma steps_now_cache : steps (inv_rel cache_bounded) now.
Proof. intros w Hw. exact Hw. Qed.
Lemma steps_cacheChannelGuild channelID guildID :
  steps (inv_rel cache_bounded) (Authz.cacheChannelGuild channelID guildID).
Proof.
  intros w Hb. unfold cache_bounded in *. simpl. case_decide as Hfull.
  - rewrite insert_empty, map_size_singleton. unfold chanGuildCacheMax. lia.
  - rewrite map_size_insert. destruct (_ !! _); cbn; lia.
Qed.
Lemma steps_query_or_cache b q : steps (inv_rel cache_bounded) (Authz.query_or b q).
Proof. unfold Authz.query_or. steps_auto. apply steps_query_cache. Qed.
End CacheBound.
#[export] Hint Resolve steps_query_cache steps_now_cache steps_cacheChannelGuild
  steps_query_or_cache : steps.

Lemma dm_live_true d ch u :
  Queries.dm_live d ch u = true ↔
  ∃ m, d.(dm_channel_members) !! (ch, u) = Some m ∧ dm_deleted m = false.
Proof.
  unfold Queries.dm_live. split.
  - destruct (_ !! _) as [m|]; [|done]. intros Hm%negb_true_iff. eauto.
  - by intros (m & -> & ->).
Qed.

Lemma ChannelAuthorized_at d u ch name c :
  d.(channels) !! ch = Some c → c_deleted c = false →
  ChannelAuthorized d u ch name ↔ ChannelRule d u ch name (c_guild_id c).
Proof.
  intros Hc Hd. unfold ChannelAuthorized. split; [|by eauto].
  intros (c' & Hc' & _ & Hr). by simplify_eq.
Qed.

Section ChannelRuns.
Context `{Env} `{!UuidText}.
Implicit Types w : World.

Lemma string_eqb_guild_text c :
  string_eqb (guild_text c) "" = bool_decide (c_guild_id c = None).
Proof.
  unfold guild_text. destruct (c_guild_id c) as [g|]; [|done].
  unfold string_eqb. by rewrite !bool_decide_eq_false_2 by (apply uuid_print_nonempty || done).
Qed.

(** The lookup that fills the cache. *)
Lemma lookup_channel_run ch w :
  fault_free →
  query (λ d, one (c_guild_id <$> live c_deleted (d.(channels) !! ch))) w =
    (match live c_deleted (w.(db).(channels) !! ch) with
     | Some c => Ok (c_guild_id c)
     | None => Err (Driver NoRows)
     end, bump w).
Proof.
  intros Hn. rewrite query_run by apply Hn. by destruct (live c_deleted _).
Qed.

(** The answer of [resolveChannelGuild], cached or looked up, is the one the
    [channels] table gives. *)
Lemma resolveChannelGuild_run ch w :
  fault_free → cache_coherent w →
  ∃ w', w'.(db) = w.(db) ∧
  Authz.resolveChannelGuild (uuid_print ch) w =
    (match live c_deleted (w.(db).(channels) !! ch) with
     | Some c => Ok (guild_text c, bool_decide (c_guild_id c = None))
     | None => Err (Driver NoRows)
     end, w').
Proof.
  intros Hn Hco. unfold Authz.resolveChannelGuild, mbind, gom_bind, now, gets.
  simpl (chanGuildCache (bump w)).
  set (cached := match chanGuildCache w !! uuid_print ch with Some _ => _ | None => _ end).
  destruct cached as [text|] eqn:He; subst cached.
  - destruct (w.(chanGuildCache) !! _) as [e|] eqn:Hlook; [|done].
    destruct (Z.ltb_spec (clock w.(tick)) (cge_expiresAt e)) as [Hlt|]; [|done].
    injection He as <-.
    destruct (Hco _ _ Hlook Hlt) as (ch' & c & <-%uuid_print_inj & Hc & Hd & ->).
    exists (bump w). split; [done|]. rewrite Hc. simpl. rewrite Hd. simpl.
    by rewrite string_eqb_guild_text.
  - unfold Authz.parseUUID. rewrite uuid_parse_print. unfold mret at 1, gom_ret at 1.
    rewrite lookup_channel_run by done. simpl (db (bump w)).
    destruct (live c_deleted _) as [c|]; [|eexists; split; [|reflexivity]; done].
    eexists. split; cycle 1.
    + rewrite <- string_eqb_guild_text. reflexivity.
    + done.
Qed.

Lemma applyChannelOverride_run u g ch relation name allowed w :
  fault_free → assoc relation relationToName = Some name →
  Authz.applyChannelOverride (uuid_print u) (uuid_print g) (uuid_print ch) relation allowed w =
    (Ok (override_decision
           (foldl override_step ("", "") (override_rows w.(db) u (Some g) ch name)) allowed),
     bump w).
Proof.
  intros Hn Hr. unfold Authz.applyChannelOverride. rewrite Hr, !with_uuid_print.
  unfold mbind, gom_bind, try. rewrite query_run by apply Hn. by rewrite uuid_parse_print.
Qed.

(** What the exact answers assume is needed: a lost override query leaves the
    guild's answer in force, so a channel hidden by an override opens to
    everybody the guild lets in ... *)
Theorem lost_override_is_ignored u g ch relation allowed w :
  faults (tick w) ≠ NoFault →
  is_Some (assoc relation relationToName) →
  Authz.applyChannelOverride (uuid_print u) g (uuid_print ch) relation allowed w = (Ok allowed, bump w).
Proof.
  intros Hf [name Hr]. unfold Authz.applyChannelOverride. rewrite Hr, !with_uuid_print.
  unfold mbind, gom_bind, try, query, sql, external.
  destruct (faults (tick w)); [done|reflexivity|]. by destruct w.
Qed.
(** ... and a channel is looked up in the cache first, whatever the tables
    say: one that was deleted keeps its guild until the entry expires. *)
Theorem cached_channel_outlives_deletion ch e w :
  w.(chanGuildCache) !! uuid_print ch = Some e → (clock w.(tick) < cge_expiresAt e)%Z →
  Authz.resolveChannelGuild (uuid_print ch) w =
    (Ok (cge_guildID e, string_eqb (cge_guildID e) ""), bump w).
Proof.
  intros He Ht. unfold Authz.resolveChannelGuild, mbind, gom_bind, now, gets. simpl.
  rewrite He. by apply Z.ltb_lt in Ht as ->.
Qed.

Lemma isOwnerOrAdmin_run u g w :
  fault_free →
  Authz.isOwnerOrAdmin (uuid_print u) (uuid_print g) w = (Ok (ownerOrAdminSQL w.(db) u g), bump w).
Proof.
  intros Hn. unfold Authz.isOwnerOrAdmin. rewrite !with_uuid_print. apply query_or_run, Hn.
Qed.

Lemma isDMMember_run u ch w :
  fault_free →
  Authz.isDMMember (uuid_print u) (uuid_print ch) w = (Ok (Queries.dm_live w.(db) ch u), bump w).
Proof.
  intros Hn. unfold Authz.isDMMember. rewrite !with_uuid_print. apply query_or_run, Hn.
Qed.
End ChannelRuns.

(** ** The role hierarchy *)
Lemma canActOnSQL_asym d a b g : canActOnSQL d a b g = true → canActOnSQL d b a g = false.
Proof.
  unfold canActOnSQL. destruct (owner_sql d a g), (owner_sql d b g); simpl; try done.
  intros ?%Z.ltb_lt. apply Z.ltb_ge. lia.
Qed.

Lemma canActOnSQL_trans d a b c g :
  canActOnSQL d a b g = true → canActOnSQL d b c g = true → canActOnSQL d a c g = true.
Proof.
  unfold canActOnSQL. destruct (owner_sql d a g), (owner_sql d b g), (owner_sql d c g);
    simpl; try done.
  intros H1%Z.ltb_lt H2%Z.ltb_lt. apply Z.ltb_lt. lia.
Qed.

(** ** Grants as a relation *)
Lemma elem_of_permission_ids d name pid :
  permissions_wf d →
  pid ∈ permission_ids d name ↔ ∃ p, d.(permissions) !! pid = Some p ∧ p_name p = name.
Proof.
  intros [Hid _]. unfold permission_ids. rewrite list_elem_of_fmap.
  setoid_rewrite elem_of_rows. split.
  - intros (p & -> & pid' & Hp & Hn%string_eqb_true). rewrite (Hid _ _ Hp). eauto.
  - intros (p & Hp & Hn). exists p. split; [by rewrite (Hid _ _ Hp)|].
    exists pid. split; [done|]. by apply string_eqb_true.
Qed.

Lemma lookup_foldr_insert {K V A} `{Countable K} (key : A → K) (val : A → V) l (m : gmap K V) k :
  is_Some (foldr (λ x m, <[key x := val x]> m) m l !! k) ↔
  is_Some (m !! k) ∨ ∃ x, x ∈ l ∧ key x = k.
Proof.
  induction l as [|x l IH]; simpl.
  - split; [auto|]. intros [?|(x & []%not_elem_of_nil & _)]. done.
  - rewrite lookup_insert_is_Some', IH. setoid_rewrite elem_of_cons. naive_solver.
Qed.

Lemma lookup_foldr_delete {K V A} `{Countable K} (key : A → K) l (m : gmap K V) k :
  is_Some (foldr (λ x m, delete (key x) m) m l !! k) ↔
  is_Some (m !! k) ∧ ∀ x, x ∈ l → key x ≠ k.
Proof.
  induction l as [|x l IH]; simpl.
  - split; [|by intros []]. split; [done|]. by intros x ?%not_elem_of_nil.
  - rewrite lookup_delete_is_Some, IH. setoid_rewrite elem_of_cons. naive_solver.
Qed.

(** [Grants] only reads which keys [role_permissions] has. *)
Lemma Grants_alt d rid name :
  Grants d rid name ↔
  ∃ pid p, is_Some (d.(role_permissions) !! (rid, pid)) ∧
           d.(permissions) !! pid = Some p ∧ p_name p = name.
Proof.
  unfold Grants. split.
  - intros (pid & rp & p & ? & ? & ?). exists pid, p. eauto.
  - intros (pid & p & [rp ?] & ? & ?). exists pid, rp, p. eauto.
Qed.

(** What a grant, or a revocation, of [name] on role [rid] does: the grant
    relation changes at that pair only; owners and role holders stay. *)
Definition same_holders d d' : Prop :=
  guilds d' = guilds d ∧ roles d' = roles d ∧ role_members d' = role_members d.
Definition granted d d' rid name : Prop :=
  same_holders d d' ∧ ∀ rid' name', Grants d' rid' name' ↔
    Grants d rid' name' ∨
    (rid' = rid ∧ name' = name ∧ ∃ pid p, d.(permissions) !! pid = Some p ∧ p_name p = name).
Definition revoked d d' rid name : Prop :=
  same_holders d d' ∧ ∀ rid' name', Grants d' rid' name' ↔
    Grants d rid' name' ∧ ¬ (rid' = rid ∧ name' = name).

Lemma wpd_GrantRolePermission `{Env} `{!UuidText} roleID guildID relation rid name
    (Q : outcome unit → Db → Prop) d :
  authz_wired = true → permissions_wf d →
  uuid_parse roleID = Some rid → assoc relation relationToName = Some name →
  (∀ d', granted d d' rid name → Q (Ok tt) d') → (∀ e d', Q (Err e) d') →
  wpd (Authz.GrantRolePermission roleID guildID relation) Q d.
Proof.
  intros Hw Hwf Hrid Hrel HQ HE.
  unfold Authz.GrantRolePermission, Authz.relation_name, Authz.parseUUID.
  rewrite Hw, Hrel, Hrid. cbn [negb]. rewrite !bind_ret_l.
  apply wpd_sql; [|by intros]. intros t _. destruct (_ && _); [apply HE|].
  cbv zeta. split; [|by intros]. apply HQ. split; [done|]. intros rid' name'.
  rewrite !Grants_alt. simpl. setoid_rewrite (lookup_foldr_insert (λ pid, (rid, pid))).
  setoid_rewrite list_elem_of_filter. setoid_rewrite (elem_of_permission_ids _ _ _ Hwf).
  unfold has. split.
  - intros (pid & p & [Hs|(pid' & [_ (p' & Hp' & Hn)] & [= -> ->])] & Hp & Hn').
    + left. eauto.
    + right. simplify_eq. eauto 10.
  - intros [(pid & p & Hs & Hp & Hn)|(-> & -> & pid & p & Hp & Hn)].
    + exists pid, p. auto.
    + exists pid, p. split; [|done].
      destruct (role_permissions _ !! (rid, pid)) eqn:Hs; [left; eauto|].
      right. exists pid. rewrite Hs. eauto.
Qed.

Lemma wpd_RevokeRolePermission `{Env} `{!UuidText} roleID guildID relation rid name
    (Q : outcome unit → Db → Prop) d :
  authz_wired = true → permissions_wf d →
  uuid_parse roleID = Some rid → assoc relation relationToName = Some name →
  (∀ d', revoked d d' rid name → Q (Ok tt) d') → (∀ e d', Q (Err e) d') →
  wpd (Authz.RevokeRolePermission roleID guildID relation) Q d.
Proof.
  intros Hw Hwf Hrid Hrel HQ HE.
  unfold Authz.RevokeRolePermission, Authz.relation_name, Authz.parseUUID.
  rewrite Hw, Hrel, Hrid. cbn [negb]. rewrite !bind_ret_l.
  apply wpd_sql; [|by intros]. intros t _. split; [|by intros]. apply HQ. split; [done|].
  intros rid' name'. rewrite !Grants_alt. simpl.
  setoid_rewrite (lookup_foldr_delete (λ pid, (rid, pid))).
  setoid_rewrite (elem_of_permission_ids _ _ _ Hwf). split.
  - intros (pid & p & [Hs Hno] & Hp & Hn). split; [eauto|].
    intros [-> ->]. apply (Hno pid); eauto.
  - intros [(pid & p & Hs & Hp & Hn) Hno]. exists pid, p. split; [|done]. split; [done|].
    intros pid' (p' & Hp' & Hn') [= <- <-]. simplify_eq. eauto.
Qed.

(** ** The catalogue *)
Lemma PermissionRelation_NoDup : NoDup PermissionRelation.*1 ∧ NoDup relationToName.*1.
Proof. split; (apply (bool_decide_unpack _); vm_compute; exact I). Qed.

(** The init-time inversion is an exact inverse: a relation stands for a
    permission name in [relationToName] if and only if [PermissionRelation]
    maps that name to that relation, so no two names share a relation. *)
Theorem relationToName_inverts name relation :
  assoc relation relationToName = Some name ↔ assoc name PermissionRelation = Some relation.
Proof.
  destruct PermissionRelation_NoDup as [H1 H2]. rewrite !assoc_NoDup by done.
  unfold relationToName. rewrite list_elem_of_fmap. split.
  - intros ([n r] & [= -> ->] & Hin). done.
  - intros Hin. by exists (name, relation).
Qed.

Section Theorems.
Context `{Env} `{!UuidText}.
Implicit Types w : World.

(** C1: when the database answers, [Check] on the keys the services build
    returns exactly whether the user owns the live guild, holds a live role of
    it granting ADMINISTRATOR, or holds a live role of it granting the
    permission, and it changes nothing but the interaction counter. *)
Theorem Check_decides_Authorized u g relation name w :
  authz_wired = true → faults w.(tick) = NoFault →
  assoc relation relationToName = Some name →
  ∃ b, Authz.Check (UserKey (uuid_print u)) relation (GuildKey (uuid_print g)) w = (Ok b, bump w) ∧
       (b = true ↔ Authorized w.(db) u g name).
Proof.
  intros Hw Hn Hr. exists (checkSQL w.(db) u g name).
  split; [by apply Check_run|apply checkSQL_true].
Qed.

(** Whatever the keys, the relation and the faults of the database,
    [Check] returns a boolean (never an error or a panic) without touching the
    tables, and it answers true only if the keys name a user and a guild and
    the user is authorized: an outage or a malformed id denies. *)
Theorem Check_fails_closed userKey relation objectKey w :
  authz_wired = true →
  ∃ b w', Authz.Check userKey relation objectKey w = (Ok b, w') ∧ w'.(db) = w.(db) ∧
    (b = true → ∃ u g name,
       uuid_parse (TrimPrefix userKey "user:") = Some u ∧
       uuid_parse (TrimPrefix objectKey "guild:") = Some g ∧
       assoc relation relationToName = Some name ∧ Authorized w.(db) u g name).
Proof.
  intros Hw. unfold Authz.Check, Authz.with_uuid. rewrite Hw. cbn [negb].
  destruct (assoc relation relationToName) as [name|]; [|exists false, w; repeat (split; [done|]); discriminate].
  destruct (uuid_parse (TrimPrefix userKey _)) as [u|]; [|exists false, w; repeat (split; [done|]); discriminate].
  destruct (uuid_parse (TrimPrefix objectKey _)) as [g|]; [|exists false, w; repeat (split; [done|]); discriminate].
  destruct (query_or_cases false (λ d, checkSQL d u g name) w) as (x & -> & Hx).
  exists x, (bump w). split; [done|]. split; [done|]. intros ->.
  destruct Hx as [Hx|Hx]; [|done]. exists u, g, name.
  repeat (split; [done|]). by apply checkSQL_true.
Qed.
Lemma checkChannel_run u ch relation name w :
  authz_wired = true → fault_free → assoc relation relationToName = Some name →
  overrides_wf w.(db) → cache_coherent w →
  ∃ b w', Authz.checkChannel (uuid_print u) (uuid_print ch) relation w = (Ok b, w') ∧
          w'.(db) = w.(db) ∧ (b = true ↔ ChannelAuthorized w.(db) u ch name).
Proof.
  intros Hw Hn Hr Hwf Hco. unfold Authz.checkChannel. rewrite Hw. cbn [negb].
  destruct (resolveChannelGuild_run ch w Hn Hco) as (w1 & Hdb & Hres).
  unfold mbind at 1, gom_bind at 1, try. rewrite Hres. clear Hres.
  destruct (live c_deleted _) as [c|] eqn:Hc; cycle 1.
  { exists false, w1. do 2 (split; [done|]). split; [done|]. intros (c & Hc' & Hd & _).
    by rewrite Hc' in Hc; simpl in Hc; rewrite Hd in Hc. }
  apply live_Some in Hc as [Hc Hd]. setoid_rewrite (ChannelAuthorized_at _ u ch name c Hc Hd).
  unfold guild_text, ChannelRule. destruct (c_guild_id c) as [g|] eqn:Hg; cycle 1.
  { rewrite bool_decide_eq_true_2, isDMMember_run by done.
    exists (Queries.dm_live w1.(db) ch u), (bump w1). by rewrite dm_live_true, Hdb. }
  rewrite bool_decide_eq_false_2 by done.
  unfold mbind, gom_bind. rewrite isOwnerOrAdmin_run, Hdb by done.
  destruct (ownerOrAdminSQL _ _ _) eqn:Hoa.
  { apply ownerOrAdminSQL_true in Hoa. exists true, (bump w1).
    do 2 (split; [done|]). tauto. }
  rewrite (Check_run u g relation name) by done.
  rewrite (applyChannelOverride_run u g ch relation name) by done. simpl. rewrite Hdb.
  eexists _, _. split; [done|]. split; [done|].
  rewrite override_precedence, checkSQL_true by done.
  assert (¬ (IsOwner w.(db) u g ∨ IsAdmin w.(db) u g)) as Hno
    by by rewrite <- ownerOrAdminSQL_true, Hoa.
  tauto.
Qed.

(** C2: with a coherent channel cache and a database that answers, the
    channel check returns exactly [ChannelAuthorized]: DM membership for a DM
    channel; in a guild, owner and administrators pass, then user overrides
    (deny first), role overrides (allow first) and finally the guild grant
    decide; a missing or deleted channel is refused. *)
Theorem checkChannel_decides_ChannelAuthorized u ch relation name w :
  authz_wired = true → fault_free → assoc relation relationToName = Some name →
  overrides_wf w.(db) → cache_coherent w →
  ∃ b w', Authz.checkChannel (uuid_print u) (uuid_print ch) relation w = (Ok b, w') ∧
          w'.(db) = w.(db) ∧ (b = true ↔ ChannelAuthorized w.(db) u ch name).
Proof. exact (checkChannel_run u ch relation name w). Qed.

(** The channel cache never holds more than 5000 entries, whatever the
    calls, ids and faults. *)
Theorem checkChannel_cache_bounded userID channelID relation :
  steps (inv_rel cache_bounded)
    (Authz.checkChannel userID channelID relation).
Proof.
  unfold Authz.checkChannel, Authz.resolveChannelGuild, Authz.isDMMember, Authz.isOwnerOrAdmin,
    Authz.Check, Authz.applyChannelOverride, Authz.with_uuid, Authz.parseUUID.
  steps_auto.
Qed.
(** [CanActOn] is a strict order on the members of a guild: if it lets
    [a] act on [b], then on the same tables it lets neither [b] act on [a] nor
    [a] on himself, under any faults. *)
Theorem CanActOn_asymmetric a b guildID w w' w1 w2 x :
  authz_wired = true → w'.(db) = w.(db) →
  Authz.CanActOn a b guildID w = (Ok true, w1) →
  Authz.CanActOn b a guildID w' = (Ok x, w2) → x = false.
Proof.
  intros Hw Hdb. unfold Authz.CanActOn. rewrite Hw. cbn [negb].
  intros [[? _]|(ua & Ha & H1)]%with_uuid_false; [done|].
  apply with_uuid_false in H1 as [[? _]|(ub & Hb & H1)]; [done|].
  apply with_uuid_false in H1 as [[? _]|(g & Hg & H1)]; [done|].
  unfold Authz.with_uuid. rewrite Ha, Hb, Hg.
  destruct (query_or_cases false (λ d, canActOnSQL d ua ub g) w) as (y & Hy & Hc).
  rewrite Hy in H1. injection H1 as -> _. destruct Hc as [Hc|Hc]; [|done].
  destruct (query_or_cases false (λ d, canActOnSQL d ub ua g) w') as (z & -> & Hz).
  intros Hx. injection Hx as <- _. destruct Hz as [->| ->]; [|done].
  rewrite Hdb. by apply canActOnSQL_asym.
Qed.

(** Authority is transitive: who may act on [b] may act on everyone [b]
    may act on (same tables, database up). *)
Theorem CanActOn_transitive a b c g w :
  authz_wired = true → fault_free →
  Authz.CanActOn (uuid_print a) (uuid_print b) (uuid_print g) w = (Ok true, bump w) →
  Authz.CanActOn (uuid_print b) (uuid_print c) (uuid_print g) w = (Ok true, bump w) →
  Authz.CanActOn (uuid_print a) (uuid_print c) (uuid_print g) w = (Ok true, bump w).
Proof.
  intros Hw Hn. unfold Authz.CanActOn. rewrite Hw, !with_uuid_print. cbn [negb].
  rewrite !query_or_run by apply Hn. intros H1 H2.
  injection H1 as H1. injection H2 as H2. by rewrite (canActOnSQL_trans _ _ _ _ _ H1 H2).
Qed.

(** A successful grant adds exactly the pair (role, permission named by
    the relation) to the grant relation, and leaves every other grant, the
    owners and the role holders alone. *)
Theorem GrantRolePermission_effect roleID guildID relation w w' rid name :
  authz_wired = true → permissions_wf w.(db) →
  uuid_parse roleID = Some rid → assoc relation relationToName = Some name →
  Authz.GrantRolePermission roleID guildID relation w = (Ok tt, w') →
  granted w.(db) w'.(db) rid name.
Proof.
  intros Hw Hwf Hrid Hrel Hrun.
  refine (wpd_run _ (λ o d', o = Ok tt → granted w.(db) d' rid name) w _ w' _ Hrun eq_refl).
  by eapply wpd_GrantRolePermission.
Qed.

(** A successful revocation removes exactly that pair. *)
Theorem RevokeRolePermission_effect roleID guildID relation w w' rid name :
  authz_wired = true → permissions_wf w.(db) →
  uuid_parse roleID = Some rid → assoc relation relationToName = Some name →
  Authz.RevokeRolePermission roleID guildID relation w = (Ok tt, w') →
  revoked w.(db) w'.(db) rid name.
Proof.
  intros Hw Hwf Hrid Hrel Hrun.
  refine (wpd_run _ (λ o d', o = Ok tt → revoked w.(db) d' rid name) w _ w' _ Hrun eq_refl).
  by eapply wpd_RevokeRolePermission.
Qed.

(** The permission list shown to a member is sorted and holds exactly
    the names of the catalogue for which [Check] would answer true. *)
Theorem ListGuildPermissions_agrees_with_Check u g w :
  authz_wired = true → fault_free →
  ∃ l w', Authz.ListGuildPermissions (uuid_print u) (uuid_print g) w = (Ok l, w') ∧
    Sorted String.le l ∧
    ∀ name, name ∈ l ↔ Authorized w.(db) u g name ∧
                       ∃ pid p, w.(db).(permissions) !! pid = Some p ∧ p_name p = name.
Proof.
  intros Hw Hn. unfold Authz.ListGuildPermissions, Authz.parseUUID.
  rewrite Hw, !uuid_parse_print. cbn [negb]. rewrite !bind_ret_l.
  unfold mbind at 1, gom_bind at 1. rewrite query_run by apply Hn.
  destruct (ownerOrAdminSQL _ _ _) eqn:Hoa; rewrite query_run by apply Hn; simpl (db (bump w));
    eexists _, _; (split; [reflexivity|]); unfold sort_names;
    (split; [apply Sorted_merge_sort, _|]); intros name; rewrite merge_sort_Permutation.
  - apply ownerOrAdminSQL_true in Hoa. rewrite <- list_fmap_compose, list_elem_of_fmap.
    unfold Authorized. split.
    + intros ([pid p] & -> & Hp%elem_of_map_to_list). split; [tauto|]. by exists pid, p.
    + intros (_ & pid & p & Hp & <-). exists (pid, p). by rewrite elem_of_map_to_list.
  - rewrite elem_of_remove_dups, list_elem_of_fmap. setoid_rewrite elem_of_rows.
    setoid_rewrite some_role_sql_true. unfold Authorized. setoid_rewrite Grants_alt.
    assert (¬ (IsOwner w.(db) u g ∨ IsAdmin w.(db) u g)) as Hno
      by by rewrite <- ownerOrAdminSQL_true, Hoa.
    split.
    + intros (p & -> & pid & Hp & rid & Hh & Hs%has_true). split; [|eauto].
      right; right. exists rid. split; [done|]. by exists pid, p.
    + intros [[Ho|[Ha|(rid & Hh & pid & p & Hs & Hp & <-)]] _]; [tauto..|].
      exists p. split; [done|]. exists pid. split; [done|]. exists rid.
      split; [done|]. by apply has_true.
Qed.
End Theorems.

(** ** Worked examples

    Guild 2 is owned by user 1; user 3 holds role 7 (position 4, SEND_MESSAGES
    and KICK_MEMBERS) and user 4 role 8 (position 1); channel 9 belongs to
    guild 2 and denies SEND_MESSAGES to role 7; channel 10 is a DM of 1 and 3. *)
Definition demo_guild : Guild := mkGuild 2 "g" "" "" 1 0 false 0 "".
Definition demo_db : Db :=
  with_guilds {[2%positive := demo_guild]}
  (with_roles {[7%positive := mkRole 7 2 "mods" "" 4 0 false 0;
                8%positive := mkRole 8 2 "@everyone" "" 1 0 false 0]}
  (with_role_members {[(7, 3)%positive := mkRoleMember 7 3 false 0;
                       (8, 4)%positive := mkRoleMember 8 4 false 0]}
  (with_permissions {[1%Z := mkPermission 1 "SEND_MESSAGES"; 2%Z := mkPermission 2 "KICK_MEMBERS";
                      3%Z := mkPermission 3 "BAN_MEMBERS"]}
  (with_role_permissions {[(7%positive, 1%Z) := mkRolePermission 7 1 0;
                           (7%positive, 2%Z) := mkRolePermission 7 2 0]}
  (with_channels {[9%positive := mkChannel 9 (Some 2%positive) "general" 0 "" 0 None 0 false 0;
                   10%positive := mkChannel 10 None "" 5 "" 0 None 0 false 0]}
  (with_dm_channel_members {[(10, 1)%positive := mkDmChannelMember 10 1 false 0;
                             (10, 3)%positive := mkDmChannelMember 10 3 false 0]}
  (with_channel_permission_overwrites
    {[(9%positive, "role", 7%positive, 1%Z) := mkOverwrite 9 "role" 7 1 "deny" 0]}
  empty_db))))))).
Definition demo_world : World := with_db demo_db empty_world.

#[local] Existing Instance demo_wired.
#[local] Existing Instance demo_uuid.

Lemma demo_fault_free : fault_free.
Proof. intros n. reflexivity. Qed.
Lemma demo_overrides_wf : overrides_wf demo_db.
Proof. apply map_Forall_singleton. split; [by right|by left]. Qed.
Lemma demo_permissions_wf : permissions_wf demo_db.
Proof.
  assert (∀ pid p, demo_db.(permissions) !! pid = Some p →
    (pid = 1%Z ∧ p = mkPermission 1 "SEND_MESSAGES") ∨
    (pid = 2%Z ∧ p = mkPermission 2 "KICK_MEMBERS") ∨
    (pid = 3%Z ∧ p = mkPermission 3 "BAN_MEMBERS")) as Hall.
  { intros pid p. simpl. rewrite !lookup_insert_Some, lookup_singleton_Some. naive_solver. }
  split.
  - intros pid p Hp. by destruct (Hall _ _ Hp) as [[-> ->]|[[-> ->]|[-> ->]]].
  - intros pid pid' p p' Hp Hp'.
    destruct (Hall _ _ Hp) as [[-> ->]|[[-> ->]|[-> ->]]];
      by destruct (Hall _ _ Hp') as [[-> ->]|[[-> ->]|[-> ->]]].
Qed.

Lemma Check_decides_Authorized_witness :
  ∃ b, Authz.Check (UserKey (uuid_print 3)) "can_kick"
         (GuildKey (uuid_print 2)) demo_world = (Ok b, bump demo_world) ∧
       (b = true ↔ Authorized demo_db 3 2 "KICK_MEMBERS").
Proof.
  apply (Check_decides_Authorized 3 2 "can_kick" "KICK_MEMBERS"
           demo_world); reflexivity.
Defined.

Lemma Check_fails_closed_witness :
  ∃ b w', Authz.Check "user:junk" "can_kick" "guild:" demo_world
            = (Ok b, w') ∧ w'.(db) = demo_db ∧
    (b = true → ∃ u g name,
       uuid_parse (TrimPrefix "user:junk" "user:") = Some u ∧
       uuid_parse (TrimPrefix "guild:" "guild:") = Some g ∧
       assoc "can_kick" relationToName = Some name ∧ Authorized demo_db u g name).
Proof.
  apply (Check_fails_closed "user:junk" "can_kick" "guild:" demo_world).
  reflexivity.
Defined.

Lemma demo_cache_coherent : cache_coherent demo_world.
Proof. intros text e H. vm_compute in H. discriminate H. Qed.

Lemma checkChannel_decides_ChannelAuthorized_witness :
  ∃ b w', Authz.checkChannel (uuid_print 3) (uuid_print 9)
            "can_send_messages" demo_world = (Ok b, w') ∧ w'.(db) = demo_db ∧
          (b = true ↔ ChannelAuthorized demo_db 3 9 "SEND_MESSAGES").
Proof.
  apply (checkChannel_decides_ChannelAuthorized 3 9
           "can_send_messages" "SEND_MESSAGES" demo_world);
    [reflexivity|exact demo_fault_free|reflexivity|exact demo_overrides_wf
    |exact demo_cache_coherent].
Defined.

(** The role override refuses user 3 what his role grants in the guild. *)
Example checkChannel_demo :
  (Authz.checkChannel (uuid_print 3) (uuid_print 9)
     "can_send_messages" demo_world).1 = Ok false ∧
  (Authz.CanViewChannel (uuid_print 3) (uuid_print 10)
     demo_world).1 = Ok true.
Proof. vm_compute. done. Qed.

Lemma CanActOn_asymmetric_witness :
  ∃ x w2, Authz.CanActOn (uuid_print 4) (uuid_print 3) (uuid_print 2)
            demo_world = (Ok x, w2) ∧ x = false.
Proof.
  eexists _, _. split; [vm_compute; reflexivity|].
  apply (CanActOn_asymmetric (uuid_print 3) (uuid_print 4)
    (uuid_print 2) demo_world demo_world (bump demo_world) (bump demo_world));
    [reflexivity|reflexivity|vm_compute; reflexivity..].
Defined.

Lemma CanActOn_transitive_witness :
  Authz.CanActOn (uuid_print 1) (uuid_print 4) (uuid_print 2)
    demo_world = (Ok true, bump demo_world).
Proof.
  apply (CanActOn_transitive 1 3 4 2 demo_world);
    [reflexivity|exact demo_fault_free|vm_compute; reflexivity..].
Defined.

Lemma GrantRolePermission_effect_witness :
  granted demo_db
    (Authz.GrantRolePermission (uuid_print 8) (uuid_print 2) "can_ban" demo_world).2.(db)
    8 "BAN_MEMBERS".
Proof.
  apply (GrantRolePermission_effect (uuid_print 8) (uuid_print 2) "can_ban" demo_world);
    [reflexivity|exact demo_permissions_wf|reflexivity|reflexivity|].
  apply run_fst. vm_compute. reflexivity.
Defined.

Lemma RevokeRolePermission_effect_witness :
  revoked demo_db
    (Authz.RevokeRolePermission (uuid_print 7) (uuid_print 2) "can_kick" demo_world).2.(db)
    7 "KICK_MEMBERS".
Proof.
  apply (RevokeRolePermission_effect (uuid_print 7) (uuid_print 2) "can_kick" demo_world);
    [reflexivity|exact demo_permissions_wf|reflexivity|reflexivity|].
  apply run_fst. vm_compute. reflexivity.
Defined.

Lemma ListGuildPermissions_agrees_with_Check_witness :
  ∃ l w', Authz.ListGuildPermissions (uuid_print 3) (uuid_print 2)
            demo_world = (Ok l, w') ∧ Sorted String.le l ∧
    ∀ name, name ∈ l ↔ Authorized demo_db 3 2 name ∧
                       ∃ pid p, demo_db.(permissions) !! pid = Some p ∧ p_name p = name.
Proof.
  apply (ListGuildPermissions_agrees_with_Check 3 2 demo_world);
    [reflexivity|exact demo_fault_free].
Defined.
