(* ===== verification/Guild.v ===== *)
(** * Guild: membership, bans, invites, roles and ownership of guilds

    Models [src/internal/features/guild/service.go] and [model.go]: every method
    of the service, with the repository calls ([repository.go] delegates one
    to one to sqlc) made directly on [Queries]. *)
From S2P Require Import Prelude Realtime Store Queries Authz.

Module GuildService.

(** ** model.go *)
Definition ErrGuildNotFound : error := Sentinel "guild.ErrGuildNotFound" "guild not found".
Definition ErrNotGuildOwner : error :=
  Sentinel "guild.ErrNotGuildOwner" "only the guild owner can perform this action".
Definition ErrNotGuildMember : error :=
  Sentinel "guild.ErrNotGuildMember" "not a member of this guild".
Definition ErrAlreadyMember : error :=
  Sentinel "guild.ErrAlreadyMember" "already a member of this guild".
Definition ErrOwnerCannotLeave : error :=
  Sentinel "guild.ErrOwnerCannotLeave" "guild owner cannot leave the guild".
Definition ErrUserBanned : error :=
  Sentinel "guild.ErrUserBanned" "user is banned from this guild".
Definition ErrUserNotBanned : error :=
  Sentinel "guild.ErrUserNotBanned" "user is not banned from this guild".
Definition ErrInviteNotFound : error := Sentinel "guild.ErrInviteNotFound" "invite not found".
Definition ErrInviteExpired : error := Sentinel "guild.ErrInviteExpired" "invite has expired".
Definition ErrInviteMaxUses : error :=
  Sentinel "guild.ErrInviteMaxUses" "invite has reached maximum uses".
Definition ErrRoleNotFound : error := Sentinel "guild.ErrRoleNotFound" "role not found".
Definition ErrMemberNotFound : error := Sentinel "guild.ErrMemberNotFound" "member not found".
Definition ErrCannotKickOwner : error :=
  Sentinel "guild.ErrCannotKickOwner" "cannot kick the guild owner".
Definition ErrCannotBanOwner : error :=
  Sentinel "guild.ErrCannotBanOwner" "cannot ban the guild owner".
Definition ErrInsufficientPermissions : error :=
  Sentinel "guild.ErrInsufficientPermissions" "insufficient permissions".
Definition ErrInvalidPermission : error :=
  Sentinel "guild.ErrInvalidPermission" "unknown permission name".

(** [fmt.Errorf("%w: %v", ErrGuildNotFound, err)] *)
Definition guild_not_found (_ : error) : error := ErrorfW "%w: %v" ErrGuildNotFound.

(** ** Object storage (minio-go) *)
Record MinioClient := mkMinioClient {
  PutObject : string → string → string → bool;
  PresignedGetObject : string → string → option string
}.

Definition maxGuildIconSize : Z := 5 * 1024 * 1024.
Definition maxGuildBannerSize : Z := 10 * 1024 * 1024.
Definition allowedIconContentTypes (contentType : string) : bool :=
  existsb (string_eqb contentType) ["image/jpeg"; "image/png"; "image/gif"; "image/webp"].

(** [JoinGuildResult], [PreviewInviteResult] *)
Record JoinGuildResult := mkJoinGuildResult {
  jr_Guild : Guild; jr_Channels : list Channel; jr_MemberCount : Z
}.
Record PreviewInviteResult := mkPreviewInviteResult {
  pr_Invite : Invite; pr_Guild : Guild; pr_MemberCount : Z; pr_ChannelCount : Z;
  pr_InviterUsername : string; pr_AlreadyMember : bool
}.

(** [hex.EncodeToString] *)
Definition hex_digit (n : Z) : ascii :=
  ascii_of_nat (Z.to_nat (if (n <? 10)%Z then n + 48 else n + 87))%Z.
Fixpoint hex_EncodeToString (b : list Z) : string :=
  match b with
  | [] => ""
  | x :: b => String (hex_digit (Z.shiftr x 4))
                (String (hex_digit (Z.land x 15)) (hex_EncodeToString b))
  end.

(** ** Events *)

(** The [switch k] of [publishGuildEvent]; unknown keys are dropped. *)
Definition set_extra (evt : GuildEvent) (kv : string * string) : GuildEvent :=
  let '(k, v) := kv in
  let '(Build_GuildEvent e a g uid ch name icon banner role reason parent topic
          ty pos rn rc rp perms) := evt in
  if string_eqb k "user_id" then
    Build_GuildEvent e a g v ch name icon banner role reason parent topic ty pos rn rc rp perms
  else if string_eqb k "channel_id" then
    Build_GuildEvent e a g uid v name icon banner role reason parent topic ty pos rn rc rp perms
  else if string_eqb k "name" then
    Build_GuildEvent e a g uid ch v icon banner role reason parent topic ty pos rn rc rp perms
  else if string_eqb k "icon_url" then
    Build_GuildEvent e a g uid ch name v banner role reason parent topic ty pos rn rc rp perms
  else if string_eqb k "banner_url" then
    Build_GuildEvent e a g uid ch name icon v role reason parent topic ty pos rn rc rp perms
  else if string_eqb k "role_id" then
    Build_GuildEvent e a g uid ch name icon banner v reason parent topic ty pos rn rc rp perms
  else if string_eqb k "reason" then
    Build_GuildEvent e a g uid ch name icon banner role v parent topic ty pos rn rc rp perms
  else if string_eqb k "parent_id" then
    Build_GuildEvent e a g uid ch name icon banner role reason v topic ty pos rn rc rp perms
  else if string_eqb k "topic" then
    Build_GuildEvent e a g uid ch name icon banner role reason parent v ty pos rn rc rp perms
  else evt.

(** The [switch k] of [publishRoleEvent] knows two keys. *)
Definition set_role_extra (evt : GuildEvent) (kv : string * string) : GuildEvent :=
  if string_eqb kv.1 "user_id" || string_eqb kv.1 "reason" then set_extra evt kv else evt.

Definition role_snapshot (action : GuildEventType) (gid : string) (roleID : string) (role : Role)
    (perms : list string) : GuildEvent :=
  {| ge_event := action; ge_action := action; ge_guild_id := gid; ge_user_id := "";
     ge_channel_id := ""; ge_name := ""; ge_icon_url := ""; ge_banner_url := "";
     ge_role_id := roleID; ge_reason := ""; ge_parent_id := ""; ge_topic := "";
     ge_type := 0%Z; ge_position := 0%Z; ge_role_name := r_name role;
     ge_role_color := r_color role; ge_role_position := r_position role;
     ge_role_permissions := perms |}.

Section Service.
Context `{Env} `{!UuidText}.
(** The fields [minio], [signer], [bucket] and [inviteBaseURL] of [Service]. *)
Variables (minio signer : option MinioClient) (bucket inviteBaseURL : string).

Definition BuildInviteURL (code : string) : string :=
  if string_eqb inviteBaseURL "" || string_eqb code "" then ""
  else inviteBaseURL +:+ "/" +:+ code.

Definition resolveGuildAssetURL (key : string) : string :=
  if string_eqb key "" then ""
  else if HasPrefix key "http://" || HasPrefix key "https://" then key
  else match signer with
       | None => ""
       | Some m => match PresignedGetObject m bucket key with Some u => u | None => "" end
       end.
Definition ResolveIconURL (key : string) : string := resolveGuildAssetURL key.
Definition ResolveBannerURL (key : string) : string := resolveGuildAssetURL key.

Definition publishGuildEvent (guildID : uuid) (action : GuildEventType)
    (extra : list (string * string)) : GoM World unit :=
  let gid := uuid_print guildID in
  Publish (GuildEvents gid) (EvGuild (foldl set_extra (guild_event action gid) extra)).

Definition publishRoleEvent (guildID : uuid) (action : GuildEventType) (role : Role)
    (extra : list (string * string)) : GoM World unit :=
  let gid := uuid_print guildID in
  perms ← try (Authz.ListRolePermissions (uuid_print (r_id role)));
  Publish (GuildEvents gid) (EvGuild (foldl set_role_extra
    (role_snapshot action gid (uuid_print (r_id role)) role
       (match perms with inr l => l | inl _ => [] end)) extra)).

(** [UploadGuildIcon] and [UploadGuildBanner] differ in the size cap, the key
    prefix, the column and the event field. *)
Definition UploadGuildIcon (callerID guildID : uuid) (filename contentType data : string) :
    GoM World (Guild * string) :=
  match minio with
  | None => fail (Errorf "storage not configured")
  | Some m =>
      ok ← Authz.CanManageGuild (uuid_print callerID) (uuid_print guildID);
      _ ← ensure ok ErrInsufficientPermissions;
      _ ← ensure (negb (Nat.eqb (String.length data) 0)) (Errorf "empty file");
      _ ← ensure (Z.of_nat (String.length data) <=? maxGuildIconSize)%Z
            (Errorf "icon too large (max %d bytes)");
      _ ← ensure (allowedIconContentTypes contentType) (Errorf "unsupported content type: %s");
      id ← new_uuid;
      let objectKey := "guilds/" +:+ uuid_print guildID +:+ "/icon_" +:+ uuid_print id +:+ "_" +:+
                       filename in
      _ ← ensure (PutObject m bucket objectKey data)
            (ErrorfW "failed to upload icon: %w" (Driver Unavailable));
      updated ← Queries.UpdateGuild
                  (Queries.mkUpdateGuildParams guildID None None (Some objectKey) None)
                ?> ErrorfW "failed to update guild icon: %w";
      let iconURL := ResolveIconURL objectKey in
      _ ← publishGuildEvent guildID GUILD_EVENT_UPDATE [("icon_url", iconURL)];
      mret (updated, iconURL)
  end.

Definition UploadGuildBanner (callerID guildID : uuid) (filename contentType data : string) :
    GoM World (Guild * string) :=
  match minio with
  | None => fail (Errorf "storage not configured")
  | Some m =>
      ok ← Authz.CanManageGuild (uuid_print callerID) (uuid_print guildID);
      _ ← ensure ok ErrInsufficientPermissions;
      _ ← ensure (negb (Nat.eqb (String.length data) 0)) (Errorf "empty file");
      _ ← ensure (Z.of_nat (String.length data) <=? maxGuildBannerSize)%Z
            (Errorf "banner too large (max %d bytes)");
      _ ← ensure (allowedIconContentTypes contentType) (Errorf "unsupported content type: %s");
      id ← new_uuid;
      let objectKey := "guilds/" +:+ uuid_print guildID +:+ "/banner_" +:+ uuid_print id +:+ "_" +:+
                       filename in
      _ ← ensure (PutObject m bucket objectKey data)
            (ErrorfW "failed to upload banner: %w" (Driver Unavailable));
      updated ← Queries.UpdateGuild
                  (Queries.mkUpdateGuildParams guildID None None None (Some objectKey))
                ?> ErrorfW "failed to update guild banner: %w";
      let bannerURL := ResolveBannerURL objectKey in
      _ ← publishGuildEvent guildID GUILD_EVENT_UPDATE [("banner_url", bannerURL)];
      mret (updated, bannerURL)
  end.

(** ** The @everyone role *)
Definition ensureEveryoneRole (guildID userID : uuid) : GoM World unit :=
  found ← try (Queries.GetEveryoneRole guildID);
  role ← match found with
         | inr role => mret role
         | inl _ => Queries.CreateRole guildID "@everyone" "" 0
                      ?> ErrorfW "create @everyone role: %w"
         end;
  ignore (Queries.AssignRole (r_id role) userID).

Definition assignEveryoneRole (guildID userID : uuid) : GoM World unit :=
  found ← try (Queries.GetEveryoneRole guildID);
  match found with
  | inl _ => ignore (ensureEveryoneRole guildID userID)
  | inr role =>
      _ ← ignore (Queries.AssignRole (r_id role) userID);
      ignore (Authz.AddUserToRole (uuid_print userID) (uuid_print (r_id role)))
  end.

Definition removeEveryoneRole (guildID userID : uuid) : GoM World unit :=
  found ← try (Queries.GetEveryoneRole guildID);
  match found with
  | inl _ => mret tt
  | inr role =>
      _ ← ignore (Queries.RemoveRole (r_id role) userID);
      ignore (Authz.RemoveUserFromRole (uuid_print userID) (uuid_print (r_id role)))
  end.

(** ** Guilds *)
Definition CreateGuild (ownerID : uuid) (name description iconURL : string) : GoM World Guild :=
  guild ← Queries.CreateGuild name description iconURL ownerID
          ?> ErrorfW "failed to create guild: %w";
  _ ← Queries.AddGuildMember (g_id guild) ownerID "" None None
      ?> ErrorfW "failed to add owner as member: %w";
  let ownerStr := uuid_print ownerID in
  _ ← ignore (ensureEveryoneRole (g_id guild) ownerID);
  _ ← publishGuildEvent (g_id guild) GUILD_EVENT_MEMBER_ADD
        [("user_id", ownerStr); ("name", name)];
  mret guild.

Definition GetGuild (guildID : uuid) : GoM World (Guild * Z) :=
  guild ← Queries.GetGuildByID guildID ?> guild_not_found;
  count ← Queries.CountGuildMembers guildID ?> ErrorfW "failed to count members: %w";
  mret (guild, count).

Definition UpdateGuild (callerID guildID : uuid) (params : Queries.UpdateGuildParams) :
    GoM World Guild :=
  ok ← Authz.CanManageGuild (uuid_print callerID) (uuid_print guildID);
  _ ← ensure ok ErrInsufficientPermissions;
  updated ← Queries.UpdateGuild (Queries.mkUpdateGuildParams guildID
              (Queries.ug_Name params) (Queries.ug_Description params)
              (Queries.ug_IconUrl params) (Queries.ug_BannerUrl params))
            ?> ErrorfW "failed to update guild: %w";
  _ ← publishGuildEvent guildID GUILD_EVENT_UPDATE [("name", g_name updated)];
  mret updated.

Definition DeleteGuild (callerID guildID : uuid) : GoM World unit :=
  guild ← Queries.GetGuildByID guildID ?> guild_not_found;
  _ ← ensure (uuid_eqb (g_owner_id guild) callerID) ErrNotGuildOwner;
  _ ← Queries.DeleteGuild guildID ?> ErrorfW "failed to delete guild: %w";
  publishGuildEvent guildID GUILD_EVENT_DELETE [].

Definition ListUserGuilds (userID : uuid) : GoM World (list Guild) :=
  Queries.ListUserGuilds userID ?> ErrorfW "failed to list guilds: %w".

(** ** Invites and joining *)

(** [if callerID.Valid { if _, err := repo.Get...(callerID); err == nil {...} }] *)
Definition found_for (callerID : option uuid) {A} (get : uuid → GoM World A) : GoM World bool :=
  match callerID with
  | None => mret false
  | Some u =>
      r ← try (get u);
      mret (match r with inr _ => true | inl _ => false end)
  end.

(** [invite.ExpiresAt.Valid && invite.ExpiresAt.Time.Before(time.Now())] *)
Definition invite_expired (invite : Invite) : GoM World bool :=
  match i_expires_at invite with
  | None => mret false
  | Some at_ => t ← now; mret (at_ <? t)%Z
  end.
(** [invite.MaxUses > 0 && invite.Uses >= invite.MaxUses] *)
Definition invite_exhausted (invite : Invite) : bool :=
  (0 <? i_max_uses invite)%Z && (i_max_uses invite <=? i_uses invite)%Z.

Definition PreviewInvite (callerID : option uuid) (inviteCode : string) :
    GoM World PreviewInviteResult :=
  invite ← Queries.GetInvite inviteCode ?> (λ _, ErrInviteNotFound);
  expired ← invite_expired invite;
  _ ← ensure (negb expired) ErrInviteExpired;
  _ ← ensure (negb (invite_exhausted invite)) ErrInviteMaxUses;
  banned ← found_for callerID (Queries.GetBan (i_guild_id invite));
  _ ← ensure (negb banned) ErrUserBanned;
  guild ← Queries.GetGuildByID (i_guild_id invite) ?> guild_not_found;
  memberCount ← Queries.CountGuildMembers (i_guild_id invite)
                ?> ErrorfW "failed to count members: %w";
  channels ← Queries.ListGuildChannels (i_guild_id invite)
             ?> ErrorfW "failed to list channels: %w";
  inviter ← try (Queries.GetUserByID (i_creator_id invite));
  let inviterUsername := match inviter with inr u => u_username u | inl _ => "" end in
  alreadyMember ← found_for callerID (Queries.GetGuildMember (i_guild_id invite));
  mret (mkPreviewInviteResult invite guild memberCount (int32 (Z.of_nat (length channels)))
          inviterUsername alreadyMember).

Definition buildJoinResult (guildID : uuid) : GoM World JoinGuildResult :=
  guild ← Queries.GetGuildByID guildID ?> ErrorfW "failed to get guild: %w";
  channels ← Queries.ListGuildChannels guildID ?> ErrorfW "failed to list channels: %w";
  memberCount ← Queries.CountGuildMembers guildID ?> ErrorfW "failed to count members: %w";
  mret (mkJoinGuildResult guild channels memberCount).

Definition JoinGuild (userID : uuid) (inviteCode : string) : GoM World JoinGuildResult :=
  invite ← Queries.GetInvite inviteCode ?> (λ _, ErrInviteNotFound);
  expired ← invite_expired invite;
  _ ← ensure (negb expired) ErrInviteExpired;
  _ ← ensure (negb (invite_exhausted invite)) ErrInviteMaxUses;
  ban ← try (Queries.GetBan (i_guild_id invite) userID);
  _ ← ensure (match ban with inr _ => false | inl _ => true end) ErrUserBanned;
  member ← try (Queries.GetGuildMember (i_guild_id invite) userID);
  match member with
  | inr _ => buildJoinResult (i_guild_id invite)
  | inl _ =>
      _ ← Queries.AddGuildMember (i_guild_id invite) userID "" (Some inviteCode)
            (Some (i_creator_id invite)) ?> ErrorfW "failed to add guild member: %w";
      _ ← ignore (Queries.IncrementInviteUses inviteCode);
      _ ← ignore (Queries.RecordInviteUse inviteCode (i_guild_id invite) userID
                    (i_creator_id invite));
      let userStr := uuid_print userID in
      _ ← assignEveryoneRole (i_guild_id invite) userID;
      _ ← publishGuildEvent (i_guild_id invite) GUILD_EVENT_MEMBER_ADD [("user_id", userStr)];
      buildJoinResult (i_guild_id invite)
  end.

Definition generateInviteCode : GoM World string :=
  b ← rand_Read 4;
  mret (hex_EncodeToString b).

Definition CreateInvite (callerID guildID : uuid) (channelID : option uuid)
    (maxUses maxAgeSeconds : Z) : GoM World Invite :=
  _ ← Queries.GetGuildMember guildID callerID ?> (λ _, ErrNotGuildMember);
  ok ← Authz.CanManageInvites (uuid_print callerID) (uuid_print guildID);
  _ ← ensure ok ErrInsufficientPermissions;
  code ← generateInviteCode ?> ErrorfW "failed to generate invite code: %w";
  expiresAt ← (if (0 <? maxAgeSeconds)%Z
               then t ← now; mret (Some (t + maxAgeSeconds * 1000000)%Z)
               else mret None);
  Queries.CreateInvite code guildID channelID callerID maxUses expiresAt
    ?> ErrorfW "failed to create invite: %w".

(** ** Members *)
Definition LeaveGuild (userID guildID : uuid) : GoM World unit :=
  guild ← Queries.GetGuildByID guildID ?> guild_not_found;
  _ ← ensure (negb (uuid_eqb (g_owner_id guild) userID)) ErrOwnerCannotLeave;
  _ ← Queries.GetGuildMember guildID userID ?> (λ _, ErrNotGuildMember);
  _ ← Queries.RemoveGuildMember guildID userID;
  let userStr := uuid_print userID in
  _ ← removeEveryoneRole guildID userID;
  publishGuildEvent guildID GUILD_EVENT_MEMBER_REMOVE [("user_id", userStr)].

Definition ListMembers (guildID : uuid) (limit offset : Z) : GoM World (list GuildMember) :=
  let limit := if (limit <=? 0)%Z then 50%Z else limit in
  Queries.ListGuildMembers guildID limit offset.

Definition KickMember (callerID guildID targetID : uuid) : GoM World unit :=
  ok ← Authz.CanKick (uuid_print callerID) (uuid_print guildID);
  _ ← ensure ok ErrInsufficientPermissions;
  outranks ← Authz.CanActOn (uuid_print callerID) (uuid_print targetID) (uuid_print guildID);
  _ ← ensure outranks ErrInsufficientPermissions;
  guild ← Queries.GetGuildByID guildID ?> guild_not_found;
  _ ← ensure (negb (uuid_eqb (g_owner_id guild) targetID)) ErrCannotKickOwner;
  _ ← Queries.GetGuildMember guildID targetID ?> (λ _, ErrMemberNotFound);
  _ ← Queries.RemoveGuildMember guildID targetID;
  let targetStr := uuid_print targetID in
  _ ← removeEveryoneRole guildID targetID;
  publishGuildEvent guildID GUILD_EVENT_MEMBER_REMOVE [("user_id", targetStr)].

Definition BanMember (callerID guildID targetID : uuid) (reason : string) : GoM World unit :=
  ok ← Authz.CanBan (uuid_print callerID) (uuid_print guildID);
  _ ← ensure ok ErrInsufficientPermissions;
  outranks ← Authz.CanActOn (uuid_print callerID) (uuid_print targetID) (uuid_print guildID);
  _ ← ensure outranks ErrInsufficientPermissions;
  guild ← Queries.GetGuildByID guildID ?> guild_not_found;
  _ ← ensure (negb (uuid_eqb (g_owner_id guild) targetID)) ErrCannotBanOwner;
  _ ← ignore (Queries.RemoveGuildMember guildID targetID);
  _ ← Queries.CreateBan guildID targetID reason ?> ErrorfW "failed to create ban: %w";
  let targetStr := uuid_print targetID in
  _ ← removeEveryoneRole guildID targetID;
  publishGuildEvent guildID GUILD_EVENT_MEMBER_BAN [("user_id", targetStr); ("reason", reason)].

Definition UnbanMember (callerID guildID targetID : uuid) : GoM World unit :=
  ok ← Authz.CanBan (uuid_print callerID) (uuid_print guildID);
  _ ← ensure ok ErrInsufficientPermissions;
  _ ← Queries.GetBan guildID targetID ?> (λ _, ErrUserNotBanned);
  _ ← Queries.DeleteBan guildID targetID;
  publishGuildEvent guildID GUILD_EVENT_MEMBER_UNBAN [("user_id", uuid_print targetID)].

(** ** Roles *)
Definition CreateRole (callerID guildID : uuid) (name color : string) : GoM World Role :=
  ok ← Authz.CanManageRoles (uuid_print callerID) (uuid_print guildID);
  _ ← ensure ok ErrInsufficientPermissions;
  roles ← Queries.ListGuildRoles guildID ?> ErrorfW "failed to list roles: %w";
  role ← Queries.CreateRole guildID name color (int32 (Z.of_nat (length roles)))
         ?> ErrorfW "failed to create role: %w";
  _ ← publishRoleEvent guildID GUILD_EVENT_ROLE_CREATE role [];
  mret role.

Definition UpdateRole (callerID guildID : uuid) (params : Queries.UpdateRoleParams) :
    GoM World Role :=
  ok ← Authz.CanManageRoles (uuid_print callerID) (uuid_print guildID);
  _ ← ensure ok ErrInsufficientPermissions;
  role ← Queries.UpdateRole params ?> ErrorfW "failed to update role: %w";
  _ ← publishRoleEvent guildID GUILD_EVENT_ROLE_UPDATE role [];
  mret role.

Definition DeleteRole (callerID guildID roleID : uuid) : GoM World unit :=
  ok ← Authz.CanManageRoles (uuid_print callerID) (uuid_print guildID);
  _ ← ensure ok ErrInsufficientPermissions;
  role ← Queries.GetRoleByID roleID ?> (λ _, ErrRoleNotFound);
  _ ← Queries.DeleteRole roleID;
  publishRoleEvent guildID GUILD_EVENT_ROLE_DELETE role [].

Definition AssignRole (callerID guildID targetID roleID : uuid) : GoM World unit :=
  ok ← Authz.CanManageRoles (uuid_print callerID) (uuid_print guildID);
  _ ← ensure ok ErrInsufficientPermissions;
  _ ← Queries.GetGuildMember guildID targetID ?> (λ _, ErrMemberNotFound);
  role ← Queries.GetRoleByID roleID ?> (λ _, ErrRoleNotFound);
  _ ← Queries.AssignRole roleID targetID;
  _ ← ignore (Authz.AddUserToRole (uuid_print targetID) (uuid_print roleID));
  publishRoleEvent guildID GUILD_EVENT_ROLE_ASSIGN role [("user_id", uuid_print targetID)].

Definition RemoveRole (callerID guildID targetID roleID : uuid) : GoM World unit :=
  ok ← Authz.CanManageRoles (uuid_print callerID) (uuid_print guildID);
  _ ← ensure ok ErrInsufficientPermissions;
  role ← Queries.GetRoleByID roleID ?> (λ _, ErrRoleNotFound);
  _ ← Queries.RemoveRole roleID targetID;
  _ ← ignore (Authz.RemoveUserFromRole (uuid_print targetID) (uuid_print roleID));
  publishRoleEvent guildID GUILD_EVENT_ROLE_REMOVE role [("user_id", uuid_print targetID)].

(** [relation, ok := authz.PermissionRelation[permission]; if !ok { ... }] *)
Definition permission_relation (permission : string) : GoM World string :=
  match assoc permission PermissionRelation with
  | Some relation => mret relation
  | None => fail ErrInvalidPermission
  end.

Definition GrantRolePermission (callerID guildID roleID : uuid) (permission : string) :
    GoM World unit :=
  ok ← Authz.CanManageRoles (uuid_print callerID) (uuid_print guildID);
  _ ← ensure ok ErrInsufficientPermissions;
  relation ← permission_relation permission;
  holds ← Authz.CanGuildPermission (uuid_print callerID) (uuid_print guildID) relation;
  _ ← ensure holds ErrInsufficientPermissions;
  role ← Queries.GetRoleByID roleID ?> (λ _, ErrRoleNotFound);
  _ ← Authz.GrantRolePermission (uuid_print roleID) (uuid_print guildID) relation
      ?> ErrorfW "failed to grant role permission: %w";
  publishRoleEvent guildID GUILD_EVENT_ROLE_UPDATE role [].

Definition RevokeRolePermission (callerID guildID roleID : uuid) (permission : string) :
    GoM World unit :=
  ok ← Authz.CanManageRoles (uuid_print callerID) (uuid_print guildID);
  _ ← ensure ok ErrInsufficientPermissions;
  relation ← permission_relation permission;
  holds ← Authz.CanGuildPermission (uuid_print callerID) (uuid_print guildID) relation;
  _ ← ensure holds ErrInsufficientPermissions;
  role ← Queries.GetRoleByID roleID ?> (λ _, ErrRoleNotFound);
  _ ← Authz.RevokeRolePermission (uuid_print roleID) (uuid_print guildID) relation
      ?> ErrorfW "failed to revoke role permission: %w";
  publishRoleEvent guildID GUILD_EVENT_ROLE_UPDATE role [].

Definition TransferOwnership (callerID guildID newOwnerID : uuid) : GoM World Guild :=
  guild ← Queries.GetGuildByID guildID ?> guild_not_found;
  _ ← ensure (uuid_eqb (g_owner_id guild) callerID) ErrNotGuildOwner;
  _ ← Queries.GetGuildMember guildID newOwnerID ?> (λ _, ErrMemberNotFound);
  updated ← Queries.TransferGuildOwnership guildID newOwnerID
            ?> ErrorfW "failed to transfer ownership: %w";
  _ ← publishGuildEvent guildID GUILD_EVENT_UPDATE
        [("transferred_to", uuid_print newOwnerID)];
  mret updated.
End Service.
End GuildService.
