(* ===== verification/User.v ===== *)
(** * User: profiles, friendships and blocks

    Models [src/internal/features/user/service.go], [model.go],
    [block_checker.go], [friend_lookup.go] and the non-trivial part of
    [repository.go] (the allocation of a unique handle).  The two interfaces the
    service calls through, [DMOpener] and [PresenceReader], are the classes
    [DMOpener] and [PresenceReader]; what the theorems about friendships need of
    them is the law that they leave the [friendships] table alone. *)
From S2P Require Import Prelude Realtime Store Queries Guild.
From stdpp Require Import pretty.

(** ** Interfaces of service.go.  [None] is a nil interface value. *)
Class DMOpener := {
  GetOrCreateDMChannel : option (string → list string → GoM World string);
  DMOpener_friendships : ∀ f u rs, GetOrCreateDMChannel = Some f →
    steps (on_db (same friendships)) (f u rs);
  DMOpener_no_panic : ∀ f u rs w, GetOrCreateDMChannel = Some f → (f u rs w).1 ≠ Panic
}.
Class PresenceReader := {
  GetLiveStatus : option (string → GoM World (string * string));
  PresenceReader_db : ∀ f u, GetLiveStatus = Some f → steps (on_db eq) (f u);
  PresenceReader_Ok : ∀ f u w, GetLiveStatus = Some f → ∃ r, (f u w).1 = Ok r
}.

Module UserService.

(** ** model.go *)
Definition ErrUserNotFound : error := Sentinel "user.ErrUserNotFound" "user not found".
Definition ErrCannotFriendSelf : error :=
  Sentinel "user.ErrCannotFriendSelf" "cannot send friend request to yourself".
Definition ErrAlreadyFriends : error := Sentinel "user.ErrAlreadyFriends" "already friends".
Definition ErrFriendRequestExists : error :=
  Sentinel "user.ErrFriendRequestExists" "friend request already exists".
Definition ErrNoFriendRequest : error :=
  Sentinel "user.ErrNoFriendRequest" "no pending friend request found".
Definition ErrNotFriends : error := Sentinel "user.ErrNotFriends" "not friends".
Definition ErrUserBlocked : error := Sentinel "user.ErrUserBlocked" "user is blocked".
Definition ErrNotBlocked : error := Sentinel "user.ErrNotBlocked" "user is not blocked".
Definition ErrUsernameAlreadySet : error :=
  Sentinel "user.ErrUsernameAlreadySet" "username is already set".

Definition user_not_found (_ : error) : error := ErrorfW "%w: %v" ErrUserNotFound.

Definition maxAvatarSize : Z := 5 * 1024 * 1024.
Definition allowedAvatarContentTypes (contentType : string) : bool :=
  existsb (string_eqb contentType) ["image/jpeg"; "image/png"; "image/gif"; "image/webp"].

Definition presenceStatusFromString (s : string) : PresenceStatus :=
  if string_eqb s "online" then PRESENCE_STATUS_ONLINE
  else if string_eqb s "idle" then PRESENCE_STATUS_IDLE
  else if string_eqb s "dnd" then PRESENCE_STATUS_DND
  else if string_eqb s "offline" then PRESENCE_STATUS_OFFLINE
  else PRESENCE_STATUS_UNSPECIFIED.

(** [fmt.Sprintf("%04d", n)] for [0 ≤ n]. *)
Definition sprintf_04d (n : Z) : string :=
  let s := pretty (Z.to_N n) in
  string_of_list_ascii (repeat "0"%char (4 - String.length s)) +:+ s.

(** [isUniqueViolation]: [errors.As] finds a pg error of code 23505 in the chain. *)
Fixpoint isUniqueViolation (e : error) : bool :=
  match e with
  | Driver UniqueViolation => true
  | ErrorfW _ e => isUniqueViolation e
  | _ => false
  end.

Definition set_avatar (u : User) (url : string) : User :=
  mkUser (u_id u) (u_username u) (u_email u) (u_password_hash u) url (u_bio u) (u_status u)
    (u_created_at u) (u_updated_at u) (u_verified u) (u_deleted u) (u_background_color u)
    (u_display_name u).

(** A [FriendActivityEvent] literal; the event type, the channel and the
    timestamp are filled in later. *)
Definition friend_event (userID username displayName : string) (status : PresenceStatus)
    (custom avatar : string) : FriendActivityEvent :=
  {| fae_event := FRIEND_EVENT_UNSPECIFIED; fae_user_id := userID; fae_username := username;
     fae_display_name := displayName; fae_status := status; fae_custom_status := custom;
     fae_avatar_url := avatar; fae_channel_id := ""; fae_timestamp := None |}.
Definition set_channel (e : FriendActivityEvent) (ch : string) : FriendActivityEvent :=
  {| fae_event := fae_event e; fae_user_id := fae_user_id e; fae_username := fae_username e;
     fae_display_name := fae_display_name e; fae_status := fae_status e;
     fae_custom_status := fae_custom_status e; fae_avatar_url := fae_avatar_url e;
     fae_channel_id := ch; fae_timestamp := fae_timestamp e |}.
Definition stamp (event : FriendEventType) (t : option time) (e : FriendActivityEvent) :
    FriendActivityEvent :=
  {| fae_event := event; fae_user_id := fae_user_id e; fae_username := fae_username e;
     fae_display_name := fae_display_name e; fae_status := fae_status e;
     fae_custom_status := fae_custom_status e; fae_avatar_url := fae_avatar_url e;
     fae_channel_id := fae_channel_id e; fae_timestamp := t |}.

Section Service.
Context `{Env} `{!UuidText} `{!DMOpener} `{!PresenceReader}.
(** [nats != nil], the MinIO client, the bucket and the public base URL. *)
Variables (nats : bool) (minio : option GuildService.MinioClient) (bucket minioBaseURL : string).

(** [util.GetBaseURl] *)
Definition ResolveAvatarURL (key : string) : string :=
  if HasPrefix key "http" || HasPrefix key "https" then key else minioBaseURL +:+ key.

Definition publishFriendActivity (toUserID : string) (event : FriendEventType)
    (evt : FriendActivityEvent) : GoM World unit :=
  if negb nats then mret tt else
  t ← match fae_timestamp evt with Some t => mret t | None => now end;
  Publish (FriendActivity toUserID) (EvFriend (stamp event (Some t) evt)).

Definition LookupBasicProfile (userID : string) : GoM World (string * string) :=
  match uuid_parse userID with
  | None => mret ("", "")
  | Some id =>
      u ← try (Queries.GetUserByID id);
      match u with
      | inl _ => mret ("", "")
      | inr u => mret (u_username u, ResolveAvatarURL (u_avatar_url u))
      end
  end.

Definition GetStatusIntent (userID : string) : GoM World (string * string) :=
  match uuid_parse userID with
  | None => mret ("online", "")
  | Some id =>
      u ← try (Queries.GetUserByID id);
      match u with
      | inl _ => mret ("online", "")
      | inr u => if string_eqb (u_status u) "" then mret ("online", "")
                 else mret (u_status u, u_status u)
      end
  end.

Definition friendPayload (actorID : uuid) : GoM World FriendActivityEvent :=
  u ← try (Queries.GetUserByID actorID);
  match u with
  | inl _ => mret (friend_event (uuid_print actorID) "" "" PRESENCE_STATUS_UNSPECIFIED "" "")
  | inr u =>
      '(statusStr, customStr) ←
        match GetLiveStatus with
        | None => mret (u_status u, u_status u)
        | Some presence =>
            r ← presence (uuid_print (u_id u));
            let '(live, custom) := r in
            mret (if string_eqb live "" then (u_status u, u_status u) else (live, custom))
        end;
      mret (friend_event (uuid_print (u_id u)) (u_username u) (u_display_name u)
              (presenceStatusFromString statusStr) customStr (ResolveAvatarURL (u_avatar_url u)))
  end.

Definition no_user_params (id : uuid) : Queries.UpdateUserParams :=
  Queries.mkUpdateUserParams id None None None None None None.

Definition UploadAvatar (userID : uuid) (filename contentType data : string) :
    GoM World (User * string) :=
  match minio with
  | None => fail (Errorf "storage not configured")
  | Some m =>
      _ ← ensure (negb (Nat.eqb (String.length data) 0)) (Errorf "empty file");
      _ ← ensure (Z.of_nat (String.length data) <=? maxAvatarSize)%Z
            (Errorf "avatar too large (max %d bytes)");
      _ ← ensure (allowedAvatarContentTypes contentType) (Errorf "unsupported content type: %s");
      id ← new_uuid;
      let objectKey := "users/" +:+ uuid_print userID +:+ "/avatar_" +:+ uuid_print id +:+ "_" +:+
                       filename in
      _ ← ensure (GuildService.PutObject m bucket objectKey data)
            (ErrorfW "failed to upload avatar: %w" (Driver Unavailable));
      updated ← Queries.UpdateUser
                  (Queries.mkUpdateUserParams userID None None (Some objectKey) None None None)
                ?> ErrorfW "failed to update user avatar: %w";
      let avatarURL := ResolveAvatarURL objectKey in
      _ ← publishFriendActivity (uuid_print (u_id updated)) FRIEND_EVENT_PROFILE_UPDATE
            (friend_event (uuid_print (u_id updated)) (u_username updated)
               (u_display_name updated) PRESENCE_STATUS_UNSPECIFIED "" avatarURL);
      mret (updated, avatarURL)
  end.

Definition GetUser (id : uuid) : GoM World User :=
  user ← Queries.GetUserByID id ?> user_not_found;
  mret (set_avatar user (ResolveAvatarURL (u_avatar_url user))).

Definition GetUserByUsername (username : string) : GoM World User :=
  user ← Queries.GetUserByUsername username ?> user_not_found;
  mret (set_avatar user (ResolveAvatarURL (u_avatar_url user))).

(** ** repository.go: the handle "name#1234" *)
Definition randomDiscriminator : GoM World string :=
  n ← rand_Int 9999;
  n ← deref n;
  mret (sprintf_04d (n + 1)).

(** The retry loop, with the attempts that are left. *)
Fixpoint allocate_handle (attempts : nat) (lastErr : error) (id : uuid) (username : string) :
    GoM World User :=
  match attempts with
  | 0 => fail (ErrorfW "failed to allocate unique handle after %d attempts: %w" lastErr)
  | S attempts =>
      disc ← randomDiscriminator;
      let handle := username +:+ "#" +:+ disc in
      r ← try (Queries.UpdateUser
                 (Queries.mkUpdateUserParams id (Some handle) (Some username) None None None None));
      match r with
      | inr updated => mret updated
      | inl err =>
          if isUniqueViolation err then allocate_handle attempts err id username else fail err
      end
  end.

Definition maxHandleAttempts : nat := 10.

Definition repo_UpdateUsername (id : uuid) (username : string) : GoM World User :=
  current ← Queries.GetUserByID id;
  _ ← ensure (string_eqb (u_username current) "") ErrUsernameAlreadySet;
  allocate_handle maxHandleAttempts (Errorf "<nil>") id username.

Definition UpdateUsername (id : uuid) (username : string) : GoM World User :=
  user ← repo_UpdateUsername id username;
  _ ← publishFriendActivity (uuid_print (u_id user)) FRIEND_EVENT_PROFILE_UPDATE
        (friend_event (uuid_print (u_id user)) (u_username user) (u_display_name user)
           PRESENCE_STATUS_UNSPECIFIED "" (ResolveAvatarURL (u_avatar_url user)));
  mret user.

Definition UpdateUser (params : Queries.UpdateUserParams) : GoM World User :=
  user ← Queries.UpdateUser params ?> ErrorfW "failed to update user: %w";
  _ ← publishFriendActivity (uuid_print (u_id user)) FRIEND_EVENT_PROFILE_UPDATE
        (friend_event (uuid_print (u_id user)) (u_username user) (u_display_name user)
           (presenceStatusFromString (u_status user)) (u_status user)
           (ResolveAvatarURL (u_avatar_url user)));
  mret user.

Definition UpdateStatus (id : uuid) (newStatus : string) : GoM World User :=
  user ← Queries.UpdateUser (Queries.mkUpdateUserParams id None None None None (Some newStatus) None)
         ?> ErrorfW "failed to update status: %w";
  _ ← publishFriendActivity (uuid_print (u_id user)) FRIEND_EVENT_PRESENCE_UPDATE
        (friend_event (uuid_print (u_id user)) (u_username user) (u_display_name user)
           (presenceStatusFromString (u_status user)) (u_status user)
           (ResolveAvatarURL (u_avatar_url user)));
  mret user.

Definition DeleteUser (id : uuid) : GoM World unit :=
  Queries.DeleteUser id ?> ErrorfW "failed to delete user: %w".

(** ** Friend requests *)
Definition SearchUsers (ILIKE : string → string → bool) (q : string) (limit offset : Z) :
    GoM World (list User * Z) :=
  count ← Queries.CountSearchUsers ILIKE q ?> ErrorfW "failed to count search results: %w";
  users ← Queries.SearchUsers ILIKE q limit offset ?> ErrorfW "failed to search users: %w";
  mret ((λ u, set_avatar u (ResolveAvatarURL (u_avatar_url u))) <$> users, count).

Definition SendFriendRequest (userID targetID : uuid) : GoM World Friendship :=
  _ ← ensure (negb (uuid_eqb userID targetID)) ErrCannotFriendSelf;
  existing ← try (Queries.GetFriendship userID targetID);
  _ ← match existing with
      | inl _ => mret tt
      | inr existing =>
          if string_eqb (f_status existing) "accepted" then fail ErrAlreadyFriends
          else if string_eqb (f_status existing) "pending" then fail ErrFriendRequestExists
          else if string_eqb (f_status existing) "blocked" then fail ErrUserBlocked
          else mret tt
      end;
  friendship ← Queries.CreateFriendship userID targetID "pending"
               ?> ErrorfW "failed to create friend request: %w";
  payload ← friendPayload userID;
  _ ← publishFriendActivity (uuid_print targetID) FRIEND_EVENT_REQUEST payload;
  mret friendship.

Definition AcceptFriendRequest (userID requesterID : uuid) : GoM World Friendship :=
  existing ← Queries.GetFriendship requesterID userID ?> (λ _, ErrNoFriendRequest);
  _ ← ensure (string_eqb (f_status existing) "pending") ErrNoFriendRequest;
  _ ← ensure (uuid_eqb (f_user_id existing) requesterID && uuid_eqb (f_friend_id existing) userID)
        ErrNoFriendRequest;
  friendship ← Queries.UpdateFriendshipStatus requesterID userID "accepted"
               ?> ErrorfW "failed to accept friend request: %w";
  dmChannelID ← match GetOrCreateDMChannel with
                | None => mret ""
                | Some dm =>
                    r ← try (dm (uuid_print userID) [uuid_print requesterID]);
                    mret (match r with inr id => id | inl _ => "" end)
                end;
  payloadForRequester ← friendPayload userID;
  _ ← publishFriendActivity (uuid_print requesterID) FRIEND_EVENT_ACCEPTED
        (set_channel payloadForRequester dmChannelID);
  payloadForAccepter ← friendPayload requesterID;
  _ ← publishFriendActivity (uuid_print userID) FRIEND_EVENT_ACCEPTED
        (set_channel payloadForAccepter dmChannelID);
  mret friendship.

Definition DeclineFriendRequest (userID requesterID : uuid) : GoM World unit :=
  existing ← Queries.GetFriendship requesterID userID ?> (λ _, ErrNoFriendRequest);
  _ ← ensure (string_eqb (f_status existing) "pending") ErrNoFriendRequest;
  _ ← Queries.DeleteFriendship requesterID userID;
  payload ← friendPayload userID;
  publishFriendActivity (uuid_print requesterID) FRIEND_EVENT_DECLINED payload.

Definition CancelFriendRequest (userID targetID : uuid) : GoM World unit :=
  existing ← Queries.GetFriendship userID targetID ?> (λ _, ErrNoFriendRequest);
  _ ← ensure (string_eqb (f_status existing) "pending" && uuid_eqb (f_user_id existing) userID)
        ErrNoFriendRequest;
  _ ← Queries.DeleteFriendship userID targetID;
  payload ← friendPayload userID;
  publishFriendActivity (uuid_print targetID) FRIEND_EVENT_REQUEST_CANCELLED payload.

Definition RemoveFriend (userID friendID : uuid) : GoM World unit :=
  existing ← Queries.GetFriendship userID friendID ?> (λ _, ErrNotFriends);
  _ ← ensure (string_eqb (f_status existing) "accepted") ErrNotFriends;
  _ ← Queries.DeleteFriendship userID friendID;
  payload ← friendPayload userID;
  publishFriendActivity (uuid_print friendID) FRIEND_EVENT_REMOVED payload.

(** ** Blocks *)
Definition BlockUser (userID targetID : uuid) : GoM World unit :=
  _ ← ensure (negb (uuid_eqb userID targetID)) ErrCannotFriendSelf;
  _ ← ignore (Queries.DeleteFriendship userID targetID);
  _ ← Queries.CreateFriendship userID targetID "blocked" ?> ErrorfW "failed to block user: %w";
  mret tt.

Definition UnblockUser (userID targetID : uuid) : GoM World unit :=
  existing ← Queries.GetFriendship userID targetID ?> (λ _, ErrNotBlocked);
  _ ← ensure (string_eqb (f_status existing) "blocked" && uuid_eqb (f_user_id existing) userID)
        ErrNotBlocked;
  Queries.DeleteFriendship userID targetID.

Definition ListFriends (userID : uuid) : GoM World (list User) :=
  u ← Queries.ListFriends userID ?> ErrorfW "failed to list friends: %w";
  mret ((λ f, mkUser (u_id f.1) (u_username f.1) "" "" (ResolveAvatarURL (u_avatar_url f.1)) ""
                (u_status f.1) 0 0 false false "" (u_display_name f.1)) <$> u).

Definition ListPendingRequests (userID : uuid) :
    GoM World (list (Friendship * User) * list (Friendship * User)) :=
  incoming ← Queries.ListPendingIncoming userID ?> ErrorfW "failed to list incoming requests: %w";
  outgoing ← Queries.ListPendingOutgoing userID ?> ErrorfW "failed to list outgoing requests: %w";
  mret (incoming, outgoing).

Definition ListBlocked (userID : uuid) : GoM World (list User) := Queries.ListBlocked userID.

(** ** block_checker.go and friend_lookup.go *)
Definition IsBlocked (userID targetID : string) : GoM World bool :=
  match uuid_parse userID, uuid_parse targetID with
  | Some u, Some t =>
      r ← try (Queries.GetFriendship u t);
      mret (match r with inr f => string_eqb (f_status f) "blocked" | inl _ => false end)
  | _, _ => mret false
  end.

Definition GetFriendIDs (userID : string) : GoM World (list string) :=
  match uuid_parse userID with
  | None => fail (Errorf "invalid UUID")
  | Some id =>
      friends ← Queries.ListFriends id;
      mret ((λ f, uuid_print (u_id f.1)) <$> friends)
  end.
End Service.
End UserService.
