(* ===== verification/GuildFacts.v ===== *)
(** * GuildFacts: what the guild service guarantees

    The membership invariant [guild_wf] and its preservation by every
    operation (rule induction on [guild_step]); the exact outcome of joining;
    the effect of kicking and banning; the anti-escalation rule of role
    grants; and the two escalation paths the guards leave open. *)
From S2P Require Import Prelude Realtime Store Queries Authz Wp AuthzFacts Guild.

(** ** Programs that leave the guild tables alone *)
Definition guild_core (d : Db) := (guilds d, guild_members d, bans d, invites d).

Section Frame.
Context `{Env} `{!UuidText}.
Notation R := (on_db (same guild_core)).

Lemma frame_AssignRole r u : steps R (Queries.AssignRole r u).
Proof. frame_sql. Qed.
Lemma frame_CreateRole g n c p : steps R (Queries.CreateRole g n c p).
Proof. frame_sql. Qed.
Lemma frame_DeleteRole r : steps R (Queries.DeleteRole r).
Proof. frame_sql. Qed.
Lemma frame_RemoveRole r u : steps R (Queries.RemoveRole r u).
Proof. frame_sql. Qed.
Lemma frame_UpdateRole p : steps R (Queries.UpdateRole p).
Proof. frame_sql. Qed.
Lemma frame_RecordInviteUse c g u i : steps R (Queries.RecordInviteUse c g u i).
Proof. frame_sql. Qed.
Lemma frame_GetEveryoneRole g : steps R (Queries.GetEveryoneRole g).
Proof. apply steps_query, _. Qed.
Lemma frame_parseUUID s : steps R (Authz.parseUUID s).
Proof. unfold Authz.parseUUID. steps_auto. Qed.
Lemma frame_relation_name s : steps R (Authz.relation_name s).
Proof. unfold Authz.relation_name. steps_auto. Qed.
Lemma frame_Check u r g : steps R (Authz.Check u r g).
Proof. unfold Authz.Check, Authz.with_uuid, Authz.query_or. steps_auto. Qed.
#[local] Hint Resolve frame_AssignRole frame_CreateRole frame_DeleteRole frame_RemoveRole
  frame_UpdateRole frame_RecordInviteUse frame_GetEveryoneRole frame_parseUUID
  frame_relation_name frame_Check : steps.

Lemma frame_AddUserToRole u r : steps R (Authz.AddUserToRole u r).
Proof. unfold Authz.AddUserToRole. steps_auto. Qed.
Lemma frame_RemoveUserFromRole u r : steps R (Authz.RemoveUserFromRole u r).
Proof. unfold Authz.RemoveUserFromRole. steps_auto. Qed.
Lemma frame_GrantRolePermission r g p : steps R (Authz.GrantRolePermission r g p).
Proof. unfold Authz.GrantRolePermission. steps_auto. frame_sql. Qed.
Lemma frame_RevokeRolePermission r g p : steps R (Authz.RevokeRolePermission r g p).
Proof. unfold Authz.RevokeRolePermission. steps_auto. frame_sql. Qed.
Lemma frame_ListRolePermissions r : steps R (Authz.ListRolePermissions r).
Proof. unfold Authz.ListRolePermissions. steps_auto. Qed.
#[local] Hint Resolve frame_AddUserToRole frame_RemoveUserFromRole frame_GrantRolePermission
  frame_RevokeRolePermission frame_ListRolePermissions : steps.

Lemma frame_publishRoleEvent g a r e : steps R (GuildService.publishRoleEvent g a r e).
Proof. unfold GuildService.publishRoleEvent. steps_auto. Qed.
Lemma frame_ensureEveryoneRole g u : steps R (GuildService.ensureEveryoneRole g u).
Proof. unfold GuildService.ensureEveryoneRole. steps_auto. Qed.
#[local] Hint Resolve frame_publishRoleEvent frame_ensureEveryoneRole : steps.
Lemma frame_assignEveryoneRole g u : steps R (GuildService.assignEveryoneRole g u).
Proof. unfold GuildService.assignEveryoneRole. steps_auto. Qed.
Lemma frame_removeEveryoneRole g u : steps R (GuildService.removeEveryoneRole g u).
Proof. unfold GuildService.removeEveryoneRole. steps_auto. Qed.

(** The role operations. *)
Lemma frame_CreateRole_op c g n col : steps R (GuildService.CreateRole c g n col).
Proof. unfold GuildService.CreateRole, Queries.ListGuildRoles. steps_auto. Qed.
Lemma frame_UpdateRole_op c g p : steps R (GuildService.UpdateRole c g p).
Proof. unfold GuildService.UpdateRole. steps_auto. Qed.
Lemma frame_DeleteRole_op c g r : steps R (GuildService.DeleteRole c g r).
Proof. unfold GuildService.DeleteRole, Queries.GetRoleByID. steps_auto. Qed.
Lemma frame_AssignRole_op c g t r : steps R (GuildService.AssignRole c g t r).
Proof.
  unfold GuildService.AssignRole, Queries.GetRoleByID, Queries.GetGuildMember. steps_auto.
Qed.
Lemma frame_RemoveRole_op c g t r : steps R (GuildService.RemoveRole c g t r).
Proof. unfold GuildService.RemoveRole, Queries.GetRoleByID. steps_auto. Qed.
Lemma frame_Grant_op c g r p : steps R (GuildService.GrantRolePermission c g r p).
Proof.
  unfold GuildService.GrantRolePermission, GuildService.permission_relation, Queries.GetRoleByID.
  steps_auto.
Qed.
Lemma frame_Revoke_op c g r p : steps R (GuildService.RevokeRolePermission c g r p).
Proof.
  unfold GuildService.RevokeRolePermission, GuildService.permission_relation, Queries.GetRoleByID.
  steps_auto.
Qed.
End Frame.

(** ** The membership invariant *)
Definition banned (d : Db) (u g : uuid) : bool :=
  match d.(bans) !! (g, u) with Some b => negb (b_deleted b) | None => false end.

Lemma not_banned d u g :
  live b_deleted (d.(bans) !! (g, u)) = None ↔ banned d u g = false.
Proof. unfold banned, live. destruct (_ !! _) as [b|]; [|done]. by destruct (b_deleted b). Qed.

(** Every live guild has its owner among its live members; nobody is at once
    a live member and banned; a ban names an existing guild; a row knows its
    key; a limited invite is never used more often than it allows. *)
Record guild_wf (d : Db) : Prop := {
  wf_guild_id : ∀ g r, d.(guilds) !! g = Some r → g_id r = g;
  wf_ban_guild : ∀ g u, is_Some (d.(bans) !! (g, u)) → is_Some (d.(guilds) !! g);
  wf_owner_member : ∀ g r, d.(guilds) !! g = Some r → g_deleted r = false →
    Queries.member_of d (g_owner_id r) g = true;
  wf_ban_excludes : ∀ g u, banned d u g = true → Queries.member_of d u g = false;
  wf_invite_uses : ∀ c i, d.(invites) !! c = Some i →
    (0 < i_max_uses i)%Z → (i_uses i ≤ i_max_uses i)%Z
}.

Section Pure.
Implicit Types (d : Db) (g u : uuid).

Lemma guild_wf_core d d' : guild_core d' = guild_core d → guild_wf d → guild_wf d'.
Proof.
  unfold guild_core. intros [= Hg Hm Hb Hi] [H1 H2 H3 H4 H5].
  split; unfold banned, Queries.member_of in *; rewrite ?Hg, ?Hm, ?Hb, ?Hi; assumption.
Qed.

(** Changing the liveness of one membership. *)
Definition member_set d d' g u b : Prop :=
  guilds d' = guilds d ∧ bans d' = bans d ∧ invites d' = invites d ∧
  ∀ u' g', Queries.member_of d' u' g' =
           if bool_decide (g' = g ∧ u' = u) then b else Queries.member_of d u' g'.

Lemma member_set_core d d1 d2 g u b :
  guild_core d2 = guild_core d1 → member_set d d1 g u b → member_set d d2 g u b.
Proof.
  unfold guild_core, member_set, Queries.member_of. intros [= -> -> -> ->]. done.
Qed.

Lemma wf_member_off d d' g u :
  member_set d d' g u false →
  (∀ r, d.(guilds) !! g = Some r → g_deleted r = false → g_owner_id r ≠ u) →
  guild_wf d → guild_wf d'.
Proof.
  intros (Hg & Hb & Hi & Hm) Ho [H1 H2 H3 H4 H5].
  split; unfold banned in *; rewrite ?Hg, ?Hb, ?Hi; [done|done| | |done].
  - intros g' r Hr Hd. rewrite Hm. case_bool_decide as E; [|by apply H3].
    destruct E as [-> E]. by destruct (Ho r Hr Hd).
  - intros g' u' Hban. rewrite Hm. case_bool_decide; [done|by apply H4].
Qed.

Lemma wf_member_on d d' g u :
  member_set d d' g u true → banned d u g = false → guild_wf d → guild_wf d'.
Proof.
  intros (Hg & Hb & Hi & Hm) Hnb [H1 H2 H3 H4 H5].
  split; unfold banned in *; rewrite ?Hg, ?Hb, ?Hi; [done|done| | |done].
  - intros g' r Hr Hd. rewrite Hm. case_bool_decide; [done|by apply H3].
  - intros g' u' Hban. rewrite Hm. case_bool_decide as E; [|by apply H4].
    destruct E as [-> ->]. congruence.
Qed.

Lemma member_set_removed d g u t :
  member_set d (with_guild_members
    (alter (guild_member_deleted t) (g, u) d.(guild_members)) d) g u false.
Proof.
  split_and!; [done..|]. intros u' g'. unfold Queries.member_of. simpl.
  case_bool_decide as E.
  - destruct E as [-> ->]. rewrite lookup_alter_eq. by destruct (_ !! _).
  - by rewrite lookup_alter_ne by naive_solver.
Qed.

Lemma member_set_added d g u m :
  gm_deleted m = false →
  member_set d (with_guild_members (<[(g, u) := m]> d.(guild_members)) d) g u true.
Proof.
  intros Hm. split_and!; [done..|]. intros u' g'. unfold Queries.member_of. simpl.
  case_bool_decide as E.
  - destruct E as [-> ->]. by rewrite lookup_insert_eq, Hm.
  - by rewrite lookup_insert_ne by naive_solver.
Qed.

(** Changing the guild row of [g] without reviving it, to an owner who is a
    member. *)
Lemma wf_guild_updated d g r :
  g_id r = g →
  (g_deleted r = false → Queries.member_of d (g_owner_id r) g = true) →
  guild_wf d → guild_wf (with_guilds (<[g := r]> d.(guilds)) d).
Proof.
  intros Hid Hown [H1 H2 H3 H4 H5]. split; simpl; [| | |done|done].
  - intros g' r'. rewrite lookup_insert_Some. intros [[<- <-]|[_ Hr]]; [done|by apply H1].
  - intros g' u Hb. apply lookup_insert_is_Some'. right. by apply (H2 _ u).
  - intros g' r'. rewrite lookup_insert_Some. intros [[<- <-]|[_ Hr]]; [done|by apply H3].
Qed.

Lemma wf_guild_deleted d g t :
  guild_wf d → guild_wf (with_guilds (alter (guild_deleted t) g d.(guilds)) d).
Proof.
  intros [H1 H2 H3 H4 H5]. split; simpl; [| | |done|done].
  - intros g' r. rewrite lookup_alter_Some. intros [(<- & r' & Hr & ->)|[_ Hr]]; exact (H1 _ _ Hr).
  - intros g' u Hb. apply lookup_alter_is_Some. by apply (H2 _ u).
  - intros g' r. rewrite lookup_alter_Some. intros [(<- & r' & Hr & ->)|[_ Hr]]; [done|by apply H3].
Qed.

(** A ban of someone who is not a live member; lifting a ban. *)
Lemma wf_banned d g u b :
  is_Some (d.(guilds) !! g) → Queries.member_of d u g = false →
  guild_wf d → guild_wf (with_bans (<[(g, u) := b]> d.(bans)) d).
Proof.
  intros Hg Hm [H1 H2 H3 H4 H5]. split; [done| |done| |done].
  - intros g' u'. simpl. rewrite lookup_insert_is_Some'. intros [[= <- <-]|Hb]; eauto.
  - intros g' u'. unfold banned. simpl. destruct (decide ((g, u) = (g', u'))) as [[= <- <-]|E].
    + by intros _.
    + rewrite lookup_insert_ne by done. apply H4.
Qed.

Lemma wf_unbanned d g u t :
  guild_wf d → guild_wf (with_bans (alter (ban_deleted t) (g, u) d.(bans)) d).
Proof.
  intros [H1 H2 H3 H4 H5]. split; [done| |done| |done].
  - intros g' u'. simpl. rewrite lookup_alter_is_Some. apply H2.
  - intros g' u'. unfold banned. simpl. destruct (decide ((g, u) = (g', u'))) as [[= <- <-]|E].
    + rewrite lookup_alter_eq. by destruct (_ !! _).
    + rewrite lookup_alter_ne by done. apply H4.
Qed.

Lemma wf_invite d c i :
  ((0 < i_max_uses i)%Z → (i_uses i ≤ i_max_uses i)%Z) →
  guild_wf d → guild_wf (with_invites (<[c := i]> d.(invites)) d).
Proof.
  intros Hi [H1 H2 H3 H4 H5]. split; [done..|].
  intros c' i'. simpl. rewrite lookup_insert_Some. intros [[<- <-]|[_ ?]]; eauto.
Qed.
End Pure.

(** ** Every operation preserves the invariant *)
Section Preserve.
Context `{Env} `{!UuidText} (Hff : fault_free).
Variables (minio signer : option GuildService.MinioClient) (bucket : string).

Lemma no_fail {P : Prop} : can_fail → P.
Proof. intros Hf. by destruct (fault_free_not_can_fail Hff Hf). Qed.

Notation keeps m := (∀ d, guild_wf d → wpd m (λ _ d', guild_wf d') d).

Lemma keeps_frame {A} (m : GoM World A) :
  steps (on_db (same guild_core)) m → keeps m.
Proof.
  intros Hm d Hd. apply (wpd_steps (same guild_core)); [done|].
  intros _ d' E. by apply (guild_wf_core d).
Qed.

Lemma keep_frame {A} (m : GoM World A) (Q : outcome A → Db → Prop) d :
  steps (on_db (same guild_core)) m → guild_wf d →
  (∀ o d', guild_wf d' → guild_core d' = guild_core d → Q o d') → wpd m Q d.
Proof.
  intros Hm Hd HQ. apply (wpd_steps (same guild_core)); [done|].
  intros o d' E. apply HQ; [by apply (guild_wf_core d)|done].
Qed.

(** Steps through a handler; role bookkeeping and events are framed out. *)
Ltac keep_step :=
  first
    [ assumption | solve [eapply no_fail; eassumption]
    | match goal with
      | |- wpd (GuildService.publishRoleEvent _ _ _ _) _ _ =>
          apply keep_frame; [apply frame_publishRoleEvent| |intros [?|?|] ? ? ?]
      | |- wpd (GuildService.ensureEveryoneRole _ _) _ _ =>
          apply keep_frame; [apply frame_ensureEveryoneRole| |intros [?|?|] ? ? ?]
      | |- wpd (GuildService.assignEveryoneRole _ _) _ _ =>
          apply keep_frame; [apply frame_assignEveryoneRole| |intros [?|?|] ? ? ?]
      | |- wpd (GuildService.removeEveryoneRole _ _) _ _ =>
          apply keep_frame; [apply frame_removeEveryoneRole| |intros [?|?|] ? ? ?]
      | |- wpd (Queries.RecordInviteUse _ _ _ _) _ _ =>
          apply keep_frame; [apply frame_RecordInviteUse| |intros [?|?|] ? ? ?]
      | |- _ ∧ _ => split
      | |- can_fail → _ => intro
      | |- match (match ?x with _ => _ end) with _ => _ end => destruct x eqn:?
      | |- match no_rows with _ => _ end => simpl
      | |- match fk_violation with _ => _ end => simpl
      end
    | wpd_step ]; cbv beta iota zeta.
Ltac keep := repeat keep_step.

(** Removing a member whom the owner check has excluded. *)
Lemma wf_removed d g u t row :
  d.(guilds) !! g = Some row → g_owner_id row ≠ u → guild_wf d →
  guild_wf (with_guild_members (alter (guild_member_deleted t) (g, u) d.(guild_members)) d).
Proof.
  intros Hg Ho. apply (wf_member_off _ _ g u); [apply member_set_removed|].
  intros r Hr _. by simplify_eq.
Qed.

Lemma not_owner d g u row :
  live g_deleted (d.(guilds) !! g) = Some row → negb (uuid_eqb (g_owner_id row) u) = true →
  d.(guilds) !! g = Some row ∧ g_owner_id row ≠ u.
Proof.
  intros [Hg _]%live_Some Hn. split; [done|]. intros E.
  apply negb_true_iff in Hn. by rewrite (proj2 (uuid_eqb_true _ _) E) in Hn.
Qed.

Lemma keeps_LeaveGuild u g : keeps (GuildService.LeaveGuild u g).
Proof.
  intros d Hd. unfold GuildService.LeaveGuild. keep.
  match goal with H1 : live _ _ = Some _, H2 : negb _ = true |- _ =>
    destruct (not_owner _ _ _ _ H1 H2) end.
  by eapply wf_removed.
Qed.

Lemma keeps_KickMember c g u : keeps (GuildService.KickMember c g u).
Proof.
  intros d Hd. unfold GuildService.KickMember. keep.
  match goal with H1 : live _ (guilds d !! _) = Some _, H2 : negb _ = true |- _ =>
    destruct (not_owner _ _ _ _ H1 H2) end.
  by eapply wf_removed.
Qed.

Lemma keeps_BanMember c g u r : keeps (GuildService.BanMember c g u r).
Proof.
  intros d Hd. unfold GuildService.BanMember. keep.
  all: match goal with H1 : live g_deleted _ = Some _, H2 : negb _ = true |- _ =>
    destruct (not_owner _ _ _ _ H1 H2) end.
  2: by eapply wf_removed.
  apply wf_banned; [by eexists| |by eapply wf_removed].
  rewrite (proj2 (proj2 (proj2 (member_set_removed _ g u _)))). by rewrite bool_decide_eq_true_2.
Qed.

Lemma keeps_UnbanMember c g u : keeps (GuildService.UnbanMember c g u).
Proof. intros d Hd. unfold GuildService.UnbanMember. keep. by apply wf_unbanned. Qed.

Lemma keeps_DeleteGuild c g : keeps (GuildService.DeleteGuild c g).
Proof. intros d Hd. unfold GuildService.DeleteGuild. keep. by apply wf_guild_deleted. Qed.

Lemma keeps_row_update (p : Queries.UpdateGuildParams) :
  keeps (Queries.UpdateGuild p).
Proof.
  intros d Hd. unfold Queries.UpdateGuild. keep.
  match goal with Hr : guilds d !! _ = Some _ |- _ =>
    apply wf_guild_updated;
      [exact (wf_guild_id d Hd _ _ Hr)|exact (wf_owner_member d Hd _ _ Hr)|done] end.
Qed.

Ltac keep_update :=
  repeat first
    [ match goal with
      | |- wpd (Queries.UpdateGuild _) _ _ =>
          eapply wpd_mono; [apply keeps_row_update|intros [?|?|] ? ?]
      end
    | keep_step ].

Lemma keeps_UpdateGuild c g p : keeps (GuildService.UpdateGuild c g p).
Proof. intros d Hd. unfold GuildService.UpdateGuild. keep_update. Qed.

Lemma keeps_UploadGuildIcon c g f ct data :
  keeps (GuildService.UploadGuildIcon minio signer bucket c g f ct data).
Proof.
  intros d Hd. unfold GuildService.UploadGuildIcon. destruct minio; keep_update.
Qed.
Lemma keeps_UploadGuildBanner c g f ct data :
  keeps (GuildService.UploadGuildBanner minio signer bucket c g f ct data).
Proof.
  intros d Hd. unfold GuildService.UploadGuildBanner. destruct minio; keep_update.
Qed.

Lemma keeps_TransferOwnership c g u : keeps (GuildService.TransferOwnership c g u).
Proof.
  intros d Hd. unfold GuildService.TransferOwnership. keep.
  match goal with Hr : guilds d !! _ = Some ?r, Hm : live gm_deleted _ = Some _ |- _ =>
    apply wf_guild_updated; [exact (wf_guild_id d Hd _ _ Hr)| |done];
    intros _; apply live_Some in Hm as [Em El] end.
  unfold Queries.member_of. simpl. by rewrite Em, El.
Qed.

Lemma keeps_CreateInvite c g ch m age : keeps (GuildService.CreateInvite c g ch m age).
Proof.
  intros d Hd. unfold GuildService.CreateInvite. keep; apply wf_invite; simpl; (lia || done).
Qed.

(** Who is not banned becomes a member; the counter stays within its limit. *)
Lemma wpd_AddGuildMember g u n c i (Q : outcome GuildMember → Db → Prop) d :
  (∀ m, gm_deleted m = false → has d.(guilds) g = true → has d.(users) u = true →
        Q (Ok m) (with_guild_members (<[(g, u) := m]> d.(guild_members)) d)) →
  (has d.(guilds) g && has d.(users) u && has_opt d.(users) i = false →
   Q (Err (Driver ForeignKeyViolation)) d) →
  wpd (Queries.AddGuildMember g u n c i) Q d.
Proof.
  intros HQ HE. unfold Queries.AddGuildMember. apply wpd_sql; [|apply no_fail].
  intros t _. destruct (_ && _) eqn:E; [|by apply HE].
  apply andb_true_iff in E as [[Hg Hu]%andb_true_iff _]. cbv zeta.
  split; [|apply no_fail]. by apply HQ; [destruct (_ !! _)| |].
Qed.

Lemma keeps_IncrementInviteUses code d i (Q : outcome unit → Db → Prop) :
  guild_wf d → d.(invites) !! code = Some i → GuildService.invite_exhausted i = false →
  (∀ o d', guild_wf d' → o ≠ Panic → Q o d') → wpd (Queries.IncrementInviteUses code) Q d.
Proof.
  intros Hd Hi Hex HQ. unfold Queries.IncrementInviteUses. apply wpd_sql; [|apply no_fail].
  intros _ _. rewrite Hi. destruct (_ <? _)%Z; [|by apply HQ].
  split; [|apply no_fail]. apply HQ; [|done]. apply wf_invite; [|done]. simpl. intros Hmax.
  unfold GuildService.invite_exhausted in Hex. rewrite (proj2 (Z.ltb_lt _ _)) in Hex by done.
  simpl in Hex. apply Z.leb_gt in Hex. lia.
Qed.

Lemma keeps_buildJoinResult g : keeps (GuildService.buildJoinResult g).
Proof. intros d Hd. keep. Qed.

Lemma keeps_JoinGuild u code : keeps (GuildService.JoinGuild u code).
Proof.
  intros d Hd. unfold GuildService.JoinGuild.
  apply wpd_bind, wpd_on_err. unfold Queries.GetInvite.
  apply wpd_one; [|done|apply no_fail]. intros i [Hi _]%live_Some.
  apply wpd_bind. apply (wpd_mono _ (λ _ d', d' = d)); [keep; done|].
  intros [ex|e|] d' ->; [|done..].
  apply wpd_bind, wpd_ensure; [intros _|done].
  apply wpd_bind, wpd_ensure; [intros Hex%negb_true_iff|done].
  apply wpd_bind, wpd_try, wpd_one; [intros; keep; done| |apply no_fail]. intros Hban.
  apply wpd_bind, wpd_ensure; [|done]. intros _.
  apply wpd_bind, wpd_try, wpd_one; [intros; by apply keeps_buildJoinResult| |apply no_fail].
  intros _. apply wpd_bind, wpd_on_err, wpd_AddGuildMember; [|done]. intros m Hm _ _.
  set (d1 := with_guild_members _ _).
  assert (guild_wf d1).
  { apply (wf_member_on d _ (i_guild_id i) u); [by apply member_set_added| |done].
    by apply not_banned. }
  apply wpd_bind, wpd_ignore, (keeps_IncrementInviteUses code d1 i); [done..|].
  intros [?|?|] d2 ??; keep; by apply keeps_buildJoinResult.
Qed.
(** The operations that only read. *)
Lemma keeps_GetGuild g : keeps (GuildService.GetGuild g).
Proof. intros d Hd. keep. Qed.
Lemma keeps_ListUserGuilds u : keeps (GuildService.ListUserGuilds u).
Proof. intros d Hd. keep. Qed.
Lemma keeps_PreviewInvite c i : keeps (GuildService.PreviewInvite c i).
Proof. intros d Hd. keep. Qed.
Lemma keeps_ListMembers g l o : keeps (GuildService.ListMembers g l o).
Proof. intros d Hd. keep. unfold limit_offset. by destruct (_ || _). Qed.

(** A new guild and its owner's membership, written together. *)
Lemma wf_created d id u row m :
  d.(guilds) !! id = None → g_id row = id → g_owner_id row = u → gm_deleted m = false →
  guild_wf d →
  guild_wf (with_guilds (<[id := row]> d.(guilds))
              (with_guild_members (<[(id, u) := m]> d.(guild_members)) d)).
Proof.
  intros Hnone Hid Ho Hm Hd. pose proof (member_set_added d id u m Hm) as Hset.
  apply (wf_guild_updated (with_guild_members _ d)); [done| |].
  - intros _. rewrite Ho, (proj2 (proj2 (proj2 Hset))). by rewrite bool_decide_eq_true_2.
  - apply (wf_member_on d _ id u); [done| |done]. unfold banned.
    destruct (d.(bans) !! (id, u)) eqn:Hb; [|done].
    destruct (wf_ban_guild d Hd id u) as [? Hg]; [by rewrite Hb|congruence].
Qed.

Lemma keeps_CreateGuild o name ds i : keeps (GuildService.CreateGuild o name ds i).
Proof.
  intros d Hd. unfold GuildService.CreateGuild. apply wpd_bind, wpd_on_err.
  unfold Queries.CreateGuild. apply wpd_sql; [|apply no_fail]. intros t n. set (id := fresh n).
  destruct (has _ id) eqn:Hid; [done|]. destruct (has _ o) eqn:Ho; [|done]. cbv zeta.
  split; [|apply no_fail]. set (row := mkGuild _ _ _ _ _ _ _ _ _).
  assert (d.(guilds) !! id = None) by (unfold has in Hid; by destruct (_ !! id)).
  apply wpd_bind, wpd_on_err, wpd_AddGuildMember.
  - intros m Hm _ _. simpl.
    assert (guild_wf (with_guilds (<[id := row]> d.(guilds))
              (with_guild_members (<[(id, o) := m]> d.(guild_members)) d)))
      by by apply (wf_created d id o row m).
    keep.
  - simpl. unfold has at 1. rewrite lookup_insert_eq. by rewrite Ho.
Qed.
End Preserve.

(** ** The service as a transition system *)
Inductive guild_op :=
  | OpCreateGuild (ownerID : uuid) (name description iconURL : string)
  | OpGetGuild (guildID : uuid)
  | OpUpdateGuild (callerID guildID : uuid) (params : Queries.UpdateGuildParams)
  | OpUploadGuildIcon (callerID guildID : uuid) (filename contentType data : string)
  | OpUploadGuildBanner (callerID guildID : uuid) (filename contentType data : string)
  | OpDeleteGuild (callerID guildID : uuid)
  | OpListUserGuilds (userID : uuid)
  | OpPreviewInvite (callerID : option uuid) (inviteCode : string)
  | OpJoinGuild (userID : uuid) (inviteCode : string)
  | OpLeaveGuild (userID guildID : uuid)
  | OpListMembers (guildID : uuid) (limit offset : Z)
  | OpKickMember (callerID guildID targetID : uuid)
  | OpBanMember (callerID guildID targetID : uuid) (reason : string)
  | OpUnbanMember (callerID guildID targetID : uuid)
  | OpCreateInvite (callerID guildID : uuid) (channelID : option uuid) (maxUses maxAgeSeconds : Z)
  | OpCreateRole (callerID guildID : uuid) (name color : string)
  | OpUpdateRole (callerID guildID : uuid) (params : Queries.UpdateRoleParams)
  | OpDeleteRole (callerID guildID roleID : uuid)
  | OpAssignRole (callerID guildID targetID roleID : uuid)
  | OpRemoveRole (callerID guildID targetID roleID : uuid)
  | OpGrantRolePermission (callerID guildID roleID : uuid) (permission : string)
  | OpRevokeRolePermission (callerID guildID roleID : uuid) (permission : string)
  | OpTransferOwnership (callerID guildID newOwnerID : uuid).

Section Machine.
Context `{Env} `{!UuidText}.
Variables (minio signer : option GuildService.MinioClient) (bucket : string).

(** One request, its response dropped. *)
Definition run_op (op : guild_op) : GoM World unit :=
  match op with
  | OpCreateGuild o n d i => ignore (GuildService.CreateGuild o n d i)
  | OpGetGuild g => ignore (GuildService.GetGuild g)
  | OpUpdateGuild c g p => ignore (GuildService.UpdateGuild c g p)
  | OpUploadGuildIcon c g f ct x =>
      ignore (GuildService.UploadGuildIcon minio signer bucket c g f ct x)
  | OpUploadGuildBanner c g f ct x =>
      ignore (GuildService.UploadGuildBanner minio signer bucket c g f ct x)
  | OpDeleteGuild c g => ignore (GuildService.DeleteGuild c g)
  | OpListUserGuilds u => ignore (GuildService.ListUserGuilds u)
  | OpPreviewInvite c i => ignore (GuildService.PreviewInvite c i)
  | OpJoinGuild u i => ignore (GuildService.JoinGuild u i)
  | OpLeaveGuild u g => ignore (GuildService.LeaveGuild u g)
  | OpListMembers g l o => ignore (GuildService.ListMembers g l o)
  | OpKickMember c g t => ignore (GuildService.KickMember c g t)
  | OpBanMember c g t r => ignore (GuildService.BanMember c g t r)
  | OpUnbanMember c g t => ignore (GuildService.UnbanMember c g t)
  | OpCreateInvite c g ch m a => ignore (GuildService.CreateInvite c g ch m a)
  | OpCreateRole c g n col => ignore (GuildService.CreateRole c g n col)
  | OpUpdateRole c g p => ignore (GuildService.UpdateRole c g p)
  | OpDeleteRole c g r => ignore (GuildService.DeleteRole c g r)
  | OpAssignRole c g t r => ignore (GuildService.AssignRole c g t r)
  | OpRemoveRole c g t r => ignore (GuildService.RemoveRole c g t r)
  | OpGrantRolePermission c g r p => ignore (GuildService.GrantRolePermission c g r p)
  | OpRevokeRolePermission c g r p => ignore (GuildService.RevokeRolePermission c g r p)
  | OpTransferOwnership c g u => ignore (GuildService.TransferOwnership c g u)
  end.

Inductive guild_step : relation World :=
  | GuildStep op w : guild_step w (run_op op w).2.

Lemma run_op_wf (Hff : fault_free) op w : guild_wf w.(db) → guild_wf (run_op op w).2.(db).
Proof.
  intros Hw.
  assert (∀ A (m : GoM World A), (∀ d, guild_wf d → wpd m (λ _ d', guild_wf d') d) →
            guild_wf (ignore m w).2.(db)) as Hrun.
  { intros A m Hm. specialize (Hm _ Hw w eq_refl). unfold ignore.
    by destruct (m w) as [[?|?|] ?]. }
  destruct op; cbn [run_op]; apply Hrun; clear Hrun.
  - by apply keeps_CreateGuild.
  - by apply keeps_GetGuild.
  - by apply keeps_UpdateGuild.
  - by apply keeps_UploadGuildIcon.
  - by apply keeps_UploadGuildBanner.
  - by apply keeps_DeleteGuild.
  - by apply keeps_ListUserGuilds.
  - by apply keeps_PreviewInvite.
  - by apply keeps_JoinGuild.
  - by apply keeps_LeaveGuild.
  - by apply keeps_ListMembers.
  - by apply keeps_KickMember.
  - by apply keeps_BanMember.
  - by apply keeps_UnbanMember.
  - by apply keeps_CreateInvite.
  - apply keeps_frame, frame_CreateRole_op.
  - apply keeps_frame, frame_UpdateRole_op.
  - apply keeps_frame, frame_DeleteRole_op.
  - apply keeps_frame, frame_AssignRole_op.
  - apply keeps_frame, frame_RemoveRole_op.
  - apply keeps_frame, frame_Grant_op.
  - apply keeps_frame, frame_Revoke_op.
  - by apply keeps_TransferOwnership.
Qed.

(** C5: along every sequence of requests against a database that answers, the
    owner of every live guild stays one of its live members, no live member is
    banned, bans name existing guilds, and no limited invite is used more
    often than it allows. *)
Theorem guild_invariant w w' :
  fault_free → guild_wf w.(db) → rtc guild_step w w' → guild_wf w'.(db).
Proof.
  intros Hff Hw Hsteps. induction Hsteps as [|w1 w2 w3 Hs _ IH]; [done|].
  apply IH. inversion Hs; subst. by apply run_op_wf.
Qed.
End Machine.

(** ** Kicking *)
Definition roles_wf (d : Db) : Prop := ∀ rid r, d.(roles) !! rid = Some r → r_id r = rid.

(** The tables after [user] was taken out of @everyone: only memberships of a
    role of that name may have changed. *)
Definition everyone_only (user : uuid) (d d' : Db) : Prop :=
  guild_core d' = guild_core d ∧ roles d' = roles d ∧ permissions d' = permissions d ∧
  role_permissions d' = role_permissions d ∧
  ∀ rid r, d.(roles) !! rid = Some r → r_name r ≠ "@everyone" →
    d'.(role_members) !! (rid, user) = d.(role_members) !! (rid, user).

Lemma everyone_only_refl u d : everyone_only u d d.
Proof. by split_and!. Qed.

Lemma everyone_only_trans u d1 d2 d3 :
  everyone_only u d1 d2 → everyone_only u d2 d3 → everyone_only u d1 d3.
Proof.
  intros (A1 & A2 & A3 & A4 & A5) (B1 & B2 & B3 & B4 & B5). split_and!; try congruence.
  intros rid r Hr Hn. rewrite (B5 rid r), (A5 rid r); by rewrite ?A2.
Qed.

Lemma everyone_only_removed u d rid r t :
  d.(roles) !! rid = Some r → r_name r = "@everyone" →
  everyone_only u d (with_role_members (alter (role_member_set true t) (rid, u) d.(role_members)) d).
Proof.
  intros Hr Hn. split_and!; [done..|]. intros rid' r' Hr' Hn'. simpl.
  rewrite lookup_alter_ne; [done|]. intros [= <-]. by simplify_eq.
Qed.

Lemma everyone_only_HoldsRole u g rid r d d' :
  everyone_only u d d' → d.(roles) !! rid = Some r → r_name r ≠ "@everyone" →
  HoldsRole d u g rid → HoldsRole d' u g rid.
Proof.
  intros (_ & Hroles & _ & _ & Hrm) Hr Hn. unfold HoldsRole. by rewrite Hroles, (Hrm rid r).
Qed.

Section Kick.
Context `{Env} `{!UuidText}.

Lemma wpd_RemoveRole r u (Q : outcome unit → Db → Prop) d :
  (∀ o t, o ≠ Panic →
     Q o (with_role_members (alter (role_member_set true t) (r, u) d.(role_members)) d)) →
  Q (Err lost) d → wpd (Queries.RemoveRole r u) Q d.
Proof. intros HQ HE. unfold Queries.RemoveRole. wpd_auto; auto. Qed.

Lemma wpd_removeEveryoneRole g u (Q : outcome unit → Db → Prop) d :
  roles_wf d → (∀ d', everyone_only u d d' → Q (Ok tt) d') →
  wpd (GuildService.removeEveryoneRole g u) Q d.
Proof.
  intros Hwf HQ. unfold GuildService.removeEveryoneRole, Queries.GetEveryoneRole.
  apply wpd_bind, wpd_try, wpd_one.
  2,3: intros; apply wpd_ret, HQ, everyone_only_refl.
  intros role Hrole. apply head_Some_elem_of, elem_of_rows in Hrole as (rid & Hr & Hrole).
  apply andb_true_iff in Hrole as [[_ Hn%string_eqb_true]%andb_true_iff _].
  rewrite (Hwf _ _ Hr) in *.
  assert (∀ d1, roles d1 = roles d → everyone_only u d d1 →
    ∀ t, everyone_only u d (with_role_members
           (alter (role_member_set true t) (rid, u) d1.(role_members)) d1)) as Hstep.
  { intros d1 E1 H1 t. eapply everyone_only_trans; [exact H1|].
    apply (everyone_only_removed u d1 rid role); [by rewrite E1|done]. }
  assert (∀ d1, roles d1 = roles d → everyone_only u d d1 →
    wpd (ignore (Authz.RemoveUserFromRole (uuid_print u) (uuid_print rid))) Q d1) as Hauthz.
  { intros d1 E1 H1. unfold Authz.RemoveUserFromRole, Authz.parseUUID.
    destruct (negb authz_wired); [by apply wpd_ignore, wpd_ret, HQ|].
    rewrite !uuid_parse_print, !bind_ret_l. apply wpd_ignore, wpd_RemoveRole; [|by apply HQ].
    intros [?|?|] t ?; by eauto. }
  apply wpd_bind, wpd_ignore, wpd_RemoveRole; [|apply Hauthz; [done|apply everyone_only_refl]].
  intros [?|?|] t Ho; [| |done];
    (apply Hauthz; [done|apply (Hstep d); [done|apply everyone_only_refl]]).
Qed.

(** What a successful kick or ban has checked and done. *)
Definition removal_checked (d : Db) (c g t : uuid) (name : string) : Prop :=
  (authz_wired = true → Authorized d c g name ∧ canActOnSQL d c t g = true) ∧
  ∃ row, d.(guilds) !! g = Some row ∧ g_deleted row = false ∧ g_owner_id row ≠ t.

(** C13: a kick that succeeds (whatever fails on the way) was requested by
    someone holding KICK_MEMBERS who strictly outranks the target, the target
    was a live member and not the owner; afterwards he is no longer a member
    and every other membership is as before. *)
Theorem KickMember_effect c g t w w' :
  roles_wf w.(db) →
  GuildService.KickMember c g t w = (Ok tt, w') →
  removal_checked w.(db) c g t "KICK_MEMBERS" ∧
  Queries.member_of w.(db) t g = true ∧
  member_set w.(db) w'.(db) g t false.
Proof.
  intros Hwf Hrun.
  refine (wpd_run _ (λ o d', o = Ok tt → removal_checked w.(db) c g t "KICK_MEMBERS" ∧
    Queries.member_of w.(db) t g = true ∧ member_set w.(db) d' g t false) w _ w' _ Hrun eq_refl).
  generalize (db w) Hwf. clear w w' Hwf Hrun. intros d Hwf.
  unfold GuildService.KickMember, Authz.CanKick.
  apply wpd_bind. eapply wpd_Check; [reflexivity|]. intros b Hb _.
  apply wpd_bind, wpd_ensure; [intros ->|done].
  apply wpd_bind, wpd_CanActOn. intros x Hx.
  apply wpd_bind, wpd_ensure; [intros ->|done].
  apply wpd_bind, wpd_on_err, wpd_one; [|done..]. intros row Hrow.
  apply wpd_bind, wpd_ensure; [intros Ho|done]. destruct (not_owner _ _ _ _ Hrow Ho).
  apply wpd_bind, wpd_on_err, wpd_one; [|done..]. intros m [Hm Hl]%live_Some.
  apply wpd_bind. unfold Queries.RemoveGuildMember. apply wpd_sql; [|done]. intros t0 _.
  split; [|done]. apply wpd_bind, wpd_removeEveryoneRole; [done|]. intros d' Hd' .
  apply wpd_Publish. intros _. split; [|split].
  - split; [by auto|]. exists row. apply live_Some in Hrow. tauto.
  - unfold Queries.member_of. by rewrite Hm, Hl.
  - eapply member_set_core; [apply Hd'|apply member_set_removed].
Qed.
(** The comment on the kick path says that removing the membership row is
    enough for the permission layer because [Check] reads it directly.  It
    does not: after a successful kick, a permission the target held through a
    role other than @everyone still passes [Check]. *)
Theorem KickMember_keeps_role_powers c g t w w' rid r name :
  roles_wf w.(db) →
  GuildService.KickMember c g t w = (Ok tt, w') →
  w.(db).(roles) !! rid = Some r → r_name r ≠ "@everyone" →
  HoldsRole w.(db) t g rid → Grants w.(db) rid name →
  Queries.member_of w'.(db) t g = false ∧ Authorized w'.(db) t g name.
Proof.
  intros Hwf Hrun Hr Hn Hh Hg.
  refine (wpd_run _ (λ o d', o = Ok tt → Queries.member_of d' t g = false ∧
    Authorized d' t g name) w _ w' _ Hrun eq_refl).
  generalize (db w) Hwf Hr Hh Hg. clear w w' Hwf Hrun Hr Hh Hg. intros d Hwf Hr Hh Hg.
  unfold GuildService.KickMember, Authz.CanKick.
  apply wpd_bind, wpd_Check_any. intros b. apply wpd_bind, wpd_ensure; [intros _|done].
  apply wpd_bind, wpd_CanActOn. intros x _. apply wpd_bind, wpd_ensure; [intros _|done].
  apply wpd_bind, wpd_on_err, wpd_one; [|done..]. intros row _.
  apply wpd_bind, wpd_ensure; [intros _|done].
  apply wpd_bind, wpd_on_err, wpd_one; [|done..]. intros m _.
  apply wpd_bind. unfold Queries.RemoveGuildMember. apply wpd_sql; [|done]. intros t0 _.
  split; [|done]. apply wpd_bind, wpd_removeEveryoneRole; [done|]. intros d' Hd'.
  apply wpd_Publish. intros _. split.
  - destruct (member_set_core d _ d' g t false (proj1 Hd')
      (member_set_removed d g t t0)) as (_ & _ & _ & ->). by rewrite bool_decide_eq_true_2.
  - right; right. exists rid. split.
    + eapply everyone_only_HoldsRole; [exact Hd'|exact Hr|done|exact Hh].
    + destruct Hd' as (_ & _ & Hp & Hrp & _). unfold Grants. by rewrite Hp, Hrp.
Qed.

(** A ban that succeeds was requested by someone holding BAN_MEMBERS who
    strictly outranks the target and did not hit the owner; afterwards the
    target is banned and, when no statement was lost, no longer a member. *)
Theorem BanMember_effect c g t reason w w' :
  roles_wf w.(db) →
  GuildService.BanMember c g t reason w = (Ok tt, w') →
  removal_checked w.(db) c g t "BAN_MEMBERS" ∧ banned w'.(db) t g = true ∧
  (fault_free → Queries.member_of w'.(db) t g = false).
Proof.
  intros Hwf Hrun.
  refine (wpd_run _ (λ o d', o = Ok tt → removal_checked w.(db) c g t "BAN_MEMBERS" ∧
    banned d' t g = true ∧ (fault_free → Queries.member_of d' t g = false)) w _ w' _ Hrun eq_refl).
  generalize (db w) Hwf. clear w w' Hwf Hrun. intros d Hwf.
  unfold GuildService.BanMember, Authz.CanBan.
  apply wpd_bind. eapply wpd_Check; [reflexivity|]. intros b Hb _.
  apply wpd_bind, wpd_ensure; [intros ->|done].
  apply wpd_bind, wpd_CanActOn. intros x Hx.
  apply wpd_bind, wpd_ensure; [intros ->|done].
  apply wpd_bind, wpd_on_err, wpd_one; [|done..]. intros row Hrow.
  apply wpd_bind, wpd_ensure; [intros Ho|done]. destruct (not_owner _ _ _ _ Hrow Ho).
  apply live_Some in Hrow as [Hrow Hlive].
  assert (∀ d1, roles d1 = roles d → (fault_free → Queries.member_of d1 t g = false) →
    wpd (_ ← Queries.CreateBan g t reason ?> ErrorfW "failed to create ban: %w";
         _ ← GuildService.removeEveryoneRole g t;
         GuildService.publishGuildEvent g GUILD_EVENT_MEMBER_BAN
           [("user_id", uuid_print t); ("reason", reason)])
      (λ o d', o = Ok tt → removal_checked d c g t "BAN_MEMBERS" ∧
         banned d' t g = true ∧ (fault_free → Queries.member_of d' t g = false)) d1) as Htail.
  { intros d1 E1 Hm. apply wpd_bind, wpd_on_err. unfold Queries.CreateBan.
    apply wpd_sql; [|done]. intros t0 _. destruct (_ && _); [|done]. cbv zeta. split; [|done].
    apply wpd_bind, wpd_removeEveryoneRole; [by unfold roles_wf; simpl; rewrite E1|].
    intros d' (Hcore & _). apply wpd_Publish. intros _. unfold guild_core in Hcore.
    injection Hcore as Hg Hgm Hb' _. split_and!.
    - split; [by auto|]. by exists row.
    - unfold banned. rewrite Hb'. simpl. rewrite lookup_insert_eq. by destruct (bans d1 !! _).
    - intros Hff. unfold Queries.member_of in *. rewrite Hgm. by apply Hm. }
  apply wpd_bind, wpd_ignore. unfold Queries.RemoveGuildMember. apply wpd_sql.
  - intros t0 _. split.
    + apply Htail; [done|]. intros _. rewrite (proj2 (proj2 (proj2 (member_set_removed d g t t0)))).
      by rewrite bool_decide_eq_true_2.
    + intros Hf. apply Htail; [done|]. intros Hff. by destruct (fault_free_not_can_fail Hff).
  - intros Hf. apply Htail; [done|]. intros Hff. by destruct (fault_free_not_can_fail Hff).
Qed.
End Kick.

(** ** Joining *)

(** Why an invite is refused, in the order of the checks; [t] is the clock
    reading of the expiry check. *)
Definition join_refusal (d : Db) (u : uuid) (t : time) (i : Invite) : option error :=
  if match i_expires_at i with Some x => (x <? t)%Z | None => false end
  then Some GuildService.ErrInviteExpired
  else if GuildService.invite_exhausted i then Some GuildService.ErrInviteMaxUses
  else if banned d u (i_guild_id i) then Some GuildService.ErrUserBanned
  else None.

(** The rows the foreign keys of a membership ask for. *)
Definition join_fks (d : Db) (u : uuid) (i : Invite) : Prop :=
  has d.(guilds) (i_guild_id i) && has d.(users) u && has d.(users) (i_creator_id i) = true.

Section Join.
Context `{Env} `{!UuidText}.

Lemma wpd_buildJoinResult g (Q : outcome GuildService.JoinGuildResult → Db → Prop) d :
  fault_free →
  (∀ row cs n, live g_deleted (d.(guilds) !! g) = Some row →
     Q (Ok (GuildService.mkJoinGuildResult row cs n)) d) →
  (live g_deleted (d.(guilds) !! g) = None → ∀ e, Q (Err e) d) →
  wpd (GuildService.buildJoinResult g) Q d.
Proof.
  intros Hff HQ HE. pose proof (fault_free_not_can_fail Hff) as Hno.
  unfold GuildService.buildJoinResult, Queries.GetGuildByID.
  apply wpd_bind, wpd_on_err, wpd_one; [|by auto|by intros ?%Hno]. intros row Hrow.
  wpd_auto; solve [by eapply HQ | by exfalso; apply Hno].
Qed.

Lemma wpd_IncrementInviteUses code i (Q : outcome unit → Db → Prop) d :
  fault_free → d.(invites) !! code = Some i → (i_uses i < max_int32)%Z →
  Q (Ok tt) (with_invites (<[code := invite_used i]> d.(invites)) d) →
  wpd (Queries.IncrementInviteUses code) Q d.
Proof.
  intros Hff Hi Hlt HQ. pose proof (fault_free_not_can_fail Hff) as Hno.
  unfold Queries.IncrementInviteUses. apply wpd_sql; [|by intros ?%Hno]. intros _ _.
  rewrite Hi, (proj2 (Z.ltb_lt _ _) Hlt). split; [done|by intros ?%Hno].
Qed.

(** A statement that keeps the guild tables, and never panics. *)
Lemma wpd_core {A} (f : time → uuid → Db → error + (A * Db)) (Q : outcome A → Db → Prop) d :
  steps (on_db (same guild_core)) (sql f) →
  (∀ o d', o ≠ Panic → guild_core d' = guild_core d → Q o d') → wpd (sql f) Q d.
Proof.
  intros Hs HQ w <-. pose proof (Hs w) as E. apply HQ; [|exact E].
  unfold sql, external. by repeat case_match.
Qed.

Lemma wpd_RecordInviteUse c g u i (Q : outcome InviteUse → Db → Prop) d :
  (∀ o d', o ≠ Panic → guild_core d' = guild_core d → Q o d') →
  wpd (Queries.RecordInviteUse c g u i) Q d.
Proof. apply wpd_core, frame_RecordInviteUse. Qed.
Lemma wpd_AssignRole r u (Q : outcome unit → Db → Prop) d :
  (∀ o d', o ≠ Panic → guild_core d' = guild_core d → Q o d') →
  wpd (Queries.AssignRole r u) Q d.
Proof. apply wpd_core, frame_AssignRole. Qed.
Lemma wpd_CreateRole g n c p (Q : outcome Role → Db → Prop) d :
  (∀ o d', o ≠ Panic → guild_core d' = guild_core d → Q o d') →
  wpd (Queries.CreateRole g n c p) Q d.
Proof. apply wpd_core, frame_CreateRole. Qed.

Lemma wpd_ensureEveryoneRole g u (Q : outcome unit → Db → Prop) d :
  (∀ o d', o ≠ Panic → guild_core d' = guild_core d → Q o d') →
  wpd (GuildService.ensureEveryoneRole g u) Q d.
Proof.
  intros HQ. unfold GuildService.ensureEveryoneRole, Queries.GetEveryoneRole.
  assert (∀ r d1, guild_core d1 = guild_core d → wpd (ignore (Queries.AssignRole r u)) Q d1) as Ha.
  { intros r d1 E. apply wpd_ignore, wpd_AssignRole. intros [?|?|] d2 ? E2; [..|done];
      (apply HQ; [done|congruence]). }
  assert (wpd (role ← Queries.CreateRole g "@everyone" "" 0 ?> ErrorfW "create @everyone role: %w";
               ignore (Queries.AssignRole (r_id role) u)) Q d) as Hc.
  { apply wpd_bind, wpd_on_err, wpd_CreateRole.
    intros [r|e|] d1 ? E; [by apply Ha|by apply HQ|done]. }
  apply wpd_bind, wpd_try, wpd_one; intros; [by apply wpd_bind, wpd_ret, Ha|exact Hc..].
Qed.

Lemma wpd_assignEveryoneRole g u (Q : outcome unit → Db → Prop) d :
  (∀ d', guild_core d' = guild_core d → Q (Ok tt) d') →
  wpd (GuildService.assignEveryoneRole g u) Q d.
Proof.
  intros HQ. unfold GuildService.assignEveryoneRole, Queries.GetEveryoneRole.
  assert (wpd (ignore (GuildService.ensureEveryoneRole g u)) Q d) as He.
  { apply wpd_ignore, wpd_ensureEveryoneRole. intros [?|?|] d' ? E; [by apply HQ..|done]. }
  assert (∀ r d1, guild_core d1 = guild_core d →
    wpd (ignore (Authz.AddUserToRole (uuid_print u) (uuid_print r))) Q d1) as Ha.
  { intros r d1 E. unfold Authz.AddUserToRole, Authz.parseUUID.
    destruct (negb authz_wired); [by apply wpd_ignore, wpd_ret, HQ|].
    rewrite !uuid_parse_print, !bind_ret_l. apply wpd_ignore, wpd_AssignRole.
    intros [?|?|] d2 ? E2; [..|done]; (apply HQ; congruence). }
  apply wpd_bind, wpd_try, wpd_one; [|intros; exact He..]. intros role _.
  apply wpd_bind, wpd_ignore, wpd_AssignRole. intros [?|?|] d1 ? E; [by apply Ha..|done].
Qed.

(** The part of [JoinGuild] after the refusals, for a newcomer; [j] is the
    invite as it is stored by then. *)
Lemma wpd_join_new u code i j d (Q : outcome GuildService.JoinGuildResult → Db → Prop) :
  fault_free → d.(invites) !! code = Some j → (i_uses j < max_int32)%Z → join_fks d u i →
  (∀ o d', member_set (with_invites (<[code := invite_used j]> d.(invites)) d) d'
             (i_guild_id i) u true →
     (live g_deleted (d.(guilds) !! i_guild_id i) = None ∨
      ∃ row cs n, live g_deleted (d.(guilds) !! i_guild_id i) = Some row ∧
                  o = Ok (GuildService.mkJoinGuildResult row cs n)) → Q o d') →
  wpd (_ ← Queries.AddGuildMember (i_guild_id i) u "" (Some code) (Some (i_creator_id i))
           ?> ErrorfW "failed to add guild member: %w";
       _ ← ignore (Queries.IncrementInviteUses code);
       _ ← ignore (Queries.RecordInviteUse code (i_guild_id i) u (i_creator_id i));
       _ ← GuildService.assignEveryoneRole (i_guild_id i) u;
       _ ← GuildService.publishGuildEvent (i_guild_id i) GUILD_EVENT_MEMBER_ADD
             [("user_id", uuid_print u)];
       GuildService.buildJoinResult (i_guild_id i)) Q d.
Proof.
  intros Hff Hi Hlt Hfk HQ. apply wpd_bind, wpd_on_err, (wpd_AddGuildMember Hff); cycle 1.
  { simpl. unfold join_fks in Hfk. by rewrite Hfk. }
  intros m Hm _ _. apply wpd_bind, wpd_ignore, (wpd_IncrementInviteUses code j); [done..|].
  set (d1 := with_invites _ _).
  assert (∀ d2, guild_core d2 = guild_core d1 →
    wpd (GuildService.buildJoinResult (i_guild_id i)) Q d2) as Htail.
  { intros d2 E. pose proof E as [= Eg _ _ _].
    assert (member_set (with_invites (<[code := invite_used j]> d.(invites)) d) d2
              (i_guild_id i) u true) as Hset.
    { eapply member_set_core; [exact E|]. apply (member_set_added (with_invites _ d)), Hm. }
    apply wpd_buildJoinResult; [done|rewrite Eg; intros row cs n Hrow|rewrite Eg; intros Hn e];
      (apply HQ; [done|]); [right; eauto|by left]. }
  assert (∀ d2, guild_core d2 = guild_core d1 →
    wpd (_ ← GuildService.assignEveryoneRole (i_guild_id i) u;
         _ ← GuildService.publishGuildEvent (i_guild_id i) GUILD_EVENT_MEMBER_ADD
               [("user_id", uuid_print u)];
         GuildService.buildJoinResult (i_guild_id i)) Q d2) as Htail2.
  { intros d2 E. apply wpd_bind, wpd_assignEveryoneRole. intros d3 E3.
    apply wpd_bind, wpd_Publish, Htail. congruence. }
  apply wpd_bind, wpd_ignore, wpd_RecordInviteUse. intros [?|?|] d2 ? E; [by apply Htail2..|done].
Qed.

Lemma invite_expired_run i w :
  ∃ w', w'.(db) = w.(db) ∧
  GuildService.invite_expired i w =
    (Ok (match i_expires_at i with Some x => (x <? clock w.(tick))%Z | None => false end), w').
Proof.
  unfold GuildService.invite_expired. destruct (i_expires_at i) as [x|]; [|by exists w].
  by exists (bump w).
Qed.

Lemma banned_live d u g :
  banned d u g = match live b_deleted (d.(bans) !! (g, u)) with Some _ => true | None => false end.
Proof. unfold banned, live. destruct (_ !! _) as [b|]; [|done]. by destruct (b_deleted b). Qed.

Lemma member_live d u g :
  Queries.member_of d u g =
  match live gm_deleted (d.(guild_members) !! (g, u)) with Some _ => true | None => false end.
Proof.
  unfold Queries.member_of, live. destruct (_ !! _) as [m|]; [|done]. by destruct (gm_deleted m).
Qed.

(** C12: the outcome of [JoinGuild] on every branch when the database
    answers.  An unknown code, an expired invite, an exhausted invite and a ban
    are refused in this order with their own error and change nothing; a
    member gets the guild again and nothing changes; a newcomer becomes a
    member, the use counter of the invite grows by one, and nothing else
    changes in guilds, members, bans and invites. *)
Theorem JoinGuild_outcome u code w :
  fault_free →
  let d := w.(db) in
  let r := GuildService.JoinGuild u code w in
  match live i_deleted (d.(invites) !! code) with
  | None => r.1 = Err GuildService.ErrInviteNotFound ∧ r.2.(db) = d
  | Some i =>
      match join_refusal d u (clock (S w.(tick))) i with
      | Some e => r.1 = Err e ∧ r.2.(db) = d
      | None =>
          join_fks d u i → (i_uses i < max_int32)%Z →
          (if Queries.member_of d u (i_guild_id i) then r.2.(db) = d
           else member_set (with_invites (<[code := invite_used i]> d.(invites)) d) r.2.(db)
                  (i_guild_id i) u true) ∧
          ∀ row, live g_deleted (d.(guilds) !! i_guild_id i) = Some row →
            ∃ cs n, r.1 = Ok (GuildService.mkJoinGuildResult row cs n)
      end
  end.
Proof.
  intros Hff d r. pose proof (fault_free_not_can_fail Hff) as Hno.
  assert (GuildService.JoinGuild u code w = r) as Hrun by done.
  clearbody r. unfold GuildService.JoinGuild, Queries.GetInvite in Hrun.
  unfold mbind at 1, gom_bind at 1, on_err at 1 in Hrun. rewrite query_run in Hrun by apply Hff.
  fold d in Hrun. destruct (live i_deleted _) as [i|] eqn:Hi; [|by subst r].
  simpl (one _) in Hrun. apply live_Some in Hi as [Hi _].
  unfold mbind at 1, gom_bind at 1 in Hrun.
  destruct (invite_expired_run i (bump w)) as (w1 & Hw1 & Hexp). rewrite Hexp in Hrun.
  change (db (bump w)) with d in Hw1. unfold join_refusal. simpl (tick (bump w)) in Hrun.
  destruct (match i_expires_at i with Some _ => _ | None => _ end); [by subst r|].
  simpl (ensure _ _) in Hrun. rewrite bind_ret_l in Hrun.
  destruct (GuildService.invite_exhausted i) eqn:Hex; [by subst r|].
  simpl (ensure _ _) in Hrun. rewrite bind_ret_l in Hrun.
  rewrite <- Hrun, banned_live, member_live. clear Hrun r Hexp.
  match goal with |- context [?m w1] => pattern (m w1).1, (db (m w1).2) end.
  match goal with |- ?P (?m w1).1 _ => apply (λ H : wpd m P d, H w1 Hw1) end.
  apply wpd_bind, wpd_try, wpd_one; [intros b ->; by apply wpd_fail|intros ->|by intros ?%Hno].
  cbv beta iota. apply wpd_bind, wpd_ensure; [intros _|done].
  apply wpd_bind, wpd_try, wpd_one; [intros m ->|intros ->|by intros ?%Hno].
  - apply wpd_buildJoinResult; [done|intros row cs n Hrow _ _..|intros Hn e _ _].
    + split; [done|]. intros row' Hrow'. simplify_eq. eauto.
    + split; [done|]. intros row' Hrow'. congruence.
  - apply wpd_impl. intros Hfk. apply wpd_impl. intros Hlt.
    apply (wpd_join_new u code i i); [done..|]. intros o d' Hset Ho. split; [done|]. intros row Hrow.
    destruct Ho as [Ho|(row' & cs & n & Hrow' & ->)]; [congruence|]. simplify_eq. eauto.
Qed.
End Join.

(** ** Roles: what the guards give and what they leave open *)
Section Escalation.
Context `{Env} `{!UuidText}.

Lemma wpd_publishRoleEvent g a r e (Q : outcome unit → Db → Prop) d :
  Q (Ok tt) d → wpd (GuildService.publishRoleEvent g a r e) Q d.
Proof.
  intros HQ. unfold GuildService.publishRoleEvent.
  apply wpd_bind, wpd_try, wpd_ListRolePermissions; intros; by apply wpd_Publish.
Qed.

Lemma relation_of_permission permission relation :
  assoc permission PermissionRelation = Some relation →
  assoc relation relationToName = Some permission.
Proof.
  intros H1%assoc_elem_of. destruct PermissionRelation_NoDup as [_ Hnd].
  apply assoc_NoDup; [done|]. apply list_elem_of_fmap. by exists (permission, relation).
Qed.

Lemma Authorized_admin d c g : Authorized d c g "ADMINISTRATOR" → IsOwner d c g ∨ IsAdmin d c g.
Proof. intros [?|[?|?]]; [by left|by right|by right]. Qed.

(** A grant of something [c] already holds gives [c] nothing new. *)
Lemma granted_same_authority d d' c g r permission :
  granted d d' r permission → Authorized d c g permission →
  ∀ name, Authorized d' c g name ↔ Authorized d c g name.
Proof.
  intros [(Hg & Hr & Hrm) Hgrants] Hauth name.
  assert (IsOwner d' c g ↔ IsOwner d c g) as Ho by (unfold IsOwner; by rewrite Hg).
  assert (∀ rid, HoldsRole d' c g rid ↔ HoldsRole d c g rid) as Hh
    by (intros; unfold HoldsRole; by rewrite Hr, Hrm).
  split.
  - intros [?|[(rid & Hh' & [Hg'|(-> & E & _)]%Hgrants)|(rid & Hh' & [Hg'|(-> & -> & _)]%Hgrants)]].
    + left. by apply Ho.
    + right; left. exists rid. split; [by apply Hh|done].
    + rewrite <- E in Hauth. destruct (Authorized_admin _ _ _ Hauth); [by left|by right; left].
    + right; right. exists rid. split; [by apply Hh|done].
    + done.
  - intros [?|[(rid & Hh' & Hg')|(rid & Hh' & Hg')]].
    + left. by apply Ho.
    + right; left. exists rid. split; [by apply Hh|apply Hgrants; by left].
    + right; right. exists rid. split; [by apply Hh|apply Hgrants; by left].
Qed.

(** C14: the anti-escalation rule.  Whatever the faults, when a grant of
    [permission] requested by [c] in guild [g] succeeds, [c] held [permission]
    there, the role carries it now if the catalogue table knows it, and what
    [c] may do in [g] is exactly what he could do before, even if he holds the
    role. *)
Theorem GrantRolePermission_no_self_escalation c g r permission w w' :
  authz_wired = true → permissions_wf w.(db) →
  GuildService.GrantRolePermission c g r permission w = (Ok tt, w') →
  Authorized w.(db) c g permission ∧ granted w.(db) w'.(db) r permission ∧
  ∀ name, Authorized w'.(db) c g name ↔ Authorized w.(db) c g name.
Proof.
  intros Hw Hwf Hrun.
  assert (Authorized w.(db) c g permission ∧ granted w.(db) w'.(db) r permission) as [Hauth Hgr].
  { refine (wpd_run _ (λ o d', o = Ok tt → Authorized w.(db) c g permission ∧
      granted w.(db) d' r permission) w _ w' _ Hrun eq_refl).
    generalize (db w) Hwf. clear w w' Hwf Hrun. intros d Hwf.
    unfold GuildService.GrantRolePermission, Authz.CanManageRoles, Authz.CanGuildPermission,
      GuildService.permission_relation.
    apply wpd_bind, wpd_Check_any. intros b. apply wpd_bind, wpd_ensure; [intros _|done].
    destruct (assoc permission PermissionRelation) as [rel|] eqn:Hrel;
      [|by apply wpd_bind, wpd_fail].
    pose proof (relation_of_permission _ _ Hrel) as Hname.
    apply wpd_bind, wpd_ret, wpd_bind. eapply wpd_Check; [exact Hname|]. intros b' Hb' _.
    apply wpd_bind, wpd_ensure; [intros ->|done].
    apply wpd_bind, wpd_on_err, wpd_one; [|done..]. intros role _.
    apply wpd_bind, wpd_on_err.
    apply (wpd_GrantRolePermission _ _ _ r permission);
      [done|done|apply uuid_parse_print|done| |done].
    intros d' Hd'. apply wpd_publishRoleEvent. intros _. split; [by apply Hb'|done]. }
  split_and!; [done..|]. by apply (granted_same_authority _ _ _ _ r permission).
Qed.

Lemma wpd_assigned r u (Q : outcome unit → Db → Prop) d :
  fault_free → has d.(roles) r = true → has d.(users) u = true →
  (∀ rm, rm_deleted rm = false →
     Q (Ok tt) (with_role_members (<[(r, u) := rm]> d.(role_members)) d)) →
  wpd (Queries.AssignRole r u) Q d.
Proof.
  intros Hff Hr Hu HQ. pose proof (fault_free_not_can_fail Hff) as Hno.
  unfold Queries.AssignRole. apply wpd_sql; [|by intros ?%Hno]. intros t _.
  rewrite Hr, Hu. simpl. split; [|by intros ?%Hno].
  apply HQ. by destruct (_ !! _).
Qed.

(** The role handlers never ask whether the role belongs to the guild
    whose MANAGE_ROLES they checked.  The owner of any guild [gA] can hand
    himself every live role of every other guild [gB]. *)
Theorem AssignRole_crosses_guilds c gA gB rid row role w :
  fault_free → authz_wired = true →
  w.(db).(guilds) !! gA = Some row → g_deleted row = false → g_owner_id row = c →
  Queries.member_of w.(db) c gA = true → has w.(db).(users) c = true →
  w.(db).(roles) !! rid = Some role → r_deleted role = false → r_guild_id role = gB →
  (GuildService.AssignRole c gA c rid w).1 = Ok tt ∧
  HoldsRole (GuildService.AssignRole c gA c rid w).2.(db) c gB rid.
Proof.
  intros Hff Hw Hrow Hd Hown Hmem Hu Hrole Hrd Hgb.
  pose proof (fault_free_not_can_fail Hff) as Hno.
  apply (λ H : wpd _ (λ o d', o = Ok tt ∧ HoldsRole d' c gB rid) w.(db), H w eq_refl).
  generalize (db w) Hrow Hmem Hu Hrole. clear w Hrow Hmem Hu Hrole. intros d Hrow Hmem Hu Hrole.
  assert (has d.(roles) rid = true) as Hr by (apply has_true; eauto).
  unfold GuildService.AssignRole, Authz.CanManageRoles.
  apply wpd_bind. eapply wpd_Check; [reflexivity|]. intros b _ Hb.
  rewrite (Hb Hno Hw) by (left; by exists row).
  apply wpd_bind, wpd_ensure; [intros _|done].
  rewrite member_live in Hmem.
  apply wpd_bind, wpd_on_err, wpd_one; [|by intros E; rewrite E in Hmem|by intros ?%Hno].
  intros m _. apply wpd_bind, wpd_on_err, wpd_one; [|simpl; by rewrite Hrole; simpl; rewrite Hrd|by intros ?%Hno].
  intros role' _. apply wpd_bind, wpd_assigned; [done..|]. intros rm Hrm.
  unfold Authz.AddUserToRole, Authz.parseUUID. rewrite Hw. cbn [negb].
  rewrite !uuid_parse_print, !bind_ret_l. apply wpd_bind, wpd_ignore, wpd_assigned; [done..|].
  intros rm' Hrm'. apply wpd_publishRoleEvent. split; [done|]. exists rm', role. simpl.
  by rewrite lookup_insert_eq.
Qed.
End Escalation.

(** ** Worked examples

    The guild of [demo_db] with its members 1 (owner), 3 and 4, the banned
    user 6, an invite "abc", and a second guild 20 owned by user 4. *)
Definition demo_user (u : uuid) : User := mkUser u "" "" "" "" "" "" 0 0 true false "" "".
Definition demo_member (g u : uuid) : GuildMember := mkGuildMember g u "" 0 false 0 None None.
Definition demo_invite : Invite := mkInvite "abc" 2 9 1 5 0 None 0 false 0.
Definition guild_demo_db : Db :=
  with_users (list_to_map ((λ u, (u, demo_user u)) <$> [1; 3; 4; 5; 6]%positive))
  (with_guilds {[2%positive := demo_guild; 20%positive := mkGuild 20 "h" "" "" 4 0 false 0 ""]}
  (with_guild_members {[(2, 1)%positive := demo_member 2 1; (2, 3)%positive := demo_member 2 3;
                        (2, 4)%positive := demo_member 2 4; (20, 4)%positive := demo_member 20 4]}
  (with_bans {[(2, 6)%positive := mkBan 2 6 "spam" 0 false 0]}
  (with_invites {["abc" := demo_invite]} demo_db)))).
Definition guild_demo_world : World := with_db guild_demo_db empty_world.

Lemma guild_demo_wf : guild_wf guild_demo_db.
Proof.
  split.
  - check_rows (λ g r, bool_decide (g_id r = g)).
  - assert (∀ k (b : Ban), guild_demo_db.(bans) !! k = Some b → has guild_demo_db.(guilds) k.1 = true)
      as Hb by check_rows (λ (k : uuid * uuid) (b : Ban),
                  bool_decide (has guild_demo_db.(guilds) k.1 = true)).
    intros g u [b Hk]. apply has_true. exact (Hb (g, u) b Hk).
  - check_rows (λ g r, bool_decide (g_deleted r = false →
      Queries.member_of guild_demo_db (g_owner_id r) g = true)).
  - assert (∀ k (b : Ban), guild_demo_db.(bans) !! k = Some b →
      Queries.member_of guild_demo_db k.2 k.1 = false) as Hb
      by check_rows (λ (k : uuid * uuid) (b : Ban),
           bool_decide (Queries.member_of guild_demo_db k.2 k.1 = false)).
    intros g u. unfold banned. destruct (_ !! _) as [b|] eqn:Hk; [|done].
    intros _. exact (Hb (g, u) b Hk).
  - check_rows (λ (_ : string) i, bool_decide ((0 < i_max_uses i)%Z →
      (i_uses i ≤ i_max_uses i)%Z)).
Qed.

Lemma guild_demo_roles_wf : roles_wf guild_demo_db.
Proof. check_rows (λ rid r, bool_decide (r_id r = rid)). Qed.

#[local] Existing Instance demo_wired.
#[local] Existing Instance demo_uuid.

(** User 5 joins, then the owner kicks user 3. *)
Lemma guild_invariant_witness :
  guild_wf (run_op None None "" (OpKickMember 1 2 3)
              (run_op None None "" (OpJoinGuild 5 "abc") guild_demo_world).2).2.(db).
Proof.
  apply (guild_invariant None None "" guild_demo_world);
    [exact demo_fault_free|exact guild_demo_wf|].
  eapply rtc_l; [apply GuildStep|]. eapply rtc_l; [apply GuildStep|]. apply rtc_refl.
Defined.

Lemma KickMember_effect_witness :
  let w' := (GuildService.KickMember 1 2 3 guild_demo_world).2 in
  removal_checked guild_demo_db 1 2 3 "KICK_MEMBERS" ∧
  Queries.member_of guild_demo_db 3 2 = true ∧ member_set guild_demo_db w'.(db) 2 3 false.
Proof.
  cbv zeta. apply (KickMember_effect 1 2 3 guild_demo_world); [exact guild_demo_roles_wf|].
  apply run_fst. vm_compute. reflexivity.
Defined.

Lemma demo_HoldsRole : HoldsRole guild_demo_db 3 2 7.
Proof. apply holds_role_sql_true. vm_compute. reflexivity. Defined.
Lemma demo_Grants : Grants guild_demo_db 7 "SEND_MESSAGES".
Proof. apply grants_sql_true. vm_compute. reflexivity. Defined.

Lemma KickMember_keeps_role_powers_witness :
  let w' := (GuildService.KickMember 1 2 3 guild_demo_world).2 in
  Queries.member_of w'.(db) 3 2 = false ∧ Authorized w'.(db) 3 2 "SEND_MESSAGES".
Proof.
  cbv zeta.
  apply (KickMember_keeps_role_powers 1 2 3 guild_demo_world _ 7 (mkRole 7 2 "mods" "" 4 0 false 0));
    [exact guild_demo_roles_wf| |vm_compute; reflexivity|discriminate
    |exact demo_HoldsRole|exact demo_Grants].
  apply run_fst. vm_compute. reflexivity.
Defined.

Lemma BanMember_effect_witness :
  let w' := (GuildService.BanMember 1 2 3 "spam" guild_demo_world).2 in
  removal_checked guild_demo_db 1 2 3 "BAN_MEMBERS" ∧ banned w'.(db) 3 2 = true ∧
  (fault_free → Queries.member_of w'.(db) 3 2 = false).
Proof.
  cbv zeta. apply (BanMember_effect 1 2 3 "spam" guild_demo_world); [exact guild_demo_roles_wf|].
  apply run_fst. vm_compute. reflexivity.
Defined.

Lemma JoinGuild_outcome_witness :
  Queries.member_of (GuildService.JoinGuild 5 "abc" guild_demo_world).2.(db) 5 2 = true.
Proof.
  pose proof (JoinGuild_outcome 5 "abc" guild_demo_world demo_fault_free) as H.
  cbv zeta in H.
  assert (live i_deleted (guild_demo_world.(db).(invites) !! "abc") = Some demo_invite) as E1
    by (vm_compute; reflexivity).
  assert (join_refusal guild_demo_world.(db) 5 (clock 1) demo_invite = None) as E2
    by (vm_compute; reflexivity).
  assert (Queries.member_of guild_demo_world.(db) 5 (i_guild_id demo_invite) = false) as E3
    by (vm_compute; reflexivity).
  rewrite E1 in H. change (S (tick guild_demo_world)) with 1 in H. rewrite E2, E3 in H.
  assert (join_fks guild_demo_world.(db) 5 demo_invite) as E4 by (vm_compute; reflexivity).
  assert (i_uses demo_invite < max_int32)%Z as E5 by (vm_compute; reflexivity).
  destruct (H E4 E5) as [(_ & _ & _ & Hm) _]. rewrite Hm. reflexivity.
Defined.

Lemma GrantRolePermission_no_self_escalation_witness :
  let w' := (GuildService.GrantRolePermission 1 2 8 "BAN_MEMBERS" guild_demo_world).2 in
  Authorized guild_demo_db 1 2 "BAN_MEMBERS" ∧ granted guild_demo_db w'.(db) 8 "BAN_MEMBERS" ∧
  ∀ name, Authorized w'.(db) 1 2 name ↔ Authorized guild_demo_db 1 2 name.
Proof.
  cbv zeta.
  apply (GrantRolePermission_no_self_escalation 1 2 8 "BAN_MEMBERS" guild_demo_world);
    [reflexivity|exact demo_permissions_wf|].
  apply run_fst. vm_compute. reflexivity.
Defined.

(** The owner of guild 20 takes the moderator role of guild 2. *)
Lemma AssignRole_crosses_guilds_witness :
  (GuildService.AssignRole 4 20 4 7 guild_demo_world).1 = Ok tt ∧
  HoldsRole (GuildService.AssignRole 4 20 4 7 guild_demo_world).2.(db) 4 2 7.
Proof.
  apply (AssignRole_crosses_guilds 4 20 2 7 (mkGuild 20 "h" "" "" 4 0 false 0 "")
           (mkRole 7 2 "mods" "" 4 0 false 0) guild_demo_world);
    [exact demo_fault_free|vm_compute; reflexivity..].
Defined.

(** An environment that loses exactly the [n]-th statement. *)
Definition lossy_env (n : nat) : Env := {|
  clock k := (Z.of_nat k * 1000000)%Z;
  faults k := if Nat.eqb k n then Refused else NoFault;
  fresh k := Pos.of_nat (1000 + k);
  row_order _ := false;
  authz_wired := true
|}.

(** The ban check of [JoinGuild] fails open: it takes every error of
    [GetBan], not only "no rows", for "not banned".  When that one statement is
    lost a banned user joins, and ends up both banned and a member. *)
Theorem JoinGuild_ban_check_fails_open :
  let r := @GuildService.JoinGuild (lossy_env 1) demo_uuid 6 "abc" guild_demo_world in
  banned guild_demo_db 6 2 = true ∧ banned r.2.(db) 6 2 = true ∧
  Queries.member_of r.2.(db) 6 2 = true ∧ ∃ x, r.1 = Ok x.
Proof. cbv zeta. split_and!; [vm_compute; reflexivity..|]. eexists. vm_compute. reflexivity. Qed.
