(* ===== verification/UserFacts.v ===== *)
(** * UserFacts: friendships as a state machine

    [link] is the abstract state of an unordered pair of users and
    [friend_spec] the intended machine; [friend_op_refines] shows that every
    handler of the service implements it and touches no other pair.  The block
    check is symmetric, and the handle allocation terminates with a handle of
    the advertised form. *)
From S2P Require Import Prelude Realtime Store Queries Authz Wp AuthzFacts Guild User.
From stdpp Require Import pretty.

(** ** The abstract machine *)
Inductive link := NoLink | Pending (from : uuid) | Friends | Blocked (by_ : uuid).
Inductive friend_op :=
  | OpSend | OpAccept | OpDecline | OpCancel | OpRemove | OpBlock | OpUnblock.

#[global] Instance link_eq_dec : EqDecision link.
Proof. solve_decision. Defined.

(** What [u] may do to the link between [u] and [t], and what he is told
    otherwise. *)
Definition friend_spec (op : friend_op) (u t : uuid) (l : link) : error + link :=
  match op with
  | OpSend =>
      if uuid_eqb u t then inl UserService.ErrCannotFriendSelf else
      match l with
      | NoLink => inr (Pending u)
      | Pending _ => inl UserService.ErrFriendRequestExists
      | Friends => inl UserService.ErrAlreadyFriends
      | Blocked _ => inl UserService.ErrUserBlocked
      end
  | OpAccept =>
      match l with
      | Pending from => if uuid_eqb from t then inr Friends else inl UserService.ErrNoFriendRequest
      | _ => inl UserService.ErrNoFriendRequest
      end
  | OpDecline =>
      match l with Pending _ => inr NoLink | _ => inl UserService.ErrNoFriendRequest end
  | OpCancel =>
      match l with
      | Pending from => if uuid_eqb from u then inr NoLink else inl UserService.ErrNoFriendRequest
      | _ => inl UserService.ErrNoFriendRequest
      end
  | OpRemove => match l with Friends => inr NoLink | _ => inl UserService.ErrNotFriends end
  | OpBlock => if uuid_eqb u t then inl UserService.ErrCannotFriendSelf else inr (Blocked u)
  | OpUnblock =>
      match l with
      | Blocked by_ => if uuid_eqb by_ u then inr NoLink else inl UserService.ErrNotBlocked
      | _ => inl UserService.ErrNotBlocked
      end
  end.

(** ** The table behind a link *)
Abbreviation ftable := (gmap (uuid * uuid) Friendship) (only parsing).
Definition row_at (m : ftable) (a b : uuid) : option Friendship := live f_deleted (m !! (a, b)).
Definition pair_row (m : ftable) (a b : uuid) : option Friendship :=
  match row_at m a b with Some f => Some f | None => row_at m b a end.
Definition status_link (status : string) (from : uuid) : link :=
  if string_eqb status "pending" then Pending from
  else if string_eqb status "accepted" then Friends
  else if string_eqb status "blocked" then Blocked from
  else NoLink.
Definition link_of (m : ftable) (a b : uuid) : link :=
  match pair_row m a b with Some f => status_link (f_status f) (f_user_id f) | None => NoLink end.

(** A row names its key; a live row relates two different users, has a known
    status, and is the only live row of its pair. *)
Definition status_ok (s : string) : Prop := s = "pending" ∨ s = "accepted" ∨ s = "blocked".
Record friends_wf (m : ftable) : Prop := {
  fw_key : ∀ a b f, m !! (a, b) = Some f → f_user_id f = a ∧ f_friend_id f = b;
  fw_irrefl : ∀ a b f, row_at m a b = Some f → a ≠ b;
  fw_status : ∀ a b f, row_at m a b = Some f → status_ok (f_status f);
  fw_single : ∀ a b f f', row_at m a b = Some f → row_at m b a = Some f' → False
}.

Section Table.
Implicit Types (m : ftable) (a b u t : uuid).

Lemma row_at_insert m k f a b :
  row_at (<[k := f]> m) a b =
  if bool_decide (k = (a, b)) then live f_deleted (Some f) else row_at m a b.
Proof.
  unfold row_at. case_bool_decide as E; [by rewrite E, lookup_insert_eq|by rewrite lookup_insert_ne].
Qed.

Lemma row_at_deleted m (now : time) a b u v :
  row_at (alter (friendship_deleted now) (v, u) (alter (friendship_deleted now) (u, v) m)) a b =
  if bool_decide ((a, b) = (u, v) ∨ (a, b) = (v, u)) then None else row_at m a b.
Proof.
  unfold row_at. case_bool_decide as E.
  - assert (∀ (m' : ftable) k, live f_deleted (alter (friendship_deleted now) k m' !! k) = None) as Hk
      by (intros m' k; rewrite lookup_alter_eq; by destruct (m' !! k)).
    destruct (decide ((a, b) = (v, u))) as [->|Hne]; [apply Hk|].
    rewrite lookup_alter_ne by congruence. destruct E as [->|]; [apply Hk|done].
  - rewrite !lookup_alter_ne by naive_solver. done.
Qed.

Lemma union_pair_row m a b : row_at m a b ∪ row_at m b a = pair_row m a b.
Proof. unfold pair_row. by destruct (row_at m a b), (row_at m b a). Qed.
Lemma pair_row_comm m a b : friends_wf m → pair_row m a b = pair_row m b a.
Proof.
  intros Hw. unfold pair_row.
  destruct (row_at m a b) as [f|] eqn:E1, (row_at m b a) as [f'|] eqn:E2; try done.
  by destruct (fw_single m Hw a b f f').
Qed.
Lemma link_of_comm m a b : friends_wf m → link_of m a b = link_of m b a.
Proof. intros Hw. unfold link_of. by rewrite (pair_row_comm m a b). Qed.

(** A new live row for a pair that has none in the other direction. *)
Lemma friends_wf_upsert m u t f :
  u ≠ t → row_at m t u = None → f_user_id f = u → f_friend_id f = t → f_deleted f = false →
  status_ok (f_status f) → friends_wf m → friends_wf (<[(u, t) := f]> m).
Proof.
  intros Hne Hback Hu Ht Hd Hs [H1 H2 H3 H4]. split; intros a b.
  { intros f'. rewrite lookup_insert_Some. intros [[[= <- <-] <-]|[_ ?]]; eauto. }
  all: rewrite ?row_at_insert; simpl; rewrite ?Hd.
  1-2: intros f'; case_bool_decide as E; [injection E as <- <-|]; intros Hf; [simplify_eq|]; eauto.
  intros f1 f2. case_bool_decide as E1; case_bool_decide as E2; simplify_eq; try by eauto.
  - intros _ Hr. congruence.
  - intros Hr _. congruence.
Qed.

Lemma deleted_row m now k x f :
  alter (friendship_deleted now) k m !! x = Some f →
  ∃ f', m !! x = Some f' ∧ f_user_id f = f_user_id f' ∧ f_friend_id f = f_friend_id f'.
Proof. intros [(-> & f' & Hf & ->)|[_ Hf]]%lookup_alter_Some; eauto. Qed.

Lemma friends_wf_deleted m u v (now : time) :
  friends_wf m →
  friends_wf (alter (friendship_deleted now) (v, u) (alter (friendship_deleted now) (u, v) m)).
Proof.
  intros [H1 H2 H3 H4]. split; intros a b.
  { intros f (f1 & (f2 & Hf & Eu & Ef)%deleted_row & Eu' & Ef')%deleted_row.
    rewrite Eu', Ef', Eu, Ef. eauto. }
  all: rewrite ?row_at_deleted; repeat case_bool_decide; try done; eauto.
Qed.

(** The live row of a pair, whichever way it points. *)
Lemma pair_row_some m a b f :
  friends_wf m → pair_row m a b = Some f →
  status_ok (f_status f) ∧
  ((f_user_id f = a ∧ f_friend_id f = b ∧ row_at m a b = Some f ∧ row_at m b a = None) ∨
   (f_user_id f = b ∧ f_friend_id f = a ∧ row_at m b a = Some f ∧ row_at m a b = None)).
Proof.
  intros Hw. unfold pair_row.
  assert (∀ x y g, row_at m x y = Some g → f_user_id g = x ∧ f_friend_id g = y ∧ row_at m y x = None)
    as Hrow.
  { intros x y g Hg. pose proof Hg as [Hl _]%live_Some. destruct (fw_key m Hw _ _ _ Hl).
    split_and!; [done..|]. destruct (row_at m y x) eqn:E; [|done]. by destruct (fw_single m Hw x y g f0). }
  destruct (row_at m a b) as [g|] eqn:E1; [intros [= <-]|intros E2].
  - split; [by eapply (fw_status m Hw)|]. left. destruct (Hrow a b g E1) as (? & ? & ?). by split_and!.
  - split; [by eapply (fw_status m Hw)|]. right. destruct (Hrow b a f E2) as (? & ? & ?). by split_and!.
Qed.
Lemma pair_row_status m a b f : friends_wf m → pair_row m a b = Some f → status_ok (f_status f).
Proof. intros Hw Hf. by destruct (pair_row_some m a b f Hw Hf). Qed.
Lemma pair_row_none m a b : pair_row m a b = None → row_at m a b = None ∧ row_at m b a = None.
Proof. unfold pair_row. by destruct (row_at m a b). Qed.

(** The links after the three kinds of writes. *)
Definition only_pair m m' u t l : Prop :=
  friends_wf m' ∧ link_of m' u t = l ∧
  ∀ a b, ¬ ((a = u ∧ b = t) ∨ (a = t ∧ b = u)) → link_of m' a b = link_of m a b.

Lemma only_pair_upsert m u t f :
  u ≠ t → row_at m t u = None → f_user_id f = u → f_friend_id f = t → f_deleted f = false →
  status_ok (f_status f) → friends_wf m →
  only_pair m (<[(u, t) := f]> m) u t (status_link (f_status f) u).
Proof.
  intros Hne Hback Hu Ht Hd Hs Hw. split; [by apply friends_wf_upsert|]. split.
  - unfold link_of, pair_row. rewrite row_at_insert, bool_decide_eq_true_2 by done.
    simpl. by rewrite Hd, Hu.
  - intros a b Hab. unfold link_of, pair_row. rewrite !row_at_insert.
    by rewrite !bool_decide_eq_false_2 by naive_solver.
Qed.

Lemma only_pair_deleted m u v (now : time) :
  friends_wf m →
  only_pair m (alter (friendship_deleted now) (v, u) (alter (friendship_deleted now) (u, v) m)) u v NoLink.
Proof.
  intros Hw. split; [by apply friends_wf_deleted|]. split.
  - unfold link_of, pair_row. by rewrite !row_at_deleted, !bool_decide_eq_true_2 by auto.
  - intros a b Hab. unfold link_of, pair_row.
    by rewrite !row_at_deleted, !bool_decide_eq_false_2 by naive_solver.
Qed.

Lemma only_pair_comm m m' u t l : only_pair m m' t u l → only_pair m m' u t l.
Proof.
  intros (Hw & Hl & Ho). split; [done|]. split; [by rewrite link_of_comm|].
  intros a b Hab. apply Ho. tauto.
Qed.
End Table.

(** ** The handlers implement the machine *)
Section Refine.
Context `{Env} `{!UuidText} `{!DMOpener} `{!PresenceReader}.
Variables (nats : bool) (minioBaseURL : string).

Definition run_friend (op : friend_op) (u t : uuid) : GoM World unit :=
  match op with
  | OpSend => _ ← UserService.SendFriendRequest nats minioBaseURL u t; mret tt
  | OpAccept => _ ← UserService.AcceptFriendRequest nats minioBaseURL u t; mret tt
  | OpDecline => UserService.DeclineFriendRequest nats minioBaseURL u t
  | OpCancel => UserService.CancelFriendRequest nats minioBaseURL u t
  | OpRemove => UserService.RemoveFriend nats minioBaseURL u t
  | OpBlock => UserService.BlockUser u t
  | OpUnblock => UserService.UnblockUser u t
  end.

(** The events of a handler always go out and change no table. *)
Lemma wpd_publishFriendActivity to e evt (Q : outcome unit → Db → Prop) d :
  Q (Ok tt) d → wpd (UserService.publishFriendActivity nats to e evt) Q d.
Proof.
  intros HQ. unfold UserService.publishFriendActivity. destruct (negb nats); [by apply wpd_ret|].
  apply wpd_bind. destruct (fae_timestamp evt); [apply wpd_ret|apply wpd_now; intros];
    by apply wpd_Publish.
Qed.

Lemma wpd_friendPayload u (Q : outcome FriendActivityEvent → Db → Prop) d :
  (∀ p, Q (Ok p) d) → wpd (UserService.friendPayload minioBaseURL u) Q d.
Proof.
  intros HQ. unfold UserService.friendPayload, Queries.GetUserByID.
  assert (∀ row, wpd match GetLiveStatus with
      | Some presence => r ← presence (uuid_print (u_id row)); let '(live, custom) := r in
            mret (if string_eqb live "" then (u_status row, u_status row) else (live, custom))
      | None => mret (u_status row, u_status row)
      end (λ o d', (∃ x, o = Ok x) ∧ d' = d) d) as Hstatus.
  { intros row. destruct GetLiveStatus as [f|] eqn:Hf; [|apply wpd_ret; eauto].
    apply wpd_bind. intros w <-.
    destruct (PresenceReader_Ok f (uuid_print (u_id row)) w Hf) as [[live custom] Hr].
    pose proof (PresenceReader_db f (uuid_print (u_id row)) Hf w) as Hd. unfold on_db in Hd.
    rewrite Hr. intros w' Hw'. unfold mret, gom_ret. simpl. rewrite Hw'. eauto. }
  apply wpd_bind, wpd_try, wpd_one; intros; [|by apply wpd_ret..].
  apply wpd_bind. eapply wpd_mono; [apply Hstatus|]. intros o d' [[[s c] ->] ->]. by apply wpd_ret.
Qed.

Lemma wpd_GetFriendship a b (Q : outcome Friendship → Db → Prop) d :
  fault_free → friends_wf d.(friendships) →
  (∀ f, pair_row d.(friendships) a b = Some f → Q (Ok f) d) →
  (pair_row d.(friendships) a b = None → Q (Err (Driver NoRows)) d) →
  wpd (Queries.GetFriendship a b) Q d.
Proof.
  intros Hff Hw HQ HE. pose proof (fault_free_not_can_fail Hff) as Hno.
  unfold Queries.GetFriendship. apply wpd_query_any. intros x.
  assert (∀ d', d' = d → (if x then row_at d'.(friendships) b a ∪ row_at d'.(friendships) a b
            else row_at d'.(friendships) a b ∪ row_at d'.(friendships) b a) = pair_row d.(friendships) a b) as Hrow.
  { intros d' ->. destruct x; [rewrite (pair_row_comm _ a b) by done|]; apply union_pair_row. }
  apply wpd_one; intros; [apply HQ|apply HE|by destruct Hno]; by rewrite <-(Hrow d).
Qed.

Lemma wpd_DeleteFriendship a b (Q : outcome unit → Db → Prop) d :
  fault_free →
  (∀ now, Q (Ok tt) (with_friendships (alter (friendship_deleted now) (b, a)
                      (alter (friendship_deleted now) (a, b) d.(friendships))) d)) →
  wpd (Queries.DeleteFriendship a b) Q d.
Proof.
  intros Hff HQ. pose proof (fault_free_not_can_fail Hff) as Hno.
  unfold Queries.DeleteFriendship. apply wpd_sql; [|by intros ?%Hno]. intros t _.
  split; [done|by intros ?%Hno].
Qed.

(** An upsert writes a live row of the key; a dead row of the same key keeps
    only its creation time. *)
Lemma wpd_CreateFriendship a b s (Q : outcome Friendship → Db → Prop) d :
  fault_free → (∀ f, d.(friendships) !! (a, b) = Some f → f_user_id f = a ∧ f_friend_id f = b) →
  has d.(users) a = true → has d.(users) b = true →
  (∀ f, f_user_id f = a → f_friend_id f = b → f_deleted f = false → f_status f = s →
     Q (Ok f) (with_friendships (<[(a, b) := f]> d.(friendships)) d)) →
  wpd (Queries.CreateFriendship a b s) Q d.
Proof.
  intros Hff Hk Ha Hb HQ. pose proof (fault_free_not_can_fail Hff) as Hno.
  unfold Queries.CreateFriendship. apply wpd_sql; [|by intros ?%Hno]. intros t _.
  rewrite Ha, Hb. simpl. split; [|by intros ?%Hno].
  destruct (_ !! _) as [f|] eqn:E; [|by apply HQ]. destruct (Hk f eq_refl). by apply HQ.
Qed.

(** What the machine promises for one request. *)
Definition implements (op : friend_op) (u t : uuid) (m : ftable) (o : outcome unit) (d' : Db) : Prop :=
  match friend_spec op u t (link_of m u t) with
  | inl e => o = Err e ∧ d'.(friendships) = m
  | inr l => o = Ok tt ∧ only_pair m d'.(friendships) u t l
  end.

Lemma ensure_refused op u t m e d :
  friend_spec op u t (link_of m u t) = inl e → d.(friendships) = m →
  implements op u t m (Err e) d.
Proof. unfold implements. by intros ->. Qed.

Lemma send_implements u t d :
  fault_free → friends_wf d.(friendships) → has d.(users) u = true → has d.(users) t = true →
  wpd (run_friend OpSend u t) (implements OpSend u t d.(friendships)) d.
Proof.
  intros Hff Hw Hu Ht. unfold run_friend, UserService.SendFriendRequest, implements, friend_spec.
  apply wpd_bind, wpd_bind. unfold uuid_eqb. case_bool_decide as Hne; [by apply wpd_fail|].
  apply wpd_ret, wpd_bind, wpd_try. unfold link_of.
  apply wpd_GetFriendship; [done..|intros f Hf|intros Hnone].
  - rewrite Hf. apply wpd_bind. unfold status_link. pose proof (pair_row_status _ _ _ _ Hw Hf) as Hs.
    unfold status_ok in Hs. destruct Hs as [->|[->| ->]]; by apply wpd_fail.
  - rewrite Hnone. apply wpd_bind, wpd_ret, wpd_bind, wpd_on_err, wpd_CreateFriendship; [done| |done..|].
    { apply (fw_key _ Hw). }
    intros f Hfu Hft Hfd Hfs. apply wpd_bind, wpd_friendPayload. intros p.
    apply wpd_bind, wpd_publishFriendActivity, wpd_ret, wpd_ret. split; [done|].
    replace (Pending u) with (status_link (f_status f) u) by by rewrite Hfs.
    apply only_pair_upsert; [done| |done..| |done].
    + by apply pair_row_none in Hnone as [_ ?].
    + rewrite Hfs. by left.
Qed.

Lemma wpd_delete_and_tell a b x to e (Q : outcome unit → Db → Prop) d :
  fault_free →
  (∀ now, Q (Ok tt) (with_friendships (alter (friendship_deleted now) (b, a)
                      (alter (friendship_deleted now) (a, b) d.(friendships))) d)) →
  wpd (_ ← Queries.DeleteFriendship a b;
       payload ← UserService.friendPayload minioBaseURL x;
       UserService.publishFriendActivity nats to e payload) Q d.
Proof.
  intros Hff HQ. apply wpd_bind, wpd_DeleteFriendship; [done|]. intros now.
  apply wpd_bind, wpd_friendPayload. intros p. by apply wpd_publishFriendActivity.
Qed.

(** The link a live row stands for. *)
Lemma status_link_cases f l :
  status_ok (f_status f) → status_link (f_status f) (f_user_id f) = l →
  (f_status f = "pending" ∧ l = Pending (f_user_id f)) ∨
  (f_status f = "accepted" ∧ l = Friends) ∨
  (f_status f = "blocked" ∧ l = Blocked (f_user_id f)).
Proof.
  intros Hs <-. unfold status_ok in Hs. destruct Hs as [E|[E|E]]; rewrite E; [left|right; left|right; right];
    done.
Qed.

(** Handlers that look the pair up, test the row with [ok] and delete it. *)
Lemma delete_implements op u t a b (ok : Friendship → bool) err (tail : GoM World unit) d :
  fault_free → friends_wf d.(friendships) →
  (a = u ∧ b = t ∨ a = t ∧ b = u) →
  (friend_spec op u t NoLink = inl err) →
  (∀ f, status_ok (f_status f) →
     friend_spec op u t (status_link (f_status f) (f_user_id f)) =
     if ok f then inr NoLink else inl err) →
  (∀ Q : outcome unit → Db → Prop,
     (∀ now, Q (Ok tt) (with_friendships (alter (friendship_deleted now) (b, a)
                        (alter (friendship_deleted now) (a, b) d.(friendships))) d)) →
     wpd tail Q d) →
  wpd (existing ← Queries.GetFriendship a b ?> (λ _, err); _ ← ensure (ok existing) err; tail)
    (implements op u t d.(friendships)) d.
Proof.
  intros Hff Hw Hab Hnone Hsome Htail. unfold implements.
  assert (link_of d.(friendships) u t = link_of d.(friendships) a b) as ->
    by (destruct Hab as [[-> ->]|[-> ->]]; [done|by apply link_of_comm]).
  unfold link_of. apply wpd_bind, wpd_on_err, wpd_GetFriendship; [done..|intros f Hf|intros Hf]; rewrite Hf.
  - rewrite Hsome by by eapply pair_row_status. apply wpd_bind, wpd_ensure; intros Hok; rewrite Hok.
    + apply Htail. intros now. split; [done|]. simpl.
      pose proof (only_pair_deleted d.(friendships) a b now Hw) as Hdel.
      destruct Hab as [[-> ->]|[-> ->]]; [done|by apply only_pair_comm].
    + done.
  - by rewrite Hnone.
Qed.

Lemma decline_implements u t d :
  fault_free → friends_wf d.(friendships) →
  wpd (run_friend OpDecline u t) (implements OpDecline u t d.(friendships)) d.
Proof.
  intros Hff Hw. unfold run_friend, UserService.DeclineFriendRequest.
  apply (delete_implements OpDecline u t t u (λ f, string_eqb (f_status f) "pending"));
    [done|done|by right|done| |].
  - intros f Hs. destruct (status_link_cases f _ Hs eq_refl) as [[-> ->]|[[-> ->]|[-> ->]]]; done.
  - intros Q HQ. by apply wpd_delete_and_tell.
Qed.

Lemma cancel_implements u t d :
  fault_free → friends_wf d.(friendships) →
  wpd (run_friend OpCancel u t) (implements OpCancel u t d.(friendships)) d.
Proof.
  intros Hff Hw. unfold run_friend, UserService.CancelFriendRequest.
  apply (delete_implements OpCancel u t u t
    (λ f, string_eqb (f_status f) "pending" && uuid_eqb (f_user_id f) u));
    [done|done|by left|done| |].
  - intros f Hs. destruct (status_link_cases f _ Hs eq_refl) as [[-> ->]|[[-> ->]|[-> ->]]]; done.
  - intros Q HQ. by apply wpd_delete_and_tell.
Qed.

Lemma remove_implements u t d :
  fault_free → friends_wf d.(friendships) →
  wpd (run_friend OpRemove u t) (implements OpRemove u t d.(friendships)) d.
Proof.
  intros Hff Hw. unfold run_friend, UserService.RemoveFriend.
  apply (delete_implements OpRemove u t u t (λ f, string_eqb (f_status f) "accepted"));
    [done|done|by left|done| |].
  - intros f Hs. destruct (status_link_cases f _ Hs eq_refl) as [[-> ->]|[[-> ->]|[-> ->]]]; done.
  - intros Q HQ. by apply wpd_delete_and_tell.
Qed.

Lemma unblock_implements u t d :
  fault_free → friends_wf d.(friendships) →
  wpd (run_friend OpUnblock u t) (implements OpUnblock u t d.(friendships)) d.
Proof.
  intros Hff Hw. unfold run_friend, UserService.UnblockUser.
  apply (delete_implements OpUnblock u t u t
    (λ f, string_eqb (f_status f) "blocked" && uuid_eqb (f_user_id f) u));
    [done|done|by left|done| |].
  - intros f Hs. destruct (status_link_cases f _ Hs eq_refl) as [[-> ->]|[[-> ->]|[-> ->]]]; done.
  - intros Q HQ. by apply wpd_DeleteFriendship.
Qed.

Lemma block_implements u t d :
  fault_free → friends_wf d.(friendships) → has d.(users) u = true → has d.(users) t = true →
  wpd (run_friend OpBlock u t) (implements OpBlock u t d.(friendships)) d.
Proof.
  intros Hff Hw Hu Ht. unfold run_friend, UserService.BlockUser, implements, friend_spec.
  apply wpd_bind. unfold uuid_eqb. case_bool_decide as Hne; [by apply wpd_fail|]. apply wpd_ret.
  apply wpd_bind, wpd_ignore, wpd_DeleteFriendship; [done|]. intros now. set (d1 := with_friendships _ d).
  pose proof (only_pair_deleted d.(friendships) u t now Hw) as (Hw1 & _ & Ho1).
  apply wpd_bind, wpd_on_err, (wpd_CreateFriendship u t "blocked" _ d1); [done|apply (fw_key _ Hw1)|done..|].
  intros f Hfu Hft Hfd Hfs. apply wpd_ret. split; [done|].
  destruct (only_pair_upsert d1.(friendships) u t f) as (Hw2 & Hl2 & Ho2); [done| |done..| |done|].
  - simpl. by rewrite row_at_deleted, bool_decide_eq_true_2 by auto.
  - rewrite Hfs. right; by right.
  - split; [done|]. split; [etrans; [exact Hl2|by rewrite Hfs]|].
    intros a b Hab. etrans; [by apply Ho2|by apply Ho1].
Qed.

(** The two notifications of an accepted request. *)
Lemma wpd_tell_both u t ch {A} (a : A) (Q : outcome A → Db → Prop) d :
  Q (Ok a) d →
  wpd (payloadForRequester ← UserService.friendPayload minioBaseURL u;
       _ ← UserService.publishFriendActivity nats (uuid_print t) FRIEND_EVENT_ACCEPTED
             (UserService.set_channel payloadForRequester ch);
       payloadForAccepter ← UserService.friendPayload minioBaseURL t;
       _ ← UserService.publishFriendActivity nats (uuid_print u) FRIEND_EVENT_ACCEPTED
             (UserService.set_channel payloadForAccepter ch);
       mret a) Q d.
Proof.
  intros HQ. apply wpd_bind, wpd_friendPayload. intros p1.
  apply wpd_bind, wpd_publishFriendActivity, wpd_bind, wpd_friendPayload. intros p2.
  by apply wpd_bind, wpd_publishFriendActivity, wpd_ret.
Qed.

Lemma accept_implements u t d :
  fault_free → friends_wf d.(friendships) →
  wpd (run_friend OpAccept u t) (implements OpAccept u t d.(friendships)) d.
Proof.
  intros Hff Hw. unfold run_friend, UserService.AcceptFriendRequest, implements.
  rewrite (link_of_comm _ u t) by done. unfold link_of.
  apply wpd_bind, wpd_bind, wpd_on_err, wpd_GetFriendship; [done..|intros f Hf|intros Hf]; rewrite Hf; [|done].
  destruct (pair_row_some _ _ _ _ Hw Hf) as [Hs Hdir].
  destruct (status_link_cases f _ Hs eq_refl) as [[Es ->]|[[Es ->]|[Es ->]]]; rewrite Es;
    [|by apply wpd_bind, wpd_fail..].
  apply wpd_bind, wpd_ensure; [intros _|done].
  unfold friend_spec. destruct Hdir as [(Eu & Ef & Hrow & Hback)|(Eu & Ef & Hrow & _)]; cycle 1.
  { assert (u ≠ t) by by eapply (fw_irrefl _ Hw). rewrite Eu.
    unfold uuid_eqb. rewrite bool_decide_eq_false_2 by done. by apply wpd_bind, wpd_fail. }
  rewrite Eu, Ef. unfold uuid_eqb. rewrite !bool_decide_eq_true_2 by done. apply wpd_bind, wpd_ret.
  assert (t ≠ u) by by eapply (fw_irrefl _ Hw).
  pose proof (fault_free_not_can_fail Hff) as Hno.
  apply wpd_bind, wpd_on_err. unfold Queries.UpdateFriendshipStatus.
  apply wpd_sql; [|by intros ?%Hno]. intros _ _. pose proof Hrow as [Hl Hd]%live_Some. rewrite Hl.
  split; [|by intros ?%Hno]. set (d1 := with_friendships _ d).
  assert (only_pair d.(friendships) d1.(friendships) u t Friends) as Hpost.
  { apply only_pair_comm, (only_pair_upsert _ t u (friendship_status "accepted" f)); try done.
    right; by left. }
  apply wpd_bind. destruct GetOrCreateDMChannel as [dm|] eqn:Hdm; [|by apply wpd_ret, wpd_tell_both, wpd_ret].
  apply wpd_bind, wpd_try. intros w Ew.
  pose proof (DMOpener_friendships dm (uuid_print u) [uuid_print t] Hdm w) as Hsame.
  pose proof (DMOpener_no_panic dm (uuid_print u) [uuid_print t] w Hdm) as Hnp.
  unfold on_db, same in Hsame. rewrite Ew in Hsame.
  destruct (dm _ _ w) as [[ch|e|] w']; simpl in *; [..|done];
    by apply wpd_ret, wpd_tell_both, wpd_ret; rewrite Hsame.
Qed.

Lemma run_friend_implements op u t w :
  fault_free → friends_wf w.(db).(friendships) →
  has w.(db).(users) u = true → has w.(db).(users) t = true →
  implements op u t w.(db).(friendships) (run_friend op u t w).1 (run_friend op u t w).2.(db).
Proof.
  intros Hff Hw Hu Ht. apply (λ H : wpd _ (implements op u t _) w.(db), H w eq_refl).
  destruct op.
  - by apply send_implements.
  - by apply accept_implements.
  - by apply decline_implements.
  - by apply cancel_implements.
  - by apply remove_implements.
  - by apply block_implements.
  - by apply unblock_implements.
Qed.

(** C7: refinement.  When the database answers and both users exist, every
    friendship handler does exactly what the abstract machine [friend_spec]
    says for the current link of the two users: it answers the machine's error
    and leaves the table alone, or it succeeds, the pair's link becomes the
    machine's, seen from both sides, no other pair changes, and the
    representation invariant is kept: one live row per pair, whatever its
    state; an accepted friendship is the row of the request with its status
    changed, not a row for each direction. *)
Theorem friend_op_refines op u t w :
  fault_free → friends_wf w.(db).(friendships) →
  has w.(db).(users) u = true → has w.(db).(users) t = true →
  let r := run_friend op u t w in
  let m := w.(db).(friendships) in
  let m' := r.2.(db).(friendships) in
  match friend_spec op u t (link_of m u t) with
  | inl e => r.1 = Err e ∧ m' = m
  | inr l => r.1 = Ok tt ∧ friends_wf m' ∧ link_of m' u t = l ∧ link_of m' t u = l ∧
      ∀ a b, ¬ ((a = u ∧ b = t) ∨ (a = t ∧ b = u)) → link_of m' a b = link_of m a b
  end.
Proof.
  intros Hff Hw Hu Ht. pose proof (run_friend_implements op u t w Hff Hw Hu Ht) as Himp.
  unfold implements in Himp. cbv zeta. destruct (friend_spec _ _ _ _) as [e|l]; [done|].
  destruct Himp as (? & Hw' & Hl & Ho). split_and!; [done..| |done].
  by rewrite link_of_comm.
Qed.

(** C39: a block holds until its owner lifts it or the other side blocks back.
    When every statement is answered, no pair of users has two live rows and
    the two users of a request exist, every other request, of either user or
    between other pairs, leaves the pair blocked by [a].  That the statements
    are answered is needed: a friend request whose lookup fails is written
    over the block ([failed_lookup_erases_block]). *)
Theorem block_persists a b op u t w :
  fault_free → friends_wf w.(db).(friendships) →
  has w.(db).(users) u = true → has w.(db).(users) t = true →
  link_of w.(db).(friendships) a b = Blocked a → a ≠ b →
  ¬ (op = OpUnblock ∧ u = a ∧ t = b) → ¬ (op = OpBlock ∧ u = b ∧ t = a) →
  link_of (run_friend op u t w).2.(db).(friendships) a b = Blocked a.
Proof.
  intros Hff Hw Hu Ht Hl Hne Hun Hbl.
  pose proof (run_friend_implements op u t w Hff Hw Hu Ht) as Himp. unfold implements in Himp.
  destruct (friend_spec _ _ _ _) as [e|l] eqn:Hspec; [by destruct Himp as [_ ->]|].
  destruct Himp as (_ & Hw' & Hl' & Ho).
  destruct (decide ((a = u ∧ b = t) ∨ (a = t ∧ b = u))) as [Hp|Hp]; [|by rewrite Ho].
  destruct Hp as [[-> ->]|[-> ->]].
  - rewrite Hl in Hspec. rewrite Hl'. unfold friend_spec, uuid_eqb in Hspec.
    destruct op; repeat case_bool_decide; simplify_eq; done || (exfalso; by apply Hun).
  - rewrite (link_of_comm _ t u) by done. rewrite (link_of_comm _ t u) in Hl by done.
    rewrite Hl in Hspec. rewrite Hl'. unfold friend_spec, uuid_eqb in Hspec.
    destruct op; repeat case_bool_decide; simplify_eq; done || (exfalso; by apply Hbl).
Qed.

(** What [block_persists] assumes of the stores is needed: [SendFriendRequest]
    takes every error of the lookup, not only "no rows", for "no link", and
    writes its request over whatever row there is.  When the one who blocked
    asks the other and that lookup is lost, his block is gone. *)
Theorem failed_lookup_erases_block a b row w :
  faults (tick w) = Refused → faults (S (tick w)) = NoFault → a ≠ b →
  has w.(db).(users) a = true → has w.(db).(users) b = true →
  w.(db).(friendships) !! (a, b) = Some row → f_status row = "blocked" →
  ∃ row', (run_friend OpSend a b w).2.(db).(friendships) !! (a, b) = Some row' ∧
    f_status row' = "pending" ∧ f_deleted row' = false.
Proof.
  intros Hlost Hff Hne Ha Hb Hrow _.
  assert ((run_friend OpSend a b w).2 = (UserService.SendFriendRequest nats minioBaseURL a b w).2) as ->.
  { cbn [run_friend]. unfold mbind, gom_bind. by destruct (UserService.SendFriendRequest _ _ _ _ w) as [[] ?]. }
  unfold UserService.SendFriendRequest, uuid_eqb. rewrite bool_decide_eq_false_2 by done.
  cbn [negb ensure]. rewrite bind_ret_l.
  rewrite (bind_run _ _ w (inl lost) (bump w)); cycle 1.
  { unfold try, Queries.GetFriendship, query_any, query, sql, external. by rewrite Hlost. }
  rewrite bind_ret_l.
  assert (∃ row', (Queries.CreateFriendship a b "pending" ?> ErrorfW "failed to create friend request: %w")
      (bump w) = (Ok row', with_db (with_friendships (<[(a, b) := row']> (friendships (db w))) (db w))
      (bump (bump w))) ∧ f_status row' = "pending" ∧ f_deleted row' = false) as (row' & E & Hs & Hd).
  { unfold on_err, Queries.CreateFriendship. rewrite sql_run by done. cbn [db bump].
    rewrite Ha, Hb, Hrow. cbn [andb]. by eexists. }
  rewrite (bind_run _ _ _ _ _ E).
  exists row'. split; [|done].
  match goal with |- friendships (db (?m ?w1).2) !! _ = _ =>
    assert (wpd m (λ _ d', d' = db w1) (db w1)) as Htail end.
  { apply wpd_bind, wpd_friendPayload. intros p. by apply wpd_bind, wpd_publishFriendActivity, wpd_ret. }
  rewrite (Htail _ eq_refl). simpl. apply lookup_insert_eq.
Qed.

Lemma block_keeps_users u t : steps (on_db (same users)) (UserService.BlockUser u t).
Proof.
  unfold UserService.BlockUser, Queries.DeleteFriendship, Queries.CreateFriendship. steps_auto.
  all: apply steps_sql; [apply _|]; intros ? ? ? ? ? Hf; repeat case_match; by simplify_eq/=.
Qed.

(** A blocked user can shake the block off: blocking back overwrites the
    first block, and lifting the second one leaves the pair with no link, so
    that [a]'s block is gone without [a] doing anything. *)
Theorem block_can_be_shaken_off a b w :
  fault_free → friends_wf w.(db).(friendships) → a ≠ b →
  has w.(db).(users) a = true → has w.(db).(users) b = true →
  link_of w.(db).(friendships) a b = Blocked a →
  let w1 := (run_friend OpBlock b a w).2 in
  link_of (run_friend OpUnblock b a w1).2.(db).(friendships) a b = NoLink.
Proof.
  intros Hff Hw Hne Ha Hb Hl w1.
  assert (users w1.(db) = users w.(db)) as Hus by apply (block_keeps_users b a w).
  pose proof (run_friend_implements OpBlock b a w Hff Hw Hb Ha) as Hi1.
  unfold implements, friend_spec, uuid_eqb in Hi1. rewrite bool_decide_eq_false_2 in Hi1 by done.
  destruct Hi1 as (_ & Hw1 & Hl1 & _). fold w1 in Hw1, Hl1. rewrite <- Hus in Ha, Hb.
  pose proof (run_friend_implements OpUnblock b a w1 Hff Hw1 Hb Ha) as Hi2.
  unfold implements in Hi2. rewrite Hl1 in Hi2.
  unfold friend_spec, uuid_eqb in Hi2. rewrite bool_decide_eq_true_2 in Hi2 by done.
  destruct Hi2 as (_ & Hw2 & Hl2 & _). by rewrite link_of_comm.
Qed.

Definition is_blocked (l : link) : bool := match l with Blocked _ => true | _ => false end.

(** [IsBlocked] is documented as "userID has blocked targetID".  It answers
    whether either of the two has blocked the other, so it is symmetric. *)
Theorem IsBlocked_symmetric a b w :
  fault_free → friends_wf w.(db).(friendships) →
  let x := is_blocked (link_of w.(db).(friendships) a b) in
  (UserService.IsBlocked (uuid_print a) (uuid_print b) w).1 = Ok x ∧
  (UserService.IsBlocked (uuid_print b) (uuid_print a) w).1 = Ok x.
Proof.
  intros Hff Hw x.
  assert (∀ p q, wpd (UserService.IsBlocked (uuid_print p) (uuid_print q))
    (λ o _, o = Ok (is_blocked (link_of w.(db).(friendships) p q))) w.(db)) as Hrun.
  { intros p q. unfold UserService.IsBlocked. rewrite !uuid_parse_print. unfold link_of.
    apply wpd_bind, wpd_try, wpd_GetFriendship; [done..|intros f Hf|intros Hf]; rewrite Hf;
      apply wpd_ret; [|done].
    destruct (status_link_cases f _ (pair_row_status _ _ _ _ Hw Hf) eq_refl)
      as [[-> ->]|[[-> ->]|[-> ->]]]; done. }
  split; [by apply Hrun|]. subst x. rewrite (link_of_comm _ a b) by done. by apply Hrun.
Qed.
End Refine.

(** ** Handles *)
Section Handles.
Context `{Env} `{!UuidText}.
Variables (nats : bool) (minioBaseURL : string).

(** The shape "name#dddd" with four decimal digits from 0001 to 9999. *)
Definition handle_of (username handle : string) : Prop :=
  ∃ n, (1 ≤ n ≤ 9999)%Z ∧ handle = username +:+ "#" +:+ UserService.sprintf_04d n.

(** A number below [10 ^ k] has at most [k] digits. *)
Lemma pretty_go_length k x s :
  (x < 10 ^ N.of_nat k)%N → String.length (pretty_N_go x s) ≤ String.length s + k.
Proof.
  revert x s. induction k as [|k IH]; intros x s Hx.
  { assert (x = 0%N) as -> by (simpl in Hx; lia). rewrite pretty_N_go_0. lia. }
  destruct (decide (x = 0%N)) as [->|Hne]; [rewrite pretty_N_go_0; lia|].
  rewrite pretty_N_go_step by lia.
  rewrite Nat2N.inj_succ, N.pow_succ_r in Hx by lia.
  etrans; [apply IH, N.Div0.div_lt_upper_bound; lia|]. simpl. lia.
Qed.

Lemma length_zeros n s :
  String.length (string_of_list_ascii (repeat "0"%char n) +:+ s) = n + String.length s.
Proof. induction n as [|n IH]; [done|]. simpl. f_equal. exact IH. Qed.

(** Four characters, whatever the number below 10000. *)
Lemma sprintf_04d_length n : (1 ≤ n ≤ 9999)%Z → String.length (UserService.sprintf_04d n) = 4.
Proof.
  intros Hn. unfold UserService.sprintf_04d. rewrite length_zeros.
  assert (String.length (pretty (Z.to_N n)) ≤ 4); [|lia].
  unfold pretty, pretty_N. rewrite decide_False by lia.
  apply (pretty_go_length 4 _ ""). simpl. lia.
Qed.

(** No two rows of [users] share a username. *)
Definition usernames_unique (d : Db) : Prop :=
  ∀ i j u v, d.(users) !! i = Some u → d.(users) !! j = Some v → u_username u = u_username v → i = j.

(** What an allocation leaves behind when it succeeds. *)
Definition allocated (id : uuid) (username : string) (user : User) (d : Db) : Prop :=
  handle_of username (u_username user) ∧ u_display_name user = username ∧
  d.(users) !! id = Some user ∧ usernames_unique d.

Lemma allocate_handle_ok attempts err id username d :
  usernames_unique d →
  wpd (UserService.allocate_handle attempts err id username)
    (λ o d', ∀ user, o = Ok user → allocated id username user d') d.
Proof.
  revert err. induction attempts as [|attempts IH]; intros err Huniq; [by apply wpd_fail|].
  cbn [UserService.allocate_handle]. unfold UserService.randomDiscriminator.
  apply wpd_bind, wpd_bind, wpd_rand_Int; [done|intros n Hn|by intros; apply wpd_bind, wpd_panic].
  apply wpd_bind, wpd_ret, wpd_ret. cbv beta iota zeta. set (handle := _ +:+ _).
  apply wpd_bind, wpd_try. unfold Queries.UpdateUser. apply wpd_sql; [|by intros; apply wpd_fail].
  intros t _. cbn [Queries.uu_ID Queries.uu_Username].
  destruct (d.(users) !! id) as [u|] eqn:Hu; [|by apply wpd_fail].
  destruct (map_existsb _ _) eqn:Hex; [by apply IH|]. split; [|by intros; apply wpd_fail].
  apply wpd_ret. intros user [= <-]. split; [by exists (n + 1)%Z; split; [lia|]|].
  split; [done|]. split; [by simpl; rewrite lookup_insert_eq|].
  assert (∀ j v, d.(users) !! j = Some v → j ≠ id → u_username v ≠ handle) as Hnew.
  { intros j v Hv Hj E. rewrite map_existsb_false in Hex. specialize (Hex _ _ Hv).
    unfold uuid_eqb in Hex. rewrite bool_decide_eq_false_2 in Hex by done. simpl in Hex.
    by rewrite (proj2 (string_eqb_true _ _) E) in Hex. }
  intros i j a b. simpl. rewrite !lookup_insert_Some.
  intros [[<- <-]|[Hi Ha]] [[<- <-]|[Hj Hb]]; simpl; [done| | |by apply Huniq].
  - intros E. by destruct (Hnew j b Hb).
  - intros E. by destruct (Hnew i a Ha).
Qed.

(** Allocating a handle.  Whatever fails on the way, if [UpdateUsername]
    succeeds then the user had no username, his new one is the requested name
    followed by "#" and four digits between 0001 and 9999, the display name is
    the requested name, and usernames are still unique. *)
Theorem UpdateUsername_effect id username w user w' :
  usernames_unique w.(db) →
  UserService.UpdateUsername nats minioBaseURL id username w = (Ok user, w') →
  (∃ u, w.(db).(users) !! id = Some u ∧ u_username u = "") ∧
  allocated id username user w'.(db).
Proof.
  intros Huniq Hrun.
  refine (wpd_run _ (λ o d', ∀ x, o = Ok x →
    (∃ u, w.(db).(users) !! id = Some u ∧ u_username u = "") ∧ allocated id username x d')
    w _ w' _ Hrun user eq_refl).
  generalize (db w) Huniq. clear w w' Hrun Huniq user. intros d Huniq.
  unfold UserService.UpdateUsername, UserService.repo_UpdateUsername, Queries.GetUserByID.
  apply wpd_bind, wpd_bind, wpd_one; [intros u Hu|done..].
  apply wpd_bind, wpd_ensure; [intros He%string_eqb_true|done].
  eapply wpd_mono; [by apply allocate_handle_ok|]. intros [x|e|] d' Ha; [|done..].
  apply wpd_bind. unfold UserService.publishFriendActivity.
  assert (wpd (mret x) (λ o d'', ∀ x, o = Ok x →
    (∃ u, d.(users) !! id = Some u ∧ u_username u = "") ∧ allocated id username x d'') d') as Hret.
  { apply wpd_ret. intros y [= <-]. split; [by exists u|by apply Ha]. }
  destruct (negb nats); [by apply wpd_ret|].
  apply wpd_bind, wpd_now. intros t. by apply wpd_Publish.
Qed.
End Handles.

(** *** The block checker, run *)
Section BlockChecker.
Context `{Env} `{!UuidText}.

(** A live row of [u] about [v] says "blocked". *)
Definition blocked_row (d : Db) (u v : uuid) : Prop :=
  ∃ f, live f_deleted (d.(friendships) !! (u, v)) = Some f ∧ f_status f = "blocked".

Lemma IsBlocked_run u v w :
  fault_free →
  ∃ x, UserService.IsBlocked (uuid_print u) (uuid_print v) w = (Ok x, bump w) ∧
    (friends_wf w.(db).(friendships) → blocked_row w.(db) u v → x = true).
Proof.
  intros Hff. unfold UserService.IsBlocked, Queries.GetFriendship, query_any. rewrite !uuid_parse_print.
  unfold mbind, gom_bind, try. rewrite query_run by apply Hff.
  fold (row_at (friendships (db w)) u v) (row_at (friendships (db w)) v u).
  destruct (row_at _ u v) as [f|] eqn:E, (row_at _ v u) as [f'|] eqn:E', (row_order (tick w));
    simpl; (eexists; split; [done|]); intros Hw (g & Hg & Hs); fold (row_at (friendships (db w)) u v) in Hg;
    first [by destruct (fw_single _ Hw u v f f')|rewrite E in Hg; by simplify_eq; apply bool_decide_eq_true].
Qed.

End BlockChecker.

(** ** Worked examples: users 1 and 3 to 6; 3 has asked 1, 4 has blocked 1. *)
Definition friends_demo_db : Db :=
  with_friendships {[(3, 1)%positive := mkFriendship 3 1 "pending" 0 false 0;
                     (4, 1)%positive := mkFriendship 4 1 "blocked" 0 false 0]}
    (with_users (list_to_map ((λ u, (u, mkUser u (pretty (Npos u)) "" "" "" "" "" 0 0 true false "" "")) <$>
                              [1; 3; 4; 5; 6]%positive) ∪ {[8%positive := mkUser 8 "" "" "" "" "" "" 0 0 true false "" ""]})
       empty_db).
Definition friends_demo_world : World := with_db friends_demo_db empty_world.

(** No DM opener and no presence reader: the nil interface values. *)
Definition nil_DMOpener : DMOpener.
Proof. by refine {| GetOrCreateDMChannel := None |}. Defined.
Definition nil_PresenceReader : PresenceReader.
Proof. by refine {| GetLiveStatus := None |}. Defined.

Lemma friends_demo_row a b f :
  row_at friends_demo_db.(friendships) a b = Some f →
  (a = 3 ∧ b = 1 ∧ f = mkFriendship 3 1 "pending" 0 false 0)%positive ∨
  (a = 4 ∧ b = 1 ∧ f = mkFriendship 4 1 "blocked" 0 false 0)%positive.
Proof.
  intros [Hl _]%live_Some. simpl in Hl.
  rewrite lookup_insert_Some, lookup_singleton_Some in Hl. naive_solver.
Qed.

Lemma friends_demo_wf : friends_wf friends_demo_db.(friendships).
Proof.
  split.
  - intros a b f Hl. simpl in Hl. rewrite lookup_insert_Some, lookup_singleton_Some in Hl.
    naive_solver.
  - intros a b f Hf. destruct (friends_demo_row _ _ _ Hf) as [(-> & -> & _)|(-> & -> & _)]; done.
  - intros a b f Hf. destruct (friends_demo_row _ _ _ Hf) as [(_ & _ & ->)|(_ & _ & ->)];
      [by left|by right; right].
  - intros a b f f' Hf Hf'.
    destruct (friends_demo_row _ _ _ Hf) as [(-> & -> & _)|(-> & -> & _)];
      destruct (friends_demo_row _ _ _ Hf') as [(? & ? & _)|(? & ? & _)]; done.
Qed.

#[local] Existing Instance demo_wired.
#[local] Existing Instance demo_uuid.
#[local] Existing Instance nil_DMOpener.
#[local] Existing Instance nil_PresenceReader.

Lemma friend_op_refines_witness :
  let m' := (run_friend true "" OpAccept 1 3 friends_demo_world).2.(db).(friendships) in
  link_of m' 1 3 = Friends ∧ link_of m' 3 1 = Friends.
Proof.
  destruct (friend_op_refines true "" OpAccept 1 3 friends_demo_world demo_fault_free
    friends_demo_wf eq_refl eq_refl) as (_ & _ & H1 & H2 & _). by split.
Defined.

Lemma block_persists_witness :
  link_of (run_friend true "" OpSend 1 4 friends_demo_world).2.(db).(friendships) 4 1 = Blocked 4.
Proof.
  apply (block_persists true "" 4 1 OpSend 1 4 friends_demo_world);
    [exact demo_fault_free|exact friends_demo_wf|reflexivity|reflexivity|reflexivity|discriminate
    |by intros (? & _)|by intros (? & _)].
Defined.

Lemma block_can_be_shaken_off_witness :
  link_of (run_friend true "" OpUnblock 1 4
             (run_friend true "" OpBlock 1 4 friends_demo_world).2).2.(db).(friendships) 4 1 = NoLink.
Proof.
  apply (block_can_be_shaken_off true "" 4 1 friends_demo_world);
    [exact demo_fault_free|exact friends_demo_wf|discriminate|reflexivity..].
Defined.

Lemma IsBlocked_symmetric_witness :
  (UserService.IsBlocked (uuid_print 4) (uuid_print 1) friends_demo_world).1 = Ok true ∧
  (UserService.IsBlocked (uuid_print 1) (uuid_print 4) friends_demo_world).1 = Ok true.
Proof. exact (IsBlocked_symmetric 4 1 friends_demo_world demo_fault_free friends_demo_wf). Defined.

Lemma friends_demo_usernames : usernames_unique friends_demo_db.
Proof.
  assert (∀ i u, friends_demo_db.(users) !! i = Some u →
    (∀ j v, friends_demo_db.(users) !! j = Some v → u_username u = u_username v → i = j)) as Hall.
  { intros i u Hu. revert i u Hu.
    check_rows (λ (i : uuid) u, bool_decide (∀ j v, friends_demo_db.(users) !! j = Some v →
      u_username u = u_username v → i = j)). }
  intros i j u v Hu Hv. eauto.
Qed.

Definition demo_rename : GoM World User := UserService.UpdateUsername true "" 8 "neo".
Lemma demo_rename_runs : is_Ok (demo_rename friends_demo_world).1 = true.
Proof. vm_compute. reflexivity. Qed.
Lemma UpdateUsername_effect_witness :
  ∃ user, (demo_rename friends_demo_world).1 = Ok user ∧ handle_of "neo" (u_username user).
Proof.
  destruct (run_Ok _ _ demo_rename_runs) as [user E].
  exists user. split; [by rewrite E|].
  destruct (UpdateUsername_effect true "" 8 "neo" friends_demo_world user _ friends_demo_usernames E)
    as (_ & Hh & _). exact Hh.
Defined.
