(* ===== verification/Channel.v ===== *)
(** * Channel: guild channels, direct-message channels and their members

    Models [src/internal/features/channel/service.go] and [model.go]: every
    method of the service and of the three resolvers it exports to the other
    features.  The repository delegates one to one to [Queries].
    [channel_DMOpener] shows that [DMResolver] is what the user service expects
    of a [DMOpener]. *)
From S2P Require Import Prelude Realtime Store Queries Authz User.

Module ChannelService.

(** ** model.go *)
Definition ErrChannelNotFound : error := Sentinel "channel.ErrChannelNotFound" "channel not found".
Definition ErrGuildIDRequired : error :=
  Sentinel "channel.ErrGuildIDRequired" "guild_id is required for guild channels".
Definition ErrNameRequired : error := Sentinel "channel.ErrNameRequired" "channel name is required".
Definition ErrNotGuildMember : error :=
  Sentinel "channel.ErrNotGuildMember" "user is not a member of this guild".
Definition ErrRecipientRequired : error :=
  Sentinel "channel.ErrRecipientRequired" "at least one recipient is required for DM channel".
Definition ErrInvalidChannelType : error :=
  Sentinel "channel.ErrInvalidChannelType" "invalid channel type".
Definition ErrInvalidUUID : error := Sentinel "channel.ErrInvalidUUID" "invalid UUID format".
Definition ErrInsufficientPermissions : error :=
  Sentinel "channel.ErrInsufficientPermissions" "insufficient permissions".
Definition ErrNotGroupDM : error := Sentinel "channel.ErrNotGroupDM" "channel is not a group DM".
Definition ErrNotDMChannelMember : error :=
  Sentinel "channel.ErrNotDMChannelMember" "user is not a member of this DM channel".
Definition ErrAlreadyDMChannelMember : error :=
  Sentinel "channel.ErrAlreadyDMChannelMember" "user is already a member of this DM channel".

Definition channel_not_found (_ : error) : error := ErrorfW "%w: %v" ErrChannelNotFound.

Record DMChannelWithMembers := mkDMChannelWithMembers {
  dw_Channel : Channel; dw_Members : list Queries.DMChannelMemberProfile
}.

(** A [GuildEvent] literal about a channel; [action] stays unset in the
    literals that only set [Event]. *)
Definition channel_event (event action : GuildEventType) (guildID channelID name : string)
    (type : Z) (topic : string) (position : Z) (parentID : string) : GuildEvent :=
  {| ge_event := event; ge_action := action; ge_guild_id := guildID; ge_user_id := "";
     ge_channel_id := channelID; ge_name := name; ge_icon_url := ""; ge_banner_url := "";
     ge_role_id := ""; ge_reason := ""; ge_parent_id := parentID; ge_topic := topic;
     ge_type := type; ge_position := position; ge_role_name := ""; ge_role_color := "";
     ge_role_position := 0%Z; ge_role_permissions := [] |}.

Section Service.
Context `{Env} `{!UuidText}.
(** [s.lpb != nil] *)
Variable lpb : bool.

(** [parseUUID] with the error replaced by [e]. *)
Definition parseUUID (s : string) (e : error) : GoM World uuid :=
  match uuid_parse s with Some u => mret u | None => fail e end.
Definition uuidToString (u : option uuid) : string :=
  match u with Some u => uuid_print u | None => "" end.

(** [realtime.Publish(s.lpb, ...)] without a nil check dereferences [s.lpb]. *)
Definition publish (subject : string) (e : event) : GoM World unit :=
  if lpb then Publish subject e else go_panic.

Definition broadcastChannelChange (guildID channelID name : string) (channelType : Z) :
    GoM World unit :=
  if negb lpb then mret tt else
  publish (GuildEvents guildID)
    (EvGuild (channel_event GUILD_EVENT_CHANNEL_UPDATE GUILD_EVENT_CHANNEL_UPDATE guildID channelID
                name channelType "" 0 "")).

(** The common part of the two override handlers: the channel, the guild gate
    and the relation. *)
Definition override_gate (userID channelID permission : string) :
    GoM World (Channel * string * string) :=
  chUUID ← parseUUID channelID ErrInvalidUUID;
  ch ← Queries.GetChannelByID chUUID ?> channel_not_found;
  match c_guild_id ch with
  | None => fail (Errorf "channel overrides are only valid on guild channels")
  | Some g =>
      let guildID := uuid_print g in
      ok ← Authz.CanManageChannels userID guildID;
      _ ← ensure ok ErrInsufficientPermissions;
      match assoc permission PermissionRelation with
      | None => fail (Errorf "unknown permission %q")
      | Some relation => mret (ch, guildID, relation)
      end
  end.

Definition SetChannelOverride (userID channelID targetType targetID permission effect : string) :
    GoM World unit :=
  '(ch, guildID, relation) ← override_gate userID channelID permission;
  _ ← Authz.SetChannelOverride channelID targetType targetID relation effect;
  broadcastChannelChange guildID channelID (c_name ch) (c_type ch).

Definition DeleteChannelOverride (userID channelID targetType targetID permission : string) :
    GoM World unit :=
  '(ch, guildID, relation) ← override_gate userID channelID permission;
  _ ← Authz.DeleteChannelOverride channelID targetType targetID relation;
  broadcastChannelChange guildID channelID (c_name ch) (c_type ch).

Definition ListChannelOverrides (userID channelID : string) :
    GoM World (list Authz.ChannelOverride) :=
  ok ← Authz.CanViewChannel userID channelID;
  _ ← ensure ok ErrInsufficientPermissions;
  Authz.ListChannelOverrides channelID.

(** [if parentID ... { pid, err := parseUUID(parentID); params.ParentID = pid }] *)
Definition parent_param (parentID : option string) : GoM World (option uuid) :=
  match parentID with
  | None => mret None
  | Some p =>
      pid ← parseUUID p (ErrorfW "invalid parent_id: %w" ErrInvalidUUID);
      mret (Some pid)
  end.

Definition CreateChannel (userID guildID name : string) (channelType : Z)
    (topic parentID : string) : GoM World Channel :=
  _ ← ensure (negb (string_eqb name "")) ErrNameRequired;
  guildUUID ← parseUUID guildID ErrGuildIDRequired;
  userUUID ← parseUUID userID ErrInvalidUUID;
  _ ← Queries.GetGuildMember guildUUID userUUID ?> (λ _, ErrNotGuildMember);
  ok ← Authz.CanManageChannels userID guildID;
  _ ← ensure ok ErrInsufficientPermissions;
  pid ← parent_param (if string_eqb parentID "" then None else Some parentID);
  ch ← Queries.CreateChannel
         (Queries.mkCreateChannelParams (Some guildUUID) name channelType topic 0 pid)
       ?> ErrorfW "failed to create channel: %w";
  _ ← publish (GuildEvents guildID)
        (EvGuild (channel_event GUILD_EVENT_CHANNEL_CREATE GUILD_EVENT_UNSPECIFIED guildID
                    (uuid_print (c_id ch)) (c_name ch) (c_type ch) (c_topic ch) (c_position ch)
                    (uuidToString (c_parent_id ch))));
  mret ch.

Definition GetChannel (channelID : string) : GoM World Channel :=
  id ← parseUUID channelID ErrInvalidUUID;
  Queries.GetChannelByID id ?> channel_not_found.

(** [if ch.GuildID.Valid { if !s.authz.CanManageChannels(...) { return ... } }] *)
Definition manage_gate (userID : string) (ch : Channel) : GoM World unit :=
  match c_guild_id ch with
  | None => mret tt
  | Some g =>
      ok ← Authz.CanManageChannels userID (uuid_print g);
      ensure ok ErrInsufficientPermissions
  end.

Definition UpdateChannel (userID channelID : string) (name topic : option string)
    (position : option Z) (parentID : option string) : GoM World Channel :=
  id ← parseUUID channelID ErrInvalidUUID;
  existing ← Queries.GetChannelByID id ?> channel_not_found;
  _ ← manage_gate userID existing;
  pid ← parent_param parentID;
  ch ← Queries.UpdateChannel (Queries.mkUpdateChannelParams id name topic position pid)
       ?> ErrorfW "failed to update channel: %w";
  _ ← match c_guild_id ch with
      | None => mret tt
      | Some g =>
          let gid := uuid_print g in
          publish (GuildEvents gid)
            (EvGuild (channel_event GUILD_EVENT_CHANNEL_UPDATE GUILD_EVENT_UNSPECIFIED gid
                        (uuid_print (c_id ch)) (c_name ch) (c_type ch) (c_topic ch)
                        (c_position ch) (uuidToString (c_parent_id ch))))
      end;
  mret ch.

(** ** DM channels *)
Definition dmChannelMemberIDs (channelID : uuid) : GoM World (list string) :=
  rows ← try (Queries.GetDMChannelMembers channelID);
  mret (match rows with inr rows => uuid_print <$> rows | inl _ => [] end).

Definition publishDMChannelEvent (eventType : ChannelLifecycleType) (ch : Channel)
    (memberIDs : list string) : GoM World unit :=
  if negb lpb then mret tt else
  members ← (if bool_decide (eventType = CHANNEL_LIFECYCLE_DELETE) then mret (inr [])
             else try (Queries.GetDMChannelMemberProfiles (c_id ch)));
  match members with
  | inl _ => mret tt
  | inr profiles =>
      let payload := {|
        dce_type := eventType; dce_id := uuid_print (c_id ch); dce_name := c_name ch;
        dce_channel_type := c_type ch;
        dce_members := (λ p, {|
          dcm_id := uuid_print (Queries.dp_ID p); dcm_username := Queries.dp_Username p;
          dcm_display_name := Queries.dp_DisplayName p;
          dcm_avatar_url := Queries.dp_AvatarUrl p; dcm_status := Queries.dp_Status p |})
          <$> profiles |} in
      for_each memberIDs (λ mid, publish (DmChannels mid) (EvDmChannel payload))
  end.

Definition publishDMChannelCreated (ch : Channel) (memberIDs : list string) : GoM World unit :=
  publishDMChannelEvent CHANNEL_LIFECYCLE_CREATE ch memberIDs.

Definition DeleteChannel (userID channelID : string) : GoM World unit :=
  id ← parseUUID channelID ErrInvalidUUID;
  ch ← Queries.GetChannelByID id ?> channel_not_found;
  _ ← manage_gate userID ch;
  let isDM := bool_decide (c_guild_id ch = None) && (Z.eqb (c_type ch) 5 || Z.eqb (c_type ch) 6) in
  dmMembers ← (if isDM then dmChannelMemberIDs id else mret []);
  _ ← Queries.DeleteChannel id ?> ErrorfW "failed to delete channel: %w";
  _ ← match c_guild_id ch with
      | None => mret tt
      | Some g =>
          let gid := uuid_print g in
          publish (GuildEvents gid)
            (EvGuild (channel_event GUILD_EVENT_CHANNEL_DELETE GUILD_EVENT_UNSPECIFIED gid
                        channelID "" 0 "" 0 ""))
      end;
  when isDM (publishDMChannelEvent CHANNEL_LIFECYCLE_DELETE ch dmMembers).

Definition ListGuildChannels (guildID : string) : GoM World (list Channel) :=
  id ← parseUUID guildID ErrInvalidUUID;
  Queries.ListGuildChannels id ?> ErrorfW "failed to list guild channels: %w".

(** "For 1:1 DM, check if channel already exists". *)
Definition existing_dm (userUUID : uuid) (recipientIDs : list string) : GoM World (option Channel) :=
  match recipientIDs with
  | [r] =>
      recipientUUID ← parseUUID r ErrInvalidUUID;
      existing ← try (Queries.GetDMChannelBetweenUsers userUUID recipientUUID);
      mret (match existing with inr ch => Some ch | inl _ => None end)
  | _ => mret None
  end.

(** The part of [CreateDMChannel] that creates: the channel, its members in
    order, the notification. *)
Definition create_dm (userUUID : uuid) (userID : string) (recipientIDs : list string) :
    GoM World Channel :=
  let channelType := if Nat.ltb 1 (length recipientIDs) then 6%Z else 5%Z in
  ch ← Queries.CreateDMChannel "DM" channelType ?> ErrorfW "failed to create DM channel: %w";
  _ ← Queries.AddDMChannelMember (c_id ch) userUUID
      ?> ErrorfW "failed to add creator to DM channel: %w";
  _ ← for_each recipientIDs (λ rid,
        rUUID ← parseUUID rid ErrInvalidUUID;
        Queries.AddDMChannelMember (c_id ch) rUUID
          ?> ErrorfW "failed to add recipient to DM channel: %w");
  _ ← publishDMChannelCreated ch (userID :: recipientIDs);
  mret ch.

Definition CreateDMChannel (userID : string) (recipientIDs : list string) : GoM World Channel :=
  _ ← ensure (negb (Nat.eqb (length recipientIDs) 0)) ErrRecipientRequired;
  userUUID ← parseUUID userID ErrInvalidUUID;
  existing ← existing_dm userUUID recipientIDs;
  match existing with
  | Some ch => mret ch
  | None => create_dm userUUID userID recipientIDs
  end.

Definition ListDMChannels (userID : string) : GoM World (list Channel) :=
  id ← parseUUID userID ErrInvalidUUID;
  Queries.ListDMChannels id ?> ErrorfW "failed to list DM channels: %w".

Definition ListDMChannelMembers (callerID channelID : string) :
    GoM World (list Queries.DMChannelMemberProfile) :=
  chUUID ← parseUUID channelID ErrInvalidUUID;
  callerUUID ← parseUUID callerID ErrInvalidUUID;
  isMember ← Queries.IsDMChannelMember chUUID callerUUID
             ?> ErrorfW "failed to check membership: %w";
  _ ← ensure isMember ErrNotDMChannelMember;
  Queries.GetDMChannelMemberProfiles chUUID.

Definition ListDMChannelsWithMembers (userID : string) : GoM World (list DMChannelWithMembers) :=
  id ← parseUUID userID ErrInvalidUUID;
  channels ← Queries.ListDMChannels id ?> ErrorfW "failed to list DM channels: %w";
  for_fold channels [] (λ out ch,
    members ← Queries.GetDMChannelMemberProfiles (c_id ch)
              ?> ErrorfW "failed to load members for channel: %w";
    mret (out ++ [mkDMChannelWithMembers ch members])).

(** [isMember, err := IsDMChannelMember(...); if err != nil || !isMember { return }] *)
Definition require_dm_member (channelID userID : uuid) : GoM World unit :=
  isMember ← try (Queries.IsDMChannelMember channelID userID);
  ensure (match isMember with inr b => b | inl _ => false end) ErrNotDMChannelMember.

Definition AddDMGroupMember (callerID channelID userID : string) : GoM World unit :=
  chUUID ← parseUUID channelID ErrInvalidUUID;
  ch ← Queries.GetChannelByID chUUID ?> channel_not_found;
  _ ← ensure (Z.eqb (c_type ch) 6) ErrNotGroupDM;
  callerUUID ← parseUUID callerID ErrInvalidUUID;
  _ ← require_dm_member chUUID callerUUID;
  targetUUID ← parseUUID userID ErrInvalidUUID;
  alreadyMember ← try (Queries.IsDMChannelMember chUUID targetUUID);
  _ ← ensure (match alreadyMember with inr b => negb b | inl _ => true end) ErrAlreadyDMChannelMember;
  _ ← Queries.AddDMChannelMember chUUID targetUUID ?> ErrorfW "failed to add member to group DM: %w";
  ids ← dmChannelMemberIDs chUUID;
  publishDMChannelEvent CHANNEL_LIFECYCLE_UPDATE ch ids.

Definition RemoveDMGroupMember (callerID channelID userID : string) : GoM World unit :=
  chUUID ← parseUUID channelID ErrInvalidUUID;
  ch ← Queries.GetChannelByID chUUID ?> channel_not_found;
  _ ← ensure (Z.eqb (c_type ch) 6) ErrNotGroupDM;
  callerUUID ← parseUUID callerID ErrInvalidUUID;
  _ ← require_dm_member chUUID callerUUID;
  targetUUID ← parseUUID userID ErrInvalidUUID;
  _ ← require_dm_member chUUID targetUUID;
  beforeMembers ← dmChannelMemberIDs chUUID;
  _ ← Queries.RemoveDMChannelMember chUUID targetUUID
      ?> ErrorfW "failed to remove member from group DM: %w";
  publishDMChannelEvent CHANNEL_LIFECYCLE_UPDATE ch beforeMembers.

(** ** The resolvers handed to the other features *)
Definition DMResolver_GetOrCreateDMChannel (userID : string) (recipientIDs : list string) :
    GoM World string :=
  ch ← CreateDMChannel userID recipientIDs;
  mret (uuid_print (c_id ch)).

Definition DMResolver_IsDMMember (channelID userID : string) : GoM World bool :=
  chUUID ← parseUUID channelID ErrInvalidUUID;
  userUUID ← parseUUID userID ErrInvalidUUID;
  Queries.IsDMChannelMember chUUID userUUID.

Definition DMResolver_DMMembers (channelID : string) : GoM World (list string) :=
  chUUID ← parseUUID channelID ErrInvalidUUID;
  dmChannelMemberIDs chUUID.

Definition GetChannelGuildID (channelID : string) : GoM World string :=
  ch ← try (GetChannel channelID);
  mret (match ch with inr ch => uuidToString (c_guild_id ch) | inl _ => "" end).

Definition GetDMChannelMemberIDs (channelID : string) : GoM World (list string) :=
  chUUID ← parseUUID channelID (ErrorfW "invalid UUID %q: %w" (Errorf "cannot parse UUID"));
  members ← Queries.GetDMChannelMembers chUUID;
  mret (uuid_print <$> members).

Definition GetUserDMChannelIDs (userID : string) : GoM World (list string) :=
  uid ← parseUUID userID (ErrorfW "invalid UUID %q: %w" (Errorf "cannot parse UUID"));
  channels ← Queries.ListDMChannels uid;
  mret ((λ ch, uuid_print (c_id ch)) <$> channels).
End Service.
End ChannelService.
