(* ===== verification/ChannelFacts.v ===== *)
(** * ChannelFacts: what the channel service guarantees

    [DMResolver] satisfies the [DMOpener] interface of the user service; a 1:1
    DM is created at most once; overrides written through the permission layer
    keep the table well formed and decide the channel check at once; group
    membership changes are guarded; the DM branch of update and delete is not. *)
From S2P Require Import Prelude Realtime Store Queries Authz Wp AuthzFacts User Channel.

(** ** The interface promised to the user service *)
Section Opener.
Context `{Env} `{!UuidText}.
Variable lpb : bool.

Lemma for_each_no_panic {A} (xs : list A) body :
  (∀ x d, wpd (body x) (λ o _, o ≠ Panic) d) → ∀ d, wpd (for_each xs body) (λ o _, o ≠ Panic) d.
Proof.
  intros Hb. induction xs as [|x xs IH]; intros d; [by apply wpd_ret|]. simpl.
  apply wpd_bind. eapply wpd_mono; [apply Hb|]. intros [?|?|] d' Ho; [apply IH|done..].
Qed.

(** Notifications always go out and change no table. *)
Lemma wpd_publishDMChannelEvent t ch ids (Q : outcome unit → Db → Prop) d :
  Q (Ok tt) d → wpd (ChannelService.publishDMChannelEvent lpb t ch ids) Q d.
Proof.
  intros HQ. unfold ChannelService.publishDMChannelEvent.
  destruct (negb lpb) eqn:E; [by apply wpd_ret|]. apply negb_false_iff in E.
  assert (∀ payload, wpd (for_each ids (λ mid,
    ChannelService.publish lpb (DmChannels mid) payload)) Q d) as Hfor.
  { intros payload. apply (wpd_for_each _ _ (eq d)); [done| |by intros ? <-].
    intros x d' _ <-. unfold ChannelService.publish. rewrite E. by apply wpd_Publish. }
  apply wpd_bind. case_bool_decide; [by apply wpd_ret, Hfor|].
  unfold Queries.GetDMChannelMemberProfiles. apply wpd_try, wpd_query; [apply Hfor|].
  intros _. by apply wpd_ret.
Qed.

Lemma wpd_parseUUID s e (Q : outcome uuid → Db → Prop) d :
  (∀ u, uuid_parse s = Some u → Q (Ok u) d) → (uuid_parse s = None → Q (Err e) d) →
  wpd (ChannelService.parseUUID s e) Q d.
Proof.
  intros HQ HE. unfold ChannelService.parseUUID.
  destruct (uuid_parse s); [apply wpd_ret|apply wpd_fail]; auto.
Qed.

Lemma wpd_existing_dm u rs (Q : outcome (option Channel) → Db → Prop) d :
  (∀ o, Q (Ok o) d) → (∀ e, Q (Err e) d) → wpd (ChannelService.existing_dm u rs) Q d.
Proof.
  intros HQ HE. unfold ChannelService.existing_dm, Queries.GetDMChannelBetweenUsers.
  destruct rs as [|r [|r' rs]]; [by apply wpd_ret| |by apply wpd_ret].
  apply wpd_bind, wpd_parseUUID; [intros v _|done].
  apply wpd_bind, wpd_try, wpd_one; intros; by apply wpd_ret.
Qed.

Lemma create_dm_no_panic v u rs d :
  wpd (ChannelService.create_dm lpb v u rs) (λ o _, o ≠ Panic) d.
Proof.
  assert (∀ c v e d, wpd (Queries.AddDMChannelMember c v ?> e) (λ o _, o ≠ Panic) d) as Hadd.
  { intros c v' e d'. apply wpd_on_err. unfold Queries.AddDMChannelMember.
    apply wpd_sql; [|done]. intros t n. by destruct (_ && _). }
  unfold ChannelService.create_dm. apply wpd_bind, wpd_on_err. unfold Queries.CreateDMChannel.
  apply wpd_sql; [|done]. intros t n. destruct (has _ _); [done|]. split; [|done].
  apply wpd_bind. eapply wpd_mono; [apply Hadd|]. intros [?|?|] d1 Ho; [|done..].
  apply wpd_bind. eapply wpd_mono.
  { apply for_each_no_panic. intros x d2. apply wpd_bind, wpd_parseUUID; [|done].
    intros r _. apply Hadd. }
  intros [?|?|] d2 Ho2; [|done..]. by apply wpd_bind, wpd_publishDMChannelEvent, wpd_ret.
Qed.

Lemma CreateDMChannel_no_panic u rs d :
  wpd (ChannelService.CreateDMChannel lpb u rs) (λ o _, o ≠ Panic) d.
Proof.
  unfold ChannelService.CreateDMChannel.
  apply wpd_bind, wpd_ensure; [intros _|done]. apply wpd_bind, wpd_parseUUID; [|done]. intros v _.
  apply wpd_bind, wpd_existing_dm; [|done]. intros [ch|]; [by apply wpd_ret|].
  apply create_dm_no_panic.
Qed.

(** Opening a DM only writes [channels] and [dm_channel_members]. *)
Lemma CreateDMChannel_frame {T} (f : Db → T) u rs :
  (∀ d x, f (with_channels x d) = f d) → (∀ d x, f (with_dm_channel_members x d) = f d) →
  steps (on_db (same f)) (ChannelService.CreateDMChannel lpb u rs).
Proof.
  intros H1 H2.
  assert (∀ c v, steps (on_db (same f)) (Queries.AddDMChannelMember c v)) as Hadd.
  { intros c v. apply steps_sql; [apply _|]. intros ? ? ? ? ? Hf. case_match; simplify_eq/=. apply H2. }
  assert (∀ n t, steps (on_db (same f)) (Queries.CreateDMChannel n t)) as Hnew.
  { intros n t. apply steps_sql; [apply _|]. intros ? ? ? ? ? Hf. case_match; simplify_eq/=. apply H1. }
  assert (∀ s e, steps (on_db (same f)) (ChannelService.parseUUID s e)) as Hparse.
  { intros s e. unfold ChannelService.parseUUID. steps_auto. }
  unfold ChannelService.CreateDMChannel, ChannelService.create_dm, ChannelService.existing_dm,
    Queries.GetDMChannelBetweenUsers, ChannelService.publishDMChannelCreated,
    ChannelService.publishDMChannelEvent, ChannelService.publish,
    Queries.GetDMChannelMemberProfiles.
  steps_auto; auto.
Qed.
Lemma CreateDMChannel_friendships u rs :
  steps (on_db (same friendships)) (ChannelService.CreateDMChannel lpb u rs).
Proof. by apply CreateDMChannel_frame. Qed.
Lemma CreateDMChannel_users u rs :
  steps (on_db (same users)) (ChannelService.CreateDMChannel lpb u rs).
Proof. by apply CreateDMChannel_frame. Qed.

(** [channel.DMResolver] implements [user.DMOpener]. *)
#[refine] Definition channel_DMOpener : DMOpener := {|
  GetOrCreateDMChannel := Some (ChannelService.DMResolver_GetOrCreateDMChannel lpb)
|}.
Proof.
  - intros f u rs [= <-]. unfold ChannelService.DMResolver_GetOrCreateDMChannel.
    apply steps_bind; [apply _|apply CreateDMChannel_friendships|]. intros ch. apply steps_ret, _.
  - intros f u rs w [= <-] E.
    assert (wpd (ChannelService.DMResolver_GetOrCreateDMChannel lpb u rs) (λ o _, o ≠ Panic) (db w)) as Hwp.
    { apply wpd_bind. eapply wpd_mono; [apply CreateDMChannel_no_panic|].
      intros [?|?|] d' Ho; [by apply wpd_ret|done..]. }
    exact (Hwp w eq_refl E).
Defined.
End Opener.

(** ** One direct-message channel per pair *)
Definition channels_wf (d : Db) : Prop := ∀ c ch, d.(channels) !! c = Some ch → c_id ch = c.

(** [ch] is a live 1:1 channel that [u] and [v] are both in. *)
Definition dm_between (d : Db) (u v : uuid) (ch : Channel) : Prop :=
  d.(channels) !! c_id ch = Some ch ∧ c_type ch = 5%Z ∧ c_deleted ch = false ∧
  Queries.dm_live d (c_id ch) u = true ∧ Queries.dm_live d (c_id ch) v = true.

Section GetOrCreate.
Context `{Env} `{!UuidText}.
Variable lpb : bool.

(** The lookup finds a channel of the pair if and only if there is one. *)
Lemma wpd_GetDMChannelBetweenUsers u v (Q : outcome Channel → Db → Prop) d :
  fault_free → channels_wf d →
  (∀ ch, dm_between d u v ch → Q (Ok ch) d) →
  ((∀ ch, ¬ dm_between d u v ch) → Q (Err (Driver NoRows)) d) →
  wpd (Queries.GetDMChannelBetweenUsers u v) Q d.
Proof.
  intros Hff Hwf HQ HE. pose proof (fault_free_not_can_fail Hff) as Hno.
  unfold Queries.GetDMChannelBetweenUsers.
  assert (∀ ch, ch ∈ rows (λ id c, Z.eqb (c_type c) 5 && negb (c_deleted c) &&
            Queries.dm_live d id u && Queries.dm_live d id v) d.(channels) ↔ dm_between d u v ch) as Hin.
  { intros ch. rewrite elem_of_rows. unfold dm_between.
    setoid_rewrite andb_true_iff. setoid_rewrite andb_true_iff. setoid_rewrite andb_true_iff.
    setoid_rewrite Z.eqb_eq. setoid_rewrite negb_true_iff. split.
    - intros (c & Hc & [[[Ht Hd] Hu] Hv]). rewrite (Hwf _ _ Hc). done.
    - intros (Hc & Ht & Hd & Hu & Hv). by exists (c_id ch). }
  apply wpd_one; [intros ch Hch|intros Hnone|by intros ?%Hno].
  - by apply HQ, Hin, head_Some_elem_of.
  - apply HE. intros ch Hch%Hin. apply head_None in Hnone. by rewrite Hnone, elem_of_nil in Hch.
Qed.

Lemma wpd_AddDMChannelMember c u (Q : outcome unit → Db → Prop) d :
  fault_free → has d.(channels) c = true → has d.(users) u = true →
  (∀ m, dm_deleted m = false →
     Q (Ok tt) (with_dm_channel_members (<[(c, u) := m]> d.(dm_channel_members)) d)) →
  wpd (Queries.AddDMChannelMember c u) Q d.
Proof.
  intros Hff Hc Hu HQ. pose proof (fault_free_not_can_fail Hff) as Hno.
  unfold Queries.AddDMChannelMember. apply wpd_sql; [|by intros ?%Hno]. intros t _.
  rewrite Hc, Hu. simpl. split; [|by intros ?%Hno]. apply HQ. by destruct (_ !! _).
Qed.

Lemma dm_live_added d c u m :
  dm_deleted m = false →
  ∀ c' u', Queries.dm_live (with_dm_channel_members (<[(c, u) := m]> d.(dm_channel_members)) d) c' u' =
    if bool_decide (c' = c ∧ u' = u) then true else Queries.dm_live d c' u'.
Proof.
  intros Hm c' u'. unfold Queries.dm_live. simpl. case_bool_decide as E.
  - destruct E as [-> ->]. by rewrite lookup_insert_eq, Hm.
  - by rewrite lookup_insert_ne by naive_solver.
Qed.

Lemma create_dm_pair u v d :
  fault_free → (∀ n, d.(channels) !! fresh n = None) →
  has d.(users) u = true → has d.(users) v = true →
  wpd (ChannelService.create_dm lpb u (uuid_print u) [uuid_print v])
    (λ o d', channels_wf d → channels_wf d' ∧ ∃ ch, o = Ok ch ∧ dm_between d' u v ch) d.
Proof.
  intros Hff Hfresh Hu Hv. pose proof (fault_free_not_can_fail Hff) as Hno.
  unfold ChannelService.create_dm. apply wpd_bind, wpd_on_err. unfold Queries.CreateDMChannel.
  apply wpd_sql; [|by intros ?%Hno]. intros t n. unfold has at 1. rewrite Hfresh. cbv zeta.
  split; [|by intros ?%Hno]. set (ch := mkChannel _ _ _ _ _ _ _ _ _ _).
  assert (∀ d', channels d' = <[fresh n := ch]> d.(channels) → has d'.(channels) (c_id ch) = true) as Hc
    by (intros d' E; rewrite E; unfold has; by rewrite lookup_insert_eq).
  apply wpd_bind, wpd_on_err, wpd_AddDMChannelMember; [done|by apply Hc|done|]. intros m1 Hm1.
  simpl (for_each _ _). apply wpd_bind, wpd_bind, wpd_bind, wpd_parseUUID; [|by rewrite uuid_parse_print].
  intros v' Hv'. rewrite uuid_parse_print in Hv'. injection Hv' as <-.
  apply wpd_on_err, wpd_AddDMChannelMember; [done|by apply Hc|done|]. intros m2 Hm2.
  apply wpd_ret, wpd_bind, wpd_publishDMChannelEvent, wpd_ret. intros Hwf. split.
  - intros c x. simpl. rewrite lookup_insert_Some. intros [[<- <-]|[_ Hx]]; [done|by apply Hwf].
  - exists ch. split; [done|]. split; [by simpl; rewrite lookup_insert_eq|].
    split; [done|]. split; [done|].
    rewrite !(dm_live_added _ _ _ m2 Hm2), !(dm_live_added _ _ _ m1 Hm1).
    by split; repeat case_bool_decide; naive_solver.
Qed.

Lemma CreateDMChannel_pair u v d :
  fault_free → channels_wf d → (∀ n, d.(channels) !! fresh n = None) ∨ (∃ ch, dm_between d u v ch) →
  has d.(users) u = true → has d.(users) v = true →
  wpd (ChannelService.CreateDMChannel lpb (uuid_print u) [uuid_print v])
    (λ o d', channels_wf d' ∧ (∃ ch, o = Ok ch ∧ dm_between d' u v ch) ∧
             ((∃ ch, dm_between d u v ch) → d' = d)) d.
Proof.
  intros Hff Hwf Hfresh Hu Hv. unfold ChannelService.CreateDMChannel.
  apply wpd_bind, wpd_ensure; [intros _|done].
  apply wpd_bind, wpd_parseUUID; [|by rewrite uuid_parse_print].
  intros u' Hu'. rewrite uuid_parse_print in Hu'. injection Hu' as <-.
  apply wpd_bind, wpd_bind, wpd_parseUUID; [|by rewrite uuid_parse_print].
  intros v' Hv'. rewrite uuid_parse_print in Hv'. injection Hv' as <-.
  apply wpd_bind, wpd_try, wpd_GetDMChannelBetweenUsers; [done|done|intros ch Hch|intros Hnone];
    apply wpd_ret; [apply wpd_ret; eauto|].
  destruct Hfresh as [Hfresh|[ch Hch]]; [|by destruct (Hnone ch)].
  eapply wpd_mono; [by apply create_dm_pair|]. intros o d' Hpost. destruct (Hpost Hwf) as [? ?].
  split; [done|]. split; [done|]. intros [ch Hch]. by destruct (Hnone ch).
Qed.

(** Opening a 1:1 DM is get-or-create.  When the database answers, the
    request of one existing user for another returns a live 1:1 channel both
    are members of; if the pair had one already nothing is written; and every
    later request for the pair on the resulting tables returns such a channel
    without writing, so repeated accepts or clicks do not multiply channels. *)
Theorem CreateDMChannel_get_or_create u v w :
  fault_free → channels_wf w.(db) → (∀ n, w.(db).(channels) !! fresh n = None) →
  has w.(db).(users) u = true → has w.(db).(users) v = true →
  let open := ChannelService.CreateDMChannel lpb (uuid_print u) [uuid_print v] in
  (∃ ch, (open w).1 = Ok ch ∧ dm_between (open w).2.(db) u v ch) ∧
  ((∃ ch, dm_between w.(db) u v ch) → (open w).2.(db) = w.(db)) ∧
  ∀ w', w'.(db) = (open w).2.(db) →
    (∃ ch, (open w').1 = Ok ch ∧ dm_between w'.(db) u v ch) ∧ (open w').2.(db) = w'.(db).
Proof.
  intros Hff Hwf Hfresh Hu Hv open.
  destruct (CreateDMChannel_pair u v w.(db) Hff Hwf (or_introl Hfresh) Hu Hv w eq_refl)
    as (Hwf1 & Hch & Hsame).
  fold open in Hwf1, Hch, Hsame. split; [done|]. split; [done|]. intros w' Hw'.
  assert (users (open w).2.(db) = users w.(db)) as Hus by apply (CreateDMChannel_users lpb _ _ w).
  destruct Hch as (ch & Hok & Hdm). rewrite <- Hw' in Hwf1, Hdm, Hus.
  destruct (CreateDMChannel_pair u v w'.(db) Hff Hwf1 (or_intror (ex_intro _ ch Hdm))
    ltac:(by rewrite Hus) ltac:(by rewrite Hus) w' eq_refl) as (_ & (ch' & Hok' & Hdm') & Hsame').
  fold open in Hok', Hdm', Hsame'. assert (db (open w').2 = db w') as E by (apply Hsame'; eauto).
  split; [|done]. exists ch'. by rewrite <- E.
Qed.
End GetOrCreate.

(** ** Overrides *)
Section FoldInsert.
Context {K V A : Type} `{Countable K}.

Lemma lookup_foldr_insert_cases (key : A → K) (val : A → V) l (m : gmap K V) k o :
  foldr (λ x m, <[key x := val x]> m) m l !! k = Some o →
  (∃ x, x ∈ l ∧ key x = k ∧ val x = o) ∨ ((∀ x, x ∈ l → key x ≠ k) ∧ m !! k = Some o).
Proof.
  induction l as [|x l IH]; simpl.
  - intros Ho. right. split; [|done]. by intros x ?%not_elem_of_nil.
  - rewrite lookup_insert_Some. setoid_rewrite elem_of_cons. naive_solver.
Qed.

Lemma lookup_foldr_insert_in (key : A → K) (val : A → V) `{!Inj (=) (=) key} l (m : gmap K V) x :
  x ∈ l → foldr (λ x m, <[key x := val x]> m) m l !! key x = Some (val x).
Proof.
  induction l as [|y l IH]; [by intros ?%not_elem_of_nil|]. simpl. intros Hx.
  destruct (decide (key y = key x)) as [E|E].
  - apply (inj key) in E as ->. apply lookup_insert_eq.
  - rewrite lookup_insert_ne by done. apply IH. apply elem_of_cons in Hx as [->|?]; done.
Qed.
End FoldInsert.

(** Only the override of ([ch], [tt], [tid]) for the permission called [name]
    changed, and it is [effect] now. *)
Definition overridden (d d' : Db) (ch : uuid) (tt : string) (tid : uuid) (name effect : string) : Prop :=
  guilds d' = guilds d ∧ roles d' = roles d ∧ role_members d' = role_members d ∧
  permissions d' = permissions d ∧ role_permissions d' = role_permissions d ∧
  channels d' = channels d ∧
  (∀ k o, d'.(channel_permission_overwrites) !! k = Some o →
     (∃ pid p, k = (ch, tt, tid, pid) ∧ d.(permissions) !! pid = Some p ∧ p_name p = name ∧
               cpo_effect o = effect) ∨
     d.(channel_permission_overwrites) !! k = Some o ∧
       ∀ pid p, k = (ch, tt, tid, pid) → d.(permissions) !! pid = Some p → p_name p ≠ name) ∧
  (∀ pid p, d.(permissions) !! pid = Some p → p_name p = name →
     ∃ o, d'.(channel_permission_overwrites) !! (ch, tt, tid, pid) = Some o ∧ cpo_effect o = effect).

Section Overrides.
Context `{Env} `{!UuidText}.

Lemma wpd_SetChannelOverride chs tt ts relation effect ch t name (Q : outcome unit → Db → Prop) d :
  authz_wired = true → permissions_wf d →
  uuid_parse chs = Some ch → uuid_parse ts = Some t → assoc relation relationToName = Some name →
  (∀ d', (tt = "role" ∨ tt = "user") → (effect = "allow" ∨ effect = "deny") →
         overridden d d' ch tt t name effect → Q (Ok ()) d') →
  (∀ e d', Q (Err e) d') →
  wpd (Authz.SetChannelOverride chs tt ts relation effect) Q d.
Proof.
  intros Hw Hwf Hch Ht Hrel HQ HE.
  unfold Authz.SetChannelOverride, Authz.relation_name, Authz.parseUUID.
  rewrite Hw, Hrel, Hch, Ht. cbn [negb].
  apply wpd_bind, wpd_ensure; [intros Htt%orb_true_iff|by intros].
  apply wpd_bind, wpd_ensure; [intros Heff%orb_true_iff|by intros].
  rewrite !string_eqb_true in Htt, Heff. rewrite !bind_ret_l.
  apply wpd_sql; [|by intros]. intros now n. cbv zeta.
  destruct (_ && _); [apply HE|]. split; [|by intros].
  set (key := λ pid : Z, (ch, tt, t, pid)).
  assert (Inj (=) (=) key) by (intros ?? [= ->]; done).
  apply HQ; [done|done|]. do 6 (split; [done|]). simpl. split.
  - intros k o [(pid & Hpid & <- & <-)|[Hno Ho]]%(lookup_foldr_insert_cases key).
    + apply elem_of_permission_ids in Hpid as (p & Hp & Hn); [|done]. left. eauto 10.
    + right. split; [done|]. intros pid p -> Hp Hn. apply (Hno pid); [|done].
      apply elem_of_permission_ids; eauto.
  - intros pid p Hp Hn. eexists. split.
    + apply (lookup_foldr_insert_in key _ _ _ pid), elem_of_permission_ids; eauto.
    + done.
Qed.

(** The specification after an override aimed at user [t]. *)
Lemma overridden_user d d' ch t name effect p pid e :
  overridden d d' ch "user" t name effect →
  d.(permissions) !! pid = Some p → p_name p = name →
  UserOverride d' ch t name e ↔ e = effect.
Proof.
  intros (_ & _ & _ & Hp' & _ & _ & Hcases & Hset) Hp Hn. unfold UserOverride. rewrite Hp'. split.
  - intros (pid' & o & p' & Ho & <- & Hpp & Hnn).
    apply Hcases in Ho as [(? & ? & _ & _ & _ & ->)|[_ Hno]]; [done|].
    by destruct (Hno pid' p' eq_refl Hpp).
  - intros ->. destruct (Hset pid p Hp Hn) as (o & Ho & He). by exists pid, o, p.
Qed.

Lemma overridden_wf d d' ch tt t name effect :
  overridden d d' ch tt t name effect → tt = "role" ∨ tt = "user" →
  effect = "allow" ∨ effect = "deny" → overrides_wf d → overrides_wf d'.
Proof.
  intros (_ & _ & _ & _ & _ & _ & Hcases & _) Htt Heff Hwf k o Ho.
  apply Hcases in Ho as [(pid & p & -> & _ & _ & He)|[Ho _]]; [|exact (Hwf k o Ho)].
  unfold override_wf. rewrite He. split; [done|]. destruct Htt as [-> | ->]; [by left|by right].
Qed.

(** A user override takes effect at once and is decisive.  After a
    successful write the table is still well formed; an "allow" lets the user
    use the permission on the channel whatever his roles say; a "deny" leaves
    it only to the owner and administrators of the guild. *)
Theorem SetChannelOverride_decides chs ts relation effect w w' ch t g c name pid p :
  authz_wired = true → permissions_wf w.(db) → overrides_wf w.(db) →
  uuid_parse chs = Some ch → uuid_parse ts = Some t → assoc relation relationToName = Some name →
  w.(db).(permissions) !! pid = Some p → p_name p = name →
  w.(db).(channels) !! ch = Some c → c_deleted c = false → c_guild_id c = Some g →
  Authz.SetChannelOverride chs "user" ts relation effect w = (Ok tt, w') →
  overrides_wf w'.(db) ∧
  (effect = "allow" ∧ ChannelAuthorized w'.(db) t ch name ∨
   effect = "deny" ∧
     (ChannelAuthorized w'.(db) t ch name ↔ IsOwner w.(db) t g ∨ IsAdmin w.(db) t g)).
Proof.
  intros Hw Hwf Howf Hch Ht Hrel Hp Hn Hc Hd Hg Hrun.
  refine (wpd_run _ (λ o d', o = Ok tt → overrides_wf d' ∧
    (effect = "allow" ∧ ChannelAuthorized d' t ch name ∨ effect = "deny" ∧
     (ChannelAuthorized d' t ch name ↔ IsOwner w.(db) t g ∨ IsAdmin w.(db) t g)))
    w _ w' _ Hrun eq_refl).
  eapply wpd_SetChannelOverride; [done..| |done].
  intros d' Htt Heff Ho _. split; [by eapply overridden_wf|].
  pose proof Ho as (Hgs & Hrs & Hrms & Hps & Hrps & Hcs & _).
  assert (∀ e, UserOverride d' ch t name e ↔ e = effect) as Huser
    by (intros e; by eapply overridden_user).
  assert (IsOwner d' t g ↔ IsOwner w.(db) t g) as Hown by (unfold IsOwner; by rewrite Hgs).
  assert (IsAdmin d' t g ↔ IsAdmin w.(db) t g) as Hadm
    by (unfold IsAdmin, HoldsRole, Grants; by rewrite Hrs, Hrms, Hps, Hrps).
  rewrite (ChannelAuthorized_at d' t ch name c) by (by rewrite ?Hcs). rewrite Hg. simpl.
  rewrite !Huser, Hown, Hadm. destruct Heff as [-> | ->]; [left|right]; split; [done| |done|].
  - right; right. split; [done|by left].
  - tauto.
Qed.

(** ** What the handlers guard, and what they do not *)

(** Only guild channels are guarded.  For a live channel without a guild
    [DeleteChannel] and [UpdateChannel] check neither a permission nor
    membership: any caller, even one who is not in the conversation, renames
    and deletes it. *)
Theorem DM_channels_are_unguarded lpb caller c ch name w :
  fault_free → w.(db).(channels) !! c = Some ch → c_deleted ch = false → c_guild_id ch = None →
  (ChannelService.DeleteChannel lpb caller (uuid_print c) w).1 = Ok tt ∧
  live c_deleted ((ChannelService.DeleteChannel lpb caller (uuid_print c) w).2.(db).(channels) !! c)
    = None ∧
  ∃ row, (ChannelService.UpdateChannel lpb caller (uuid_print c) (Some name) None None None w).1
           = Ok row ∧ c_name row = name ∧
    (ChannelService.UpdateChannel lpb caller (uuid_print c) (Some name) None None None w)
      .2.(db).(channels) !! c = Some row.
Proof.
  intros Hff Hc Hd Hg. pose proof (fault_free_not_can_fail Hff) as Hno.
  assert (wpd (ChannelService.DeleteChannel lpb caller (uuid_print c))
    (λ o d', o = Ok tt ∧ live c_deleted (d'.(channels) !! c) = None) w.(db)) as Hdel.
  { unfold ChannelService.DeleteChannel.
    apply wpd_bind, wpd_parseUUID; [|by rewrite uuid_parse_print].
    intros c' Hc'. rewrite uuid_parse_print in Hc'. injection Hc' as <-.
    apply wpd_bind, wpd_on_err, wpd_one;
      [|intros E; by rewrite Hc in E; simpl in E; rewrite Hd in E|by intros ?%Hno].
    intros row Hrow. rewrite Hc in Hrow. simpl in Hrow. rewrite Hd in Hrow. injection Hrow as <-.
    unfold ChannelService.manage_gate. rewrite Hg. apply wpd_bind, wpd_ret.
    assert (∀ ids, wpd (_ ← Queries.DeleteChannel c ?> ErrorfW "failed to delete channel: %w";
        _ ← mret tt;
        when (bool_decide (None = None (A:=uuid)) && (Z.eqb (c_type ch) 5 || Z.eqb (c_type ch) 6))
          (ChannelService.publishDMChannelEvent lpb CHANNEL_LIFECYCLE_DELETE ch ids))
      (λ o d', o = Ok tt ∧ live c_deleted (d'.(channels) !! c) = None) w.(db)) as Htail.
    { intros ids. apply wpd_bind, wpd_on_err. unfold Queries.DeleteChannel.
      apply wpd_sql; [|by intros ?%Hno]. intros t _. split; [|by intros ?%Hno].
      assert (live c_deleted (alter (channel_deleted t) c w.(db).(channels) !! c) = None)
        by by rewrite lookup_alter_eq, Hc.
      apply wpd_bind, wpd_ret. unfold when. destruct (_ && _);
        [by apply wpd_publishDMChannelEvent|by apply wpd_ret]. }
    cbv zeta. apply wpd_bind. destruct (_ && _); [|apply wpd_ret, Htail].
    unfold ChannelService.dmChannelMemberIDs, Queries.GetDMChannelMembers.
    apply wpd_bind, wpd_try, wpd_query; [apply wpd_ret, Htail|by intros ?%Hno]. }
  assert (wpd (ChannelService.UpdateChannel lpb caller (uuid_print c) (Some name) None None None)
    (λ o d', ∃ row, o = Ok row ∧ c_name row = name ∧ d'.(channels) !! c = Some row) w.(db)) as Hupd.
  { unfold ChannelService.UpdateChannel.
    apply wpd_bind, wpd_parseUUID; [|by rewrite uuid_parse_print].
    intros c' Hc'. rewrite uuid_parse_print in Hc'. injection Hc' as <-.
    apply wpd_bind, wpd_on_err, wpd_one;
      [|intros E; by rewrite Hc in E; simpl in E; rewrite Hd in E|by intros ?%Hno].
    intros row Hrow. rewrite Hc in Hrow. simpl in Hrow. rewrite Hd in Hrow. injection Hrow as <-.
    unfold ChannelService.manage_gate. rewrite Hg. apply wpd_bind, wpd_ret, wpd_bind, wpd_ret.
    apply wpd_bind, wpd_on_err. unfold Queries.UpdateChannel. apply wpd_sql; [|by intros ?%Hno].
    intros t n. simpl. rewrite Hc. split; [|by intros ?%Hno]. rewrite Hg.
    apply wpd_bind, wpd_ret, wpd_ret. eexists. split; [done|]. split; [done|].
    simpl. by rewrite lookup_insert_eq. }
  destruct (Hdel w eq_refl) as [H1 H2]. split; [done|]. split; [done|]. exact (Hupd w eq_refl).
Qed.
End Overrides.

(** * Concrete instances *)
#[local] Existing Instance demo_wired.
#[local] Existing Instance demo_uuid.

Definition channels_demo_db : Db :=
  with_users (list_to_map ((λ u, (u, mkUser u "" "" "" "" "" "" 0 0 true false "" "")) <$> [1; 3]%positive)) demo_db.
Definition channels_demo_world : World := with_db channels_demo_db empty_world.

Lemma channels_demo_wf : channels_wf channels_demo_db.
Proof. intros c ch H. revert c ch H. check_rows (λ (c : uuid) ch, bool_decide (c_id ch = c)). Qed.

Lemma CreateDMChannel_get_or_create_witness :
  (ChannelService.CreateDMChannel true (uuid_print 1) [uuid_print 3] channels_demo_world).2.(db)
    = channels_demo_db.
Proof.
  refine (proj1 (proj2 (CreateDMChannel_get_or_create true 1 3 channels_demo_world demo_fault_free
    channels_demo_wf _ eq_refl eq_refl)) _).
  - intros n. apply eq_None_not_Some. intros [ch Hch]. revert Hch.
    assert (∀ k (c : Channel), channels_demo_db.(channels) !! k = Some c → (k < 1000)%positive) as Hall.
    { intros k c Hk. apply Pos.ltb_lt. revert k c Hk.
      check_rows (λ (k : uuid) (c : Channel), bool_decide (k <? 1000 = true)%positive). }
    intros Hch. specialize (Hall _ _ Hch). simpl in Hall. lia.
  - exists (mkChannel 10 None "" 5 "" 0 None 0 false 0). by vm_compute.
Defined.

Lemma SetChannelOverride_decides_witness :
  ∃ w', Authz.SetChannelOverride (uuid_print 9) "user" (uuid_print 3) "can_send_messages" "allow"
          demo_world = (Ok tt, w') ∧ ChannelAuthorized w'.(db) 3 9 "SEND_MESSAGES".
Proof.
  destruct (Authz.SetChannelOverride (uuid_print 9) "user" (uuid_print 3) "can_send_messages" "allow"
    demo_world) as [o w'] eqn:E.
  assert (o = Ok tt) as -> by (by vm_compute in E; injection E).
  exists w'. split; [done|].
  assert (authz_wired = true) as Hwired by reflexivity.
  pose proof (SetChannelOverride_decides (uuid_print 9) (uuid_print 3) "can_send_messages" "allow"
    demo_world w' 9 3 2 (mkChannel 9 (Some 2%positive) "general" 0 "" 0 None 0 false 0)
    "SEND_MESSAGES" 1 (mkPermission 1 "SEND_MESSAGES") Hwired demo_permissions_wf demo_overrides_wf)
    as H.
  specialize (H eq_refl eq_refl eq_refl eq_refl eq_refl eq_refl eq_refl eq_refl E).
  destruct H as [_ [[_ H]|[H _]]]; [exact H|discriminate H].
Defined.

Lemma DM_channels_are_unguarded_witness :
  (ChannelService.DeleteChannel true (uuid_print 4) (uuid_print 10) demo_world).1 = Ok tt.
Proof.
  apply (DM_channels_are_unguarded true (uuid_print 4) 10 (mkChannel 10 None "" 5 "" 0 None 0 false 0)
           "x" demo_world); [exact demo_fault_free|reflexivity..].
Defined.
