(* ===== verification/Scylla.v ===== *)
(** * Scylla: the CQL statements of the message store

    One definition per statement of [src/gen/scylladb/message.go] that the
    message repository runs, on the tables of
    [src/db/scylla/schema/000001_init.cql].  A CQL [INSERT] and [UPDATE] both
    write the cells they name and create the row if there is none; [DELETE] of
    a partition removes all its rows; reading a missing row is
    [gocql.ErrNotFound].  The server refuses a bound TIMEUUID that is not a
    version 1 UUID, an INT out of the 32-bit range and a LIMIT that is not
    positive; TIMESTAMP cells keep milliseconds; an empty set is stored as
    null. *)
From S2P Require Import Prelude Realtime Store.

(** ** Cells *)
Definition cql_timestamp (t : time) : time := (1000 * (t `div` 1000))%Z.
Definition cql_set (l : list uuid) : option (list uuid) :=
  match l with [] => None | _ => Some (elements (list_to_set l : gset uuid)) end.
Definition cql_int (n : Z) : bool := (Z.leb (-2147483648) n && Z.leb n max_int32)%Z.
Definition cql_limit (n : Z) : bool := (Z.ltb 0 n && Z.leb n max_int32)%Z.

(** [UPDATE]s of single cells of a [messages] row. *)
Definition empty_message (channel_id id : uuid) : Messages :=
  mkMessages (Some channel_id) (Some id) None None None None None None None None None None None
    None None.
Definition set_content (content : string) (edited_at : time) (m : Messages) : Messages :=
  mkMessages (m_channel_id m) (m_id m) (m_author_id m) (Some content) (m_type m)
    (m_reply_to_id m) (m_pinned m) (m_deleted m) (Some edited_at) (m_updated_at m)
    (m_created_at m) (m_forwarded_from_channel_id m) (m_forwarded_from_message_id m)
    (m_forwarded_from_author_id m) (m_mention_user_ids m).
Definition set_deleted (updated_at : time) (m : Messages) : Messages :=
  mkMessages (m_channel_id m) (m_id m) (m_author_id m) (m_content m) (m_type m)
    (m_reply_to_id m) (m_pinned m) (Some true) (m_edited_at m) (Some updated_at)
    (m_created_at m) (m_forwarded_from_channel_id m) (m_forwarded_from_message_id m)
    (m_forwarded_from_author_id m) (m_mention_user_ids m).
Definition set_pinned (pinned : bool) (m : Messages) : Messages :=
  mkMessages (m_channel_id m) (m_id m) (m_author_id m) (m_content m) (m_type m)
    (m_reply_to_id m) (Some pinned) (m_deleted m) (m_edited_at m) (m_updated_at m)
    (m_created_at m) (m_forwarded_from_channel_id m) (m_forwarded_from_message_id m)
    (m_forwarded_from_author_id m) (m_mention_user_ids m).

Definition upsert_message (channel_id id : uuid) (f : Messages → Messages) (c : Cass) : Cass :=
  with_messages
    (<[(channel_id, id) := f (default (empty_message channel_id id)
                                (c.(messages) !! (channel_id, id)))]> c.(messages)) c.

Record CreatemessageParams := mkCreatemessageParams {
  cm_ChannelId : uuid; cm_Id : uuid; cm_AuthorId : uuid; cm_Content : string; cm_Type : Z;
  cm_ReplyToId : uuid; cm_Pinned : bool; cm_CreatedAt : time;
  cm_ForwardedFromChannelId : uuid; cm_ForwardedFromMessageId : uuid;
  cm_ForwardedFromAuthorId : uuid; cm_MentionUserIds : list uuid
}.

(** The cells an insert writes over those of the row [m]. *)
Definition inserted_message (arg : CreatemessageParams) (m : Messages) : Messages :=
  mkMessages (m_channel_id m) (m_id m) (Some (cm_AuthorId arg)) (Some (cm_Content arg))
    (Some (cm_Type arg)) (Some (cm_ReplyToId arg)) (Some (cm_Pinned arg)) (m_deleted m)
    (m_edited_at m) (m_updated_at m) (Some (cql_timestamp (cm_CreatedAt arg)))
    (Some (cm_ForwardedFromChannelId arg)) (Some (cm_ForwardedFromMessageId arg))
    (Some (cm_ForwardedFromAuthorId arg)) (cql_set (cm_MentionUserIds arg)).

Record GetreactionsRow := mkGetreactionsRow { gr_Emoji : string; gr_UserId : uuid }.
Record GetreadstateRow := mkGetreadstateRow {
  gs_MentionCount : Z; gs_LastReadMessageId : uuid
}.

Module Scylla.
Section Statements.
Context `{Env} `{!CqlTypes}.

Definition invalid {A} : error + A := inl (Driver InvalidRequest).

(** A statement with [ids] bound to TIMEUUID columns and [ok] for its other
    bound values. *)
Definition exec (ids : list uuid) (ok : bool) (f : Cass → Cass) : GoM World unit :=
  cql (λ _ _ c, if forallb is_timeuuid ids && ok then inr (tt, f c) else invalid).
Definition select {A} (ids : list uuid) (ok : bool) (f : Cass → error + A) : GoM World A :=
  cql (λ _ _ c, if forallb is_timeuuid ids && ok then
                  match f c with inl e => inl e | inr a => inr (a, c) end
                else invalid).

(** ** messages *)
Definition Createmessage (arg : CreatemessageParams) : GoM World unit :=
  exec [cm_Id arg] (cql_int (cm_Type arg))
    (upsert_message (cm_ChannelId arg) (cm_Id arg) (inserted_message arg)).

Definition Getmessage (channel_id id : uuid) : GoM World Messages :=
  select [id] true (λ c,
    match c.(messages) !! (channel_id, id) with
    | Some m => inr m
    | None => inl (Driver NotFound)
    end).

Definition Updatemessagecontent (content : string) (edited_at : time) (channel_id id : uuid) :
    GoM World unit :=
  exec [id] true (upsert_message channel_id id (set_content content (cql_timestamp edited_at))).

Definition Deletemessage (updated_at : time) (channel_id id : uuid) : GoM World unit :=
  exec [id] true (upsert_message channel_id id (set_deleted (cql_timestamp updated_at))).

Definition Setpinned (pinned : bool) (channel_id id : uuid) : GoM World unit :=
  exec [id] true (upsert_message channel_id id (set_pinned pinned)).

(** The rows of a channel that satisfy [P], newest first: the clustering order. *)
Definition newer (x y : uuid * Messages) : Prop := (timeuuid_rank y.1 ≤ timeuuid_rank x.1)%N.
#[global] Instance newer_dec : RelDecision newer.
Proof. intros x y. unfold newer. apply _. Defined.
Definition channel_rows (c : Cass) (channel_id : uuid) : list (uuid * Messages) :=
  omap (λ '((ch, id), m), if bool_decide (ch = channel_id) then Some (id, m) else None)
    (map_to_list c.(messages)).
Definition newest_first (c : Cass) (channel_id : uuid) : list (uuid * Messages) :=
  merge_sort newer (channel_rows c channel_id).
Definition before_id (id : uuid) (r : uuid * Messages) : bool :=
  N.ltb (timeuuid_rank r.1) (timeuuid_rank id).
Definition after_id (id : uuid) (r : uuid * Messages) : bool :=
  N.ltb (timeuuid_rank id) (timeuuid_rank r.1).
Definition matching (P : uuid * Messages → bool) (l : list (uuid * Messages)) : list Messages :=
  (List.filter P l).*2.

Definition Listmessagesbefore (channel_id id : uuid) (limit : Z) : GoM World (list Messages) :=
  select [id] (cql_limit limit) (λ c,
    inr (take (Z.to_nat limit) (matching (before_id id) (newest_first c channel_id)))).
Definition Listmessagesafter (channel_id id : uuid) (limit : Z) : GoM World (list Messages) :=
  select [id] (cql_limit limit) (λ c,
    inr (take (Z.to_nat limit) (matching (after_id id) (rev (newest_first c channel_id))))).
Definition Listrecentmessages (channel_id : uuid) (limit : Z) : GoM World (list Messages) :=
  select [] (cql_limit limit) (λ c,
    inr (take (Z.to_nat limit) (newest_first c channel_id).*2)).
Definition Countunreadmessages (channel_id id : uuid) : GoM World (list Messages) :=
  select [id] true (λ c, inr (matching (after_id id) (newest_first c channel_id))).
Definition Countallmessages (channel_id : uuid) : GoM World (list Messages) :=
  select [] true (λ c, inr (newest_first c channel_id).*2).
(** [ALLOW FILTERING] compares the cell; a null [updated_at] never matches. *)
Definition updated_after (t : time) (r : uuid * Messages) : bool :=
  match m_updated_at r.2 with Some u => Z.ltb (cql_timestamp t) u | None => false end.
Definition Getmessagessince (channel_id : uuid) (updated_at : time) : GoM World (list Messages) :=
  select [] true (λ c, inr (matching (updated_after updated_at) (newest_first c channel_id))).

(** ** message_attachments *)
Definition Addmessageattachment (channel_id message_id id : uuid)
    (filename url content_type : string) (size : Z) : GoM World unit :=
  exec [message_id] true (λ c,
    with_message_attachments
      (<[(channel_id, message_id, id) :=
           mkMessageAttachments (Some channel_id) (Some message_id) (Some id) (Some filename)
             (Some url) (Some content_type) (Some size)]> c.(message_attachments)) c).

Definition Getmessageattachments (channel_id message_id : uuid) :
    GoM World (list MessageAttachments) :=
  select [message_id] true (λ c,
    inr (rows (λ k _, bool_decide (k.1 = (channel_id, message_id))) c.(message_attachments))).

Definition Deletemessageattachments (channel_id message_id : uuid) : GoM World unit :=
  exec [message_id] true (λ c,
    with_message_attachments
      (filter (λ kv, kv.1.1 ≠ (channel_id, message_id)) c.(message_attachments)) c).

(** ** message_reactions *)
Definition Addreaction (channel_id message_id : uuid) (emoji : string) (user_id : uuid) :
    GoM World unit :=
  exec [message_id] true (λ c,
    with_message_reactions
      (<[(channel_id, message_id, emoji, user_id) :=
           mkMessageReactions (Some channel_id) (Some message_id) (Some emoji) (Some user_id)]>
         c.(message_reactions)) c).

Definition Removereaction (channel_id message_id : uuid) (emoji : string) (user_id : uuid) :
    GoM World unit :=
  exec [message_id] true (λ c,
    with_message_reactions
      (delete (channel_id, message_id, emoji, user_id) c.(message_reactions)) c).

(** The reactions of one message: the key columns [emoji], [user_id]. *)
Definition reactions_of (c : Cass) (channel_id message_id : uuid) : list GetreactionsRow :=
  omap (λ '((ch, id, emoji, user_id), _),
          if bool_decide ((ch, id) = (channel_id, message_id))
          then Some (mkGetreactionsRow emoji user_id) else None)
    (map_to_list c.(message_reactions)).
Definition Getreactions (channel_id message_id : uuid) : GoM World (list GetreactionsRow) :=
  select [message_id] true (λ c, inr (reactions_of c channel_id message_id)).

Definition Deletemessagereactions (channel_id message_id : uuid) : GoM World unit :=
  exec [message_id] true (λ c,
    with_message_reactions
      (filter (λ kv, kv.1.1.1 ≠ (channel_id, message_id)) c.(message_reactions)) c).

(** ** read_states *)
Definition Getreadstate (user_id channel_id : uuid) : GoM World GetreadstateRow :=
  select [] true (λ c,
    match c.(read_states) !! (user_id, channel_id) with
    | Some r => inr (mkGetreadstateRow (default 0%Z (rs_mention_count r))
                       (default zero_uuid (rs_last_read_message_id r)))
    | None => inl (Driver NotFound)
    end).

Definition Upsertreadstate (user_id channel_id last_read_message_id : uuid) (mention_count : Z) :
    GoM World unit :=
  exec [last_read_message_id] (cql_int mention_count) (λ c,
    with_read_states
      (<[(user_id, channel_id) :=
           mkReadStates (Some user_id) (Some channel_id) (Some last_read_message_id)
             (Some mention_count)]> c.(read_states)) c).

Definition Getuserreadstates (user_id : uuid) : GoM World (list ReadStates) :=
  select [] true (λ c, inr (rows (λ k _, bool_decide (k.1 = user_id)) c.(read_states))).

(** ** message_edit_history *)
Definition Saveedithistory (channel_id message_id : uuid) (old_content : string)
    (edited_at : time) : GoM World unit :=
  exec [message_id] true (λ c,
    with_message_edit_history
      (<[(channel_id, message_id, cql_timestamp edited_at) :=
           mkMessageEditHistory (Some channel_id) (Some message_id) (Some old_content)
             (Some (cql_timestamp edited_at))]> c.(message_edit_history)) c).

Definition later (x y : time * MessageEditHistory) : Prop := (y.1 ≤ x.1)%Z.
#[global] Instance later_dec : RelDecision later.
Proof. intros x y. unfold later. apply _. Defined.
Definition history_of (c : Cass) (channel_id message_id : uuid) : list MessageEditHistory :=
  (merge_sort later
     (omap (λ '((ch, id, t), h),
              if bool_decide ((ch, id) = (channel_id, message_id)) then Some (t, h) else None)
        (map_to_list c.(message_edit_history)))).*2.
Definition Getedithistory (channel_id message_id : uuid) : GoM World (list MessageEditHistory) :=
  select [message_id] true (λ c, inr (history_of c channel_id message_id)).

Definition Deleteedithistory (channel_id message_id : uuid) : GoM World unit :=
  exec [message_id] true (λ c,
    with_message_edit_history
      (filter (λ kv, kv.1.1 ≠ (channel_id, message_id)) c.(message_edit_history)) c).
End Statements.
End Scylla.
