(* ===== verification/Mentions.v ===== *)
(** * Mentions: normalising mention lists and spotting @everyone

    Models the pure helpers of [src/internal/features/message/service.go]:
    [dedupMentions], [containsEveryoneMention], [indexOf] and [isAlnum], with
    the theorems that say what they compute. *)
From S2P Require Import Prelude.

Module Mentions.
(** [dedupMentions]: [seen] is the map of the loop, [out] its output. *)
Fixpoint dedup_loop (authorID : string) (ids : list string) (seen : gset string) : list string :=
  match ids with
  | [] => []
  | id :: ids =>
      if string_eqb id "" || string_eqb id authorID || bool_decide (id ∈ seen)
      then dedup_loop authorID ids seen
      else id :: dedup_loop authorID ids ({[id]} ∪ seen)
  end.
Definition dedupMentions (ids : list string) (authorID : string) : list string :=
  dedup_loop authorID ids ∅.

Definition isAlnum (b : ascii) : bool :=
  let n := nat_of_ascii b in
  (48 <=? n) && (n <=? 57) || (65 <=? n) && (n <=? 90) || (97 <=? n) && (n <=? 122) || (n =? 95).

(** [indexOf]; [None] is the result -1.  [fuel] bounds the iterations. *)
Fixpoint index_loop (s sub : string) (fuel i : nat) : option nat :=
  match fuel with
  | O => None
  | S fuel =>
      if i + String.length sub <=? String.length s then
        if string_eqb (substring i (String.length sub) s) sub then Some i
        else index_loop s sub fuel (S i)
      else None
  end.
Definition indexOf (s sub : string) (from : nat) : option nat :=
  if String.length s <=? from then None else index_loop s sub (S (String.length s)) from.

(** [isAlnum(content[i])]; the callers only index inside the string. *)
Definition alnum_at (content : string) (i : nat) : bool :=
  match String.get i content with Some c => isAlnum c | None => false end.

Fixpoint mention_loop (content tag : string) (fuel idx : nat) : bool :=
  match fuel with
  | O => false
  | S fuel =>
      match indexOf content tag idx with
      | None => false
      | Some i =>
          let ends := i + String.length tag in
          if ((ends =? String.length content) || negb (alnum_at content ends)) &&
             ((i =? 0) || negb (alnum_at content (i - 1)))
          then true
          else mention_loop content tag fuel ends
      end
  end.
Definition everyone_tags : list string := ["@everyone"; "@here"].
Definition containsEveryoneMention (content : string) : bool :=
  existsb (λ tag, mention_loop content tag (S (String.length content)) 0) everyone_tags.
End Mentions.

Import Mentions.

(** ** dedupMentions *)
Lemma dedup_loop_spec authorID ids seen :
  NoDup (dedup_loop authorID ids seen) ∧ sublist (dedup_loop authorID ids seen) ids ∧
  ∀ id, id ∈ dedup_loop authorID ids seen ↔ id ∈ ids ∧ id ≠ "" ∧ id ≠ authorID ∧ id ∉ seen.
Proof.
  revert seen. induction ids as [|x ids IH]; intros seen.
  { split_and!; [constructor|done|]. set_solver. }
  cbn [dedup_loop]. unfold string_eqb.
  destruct (_ || _ || _) eqn:E.
  - destruct (IH seen) as (Hn & Hs & Hin). split_and!; [done|by constructor|].
    intros id. rewrite Hin, elem_of_cons.
    apply orb_true_iff in E as [[E|E]%orb_true_iff|E]; apply bool_decide_eq_true in E; set_solver.
  - apply orb_false_iff in E as [[E1 E2]%orb_false_iff E3].
    apply bool_decide_eq_false in E1, E2, E3.
    destruct (IH ({[x]} ∪ seen)) as (Hn & Hs & Hin). split_and!.
    + constructor; [|done]. rewrite Hin. set_solver.
    + by constructor.
    + intros id. rewrite !elem_of_cons, Hin, not_elem_of_union, not_elem_of_singleton.
      destruct (decide (id = x)) as [->|]; naive_solver.
Qed.

(** [dedupMentions] keeps exactly the mentioned users: every non-empty
    identifier of the list other than the author, each once, in the order in
    which the client listed them. *)
Theorem dedupMentions_spec ids authorID :
  NoDup (dedupMentions ids authorID) ∧ sublist (dedupMentions ids authorID) ids ∧
  ∀ id, id ∈ dedupMentions ids authorID ↔ id ∈ ids ∧ id ≠ "" ∧ id ≠ authorID.
Proof.
  destruct (dedup_loop_spec authorID ids ∅) as (Hn & Hs & Hin). split_and!; [done..|].
  intros id. unfold dedupMentions. rewrite Hin. set_solver.
Qed.

(** ** indexOf *)
Definition occurs_at (s sub : string) (i : nat) : Prop :=
  i + String.length sub ≤ String.length s ∧ substring i (String.length sub) s = sub.

Lemma index_loop_spec s sub fuel i :
  String.length s < i + fuel →
  match index_loop s sub fuel i with
  | Some j => i ≤ j ∧ occurs_at s sub j ∧ ∀ k, i ≤ k < j → ¬ occurs_at s sub k
  | None => ∀ k, i ≤ k → ¬ occurs_at s sub k
  end.
Proof.
  revert i. induction fuel as [|fuel IH]; intros i Hf; cbn [index_loop].
  { intros k Hk [Hl _]. lia. }
  destruct (Nat.leb_spec (i + String.length sub) (String.length s)) as [Hl|Hl].
  - unfold string_eqb. case_bool_decide as Hs.
    + split_and!; [done|done|]. lia.
    + specialize (IH (S i) ltac:(lia)). destruct (index_loop _ _ _ _) as [j|].
      * destruct IH as (? & ? & Hlt). split_and!; [lia|done|]. intros k Hk [? Hk'].
        destruct (decide (k = i)) as [->|]; [done|]. apply (Hlt k); [lia|by split].
      * intros k Hk Hocc. destruct (decide (k = i)) as [->|]; [by destruct Hocc|].
        apply (IH k); [lia|done].
  - intros k Hk [? _]. lia.
Qed.

Lemma indexOf_spec s sub from :
  String.length sub ≠ 0 →
  match indexOf s sub from with
  | Some j => from ≤ j ∧ occurs_at s sub j ∧ ∀ k, from ≤ k < j → ¬ occurs_at s sub k
  | None => ∀ k, from ≤ k → ¬ occurs_at s sub k
  end.
Proof.
  intros Hsub. unfold indexOf. destruct (Nat.leb_spec (String.length s) from).
  - intros k Hk [? _]. lia.
  - apply index_loop_spec. lia.
Qed.

(** The characters of an occurrence are those of the pattern. *)
Lemma get_substring s i n k :
  k < n → i + n ≤ String.length s → String.get k (substring i n s) = String.get (i + k) s.
Proof.
  revert s n k. induction i as [|i IH]; intros [|c s] n k Hk Hl; simpl in *; try lia.
  - revert k Hk s c Hl. induction n as [|n IHn]; [lia|]. intros [|k] Hk s c Hl; [done|].
    simpl. destruct s as [|c' s]; simpl in *; [lia|]. apply IHn; simpl; lia.
  - apply IH; lia.
Qed.

Lemma occurs_at_get s sub i k :
  occurs_at s sub i → k < String.length sub → String.get (i + k) s = String.get k sub.
Proof. intros [Hl Hs] Hk. by rewrite <- (get_substring s i _ k Hk Hl), Hs. Qed.

(** ** containsEveryoneMention *)
Definition mention_at (content tag : string) (i : nat) : Prop :=
  occurs_at content tag i ∧
  (i + String.length tag = String.length content ∨ alnum_at content (i + String.length tag) = false) ∧
  (i = 0 ∨ alnum_at content (i - 1) = false).

(** A pattern whose first character does not come back in it. *)
Definition starts_fresh (tag : string) : Prop :=
  ∀ k, 0 < k < String.length tag → String.get k tag ≠ String.get 0 tag.

Lemma occurs_at_disjoint s tag i j :
  starts_fresh tag → occurs_at s tag i → occurs_at s tag j → i ≤ j → i = j ∨ i + String.length tag ≤ j.
Proof.
  intros Hfresh Hi Hj Hle. destruct (decide (i = j)) as [|Hne]; [by left|].
  destruct (decide (i + String.length tag ≤ j)) as [|Hlt]; [by right|]. exfalso.
  apply (Hfresh (j - i)); [lia|].
  rewrite <- (occurs_at_get s tag i (j - i) Hi) by lia.
  rewrite <- (occurs_at_get s tag j 0 Hj) by lia. f_equal. lia.
Qed.

Lemma mention_loop_spec content tag fuel idx :
  String.length tag ≠ 0 → starts_fresh tag → String.length content < idx + fuel →
  mention_loop content tag fuel idx = true ↔ ∃ i, idx ≤ i ∧ mention_at content tag i.
Proof.
  intros Htag Hfresh. revert idx. induction fuel as [|fuel IH]; intros idx Hf; cbn [mention_loop].
  { split; [done|]. intros (i & Hi & [Hl _] & _). lia. }
  pose proof (indexOf_spec content tag idx Htag) as Hidx.
  destruct (indexOf content tag idx) as [i|].
  2:{ split; [done|]. intros (i & Hi & Hocc & _). by destruct (Hidx i Hi). }
  destruct Hidx as (Hi & Hocc & Hfirst). cbv zeta. destruct (_ && _) eqn:E.
  - split; [|done]. intros _. exists i. split; [done|]. split; [done|].
    apply andb_true_iff in E as [[E1|E1]%orb_true_iff [E2|E2]%orb_true_iff];
      rewrite ?Nat.eqb_eq, ?negb_true_iff in *; auto.
  - rewrite IH by (destruct Hocc; lia). split.
    + intros (k & Hk & Hm). exists k. split; [lia|done].
    + intros (k & Hk & Hm). exists k. split; [|done].
      destruct (decide (k < i)) as [Hlt|]; [by destruct (Hfirst k ltac:(lia) (proj1 Hm))|].
      destruct (occurs_at_disjoint content tag i k Hfresh Hocc (proj1 Hm)) as [<-|?]; [lia| |done].
      exfalso. destruct Hm as (_ & H1 & H2). apply andb_false_iff in E.
      destruct E as [[E1 E2]%orb_false_iff|[E1 E2]%orb_false_iff];
        apply Nat.eqb_neq in E1; apply negb_false_iff in E2; naive_solver congruence.
Qed.

Lemma everyone_tags_fresh tag :
  tag ∈ everyone_tags → String.length tag ≠ 0 ∧ starts_fresh tag.
Proof.
  intros Htag. assert (∀ k, k < String.length tag → 0 < k → String.get k tag ≠ String.get 0 tag) as Hf.
  { repeat (apply elem_of_cons in Htag as [->|Htag]); [..|by apply not_elem_of_nil in Htag];
      intros k Hk H0; simpl in Hk; do 10 (destruct k as [|k]; [try lia; done|]); lia. }
  split; [|intros k [? ?]; by apply Hf].
  by repeat (apply elem_of_cons in Htag as [->|Htag]); [..|by apply not_elem_of_nil in Htag].
Qed.

(** C40: the scan that decides whether MENTION_EVERYONE is needed finds a
    mention exactly when there is one: "@everyone" or "@here" somewhere in the
    text, not preceded and not followed by a letter, a digit or an underscore.
    Resuming the search behind a rejected occurrence loses none. *)
Theorem containsEveryoneMention_spec content :
  containsEveryoneMention content = true ↔
  ∃ tag i, tag ∈ everyone_tags ∧ mention_at content tag i.
Proof.
  unfold containsEveryoneMention. rewrite existsb_exists. split.
  - intros (tag & Hin%list_elem_of_In & Hm). destruct (everyone_tags_fresh tag Hin) as [??].
    apply mention_loop_spec in Hm as (i & _ & Hi); [eauto|done..|lia].
  - intros (tag & i & Hin & Hi). destruct (everyone_tags_fresh tag Hin) as [??].
    exists tag. split; [by apply list_elem_of_In|]. apply mention_loop_spec; [done..|lia|].
    exists i. split; [lia|done].
Qed.

Example mention_in_text : containsEveryoneMention "hi@everyone, and @here!" = true.
Proof. reflexivity. Qed.
Example mention_in_word : containsEveryoneMention "mail hi@everyone or @here_now" = false.
Proof. reflexivity. Qed.
