(* ===== verification/Message.v ===== *)
(** * Message: sending, editing, deleting and reading messages

    Models [src/internal/features/message/repository.go] (module
    [MessageRepo]), [service.go] and [model.go] (module [MessageService]).  The
    collaborators the service is given after construction are records of
    operations with the laws its theorems rely on; [None] is a nil interface
    value. *)
From S2P Require Import Prelude Realtime Store Queries Authz Scylla Mentions.

(** ** interface.go *)

(** Nothing but the interaction counter and the channel cache changed. *)
Definition silent (w w' : World) : Prop :=
  w'.(db) = w.(db) ∧ w'.(cass) = w.(cass) ∧ w'.(redis) = w.(redis) ∧ w'.(bus) = w.(bus).
#[global] Instance silent_preorder : PreOrder silent.
Proof.
  split; [done|]. intros x y z (H1 & H2 & H3 & H4) (H5 & H6 & H7 & H8).
  split_and!; congruence.
Qed.

(** [u] is listed as a current member of the DM channel [ch]. *)
Definition dm_member (d : Db) (ch u : uuid) : Prop :=
  ∃ k row, d.(dm_channel_members) !! (ch, k) = Some row ∧ dm_deleted row = false ∧ dm_user_id row = u.

Record DMChannelResolver `{!UuidText} := {
  dmr_GetOrCreateDMChannel : string → list string → GoM World string;
  dmr_cass : ∀ u rs, steps (on_cass eq) (dmr_GetOrCreateDMChannel u rs)
}.
Record BlockChecker `{!UuidText} := {
  bc_IsBlocked : string → string → GoM World bool;
  bc_silent : ∀ u t, steps silent (bc_IsBlocked u t);
  bc_total : ∀ u t w, ∃ b, (bc_IsBlocked u t w).1 = Ok b
}.
Record DMChannelLister `{!UuidText} := {
  dml_GetUserDMChannelIDs : string → GoM World (list string);
  dml_GetDMChannelMemberIDs : string → GoM World (list string);
  dml_user_silent : ∀ u, steps silent (dml_GetUserDMChannelIDs u);
  dml_members_silent : ∀ c, steps silent (dml_GetDMChannelMemberIDs c);
  dml_user_no_panic : ∀ u w, (dml_GetUserDMChannelIDs u w).1 ≠ Panic;
  dml_members_no_panic : ∀ c w, (dml_GetDMChannelMemberIDs c w).1 ≠ Panic;
  dml_members : ∀ c w ms, (dml_GetDMChannelMemberIDs c w).1 = Ok ms →
    ∃ ch, uuid_parse c = Some ch ∧
      ∀ m, m ∈ ms ↔ ∃ u, m = uuid_print u ∧ dm_member w.(db) ch u;
  dml_members_later : ∀ c, steps later (dml_GetDMChannelMemberIDs c)
}.
Record MediaResolver `{!UuidText} := {
  mr_ResolveAttachment : string → string → GoM World (string * string * string * Z);
  mr_silent : ∀ f u, steps silent (mr_ResolveAttachment f u);
  mr_no_panic : ∀ f u w, (mr_ResolveAttachment f u w).1 ≠ Panic
}.

(** ** model.go *)
Record ReactionCount := mkReactionCount {
  rc_user_id : list string; rc_Emoji : string; rc_Count : Z; rc_Me : bool
}.
Definition stringValue (v : option string) : string := default "" v.
Definition boolValue (v : option bool) : bool := default false v.
Definition int64Value (v : option Z) : Z := default 0%Z v.
(** The zero [time.Time], 1 January of year 1. *)
Definition zero_time : time := (-62135596800000000)%Z.
Definition timeValue (v : option time) : time := default zero_time v.
Definition uuidSliceValue (v : option (list uuid)) : list uuid := default [] v.

Module MessageRepo.
Section Repository.
Context `{Env} `{!UuidText} `{!CqlTypes}.

Definition uuidValue (v : option uuid) : uuid := default zero_uuid v.

Definition GetMessage (channelID messageID : uuid) : GoM World Messages :=
  msg ← Scylla.Getmessage channelID messageID;
  _ ← ensure (negb (boolValue (m_deleted msg))) (Driver NotFound);
  mret msg.

Definition DeleteMessage (channelID messageID : uuid) : GoM World unit :=
  t ← now;
  Scylla.Deletemessage t channelID messageID.

(** [err != nil && err != gocql.ErrNotFound]. *)
Definition IncrementMentionCount (userID channelID : uuid) : GoM World unit :=
  r ← try (Scylla.Getreadstate userID channelID);
  value ← match r with
          | inr v => mret v
          | inl e => if decide (e = Driver NotFound) then mret (mkGetreadstateRow 0 zero_uuid)
                     else fail e
          end;
  Scylla.Upsertreadstate userID channelID (gs_LastReadMessageId value) (gs_MentionCount value + 1).

Definition CascadeDeleteChildren (channelID messageID : uuid) : GoM World unit :=
  _ ← ignore (Scylla.Deletemessageattachments channelID messageID);
  _ ← ignore (Scylla.Deletemessagereactions channelID messageID);
  _ ← ignore (Scylla.Deleteedithistory channelID messageID);
  mret tt.

(** [fetchLimit := limit * 2; if fetchLimit < limit { fetchLimit = limit }]; the
    callers' limits are far from the 64-bit bounds. *)
Definition fetch_limit (limit : Z) : Z :=
  if Z.ltb (limit * 2) limit then limit else (limit * 2)%Z.

(** The loop that skips deleted rows, keeps the others that satisfy [keep] and
    breaks once [limit] are collected. *)
Fixpoint collect (keep : Messages → bool) (limit : Z) (results : list Messages)
    (ms : list Messages) : list Messages :=
  match ms with
  | [] => results
  | m :: ms =>
      if boolValue (m_deleted m) then collect keep limit results ms
      else if keep m then
        let results := results ++ [m] in
        if Z.leb limit (Z.of_nat (length results)) then results
        else collect keep limit results ms
      else collect keep limit results ms
  end.
Definition keep_all (_ : Messages) : bool := true.

Definition ListMessages (channelID : uuid) (before after : option uuid) (limit : Z) :
    GoM World (list Messages) :=
  smsg ← (match before, after with
          | Some b, _ => Scylla.Listmessagesbefore channelID b (fetch_limit limit)
          | None, Some a => Scylla.Listmessagesafter channelID a (fetch_limit limit)
          | None, None => Scylla.Listrecentmessages channelID (fetch_limit limit)
          end ?> ErrorfW "failed to list messages: %w");
  mret (collect keep_all limit [] smsg).

(** [emojiUsers[r.Emoji] = append(emojiUsers[r.Emoji], r.UserId)]. *)
Definition emoji_users (data : list GetreactionsRow) : gmap string (list uuid) :=
  fold_left (λ m r, <[gr_Emoji r := default [] (m !! gr_Emoji r) ++ [gr_UserId r]]> m) data ∅.
(** [for _, u := range users { append; if u == currentUserID { me = true; break } }]. *)
Fixpoint user_loop (currentUserID : uuid) (users : list uuid) (users_str : list string) :
    list string * bool :=
  match users with
  | [] => (users_str, false)
  | u :: users =>
      let users_str := users_str ++ [uuid_print u] in
      if decide (u = currentUserID) then (users_str, true)
      else user_loop currentUserID users users_str
  end.
(** [users_str := make([]string, len(users))]: as many empty strings. *)
Definition reaction_count (currentUserID : uuid) (e : string) (users : list uuid) : ReactionCount :=
  let r := user_loop currentUserID users (repeat "" (length users)) in
  mkReactionCount r.1 e (int32 (Z.of_nat (length users))) r.2.
(** Go ranges over a map in any order; the model takes the order of the table. *)
Definition GetReactions (channelID messageID currentUserID : uuid) : GoM World (list ReactionCount) :=
  data ← Scylla.Getreactions channelID messageID ?> ErrorfW "failed to get reactions: %w";
  mret ((λ '(e, us), reaction_count currentUserID e us) <$> map_to_list (emoji_users data)).

Definition UpsertReadState (userID channelID messageID : uuid) : GoM World unit :=
  Scylla.Upsertreadstate userID channelID messageID 0.

(** The counting loop: the count, and the identifier and creation time of the
    first row that is not deleted. *)
Definition count_live (data : list Messages) : Z * uuid * time :=
  let live := List.filter (λ m, negb (boolValue (m_deleted m))) data in
  match live with
  | [] => (0%Z, zero_uuid, zero_time)
  | m :: _ => (Z.of_nat (length live), uuidValue (m_id m), timeValue (m_created_at m))
  end.
Definition CountUnreadMessages (channelID afterMsgID : uuid) : GoM World (Z * uuid * time) :=
  data ← Scylla.Countunreadmessages channelID afterMsgID ?> ErrorfW "failed to count unread messages: %w";
  mret (count_live data).
Definition CountAllMessages (channelID : uuid) : GoM World (Z * uuid * time) :=
  data ← Scylla.Countallmessages channelID ?> ErrorfW "failed to count all messages: %w";
  mret (count_live data).

Definition ListMessagesAfter (channelID afterMsgID : uuid) (limit : Z) : GoM World (list Messages) :=
  data ← Scylla.Listmessagesafter channelID afterMsgID (fetch_limit limit)
           ?> ErrorfW "failed to list messages after: %w";
  mret (collect keep_all limit [] data).
Definition ListRecentMessages (channelID : uuid) (limit : Z) : GoM World (list Messages) :=
  data ← Scylla.Listrecentmessages channelID (fetch_limit limit)
           ?> ErrorfW "failed to list recent messages: %w";
  mret (collect keep_all limit [] data).

(** [strings.ToLower] is a parameter: its Unicode tables are not in the source. *)
Fixpoint contains (s sub : string) : bool :=
  HasPrefix s sub || match s with EmptyString => false | String _ s => contains s sub end.
Definition SearchMessages (ToLower : string → string) (channelID : uuid) (q : string)
    (limit : Z) : GoM World (list Messages) :=
  data ← Scylla.Listrecentmessages channelID (limit * 5) ?> ErrorfW "failed to search messages: %w";
  mret (collect (λ m, contains (ToLower (stringValue (m_content m))) (ToLower q)) limit [] data).

Definition GetThreadMessages (channelID parentID : uuid) (limit : Z) : GoM World (list Messages) :=
  let limit := if Z.leb limit 0 || Z.ltb 100 limit then 100%Z else limit in
  data ← Scylla.Listrecentmessages channelID (limit * 10)
           ?> ErrorfW "failed to list recent messages for thread: %w";
  mret (collect (λ m, bool_decide (uuidValue (m_reply_to_id m) = parentID)) limit [] data).

Definition BulkDeleteMessages (channelID : uuid) (messageIDs : list uuid) : GoM World Z :=
  for_fold messageIDs 0%Z (λ deleted msgID,
    r ← try (DeleteMessage channelID msgID);
    mret (match r with inr _ => (deleted + 1)%Z | inl _ => deleted end)).
End Repository.
End MessageRepo.

Module MessageService.
Definition ErrMessageNotFound : error := Sentinel "message.ErrMessageNotFound" "message not found".
Definition ErrInvalidUUID : error := Sentinel "message.ErrInvalidUUID" "invalid UUID format".
Definition ErrChannelRequired : error :=
  Sentinel "message.ErrChannelRequired" "channel_id is required".
Definition ErrContentRequired : error :=
  Sentinel "message.ErrContentRequired" "message content is required".
Definition ErrNotMessageAuthor : error :=
  Sentinel "message.ErrNotMessageAuthor" "you can only edit/delete your own messages".
Definition ErrEmojiRequired : error := Sentinel "message.ErrEmojiRequired" "emoji is required".
Definition ErrMessageRequired : error :=
  Sentinel "message.ErrMessageRequired" "message_id is required".
Definition ErrInsufficientPermissions : error :=
  Sentinel "message.ErrInsufficientPermissions" "insufficient permissions".
Definition ErrUserBlocked : error :=
  Sentinel "message.ErrUserBlocked" "cannot send message to a blocked user or a user who blocked you".
Definition ErrReplyParentNotFound : error :=
  Sentinel "message.ErrReplyParentNotFound" "reply target message not found or deleted".
Definition ErrEditWindowExpired : error :=
  Sentinel "message.ErrEditWindowExpired" "message is too old to edit".
Definition ErrForwardSourceNotFound : error :=
  Sentinel "message.ErrForwardSourceNotFound" "forwarded source message not found or deleted".
(** [24 * time.Hour] *)
Definition EditWindow : Z := (24 * 3600 * 1000000)%Z.

Definition message_not_found (_ : error) : error := ErrorfW "%w: %v" ErrMessageNotFound.

Record ForwardSource := mkForwardSource { fs_ChannelID : string; fs_MessageID : string }.
Record UnreadInfo := mkUnreadInfo {
  ui_ChannelID : string; ui_IsDM : bool; ui_SenderID : string; ui_LastReadMsgID : string;
  ui_UnreadCount : Z; ui_MentionCount : Z; ui_LastMessageID : string;
  ui_LastMessageTime : time; ui_RecentMessages : list Messages
}.

(** Field updates of the in-memory copies. *)
Definition with_deleted (m : Messages) : Messages :=
  mkMessages (m_channel_id m) (m_id m) (m_author_id m) (m_content m) (m_type m)
    (m_reply_to_id m) (m_pinned m) (Some true) (m_edited_at m) (m_updated_at m)
    (m_created_at m) (m_forwarded_from_channel_id m) (m_forwarded_from_message_id m)
    (m_forwarded_from_author_id m) (m_mention_user_ids m).
Definition set_emoji (emoji : string) (e : TextChannelEvent) : TextChannelEvent :=
  {| tce_type := tce_type e; tce_guild_id := tce_guild_id e; tce_channel_id := tce_channel_id e;
     tce_message_id := tce_message_id e; tce_author_id := tce_author_id e;
     tce_sender_id := tce_sender_id e; tce_content := tce_content e;
     tce_msg_type := tce_msg_type e; tce_pinned := tce_pinned e; tce_deleted := tce_deleted e;
     tce_emoji := emoji; tce_reply_to_id := tce_reply_to_id e; tce_edited_at := tce_edited_at e;
     tce_created_at := tce_created_at e; tce_attachments := tce_attachments e;
     tce_mention_user_ids := tce_mention_user_ids e; tce_reactions := tce_reactions e;
     tce_forwarded_from := tce_forwarded_from e |}.

(** The [Messages] that [SendMessage] returns: pointers into [create], the
    forwarding columns only set for a forward. *)
Definition sent_message (create : CreatemessageParams) (forwarded : bool) : Messages :=
  let fwd (u : uuid) := if forwarded then Some u else None in
  mkMessages (Some (cm_ChannelId create)) (Some (cm_Id create)) (Some (cm_AuthorId create))
    (Some (cm_Content create)) (Some (cm_Type create)) (Some (cm_ReplyToId create))
    (Some (cm_Pinned create)) (Some false) None None (Some (cm_CreatedAt create))
    (fwd (cm_ForwardedFromChannelId create)) (fwd (cm_ForwardedFromMessageId create))
    (fwd (cm_ForwardedFromAuthorId create)) (Some (cm_MentionUserIds create)).

Section Service.
Context `{Env} `{!UuidText} `{!CqlTypes}.
(** [s.lpb != nil] and the collaborators. *)
Variables (lpb : bool) (dmResolver : option DMChannelResolver)
  (blockChecker : option BlockChecker) (dmChannelList : option DMChannelLister)
  (media : option MediaResolver).

Definition gocqlParseUUID (s : string) (e : error) : GoM World uuid :=
  match uuid_parse s with Some u => mret u | None => fail e end.

Definition GetAttachments (channelID messageID : string) : GoM World (list MessageAttachments) :=
  chUUID ← gocqlParseUUID channelID ErrInvalidUUID;
  msgUUID ← gocqlParseUUID messageID ErrInvalidUUID;
  Scylla.Getmessageattachments chUUID msgUUID.

Definition loadAttachments (channelID messageID : uuid) : GoM World (list MessageAttachments) :=
  r ← try (Scylla.Getmessageattachments channelID messageID);
  mret (match r with inr atts => atts | inl _ => [] end).

Definition chat_attachment (a : MessageAttachments) : ChatAttachment :=
  {| ca_id := uuid_print (MessageRepo.uuidValue (ma_id a)); ca_filename := stringValue (ma_filename a);
     ca_url := stringValue (ma_url a); ca_content_type := stringValue (ma_content_type a);
     ca_size := int64Value (ma_size a) |}.
Definition chat_reaction (r : ReactionCount) : ChatReactionCount :=
  {| crc_user := rc_user_id r; crc_emoji := rc_Emoji r; crc_count := rc_Count r; crc_me := rc_Me r |}.

(** Dereferences [msg.Content], [msg.Type] and [msg.Pinned].  RFC 3339 texts of
    instants are kept as the instants. *)
Definition buildMessageEvent (evtType : ChatEventType) (channelID guildID userID : string)
    (msg : Messages) (atts : list MessageAttachments) : GoM World TextChannelEvent :=
  let msgID := MessageRepo.uuidValue (m_id msg) in
  let msgChannelID := MessageRepo.uuidValue (m_channel_id msg) in
  let authorID := MessageRepo.uuidValue (m_author_id msg) in
  let replyToID := MessageRepo.uuidValue (m_reply_to_id msg) in
  let forwardedFromMessageID := MessageRepo.uuidValue (m_forwarded_from_message_id msg) in
  let createdAt := timeValue (m_created_at msg) in
  content ← deref (m_content msg);
  type ← deref (m_type msg);
  pinned ← deref (m_pinned msg);
  reactions ← try (MessageRepo.GetReactions msgChannelID msgID authorID);
  mret {| tce_type := evtType; tce_guild_id := guildID; tce_channel_id := channelID;
          tce_message_id := uuid_print msgID; tce_author_id := uuid_print authorID;
          tce_sender_id := userID; tce_content := content; tce_msg_type := int32 type;
          tce_pinned := pinned; tce_deleted := boolValue (m_deleted msg); tce_emoji := "";
          tce_reply_to_id := if decide (replyToID = zero_uuid) then "" else uuid_print replyToID;
          tce_edited_at := m_edited_at msg;
          tce_created_at := if decide (createdAt = zero_time) then None else Some createdAt;
          tce_attachments := chat_attachment <$> atts;
          tce_mention_user_ids := uuid_print <$> uuidSliceValue (m_mention_user_ids msg);
          tce_reactions := match reactions with inr rs => chat_reaction <$> rs | inl _ => [] end;
          tce_forwarded_from :=
            if decide (forwardedFromMessageID = zero_uuid) then None
            else Some {| cfr_channel_id := uuid_print (MessageRepo.uuidValue (m_forwarded_from_channel_id msg));
                         cfr_message_id := uuid_print forwardedFromMessageID;
                         cfr_author_id := uuid_print (MessageRepo.uuidValue (m_forwarded_from_author_id msg)) |} |}.

(** [members, _ := s.dmChannelList.GetDMChannelMemberIDs(ctx, channelID)] *)
Definition dm_members (l : DMChannelLister) (channelID : string) : GoM World (list string) :=
  r ← try (dml_GetDMChannelMemberIDs l channelID);
  mret (match r with inr ms => ms | inl _ => [] end).

Definition publishChannelEvent (guildID channelID : string) (payload : TextChannelEvent) :
    GoM World unit :=
  if negb lpb then mret tt
  else if negb (string_eqb guildID "") then
    Publish (GuildChannelMessage guildID channelID) (EvText payload)
  else match dmChannelList with
       | None => mret tt
       | Some l =>
           members ← dm_members l channelID;
           for_each members (λ memberID, Publish (DmMessage memberID channelID) (EvText payload))
       end.

(** The permission cascade of [SendMessage] for a guild channel. *)
Definition send_gate (userID channelID guildID content : string) (attachmentIDs : list string) :
    GoM World unit :=
  if string_eqb guildID "" then mret tt else
  ok ← Authz.CanSendInChannel userID channelID;
  _ ← ensure ok ErrInsufficientPermissions;
  ok ← (if bool_decide (attachmentIDs = []) then mret true else Authz.CanAttachFiles userID guildID);
  _ ← ensure ok ErrInsufficientPermissions;
  ok ← (if Mentions.containsEveryoneMention content then Authz.CanMentionEveryone userID guildID
        else mret true);
  ensure ok ErrInsufficientPermissions.

(** The forward branch: the row to create, and the attachments to copy. *)
Definition forward_source (create : CreatemessageParams) (forward : ForwardSource) :
    GoM World (CreatemessageParams * list MessageAttachments) :=
  srcChUUID ← gocqlParseUUID (fs_ChannelID forward) ErrInvalidUUID;
  srcMsgUUID ← gocqlParseUUID (fs_MessageID forward) ErrInvalidUUID;
  src ← MessageRepo.GetMessage srcChUUID srcMsgUUID ?> (λ _, ErrForwardSourceNotFound);
  srcChannelID ← deref (m_channel_id src);
  srcMessageID ← deref (m_id src);
  srcAuthorID ← deref (m_author_id src);
  content ← (if string_eqb (cm_Content create) "" then deref (m_content src)
             else mret (cm_Content create));
  atts ← loadAttachments srcChUUID srcMsgUUID;
  mret (mkCreatemessageParams (cm_ChannelId create) (cm_Id create) (cm_AuthorId create) content
          (cm_Type create) (cm_ReplyToId create) (cm_Pinned create) (cm_CreatedAt create)
          srcChannelID srcMessageID srcAuthorID (cm_MentionUserIds create), atts).

(** The reply branch: the parent must exist in the same channel. *)
Definition reply_target (create : CreatemessageParams) (replyToID : string) :
    GoM World CreatemessageParams :=
  if string_eqb replyToID "" then mret create else
  replyUUID ← gocqlParseUUID replyToID ErrInvalidUUID;
  _ ← MessageRepo.GetMessage (cm_ChannelId create) replyUUID ?> (λ _, ErrReplyParentNotFound);
  mret (mkCreatemessageParams (cm_ChannelId create) (cm_Id create) (cm_AuthorId create)
          (cm_Content create) (cm_Type create) replyUUID (cm_Pinned create) (cm_CreatedAt create)
          (cm_ForwardedFromChannelId create) (cm_ForwardedFromMessageId create)
          (cm_ForwardedFromAuthorId create) (cm_MentionUserIds create)).

(** One attachment row under a fresh identifier; a failure skips it. *)
Definition add_attachment (chUUID msgID : uuid) (atts : list MessageAttachments)
    (filename url contentType : string) (size : Z) : GoM World (list MessageAttachments) :=
  r ← try RandomUUID;
  match r with
  | inl _ => mret atts
  | inr attID =>
      r ← try (Scylla.Addmessageattachment chUUID msgID attID filename url contentType size);
      mret (match r with
            | inl _ => atts
            | inr _ => atts ++ [mkMessageAttachments None None (Some attID) (Some filename)
                                  (Some url) (Some contentType) (Some size)]
            end)
  end.

Definition resolve_attachments (chUUID msgID : uuid) (userID : string) (attachmentIDs : list string) :
    GoM World (list MessageAttachments) :=
  match media with
  | None => mret []
  | Some m =>
      for_fold attachmentIDs [] (λ atts fid,
        r ← try (mr_ResolveAttachment m fid userID);
        match r with
        | inl _ => mret atts
        | inr (filename, url, contentType, size) =>
            add_attachment chUUID msgID atts filename url contentType size
        end)
  end.

Definition copy_attachments (chUUID msgID : uuid) (src atts : list MessageAttachments) :
    GoM World (list MessageAttachments) :=
  for_fold src atts (λ atts a,
    add_attachment chUUID msgID atts (stringValue (ma_filename a)) (stringValue (ma_url a))
      (stringValue (ma_content_type a)) (int64Value (ma_size a))).

(** What [SendMessage] does once the request is admitted. *)
Definition post_message (userID channelID guildID content : string) (msgType : Z)
    (replyToID : string) (attachmentIDs : list string) (forward : option ForwardSource)
    (mentionIDs : list string) : GoM World (Messages * list MessageAttachments) :=
  chUUID ← gocqlParseUUID channelID ErrInvalidUUID;
  authorUUID ← gocqlParseUUID userID ErrInvalidUUID;
  let mentionUUIDs := omap uuid_parse (Mentions.dedupMentions mentionIDs userID) in
  msgID ← TimeUUID;
  createdAt ← now;
  let create := mkCreatemessageParams chUUID msgID authorUUID content msgType zero_uuid false
                  createdAt zero_uuid zero_uuid zero_uuid mentionUUIDs in
  '(create, forwardedSourceAttachments) ←
    match forward with Some f => forward_source create f | None => mret (create, []) end;
  create ← reply_target create replyToID;
  _ ← Scylla.Createmessage create ?> ErrorfW "failed to create message: %w";
  attachments ← resolve_attachments chUUID msgID userID attachmentIDs;
  attachments ← copy_attachments chUUID msgID forwardedSourceAttachments attachments;
  _ ← for_each mentionUUIDs (λ mUUID, ignore (MessageRepo.IncrementMentionCount mUUID chUUID));
  let msg := sent_message create (bool_decide (is_Some forward)) in
  data ← buildMessageEvent CHAT_EVENT_CREATE channelID guildID userID msg attachments;
  _ ← publishChannelEvent guildID channelID data;
  mret (msg, attachments).

Definition SendMessage (userID channelID guildID content : string) (msgType : Z)
    (replyToID : string) (attachmentIDs : list string) (forward : option ForwardSource)
    (mentionIDs : list string) : GoM World (Messages * list MessageAttachments) :=
  _ ← ensure (negb (string_eqb channelID "")) ErrChannelRequired;
  _ ← ensure (negb (string_eqb content "" && bool_decide (attachmentIDs = []) &&
                    negb (bool_decide (is_Some forward)))) ErrContentRequired;
  _ ← send_gate userID channelID guildID content attachmentIDs;
  post_message userID channelID guildID content msgType replyToID attachmentIDs forward mentionIDs.

Definition GetMessage (channelID messageID : string) : GoM World Messages :=
  chUUID ← gocqlParseUUID channelID ErrInvalidUUID;
  msgUUID ← gocqlParseUUID messageID ErrInvalidUUID;
  MessageRepo.GetMessage chUUID msgUUID ?> message_not_found.

(** Authors may edit within the window; others need MANAGE_CHANNELS on the
    channel of a guild. *)
Definition edit_gate (userID channelID guildID : string) (authorUUID : uuid) (existing : Messages) :
    GoM World unit :=
  if decide (MessageRepo.uuidValue (m_author_id existing) = authorUUID) then
    t ← now;
    ensure (negb (Z.ltb EditWindow (t - timeValue (m_created_at existing)))) ErrEditWindowExpired
  else
    ok ← (if string_eqb guildID "" then mret false else Authz.CanManageChannel userID channelID);
    ensure ok ErrNotMessageAuthor.

(** The part of [EditMessage] behind the checks. *)
Definition apply_edit (userID channelID guildID : string) (chUUID msgUUID : uuid)
    (content : string) (existing : Messages) : GoM World Messages :=
  t ← now;
  _ ← Scylla.Updatemessagecontent content t chUUID msgUUID ?> ErrorfW "failed to edit message: %w";
  _ ← ignore (Scylla.Saveedithistory chUUID msgUUID (stringValue (m_content existing)) t);
  let existing := set_content content t existing in
  atts ← loadAttachments chUUID msgUUID;
  data ← buildMessageEvent CHAT_EVENT_UPDATE channelID guildID userID existing atts;
  _ ← publishChannelEvent guildID channelID data;
  mret existing.

Definition EditMessage (userID channelID guildID messageID content : string) : GoM World Messages :=
  chUUID ← gocqlParseUUID channelID ErrInvalidUUID;
  msgUUID ← gocqlParseUUID messageID ErrInvalidUUID;
  authorUUID ← gocqlParseUUID userID ErrInvalidUUID;
  existing ← MessageRepo.GetMessage chUUID msgUUID ?> message_not_found;
  _ ← edit_gate userID channelID guildID authorUUID existing;
  apply_edit userID channelID guildID chUUID msgUUID content existing.

(** Authors may delete their messages, others need MANAGE_CHANNELS. *)
Definition delete_gate (userID channelID guildID : string) (authorUUID : uuid) (existing : Messages) :
    GoM World unit :=
  if decide (MessageRepo.uuidValue (m_author_id existing) = authorUUID) then mret tt else
  ok ← (if string_eqb guildID "" then mret false else Authz.CanManageChannel userID channelID);
  ensure ok ErrNotMessageAuthor.

(** The part of [DeleteMessage] behind the checks. *)
Definition apply_delete (userID channelID guildID : string) (chUUID msgUUID : uuid)
    (existing : Messages) : GoM World unit :=
  _ ← MessageRepo.DeleteMessage chUUID msgUUID ?> ErrorfW "failed to delete message: %w";
  _ ← ignore (MessageRepo.CascadeDeleteChildren chUUID msgUUID);
  data ← buildMessageEvent CHAT_EVENT_DELETE channelID guildID userID (with_deleted existing) [];
  publishChannelEvent guildID channelID data.

Definition DeleteMessage (userID channelID guildID messageID : string) : GoM World unit :=
  chUUID ← gocqlParseUUID channelID ErrInvalidUUID;
  msgUUID ← gocqlParseUUID messageID ErrInvalidUUID;
  authorUUID ← gocqlParseUUID userID ErrInvalidUUID;
  existing ← MessageRepo.GetMessage chUUID msgUUID ?> message_not_found;
  _ ← delete_gate userID channelID guildID authorUUID existing;
  apply_delete userID channelID guildID chUUID msgUUID existing.

Definition canReadChannel (userID channelID : string) : GoM World bool :=
  ok ← (if authz_wired then Authz.CanViewChannel userID channelID else mret false);
  if ok : bool then mret true else
  match dmChannelList with
  | Some l =>
      members ← dm_members l channelID;
      mret (existsb (string_eqb userID) members)
  | None => mret (negb authz_wired)
  end.

Definition parse_bound (s : string) : GoM World (option uuid) :=
  if string_eqb s "" then mret None else
  u ← gocqlParseUUID s ErrInvalidUUID; mret (Some u).

Definition ListMessages (userID channelID before after : string) (limit : Z) :
    GoM World (list Messages) :=
  ok ← canReadChannel userID channelID;
  _ ← ensure ok ErrInsufficientPermissions;
  chUUID ← gocqlParseUUID channelID ErrInvalidUUID;
  let l := if Z.leb limit 0 || Z.ltb 100 limit then 50%Z else limit in
  beforePtr ← parse_bound before;
  afterPtr ← parse_bound after;
  MessageRepo.ListMessages chUUID beforePtr afterPtr l.

(** The part of [setPinned] behind the permission check. *)
Definition apply_pin (userID channelID guildID messageID : string) (pinned : bool) :
    GoM World unit :=
  chUUID ← gocqlParseUUID channelID ErrInvalidUUID;
  msgUUID ← gocqlParseUUID messageID ErrInvalidUUID;
  _ ← Scylla.Setpinned pinned chUUID msgUUID;
  r ← try (MessageRepo.GetMessage chUUID msgUUID);
  match r with
  | inl _ => mret tt
  | inr msg =>
      atts ← loadAttachments chUUID msgUUID;
      data ← buildMessageEvent (if pinned then CHAT_EVENT_PIN else CHAT_EVENT_UNPIN)
               channelID guildID userID (set_pinned pinned msg) atts;
      publishChannelEvent guildID channelID data
  end.
Definition setPinned (userID channelID guildID messageID : string) (pinned : bool) :
    GoM World unit :=
  ok ← (if string_eqb guildID "" then mret true else Authz.CanPinMessages userID guildID);
  _ ← ensure ok ErrInsufficientPermissions;
  apply_pin userID channelID guildID messageID pinned.
Definition PinMessage (userID channelID guildID messageID : string) : GoM World unit :=
  setPinned userID channelID guildID messageID true.
Definition UnpinMessage (userID channelID guildID messageID : string) : GoM World unit :=
  setPinned userID channelID guildID messageID false.

Definition toggleReaction (userID channelID guildID messageID emoji : string) (add : bool) :
    GoM World unit :=
  _ ← ensure (negb (string_eqb emoji "")) ErrEmojiRequired;
  ok ← (if add && negb (string_eqb guildID "") then Authz.CanAddReactions userID guildID
        else mret true);
  _ ← ensure ok ErrInsufficientPermissions;
  chUUID ← gocqlParseUUID channelID ErrInvalidUUID;
  msgUUID ← gocqlParseUUID messageID ErrInvalidUUID;
  uUID ← gocqlParseUUID userID ErrInvalidUUID;
  msg ← MessageRepo.GetMessage chUUID msgUUID ?> (λ _, ErrMessageNotFound);
  _ ← (if add then Scylla.Addreaction chUUID msgUUID emoji uUID
       else Scylla.Removereaction chUUID msgUUID emoji uUID);
  atts ← loadAttachments chUUID msgUUID;
  payload ← buildMessageEvent (if add then CHAT_EVENT_REACTION_ADD else CHAT_EVENT_REACTION_REMOVE)
              channelID guildID userID msg atts;
  publishChannelEvent guildID channelID (set_emoji emoji payload).
Definition AddReaction (userID channelID guildID messageID emoji : string) : GoM World unit :=
  toggleReaction userID channelID guildID messageID emoji true.
Definition RemoveReaction (userID channelID guildID messageID emoji : string) : GoM World unit :=
  toggleReaction userID channelID guildID messageID emoji false.

Definition read_receipt (channelID guildID messageID userID : string) (t : time) : TextChannelEvent :=
  {| tce_type := CHAT_EVENT_READ_RECEIPT; tce_guild_id := guildID; tce_channel_id := channelID;
     tce_message_id := messageID; tce_author_id := userID; tce_sender_id := userID;
     tce_content := ""; tce_msg_type := 0; tce_pinned := false; tce_deleted := false;
     tce_emoji := ""; tce_reply_to_id := ""; tce_edited_at := Some t; tce_created_at := None;
     tce_attachments := []; tce_mention_user_ids := []; tce_reactions := [];
     tce_forwarded_from := None |}.
Definition AckMessage (userID channelID guildID messageID : string) : GoM World unit :=
  uUID ← gocqlParseUUID userID ErrInvalidUUID;
  chUUID ← gocqlParseUUID channelID ErrInvalidUUID;
  msgUUID ← gocqlParseUUID messageID ErrInvalidUUID;
  _ ← MessageRepo.UpsertReadState uUID chUUID msgUUID;
  t ← now;
  publishChannelEvent guildID channelID (read_receipt channelID guildID messageID userID t).

(** [s.redis.Set(ctx, key, userID, 8*time.Second)] *)
Definition typing_key (channelID : string) : string := "typing:" +:+ channelID.
Definition set_typing (channelID userID : string) : GoM World unit :=
  redis_cmd (λ t _ r,
    inr (tt, <[typing_key channelID := mkRedisEntry (RString userID) (Some (t + 8 * 1000000)%Z)]> r)).
(** [realtime.Publish(s.lpb, ...)] without a nil check dereferences [s.lpb]. *)
Definition publish_typing (subject : string) (e : TypingEvent) : GoM World unit :=
  if lpb then Publish subject (EvTyping e) else go_panic.
Definition StartTyping (name userID channelID guildID : string) : GoM World unit :=
  _ ← ensure (negb (string_eqb channelID "")) ErrChannelRequired;
  _ ← set_typing channelID userID ?> ErrorfW "failed to set typing indicator: %w";
  t ← now;
  let typingEvt := {| te_channel_id := channelID; te_guild_id := guildID; te_user_id := userID;
                      te_username := name; te_timestamp := t |} in
  if negb (string_eqb guildID "") then publish_typing (GuildChannelTyping guildID channelID) typingEvt
  else match dmChannelList with
       | None => mret tt
       | Some l =>
           members ← dm_members l channelID;
           for_each members (λ memberID,
             if string_eqb memberID userID then mret tt
             else publish_typing (DmTyping memberID channelID) typingEvt)
       end.

Definition GetReactions (channelID messageID currentUserID : string) : GoM World (list ReactionCount) :=
  chUUID ← gocqlParseUUID channelID ErrInvalidUUID;
  msgUUID ← gocqlParseUUID messageID ErrInvalidUUID;
  curUUID ← gocqlParseUUID currentUserID ErrInvalidUUID;
  MessageRepo.GetReactions chUUID msgUUID curUUID.

Definition SendDirectMessage (senderID recipientID content : string) :
    GoM World (string * Messages) :=
  _ ← ensure (negb (string_eqb recipientID "")) (Errorf "recipient_id is required");
  _ ← ensure (negb (string_eqb content "")) ErrContentRequired;
  match dmResolver with
  | None => fail (Errorf "DM not configured")
  | Some r =>
      blocked ← match blockChecker with
                | None => mret false
                | Some b =>
                    x ← bc_IsBlocked b senderID recipientID;
                    if x : bool then mret true else bc_IsBlocked b recipientID senderID
                end;
      _ ← ensure (negb blocked) ErrUserBlocked;
      channelID ← dmr_GetOrCreateDMChannel r senderID [recipientID]
                    ?> ErrorfW "failed to get/create DM channel: %w";
      '(msg, _) ← SendMessage senderID channelID "" content 1 "" [] None [];
      mret (channelID, msg)
  end.

(** ** GetUnreadCounts *)
Definition resolveDMOtherUser (channelID userID : string) : GoM World string :=
  match dmChannelList with
  | None => mret ""
  | Some l =>
      members ← dm_members l channelID;
      mret (default "" (List.find (λ m, negb (string_eqb m userID)) members))
  end.

(** The loop over the read states: results and total. *)
Definition unread_of_state (acc : list UnreadInfo * Z) (rs : ReadStates) :
    GoM World (list UnreadInfo * Z) :=
  let channelID := MessageRepo.uuidValue (rs_channel_id rs) in
  let lastRead := MessageRepo.uuidValue (rs_last_read_message_id rs) in
  r ← try (MessageRepo.CountUnreadMessages channelID lastRead);
  match r with
  | inl _ => mret acc
  | inr (count, lastMsg, lastTime) =>
      if Z.eqb count 0 then mret acc else
      recent ← try (MessageRepo.ListMessagesAfter channelID lastRead 5);
      mret (acc.1 ++ [mkUnreadInfo (uuid_print channelID) false "" (uuid_print lastRead)
                        (int32 count) (int32 (int64Value (rs_mention_count rs)))
                        (uuid_print lastMsg) lastTime
                        (match recent with inr ms => ms | inl _ => [] end)],
            int32 (acc.2 + int32 count))
  end.

(** [results[i].IsDM = true; results[i].SenderID = ...] *)
Definition mark_dm (userID : string) (dmSet : list string) (results : list UnreadInfo)
    (r : UnreadInfo) : GoM World (list UnreadInfo) :=
  if bool_decide (ui_ChannelID r ∈ dmSet) then
    other ← resolveDMOtherUser (ui_ChannelID r) userID;
    mret (results ++ [mkUnreadInfo (ui_ChannelID r) true other (ui_LastReadMsgID r)
                        (ui_UnreadCount r) (ui_MentionCount r) (ui_LastMessageID r)
                        (ui_LastMessageTime r) (ui_RecentMessages r)])
  else mret (results ++ [r]).

(** One DM channel the user never opened. *)
Definition unread_of_dm (userID : string) (seen : list string) (acc : list UnreadInfo * Z)
    (chID : string) : GoM World (list UnreadInfo * Z) :=
  if bool_decide (chID ∈ seen) then mret acc else
  match uuid_parse chID with
  | None => mret acc
  | Some chUUID =>
      r ← try (MessageRepo.CountAllMessages chUUID);
      match r with
      | inl _ => mret acc
      | inr (count, lastMsg, lastTime) =>
          if Z.eqb count 0 then mret acc else
          recent ← try (MessageRepo.ListRecentMessages chUUID 5);
          other ← resolveDMOtherUser chID userID;
          mret (acc.1 ++ [mkUnreadInfo chID true other "" (int32 count) 0 (uuid_print lastMsg)
                            lastTime (match recent with inr ms => ms | inl _ => [] end)],
                int32 (acc.2 + int32 count))
      end
  end.

Definition GetUnreadCounts (userID : string) : GoM World (list UnreadInfo * Z) :=
  uUID ← gocqlParseUUID userID ErrInvalidUUID;
  readStates ← try (Scylla.Getuserreadstates uUID);
  let states := match readStates with inr l => l | inl _ => [] end in
  let seen := (λ rs, uuid_print (MessageRepo.uuidValue (rs_channel_id rs))) <$> states in
  '(results, total) ← for_fold states ([], 0%Z) unread_of_state;
  match dmChannelList with
  | None => mret (results, total)
  | Some l =>
      r ← try (dml_GetUserDMChannelIDs l userID);
      match r with
      | inl _ => mret (results, total)
      | inr dmChannelIDs =>
          results ← for_fold results [] (mark_dm userID dmChannelIDs);
          for_fold dmChannelIDs (results, total) (unread_of_dm userID seen)
      end
  end.

(** ** Reads without a permission check *)
Definition SearchMessages (ToLower : string → string) (channelID q : string) (limit : Z) :
    GoM World (list Messages) :=
  chUUID ← gocqlParseUUID channelID ErrInvalidUUID;
  MessageRepo.SearchMessages ToLower chUUID q limit.
Definition GetThreadMessages (channelID parentMsgID : string) (limit : Z) : GoM World (list Messages) :=
  chUUID ← gocqlParseUUID channelID ErrInvalidUUID;
  parentUUID ← gocqlParseUUID parentMsgID ErrInvalidUUID;
  MessageRepo.GetThreadMessages chUUID parentUUID limit.
Definition GetEditHistory (channelID messageID : string) : GoM World (list MessageEditHistory) :=
  chUUID ← gocqlParseUUID channelID ErrInvalidUUID;
  msgUUID ← gocqlParseUUID messageID ErrInvalidUUID;
  Scylla.Getedithistory chUUID msgUUID.

Definition BulkDeleteMessages (userID channelID guildID : string) (messageIDs : list string) :
    GoM World Z :=
  ok ← (if negb (string_eqb guildID "") && authz_wired then Authz.CanManageChannel userID channelID
        else mret true);
  _ ← ensure ok ErrInsufficientPermissions;
  chUUID ← gocqlParseUUID channelID ErrInvalidUUID;
  MessageRepo.BulkDeleteMessages chUUID (omap uuid_parse messageIDs).
End Service.
End MessageService.
