(* ===== verification/Wpm.v ===== *)
(** * Wpm: weakest preconditions over the message store and the bus

    [wpm d m Q c b]: from every world whose PostgreSQL tables are [d], whose
    ScyllaDB tables are [c] and on whose bus [b] was published, [m] leaves the
    PostgreSQL tables alone and its outcome, the ScyllaDB tables and the bus
    satisfy [Q].  The rules are those of [Wp], for the programs of the message
    service; [wpm_auto] applies them. *)
From S2P Require Import Prelude Realtime Store Queries Authz Wp Scylla Message.

Abbreviation bus_t := (list (string * event)) (only parsing).

Definition wpm {A} (d : Db) (m : GoM World A) (Q : outcome A → Cass → bus_t → Prop)
    (c : Cass) (b : bus_t) : Prop :=
  ∀ w, w.(db) = d → w.(cass) = c → w.(bus) = b →
    (m w).2.(db) = d ∧ Q (m w).1 (m w).2.(cass) (m w).2.(bus).

Section Rules.
Context `{Env} (d : Db).
Implicit Types (c : Cass) (b : bus_t).

Lemma wpm_run {A} (m : GoM World A) Q w o w' :
  wpm w.(db) m Q w.(cass) w.(bus) → m w = (o, w') →
  w'.(db) = w.(db) ∧ Q o w'.(cass) w'.(bus).
Proof. intros Hm E. specialize (Hm w eq_refl eq_refl eq_refl). by rewrite E in Hm. Qed.

Lemma wpm_mono {A} (m : GoM World A) (Q Q' : outcome A → Cass → bus_t → Prop) c b :
  wpm d m Q c b → (∀ o c' b', Q o c' b' → Q' o c' b') → wpm d m Q' c b.
Proof. intros Hm HQ w Hd Hc Hb. destruct (Hm w Hd Hc Hb). auto. Qed.
Lemma wpm_ret {A} (a : A) (Q : outcome A → Cass → bus_t → Prop) c b : Q (Ok a) c b → wpm d (mret a) Q c b.
Proof. by intros HQ w <- <- <-. Qed.
Lemma wpm_fail {A} e (Q : outcome A → Cass → bus_t → Prop) c b : Q (Err e) c b → wpm d (fail e) Q c b.
Proof. by intros HQ w <- <- <-. Qed.
Lemma wpm_panic {A} (Q : outcome A → Cass → bus_t → Prop) c b : Q Panic c b → wpm d go_panic Q c b.
Proof. by intros HQ w <- <- <-. Qed.
Lemma wpm_bind {A B} (m : GoM World A) (k : A → GoM World B) Q c b :
  wpm d m (λ o c' b', match o with
                      | Ok a => wpm d (k a) Q c' b'
                      | Err e => Q (Err e) c' b'
                      | Panic => Q Panic c' b'
                      end) c b → wpm d (m ≫= k) Q c b.
Proof.
  intros Hm w Hd Hc Hb. specialize (Hm w Hd Hc Hb). unfold mbind, gom_bind.
  destruct (m w) as [[a|e|] w1]; simpl in *; [|done..]. destruct Hm as [Hd1 Hm]. by apply Hm.
Qed.
Lemma wpm_try {A} (m : GoM World A) Q c b :
  wpm d m (λ o c' b', match o with
                      | Ok a => Q (Ok (inr a)) c' b'
                      | Err e => Q (Ok (inl e)) c' b'
                      | Panic => Q Panic c' b'
                      end) c b → wpm d (try m) Q c b.
Proof.
  intros Hm w Hd Hc Hb. specialize (Hm w Hd Hc Hb). unfold try. by destruct (m w) as [[a|e|] w1].
Qed.
Lemma wpm_ignore {A} (m : GoM World A) Q c b :
  wpm d m (λ o c' b', match o with Panic => Q Panic c' b' | _ => Q (Ok tt) c' b' end) c b →
  wpm d (ignore m) Q c b.
Proof.
  intros Hm w Hd Hc Hb. specialize (Hm w Hd Hc Hb). unfold ignore.
  by destruct (m w) as [[a|e|] w1].
Qed.
Lemma wpm_on_err {A} (m : GoM World A) h Q c b :
  wpm d m (λ o c' b', match o with Err e => Q (Err (h e)) c' b' | _ => Q o c' b' end) c b →
  wpm d (m ?> h) Q c b.
Proof.
  intros Hm w Hd Hc Hb. specialize (Hm w Hd Hc Hb). unfold on_err.
  by destruct (m w) as [[a|e|] w1].
Qed.
Lemma wpm_ensure x e (Q : outcome unit → Cass → bus_t → Prop) c b :
  (x = true → Q (Ok tt) c b) → (x = false → Q (Err e) c b) → wpm d (ensure x e) Q c b.
Proof. destruct x; intros H1 H2; [apply wpm_ret|apply wpm_fail]; auto. Qed.
Lemma wpm_deref {A} (p : option A) (Q : outcome A → Cass → bus_t → Prop) c b :
  (∀ a, p = Some a → Q (Ok a) c b) → (p = None → Q Panic c b) → wpm d (deref p) Q c b.
Proof. destruct p; intros H1 H2; [apply wpm_ret|apply wpm_panic]; auto. Qed.

(** Loops keep an invariant of the tables and the bus. *)
Lemma wpm_for_each {A} (xs : list A) body (I : Cass → bus_t → Prop)
    (Q : outcome unit → Cass → bus_t → Prop) c b :
  I c b →
  (∀ x c' b', x ∈ xs → I c' b' →
     wpm d (body x) (λ o c'' b'', match o with Ok _ => I c'' b'' | _ => Q o c'' b'' end) c' b') →
  (∀ c' b', I c' b' → Q (Ok tt) c' b') →
  wpm d (for_each xs body) Q c b.
Proof.
  intros HI Hb HQ. revert c b HI. induction xs as [|x xs IH]; intros c b HI; simpl.
  { by apply wpm_ret, HQ. }
  apply wpm_bind. eapply wpm_mono; [apply Hb; [left|done]|].
  intros [[]|e|] c' b' Hc'; [|done..]. apply IH; [|done].
  intros y c'' b'' Hy. apply Hb. by right.
Qed.
Lemma wpm_for_fold {A B} (xs : list A) (acc : B) body (I : B → Cass → bus_t → Prop)
    (Q : outcome B → Cass → bus_t → Prop) c b :
  I acc c b →
  (∀ x a c' b', x ∈ xs → I a c' b' →
     wpm d (body a x) (λ o c'' b'', match o with
                                    | Ok a' => I a' c'' b''
                                    | _ => Q o c'' b''
                                    end) c' b') →
  (∀ a c' b', I a c' b' → Q (Ok a) c' b') →
  wpm d (for_fold xs acc body) Q c b.
Proof.
  intros HI Hb HQ. revert acc c b HI. induction xs as [|x xs IH]; intros acc c b HI; simpl.
  { by apply wpm_ret, HQ. }
  apply wpm_bind. eapply wpm_mono; [apply Hb; [left|done]|].
  intros [a|e|] c' b' Hc'; [|done..]. apply IH; [|done].
  intros y a' c'' b'' Hy. apply Hb. by right.
Qed.

Lemma wpm_now Q c b : (∀ t, Q (Ok t) c b) → wpm d now Q c b.
Proof. intros HQ w <- <- <-. split; [done|]. apply HQ. Qed.
Lemma wpm_TimeUUID `{!CqlTypes} Q c b :
  (∀ n, is_timeuuid (time_uuid n) = true → Q (Ok (time_uuid n)) c b) → wpm d TimeUUID Q c b.
Proof. intros HQ w <- <- <-. split; [done|]. apply HQ, time_uuid_ok. Qed.
Lemma wpm_RandomUUID Q c b :
  (∀ u, Q (Ok u) c b) → (can_fail → Q (Err lost) c b) → wpm d RandomUUID Q c b.
Proof.
  intros HQ HE w <- <- <-. split; [done|]. unfold RandomUUID. simpl. destruct (faults _) eqn:E;
    [apply HQ|apply HE..]; exists (tick w); by rewrite E.
Qed.
Lemma wpm_Publish s e Q c b : Q (Ok tt) c (b ++ [(s, e)]) → wpm d (Publish s e) Q c b.
Proof. by intros HQ w <- <- <-. Qed.

(** A program that only advances the interaction counter and the cache. *)
Lemma wpm_silent {A} (m : GoM World A) Q c b :
  steps silent m → (∀ w, w.(db) = d → Q (m w).1 c b) → wpm d m Q c b.
Proof.
  intros Hm HQ w Hd Hc Hb. destruct (Hm w) as (E1 & E2 & _ & E4).
  split; [congruence|]. rewrite E2, E4, Hc, Hb. by apply HQ.
Qed.
Lemma wpm_redis {A} f (Q : outcome A → Cass → bus_t → Prop) c b :
  (∀ o, Q o c b) → wpm d (redis_cmd f) Q c b.
Proof.
  intros HQ w <- <- <-. unfold redis_cmd, external. repeat case_match; simpl; by split.
Qed.

(** ** CQL statements *)
Context `{!CqlTypes}.
Lemma wpm_exec ids ok f (Q : outcome unit → Cass → bus_t → Prop) c b :
  (forallb is_timeuuid ids && ok = true → Q (Ok tt) (f c) b ∧ (can_fail → Q (Err lost) (f c) b)) →
  (forallb is_timeuuid ids && ok = false → Q (Err (Driver InvalidRequest)) c b) →
  (can_fail → Q (Err lost) c b) → wpm d (Scylla.exec ids ok f) Q c b.
Proof.
  intros HQ HI HE w <- <- <-. unfold Scylla.exec, cql, external.
  assert (∀ x, faults w.(tick) = x → x ≠ NoFault → can_fail) as Hf
    by (intros x Hx ?; exists (tick w); by rewrite Hx).
  destruct (_ && ok) eqn:E, (faults (tick w)) eqn:Ef; simpl; split; try done;
    try (by apply HI); try (by apply HQ); try (by apply HE, (Hf _ eq_refl)).
  destruct HQ as [_ HQ]; [done|]. by apply HQ, (Hf _ eq_refl).
Qed.
Lemma wpm_select {A} ids ok (f : Cass → error + A) (Q : outcome A → Cass → bus_t → Prop) c b :
  (forallb is_timeuuid ids && ok = true →
     match f c with inl e => Q (Err e) c b | inr a => Q (Ok a) c b end) →
  (forallb is_timeuuid ids && ok = false → Q (Err (Driver InvalidRequest)) c b) →
  (can_fail → Q (Err lost) c b) → wpm d (Scylla.select ids ok f) Q c b.
Proof.
  intros HQ HI HE w <- <- <-. unfold Scylla.select, cql, external.
  assert (∀ x, faults w.(tick) = x → x ≠ NoFault → can_fail) as Hf
    by (intros x Hx ?; exists (tick w); by rewrite Hx).
  destruct (_ && ok) eqn:E, (faults (tick w)) eqn:Ef; simpl;
    try (destruct (f (cass w)) eqn:Efc); simpl; split; try done;
    try (by apply HI); try (by apply HQ); try (by apply HE, (Hf _ eq_refl)).
Qed.
End Rules.

(** ** The permission layer is silent *)
Section Silent.
Context `{Env} `{!UuidText}.

Lemma silent_query {A} (f : Db → error + A) : steps silent (query f).
Proof.
  intros w. unfold query, sql, external, silent.
  destruct (f (db w)), (faults _); simpl; by split_and!.
Qed.
Lemma silent_query_any {A} (f : bool → Db → error + A) : steps silent (query_any f).
Proof. intros w. apply silent_query. Qed.
Lemma silent_now : steps silent now.
Proof. intros w. by split_and!. Qed.
Lemma silent_cache f : steps silent (modify (λ w, with_cache (f w) w)).
Proof. intros w. by split_and!. Qed.
#[local] Hint Resolve silent_query silent_now silent_cache : steps.
Lemma silent_query_or b q : steps silent (Authz.query_or b q).
Proof. unfold Authz.query_or. steps_auto. Qed.
#[local] Hint Resolve silent_query_or : steps.
Lemma silent_Check u r g : steps silent (Authz.Check u r g).
Proof. unfold Authz.Check, Authz.with_uuid. steps_auto. Qed.
Lemma silent_isDMMember u ch : steps silent (Authz.isDMMember u ch).
Proof. unfold Authz.isDMMember, Authz.with_uuid. steps_auto. Qed.
Lemma silent_isOwnerOrAdmin u g : steps silent (Authz.isOwnerOrAdmin u g).
Proof. unfold Authz.isOwnerOrAdmin, Authz.with_uuid. steps_auto. Qed.
Lemma silent_applyChannelOverride u g ch r b : steps silent (Authz.applyChannelOverride u g ch r b).
Proof. unfold Authz.applyChannelOverride, Authz.with_uuid. steps_auto. Qed.
Lemma silent_resolveChannelGuild ch : steps silent (Authz.resolveChannelGuild ch).
Proof. unfold Authz.resolveChannelGuild, Authz.cacheChannelGuild, Authz.parseUUID. steps_auto. Qed.
#[local] Hint Resolve silent_Check silent_isDMMember silent_isOwnerOrAdmin
  silent_applyChannelOverride silent_resolveChannelGuild : steps.
Lemma silent_checkChannel u ch r : steps silent (Authz.checkChannel u ch r).
Proof. unfold Authz.checkChannel. steps_auto. Qed.
End Silent.
#[export] Hint Resolve silent_query silent_query_any silent_now silent_cache silent_query_or silent_Check
  silent_checkChannel : steps.
