(* ===== verification/MessageFacts.v ===== *)
(** * MessageFacts: what the message service guarantees

    Sending, editing, deleting, pinning, reacting and acknowledging have the
    effects on the message store that their names say, on every branch; what
    each of them checks before, and what it does not; the listings return
    exactly the live messages of the channel in clustering order. *)
From S2P Require Import Prelude Realtime Store Queries Authz Wp AuthzFacts Scylla Mentions Message Wpm.

(** ** Rules for the shared helpers *)

(** Only tables the relation [R] speaks of change; the bus does not. *)
Definition touches (R : relation Cass) : relation World := λ w w',
  w'.(db) = w.(db) ∧ w'.(bus) = w.(bus) ∧ R w.(cass) w'.(cass).
#[global] Instance touches_preorder R `{!PreOrder R} : PreOrder (touches R).
Proof.
  unfold touches. split; [intros x; split_and!; [done..|reflexivity]|].
  intros x y z (H1 & H2 & H3) (H4 & H5 & H6). split_and!; [congruence..|by etrans].
Qed.

(** The messages, their reactions and their history stay. *)
Definition same_messages (c c' : Cass) : Prop :=
  messages c' = messages c ∧ message_reactions c' = message_reactions c ∧
  message_edit_history c' = message_edit_history c.
#[global] Instance same_messages_preorder : PreOrder same_messages.
Proof.
  unfold same_messages. split; [intros x; by split_and!|].
  intros x y z (?&?&?) (?&?&?). split_and!; congruence.
Qed.

(** What a published message event says, and who receives it: in a guild the
    subject of the channel, exactly once (when there is a connection at all),
    in a DM only members of it. *)
Definition delivered `{!UuidText} (lpb : bool) (d : Db) (guildID channelID : string)
    (payload : TextChannelEvent) (l : bus_t) : Prop :=
  if string_eqb guildID ""
  then ∀ s e, (s, e) ∈ l → e = EvText payload ∧
         ∃ ch u, uuid_parse channelID = Some ch ∧ dm_member d ch u ∧
                 s = DmMessage (uuid_print u) channelID
  else l = if lpb then [(GuildChannelMessage guildID channelID, EvText payload)] else [].

Section Helpers.
Context `{Env} `{!UuidText} `{!CqlTypes}.
Implicit Types (c : Cass) (b : bus_t) (d : Db).

Lemma steps_touches_exec R `{!PreOrder R} ids ok f :
  (∀ c, R c (f c)) → steps (touches R) (Scylla.exec ids ok f).
Proof.
  intros Hf. apply steps_external; [apply _|intros; by split_and!|].
  intros w a x E. destruct (_ && ok); simplify_eq. by split_and!.
Qed.
Lemma steps_touches_select {A} R `{!PreOrder R} ids ok (f : Cass → error + A) :
  steps (touches R) (Scylla.select ids ok f).
Proof.
  apply steps_external; [apply _|intros; by split_and!|].
  intros w a x E. destruct (_ && ok); [|done]. destruct (f _); simplify_eq. by split_and!.
Qed.
Lemma steps_touches_silent {A} R `{!PreOrder R} (m : GoM World A) :
  steps silent m → steps (touches R) m.
Proof. intros Hm w. destruct (Hm w) as (?&E&?&?). split_and!; [done..|]. by rewrite E. Qed.
Lemma steps_touches_RandomUUID R `{!PreOrder R} : steps (touches R) RandomUUID.
Proof. intros w. by split_and!. Qed.
Lemma wpm_touches {A} R d (m : GoM World A) (Q : outcome A → Cass → bus_t → Prop) c b :
  steps (touches R) m → (∀ o c', R c c' → Q o c' b) → wpm d m Q c b.
Proof.
  intros Hm HQ w <- <- <-. destruct (Hm w) as (E & E' & HR). split; [done|]. rewrite E'. by apply HQ.
Qed.

Lemma wpm_gocqlParseUUID d s e (Q : outcome uuid → Cass → bus_t → Prop) c b :
  (∀ u, uuid_parse s = Some u → Q (Ok u) c b) → (uuid_parse s = None → Q (Err e) c b) →
  wpm d (MessageService.gocqlParseUUID s e) Q c b.
Proof.
  unfold MessageService.gocqlParseUUID. destruct (uuid_parse s); intros;
    [apply wpm_ret|apply wpm_fail]; auto.
Qed.

Lemma parse_Ok_inv s e w u w' :
  MessageService.gocqlParseUUID s e w = (Ok u, w') → uuid_parse s = Some u ∧ w' = w.
Proof.
  unfold MessageService.gocqlParseUUID. destruct (uuid_parse s); [|done]. by intros [= -> ->].
Qed.

(** [Repository.GetMessage]: a stored row that is not deleted. *)
Lemma wpm_GetMessage d ch id (Q : outcome Messages → Cass → bus_t → Prop) c b :
  (∀ m, is_timeuuid id = true → messages c !! (ch, id) = Some m → boolValue (m_deleted m) = false →
        Q (Ok m) c b) →
  (∀ e, (is_timeuuid id = true →
         ¬ can_fail → (messages c !! (ch, id) = None ∨
                       ∃ m, messages c !! (ch, id) = Some m ∧ boolValue (m_deleted m) = true)) →
        Q (Err e) c b) →
  wpm d (MessageRepo.GetMessage ch id) Q c b.
Proof.
  intros HQ HE. unfold MessageRepo.GetMessage, Scylla.Getmessage. apply wpm_bind, wpm_select.
  - simpl. rewrite !andb_true_r. intros Hid. destruct (messages c !! (ch, id)) as [m|] eqn:E.
    + apply wpm_bind, wpm_ensure; [intros Hd%negb_true_iff; by apply wpm_ret, HQ|].
      intros Hd%negb_false_iff. apply HE. eauto.
    + apply HE. auto.
  - simpl. rewrite !andb_true_r. intros Hid. apply HE. congruence.
  - intros Hf. apply HE. done.
Qed.

Lemma wpm_loadAttachments d ch id (Q : outcome (list MessageAttachments) → Cass → bus_t → Prop) c b :
  (∀ l, Q (Ok l) c b) → wpm d (MessageService.loadAttachments ch id) Q c b.
Proof.
  intros HQ. unfold MessageService.loadAttachments, Scylla.Getmessageattachments.
  apply wpm_bind, wpm_try, wpm_select; intros; apply wpm_ret, HQ.
Qed.

Lemma wpm_GetReactions d ch id u (Q : outcome (list ReactionCount) → Cass → bus_t → Prop) c b :
  (∀ l, Q (Ok l) c b) → (∀ e, Q (Err e) c b) → wpm d (MessageRepo.GetReactions ch id u) Q c b.
Proof.
  intros HQ HE. unfold MessageRepo.GetReactions, Scylla.Getreactions.
  apply wpm_bind, wpm_on_err, wpm_select; intros; [by apply wpm_ret|by apply HE..].
Qed.

(** The event carries the fields of the message; a null content, type or pinned
    flag panics. *)
Lemma wpm_buildMessageEvent d t channelID guildID userID msg atts
    (Q : outcome TextChannelEvent → Cass → bus_t → Prop) c b :
  (∀ evt, is_Some (m_content msg) → is_Some (m_type msg) → is_Some (m_pinned msg) →
          tce_type evt = t → tce_channel_id evt = channelID → tce_guild_id evt = guildID →
          tce_sender_id evt = userID → m_content msg = Some (tce_content evt) →
          tce_message_id evt = uuid_print (MessageRepo.uuidValue (m_id msg)) →
          tce_author_id evt = uuid_print (MessageRepo.uuidValue (m_author_id msg)) →
          tce_deleted evt = boolValue (m_deleted msg) →
          m_pinned msg = Some (tce_pinned evt) → Q (Ok evt) c b) →
  ((m_content msg = None ∨ m_type msg = None ∨ m_pinned msg = None) → Q Panic c b) →
  wpm d (MessageService.buildMessageEvent t channelID guildID userID msg atts) Q c b.
Proof.
  intros HQ HP. unfold MessageService.buildMessageEvent. cbv zeta.
  apply wpm_bind, wpm_deref; [intros ct Hct|auto].
  apply wpm_bind, wpm_deref; [intros ty Hty|auto].
  apply wpm_bind, wpm_deref; [intros pn Hpn|auto].
  apply wpm_bind, wpm_try, wpm_GetReactions; intros; apply wpm_ret, HQ; simpl; eauto.
Qed.

Lemma wpm_publishChannelEvent d lpb lister guildID channelID payload
    (Q : outcome unit → Cass → bus_t → Prop) c b :
  (∀ l, delivered lpb d guildID channelID payload l → Q (Ok tt) c (b ++ l)) →
  wpm d (MessageService.publishChannelEvent lpb lister guildID channelID payload) Q c b.
Proof.
  intros HQ. unfold MessageService.publishChannelEvent.
  assert (∀ s, s = (if string_eqb guildID "" then [] else
      if lpb then [(GuildChannelMessage guildID channelID, EvText payload)] else []) →
    Q (Ok tt) c (b ++ s)) as Hout.
  { intros s ->. apply HQ. unfold delivered. destruct (string_eqb guildID ""); [|done].
    intros s e Hin. by apply not_elem_of_nil in Hin. }
  destruct lpb; simpl (negb _); cycle 1.
  { apply wpm_ret. rewrite <- (app_nil_r b). apply Hout. by destruct (string_eqb _ _). }
  destruct (string_eqb guildID "") eqn:Eg; simpl (negb _); [|by apply wpm_Publish, Hout].
  destruct lister as [l|]; [|apply wpm_ret; rewrite <- (app_nil_r b); by apply Hout].
  apply wpm_bind. unfold MessageService.dm_members. apply wpm_bind, wpm_try, wpm_silent;
    [apply dml_members_silent|]. intros w Hw.
  pose proof (dml_members l channelID w) as Hmem.
  destruct (dml_GetDMChannelMemberIDs l channelID w).1 as [ms|e|] eqn:E;
    [|by apply wpm_ret, wpm_ret; rewrite <- (app_nil_r b); apply Hout|by destruct (dml_members_no_panic l channelID w)].
  apply wpm_ret. destruct (Hmem ms eq_refl) as (ch & Hch & Hms).
  apply (wpm_for_each _ ms _ (λ c' b', c' = c ∧ ∃ l', b' = b ++ l' ∧ delivered true d guildID channelID payload l')).
  - split; [done|]. exists []. rewrite app_nil_r. split; [done|]. unfold delivered. rewrite Eg.
    by intros s e ?%not_elem_of_nil.
  - unfold delivered. rewrite Eg. intros m c' b' Hm (-> & l' & -> & Hl'). apply wpm_Publish. split; [done|].
    exists (l' ++ [(DmMessage m channelID, EvText payload)]). split; [by rewrite app_assoc|].
    intros s e [Hin|Hin%list_elem_of_singleton]%elem_of_app; [by apply Hl'|]. simplify_eq.
    split; [done|]. apply Hms in Hm as (u & -> & Hu). eauto.
  - intros c' b' (-> & l' & -> & Hl'). by apply HQ.
Qed.
End Helpers.

(** ** SendMessage *)
Section Send.
Context `{Env} `{!UuidText} `{!CqlTypes}.
Variables (lpb : bool) (lister : option DMChannelLister) (media : option MediaResolver).
Implicit Types (c : Cass) (b : bus_t) (d : Db).

Lemma touches_add_attachment ch id atts f u ct sz :
  steps (touches same_messages) (MessageService.add_attachment ch id atts f u ct sz).
Proof.
  unfold MessageService.add_attachment. apply steps_bind; [apply _|apply steps_try, steps_touches_RandomUUID, _|].
  intros [e|a]; [apply steps_ret, _|]. apply steps_bind; [apply _| |intros [?|?]; apply steps_ret, _].
  apply steps_try, steps_touches_exec; [apply _|]. intros c. by split_and!.
Qed.
Lemma touches_resolve_attachments ch id u fs :
  steps (touches same_messages) (MessageService.resolve_attachments media ch id u fs).
Proof.
  unfold MessageService.resolve_attachments. destruct media as [m|]; [|apply steps_ret, _].
  apply steps_for_fold; [apply _|]. intros atts f. apply steps_bind; [apply _| |].
  - apply steps_try, steps_touches_silent; [apply _|apply mr_silent].
  - intros [e|[[[? ?] ?] ?]]; [apply steps_ret, _|apply touches_add_attachment].
Qed.
Lemma touches_copy_attachments ch id src atts :
  steps (touches same_messages) (MessageService.copy_attachments ch id src atts).
Proof. apply steps_for_fold; [apply _|]. intros. apply touches_add_attachment. Qed.
Lemma touches_IncrementMentionCount R `{!PreOrder R} u ch :
  (∀ c x, R c (with_read_states (<[(u, ch) := x]> (read_states c)) c)) →
  steps (touches R) (MessageRepo.IncrementMentionCount u ch).
Proof.
  intros HR. unfold MessageRepo.IncrementMentionCount, Scylla.Getreadstate, Scylla.Upsertreadstate.
  apply steps_bind; [apply _|apply steps_try, steps_touches_select, _|]. intros r.
  apply steps_bind; [apply _| |intros; apply steps_touches_exec; [apply _|]; intros; apply HR].
  destruct r as [e|v]; [destruct (decide _)|]; [apply steps_ret, _|apply steps_fail, _|apply steps_ret, _].
Qed.

(** The forward source and the reply parent only change what is written; both
    are live messages. *)
Definition live_message (c : Cass) (ch id : uuid) (m : Messages) : Prop :=
  messages c !! (ch, id) = Some m ∧ boolValue (m_deleted m) = false.

Definition same_target (create create' : CreatemessageParams) : Prop :=
  cm_ChannelId create' = cm_ChannelId create ∧ cm_Id create' = cm_Id create ∧
  cm_AuthorId create' = cm_AuthorId create ∧ cm_Type create' = cm_Type create ∧
  cm_Pinned create' = cm_Pinned create ∧ cm_CreatedAt create' = cm_CreatedAt create ∧
  cm_MentionUserIds create' = cm_MentionUserIds create.

(** The content a message is stored with: the given text, or for an empty
    forward that of the source. *)
Definition content_from (c : Cass) (content : string) (f : MessageService.ForwardSource)
    (create : CreatemessageParams) : Prop :=
  ∃ sch sid src, uuid_parse (MessageService.fs_ChannelID f) = Some sch ∧
    uuid_parse (MessageService.fs_MessageID f) = Some sid ∧ live_message c sch sid src ∧
    (content ≠ "" → cm_Content create = content) ∧
    (content = "" → m_content src = Some (cm_Content create)).

Lemma wpm_forward_source d create f (Q : outcome (CreatemessageParams * list MessageAttachments) →
    Cass → bus_t → Prop) c b :
  (∀ create' atts, same_target create create' → cm_ReplyToId create' = cm_ReplyToId create →
     content_from c (cm_Content create) f create' → Q (Ok (create', atts)) c b) →
  (∀ e, Q (Err e) c b) → Q Panic c b →
  wpm d (MessageService.forward_source create f) Q c b.
Proof.
  intros HQ HE HP. unfold MessageService.forward_source.
  apply wpm_bind, wpm_gocqlParseUUID; [intros sch Hsch|auto].
  apply wpm_bind, wpm_gocqlParseUUID; [intros sid Hsid|auto].
  apply wpm_bind, wpm_on_err, wpm_GetMessage; [intros src _ Hsrc Hlive|auto].
  do 3 (apply wpm_bind, wpm_deref; [intros ? ?|auto]).
  apply wpm_bind. unfold string_eqb. case_bool_decide as Hc.
  - apply wpm_deref; [intros ct Hct|auto].
    apply wpm_bind, wpm_loadAttachments. intros l. apply wpm_ret, HQ; [by split_and!|done|].
    exists sch, sid, src. by split_and!.
  - apply wpm_ret, wpm_bind, wpm_loadAttachments. intros l. apply wpm_ret, HQ; [by split_and!|done|].
    exists sch, sid, src. by split_and!.
Qed.

(** A reply names a live message of the same channel. *)
Definition replies_to (c : Cass) (replyToID : string) (create : CreatemessageParams) : Prop :=
  replyToID ≠ "" → uuid_parse replyToID = Some (cm_ReplyToId create) ∧
    ∃ parent, live_message c (cm_ChannelId create) (cm_ReplyToId create) parent.

Lemma wpm_reply_target d create r (Q : outcome CreatemessageParams → Cass → bus_t → Prop) c b :
  (∀ create', same_target create create' → cm_Content create' = cm_Content create →
     replies_to c r create' → (r = "" → create' = create) → Q (Ok create') c b) →
  (∀ e, Q (Err e) c b) →
  wpm d (MessageService.reply_target create r) Q c b.
Proof.
  intros HQ HE. unfold MessageService.reply_target, string_eqb. case_bool_decide as Hr.
  - apply wpm_ret, HQ; [by split_and!|done|by intros ?|done].
  - apply wpm_bind, wpm_gocqlParseUUID; [intros rid Hrid|auto].
    apply wpm_bind, wpm_on_err, wpm_GetMessage; [intros p _ Hp Hlive|auto].
    apply wpm_ret, HQ; [by split_and!|done| |done]. intros _. split; [done|]. by exists p.
Qed.

(** One message of channel [ch] by [u] was stored and announced: the row
    [create] describes, and nothing else among the messages. *)
Definition posted (d : Db) (ch u : uuid) (channelID guildID : string) (create : CreatemessageParams)
    (c c' : Cass) (b b' : bus_t) : Prop :=
  cm_ChannelId create = ch ∧ cm_AuthorId create = u ∧ is_timeuuid (cm_Id create) = true ∧
  messages c' = <[(ch, cm_Id create) :=
      inserted_message create
        (default (empty_message ch (cm_Id create)) (messages c !! (ch, cm_Id create)))]> (messages c) ∧
  message_reactions c' = message_reactions c ∧ message_edit_history c' = message_edit_history c ∧
  ∃ l evt, b' = b ++ l ∧ delivered lpb d guildID channelID evt l ∧
    tce_type evt = CHAT_EVENT_CREATE ∧ tce_channel_id evt = channelID ∧
    tce_content evt = cm_Content create ∧
    tce_author_id evt = uuid_print u ∧ tce_message_id evt = uuid_print (cm_Id create).

Lemma wpm_post_message d userID channelID guildID content ty replyToID attachmentIDs forward
    mentionIDs (Q : outcome (Messages * list MessageAttachments) → Cass → bus_t → Prop) c b :
  (∀ ch u create atts c' b',
     uuid_parse channelID = Some ch → uuid_parse userID = Some u →
     posted d ch u channelID guildID create c c' b b' →
     cm_Type create = ty → cm_MentionUserIds create = omap uuid_parse (Mentions.dedupMentions mentionIDs userID) →
     match forward with
     | None => cm_Content create = content
     | Some f => content_from c content f create
     end → replies_to c replyToID create →
     Q (Ok (MessageService.sent_message create (bool_decide (is_Some forward)), atts)) c' b') →
  (∀ e c' b', Q (Err e) c' b') → (∀ c' b', Q Panic c' b') →
  wpm d (MessageService.post_message lpb lister media userID channelID guildID content ty replyToID
           attachmentIDs forward mentionIDs) Q c b.
Proof.
  intros HQ HE HP. unfold MessageService.post_message.
  apply wpm_bind, wpm_gocqlParseUUID; [intros ch Hch|auto].
  apply wpm_bind, wpm_gocqlParseUUID; [intros u Hu|auto].
  apply wpm_bind, wpm_TimeUUID; intros n Hn. apply wpm_bind, wpm_now; intros t. cbv zeta.
  set (create0 := mkCreatemessageParams _ _ _ _ _ _ _ _ _ _ _ _).
  assert (∀ create1 atts0, same_target create0 create1 →
    match forward with None => cm_Content create1 = content | Some f => content_from c content f create1 end →
    wpm d (create ← MessageService.reply_target create1 replyToID;
      _ ← Scylla.Createmessage create ?> ErrorfW "failed to create message: %w";
      attachments ← MessageService.resolve_attachments media ch (time_uuid n) userID attachmentIDs;
      attachments ← MessageService.copy_attachments ch (time_uuid n) atts0 attachments;
      _ ← for_each (omap uuid_parse (Mentions.dedupMentions mentionIDs userID))
            (λ mUUID, ignore (MessageRepo.IncrementMentionCount mUUID ch));
      data ← MessageService.buildMessageEvent CHAT_EVENT_CREATE channelID guildID userID
               (MessageService.sent_message create (bool_decide (is_Some forward))) attachments;
      _ ← MessageService.publishChannelEvent lpb lister guildID channelID data;
      mret (MessageService.sent_message create (bool_decide (is_Some forward)), attachments)) Q c b) as Htail.
  2:{ destruct forward as [f|].
      - apply wpm_bind, wpm_forward_source; [|auto..]. intros create1 atts0 Hs _ Hf. by apply Htail.
      - apply wpm_bind, wpm_ret. apply Htail; [by split_and!|done]. }
  intros create1 atts0 Hs1 Hf. apply wpm_bind, wpm_reply_target; [|auto].
  intros create Hs Hc Hr _.
  destruct Hs1 as (E1 & E2 & E3 & E4 & E5 & E6 & E7), Hs as (F1 & F2 & F3 & F4 & F5 & F6 & F7).
  rewrite E1 in F1; rewrite E2 in F2; rewrite E3 in F3; rewrite E4 in F4; rewrite E5 in F5;
    rewrite E7 in F7; simpl in *.
  apply wpm_bind, wpm_on_err. unfold Scylla.Createmessage. apply wpm_exec; [|auto..].
  intros _. split; [|auto]. rewrite F1, F2.
  set (c1 := upsert_message _ _ _ _).
  apply wpm_bind, (wpm_touches same_messages); [apply touches_resolve_attachments|].
  intros [atts1|e|] c2 Hc2; [|auto..].
  apply wpm_bind, (wpm_touches same_messages); [apply touches_copy_attachments|].
  intros [atts2|e|] c3 Hc3; [|auto..].
  apply wpm_bind, (wpm_touches same_messages).
  { apply steps_for_each; [apply _|]. intros v. apply steps_ignore, touches_IncrementMentionCount;
      [apply _|]. intros. by split_and!. }
  intros [[]|e|] c4 Hc4; [|auto..].
  apply wpm_bind, wpm_buildMessageEvent; [|auto].
  intros evt _ _ _ Ht Hch' _ _ Hct Hid Hau _ _. simpl in Hct, Hid, Hau.
  apply wpm_bind, wpm_publishChannelEvent. intros l Hl. apply wpm_ret.
  assert (same_messages c1 c4) as (G1 & G2 & G3) by (etrans; [exact Hc2|etrans; [exact Hc3|exact Hc4]]).
  apply (HQ ch u create atts2 c4); [done|done| |done|done| |done].
  - split_and!; [done|done|by rewrite F2|by rewrite G1, F2|done|done|].
    exists l, evt. split_and!; [done|done|done|done|congruence|congruence|congruence].
  - destruct forward as [f|]; [|congruence]. destruct Hf as (?&?&?&?&?&?&?&?).
    eexists _, _, _. rewrite Hc. eauto.
Qed.

(** What passing the gate of a guild channel means. *)
Lemma Check_true u g relation name w w' :
  assoc relation relationToName = Some name → authz_wired = true →
  Authz.Check (UserKey (uuid_print u)) relation (GuildKey (uuid_print g)) w = (Ok true, w') →
  Authorized w.(db) u g name.
Proof.
  intros Hr Hw E. refine (wpd_run _ (λ o _, o = Ok true → Authorized w.(db) u g name) w _ w' _ E eq_refl).
  apply (wpd_Check u g relation name); [done|]. intros x Hx _ [= ->]. by apply Hx.
Qed.

Definition send_granted (w : World) (userID channelID guildID content : string)
    (attachmentIDs : list string) : Prop :=
  (Authz.CanSendInChannel userID channelID w).1 = Ok true ∧
  (authz_wired = true → ∀ u g, userID = uuid_print u → guildID = uuid_print g →
    (attachmentIDs ≠ [] → Authorized w.(db) u g "ATTACH_FILES") ∧
    (Mentions.containsEveryoneMention content = true → Authorized w.(db) u g "MENTION_EVERYONE")).

Lemma send_gate_Ok userID channelID guildID content attachmentIDs w w' :
  MessageService.send_gate userID channelID guildID content attachmentIDs w = (Ok tt, w') →
  guildID ≠ "" → send_granted w userID channelID guildID content attachmentIDs.
Proof.
  unfold MessageService.send_gate, string_eqb. case_bool_decide; [done|]. intros E _.
  apply bind_Ok_inv in E as (x1 & w1 & E1 & E). apply bind_Ok_inv in E as ([] & w1' & Hx1 & E).
  apply ensure_Ok_inv in Hx1 as [-> ->].
  apply bind_Ok_inv in E as (x2 & w2 & E2 & E). apply bind_Ok_inv in E as ([] & w2' & Hx2 & E).
  apply ensure_Ok_inv in Hx2 as [-> ->].
  apply bind_Ok_inv in E as (x3 & w3 & E3 & E). apply ensure_Ok_inv in E as [-> _].
  assert (w1.(db) = w.(db)) as D1.
  { destruct (silent_checkChannel userID channelID "can_send_messages" w) as [D _].
    unfold Authz.CanSendInChannel in E1. by rewrite E1 in D. }
  assert (w2.(db) = w1.(db)) as D2.
  { revert E2. case_bool_decide; [by intros [= <-]|]. intros E2.
    destruct (silent_Check (UserKey userID) "can_attach_files" (GuildKey guildID) w1) as [D _].
    change (Authz.CanAttachFiles userID guildID) with
      (Authz.Check (UserKey userID) "can_attach_files" (GuildKey guildID)) in E2.
    by rewrite E2 in D. }
  split; [by rewrite E1|]. intros Hw u g -> ->. split.
  - intros Hne. rewrite bool_decide_eq_false_2 in E2 by done. rewrite <- D1.
    by eapply (Check_true u g "can_attach_files"); [reflexivity|done|exact E2].
  - intros Hm. rewrite Hm in E3. rewrite <- D1, <- D2.
    by eapply (Check_true u g "can_mention_everyone"); [reflexivity|done|exact E3].
Qed.

Lemma silent_send_gate userID channelID guildID content attachmentIDs :
  steps silent (MessageService.send_gate userID channelID guildID content attachmentIDs).
Proof.
  unfold MessageService.send_gate, Authz.CanSendInChannel, Authz.CanAttachFiles,
    Authz.CanMentionEveryone, Authz.CanGuildPermission. steps_auto.
Qed.

(** The message [msg] with these contents was posted. *)
Definition sent (userID channelID guildID content : string) (ty : Z) (replyToID : string)
    (forward : option MessageService.ForwardSource) (mentionIDs : list string) (msg : Messages)
    (d : Db) (c : Cass) (b : bus_t) (c' : Cass) (b' : bus_t) : Prop :=
  ∃ ch u create, uuid_parse channelID = Some ch ∧ uuid_parse userID = Some u ∧
    posted d ch u channelID guildID create c c' b b' ∧
    msg = MessageService.sent_message create (bool_decide (is_Some forward)) ∧
    cm_Type create = ty ∧
    cm_MentionUserIds create = omap uuid_parse (Mentions.dedupMentions mentionIDs userID) ∧
    match forward with
    | None => cm_Content create = content
    | Some f => content_from c content f create
    end ∧ replies_to c replyToID create.

Lemma SendMessage_sent userID channelID guildID content ty replyToID attachmentIDs forward
    mentionIDs w w' msg atts :
  MessageService.SendMessage lpb lister media userID channelID guildID content ty replyToID
    attachmentIDs forward mentionIDs w = (Ok (msg, atts), w') →
  (guildID ≠ "" → send_granted w userID channelID guildID content attachmentIDs) ∧
  w'.(db) = w.(db) ∧
  sent userID channelID guildID content ty replyToID forward mentionIDs msg w.(db) w.(cass) w.(bus)
    w'.(cass) w'.(bus).
Proof.
  unfold MessageService.SendMessage. intros E.
  apply bind_Ok_inv in E as ([] & w1 & Hens & E). apply ensure_Ok_inv in Hens as [_ ->].
  apply bind_Ok_inv in E as ([] & w1 & Hens & E). apply ensure_Ok_inv in Hens as [_ ->].
  apply bind_Ok_inv in E as ([] & w1 & Hgate & E).
  split; [by eapply send_gate_Ok|].
  destruct (silent_send_gate userID channelID guildID content attachmentIDs w) as (D1 & D2 & _ & D3).
  rewrite Hgate in D1, D2, D3. simpl in D1, D2, D3. rewrite <- D1, <- D2, <- D3.
  eapply (wpm_run _ (λ o c' b', o = Ok (msg, atts) →
    sent userID channelID guildID content ty replyToID forward mentionIDs msg w1.(db) w1.(cass)
      w1.(bus) c' b')) in E as [? Hpost];
    [split; [done|exact (Hpost eq_refl)]|].
  apply wpm_post_message; [|done|done].
  intros ch u create atts' c' b' ???????. intros [= <- <-]. exists ch, u, create. by split_and!.
Qed.

(** C8: a successful send stores exactly one message and announces exactly that
    one.  In a guild the sender passed the channel check (and, for attachments
    and mass mentions of a wired service, holds ATTACH_FILES and
    MENTION_EVERYONE); the new row carries the author, the type, the
    deduplicated mentions and the content (or that of the live source of an
    empty forward); a reply names a live message of the same channel; no other
    message, no reaction and no edit history changes; in a guild the event is
    published exactly once, on the subject of the channel, and in a DM to
    current members only. *)
Theorem SendMessage_effect userID channelID guildID content ty replyToID attachmentIDs forward
    mentionIDs w w' msg atts :
  MessageService.SendMessage lpb lister media userID channelID guildID content ty replyToID
    attachmentIDs forward mentionIDs w = (Ok (msg, atts), w') →
  (guildID ≠ "" → send_granted w userID channelID guildID content attachmentIDs) ∧
  w'.(db) = w.(db) ∧
  sent userID channelID guildID content ty replyToID forward mentionIDs msg w.(db) w.(cass) w.(bus)
    w'.(cass) w'.(bus).
Proof. apply SendMessage_sent. Qed.

(** Without a guild nothing is checked.  When the request names no guild
    (a DM, but also a channel that is deleted or does not exist), [SendMessage]
    stores the message of any caller: no membership, no block and not even
    the existence of the channel is a condition. *)
Theorem SendMessage_without_guild_is_unguarded userID channelID content ty ch u w :
  fault_free → uuid_parse channelID = Some ch → uuid_parse userID = Some u → content ≠ "" →
  cql_int ty = true →
  let r := MessageService.SendMessage lpb lister media userID channelID "" content ty "" [] None [] w in
  ∃ id msg row, r.1 = Ok (msg, []) ∧ messages r.2.(cass) !! (ch, id) = Some row ∧
    m_author_id row = Some u ∧ m_content row = Some content ∧
    (messages w.(cass) !! (ch, id) = None → live_message r.2.(cass) ch id row).
Proof.
  intros Hff Hch Hu Hct Hty r. pose proof (fault_free_not_can_fail Hff) as Hno.
  assert (wpm w.(db) (MessageService.SendMessage lpb lister media userID channelID "" content ty "" []
      None []) (λ o c' _, ∃ id msg row, o = Ok (msg, []) ∧ messages c' !! (ch, id) = Some row ∧
        m_author_id row = Some u ∧ m_content row = Some content ∧
        (messages w.(cass) !! (ch, id) = None → live_message c' ch id row)) w.(cass) w.(bus)) as Hwp;
    [|destruct (Hwp w eq_refl eq_refl eq_refl) as [_ Hpost]; exact Hpost].
  unfold MessageService.SendMessage, MessageService.send_gate, MessageService.post_message.
  apply wpm_bind, wpm_ensure; [intros _|unfold string_eqb; case_bool_decide as E; [|done]].
  2:{ by rewrite E, uuid_parse_empty in Hch. }
  apply wpm_bind, wpm_ensure; [intros _|unfold string_eqb; by rewrite bool_decide_eq_false_2].
  apply wpm_bind, wpm_ret, wpm_bind. unfold MessageService.gocqlParseUUID. rewrite Hch, Hu.
  apply wpm_ret, wpm_bind, wpm_ret, wpm_bind, wpm_TimeUUID. intros n Hn.
  apply wpm_bind, wpm_now. intros t. cbv zeta.
  apply wpm_bind, wpm_ret, wpm_bind, wpm_ret, wpm_bind, wpm_on_err.
  unfold Scylla.Createmessage. apply wpm_exec; [|cbn; by rewrite Hn, Hty|by intros ?%Hno].
  intros _. split; [|by intros ?%Hno].
  apply wpm_bind. unfold MessageService.resolve_attachments.
  assert (∀ m : option MediaResolver, MessageService.resolve_attachments m ch (time_uuid n) userID [] = mret [])
    as Hnone by (by intros [?|]).
  unfold MessageService.resolve_attachments in Hnone. rewrite Hnone.
  apply wpm_ret, wpm_bind, wpm_ret, wpm_bind, wpm_ret, wpm_bind, wpm_buildMessageEvent;
    [|by intros [?|[?|?]]].
  intros evt _ _ _ _ _ _ _ _ _ _ _ _. apply wpm_bind, wpm_publishChannelEvent. intros l _.
  apply wpm_ret. eexists (time_uuid n), _, _. split; [done|]. simpl.
  rewrite lookup_insert_eq. split; [done|]. split; [done|]. split; [done|].
  intros Hnew. unfold live_message. simpl. rewrite lookup_insert_eq, Hnew. by split.
Qed.
End Send.

(** ** EditMessage and DeleteMessage *)

(** The same state, at a later interaction. *)
Definition same_state (w w1 : World) : Prop :=
  silent w w1 ∧ w1.(chanGuildCache) = w.(chanGuildCache).

Section EditDelete.
Context `{Env} `{!UuidText} `{!CqlTypes}.
Variables (lpb : bool) (lister : option DMChannelLister).
Implicit Types (c : Cass) (b : bus_t) (d : Db).

Lemma GetMessage_Ok ch id w m w1 :
  MessageRepo.GetMessage ch id w = (Ok m, w1) →
  same_state w w1 ∧ is_timeuuid id = true ∧ live_message w.(cass) ch id m.
Proof.
  unfold MessageRepo.GetMessage. intros E. apply bind_Ok_inv in E as (m' & w' & E & Hen).
  apply bind_Ok_inv in Hen as ([] & w2 & Hen & [[= <-] ->]%ret_inv).
  apply ensure_Ok_inv in Hen as [Hd%negb_true_iff ->].
  apply external_Ok_inv in E as (c & E & ->). simpl in E. rewrite !andb_true_r in E.
  destruct (is_timeuuid id) eqn:Hid; [|done].
  destruct (messages _ !! _) as [r|] eqn:Er; [|done]. injection E as -> <-. by split_and!.
Qed.

(** Someone else's message needs MANAGE_CHANNELS on a channel of a guild. *)
Definition manager_granted (w : World) (userID channelID guildID : string) : Prop :=
  guildID ≠ "" ∧ ∃ w1, same_state w w1 ∧ (Authz.CanManageChannel userID channelID w1).1 = Ok true.

Lemma manager_gate_Ok userID channelID guildID w e w' :
  (ok ← (if string_eqb guildID "" then mret false else Authz.CanManageChannel userID channelID);
   ensure ok e) w = (Ok tt, w') →
  silent w w' ∧ manager_granted w userID channelID guildID.
Proof.
  intros E. apply bind_Ok_inv in E as (x & w1 & E & Hen). apply ensure_Ok_inv in Hen as [-> ->].
  unfold string_eqb in E. case_bool_decide as Hg; [by injection E|]. split.
  - pose proof (silent_checkChannel userID channelID "can_manage_channels" w) as Hs.
    unfold Authz.CanManageChannel in E. by rewrite E in Hs.
  - split; [done|]. exists w. split; [by split_and!|]. by rewrite E.
Qed.

Lemma edit_gate_Ok userID channelID guildID u m w w' :
  MessageService.edit_gate userID channelID guildID u m w = (Ok tt, w') →
  silent w w' ∧ tick w ≤ tick w' ∧
  if decide (MessageRepo.uuidValue (m_author_id m) = u)
  then tick w' = S (tick w) ∧
       (clock (tick w) - timeValue (m_created_at m) ≤ MessageService.EditWindow)%Z
  else manager_granted w userID channelID guildID.
Proof.
  intros Hrun.
  assert (steps later (MessageService.edit_gate userID channelID guildID u m)) as Hl.
  { unfold MessageService.edit_gate, Authz.CanManageChannel, Authz.checkChannel, Authz.resolveChannelGuild,
      Authz.cacheChannelGuild, Authz.parseUUID, Authz.isDMMember, Authz.isOwnerOrAdmin, Authz.Check,
      Authz.applyChannelOverride, Authz.with_uuid, Authz.query_or.
    steps_auto; intros v; unfold later; simpl; lia. }
  specialize (Hl w). rewrite Hrun in Hl. revert Hrun.
  unfold MessageService.edit_gate. destruct (decide _).
  - intros E. apply bind_Ok_inv in E as (t & w1 & [= <- <-] & E).
    apply ensure_Ok_inv in E as [Ht%negb_true_iff ->]. split; [by split_and!|].
    split; [exact Hl|]. split; [done|]. by apply Z.ltb_ge in Ht.
  - intros [Hs Hg]%manager_gate_Ok. by split_and!.
Qed.
Lemma GetMessage_tick ch id w : tick (MessageRepo.GetMessage ch id w).2 = S (tick w).
Proof.
  unfold MessageRepo.GetMessage, mbind, gom_bind.
  assert (tick (Scylla.Getmessage ch id w).2 = S (tick w)) as Hg by by apply external_tick.
  destruct (Scylla.Getmessage ch id w) as [[m|e|] w1]; simpl in *; [|done..].
  by destruct (boolValue _).
Qed.

Lemma same_state_eqs w w1 w2 :
  same_state w w1 → silent w1 w2 → w2.(db) = w.(db) ∧ w2.(cass) = w.(cass) ∧ w2.(bus) = w.(bus).
Proof. intros [(?&?&?&?) _] (?&?&?&?). split_and!; congruence. Qed.
Lemma manager_granted_before w w1 userID channelID guildID :
  same_state w w1 → manager_granted w1 userID channelID guildID →
  manager_granted w userID channelID guildID.
Proof.
  intros [Hs Hc] (Hg & w2 & [Hs2 Hc2] & Hok). split; [done|]. exists w2. split; [|done].
  split; [by etrans|congruence].
Qed.

(** One upsert of a row that is there. *)
Lemma upsert_message_at ch id f c m :
  messages c !! (ch, id) = Some m →
  messages (upsert_message ch id f c) = <[(ch, id) := f m]> (messages c).
Proof. intros E. unfold upsert_message. simpl. by rewrite E. Qed.

(** The store after an edit of [m]: the new content in the row, the old one in
    the history (whose write is best effort). *)
Definition edited (ch id : uuid) (content : string) (t : time) (m : Messages) (c c' : Cass) : Prop :=
  messages c' = <[(ch, id) := set_content content (cql_timestamp t) m]> (messages c) ∧
  message_reactions c' = message_reactions c ∧ message_attachments c' = message_attachments c ∧
  read_states c' = read_states c ∧
  let h := <[(ch, id, cql_timestamp t) :=
     mkMessageEditHistory (Some ch) (Some id) (Some (stringValue (m_content m)))
       (Some (cql_timestamp t))]> (message_edit_history c) in
  (message_edit_history c' = h ∨ can_fail ∧ message_edit_history c' = message_edit_history c).

(** The writes of an edit at the time [t], and the event. *)
Lemma wpm_edit_at d userID channelID guildID ch id content m t
    (Q : outcome Messages → Cass → bus_t → Prop) c b :
  messages c !! (ch, id) = Some m → is_timeuuid id = true →
  (∀ c' l evt, edited ch id content t m c c' → delivered lpb d guildID channelID evt l →
     tce_content evt = content → tce_type evt = CHAT_EVENT_UPDATE →
     Q (Ok (set_content content t m)) c' (b ++ l)) →
  (∀ e c' b', Q (Err e) c' b') → (∀ c' b', Q Panic c' b') →
  wpm d (_ ← Scylla.Updatemessagecontent content t ch id ?> ErrorfW "failed to edit message: %w";
    _ ← ignore (Scylla.Saveedithistory ch id (stringValue (m_content m)) t);
    let existing := set_content content t m in
    atts ← MessageService.loadAttachments ch id;
    data ← MessageService.buildMessageEvent CHAT_EVENT_UPDATE channelID guildID userID existing atts;
    _ ← MessageService.publishChannelEvent lpb lister guildID channelID data;
    mret existing) Q c b.
Proof.
  intros Hm Hid HQ HE HP. unfold Scylla.Updatemessagecontent, Scylla.Saveedithistory.
  apply wpm_bind, wpm_on_err, wpm_exec; [|auto..].
  intros _. split; [|auto]. set (c1 := upsert_message _ _ _ c).
  assert (messages c1 = <[(ch, id) := set_content content (cql_timestamp t) m]> (messages c)) as Hc1
    by by apply upsert_message_at.
  assert (∀ c', edited ch id content t m c c' → wpm d
    (atts ← MessageService.loadAttachments ch id;
     data ← MessageService.buildMessageEvent CHAT_EVENT_UPDATE channelID guildID userID
              (set_content content t m) atts;
     _ ← MessageService.publishChannelEvent lpb lister guildID channelID data;
     mret (set_content content t m)) Q c' b) as Htail.
  { intros c' Hc'. apply wpm_bind, wpm_loadAttachments. intros atts.
    apply wpm_bind, wpm_buildMessageEvent; [|auto].
    intros evt _ _ _ Ht _ _ _ [= Hct] _ _ _ _. apply wpm_bind, wpm_publishChannelEvent.
    intros l Hl. by apply wpm_ret, (HQ c' l evt). }
  apply wpm_bind, wpm_ignore, wpm_exec.
  - intros _. split; [|intros _]; apply Htail; (split_and!; [done..|by left]).
  - simpl. by rewrite Hid.
  - intros Hf. apply Htail. split_and!; [done..|by right].
Qed.

Lemma edit_at_later userID channelID guildID ch id content m t :
  steps later (_ ← Scylla.Updatemessagecontent content t ch id ?> ErrorfW "failed to edit message: %w";
    _ ← ignore (Scylla.Saveedithistory ch id (stringValue (m_content m)) t);
    let existing := set_content content t m in
    atts ← MessageService.loadAttachments ch id;
    data ← MessageService.buildMessageEvent CHAT_EVENT_UPDATE channelID guildID userID existing atts;
    _ ← MessageService.publishChannelEvent lpb lister guildID channelID data;
    mret existing).
Proof.
  pose proof dml_members_later as Hm.
  unfold Scylla.Updatemessagecontent, Scylla.Saveedithistory, MessageService.loadAttachments,
    Scylla.Getmessageattachments, MessageService.buildMessageEvent, MessageRepo.GetReactions,
    MessageService.publishChannelEvent, MessageService.dm_members, Scylla.exec, Scylla.select.
  steps_auto; auto.
Qed.

(** C35: an edit changes one message and keeps what it replaced.  A successful
    edit found a live message; the caller is its author, and at most the edit
    window of 24 hours lay between its creation and the test, the interaction
    of the call after the lookup; or he may manage the guild channel.  The row
    keeps everything but content and edit time, which is the clock at an
    interaction of this call ([n], the next one for an author); the old content
    is in the edit history under that time (if the write was not lost); the
    event carries the new content to those who may see it. *)
Theorem EditMessage_effect userID channelID guildID messageID content w w' m' :
  MessageService.EditMessage lpb lister userID channelID guildID messageID content w = (Ok m', w') →
  ∃ ch id u m n, uuid_parse channelID = Some ch ∧ uuid_parse messageID = Some id ∧
    uuid_parse userID = Some u ∧ live_message w.(cass) ch id m ∧
    (if decide (MessageRepo.uuidValue (m_author_id m) = u)
     then (clock (S (tick w)) - timeValue (m_created_at m) ≤ MessageService.EditWindow)%Z ∧
          n = S (S (tick w))
     else manager_granted w userID channelID guildID) ∧
    tick w < n < tick w' ∧
    m' = set_content content (clock n) m ∧ edited ch id content (clock n) m w.(cass) w'.(cass) ∧
    ∃ l evt, w'.(bus) = w.(bus) ++ l ∧ delivered lpb w.(db) guildID channelID evt l ∧
             tce_content evt = content.
Proof.
  unfold MessageService.EditMessage. intros E.
  apply bind_Ok_inv in E as (ch & ? & [Hch ->]%parse_Ok_inv & E).
  apply bind_Ok_inv in E as (id & ? & [Hid ->]%parse_Ok_inv & E).
  apply bind_Ok_inv in E as (u & ? & [Hu ->]%parse_Ok_inv & E).
  apply bind_Ok_inv in E as (m & w1 & Hget%on_err_Ok_inv & E).
  apply bind_Ok_inv in E as ([] & w2 & Hgate & E).
  pose proof (GetMessage_tick ch id w) as T1. rewrite Hget in T1. simpl in T1.
  apply GetMessage_Ok in Hget as (Hs1 & Hidok & Hlive). apply edit_gate_Ok in Hgate as (Hs2 & T2 & Hgate).
  destruct (same_state_eqs w w1 w2 Hs1 Hs2) as (D & C & B).
  exists ch, id, u, m, (tick w2). unfold MessageService.apply_edit in E.
  rewrite (bind_run now _ w2 _ _ eq_refl) in E. pose proof (edit_at_later userID channelID guildID ch id content m (clock (tick w2)) (bump w2)) as T3.
  cbv beta zeta in E, T3. rewrite E in T3. unfold later in T3. simpl in T3.
  assert (tick w < tick w2 < tick w') as Hn by lia.
  assert (db (bump w2) = db w2 ∧ cass (bump w2) = cass w2 ∧ bus (bump w2) = bus w2) as (D' & C' & B') by done.
  eapply (wpm_run _ (λ o c' b', o = Ok m' → m' = set_content content (clock (tick w2)) m ∧
    edited ch id content (clock (tick w2)) m w2.(cass) c' ∧ ∃ l evt, b' = w2.(bus) ++ l ∧
      delivered lpb w2.(db) guildID channelID evt l ∧ tce_content evt = content)) in E as [_ Hpost].
  - destruct (Hpost eq_refl) as (-> & Hed & Hl).
    rewrite <- D, <- C, <- B. split_and!; [done|done|done|by rewrite C| |lia|lia|done|done|done].
    destruct (decide _); [by rewrite T1 in Hgate; destruct Hgate|]. by eapply manager_granted_before.
  - rewrite D', C', B', C, B. apply wpm_edit_at; [apply Hlive|done| |done|done].
    intros c' l evt Hed Hl Hct _ [= <-]. split_and!; [done..|]. by exists l, evt.
Qed.

(** The store after the deletion of [m]: a tombstone without children. *)
Definition deleted_children (ch id : uuid) (c c' : Cass) : Prop :=
  (∀ k, message_attachments c' !! k = if decide (k.1 = (ch, id)) then None else message_attachments c !! k) ∧
  (∀ k, message_reactions c' !! k = if decide (k.1.1 = (ch, id)) then None else message_reactions c !! k) ∧
  (∀ k, message_edit_history c' !! k = if decide (k.1 = (ch, id)) then None else message_edit_history c !! k).
Definition tombstoned (ch id : uuid) (t : time) (m : Messages) (c c' : Cass) : Prop :=
  messages c' = <[(ch, id) := set_deleted (cql_timestamp t) m]> (messages c) ∧
  read_states c' = read_states c ∧ (can_fail ∨ deleted_children ch id c c').

Lemma lookup_filter_key {K V} `{Countable K} (P : K * V → Prop) `{!∀ x, Decision (P x)}
    (R : K → Prop) `{!∀ k, Decision (R k)} (t : gmap K V) k :
  (∀ k v, P (k, v) ↔ ¬ R k) →
  filter P t !! k = if decide (R k) then None else t !! k.
Proof.
  intros HP. destruct (decide (R k)) as [HR|HR].
  - apply map_lookup_filter_None. right. intros v _ Hn. by apply HP in Hn.
  - destruct (t !! k) as [v|] eqn:E; [by apply map_lookup_filter_Some; rewrite HP|].
    apply map_lookup_filter_None. by left.
Qed.

(** A best-effort statement with valid arguments took effect, unless it was lost. *)
Lemma wpm_ignore_exec d ids ok f (Q : outcome unit → Cass → bus_t → Prop) c b :
  forallb is_timeuuid ids && ok = true →
  (∀ c', c' = f c ∨ can_fail ∧ c' = c → Q (Ok tt) c' b) →
  wpm d (ignore (Scylla.exec ids ok f)) Q c b.
Proof.
  intros Hv HQ. apply wpm_ignore, wpm_exec.
  - intros _. split; [|intros _]; apply HQ; by left.
  - by rewrite Hv.
  - intros ?. apply HQ. by right.
Qed.

Lemma wpm_CascadeDeleteChildren d ch id (Q : outcome unit → Cass → bus_t → Prop) c b :
  is_timeuuid id = true →
  (∀ c', messages c' = messages c → read_states c' = read_states c →
         (can_fail ∨ deleted_children ch id c c') → Q (Ok tt) c' b) →
  wpm d (ignore (MessageRepo.CascadeDeleteChildren ch id)) Q c b.
Proof.
  intros Hid HQ. unfold MessageRepo.CascadeDeleteChildren, Scylla.Deletemessageattachments,
    Scylla.Deletemessagereactions, Scylla.Deleteedithistory.
  apply wpm_ignore, wpm_bind, wpm_ignore_exec; [by cbn; rewrite Hid|]. intros c1 H1c.
  apply wpm_bind, wpm_ignore_exec; [by cbn; rewrite Hid|]. intros c2 H2c.
  apply wpm_bind, wpm_ignore_exec; [by cbn; rewrite Hid|]. intros c3 H3c. apply wpm_ret.
  apply HQ.
  - by destruct H1c as [->|[_ ->]], H2c as [->|[_ ->]], H3c as [->|[_ ->]].
  - by destruct H1c as [->|[_ ->]], H2c as [->|[_ ->]], H3c as [->|[_ ->]].
  - destruct H1c as [->|[? _]]; [|by left]. destruct H2c as [->|[? _]]; [|by left].
    destruct H3c as [->|[? _]]; [|by left]. right. split_and!; intros k; simpl.
    + rewrite (lookup_filter_key _ (λ k : uuid * uuid * uuid, k.1 = (ch, id))) by done. by repeat case_decide.
    + rewrite (lookup_filter_key _ (λ k : uuid * uuid * string * uuid, k.1.1 = (ch, id))) by done. by repeat case_decide.
    + rewrite (lookup_filter_key _ (λ k : uuid * uuid * Z, k.1 = (ch, id))) by done. by repeat case_decide.
Qed.

Lemma wpm_apply_delete d userID channelID guildID ch id m
    (Q : outcome unit → Cass → bus_t → Prop) c b :
  messages c !! (ch, id) = Some m → is_timeuuid id = true →
  (∀ t c' l evt, tombstoned ch id t m c c' → delivered lpb d guildID channelID evt l →
     tce_type evt = CHAT_EVENT_DELETE → tce_deleted evt = true → Q (Ok tt) c' (b ++ l)) →
  (∀ e c' b', Q (Err e) c' b') → (∀ c' b', Q Panic c' b') →
  wpm d (MessageService.apply_delete lpb lister userID channelID guildID ch id m) Q c b.
Proof.
  intros Hm Hid HQ HE HP. unfold MessageService.apply_delete, MessageRepo.DeleteMessage, Scylla.Deletemessage.
  apply wpm_bind, wpm_on_err, wpm_bind, wpm_now. intros t. apply wpm_exec; [|auto..].
  intros _. split; [|auto]. set (c1 := upsert_message _ _ _ c).
  assert (messages c1 = <[(ch, id) := set_deleted (cql_timestamp t) m]> (messages c)) as Hc1
    by by apply upsert_message_at.
  apply wpm_bind, wpm_CascadeDeleteChildren; [done|]. intros c2 M2 R2 Hch.
  apply wpm_bind, wpm_buildMessageEvent; [|auto].
  intros evt _ _ _ Ht _ _ _ _ _ _ Hdel _. apply wpm_publishChannelEvent. intros l Hl.
  apply (HQ t c2 l evt); [|done..]. split_and!; [by rewrite M2|by rewrite R2|exact Hch].
Qed.

Lemma delete_gate_Ok userID channelID guildID u m w w' :
  MessageService.delete_gate userID channelID guildID u m w = (Ok tt, w') →
  silent w w' ∧ (MessageRepo.uuidValue (m_author_id m) = u ∨ manager_granted w userID channelID guildID).
Proof.
  unfold MessageService.delete_gate. destruct (decide _); [intros [= <-]; split; [by split_and!|by left]|].
  intros [? ?]%manager_gate_Ok. split; [done|by right].
Qed.

(** A deletion leaves a tombstone and no children.  A successful deletion
    found a live message; the caller wrote it or may manage the guild channel;
    afterwards the row is marked deleted, so no lookup finds it; and unless a
    clean-up statement was lost none of its attachments, reactions and edits is
    left, while those of every other message are. *)
Theorem DeleteMessage_effect userID channelID guildID messageID w w' :
  MessageService.DeleteMessage lpb lister userID channelID guildID messageID w = (Ok tt, w') →
  ∃ ch id u m t, uuid_parse channelID = Some ch ∧ uuid_parse messageID = Some id ∧
    uuid_parse userID = Some u ∧ live_message w.(cass) ch id m ∧
    (MessageRepo.uuidValue (m_author_id m) = u ∨ manager_granted w userID channelID guildID) ∧
    tombstoned ch id t m w.(cass) w'.(cass) ∧
    (∀ m', ¬ live_message w'.(cass) ch id m') ∧
    (∃ l evt, w'.(bus) = w.(bus) ++ l ∧ delivered lpb w.(db) guildID channelID evt l ∧
              tce_type evt = CHAT_EVENT_DELETE).
Proof.
  unfold MessageService.DeleteMessage. intros E.
  apply bind_Ok_inv in E as (ch & ? & [Hch ->]%parse_Ok_inv & E).
  apply bind_Ok_inv in E as (id & ? & [Hid ->]%parse_Ok_inv & E).
  apply bind_Ok_inv in E as (u & ? & [Hu ->]%parse_Ok_inv & E).
  apply bind_Ok_inv in E as (m & w1 & Hget%on_err_Ok_inv & E).
  apply bind_Ok_inv in E as ([] & w2 & Hgate & E).
  apply GetMessage_Ok in Hget as (Hs1 & Hidok & Hlive). apply delete_gate_Ok in Hgate as [Hs2 Hgate].
  destruct (same_state_eqs w w1 w2 Hs1 Hs2) as (D & C & B).
  eapply (wpm_run _ (λ o c' b', o = Ok tt → ∃ t, tombstoned ch id t m w2.(cass) c' ∧
    ∃ l evt, b' = w2.(bus) ++ l ∧ delivered lpb w2.(db) guildID channelID evt l ∧
      tce_type evt = CHAT_EVENT_DELETE)) in E as [_ Hpost].
  - destruct (Hpost eq_refl) as (t & Ht & Hl). exists ch, id, u, m, t.
    rewrite <- D, <- B. rewrite C in Ht. split_and!; [done|done|done|done| |done| |done].
    + destruct Hgate; [by left|right; by eapply manager_granted_before].
    + destruct Ht as (M & _). unfold live_message. rewrite M. intros m'.
      rewrite lookup_insert_eq. by intros [[= <-] ?].
  - rewrite C, B. apply wpm_apply_delete; [apply Hlive|done| |done|done].
    intros t c' l evt Ht Hl Hty _ _. exists t. split; [done|]. by exists l, evt.
Qed.
End EditDelete.

(** * Concrete instances

    Channel 10 is the DM of users 1 and 3 of [demo_db], channel 9 a channel of
    guild 2: user 3 wrote messages 50 (live) and 51 (deleted) into the DM and
    60 into the guild channel. *)
#[local] Existing Instance demo_wired.
#[local] Existing Instance demo_uuid.
#[local] Existing Instance demo_cql.

Definition demo_message (ch id author : uuid) (content : string) (deleted : bool) : Messages :=
  mkMessages (Some ch) (Some id) (Some author) (Some content) (Some 1%Z) (Some 1%positive)
    (Some false) (if deleted then Some true else None) None None (Some 0%Z) (Some 1%positive)
    (Some 1%positive) (Some 1%positive) None.
Definition demo_cass : Cass :=
  mkCass
    {[(10, 50)%positive := demo_message 10 50 3 "hello" false;
      (10, 51)%positive := demo_message 10 51 3 "oops" true;
      (9, 60)%positive := demo_message 9 60 3 "hi all" false]}
    ∅
    {[(10%positive, 50%positive, "+1", 1%positive) :=
        mkMessageReactions (Some 10) (Some 50) (Some "+1") (Some 1);
      (10%positive, 50%positive, "+1", 3%positive) :=
        mkMessageReactions (Some 10) (Some 50) (Some "+1") (Some 3)]}%positive
    {[(1, 10)%positive := mkReadStates (Some 1%positive) (Some 10%positive) (Some 50%positive) (Some 2%Z)]}
    ∅.
Definition message_demo_world : World := with_cass demo_cass demo_world.

Definition demo_send : GoM World (Messages * list MessageAttachments) :=
  MessageService.SendMessage true None None (uuid_print 1) (uuid_print 9) (uuid_print 2)
    "hey @everyone" 1 "" [] None [].
Definition demo_edit : GoM World Messages :=
  MessageService.EditMessage true None (uuid_print 3) (uuid_print 10) "" (uuid_print 50) "bye".
Definition demo_delete : GoM World unit :=
  MessageService.DeleteMessage true None (uuid_print 3) (uuid_print 10) "" (uuid_print 50).
Lemma demo_send_runs : is_Ok (demo_send message_demo_world).1 = true.
Proof. vm_compute. reflexivity. Qed.
Lemma demo_edit_runs : is_Ok (demo_edit message_demo_world).1 = true.
Proof. vm_compute. reflexivity. Qed.
Lemma demo_delete_runs : is_Ok (demo_delete message_demo_world).1 = true.
Proof. vm_compute. reflexivity. Qed.

Lemma SendMessage_effect_witness :
  ∃ create w', posted true demo_db 9 1 (uuid_print 9) (uuid_print 2) create demo_cass w'.(cass) [] w'.(bus) ∧
    cm_Content create = "hey @everyone".
Proof.
  destruct (run_Ok _ _ demo_send_runs) as [[msg atts] E].
  destruct (SendMessage_effect true None None (uuid_print 1) (uuid_print 9) (uuid_print 2)
    "hey @everyone" 1 "" [] None [] message_demo_world _ msg atts E)
    as (_ & _ & ch & u & create & Hch & Hu & Hp & _ & _ & _ & Hc & _).
  exists create, (demo_send message_demo_world).2.
  vm_compute in Hch, Hu. injection Hch as <-. injection Hu as <-. by split.
Defined.

Lemma SendMessage_without_guild_is_unguarded_witness :
  ∃ msg, (MessageService.SendMessage true None None (uuid_print 4) (uuid_print 10) "" "spam" 1 "" []
            None [] message_demo_world).1 = Ok (msg, []) ∧
    Queries.dm_live demo_db 10 4 = false.
Proof.
  destruct (SendMessage_without_guild_is_unguarded true None None (uuid_print 4) (uuid_print 10) "spam"
    1 10 4 message_demo_world) as (id & msg & row & Hok & _);
    [exact demo_fault_free|reflexivity|reflexivity|discriminate|reflexivity|].
  exists msg. split; [exact Hok|reflexivity].
Defined.

Lemma EditMessage_effect_witness :
  ∃ t w', edited 10 50 "bye" t (demo_message 10 50 3 "hello" false) demo_cass w'.(cass).
Proof.
  destruct (run_Ok _ _ demo_edit_runs) as [m' E].
  destruct (EditMessage_effect true None (uuid_print 3) (uuid_print 10) "" (uuid_print 50) "bye"
    message_demo_world _ m' E) as (ch & id & u & m & n & Hch & Hid & _ & [Hm _] & _ & _ & _ & Hed & _).
  vm_compute in Hch, Hid. injection Hch as <-. injection Hid as <-.
  assert (m = demo_message 10 50 3 "hello" false) as -> by (vm_compute in Hm; by injection Hm as <-).
  by exists (clock n), (demo_edit message_demo_world).2.
Defined.

Lemma DeleteMessage_effect_witness :
  ∃ w', (∀ m', ¬ live_message w'.(cass) 10 50 m').
Proof.
  destruct (run_Ok _ _ demo_delete_runs) as [[] E].
  destruct (DeleteMessage_effect true None (uuid_print 3) (uuid_print 10) "" (uuid_print 50)
    message_demo_world _ E) as (ch & id & u & m & t & Hch & Hid & _ & _ & _ & _ & Hno & _).
  vm_compute in Hch, Hid. injection Hch as <-. injection Hid as <-.
  by exists (demo_delete message_demo_world).2.
Defined.
