(* ===== verification/MessageStateFacts.v ===== *)
(** * MessageStateFacts: pins, reactions and read states

    Pinning is an upsert, also of a message that does not exist; reactions are
    sets of users per emoji and are counted as such; the mention badge counts
    up from a stored read marker and is reset by an acknowledgement; a bulk
    deletion tombstones every identifier it is given. *)
From S2P Require Import Prelude Realtime Store Queries Authz Wp AuthzFacts.
From S2P Require Import Scylla Mentions Message Wpm MessageFacts.

Section Pins.
Context `{Env} `{!UuidText} `{!CqlTypes}.
Variables (lpb : bool) (lister : option DMChannelLister).
Implicit Types (c : Cass) (b : bus_t) (d : Db).

(** What follows from the row that the pin left behind. *)
Definition pin_outcome (row : Messages) : outcome unit :=
  if boolValue (m_deleted row) then Ok tt
  else match m_content row, m_type row with Some _, Some _ => Ok tt | _, _ => Panic end.

Lemma wpm_apply_pin d userID channelID guildID messageID pinned ch id
    (Q : outcome unit → Cass → bus_t → Prop) c b :
  fault_free → uuid_parse channelID = Some ch → uuid_parse messageID = Some id →
  is_timeuuid id = true →
  let row := set_pinned pinned (default (empty_message ch id) (messages c !! (ch, id))) in
  (∀ l, Q (pin_outcome row) (with_messages (<[(ch, id) := row]> (messages c)) c) (b ++ l)) →
  wpm d (MessageService.apply_pin lpb lister userID channelID guildID messageID pinned) Q c b.
Proof.
  intros Hff Hch Hid Htime row HQ. pose proof (fault_free_not_can_fail Hff) as Hno.
  unfold MessageService.apply_pin, MessageService.gocqlParseUUID. rewrite Hch, Hid.
  apply wpm_bind, wpm_ret, wpm_bind, wpm_ret, wpm_bind. unfold Scylla.Setpinned.
  apply wpm_exec; [|cbn; by rewrite Htime|by intros ?%Hno]. intros _. split; [|by intros ?%Hno].
  assert (messages (upsert_message ch id (set_pinned pinned) c) !! (ch, id) = Some row) as Hrow
    by (simpl; by rewrite lookup_insert_eq).
  assert (∀ o, pin_outcome row = o → Q o (upsert_message ch id (set_pinned pinned) c) b) as Hend
    by (intros o <-; rewrite <- (app_nil_r b); apply HQ).
  apply wpm_bind, wpm_try, wpm_GetMessage.
  - intros m _ Hm Hd. rewrite Hrow in Hm. injection Hm as <-.
    apply wpm_bind, wpm_loadAttachments. intros atts.
    apply wpm_bind, wpm_buildMessageEvent.
    + intros evt [x Hx] [y Hy] _ _ _ _ _ _ _ _ _ _. simpl in Hx, Hy.
      apply wpm_publishChannelEvent. intros l _.
      assert (pin_outcome row = Ok tt) as <- by (unfold pin_outcome; simpl in *; by rewrite Hd, Hx, Hy).
      apply HQ.
    + intros Hnull. apply Hend. unfold pin_outcome. rewrite Hd. simpl in *.
      destruct Hnull as [E|[E|?]]; [by rewrite E|rewrite E; by destruct (m_content _)|done].
  - intros e Hnot. apply wpm_ret, Hend. destruct (Hnot Htime Hno) as [E|(m & Hm & Hd)]; [congruence|].
    rewrite Hrow in Hm. injection Hm as <-. unfold pin_outcome. by rewrite Hd.
Qed.

(** Pinning is an upsert.  When the database answers, whoever may pin in
    the guild (or anyone, outside guilds) sets the flag of exactly the row the
    identifiers name; a row that was never sent is created with every other
    cell null, and the request, which then reads it back, panics on the null
    content. *)
Theorem PinMessage_upserts userID channelID guildID messageID pinned ch id w :
  fault_free → uuid_parse channelID = Some ch → uuid_parse messageID = Some id →
  is_timeuuid id = true →
  guildID = "" ∨ (Authz.CanPinMessages userID guildID w).1 = Ok true →
  let r := MessageService.setPinned lpb lister userID channelID guildID messageID pinned w in
  let row := set_pinned pinned (default (empty_message ch id) (messages w.(cass) !! (ch, id))) in
  messages r.2.(cass) = <[(ch, id) := row]> (messages w.(cass)) ∧
  r.1 = pin_outcome row ∧
  (messages w.(cass) !! (ch, id) = None → r.1 = Panic ∧ live_message r.2.(cass) ch id row).
Proof.
  intros Hff Hch Hid Htime Hok r row.
  assert (∃ w1, silent w w1 ∧
    r = MessageService.apply_pin lpb lister userID channelID guildID messageID pinned w1) as (w1 & Hs & Hr).
  { subst r. unfold MessageService.setPinned, string_eqb. case_bool_decide as Hg.
    - exists w. by split.
    - destruct Hok as [?|Hok]; [done|]. exists (Authz.CanPinMessages userID guildID w).2.
      split; [apply silent_Check|]. unfold mbind, gom_bind.
      destruct (Authz.CanPinMessages userID guildID w) as [o w1]. simpl in Hok. by rewrite Hok. }
  destruct Hs as (_ & Hc & _ & _). rewrite Hr. subst row. rewrite <- Hc.
  assert (wpm w1.(db) (MessageService.apply_pin lpb lister userID channelID guildID messageID pinned)
    (λ o c' _, let row := set_pinned pinned (default (empty_message ch id) (messages w1.(cass) !! (ch, id))) in
       messages c' = <[(ch, id) := row]> (messages w1.(cass)) ∧ o = pin_outcome row)
    w1.(cass) w1.(bus)) as Hwp by (by eapply wpm_apply_pin).
  destruct (Hwp w1 eq_refl eq_refl eq_refl) as (_ & Hm & Ho). split; [exact Hm|]. split; [exact Ho|].
  intros Hnone. rewrite Ho. rewrite Hnone in *. split; [done|].
  unfold live_message. rewrite Hm. simpl. by rewrite lookup_insert_eq.
Qed.
End Pins.

(** ** Reactions *)
Section Reactions.
Context `{Env} `{!UuidText} `{!CqlTypes}.
Implicit Types (c : Cass) (b : bus_t) (d : Db).

Lemma elem_of_reactions_of c ch id e u :
  mkGetreactionsRow e u ∈ Scylla.reactions_of c ch id ↔ is_Some (message_reactions c !! (ch, id, e, u)).
Proof.
  unfold Scylla.reactions_of. rewrite list_elem_of_omap. split.
  - intros ([[[[ch' id'] e'] u'] x] & Hin & E). case_bool_decide; simplify_eq.
    apply elem_of_map_to_list in Hin. eauto.
  - intros [x Hx]. exists (ch, id, e, u, x). split; [by apply elem_of_map_to_list|].
    by rewrite bool_decide_eq_true_2.
Qed.

Lemma NoDup_reactions_of c ch id : NoDup (Scylla.reactions_of c ch id).
Proof.
  apply NoDup_omap_inj; [|apply NoDup_map_to_list].
  intros [[[[ch1 id1] e1] u1] x1] [[[[ch2 id2] e2] u2] x2] z H1i H2i E1 E2.
  repeat case_bool_decide; simplify_eq.
  apply elem_of_map_to_list in H1i, H2i. by simplify_eq.
Qed.

(** The users of one emoji, in the order of the rows. *)
Definition users_of (e : string) (data : list GetreactionsRow) : list uuid :=
  omap (λ r, if decide (gr_Emoji r = e) then Some (gr_UserId r) else None) data.

Lemma emoji_users_lookup data e :
  MessageRepo.emoji_users data !! e =
    match users_of e data with [] => None | us => Some us end.
Proof.
  unfold MessageRepo.emoji_users. induction data as [|r data IH] using rev_ind; [done|].
  rewrite fold_left_app. cbn [fold_left]. unfold users_of. rewrite omap_app. simpl.
  fold (users_of e data). destruct (decide (gr_Emoji r = e)) as [<-|Hne].
  - rewrite lookup_insert_eq, IH. by destruct (users_of (gr_Emoji r) data).
  - rewrite lookup_insert_ne, app_nil_r by done. exact IH.
Qed.

Lemma elem_of_users_of c ch id e u :
  u ∈ users_of e (Scylla.reactions_of c ch id) ↔ is_Some (message_reactions c !! (ch, id, e, u)).
Proof.
  rewrite <- elem_of_reactions_of. unfold users_of. rewrite list_elem_of_omap. split.
  - intros ([e' u'] & Hin & E). simpl in E. case_decide; simplify_eq. done.
  - intros Hin. exists (mkGetreactionsRow e u). split; [done|]. simpl. by rewrite decide_True.
Qed.

Lemma NoDup_users_of c ch id e : NoDup (users_of e (Scylla.reactions_of c ch id)).
Proof.
  apply NoDup_omap_inj; [|apply NoDup_reactions_of].
  intros [e1 u1] [e2 u2] z _ _ E1 E2. simpl in *. repeat case_decide; by simplify_eq.
Qed.

Lemma user_loop_spec me users acc :
  (MessageRepo.user_loop me users acc).2 = bool_decide (me ∈ users) ∧
  ∃ l, (MessageRepo.user_loop me users acc).1 = acc ++ l.
Proof.
  revert acc. induction users as [|u users IH]; intros acc; cbn [MessageRepo.user_loop].
  { split; [rewrite bool_decide_eq_false_2; [done|by apply not_elem_of_nil]|]. exists []. by rewrite app_nil_r. }
  destruct (decide (u = me)) as [->|E].
  - split; [|by exists [uuid_print me]]. rewrite bool_decide_eq_true_2; [done|by left].
  - destruct (IH (acc ++ [uuid_print u])) as [Hb [l Hl]]. split.
    + rewrite Hb. apply bool_decide_ext. rewrite elem_of_cons. naive_solver.
    + exists (uuid_print u :: l). by rewrite Hl, <- app_assoc.
Qed.

(** The rows of the answer, one per emoji somebody reacted with. *)
Definition reaction_summary (c : Cass) (ch id me : uuid) (rc : ReactionCount) : Prop :=
  ∃ users, users ≠ [] ∧ NoDup users ∧
    (∀ u, u ∈ users ↔ is_Some (message_reactions c !! (ch, id, rc_Emoji rc, u))) ∧
    rc_Count rc = Z.of_nat (length users) ∧
    rc_Me rc = bool_decide (me ∈ users) ∧
    take (length users) (rc_user_id rc) = repeat "" (length users).

(** The reaction summary counts right and lists users wrong.  Every emoji
    somebody reacted with has exactly one entry, its count is the number of
    users who reacted with it (while they fit 32 bits) and [Me] says whether
    the current user is one of them.  But the list of users starts with as
    many empty strings as there are users. *)
Theorem GetReactions_summary ch id me w rs w' :
  (Z.of_nat (size (message_reactions w.(cass))) < 2 ^ 31)%Z →
  MessageRepo.GetReactions ch id me w = (Ok rs, w') →
  NoDup (rc_Emoji <$> rs) ∧
  (∀ rc, rc ∈ rs → reaction_summary w.(cass) ch id me rc) ∧
  (∀ e u, is_Some (message_reactions w.(cass) !! (ch, id, e, u)) → e ∈ (rc_Emoji <$> rs)).
Proof.
  intros Hsize E. unfold MessageRepo.GetReactions in E.
  apply bind_Ok_inv in E as (data & w1 & E%on_err_Ok_inv & [Ers _]%ret_inv). injection Ers as ->.
  unfold Scylla.Getreactions in E. apply external_Ok_inv in E as (c & E & _).
  destruct (_ && true); [|done]. injection E as <- <-.
  set (data := Scylla.reactions_of w.(cass) ch id) in *.
  assert (rc_Emoji <$> ((λ '(e, us), MessageRepo.reaction_count me e us) <$>
      map_to_list (MessageRepo.emoji_users data)) = (map_to_list (MessageRepo.emoji_users data)).*1) as Hem
    by (rewrite <- list_fmap_compose; apply list_fmap_ext; by intros ? [? ?] ?).
  rewrite Hem. split; [apply NoDup_fst_map_to_list|]. split.
  - intros rc ([e us] & -> & Hin%elem_of_map_to_list)%list_elem_of_fmap.
    rewrite emoji_users_lookup in Hin.
    assert (us = users_of e data ∧ us ≠ []) as [-> Hne] by (destruct (users_of e data); naive_solver).
    exists (users_of e data). simpl. destruct (user_loop_spec me (users_of e data)
      (repeat "" (length (users_of e data)))) as [Hb [l Hl]].
    split_and!; [done|apply NoDup_users_of|intros u; apply elem_of_users_of| |exact Hb|].
    + apply int32_id.
      assert (length (users_of e data) ≤ size (message_reactions w.(cass))) as Hle; [|lia].
      transitivity (length data); [unfold users_of; apply length_omap_le|].
      unfold data, Scylla.reactions_of. rewrite <- length_map_to_list. apply length_omap_le.
    + rewrite Hl, take_app_length' by (by rewrite repeat_length). done.
  - intros e u Hu. apply elem_of_users_of in Hu. fold data in Hu.
    destruct (users_of e data) as [|u' us] eqn:Eu; [by apply not_elem_of_nil in Hu|].
    apply list_elem_of_fmap. exists (e, u' :: us). split; [done|].
    apply elem_of_map_to_list. by rewrite emoji_users_lookup, Eu.
Qed.
End Reactions.

(** ** Toggling a reaction *)
Section Toggle.
Context `{Env} `{!UuidText} `{!CqlTypes}.
Variables (lpb : bool) (lister : option DMChannelLister).
Implicit Types (c : Cass) (b : bus_t) (d : Db).

(** The reactions of the store with (or without) the one of [u]. *)
Definition toggled (add : bool) (ch id : uuid) (emoji : string) (u : uuid) (c c' : Cass) : Prop :=
  message_reactions c' =
    (if add then <[(ch, id, emoji, u) :=
                     mkMessageReactions (Some ch) (Some id) (Some emoji) (Some u)]> (message_reactions c)
     else delete (ch, id, emoji, u) (message_reactions c)) ∧
  messages c' = messages c ∧ message_attachments c' = message_attachments c ∧
  read_states c' = read_states c ∧ message_edit_history c' = message_edit_history c.

Lemma wpm_toggle d add ch id emoji u (Q : outcome unit → Cass → bus_t → Prop) c b :
  (∀ c', toggled add ch id emoji u c c' → Q (Ok tt) c' b) → (∀ e c', Q (Err e) c' b) →
  wpm d (if add then Scylla.Addreaction ch id emoji u else Scylla.Removereaction ch id emoji u) Q c b.
Proof.
  intros HQ HE. unfold Scylla.Addreaction, Scylla.Removereaction.
  destruct add; apply wpm_exec; auto; intros _; (split; [|auto]); apply HQ; by split_and!.
Qed.

(** A reaction is one element of a set.  A successful request named a live
    message and a non-empty emoji, needed ADD_REACTIONS to add in a guild, and
    changed the membership of exactly the triple message, emoji, caller:
    adding twice or removing what is not there changes nothing more. *)
Theorem toggleReaction_effect userID channelID guildID messageID emoji add w w' :
  MessageService.toggleReaction lpb lister userID channelID guildID messageID emoji add w = (Ok tt, w') →
  emoji ≠ "" ∧
  (add = true → guildID ≠ "" → (Authz.CanAddReactions userID guildID w).1 = Ok true) ∧
  ∃ ch id u m, uuid_parse channelID = Some ch ∧ uuid_parse messageID = Some id ∧
    uuid_parse userID = Some u ∧ live_message w.(cass) ch id m ∧
    toggled add ch id emoji u w.(cass) w'.(cass) ∧
    (∃ l evt, w'.(bus) = w.(bus) ++ l ∧ delivered lpb w.(db) guildID channelID evt l ∧
              tce_emoji evt = emoji).
Proof.
  unfold MessageService.toggleReaction. intros E.
  apply bind_Ok_inv in E as ([] & w0 & Hens & E). apply ensure_Ok_inv in Hens as [He ->].
  apply negb_true_iff, bool_decide_eq_false in He. split; [done|].
  apply bind_Ok_inv in E as (ok & w1 & Hok & E).
  apply bind_Ok_inv in E as ([] & w1' & Hens & E). apply ensure_Ok_inv in Hens as [-> ->].
  assert (silent w w1) as (D & C & _ & B).
  { destruct (add && _); [|injection Hok as <-; by split_and!].
    pose proof (silent_Check (UserKey userID) "can_add_reactions" (GuildKey guildID) w) as Hs.
    change (Authz.CanAddReactions userID guildID) with
      (Authz.Check (UserKey userID) "can_add_reactions" (GuildKey guildID)) in Hok.
    by rewrite Hok in Hs. }
  split.
  { intros -> Hg. unfold string_eqb in Hok. rewrite bool_decide_eq_false_2 in Hok by done.
    simpl in Hok. by rewrite Hok. }
  apply bind_Ok_inv in E as (ch & ? & [Hch ->]%parse_Ok_inv & E).
  apply bind_Ok_inv in E as (id & ? & [Hid ->]%parse_Ok_inv & E).
  apply bind_Ok_inv in E as (u & ? & [Hu ->]%parse_Ok_inv & E).
  apply bind_Ok_inv in E as (m & w2 & Hget%on_err_Ok_inv & E).
  apply GetMessage_Ok in Hget as (Hs1 & Hidok & Hlive).
  destruct (same_state_eqs w1 w2 w2 Hs1) as (D2 & C2 & B2); [by split_and!|].
  eapply (wpm_run _ (λ o c' b', o = Ok tt → toggled add ch id emoji u w2.(cass) c' ∧
    ∃ l evt, b' = w2.(bus) ++ l ∧ delivered lpb w2.(db) guildID channelID evt l ∧
      tce_emoji evt = emoji)) in E as [_ Hpost].
  - destruct (Hpost eq_refl) as (Ht & Hl). exists ch, id, u, m.
    rewrite <- D, <- C, <- B, <- D2, <- B2. rewrite C2 in Ht. by split_and!.
  - apply wpm_bind, wpm_toggle; [|done]. intros c' Hc'.
    apply wpm_bind, wpm_loadAttachments. intros atts.
    apply wpm_bind, wpm_buildMessageEvent; [|done]. intros evt _ _ _ _ _ _ _ _ _ _ _ _.
    apply wpm_publishChannelEvent. intros l Hl _. split; [done|]. eexists l, _. by split_and!.
Qed.
End Toggle.

(** ** Read states *)
Section ReadState.
Context `{Env} `{!UuidText} `{!CqlTypes}.
Variables (lpb : bool) (lister : option DMChannelLister).
Implicit Types (c : Cass) (b : bus_t) (d : Db).

Definition put_read_state (u ch id : uuid) (n : Z) (c : Cass) : Cass :=
  with_read_states (<[(u, ch) := mkReadStates (Some u) (Some ch) (Some id) (Some n)]> (read_states c)) c.

Lemma wpm_IncrementMentionCount d u ch (Q : outcome unit → Cass → bus_t → Prop) c b :
  fault_free →
  match read_states c !! (u, ch) with
  | None => Q (Err (Driver InvalidRequest)) c b
  | Some r => ∃ id n, rs_last_read_message_id r = Some id ∧ rs_mention_count r = Some n ∧
                is_timeuuid id = true ∧ cql_int (n + 1) = true ∧ Q (Ok tt) (put_read_state u ch id (n + 1) c) b
  end → wpm d (MessageRepo.IncrementMentionCount u ch) Q c b.
Proof.
  intros Hff Hr. pose proof (fault_free_not_can_fail Hff) as Hno.
  unfold MessageRepo.IncrementMentionCount, Scylla.Getreadstate, Scylla.Upsertreadstate.
  apply wpm_bind, wpm_try, wpm_select; [intros _|done|by intros ?%Hno].
  destruct (read_states c !! (u, ch)) as [r|].
  - destruct Hr as (id & n & -> & -> & Hid & Hn & HQ). apply wpm_bind, wpm_ret. simpl.
    apply wpm_exec; [intros _; split; [exact HQ|by intros ?%Hno]|cbn; by rewrite Hid, Hn|by intros ?%Hno].
  - rewrite decide_True by done. apply wpm_bind, wpm_ret. simpl.
    apply wpm_exec; [cbn; by rewrite zero_not_timeuuid|done|by intros ?%Hno].
Qed.

(** Mentions only count from a stored read marker.  When the database
    answers, a mention of a user who acknowledged some message of the channel
    adds one to his badge and leaves his marker; a mention of a user without a
    read state is refused by the store (the zero marker is not a TIMEUUID), so
    nothing is counted for someone who never opened the channel. *)
Theorem IncrementMentionCount_effect u ch w :
  fault_free →
  let r := MessageRepo.IncrementMentionCount u ch w in
  match read_states w.(cass) !! (u, ch) with
  | None => r.1 = Err (Driver InvalidRequest) ∧ r.2.(cass) = w.(cass)
  | Some rs => ∀ id n, rs_last_read_message_id rs = Some id → rs_mention_count rs = Some n →
      is_timeuuid id = true → cql_int (n + 1) = true →
      r.1 = Ok tt ∧ r.2.(cass) = put_read_state u ch id (n + 1) w.(cass)
  end.
Proof.
  intros Hff r. destruct (read_states w.(cass) !! (u, ch)) as [rs|] eqn:E.
  - intros id n Hid Hn Ht Hint.
    destruct ((wpm_IncrementMentionCount w.(db) u ch (λ o c' _, o = Ok tt ∧
      c' = put_read_state u ch id (n + 1) w.(cass)) w.(cass) w.(bus) Hff
      ltac:(rewrite E; eauto 10)) w eq_refl eq_refl eq_refl) as [_ Hpost]. exact Hpost.
  - destruct ((wpm_IncrementMentionCount w.(db) u ch (λ o c' _,
      o = Err (Driver InvalidRequest) ∧ c' = w.(cass)) w.(cass) w.(bus) Hff
      ltac:(by rewrite E)) w eq_refl eq_refl eq_refl) as [_ Hpost]. exact Hpost.
Qed.

Lemma wpm_AckMessage d userID channelID guildID messageID
    (Q : outcome unit → Cass → bus_t → Prop) c b :
  (∀ u ch id l t, uuid_parse userID = Some u → uuid_parse channelID = Some ch →
     uuid_parse messageID = Some id → is_timeuuid id = true →
     delivered lpb d guildID channelID
       (MessageService.read_receipt channelID guildID messageID userID t) l →
     Q (Ok tt) (put_read_state u ch id 0 c) (b ++ l)) → (∀ e c' b', Q (Err e) c' b') →
  wpm d (MessageService.AckMessage lpb lister userID channelID guildID messageID) Q c b.
Proof.
  intros HQ HE. unfold MessageService.AckMessage, MessageRepo.UpsertReadState, Scylla.Upsertreadstate.
  do 3 (apply wpm_bind, wpm_gocqlParseUUID; [intros ? ?|auto]).
  apply wpm_bind, wpm_exec; [|auto..]. cbn [forallb]. rewrite !andb_true_r. intros Hid. split; [|auto].
  apply wpm_bind, wpm_now. intros t. apply wpm_publishChannelEvent. intros l Hl. by eapply HQ.
Qed.

(** An acknowledgement resets the badge.  On success the caller's read state
    of the channel is the given message with no mentions, whatever it was
    before (also when the old marker was newer); no other read state, no
    message and no table besides changes, and the receipt goes to those who
    may see the channel's events. *)
Theorem AckMessage_effect userID channelID guildID messageID w w' :
  MessageService.AckMessage lpb lister userID channelID guildID messageID w = (Ok tt, w') →
  ∃ u ch id t l, uuid_parse userID = Some u ∧ uuid_parse channelID = Some ch ∧
    uuid_parse messageID = Some id ∧ is_timeuuid id = true ∧
    w'.(cass) = put_read_state u ch id 0 w.(cass) ∧ w'.(db) = w.(db) ∧
    w'.(bus) = w.(bus) ++ l ∧
    delivered lpb w.(db) guildID channelID
      (MessageService.read_receipt channelID guildID messageID userID t) l.
Proof.
  intros E. eapply (wpm_run _ (λ o c' b', o = Ok tt → ∃ u ch id t l, uuid_parse userID = Some u ∧
    uuid_parse channelID = Some ch ∧ uuid_parse messageID = Some id ∧ is_timeuuid id = true ∧
    c' = put_read_state u ch id 0 w.(cass) ∧ b' = w.(bus) ++ l ∧ delivered lpb w.(db) guildID channelID
      (MessageService.read_receipt channelID guildID messageID userID t) l)) in E as [Hd Hpost].
  - destruct (Hpost eq_refl) as (u & ch & id & t & l & ? & ? & ? & ? & ? & ? & ?).
    exists u, ch, id, t, l. by split_and!.
  - apply wpm_AckMessage; [|done]. intros u ch id l t. intros. exists u, ch, id, t, l. by split_and!.
Qed.
End ReadState.

(** ** Bulk deletion *)
Section Bulk.
Context `{Env} `{!UuidText} `{!CqlTypes}.
Implicit Types (c : Cass) (b : bus_t) (d : Db).

(** Every identifier of the list is a tombstone, the rest is untouched. *)
Definition bulk_deleted (ch : uuid) (ids : list uuid) (c c' : Cass) : Prop :=
  (∀ id, id ∈ ids → ∃ t row, messages c' !! (ch, id) = Some (set_deleted t row)) ∧
  (∀ k, (∀ id, id ∈ ids → k ≠ (ch, id)) → messages c' !! k = messages c !! k) ∧
  message_attachments c' = message_attachments c ∧ message_reactions c' = message_reactions c ∧
  read_states c' = read_states c ∧ message_edit_history c' = message_edit_history c.

Lemma wpm_BulkDelete d ch ids n (Q : outcome Z → Cass → bus_t → Prop) c b :
  fault_free → Forall (λ id, is_timeuuid id = true) ids →
  (∀ c', bulk_deleted ch ids c c' → Q (Ok (n + Z.of_nat (length ids))%Z) c' b) →
  wpm d (for_fold ids n (λ deleted msgID,
    r ← try (MessageRepo.DeleteMessage ch msgID);
    mret (match r with inr _ => (deleted + 1)%Z | inl _ => deleted end))) Q c b.
Proof.
  intros Hff. pose proof (fault_free_not_can_fail Hff) as Hno. revert n c.
  induction ids as [|id ids IH]; intros n c Hids HQ; simpl.
  { apply wpm_ret. rewrite <- (Z.add_0_r n). apply HQ. split_and!; [|done..]. by intros ? ?%not_elem_of_nil. }
  apply Forall_cons in Hids as [Hid Hids].
  apply wpm_bind, wpm_bind, wpm_try. unfold MessageRepo.DeleteMessage, Scylla.Deletemessage.
  apply wpm_bind, wpm_now. intros t. apply wpm_exec; [|cbn; by rewrite Hid|by intros ?%Hno].
  intros _. split; [|by intros ?%Hno]. apply wpm_ret.
  set (c1 := upsert_message _ _ _ c). apply IH; [done|]. intros c' (Hin & Hout & ? & ? & ? & ?).
  replace (n + 1 + Z.of_nat (length ids))%Z with (n + Z.of_nat (S (length ids)))%Z by lia.
  apply HQ. split_and!; [| |done..].
  - intros id' Hid'. destruct (decide (id' ∈ ids)) as [|Hni]; [by apply Hin|].
    apply elem_of_cons in Hid' as [->|]; [|done]. rewrite Hout by naive_solver.
    eexists _, _. simpl. by rewrite lookup_insert_eq.
  - intros k Hk. rewrite Hout by (intros; apply Hk; by right). simpl.
    apply lookup_insert_ne. intros <-. apply (Hk id); [by left|done].
Qed.

(** Outside guilds a bulk deletion needs no right at all.  When the database
    answers and the request names no guild, any caller turns every identifier
    of the list into a tombstone, whoever wrote the message and whether or not
    there is one; the answer counts all of them; children stay and nobody is
    told. *)
Theorem BulkDeleteMessages_unguarded userID channelID ch ids w :
  fault_free → uuid_parse channelID = Some ch → Forall (λ id, is_timeuuid id = true) ids →
  let r := MessageService.BulkDeleteMessages userID channelID "" (uuid_print <$> ids) w in
  r.1 = Ok (Z.of_nat (length ids)) ∧ bulk_deleted ch ids w.(cass) r.2.(cass) ∧
  r.2.(bus) = w.(bus).
Proof.
  intros Hff Hch Hids r.
  assert (omap uuid_parse (uuid_print <$> ids) = ids) as Hparse.
  { clear. induction ids as [|id ids IH]; [done|]. simpl. rewrite uuid_parse_print.
    f_equal. exact IH. }
  assert (wpm w.(db) (MessageService.BulkDeleteMessages userID channelID "" (uuid_print <$> ids))
    (λ o c' b', o = Ok (Z.of_nat (length ids)) ∧ bulk_deleted ch ids w.(cass) c' ∧ b' = w.(bus))
    w.(cass) w.(bus)) as Hwp;
    [|destruct (Hwp w eq_refl eq_refl eq_refl) as [_ Hpost]; exact Hpost].
  unfold MessageService.BulkDeleteMessages, MessageService.gocqlParseUUID. rewrite Hch, Hparse.
  apply wpm_bind, wpm_ret, wpm_bind, wpm_ret, wpm_bind, wpm_ret.
  apply wpm_BulkDelete; [done|done|]. intros c' Hc'. by split_and!.
Qed.
End Bulk.

(** * Concrete instances *)
#[local] Existing Instance demo_wired.
#[local] Existing Instance demo_uuid.
#[local] Existing Instance demo_cql.

(** Nobody ever sent message 77. *)
Lemma PinMessage_upserts_witness :
  (MessageService.setPinned true None (uuid_print 4) (uuid_print 10) "" (uuid_print 77) true
     message_demo_world).1 = Panic.
Proof.
  refine (proj1 (proj2 (proj2 (PinMessage_upserts true None (uuid_print 4) (uuid_print 10) ""
    (uuid_print 77) true 10 77 message_demo_world demo_fault_free _ _ _ _)) _));
    [reflexivity|reflexivity|reflexivity|by left|reflexivity].
Defined.

Definition demo_reactions : GoM World (list ReactionCount) := MessageRepo.GetReactions 10 50 3.
Lemma demo_reactions_run : is_Ok (demo_reactions message_demo_world).1 = true.
Proof. vm_compute. reflexivity. Qed.
Lemma GetReactions_summary_witness :
  ∃ rs, (demo_reactions message_demo_world).1 = Ok rs ∧ "+1" ∈ rc_Emoji <$> rs.
Proof.
  destruct (run_Ok _ _ demo_reactions_run) as [rs E].
  destruct (GetReactions_summary 10 50 3 message_demo_world rs _ ltac:(vm_compute; reflexivity) E)
    as (_ & _ & Hin).
  exists rs. split; [by rewrite E|]. apply (Hin "+1" 1%positive). eexists. vm_compute. reflexivity.
Defined.

Definition demo_react : GoM World unit :=
  MessageService.toggleReaction true None (uuid_print 1) (uuid_print 10) "" (uuid_print 50) "+1" false.
Lemma demo_react_runs : is_Ok (demo_react message_demo_world).1 = true.
Proof. vm_compute. reflexivity. Qed.
Lemma toggleReaction_effect_witness :
  message_reactions (demo_react message_demo_world).2.(cass) =
    delete (10%positive, 50%positive, "+1", 1%positive) (message_reactions demo_cass).
Proof.
  destruct (run_Ok _ _ demo_react_runs) as [[] E].
  destruct (toggleReaction_effect true None (uuid_print 1) (uuid_print 10) "" (uuid_print 50) "+1" false
    message_demo_world _ E) as (_ & _ & ch & id & u & m & Hch & Hid & Hu & _ & [Ht _] & _).
  vm_compute in Hch, Hid, Hu. injection Hch as <-. injection Hid as <-. injection Hu as <-. exact Ht.
Defined.

Lemma IncrementMentionCount_effect_witness :
  (MessageRepo.IncrementMentionCount 1 10 message_demo_world).2.(cass)
    = put_read_state 1 10 50 3 demo_cass.
Proof.
  refine (proj2 (IncrementMentionCount_effect 1 10 message_demo_world demo_fault_free 50%positive 2%Z _ _ _ _));
    reflexivity.
Defined.

Definition demo_ack : GoM World unit :=
  MessageService.AckMessage true None (uuid_print 1) (uuid_print 10) "" (uuid_print 50).
Lemma demo_ack_runs : is_Ok (demo_ack message_demo_world).1 = true.
Proof. vm_compute. reflexivity. Qed.
Lemma AckMessage_effect_witness :
  (demo_ack message_demo_world).2.(cass) = put_read_state 1 10 50 0 demo_cass.
Proof.
  destruct (run_Ok _ _ demo_ack_runs) as [[] E].
  destruct (AckMessage_effect true None (uuid_print 1) (uuid_print 10) "" (uuid_print 50)
    message_demo_world _ E) as (u & ch & id & t & l & Hu & Hch & Hid & _ & Hc & _).
  vm_compute in Hu, Hch, Hid. injection Hu as <-. injection Hch as <-. injection Hid as <-. exact Hc.
Defined.

Lemma BulkDeleteMessages_unguarded_witness :
  (MessageService.BulkDeleteMessages (uuid_print 4) (uuid_print 10) "" (uuid_print <$> [50; 77]%positive)
     message_demo_world).1 = Ok 2%Z.
Proof.
  destruct (BulkDeleteMessages_unguarded (uuid_print 4) (uuid_print 10) 10 [50; 77]%positive
    message_demo_world) as [Hok _]; [exact demo_fault_free|reflexivity|by repeat constructor|exact Hok].
Defined.
