(* ===== verification/MessageReads.v ===== *)
(** * MessageReads: listings and who may read them

    Every listing returns live messages of the channel only, in clustering
    order, within its bounds and its limit; a page is complete as long as the
    window it is cut from holds no more deleted rows than the page may have
    messages. *)
From S2P Require Import Prelude Realtime Store Queries Authz Wp AuthzFacts.
From S2P Require Import Scylla Mentions Message Wpm MessageFacts Channel User UserFacts.

Section Rows.
Context `{Env} `{!UuidText} `{!CqlTypes}.
Implicit Types (c : Cass).

(** ** The clustering order *)
#[local] Instance newer_total : Total Scylla.newer.
Proof. intros x y. unfold Scylla.newer. lia. Qed.
#[local] Instance newer_trans : Transitive Scylla.newer.
Proof. intros x y z. unfold Scylla.newer. lia. Qed.

Lemma elem_of_channel_rows c ch id m :
  (id, m) ∈ Scylla.channel_rows c ch ↔ messages c !! (ch, id) = Some m.
Proof.
  unfold Scylla.channel_rows. rewrite list_elem_of_omap. split.
  - intros ([[ch' id'] m'] & Hin & E). case_bool_decide; simplify_eq. by apply elem_of_map_to_list in Hin.
  - intros Hm. exists (ch, id, m). split; [by apply elem_of_map_to_list|]. by rewrite bool_decide_eq_true_2.
Qed.
Lemma elem_of_newest_first c ch id m :
  (id, m) ∈ Scylla.newest_first c ch ↔ messages c !! (ch, id) = Some m.
Proof. unfold Scylla.newest_first. by rewrite merge_sort_Permutation, elem_of_channel_rows. Qed.

(** The rows of a channel have different identifiers, so the order is strict. *)
Lemma NoDup_newest_first c ch : NoDup (Scylla.newest_first c ch).*1.
Proof.
  assert (NoDup (Scylla.channel_rows c ch).*1) as Hnd.
  { apply NoDup_fmap_2_strong.
    - intros [i m] [j m'] Hi Hj E. simpl in E. subst j.
      apply elem_of_channel_rows in Hi, Hj. by simplify_eq.
    - apply NoDup_omap_inj; [|apply NoDup_map_to_list].
      intros [[ch1 i1] m1] [[ch2 i2] m2] z _ _ E1 E2. repeat case_bool_decide; by simplify_eq. }
  unfold Scylla.newest_first. by rewrite merge_sort_Permutation.
Qed.

(** [x] was sent after [y]. *)
Definition strictly_newer (x y : uuid * Messages) : Prop := (timeuuid_rank y.1 < timeuuid_rank x.1)%N.
Lemma newest_first_sorted c ch : StronglySorted strictly_newer (Scylla.newest_first c ch).
Proof.
  pose proof (NoDup_newest_first c ch) as Hnd.
  pose proof (StronglySorted_merge_sort Scylla.newer (Scylla.channel_rows c ch)) as Hs.
  fold (Scylla.newest_first c ch) in Hs.
  induction Hs as [|[i m] l Hs IH Hall]; simpl in *; [constructor|].
  apply NoDup_cons in Hnd as [Hni Hnd]. constructor; [by apply IH|].
  rewrite Forall_forall in Hall |- *. intros [j m'] Hj. pose proof (Hall _ Hj) as Hle.
  unfold Scylla.newer, strictly_newer in *. simpl in *.
  assert (timeuuid_rank j ≠ timeuuid_rank i); [|lia]. intros E%(inj _). subst.
  apply Hni, list_elem_of_fmap. by exists (i, m').
Qed.

Lemma StronglySorted_filter {A} (R : relation A) (P : A → bool) l :
  StronglySorted R l → StronglySorted R (List.filter P l).
Proof.
  induction 1 as [|x l Hs IH Hall]; simpl; [constructor|]. destruct (P x); [|done].
  constructor; [done|]. rewrite Forall_forall in Hall |- *. intros y Hy.
  apply Hall, list_elem_of_In. by apply list_elem_of_In, List.filter_In in Hy as [? _].
Qed.
Lemma StronglySorted_rev {A} (R : relation A) l :
  StronglySorted R l → StronglySorted (flip R) (rev l).
Proof.
  induction 1 as [|x l Hs IH Hall]; simpl; [constructor|].
  apply StronglySorted_app_2; [|done|repeat constructor].
  intros y z Hy ->%list_elem_of_singleton. rewrite Forall_forall in Hall.
  apply Hall, list_elem_of_In, List.in_rev. by apply list_elem_of_In.
Qed.
End Rows.

(** ** The channel and user services behind the interfaces *)
Section Implementations.
Context `{Env} `{!UuidText}.

Lemma silent_parseUUID s e : steps silent (ChannelService.parseUUID s e).
Proof. unfold ChannelService.parseUUID. steps_auto. Qed.

Lemma GetDMChannelMemberIDs_Ok c w ms :
  (ChannelService.GetDMChannelMemberIDs c w).1 = Ok ms →
  ∃ ch, uuid_parse c = Some ch ∧ ∀ m, m ∈ ms ↔ ∃ u, m = uuid_print u ∧ dm_member w.(db) ch u.
Proof.
  intros E. apply run_fst in E. unfold ChannelService.GetDMChannelMemberIDs, ChannelService.parseUUID in E.
  destruct (uuid_parse c) as [ch|]; [|done]. exists ch. split; [done|].
  rewrite bind_ret_l in E. apply bind_Ok_inv in E as (l & w1 & E & [[= ->] _]%ret_inv).
  apply query_Ok_inv in E as [[= <-] _]. intros m. rewrite list_elem_of_fmap. split.
  - intros (u & -> & (row & -> & Hin)%list_elem_of_fmap). exists (dm_user_id row). split; [done|].
    apply elem_of_rows in Hin as ([ch' k] & Hk & [Hc%bool_decide_eq_true Hd%negb_true_iff]%andb_true_iff).
    simpl in Hc. subst ch'. by exists k, row.
  - intros (u & -> & k & row & Hk & Hd & <-). exists (dm_user_id row). split; [done|].
    apply list_elem_of_fmap. exists row. split; [done|]. apply elem_of_rows. exists (ch, k).
    split; [done|]. apply andb_true_iff. split; [by apply bool_decide_eq_true|by apply negb_true_iff].
Qed.

(** [channel.DMChannelMembersResolver] is what the message service expects of a
    lister of DM channels. *)
Definition channel_lister : DMChannelLister.
Proof.
  refine {| dml_GetUserDMChannelIDs := ChannelService.GetUserDMChannelIDs;
            dml_GetDMChannelMemberIDs := ChannelService.GetDMChannelMemberIDs |}.
  - intros u. unfold ChannelService.GetUserDMChannelIDs, ChannelService.parseUUID, Queries.ListDMChannels.
    steps_auto.
  - intros u. unfold ChannelService.GetDMChannelMemberIDs, ChannelService.parseUUID, Queries.GetDMChannelMembers.
    steps_auto.
  - intros u w. unfold ChannelService.GetUserDMChannelIDs, ChannelService.parseUUID, Queries.ListDMChannels.
    destruct (uuid_parse u); [|done]. unfold mbind, gom_bind, query, sql, external, mret, gom_ret.
    by destruct (faults _).
  - intros u w. unfold ChannelService.GetDMChannelMemberIDs, ChannelService.parseUUID, Queries.GetDMChannelMembers.
    destruct (uuid_parse u); [|done]. unfold mbind, gom_bind, query, sql, external, mret, gom_ret.
    by destruct (faults _).
  - exact GetDMChannelMemberIDs_Ok.
  - intros u. unfold ChannelService.GetDMChannelMemberIDs, ChannelService.parseUUID, Queries.GetDMChannelMembers.
    steps_auto.
Defined.

(** [user.BlockChecker] is what it expects of a block checker. *)
Definition user_block_checker : BlockChecker.
Proof.
  refine {| bc_IsBlocked := UserService.IsBlocked |}.
  - intros u t. unfold UserService.IsBlocked, Queries.GetFriendship. steps_auto.
  - intros u t w. unfold UserService.IsBlocked.
    destruct (uuid_parse u), (uuid_parse t); [|by eexists..].
    unfold Queries.GetFriendship, query_any, mbind, gom_bind, try, query, sql, external.
    destruct (faults _); repeat case_match; simplify_eq; eauto.
Defined.
End Implementations.

(** ** Who may read a channel *)
Section Access.
Context `{Env} `{!UuidText} `{!CqlTypes}.

Lemma GetDMChannelMemberIDs_total ch w :
  fault_free → ∃ ms, (ChannelService.GetDMChannelMemberIDs (uuid_print ch) w).1 = Ok ms.
Proof.
  intros Hff. unfold ChannelService.GetDMChannelMemberIDs, ChannelService.parseUUID.
  rewrite uuid_parse_print, bind_ret_l. unfold mbind, gom_bind, Queries.GetDMChannelMembers.
  rewrite query_run by apply Hff. by eexists.
Qed.

(** The read gate is exact.  With a wired client, a coherent channel cache
    and a database that answers, [canReadChannel] says yes to exactly the users
    the permission layer lets view the channel and the current members of the
    DM channel. *)
Theorem canReadChannel_decides u ch w :
  authz_wired = true → fault_free → overrides_wf w.(db) → cache_coherent w →
  ∃ x w', MessageService.canReadChannel (Some channel_lister) (uuid_print u) (uuid_print ch) w
            = (Ok x, w') ∧ w'.(db) = w.(db) ∧
    (x = true ↔ ChannelAuthorized w.(db) u ch "VIEW_CHANNELS" ∨ dm_member w.(db) ch u).
Proof.
  intros Hw Hff Hwf Hco. unfold MessageService.canReadChannel. rewrite Hw.
  destruct (checkChannel_run u ch "can_view_channels" "VIEW_CHANNELS" w Hw Hff eq_refl Hwf Hco)
    as (x & w1 & Hrun & Hdb & Hx).
  unfold mbind at 1, gom_bind at 1, Authz.CanViewChannel. rewrite Hrun.
  destruct x.
  { exists true, w1. split; [done|]. split; [done|]. tauto. }
  unfold MessageService.dm_members.
  destruct (GetDMChannelMemberIDs_total ch w1 Hff) as [ms Hms].
  destruct (GetDMChannelMemberIDs_Ok _ _ _ Hms) as (ch' & Hch & Hin).
  rewrite uuid_parse_print in Hch. injection Hch as <-. apply run_fst in Hms.
  unfold mbind, gom_bind, try. cbn [dml_GetDMChannelMemberIDs channel_lister]. rewrite Hms.
  eexists _, _. split; [done|]. split.
  { pose proof (dml_members_silent channel_lister (uuid_print ch) w1) as (Hd & _).
    simpl. simpl in Hd. by rewrite Hd. }
  rewrite existsb_exists. setoid_rewrite <- list_elem_of_In. rewrite Hdb in Hin. split.
  - intros (m & Hm & E%bool_decide_eq_true). subst m. right.
    apply Hin in Hm as (v & E & Hv). by apply (inj uuid_print) in E as <-.
  - intros [Hv|Hv]; [by apply Hx in Hv|]. exists (uuid_print u). split; [|by apply bool_decide_eq_true].
    apply Hin. eauto.
Qed.
End Access.

(** ** Pages *)
Section Pages.
Context `{Env} `{!UuidText} `{!CqlTypes}.
Implicit Types (c : Cass) (r : uuid * Messages).

Definition live_row r : bool := negb (boolValue (m_deleted r.2)).
Definition in_bounds (before after : option uuid) r : bool :=
  match before, after with
  | Some b, _ => Scylla.before_id b r
  | None, Some a => Scylla.after_id a r
  | None, None => true
  end.
(** A page that starts behind a message reads forwards. *)
Definition page_order (before after : option uuid) (l : list (uuid * Messages)) :=
  match before, after with None, Some _ => rev l | _, _ => l end.
(** The rows of the channel within the bounds, in the order of the page. *)
Definition window c ch before after : list (uuid * Messages) :=
  List.filter (in_bounds before after) (page_order before after (Scylla.newest_first c ch)).

Lemma collect_spec keep limit acc ms :
  (Z.of_nat (length acc) < limit)%Z →
  MessageRepo.collect keep limit acc ms =
    acc ++ take (Z.to_nat limit - length acc)
             (List.filter (λ m, negb (boolValue (m_deleted m)) && keep m) ms).
Proof.
  revert acc. induction ms as [|m ms IH]; intros acc Hl; cbn [MessageRepo.collect].
  { simpl. by rewrite take_nil, app_nil_r. }
  simpl. destruct (boolValue (m_deleted m)); simpl; [by apply IH|].
  destruct (keep m); simpl; [|by apply IH]. rewrite length_app. simpl.
  destruct (Z.to_nat limit - length acc) as [|n] eqn:En; [lia|]. simpl.
  destruct (Z.leb_spec limit (Z.of_nat (length acc + 1))).
  - assert (n = 0) as -> by lia. by rewrite take_0.
  - rewrite IH by (rewrite length_app; simpl; lia). rewrite length_app. simpl.
    replace (Z.to_nat limit - (length acc + 1)) with n by lia. by rewrite <- app_assoc.
Qed.

Lemma filter_snd (P : Messages → bool) (l : list (uuid * Messages)) :
  List.filter P l.*2 = (List.filter (λ r, P r.2) l).*2.
Proof.
  induction l as [|r l IH]; [done|]. rewrite fmap_cons. cbn [List.filter]. rewrite IH.
  by destruct (P r.2).
Qed.

(** A window of twice the limit is enough if few of its rows are deleted. *)
Lemma take_live_window {A} (P : A → bool) (l : nat) (W : list A) :
  length (List.filter (λ x, negb (P x)) (take (2 * l) W)) ≤ l →
  take l (List.filter P (take (2 * l) W)) = take l (List.filter P W).
Proof.
  intros Hdead. rewrite <- (take_drop (2 * l) W) at 2. rewrite List.filter_app.
  destruct (decide (length W ≤ 2 * l)) as [Hle|Hgt].
  { by rewrite (drop_ge W), app_nil_r by lia. }
  rewrite take_app_le; [done|].
  pose proof (List.filter_length P (take (2 * l) W)) as Hf. rewrite length_take in Hf. lia.
Qed.

Lemma wpm_list_window d ch before after limit (Q : outcome (list Messages) → Cass → bus_t → Prop) c b :
  (0 < limit)%Z →
  (Q (Ok (take (Z.to_nat limit) (List.filter live_row
            (take (2 * Z.to_nat limit) (window c ch before after)))).*2) c b) →
  (∀ e, Q (Err e) c b) →
  wpm d (MessageRepo.ListMessages ch before after limit) Q c b.
Proof.
  intros Hl HQ HE.
  assert (∀ m, (∀ (Q' : outcome (list Messages) → Cass → bus_t → Prop),
      Q' (Ok (take (2 * Z.to_nat limit) (window c ch before after)).*2) c b → (∀ e, Q' (Err e) c b) →
      wpm d m Q' c b) →
    wpm d (smsg ← (m ?> ErrorfW "failed to list messages: %w");
           mret (MessageRepo.collect MessageRepo.keep_all limit [] smsg)) Q c b) as Hk.
  { intros m Hm. apply wpm_bind, wpm_on_err, Hm; [|auto]. apply wpm_ret.
    rewrite collect_spec by (simpl; lia). simpl. rewrite Nat.sub_0_r.
    assert (∀ ms, List.filter (λ m, negb (boolValue (m_deleted m)) && MessageRepo.keep_all m) ms
      = List.filter (λ m, negb (boolValue (m_deleted m))) ms) as Hext
      by (intros ms; apply List.filter_ext; intros; apply andb_true_r).
    rewrite Hext, filter_snd, <- fmap_take. exact HQ. }
  unfold MessageRepo.ListMessages, MessageRepo.fetch_limit.
  destruct (Z.ltb_spec (limit * 2) limit); [lia|].
  replace (2 * Z.to_nat limit) with (Z.to_nat (limit * 2)) in Hk by lia.
  unfold window, in_bounds, page_order, Scylla.matching in *.
  destruct before as [bf|]; [|destruct after as [af|]]; apply Hk; intros Q' HQ' HE';
    unfold Scylla.Listmessagesbefore, Scylla.Listmessagesafter, Scylla.Listrecentmessages;
    apply wpm_select; intros; auto.
  - unfold Scylla.matching. by rewrite <- fmap_take.
  - unfold Scylla.matching. by rewrite <- fmap_take.
  - rewrite fmap_take in HQ'.
    assert (∀ l : list (uuid * Messages), List.filter (λ _, true) l = l) as Hid
      by (intros l; induction l as [|x l IHl]; simpl; congruence).
    by rewrite Hid in HQ'.
Qed.

Lemma elem_of_window c ch before after id m :
  (id, m) ∈ window c ch before after ↔
  messages c !! (ch, id) = Some m ∧ in_bounds before after (id, m) = true.
Proof.
  unfold window. rewrite list_elem_of_In, List.filter_In, <- list_elem_of_In.
  rewrite <- elem_of_newest_first. unfold page_order.
  destruct before, after; rewrite ?list_elem_of_In, <- ?List.in_rev, <- ?list_elem_of_In; done.
Qed.

(** The order of a page. *)
Definition precedes (before after : option uuid) : relation (uuid * Messages) :=
  match before, after with None, Some _ => flip strictly_newer | _, _ => strictly_newer end.
Lemma window_sorted c ch before after :
  StronglySorted (precedes before after) (window c ch before after).
Proof.
  apply StronglySorted_filter. pose proof (newest_first_sorted c ch).
  unfold precedes, page_order. destruct before, after; [done..|by apply StronglySorted_rev|done].
Qed.

Definition page_limit (limit : Z) : Z := if Z.leb limit 0 || Z.ltb 100 limit then 50%Z else limit.
Lemma page_limit_range limit : (1 ≤ page_limit limit ≤ 100)%Z.
Proof. unfold page_limit. destruct (Z.leb_spec limit 0), (Z.ltb_spec 100 limit); simpl; lia. Qed.

(** The deleted rows the bounds select. *)
Definition deleted_in_bounds c ch before after : nat :=
  length (List.filter (λ r, negb (live_row r)) (window c ch before after)).

(** [page] is what a listing with these bounds may return. *)
Definition is_page c ch before after (l : nat) (page : list (uuid * Messages)) : Prop :=
  length page ≤ l ∧ StronglySorted (precedes before after) page ∧
  (∀ id m, (id, m) ∈ page → live_message c ch id m ∧ in_bounds before after (id, m) = true) ∧
  (deleted_in_bounds c ch before after ≤ l →
   ∀ id m, live_message c ch id m → in_bounds before after (id, m) = true →
     (id, m) ∈ page ∨ length page = l ∧ ∀ x, x ∈ page → precedes before after x (id, m)).

Lemma filter_take_le {A} (P : A → bool) n (W : list A) :
  length (List.filter P (take n W)) ≤ length (List.filter P W).
Proof. rewrite <- (take_drop n W) at 2. rewrite List.filter_app, length_app. lia. Qed.

Lemma is_page_take c ch before after l :
  is_page c ch before after l
    (take l (List.filter live_row (take (2 * l) (window c ch before after)))).
Proof.
  set (W := window c ch before after). set (L := List.filter live_row W).
  assert (StronglySorted (precedes before after) L) as HsL
    by apply StronglySorted_filter, window_sorted.
  assert (∀ id m, (id, m) ∈ L ↔ live_message c ch id m ∧ in_bounds before after (id, m) = true) as HL.
  { intros id m. unfold L, live_message. rewrite list_elem_of_In, List.filter_In, <- list_elem_of_In.
    unfold W. rewrite elem_of_window. unfold live_row. rewrite negb_true_iff. simpl. tauto. }
  assert (∀ n k, take n (List.filter live_row (take k W)) `sublist_of` L) as Hsub.
  { intros n k. etrans; [apply sublist_take|]. unfold L. rewrite <- (take_drop k W) at 2.
    rewrite List.filter_app. apply sublist_inserts_r. done. }
  split_and!.
  - rewrite length_take. lia.
  - assert (∀ n k, StronglySorted (precedes before after) (take n (List.filter live_row (take k W)))) as Hs;
      [|apply Hs].
    intros n k. apply (StronglySorted_app_1_l _ _ (drop n (List.filter live_row (take k W)))).
    rewrite take_drop. apply StronglySorted_filter.
    apply (StronglySorted_app_1_l _ _ (drop k W)). rewrite take_drop. apply window_sorted.
  - intros id m Hin. apply HL. exact (elem_of_sublist _ _ _ Hin (Hsub _ _)).
  - intros Hdead id m Hlive Hb. unfold deleted_in_bounds in Hdead. fold W in Hdead.
    rewrite take_live_window by (etrans; [apply filter_take_le|exact Hdead]). fold L.
    assert ((id, m) ∈ L) as Hin by by apply HL.
    rewrite <- (take_drop l L) in Hin, HsL. apply elem_of_app in Hin as [Hin|Hin]; [by left|].
    right. split.
    + assert (drop l L ≠ []) as Hne by (intros E; rewrite E in Hin; by apply not_elem_of_nil in Hin).
      rewrite length_take. destruct (decide (length L ≤ l)); [|lia].
      by rewrite drop_ge in Hne by done.
    + intros x Hx. by eapply StronglySorted_app_1_elem_of.
Qed.

Lemma parse_bound_Ok s w o w' :
  MessageService.parse_bound s w = (Ok o, w') →
  w' = w ∧ if string_eqb s "" then o = None else ∃ u, o = Some u ∧ uuid_parse s = Some u.
Proof.
  unfold MessageService.parse_bound. destruct (string_eqb s ""); [by intros [= <- <-]|].
  intros E. apply bind_Ok_inv in E as (u & w1 & [Hu ->]%parse_Ok_inv & [[= ->] ->]%ret_inv). eauto.
Qed.
Definition bound_is (s : string) (o : option uuid) : Prop :=
  if string_eqb s "" then o = None else ∃ u, o = Some u ∧ uuid_parse s = Some u.

(** C34: a listing is a page of what the caller may read.  A successful call
    passed the read gate; the page holds at most the requested number of
    messages (50 if that is not between 1 and 100), live messages of the
    channel within the bounds and nothing else, newest first (oldest first
    behind an [after]); and if at most as many deleted rows as the page may
    have messages lie within the bounds, the page misses nothing: every other
    live message comes after a full page.  Nothing changes. *)
Theorem ListMessages_page lister userID channelID before after limit w w' ms :
  MessageService.ListMessages lister userID channelID before after limit w = (Ok ms, w') →
  (MessageService.canReadChannel lister userID channelID w).1 = Ok true ∧
  ∃ ch bf af page, uuid_parse channelID = Some ch ∧ bound_is before bf ∧ bound_is after af ∧
    ms = page.*2 ∧ is_page w.(cass) ch bf af (Z.to_nat (page_limit limit)) page ∧
    (1 ≤ page_limit limit ≤ 100)%Z ∧
    w'.(db) = w.(db) ∧ w'.(cass) = w.(cass) ∧ w'.(bus) = w.(bus).
Proof.
  unfold MessageService.ListMessages. intros E.
  apply bind_Ok_inv in E as (x & w1 & Hok & E).
  apply bind_Ok_inv in E as ([] & w2 & [-> ->]%ensure_Ok_inv & E).
  split; [by rewrite Hok|].
  apply bind_Ok_inv in E as (ch & ? & [Hch ->]%parse_Ok_inv & E). cbv zeta in E.
  apply bind_Ok_inv in E as (bf & w2 & [-> Hbf]%parse_bound_Ok & E).
  apply bind_Ok_inv in E as (af & w3 & [-> Haf]%parse_bound_Ok & E).
  assert (silent w w1) as (D & C & _ & B).
  { assert (steps silent (MessageService.canReadChannel lister userID channelID)) as Hs;
      [|specialize (Hs w); by rewrite Hok in Hs].
    unfold MessageService.canReadChannel, Authz.CanViewChannel, MessageService.dm_members.
    apply steps_bind; [apply _|steps_auto|]. intros [|]; [apply steps_ret, _|].
    destruct lister as [l|]; [|apply steps_ret, _].
    apply steps_bind; [apply _| |intros; apply steps_ret, _].
    apply steps_bind; [apply _|apply steps_try, dml_members_silent|]. intros [?|?]; apply steps_ret, _. }
  eapply (wpm_run _ (λ o c' b', o = Ok ms → ∃ page, ms = page.*2 ∧
    is_page w.(cass) ch bf af (Z.to_nat (page_limit limit)) page ∧ c' = w.(cass) ∧ b' = w.(bus))) in E
    as [Hd Hpost].
  - destruct (Hpost eq_refl) as (page & -> & Hp & Hc & Hb). exists ch, bf, af, page.
    split_and!; [done|done|done|done|done|apply page_limit_range..|congruence|done|done].
  - fold (page_limit limit). rewrite C, B. pose proof (page_limit_range limit).
    apply wpm_list_window; [lia| |done]. intros [= <-]. eexists. split; [done|].
    split; [apply is_page_take|done].
Qed.
End Pages.

(** ** Direct messages and blocks *)
Section Blocks.
Context `{Env} `{!UuidText} `{!CqlTypes}.

(** A block in either direction stops a direct message.  When the database
    answers and holds one live row per pair, a request for a direct message between users one of whom has
    blocked the other is refused with [ErrUserBlocked] before anything is
    written or published: no channel is opened and no message stored. *)
Theorem SendDirectMessage_respects_blocks lpb resolver lister media u v content w :
  fault_free → friends_wf w.(db).(friendships) → content ≠ "" → blocked_row w.(db) u v ∨ blocked_row w.(db) v u →
  let r := MessageService.SendDirectMessage lpb (Some resolver) (Some user_block_checker) lister media
             (uuid_print u) (uuid_print v) content w in
  r.1 = Err MessageService.ErrUserBlocked ∧ silent w r.2.
Proof.
  intros Hff Hw Hct Hbl. unfold MessageService.SendDirectMessage, string_eqb.
  rewrite (bool_decide_eq_false_2 (uuid_print v = "")) by apply uuid_print_nonempty.
  rewrite (bool_decide_eq_false_2 (content = "")) by done. cbn [negb ensure].
  rewrite !bind_ret_l. cbn [bc_IsBlocked user_block_checker].
  destruct (IsBlocked_run u v w Hff) as (x & Hx & Hxb).
  destruct (IsBlocked_run v u (bump w) Hff) as (y & Hy & Hyb).
  assert (∃ w1, silent w w1 ∧ (x ← UserService.IsBlocked (uuid_print u) (uuid_print v);
    if x : bool then mret true else UserService.IsBlocked (uuid_print v) (uuid_print u)) w
      = (Ok true, w1)) as (w1 & Hs & Hrun).
  { unfold mbind, gom_bind. rewrite Hx. destruct x; [exists (bump w); by split_and!|].
    rewrite Hy. exists (bump (bump w)). split; [by split_and!|].
    destruct Hbl as [Hb|Hb]; [by apply (Hxb Hw) in Hb|by rewrite Hyb]. }
  unfold mbind at 1, gom_bind at 1. unfold mbind, gom_bind in Hrun |- *. rewrite Hrun. by split.
Qed.
End Blocks.

(** * Concrete instances *)
#[local] Existing Instance demo_wired.
#[local] Existing Instance demo_uuid.
#[local] Existing Instance demo_cql.

Lemma canReadChannel_decides_witness :
  ∃ w', MessageService.canReadChannel (Some channel_lister) (uuid_print 3) (uuid_print 10)
          message_demo_world = (Ok true, w').
Proof.
  assert (authz_wired = true) as Hw by reflexivity.
  destruct (canReadChannel_decides 3 10 message_demo_world Hw demo_fault_free demo_overrides_wf)
    as (x & w' & Hrun & _ & Hx).
  - intros text e Hc. vm_compute in Hc. discriminate Hc.
  - exists w'. rewrite Hrun. f_equal. f_equal. apply Hx. right.
    exists 3%positive, (mkDmChannelMember 10 3 false 0). by vm_compute.
Defined.

Definition demo_list : GoM World (list Messages) :=
  MessageService.ListMessages (Some channel_lister) (uuid_print 3) (uuid_print 10) "" "" 10.
Lemma demo_list_runs : is_Ok (demo_list message_demo_world).1 = true.
Proof. vm_compute. reflexivity. Qed.
Lemma ListMessages_page_witness :
  ∃ ch bf af page, is_page demo_cass ch bf af 10 page ∧ (demo_list message_demo_world).1 = Ok page.*2.
Proof.
  destruct (run_Ok _ _ demo_list_runs) as [ms E].
  destruct (ListMessages_page (Some channel_lister) (uuid_print 3) (uuid_print 10) "" "" 10
    message_demo_world _ ms E) as (_ & ch & bf & af & page & _ & _ & _ & -> & Hp & _).
  exists ch, bf, af, page. split; [exact Hp|by rewrite E].
Defined.

(** User 4 has blocked user 1. *)
Definition blocked_demo_db : Db :=
  with_friendships {[(4, 1)%positive := mkFriendship 4 1 "blocked" 0 false 0]} demo_db.
Definition blocked_demo_world : World := with_db blocked_demo_db empty_world.
Lemma blocked_demo_wf : friends_wf (friendships blocked_demo_db).
Proof.
  assert (∀ a b f, row_at (friendships blocked_demo_db) a b = Some f →
    (a = 4 ∧ b = 1 ∧ f = mkFriendship 4 1 "blocked" 0 false 0)%positive) as Hrow.
  { intros a b f [Hl _]%live_Some. simpl in Hl. rewrite lookup_singleton_Some in Hl. naive_solver. }
  split.
  - intros a b f Hl. simpl in Hl. rewrite lookup_singleton_Some in Hl. naive_solver.
  - intros a b f Hf. by destruct (Hrow _ _ _ Hf) as (-> & -> & _).
  - intros a b f Hf. destruct (Hrow _ _ _ Hf) as (_ & _ & ->). by right; right.
  - intros a b f f' Hf Hf'. destruct (Hrow _ _ _ Hf) as (-> & -> & _).
    by destruct (Hrow _ _ _ Hf') as (? & _).
Qed.
Definition demo_resolver : DMChannelResolver.
Proof.
  refine {| dmr_GetOrCreateDMChannel := λ _ _, fail (Errorf "unused") |}.
  intros u rs w. unfold on_cass. reflexivity.
Defined.
Lemma SendDirectMessage_respects_blocks_witness :
  (MessageService.SendDirectMessage true (Some demo_resolver) (Some user_block_checker)
     (Some channel_lister) None (uuid_print 1) (uuid_print 4) "hi" blocked_demo_world).1
  = Err MessageService.ErrUserBlocked.
Proof.
  refine (proj1 (SendDirectMessage_respects_blocks true demo_resolver (Some channel_lister) None 1 4 "hi"
    blocked_demo_world demo_fault_free _ _ _)); [exact blocked_demo_wf|discriminate|].
  right. exists (mkFriendship 4 1 "blocked" 0 false 0). by vm_compute.
Defined.

(** A page can miss messages: behind two deleted messages a page of one is
    empty although message 40 is live. *)
Definition short_page_cass : Cass :=
  with_messages {[(10, 40)%positive := demo_message 10 40 3 "still here" false;
                  (10, 41)%positive := demo_message 10 41 3 "gone" true;
                  (10, 42)%positive := demo_message 10 42 3 "gone" true]} empty_cass.
Example short_page_misses_live_message :
  (MessageService.ListMessages (Some channel_lister) (uuid_print 3) (uuid_print 10) "" "" 1
     (with_cass short_page_cass demo_world)).1 = Ok [] ∧
  live_message short_page_cass 10 40 (demo_message 10 40 3 "still here" false).
Proof. split; [vm_compute; reflexivity|by vm_compute]. Qed.
