(* ===== verification/SqlSplit.v ===== *)
(** * SqlSplit: cutting a migration file into statements

    Models [src/internal/shared/sqlutil/split.go], which
    [src/cmd/init/main.go] runs over every migration file: [GooseUpSection]
    and [SplitStatements], the byte scanner with its five quoting modes, its
    index and its look-ahead as the source has them ([split_loop] is the
    [for] loop, with fuel).  The theorems: the loop ends whatever the text,
    with the result of a structural reference scanner ([pieces]) that loses
    no byte, and a file written statement by statement is cut back into
    exactly those statements. *)
From S2P Require Import Prelude.

Module SqlSplit.
(** [sql[i]], and 0 past the end (the [next] of the source). *)
Definition byte_at (sql : string) (i : nat) : ascii := default "000"%char (String.get i sql).
Fixpoint slice_from (i : nat) (s : string) : string :=
  match i, s with
  | O, _ => s
  | S i, String _ s => slice_from i s
  | S _, EmptyString => EmptyString
  end.
Definition slice (s : string) (i j : nat) : string := substring i (j - i) s.

(** [strings.Index]; [None] is -1. *)
Definition Index (s sub : string) : option nat := String.index 0 sub s.

Definition GooseUpSection (sql : string) : string :=
  match Index sql "-- +goose Up" with
  | None => sql
  | Some up =>
      let body := slice_from (up + String.length "-- +goose Up") sql in
      match Index body "-- +goose Down" with
      | None => body
      | Some down => slice body 0 down
      end
  end.

(** [c == '_' || c >= 'a' && c <= 'z' || ... || i > 1 && c >= '0' && c <= '9']. *)
Definition between (lo hi c : ascii) : bool :=
  (nat_of_ascii lo <=? nat_of_ascii c) && (nat_of_ascii c <=? nat_of_ascii hi).
Definition tag_byte (i : nat) (c : ascii) : bool :=
  Ascii.eqb c "_" || between "a" "z" c || between "A" "Z" c ||
  ((1 <? i) && between "0" "9" c).

(** [readDollarQuoteTag]: the loop walks [rest = s[i:]]; the result is the
    tag, [None] stands for [("", false)]. *)
Fixpoint tag_loop (s rest : string) (i : nat) : option string :=
  match rest with
  | EmptyString => None
  | String c rest =>
      if Ascii.eqb c "$" then Some (slice s 0 (i + 1))
      else if tag_byte i c then tag_loop s rest (S i)
      else None
  end.
Definition readDollarQuoteTag (s : string) : option string :=
  if (String.length s <? 2) || negb (Ascii.eqb (byte_at s 0) "$") then None
  else tag_loop s (slice_from 1 s) 1.

(** [strings.TrimSpace]: the encodings of the code points [unicode.IsSpace]
    accepts (ASCII, U+0085, U+00A0, U+1680, U+2000-200A, U+2028, U+2029,
    U+202F, U+205F, U+3000). *)
Definition bytes (l : list nat) : string := string_of_list_ascii (map ascii_of_nat l).
Definition spaces : list string :=
  map bytes ([[9]; [10]; [11]; [12]; [13]; [32]; [194; 133]; [194; 160]; [225; 154; 128]] ++
    map (λ b, [226; 128; b]) (seq 128 11 ++ [168; 169; 175]) ++
    [[226; 129; 159]; [227; 128; 128]]).
Definition rev_string (s : string) : string := string_of_list_ascii (rev (list_ascii_of_string s)).
Definition strip_one (enc : list string) (s : string) : option string :=
  match omap (λ p, strip_prefix p s) enc with
  | rest :: _ => Some rest
  | [] => None
  end.
Fixpoint strip_many (enc : list string) (fuel : nat) (s : string) : string :=
  match fuel with
  | O => s
  | S fuel => match strip_one enc s with Some r => strip_many enc fuel r | None => s end
  end.
Definition TrimLeft (enc : list string) (s : string) : string :=
  strip_many enc (S (String.length s)) s.
Definition TrimSpace (s : string) : string :=
  rev_string (TrimLeft (map rev_string spaces) (rev_string (TrimLeft spaces s))).

(** The locals of [SplitStatements]. *)
Record scanner := Scanner {
  statements : list string;
  start : nat;
  inLineComment : bool;
  inBlockComment : bool;
  inSingleQuote : bool;
  inDoubleQuote : bool;
  dollarQuote : string;
}.
Definition scanner0 : scanner := Scanner [] 0 false false false false "".
Definition line_comment b st := Scanner (statements st) (start st) b (inBlockComment st) (inSingleQuote st) (inDoubleQuote st) (dollarQuote st).
Definition block_comment b st := Scanner (statements st) (start st) (inLineComment st) b (inSingleQuote st) (inDoubleQuote st) (dollarQuote st).
Definition single_quote b st := Scanner (statements st) (start st) (inLineComment st) (inBlockComment st) b (inDoubleQuote st) (dollarQuote st).
Definition double_quote b st := Scanner (statements st) (start st) (inLineComment st) (inBlockComment st) (inSingleQuote st) b (dollarQuote st).
Definition dollar_quote t st := Scanner (statements st) (start st) (inLineComment st) (inBlockComment st) (inSingleQuote st) (inDoubleQuote st) t.

(** [if stmt := strings.TrimSpace(...); stmt != "" { append }]. *)
Definition push (piece : string) (l : list string) : list string :=
  let stmt := TrimSpace piece in if string_eqb stmt "" then l else l ++ [stmt].

Definition squote : ascii := "'".
Definition dquote : ascii := ascii_of_nat 34.
Definition newline : ascii := ascii_of_nat 10.

(** One iteration: the new state and the index after the body and [i++]. *)
Definition split_step (sql : string) (i : nat) (st : scanner) : scanner * nat :=
  let c := byte_at sql i in
  let next := byte_at sql (i + 1) in
  if inLineComment st then
    (if Ascii.eqb c newline then line_comment false st else st, i + 1)
  else if inBlockComment st then
    if Ascii.eqb c "*" && Ascii.eqb next "/" then (block_comment false st, i + 2)
    else (st, i + 1)
  else if negb (string_eqb (dollarQuote st) "") then
    if HasPrefix (slice_from i sql) (dollarQuote st)
    then (dollar_quote "" st, i + (String.length (dollarQuote st) - 1) + 1)
    else (st, i + 1)
  else if inSingleQuote st then
    if Ascii.eqb c squote then
      if Ascii.eqb next squote then (st, i + 2) else (single_quote false st, i + 1)
    else (st, i + 1)
  else if inDoubleQuote st then
    if Ascii.eqb c dquote then
      if Ascii.eqb next dquote then (st, i + 2) else (double_quote false st, i + 1)
    else (st, i + 1)
  else if Ascii.eqb c "-" && Ascii.eqb next "-" then (line_comment true st, i + 2)
  else if Ascii.eqb c "/" && Ascii.eqb next "*" then (block_comment true st, i + 2)
  else if Ascii.eqb c squote then (single_quote true st, i + 1)
  else if Ascii.eqb c dquote then (double_quote true st, i + 1)
  else if Ascii.eqb c "$" then
    match readDollarQuoteTag (slice_from i sql) with
    | Some tag => (dollar_quote tag st, i + (String.length tag - 1) + 1)
    | None => (st, i + 1)
    end
  else if Ascii.eqb c ";" then
    (Scanner (push (slice sql (start st) i) (statements st)) (i + 1)
       (inLineComment st) (inBlockComment st) (inSingleQuote st) (inDoubleQuote st)
       (dollarQuote st), i + 1)
  else (st, i + 1).

(** The [for] loop and the last piece; [None] when the fuel runs out. *)
Fixpoint split_loop (sql : string) (fuel i : nat) (st : scanner) : option (list string) :=
  if String.length sql <=? i
  then Some (push (slice_from (start st) sql) (statements st))
  else match fuel with
       | O => None
       | S fuel => let '(st, i) := split_step sql i st in split_loop sql fuel i st
       end.
Definition SplitStatements (sql : string) : list string :=
  default [] (split_loop sql (String.length sql) 0 scanner0).
End SqlSplit.

Import SqlSplit.

(** The example of [split_test.go]. *)
Definition nl : string := String newline "".
Definition tab : string := bytes [9].
Definition test_create : string :=
  "-- comment with ; semicolon" +:+ nl +:+ "CREATE TABLE example (" +:+ nl +:+ tab +:+
  "name TEXT DEFAULT 'semi;colon'," +:+ nl +:+ tab +:+ "quoted TEXT DEFAULT $$body; text$$" +:+ nl +:+ ")".
Definition test_insert : string :=
  "/* block ; comment */" +:+ nl +:+ "INSERT INTO example (name) VALUES ('it''s; ok')".

Example TestSplitStatements :
  SplitStatements (test_create +:+ ";" +:+ nl +:+ test_insert +:+ ";") = [test_create; test_insert].
Proof. vm_compute. reflexivity. Qed.

Example TestGooseUpSection :
  TrimSpace (GooseUpSection ("-- +goose Up" +:+ nl +:+ "CREATE TABLE users (id uuid);" +:+ nl +:+
     "-- +goose Down" +:+ nl +:+ "DROP TABLE users;")) = "CREATE TABLE users (id uuid);"%string.
Proof. vm_compute. reflexivity. Qed.

Lemma TrimSpace_unfold s :
  TrimSpace s = rev_string (TrimLeft (map rev_string spaces) (rev_string (TrimLeft spaces s))).
Proof. reflexivity. Qed.
#[local] Opaque TrimSpace spaces.

(** ** Strings by prefix and suffix *)
Fixpoint str_take (n : nat) (s : string) : string :=
  match n, s with
  | S n, String c s => String c (str_take n s)
  | _, _ => EmptyString
  end.

Lemma app_string c s t : (String c s +:+ t)%string = String c (s +:+ t).
Proof. reflexivity. Qed.
Lemma app_nil_str (s : string) : s +:+ "" = s.
Proof. induction s as [|c s IH]; [done|]. by rewrite app_string, IH. Qed.
Lemma app_nil_l_str (s : string) : "" +:+ s = s.
Proof. reflexivity. Qed.
Lemma app_assoc_str (s t u : string) : (s +:+ t) +:+ u = s +:+ (t +:+ u).
Proof. induction s as [|c s IH]; [done|]. by rewrite !app_string, IH. Qed.
Lemma length_app_str (s t : string) : String.length (s +:+ t) = String.length s + String.length t.
Proof. induction s as [|c s IH]; [done|]. rewrite app_string. simpl. by rewrite IH. Qed.
Lemma app_inj_str (s1 s2 t1 t2 : string) :
  String.length s1 = String.length s2 → s1 +:+ t1 = s2 +:+ t2 → s1 = s2 ∧ t1 = t2.
Proof.
  revert s2. induction s1 as [|c s1 IH]; intros [|d s2] Hl; try discriminate Hl; [done|].
  rewrite !app_string. intros [= -> E]. injection Hl as Hl. by destruct (IH _ Hl E) as [-> ->].
Qed.
Lemma str_take_drop n s : str_take n s +:+ slice_from n s = s.
Proof.
  revert s. induction n as [|n IH]; intros [|c s]; try done.
  cbn [str_take slice_from]. by rewrite app_string, IH.
Qed.
Lemma slice_from_add i j s : slice_from i (slice_from j s) = slice_from (j + i) s.
Proof.
  revert s. induction j as [|j IH]; intros [|c s]; try done; [|apply IH]. by destruct i.
Qed.
Lemma str_take_add i j s : str_take (i + j) s = str_take i s +:+ str_take j (slice_from i s).
Proof.
  revert s. induction i as [|i IH]; intros [|c s]; try done; [by destruct j|].
  cbn [str_take slice_from Nat.add]. by rewrite app_string, IH.
Qed.
Lemma length_slice_from i s : String.length (slice_from i s) = String.length s - i.
Proof. revert s. induction i as [|i IH]; intros [|c s]; try done. apply IH. Qed.
Lemma slice_from_past i s : String.length s ≤ i → slice_from i s = ""%string.
Proof. revert s. induction i as [|i IH]; intros [|c s]; simpl; try done; [lia|]. intros. apply IH. lia. Qed.
Lemma slice_take s i j : slice s i j = str_take (j - i) (slice_from i s).
Proof.
  unfold slice. generalize (j - i). clear j. revert s.
  induction i as [|i IH]; intros s n.
  - revert s. induction n as [|n IHn]; intros [|c s]; try done.
    cbn [substring str_take slice_from] in *. by rewrite IHn.
  - destruct s as [|c s]; [by destruct n|]. apply IH.
Qed.
Lemma slice_app s st i k : st ≤ i →
  slice s st (i + k) = slice s st i +:+ str_take k (slice_from i s).
Proof.
  intros Hle. rewrite !slice_take. replace (i + k - st) with ((i - st) + k) by lia.
  rewrite str_take_add, slice_from_add. by replace (st + (i - st)) with i by lia.
Qed.
Lemma byte_at_slice i j s : byte_at s (i + j) = byte_at (slice_from i s) j.
Proof.
  revert s. induction i as [|i IH]; intros [|c s]; try done; apply IH.
Qed.
Lemma strip_prefix_inv p s r : strip_prefix p s = Some r → s = p +:+ r.
Proof.
  revert s. induction p as [|c p IH]; intros s.
  { by intros [= ->]. }
  destruct s as [|d s]; [done|]. cbn [strip_prefix].
  destruct (Ascii.eqb_spec c d) as [<-|]; [|done]. intros E. by rewrite (IH _ E).
Qed.
Lemma HasPrefix_length s p : HasPrefix s p = true → String.length p ≤ String.length s.
Proof.
  unfold HasPrefix. intros [r E]%bool_decide_eq_true. apply strip_prefix_inv in E as ->.
  rewrite length_app_str. lia.
Qed.

(** ** The reference scanner

    Structural in the text: [lex] classifies the next byte (the mode after
    it, how many further bytes it consumes, whether it ends a statement). *)
Inductive mode := Code | Line | Block | Single | Double | Dollar (tag : string).

Definition lex (m : mode) (s : string) : mode * nat * bool :=
  let c := byte_at s 0 in
  let next := byte_at s 1 in
  match m with
  | Line => (if Ascii.eqb c newline then Code else Line, 0, false)
  | Block => if Ascii.eqb c "*" && Ascii.eqb next "/" then (Code, 1, false) else (Block, 0, false)
  | Dollar t => if HasPrefix s t then (Code, String.length t - 1, false) else (Dollar t, 0, false)
  | Single => if Ascii.eqb c squote
              then if Ascii.eqb next squote then (Single, 1, false) else (Code, 0, false)
              else (Single, 0, false)
  | Double => if Ascii.eqb c dquote
              then if Ascii.eqb next dquote then (Double, 1, false) else (Code, 0, false)
              else (Double, 0, false)
  | Code =>
      if Ascii.eqb c "-" && Ascii.eqb next "-" then (Line, 1, false)
      else if Ascii.eqb c "/" && Ascii.eqb next "*" then (Block, 1, false)
      else if Ascii.eqb c squote then (Single, 0, false)
      else if Ascii.eqb c dquote then (Double, 0, false)
      else if Ascii.eqb c "$" then
        match readDollarQuoteTag s with
        | Some tag => (Dollar tag, String.length tag - 1, false)
        | None => (Code, 0, false)
        end
      else (Code, 0, Ascii.eqb c ";")
  end.

Definition prepend (p : string) (l : list string) : list string :=
  match l with [] => [p] | x :: l => (p +:+ x) :: l end.

Fixpoint pieces (m : mode) (skip : nat) (s : string) : list string :=
  match s with
  | EmptyString => [EmptyString]
  | String c rest =>
      match skip with
      | S k => prepend (String c "") (pieces m k rest)
      | O => match lex m s with
             | (m', _, true) => "" :: pieces m' 0 rest
             | (m', k, false) => prepend (String c "") (pieces m' k rest)
             end
      end
  end%string.

(** The pieces a caller gets: trimmed, the blank ones dropped. *)
Definition trimmed (l : list string) : list string := foldl (λ acc p, push p acc) [] l.

Definition scanner_of (l : list string) (st : nat) (m : mode) : scanner :=
  match m with
  | Code => Scanner l st false false false false ""
  | Line => Scanner l st true false false false ""
  | Block => Scanner l st false true false false ""
  | Single => Scanner l st false false true false ""
  | Double => Scanner l st false false false true ""
  | Dollar t => Scanner l st false false false false t
  end.
(** A tag in force is a pair of dollars around a name without semicolon. *)
Fixpoint no_semicolon (s : string) : bool :=
  match s with EmptyString => true | String c s => negb (Ascii.eqb c ";") && no_semicolon s end.
Definition tag_ok (t : string) : Prop := t ≠ ""%string ∧ no_semicolon t = true.
Definition mode_ok (m : mode) : Prop := match m with Dollar t => tag_ok t | _ => True end.

Lemma tag_nonempty t : tag_ok t → negb (string_eqb t "") = true.
Proof. intros [Ht _]. unfold string_eqb. by rewrite bool_decide_eq_false_2. Qed.
Lemma no_semicolon_take n s : no_semicolon s = true → no_semicolon (str_take n s) = true.
Proof.
  revert s. induction n as [|n IH]; intros [|c s]; try done.
  cbn [no_semicolon str_take]. intros [-> E]%andb_true_iff. by apply IH.
Qed.
Lemma no_semicolon_app s t : no_semicolon (s +:+ t) = no_semicolon s && no_semicolon t.
Proof. induction s as [|c s IH]; [done|]. rewrite app_string. simpl. by rewrite IH, andb_assoc. Qed.

Lemma tag_byte_semicolon i c : tag_byte i c = true → Ascii.eqb c ";" = false.
Proof.
  intros E. destruct (Ascii.eqb_spec c ";"); [subst|done]. exfalso. revert E.
  unfold tag_byte, between. rewrite andb_false_r. vm_compute. done.
Qed.

(** The tag ends inside the text, starts it, and does not look past the
    first semicolon. *)
Lemma tag_loop_spec s rest i t :
  i ≤ String.length s → rest = slice_from i s → no_semicolon (str_take i s) = true →
  tag_loop s rest i = Some t → i < String.length t ≤ String.length s ∧ no_semicolon t = true.
Proof.
  revert i. induction rest as [|c rest IH]; intros i Hi Hrest Hns; [done|]. cbn [tag_loop].
  assert (slice_from (S i) s = rest) as Hrest'.
  { replace (S i) with (i + 1) by lia. by rewrite <-slice_from_add, <-Hrest. }
  assert (String.length s = i + S (String.length rest)) as Hlen.
  { assert (String.length (slice_from i s) = S (String.length rest)) as E by (by rewrite <-Hrest).
    rewrite length_slice_from in E. lia. }
  assert (str_take (S i) s = str_take i s +:+ String c "") as Htake.
  { replace (S i) with (i + 1) by lia. by rewrite str_take_add, <-Hrest. }
  destruct (Ascii.eqb_spec c "$") as [->|].
  - intros [= <-]. rewrite slice_take. cbn [slice_from].
    replace (i + 1 - 0) with (S i) by lia. split; [|by rewrite Htake, no_semicolon_app, Hns].
    pose proof (f_equal String.length (str_take_drop (S i) s)) as E.
    rewrite length_app_str, length_slice_from in E. lia.
  - destruct (tag_byte i c) eqn:Hb; [|done]. intros E.
    destruct (IH (S i)) as [Hl Hn]; [lia|done| |done|split; [lia|done]].
    rewrite Htake, no_semicolon_app, Hns. simpl. by rewrite (tag_byte_semicolon _ _ Hb).
Qed.

Lemma readDollarQuoteTag_spec s t :
  readDollarQuoteTag s = Some t → 2 ≤ String.length t ≤ String.length s ∧ tag_ok t.
Proof.
  unfold readDollarQuoteTag. destruct (_ <? _) eqn:E; [done|]. apply Nat.ltb_ge in E. simpl.
  destruct s as [|c s]; [done|]. unfold byte_at. simpl (default _ _).
  destruct (Ascii.eqb_spec c "$") as [->|]; [|done]. cbn [negb]. intros Ht.
  apply tag_loop_spec in Ht as [Hl Hn]; [|simpl in *; lia|done|done].
  split; [lia|]. split; [|done]. intros ->. simpl in Hl. lia.
Qed.

(** What one classification of the byte [c] in mode [m] may answer: [lex]
    stays inside the text, keeps the mode well formed and cuts only at a
    semicolon outside quotes. *)
Definition fits (m : mode) (c : ascii) (rest : string) (r : mode * nat * bool) : Prop :=
  mode_ok r.1.1 ∧ r.1.2 ≤ String.length rest ∧
  (r.2 = true → c = ";"%char ∧ m = Code ∧ r.1 = (Code, 0)).

Lemma fits_plain m c rest m' : mode_ok m' → fits m c rest (m', 0, false).
Proof. intros Hm. split_and!; simpl; [done|lia|done]. Qed.
Lemma fits_next m c rest m' d :
  mode_ok m' → Ascii.eqb (byte_at (String c rest) 1) d = true → d ≠ "000"%char →
  fits m c rest (m', 1, false).
Proof.
  intros ? <-%Ascii.eqb_eq Hd. split_and!; simpl; [done| |done]. destruct rest; [by destruct Hd|simpl; lia].
Qed.
Ltac fits_step :=
  match goal with
  | |- fits _ _ _ (if ?b then _ else _) => destruct b eqn:?
  | H : _ && _ = true |- _ => apply andb_true_iff in H as [? ?]
  | |- fits _ _ _ (_, 0, false) => apply fits_plain
  | H : Ascii.eqb (byte_at _ 1) _ = true |- fits _ _ _ (_, 1, false) => eapply fits_next; [|exact H|]
  | |- _ => done
  end.

Lemma lex_fits m c rest : mode_ok m → fits m c rest (lex m (String c rest)).
Proof.
  intros Hm. unfold lex. cbv zeta. change (byte_at (String c rest) 0) with c.
  destruct m; repeat fits_step.
  - destruct (readDollarQuoteTag _) as [t|] eqn:Ht; [|by apply fits_plain].
    apply readDollarQuoteTag_spec in Ht as [Hl Hok]. simpl in Hl.
    split_and!; simpl; [done|lia|done].
  - split_and!; simpl; [done|lia|]. by intros ->%Ascii.eqb_eq.
  - by destruct (Ascii.eqb c newline).
  - match goal with H : HasPrefix _ _ = true |- _ => apply HasPrefix_length in H; simpl in H end.
    split_and!; simpl; [done|lia|done].
Qed.

(** The source's iteration is [lex] on the text that remains. *)
Lemma split_step_lex sql i l st m c rest :
  mode_ok m → slice_from i sql = String c rest →
  split_step sql i (scanner_of l st m) =
  let '(m', k, cut) := lex m (String c rest) in
  (if cut then scanner_of (push (slice sql st i) l) (i + 1) m' else scanner_of l st m', i + k + 1).
Proof.
  intros Hm Hs. unfold split_step, lex. cbv zeta.
  rewrite Hs, !byte_at_slice. replace (byte_at sql i) with c by (rewrite <-(Nat.add_0_r i), byte_at_slice; by rewrite Hs).
  rewrite Hs. change (byte_at (String c rest) 0) with c.
  destruct m; simpl; try rewrite (tag_nonempty _ Hm);
    repeat case_match; simplify_eq/=; by (done || f_equal; lia).
Qed.

(** ** The loop computes the reference *)
Lemma prepend_app p q l : l ≠ [] → prepend (p +:+ q) l = prepend p (prepend q l).
Proof. destruct l; [done|]. simpl. by rewrite app_assoc_str. Qed.
Lemma prepend_nil l : l ≠ [] → prepend "" l = l.
Proof. by destruct l. Qed.
Lemma prepend_not_nil p l : prepend p l ≠ [].
Proof. by destruct l. Qed.
Lemma pieces_not_nil m k s : pieces m k s ≠ [].
Proof.
  destruct s as [|c s]; [done|]. cbn [pieces]. destruct k; [|apply prepend_not_nil].
  destruct (lex m _) as [[m' k] []]; [done|apply prepend_not_nil].
Qed.
Lemma pieces_skip m k s : k ≤ String.length s →
  pieces m k s = prepend (str_take k s) (pieces m 0 (slice_from k s)).
Proof.
  revert s. induction k as [|k IH]; intros s Hk.
  { cbn [str_take slice_from]. by rewrite prepend_nil by apply pieces_not_nil. }
  destruct s as [|c s]; simpl in Hk; [lia|]. cbn [pieces str_take slice_from].
  rewrite IH by lia. by rewrite <-prepend_app by apply pieces_not_nil.
Qed.

Lemma push_app p l l' : push p (l ++ l') = l ++ push p l'.
Proof. unfold push. case_match; [done|]. by rewrite app_assoc. Qed.
Lemma foldl_push ps l : foldl (λ acc p, push p acc) l ps = l ++ trimmed ps.
Proof.
  unfold trimmed. revert l. induction ps as [|p ps IH]; intros l; simpl; [by rewrite app_nil_r|].
  rewrite IH, (IH (push p [])). rewrite <-(app_nil_r l) at 1. by rewrite push_app, app_assoc.
Qed.
Lemma trimmed_cons p ps : trimmed (p :: ps) = push p [] ++ trimmed ps.
Proof. unfold trimmed at 1. simpl. apply foldl_push. Qed.
Lemma push_nil p l : push p l = l ++ push p [].
Proof. rewrite <-(app_nil_r l) at 1. apply push_app. Qed.

Lemma split_loop_pieces sql fuel i l st m :
  st ≤ i ≤ String.length sql → String.length sql - i ≤ fuel → mode_ok m →
  split_loop sql fuel i (scanner_of l st m) =
  Some (l ++ trimmed (prepend (slice sql st i) (pieces m 0 (slice_from i sql)))).
Proof.
  revert i l st m. induction fuel as [|fuel IH]; intros i l st m Hi Hf Hm; cbn [split_loop].
  all: destruct (Nat.leb_spec (String.length sql) i) as [Hend|Hlt]; [|try lia].
  1,2: assert (i = String.length sql) as -> by lia; rewrite (slice_from_past (String.length sql)) by lia;
    cbn [pieces prepend]; rewrite trimmed_cons, app_nil_r, app_nil_str, slice_take, <-push_nil;
    replace (start (scanner_of l st m)) with st by (by destruct m);
    replace (SqlSplit.statements (scanner_of l st m)) with l by (by destruct m);
    do 2 f_equal; rewrite <-(str_take_drop (String.length sql - st) (slice_from st sql)) at 1;
    rewrite slice_from_add, (slice_from_past (st + _)) by lia; apply app_nil_str.
  destruct (slice_from i sql) as [|c rest] eqn:Hs.
  { apply (f_equal String.length) in Hs. rewrite length_slice_from in Hs. simpl in Hs. lia. }
  rewrite (split_step_lex _ _ _ _ _ _ _ Hm Hs). cbn [pieces].
  destruct (lex_fits m c rest Hm) as (Hm' & Hk & Hcut).
  destruct (lex m (String c rest)) as [[m' k] cut]. simpl in Hm', Hk, Hcut.
  assert (String.length rest = String.length sql - i - 1) as Hlen.
  { apply (f_equal String.length) in Hs. rewrite length_slice_from in Hs. simpl in Hs. lia. }
  assert (∀ n, slice_from (i + S n) sql = slice_from n rest) as Hrest.
  { intros n. by rewrite <-slice_from_add, Hs. }
  assert (i + k + 1 = i + S k) as -> by lia.
  destruct cut.
  - destruct (Hcut eq_refl) as (-> & -> & [= -> ->]). replace (i + 1) with (i + S 0) by lia.
    rewrite IH by (done || lia). rewrite Hrest. cbn [slice_from].
    rewrite (slice_take sql (i + 1)), Nat.sub_diag. cbn [str_take]. rewrite prepend_nil by apply pieces_not_nil.
    cbn [prepend]. by rewrite app_nil_str, trimmed_cons, app_assoc, <-push_nil.
  - rewrite IH by (done || lia). rewrite Hrest, slice_app, Hs by lia. cbn [str_take].
    rewrite (pieces_skip m' k rest) by lia.
    change (String c (str_take k rest)) with (String c "" +:+ str_take k rest).
    by rewrite !prepend_app by (apply prepend_not_nil || apply pieces_not_nil).
Qed.

Lemma SplitStatements_pieces sql : SplitStatements sql = trimmed (pieces Code 0 sql).
Proof.
  unfold SplitStatements. change scanner0 with (scanner_of [] 0 Code).
  rewrite split_loop_pieces by (done || lia). rewrite slice_take. cbn [str_take Nat.sub slice_from app default].
  by rewrite prepend_nil by apply pieces_not_nil.
Qed.

(** No byte is lost: the pieces joined by semicolons are the text. *)
Lemma concat_prepend p l : l ≠ [] → String.concat ";" (prepend p l) = p +:+ String.concat ";" l.
Proof. destruct l as [|x [|y l]]; [done..|]. simpl. intros _. by rewrite app_assoc_str. Qed.
Lemma concat_cons p l : l ≠ [] → String.concat ";" (p :: l) = p +:+ ";" +:+ String.concat ";" l.
Proof. by destruct l. Qed.
Lemma pieces_concat m k s : mode_ok m → String.concat ";" (pieces m k s) = s.
Proof.
  revert m k. induction s as [|c s IH]; intros m k Hm; [done|]. cbn [pieces].
  destruct k as [|k]; [|by rewrite concat_prepend, IH by (done || apply pieces_not_nil)].
  destruct (lex_fits m c s Hm) as (Hm' & Hk & Hcut).
  destruct (lex m (String c s)) as [[m' k] []]; simpl in Hm', Hcut.
  - destruct (Hcut eq_refl) as (-> & -> & [= -> ->]).
    by rewrite concat_cons, IH by (done || apply pieces_not_nil).
  - by rewrite concat_prepend, IH by (done || apply pieces_not_nil).
Qed.

(** ** White space *)
Definition blanks (enc : list string) (w : string) : Prop :=
  w = ""%string ∨ ∃ p r, p ∈ enc ∧ w = p +:+ r.

Lemma strip_one_inv enc s r : strip_one enc s = Some r → ∃ p, p ∈ enc ∧ s = p +:+ r.
Proof.
  unfold strip_one. destruct (omap _ _) as [|x xs] eqn:E; [done|]. intros [= ->].
  assert (r ∈ omap (λ p, strip_prefix p s) enc) as Hin by (rewrite E; left).
  apply list_elem_of_omap in Hin as (p & Hp & Hr). eauto using strip_prefix_inv.
Qed.
Lemma strip_one_None enc p r : p ∈ enc → strip_one enc (p +:+ r) ≠ None.
Proof.
  unfold strip_one. intros Hp. destruct (omap _ _) as [|x xs] eqn:E; [|done].
  assert (r ∈ omap (λ q, strip_prefix q (p +:+ r)) enc) as Hin.
  { apply list_elem_of_omap. exists p. split; [done|]. apply strip_prefix_app. }
  rewrite E in Hin. by apply not_elem_of_nil in Hin.
Qed.

Section trim_left.
Context (enc : list string) (Hne : Forall (λ p, 1 ≤ String.length p) enc).

Lemma strip_many_spec fuel s : String.length s < fuel →
  strip_one enc (strip_many enc fuel s) = None ∧ ∃ w, blanks enc w ∧ s = w +:+ strip_many enc fuel s.
Proof using Hne.
  revert s. induction fuel as [|fuel IH]; intros s Hf; [lia|]. cbn [strip_many].
  destruct (strip_one enc s) as [r|] eqn:E; [|by split; [|exists ""%string; split; [left|]]].
  apply strip_one_inv in E as (p & Hp & ->). rewrite Forall_forall in Hne.
  pose proof (Hne p Hp). rewrite length_app_str in Hf.
  destruct (IH r) as (Hnone & w & _ & Hw); [lia|]. split; [done|].
  exists (p +:+ w). split; [right; eauto|]. by rewrite app_assoc_str, <-Hw.
Qed.
Lemma TrimLeft_spec s :
  strip_one enc (TrimLeft enc s) = None ∧ ∃ w, blanks enc w ∧ s = w +:+ TrimLeft enc s.
Proof using Hne. apply strip_many_spec. lia. Qed.
End trim_left.

Lemma rev_string_app s t : rev_string (s +:+ t) = rev_string t +:+ rev_string s.
Proof.
  assert (∀ l l', string_of_list_ascii (l ++ l') = string_of_list_ascii l +:+ string_of_list_ascii l') as Hs.
  { intros l l'. induction l as [|c l IH]; [done|]. simpl. by rewrite IH. }
  assert (∀ u v, list_ascii_of_string (u +:+ v) = list_ascii_of_string u ++ list_ascii_of_string v) as Hl.
  { intros u v. induction u as [|c u IH]; [done|]. rewrite app_string. simpl. by rewrite IH. }
  unfold rev_string. by rewrite Hl, rev_app_distr, Hs.
Qed.
Lemma rev_string_involutive s : rev_string (rev_string s) = s.
Proof.
  unfold rev_string. by rewrite list_ascii_of_string_of_list_ascii, rev_involutive,
    string_of_list_ascii_of_string.
Qed.
Lemma length_rev_string s : String.length (rev_string s) = String.length s.
Proof.
  assert (∀ l, String.length (string_of_list_ascii l) = length l) as Hl.
  { induction l as [|c l IH]; [done|]. simpl. by rewrite IH. }
  rewrite <-(string_of_list_ascii_of_string s) at 2. unfold rev_string. by rewrite !Hl, length_rev.
Qed.

Lemma spaces_nonempty : Forall (λ p, 1 ≤ String.length p) spaces.
Proof. refine (bool_decide_eq_true_1 _ _). vm_compute. reflexivity. Qed.
Lemma rev_spaces_nonempty : Forall (λ p, 1 ≤ String.length p) (map rev_string spaces).
Proof. refine (bool_decide_eq_true_1 _ _). vm_compute. reflexivity. Qed.

(** [TrimSpace] only removes white space, and no white space is left in front. *)
Lemma TrimSpace_spec p :
  ∃ a b, p = a +:+ TrimSpace p +:+ rev_string b ∧ blanks spaces a ∧ blanks (map rev_string spaces) b ∧
         ∀ q r, q ∈ spaces → TrimSpace p ≠ q +:+ r.
Proof.
  destruct (TrimLeft_spec spaces spaces_nonempty p) as (Hnone & a & Ha & Hp).
  destruct (TrimLeft_spec _ rev_spaces_nonempty (rev_string (TrimLeft spaces p))) as (_ & b & Hb & Hq).
  apply (f_equal rev_string) in Hq. rewrite rev_string_involutive, rev_string_app in Hq.
  rewrite <-TrimSpace_unfold in Hq. exists a, b. split_and!; [by rewrite <-Hq|done..|].
  intros q r Hin E. eapply (strip_one_None spaces q (r +:+ rev_string b)); [done|].
  by rewrite <-app_assoc_str, <-E, <-Hq.
Qed.

Lemma TrimSpace_length p : String.length (TrimSpace p) ≤ String.length p.
Proof. destruct (TrimSpace_spec p) as (a & b & E & _). apply (f_equal String.length) in E. rewrite !length_app_str in E. lia. Qed.
Lemma infix_id (p a t b : string) : p = a +:+ t +:+ b → String.length p ≤ String.length t → t = p.
Proof.
  intros E Hl. apply (f_equal String.length) in E as El. rewrite !length_app_str in El.
  assert (a = ""%string) as -> by (destruct a; [done|simpl in El; lia]).
  assert (b = ""%string) as -> by (destruct b; [done|simpl in El; lia]).
  by rewrite app_nil_str in E.
Qed.
Lemma TrimSpace_id p : String.length p ≤ String.length (TrimSpace p) → TrimSpace p = p.
Proof. destruct (TrimSpace_spec p) as (a & b & E & _). by eapply infix_id. Qed.
Lemma strip_newline s : strip_one spaces (nl +:+ s) = Some s.
Proof. by vm_compute. Qed.
Lemma TrimSpace_newline s : TrimSpace (nl +:+ s) = TrimSpace s.
Proof.
  assert (TrimLeft spaces (nl +:+ s) = TrimLeft spaces s) as E; [|by rewrite !TrimSpace_unfold, E].
  unfold TrimLeft at 1. rewrite length_app_str.
  change (String.length nl + String.length s) with (S (String.length s)).
  cbn [strip_many]. by rewrite strip_newline.
Qed.
Lemma no_space_semicolon r : ¬ blanks spaces (String ";" r) ∧ ¬ blanks (map rev_string spaces) (String ";" r).
Proof.
  assert (∀ enc, Forall (λ p, 1 ≤ String.length p) enc → bool_decide (Exists (λ p, HasPrefix p ";" = true) enc) = false →
    ¬ blanks enc (String ";" r)) as Hgen.
  { intros enc Hne E%bool_decide_eq_false [|(p & q & Hp & Hq)]; [done|]. rewrite Forall_forall in Hne.
    apply E, Exists_exists. exists p. split; [done|]. specialize (Hne p Hp).
    destruct p as [|c p]; [simpl in Hne; lia|]. injection Hq as <- _. unfold HasPrefix. by destruct p. }
  split; apply Hgen; [apply spaces_nonempty|by vm_compute|apply rev_spaces_nonempty|by vm_compute].
Qed.

Lemma push_nil_eq p s l : push p [] = s :: l → s = TrimSpace p ∧ s ≠ ""%string ∧ l = [].
Proof.
  unfold push, string_eqb. case_bool_decide as E; [done|]. simpl. intros [= <- <-]. done.
Qed.
Lemma trimmed_single ps s : trimmed ps = [s] → s ≠ ""%string ∧ ∃ l p l', ps = l ++ p :: l' ∧ TrimSpace p = s.
Proof.
  induction ps as [|p ps IH]; [done|]. rewrite trimmed_cons.
  destruct (push p []) as [|x xs] eqn:E.
  - simpl. intros (Hs & l & q & l' & -> & Hq)%IH. split; [done|]. by exists (p :: l), q, l'.
  - apply push_nil_eq in E as (-> & Hne & ->). intros [= <- _]. split; [done|]. by exists [], p, ps.
Qed.

Lemma length_concat l p l' :
  String.length p + length l + length l' ≤ String.length (String.concat ";" (l ++ p :: l')).
Proof.
  assert (∀ q t, String.length q + length t ≤ String.length (String.concat ";" (q :: t))) as Hhead.
  { intros q t. revert q. induction t as [|x t IH]; intros q; [simpl; lia|].
    rewrite concat_cons, !length_app_str by done. specialize (IH x). simpl in *. lia. }
  induction l as [|x l IH]; [simpl app; specialize (Hhead p l'); simpl in *; lia|].
  cbn [app]. rewrite concat_cons, !length_app_str by (by destruct l). simpl in *. lia.
Qed.

Lemma TrimSpace_keeps_semicolon s : s ≠ ""%string → TrimSpace (s +:+ ";") ≠ s.
Proof.
  intros Hne Hp. destruct (TrimSpace_spec (s +:+ ";")) as (a & b & Hab & Ha & Hb & Hno). rewrite Hp in Hab, Hno.
  apply (f_equal String.length) in Hab as Hal. rewrite !length_app_str in Hal. simpl in Hal.
  destruct a as [|c a].
  - change (s +:+ ";" = s +:+ rev_string b) in Hab. apply app_inj_str in Hab as [_ Hbs]; [|done].
    apply (f_equal rev_string) in Hbs. rewrite rev_string_involutive in Hbs. subst b.
    by apply (no_space_semicolon "").
  - simpl in Hal. assert (a = ""%string) as -> by (destruct a; [done|simpl in Hal; lia]).
    rewrite app_string in Hab. destruct s as [|d s]; [done|]. rewrite app_string in Hab.
    injection Hab as -> Hab. destruct Ha as [|(q & r & Hq & Eq)]; [done|].
    pose proof spaces_nonempty as Hsp. rewrite Forall_forall in Hsp. specialize (Hsp q Hq).
    destruct q as [|e q]; [simpl in Hsp; lia|]. injection Eq as <- Eq.
    destruct q; [|done]. by eapply (Hno _ s Hq).
Qed.

(** A statement that comes back from itself plus a semicolon is one piece. *)
Lemma complete_pieces s :
  SplitStatements (s +:+ ";") = [s] → pieces Code 0 (s +:+ ";") = [s; ""%string] ∧ push s [] = [s].
Proof.
  rewrite SplitStatements_pieces. intros E.
  destruct (trimmed_single _ _ E) as (Hne & l & p & l' & HR & Hp).
  pose proof (pieces_concat Code 0 (s +:+ ";") I) as Hc.
  pose proof (TrimSpace_length p) as Hl. rewrite Hp in Hl.
  enough (pieces Code 0 (s +:+ ";") = [s; ""%string]) as Hok.
  { split; [done|]. rewrite Hok in E. rewrite trimmed_cons in E. by rewrite app_nil_r in E. }
  pose proof (length_concat l p l') as Hlen. rewrite <-HR, Hc, length_app_str in Hlen. simpl in Hlen.
  destruct l as [|x [|y l]], l' as [|z [|z' l']]; simpl in Hlen; try lia; cbn [app] in HR.
  - exfalso. rewrite HR in Hc. simpl in Hc. subst p. by eapply TrimSpace_keeps_semicolon.
  - rewrite HR, concat_cons in Hc by done. apply (f_equal String.length) in Hc as Hcl.
    rewrite !length_app_str in Hcl. simpl in Hcl.
    destruct z; [|simpl in Hcl; lia]. by rewrite HR, <-Hp, TrimSpace_id by (rewrite Hp; lia).
  - exfalso. rewrite HR, concat_cons in Hc by done. apply (f_equal String.length) in Hc as Hcl.
    rewrite !length_app_str in Hcl. simpl in Hcl.
    destruct x; [|simpl in Hcl; lia]. rewrite TrimSpace_id in Hp by (rewrite Hp; lia). subst p.
    revert HR. rewrite <-Hc. simpl. intros [= Hps].
    destruct s as [|c s]; [done|]. injection Hc as <- _.
    cbn [pieces] in Hps. change (lex Code (String ";" s)) with (Code, 0, true) in Hps.
    simpl in Hps. by injection Hps.
Qed.

(** ** The scanner does not look past an unquoted semicolon *)
Section local.
Context (t : string).

Lemma strip_prefix_local p x : no_semicolon p = true →
  HasPrefix (x +:+ String ";" t) p = HasPrefix (x +:+ ";") p.
Proof.
  unfold HasPrefix. revert x. induction p as [|c p IH]; intros x Hp; [by rewrite !bool_decide_eq_true_2 by (simpl; eauto)|].
  cbn [no_semicolon] in Hp. apply andb_true_iff in Hp as [Hc Hp].
  destruct x as [|d x].
  - rewrite !app_nil_l_str. cbn [strip_prefix]. revert Hc. by destruct (Ascii.eqb c ";").
  - rewrite !app_string. cbn [strip_prefix]. destruct (Ascii.eqb c d); [by apply IH|done].
Qed.
Lemma str_take_local n x y : n ≤ String.length x → str_take n (x +:+ y) = str_take n x.
Proof.
  revert x. induction n as [|n IH]; intros [|c x] Hn; simpl in Hn; try done; [lia|].
  rewrite app_string. cbn [str_take]. by rewrite IH by lia.
Qed.
Lemma tag_loop_local x y i : i + String.length y = String.length x →
  tag_loop (x +:+ String ";" t) (y +:+ String ";" t) i = tag_loop (x +:+ ";") (y +:+ ";") i.
Proof.
  revert i. induction y as [|c y IH]; intros i Hi; simpl in Hi.
  { rewrite !app_nil_l_str. cbn [tag_loop]. destruct (tag_byte i ";") eqn:E; [|done].
    by apply tag_byte_semicolon in E. }
  rewrite !app_string. cbn [tag_loop]. rewrite !slice_take. cbn [slice_from].
  rewrite !str_take_local by lia. destruct (Ascii.eqb c "$"); [done|].
  destruct (tag_byte i c); [|done]. apply IH. lia.
Qed.
Lemma readDollarQuoteTag_local c x :
  readDollarQuoteTag (String c (x +:+ String ";" t)) = readDollarQuoteTag (String c (x +:+ ";")).
Proof.
  unfold readDollarQuoteTag.
  assert (∀ u, (String.length (String c (x +:+ String ";" u)) <? 2) = false) as Hl.
  { intros u. apply Nat.ltb_ge. simpl. rewrite length_app_str. simpl. lia. }
  rewrite !Hl. change (byte_at (String c (x +:+ String ";" t)) 0) with c.
  change (byte_at (String c (x +:+ ";")) 0) with c. cbn [orb slice_from].
  rewrite <-!app_string, tag_loop_local; done.
Qed.
Lemma lex_local m c x : mode_ok m →
  lex m (String c (x +:+ String ";" t)) = lex m (String c (x +:+ ";")).
Proof.
  intros Hm. unfold lex. cbv zeta.
  assert (∀ i, i < 2 → byte_at (String c (x +:+ String ";" t)) i = byte_at (String c (x +:+ ";")) i) as Hb.
  { intros [|[|i]] Hi; [done| |lia]. by destruct x. }
  rewrite !Hb, readDollarQuoteTag_local by lia. destruct m; try done.
  rewrite <-!app_string, strip_prefix_local; [done|]. apply Hm.
Qed.

(** A complete first piece is cut off the same way whatever follows. *)
Lemma pieces_local s m k : mode_ok m →
  pieces m k (s +:+ ";") = [s; ""%string] → pieces m k (s +:+ String ";" t) = s :: pieces Code 0 t.
Proof.
  assert (∀ c l s', prepend (String c "") l = s' :: [""%string] → l ≠ [] → ∃ s'', s' = String c s'' ∧ l = [s''; ""%string]) as Hpre.
  { intros c [|x l] s' E ?; [done|]. injection E as <- ->. by exists x. }
  revert m k. induction s as [|c s IH]; intros m k Hm.
  - rewrite !app_nil_l_str. cbn [pieces]. destruct k as [|k]; [|intros E; apply Hpre in E as (? & ? & _); done].
    destruct (lex_fits m ";" "" Hm) as (_ & _ & Hcut).
    destruct (lex m (String ";" "")) as [[m' k] []]; [|intros E; apply Hpre in E as (? & ? & _); done].
    by destruct (Hcut eq_refl) as (_ & -> & _).
  - rewrite !app_string. cbn [pieces].
    destruct k as [|k].
    2: { intros (s'' & [= <-] & E)%Hpre; [|apply pieces_not_nil]. by rewrite (IH _ _ Hm E). }
    rewrite lex_local by done. pose proof (lex_fits m c (s +:+ ";") Hm) as (Hm' & _).
    destruct (lex m (String c (s +:+ ";"))) as [[m' k] []]; [done|].
    intros (s'' & [= <-] & E)%Hpre; [|apply pieces_not_nil]. by rewrite (IH m' k Hm' E).
Qed.
End local.

(** ** Properties *)

(** C37: [SplitStatements] ends on every text, whatever quotes or comments
    are left open: with at least as much fuel as the text has bytes the loop
    of the source returns, always the same statements; they are the pieces
    of the structural reference scanner without surrounding white space,
    blank ones dropped, and those pieces joined by semicolons are the text,
    so no byte of a migration is lost or run twice. *)
Theorem SplitStatements_terminates sql fuel :
  String.length sql ≤ fuel →
  split_loop sql fuel 0 scanner0 = Some (SplitStatements sql) ∧
  SplitStatements sql = trimmed (pieces Code 0 sql) ∧
  String.concat ";" (pieces Code 0 sql) = sql.
Proof.
  intros Hf. split_and!; [|apply SplitStatements_pieces|by apply pieces_concat].
  change scanner0 with (scanner_of [] 0 Code).
  rewrite split_loop_pieces by (done || lia). rewrite SplitStatements_pieces, slice_take.
  cbn [str_take Nat.sub slice_from app]. by rewrite prepend_nil by apply pieces_not_nil.
Qed.

Lemma SplitStatements_terminates_witness :
  split_loop test_insert 200 0 scanner0 = Some [test_insert].
Proof.
  destruct (SplitStatements_terminates test_insert 200) as [E _].
  { apply Nat.leb_le. vm_compute. reflexivity. }
  rewrite E. vm_compute. reflexivity.
Defined.

(** Writing a migration file statement by statement. *)
Definition print_statements (stmts : list string) : string :=
  foldr (λ s rest, s +:+ ";" +:+ nl +:+ rest) ""%string stmts.

(** C36: round trip. A file written as statements each followed by a
    semicolon and a newline is split back into exactly those statements,
    provided each of them is one statement to the splitter (alone with its
    semicolon it comes back unchanged: its quotes and comments are closed,
    it has no semicolon outside them and no white space around it). What
    precedes a statement cannot change how it is read. *)
Theorem SplitStatements_roundtrip stmts :
  Forall (λ s, SplitStatements (s +:+ ";") = [s]) stmts →
  SplitStatements (print_statements stmts) = stmts.
Proof.
  intros Hs. rewrite SplitStatements_pieces.
  assert (trimmed (pieces Code 0 (nl +:+ print_statements stmts)) = stmts ∧
          trimmed (pieces Code 0 (print_statements stmts)) = stmts) as [_ ?]; [|done].
  induction Hs as [|s stmts Hs _ [IH _]]; [done|].
  destruct (complete_pieces s Hs) as [Hp Hpush]. cbn [print_statements foldr].
  assert (∀ t, pieces Code 0 (s +:+ String ";" t) = s :: pieces Code 0 t) as Hcut.
  { intros t. by apply pieces_local. }
  change (";" +:+ nl +:+ ?x) with (String ";" (nl +:+ x)).
  assert (∀ x, pieces Code 0 (nl +:+ x) = prepend nl (pieces Code 0 x)) as Hnl by done.
  rewrite Hnl, !Hcut. cbn [prepend]. rewrite !trimmed_cons. split.
  - unfold push in *. rewrite TrimSpace_newline. fold (print_statements stmts). by rewrite Hpush, IH.
  - fold (print_statements stmts). by rewrite Hpush, IH.
Qed.

Lemma SplitStatements_roundtrip_witness :
  SplitStatements (print_statements [test_create; test_insert]) = [test_create; test_insert].
Proof.
  apply (SplitStatements_roundtrip [test_create; test_insert]).
  repeat constructor; vm_compute; reflexivity.
Defined.
