(* ===== verification/Redis.v ===== *)
(** * Redis: the key-value server, as the services use it

    The commands that the auth, presence, voice and rate-limit code sends
    through go-redis.  The server is not part of the repository: it is the
    class [RedisServer], whose operations act on a keyspace at a point in time
    and whose laws are the documented effect of each command (what a missing,
    expired or wrongly typed key answers, what keeps or sets an expiry).
    [reference_redis] is a server that satisfies the laws.  The file also has
    [strconv.FormatInt] and [strconv.ParseInt], through which the services
    store numbers. *)
From Stdlib Require Import Decimal DecimalString DecimalZ DecimalPos DecimalFacts.
From S2P Require Import Prelude Realtime Store.

(** ** strconv *)
Definition FormatInt (n : Z) : string := NilZero.string_of_int (Z.to_int n).

(** [strconv.ParseInt(s, 10, bits)]; [None] is a non-nil error. *)
Definition parse_int (s : string) : option Z :=
  match s with
  | String "+" s => Z.of_uint <$> NilZero.uint_of_string s
  | _ => Z.of_int <$> NilZero.int_of_string s
  end.
Definition in_range (bits n : Z) : bool :=
  (- 2 ^ (bits - 1) <=? n)%Z && (n <? 2 ^ (bits - 1))%Z.
Definition ParseInt (bits : Z) (s : string) : option Z :=
  n ← parse_int s; if in_range bits n then Some n else None.

Lemma to_int_not_nil n : Z.to_int n ≠ Pos Nil ∧ Z.to_int n ≠ Neg Nil.
Proof.
  destruct n as [|p|p]; simpl; [done| |]; split; try done; intros [= E];
    by apply DecimalPos.Unsigned.to_uint_nonnil in E.
Qed.

Lemma FormatInt_first n : ∃ c s, FormatInt n = String c s ∧ c ≠ "+"%char.
Proof.
  unfold FormatInt. pose proof (to_int_not_nil n) as [Hp Hn].
  destruct (Z.to_int n) as [u|u]; [|by eexists "-"%char, _].
  destruct u; (eexists _, _; split; [reflexivity|done]).
Qed.

Lemma parse_FormatInt n : parse_int (FormatInt n) = Some n.
Proof.
  destruct (FormatInt_first n) as (c & s & E & Hc). unfold parse_int. rewrite E.
  assert (NilZero.int_of_string (String c s) = Some (Z.to_int n)) as Hs.
  { rewrite <-E. unfold FormatInt. apply NilZero.isi; apply to_int_not_nil. }
  assert (Z.of_int <$> NilZero.int_of_string (String c s) = Some n) as Hf.
  { rewrite Hs. simpl. by rewrite DecimalZ.of_to. }
  destruct c as [[] [] [] [] [] [] [] []]; done.
Qed.

(** What was written with [FormatInt] is read back by [ParseInt]. *)
Lemma ParseInt_FormatInt bits n : in_range bits n = true → ParseInt bits (FormatInt n) = Some n.
Proof. intros Hr. unfold ParseInt. rewrite parse_FormatInt. simpl. by rewrite Hr. Qed.

(** ** The keyspace *)
Notation keyspace := (gmap string redis_entry).
Definition duration : Type := Z.
Definition seconds (n : Z) : duration := (n * 1000000)%Z.
Definition minutes (n : Z) : duration := seconds (60 * n).
(** [time.Time.Unix()]. *)
Definition Unix (t : time) : Z := (t / 1000000)%Z.

Definition expired (t : time) (e : redis_entry) : bool :=
  match re_expires e with Some x => (x <=? t)%Z | None => false end.
(** The entry a command sees: an expired key is a missing one. *)
Definition live_entry (t : time) (r : keyspace) (k : string) : option redis_entry :=
  e ← r !! k; if expired t e then None else Some e.
Definition live_value (t : time) (r : keyspace) (k : string) : option redis_value :=
  re_value <$> live_entry t r k.
Definition live_expiry (t : time) (r : keyspace) (k : string) : option time :=
  e ← live_entry t r k; re_expires e.

Definition redis_result (A : Type) : Type := error + (A * keyspace).
Definition wrong_type {A} : redis_result A := inl (Driver WrongType).

(** The fields of a hash; a missing key is the empty hash. *)
Definition hash_of (v : option redis_value) : option (gmap string string) :=
  match v with
  | None => Some ∅
  | Some (RHash h) => Some h
  | Some (RString _) => None
  end.

(** ** The server *)
Class RedisServer := {
  GET : string → time → keyspace → redis_result string;
  SET : string → string → option duration → time → keyspace → redis_result unit;
  SETNX : string → string → time → keyspace → redis_result bool;
  DEL : string → time → keyspace → redis_result unit;
  INCR : string → time → keyspace → redis_result Z;
  EXPIRE : string → duration → time → keyspace → redis_result unit;
  HSET : string → gmap string string → time → keyspace → redis_result unit;
  HGET : string → string → time → keyspace → redis_result string;
  HGETALL : string → time → keyspace → redis_result (gmap string string);
  HDEL : string → string → time → keyspace → redis_result unit;
  HLEN : string → time → keyspace → redis_result Z;
  SCAN : string → time → keyspace → redis_result (list string);

  GET_law : ∀ k t r, GET k t r =
    match live_value t r k with
    | None => inl (Driver RedisNil)
    | Some (RString s) => inr (s, r)
    | Some (RHash _) => wrong_type
    end;
  SET_law : ∀ k v ttl t r,
    SET k v ttl t r = inr (tt, <[k := mkRedisEntry (RString v) (Z.add t <$> ttl)]> r);
  SETNX_law : ∀ k v t r, SETNX k v t r =
    match live_entry t r k with
    | Some _ => inr (false, r)
    | None => inr (true, <[k := mkRedisEntry (RString v) None]> r)
    end;
  DEL_law : ∀ k t r, DEL k t r = inr (tt, delete k r);
  INCR_law : ∀ k t r, INCR k t r =
    match live_value t r k with
    | None => inr (1%Z, <[k := mkRedisEntry (RString (FormatInt 1)) None]> r)
    | Some (RString s) =>
        match ParseInt 64 s with
        | Some n =>
            if in_range 64 (n + 1)
            then inr ((n + 1)%Z,
                      <[k := mkRedisEntry (RString (FormatInt (n + 1))) (live_expiry t r k)]> r)
            else inl (Driver InvalidRequest)
        | None => inl (Driver InvalidRequest)
        end
    | Some (RHash _) => wrong_type
    end;
  EXPIRE_law : ∀ k ttl t r, EXPIRE k ttl t r =
    match live_entry t r k with
    | Some e => inr (tt, <[k := mkRedisEntry (re_value e) (Some (t + ttl)%Z)]> r)
    | None => inr (tt, r)
    end;
  HSET_law : ∀ k fields t r, HSET k fields t r =
    match hash_of (live_value t r k) with
    | Some h => inr (tt, <[k := mkRedisEntry (RHash (fields ∪ h)) (live_expiry t r k)]> r)
    | None => wrong_type
    end;
  HGET_law : ∀ k f t r, HGET k f t r =
    match hash_of (live_value t r k) with
    | Some h => match h !! f with Some v => inr (v, r) | None => inl (Driver RedisNil) end
    | None => wrong_type
    end;
  HGETALL_law : ∀ k t r, HGETALL k t r =
    match hash_of (live_value t r k) with
    | Some h => inr (h, r)
    | None => wrong_type
    end;
  HDEL_law : ∀ k f t r, HDEL k f t r =
    match hash_of (live_value t r k) with
    | Some h =>
        let h' := delete f h in
        inr (tt, if bool_decide (h' = ∅) then delete k r
                 else <[k := mkRedisEntry (RHash h') (live_expiry t r k)]> r)
    | None => wrong_type
    end;
  HLEN_law : ∀ k t r, HLEN k t r =
    match hash_of (live_value t r k) with
    | Some h => inr (Z.of_nat (size h), r)
    | None => wrong_type
    end;
  (* [SCAN 0 MATCH prefix*], iterated to the end *)
  SCAN_law : ∀ p t r, ∃ ks, SCAN p t r = inr (ks, r) ∧
    ∀ k, k ∈ ks ↔ HasPrefix k p = true ∧ is_Some (live_entry t r k)
}.

(** A command of the client: it reaches the server or fails. *)
Definition command `{Env} {A} (f : time → keyspace → redis_result A) : GoM World A :=
  redis_cmd (λ t _ r, f t r).

(** ** A server that satisfies the laws *)
Section Reference.
Definition ref_GET (k : string) (t : time) (r : keyspace) : redis_result string :=
  match live_value t r k with
  | None => inl (Driver RedisNil)
  | Some (RString s) => inr (s, r)
  | Some (RHash _) => wrong_type
  end.
Definition ref_SET (k v : string) (ttl : option duration) (t : time) (r : keyspace) : redis_result unit :=
  inr (tt, <[k := mkRedisEntry (RString v) (Z.add t <$> ttl)]> r).
Definition ref_SETNX (k v : string) (t : time) (r : keyspace) : redis_result bool :=
  match live_entry t r k with
  | Some _ => inr (false, r)
  | None => inr (true, <[k := mkRedisEntry (RString v) None]> r)
  end.
Definition ref_DEL (k : string) (t : time) (r : keyspace) : redis_result unit := inr (tt, delete k r).
Definition ref_INCR (k : string) (t : time) (r : keyspace) : redis_result Z :=
  match live_value t r k with
  | None => inr (1%Z, <[k := mkRedisEntry (RString (FormatInt 1)) None]> r)
  | Some (RString s) =>
      match ParseInt 64 s with
      | Some n =>
          if in_range 64 (n + 1)
          then inr ((n + 1)%Z,
                    <[k := mkRedisEntry (RString (FormatInt (n + 1))) (live_expiry t r k)]> r)
          else inl (Driver InvalidRequest)
      | None => inl (Driver InvalidRequest)
      end
  | Some (RHash _) => wrong_type
  end.
Definition ref_EXPIRE (k : string) (ttl : duration) (t : time) (r : keyspace) : redis_result unit :=
  match live_entry t r k with
  | Some e => inr (tt, <[k := mkRedisEntry (re_value e) (Some (t + ttl)%Z)]> r)
  | None => inr (tt, r)
  end.
Definition on_hash {A} (k : string) (t : time) (r : keyspace)
    (f : gmap string string → redis_result A) : redis_result A :=
  match hash_of (live_value t r k) with Some h => f h | None => wrong_type end.
Definition ref_HSET (k : string) (fields : gmap string string) (t : time) (r : keyspace) : redis_result unit :=
  on_hash k t r (λ h, inr (tt, <[k := mkRedisEntry (RHash (fields ∪ h)) (live_expiry t r k)]> r)).
Definition ref_HGET (k f : string) (t : time) (r : keyspace) : redis_result string :=
  on_hash k t r (λ h, match h !! f with Some v => inr (v, r) | None => inl (Driver RedisNil) end).
Definition ref_HGETALL (k : string) (t : time) (r : keyspace) : redis_result (gmap string string) :=
  on_hash k t r (λ h, inr (h, r)).
Definition ref_HDEL (k f : string) (t : time) (r : keyspace) : redis_result unit :=
  on_hash k t r (λ h,
    let h' := delete f h in
    inr (tt, if bool_decide (h' = ∅) then delete k r
             else <[k := mkRedisEntry (RHash h') (live_expiry t r k)]> r)).
Definition ref_HLEN (k : string) (t : time) (r : keyspace) : redis_result Z :=
  on_hash k t r (λ h, inr (Z.of_nat (size h), r)).
Definition ref_SCAN (p : string) (t : time) (r : keyspace) : redis_result (list string) :=
  inr (List.filter (λ k, HasPrefix k p && bool_decide (is_Some (live_entry t r k))) (map_to_list r).*1, r).
Lemma ref_SCAN_law p t r : ∃ ks, ref_SCAN p t r = inr (ks, r) ∧
  ∀ k, k ∈ ks ↔ HasPrefix k p = true ∧ is_Some (live_entry t r k).
Proof.
  eexists. split; [reflexivity|]. intros k.
  rewrite list_elem_of_In, filter_In, andb_true_iff, bool_decide_eq_true, <-list_elem_of_In.
  split; [tauto|]. intros [Hp Hl]. split; [|done]. unfold live_entry in Hl.
  destruct (r !! k) as [e|] eqn:E; [|by destruct Hl].
  apply list_elem_of_fmap. exists (k, e). split; [done|]. by apply elem_of_map_to_list.
Qed.
End Reference.

Definition reference_redis : RedisServer.
Proof.
  refine (Build_RedisServer ref_GET ref_SET ref_SETNX ref_DEL ref_INCR ref_EXPIRE ref_HSET
            ref_HGET ref_HGETALL ref_HDEL ref_HLEN ref_SCAN _ _ _ _ _ _ _ _ _ _ _ ref_SCAN_law); reflexivity.
Defined.

(** ** Facts *)
Lemma live_entry_insert t r k e :
  live_entry t (<[k := e]> r) k = if expired t e then None else Some e.
Proof. unfold live_entry. by rewrite lookup_insert_eq. Qed.
Lemma live_entry_insert_ne t r k k' e : k ≠ k' →
  live_entry t (<[k := e]> r) k' = live_entry t r k'.
Proof. intros. unfold live_entry. by rewrite lookup_insert_ne. Qed.
Lemma live_entry_delete t r k : live_entry t (delete k r) k = None.
Proof. unfold live_entry. by rewrite lookup_delete_eq. Qed.
Lemma live_entry_delete_ne t r k k' : k ≠ k' → live_entry t (delete k r) k' = live_entry t r k'.
Proof. intros. unfold live_entry. by rewrite lookup_delete_ne. Qed.

Lemma live_entry_at t r k e : r !! k = Some e → expired t e = false → live_entry t r k = Some e.
Proof. intros Hk He. unfold live_entry. rewrite Hk. simpl. by rewrite He. Qed.
Lemma live_value_Some t r k e : live_entry t r k = Some e → live_value t r k = Some (re_value e).
Proof. unfold live_value. by intros ->. Qed.
Lemma live_expiry_Some t r k e : live_entry t r k = Some e → live_expiry t r k = re_expires e.
Proof. unfold live_expiry. by intros ->. Qed.
Lemma live_value_None t r k : live_entry t r k = None → live_value t r k = None.
Proof. unfold live_value. by intros ->. Qed.
Lemma expired_later t v x : (t < x)%Z → expired t (mkRedisEntry v (Some x)) = false.
Proof. intros. apply Z.leb_gt. simpl. lia. Qed.

Section CommandFacts.
Context `{Env} `{!RedisServer}.

Lemma command_Ok_inv {A} (f : time → keyspace → redis_result A) w a w' :
  command f w = (Ok a, w') →
  ∃ r, f (clock w.(tick)) w.(redis) = inr (a, r) ∧ w' = with_redis r (bump w).
Proof. unfold command. by intros (r & E & ->)%external_Ok_inv; eauto. Qed.

Lemma command_run {A} (f : time → keyspace → redis_result A) w :
  faults w.(tick) = NoFault →
  command f w = match f (clock w.(tick)) w.(redis) with
                | inl e => (Err e, bump w)
                | inr (a, r) => (Ok a, with_redis r (bump w))
                end.
Proof. intros Hf. unfold command, redis_cmd. by rewrite external_run. Qed.
End CommandFacts.
