(* ===== verification/Middleware.v ===== *)
(** * Middleware: authentication and rate limiting of every request

    Models [src/internal/shared/middleware]: [AuthInterceptor],
    [StreamAuthInterceptor], [extractUserID] and [UserIDFromContext]
    ([auth.go]), [RateLimitInterceptor], [resolveRateLimit],
    [checkRateLimit] and [peerIP] ([ratelimit.go]), and the chain that
    [NewGRPCInterceptors] builds of them ([modules.go]).  golang-jwt is the
    class [Jwt], protovalidate a parameter; the logging interceptors only log
    and are left out of the chain. *)
From S2P Require Import Prelude Realtime Store Redis.

(** ** golang-jwt

    [SignedString] is [jwt.NewWithClaims(jwt.SigningMethodHS256, c).SignedString(key)],
    [Parse] is [jwt.Parse]; the callback picks the key for the method named in
    the token, or refuses the method.  The laws: a parsed token is valid and
    its method was accepted by the callback; a signed token parses under its
    key until the instant in its [exp] claim, and not from then on. *)
Inductive signing_method := SigningMethodHMAC (bits : Z) | SigningMethodOther (alg : string).
Definition HS256 : signing_method := SigningMethodHMAC 256.
Inductive claim := ClaimString (s : string) | ClaimNumber (n : Z) | ClaimOther.
Notation MapClaims := (gmap string claim).
Record Token := mkToken { Method : signing_method; Claims : MapClaims; Valid : bool }.

Class Jwt := {
  SignedString : MapClaims → string → error + string;
  Parse : time → string → (signing_method → error + string) → error + Token;
  Parse_accepted : ∀ t tok keyfunc T, Parse t tok keyfunc = inr T →
    Valid T = true ∧ ∃ key, keyfunc (Method T) = inr key;
  Parse_signed : ∀ c key tok t keyfunc e, SignedString c key = inr tok →
    keyfunc HS256 = inr key → c !! "exp" = Some (ClaimNumber e) → (t < seconds e)%Z →
    Parse t tok keyfunc = inr (mkToken HS256 c true);
  Parse_expired : ∀ c key tok t keyfunc e, SignedString c key = inr tok →
    c !! "exp" = Some (ClaimNumber e) → (seconds e ≤ t)%Z →
    ∃ err, Parse t tok keyfunc = inl err
}.

(** The key callback both parsers pass: HMAC methods only. *)
Definition hmac_key (secret : string) (refusal : error) (m : signing_method) : error + string :=
  match m with SigningMethodHMAC _ => inr secret | SigningMethodOther _ => inl refusal end.

(** ** The request context: what the interceptors read and add *)
Record Context := mkContext {
  ctx_metadata : option (gmap string (list string));
  ctx_peer : option string;
  ctx_user_id : option string
}.
Definition WithUserID (ctx : Context) (userID : string) : Context :=
  mkContext (ctx_metadata ctx) (ctx_peer ctx) (Some userID).
Definition UserIDFromContext (ctx : Context) : string := default "" (ctx_user_id ctx).

Module Auth.
Section Interceptors.
Context `{Env} `{!Jwt}.

Definition publicMethods (method : string) : bool :=
  existsb (string_eqb method)
    ["/auth.v1.AuthService/Register"; "/auth.v1.AuthService/VerifyOTP";
     "/auth.v1.AuthService/ResendOTP"; "/auth.v1.AuthService/Login";
     "/auth.v1.AuthService/RefreshToken"; "/auth.v1.AuthService/ValidateToken";
     "/guild.v1.GuildService/PreviewInvite"].
Definition is_open (method : string) : bool :=
  publicMethods method || HasPrefix method "/grpc.reflection." || HasPrefix method "/grpc.health.".

Definition extractUserID (ctx : Context) (secret : string) : GoM World string :=
  match ctx_metadata ctx with
  | None => fail (Status Unauthenticated "missing metadata")
  | Some md =>
      match default [] (md !! "authorization") with
      | [] => fail (Status Unauthenticated "missing authorization header")
      | header :: _ =>
          t ← now;
          match Parse t (TrimPrefix header "Bearer ")
                  (hmac_key secret (Status Unauthenticated "invalid signing method")) with
          | inl _ => fail (Status Unauthenticated "invalid token")
          | inr token =>
              _ ← ensure (Valid token) (Status Unauthenticated "invalid token claims");
              match Claims token !! "sub" with
              | Some (ClaimString userID) => mret userID
              | _ => fail (Status Unauthenticated "missing user id in token")
              end
          end
      end
  end.

(** A handler is what remains of the chain, given the context. *)
Definition AuthInterceptor {A} (secret method : string) (ctx : Context)
    (handler : Context → GoM World A) : GoM World A :=
  if is_open method then handler ctx
  else userID ← extractUserID ctx secret; handler (WithUserID ctx userID).

(** The stream interceptor hands the handler a stream whose [Context()] is
    the wrapped one. *)
Definition StreamAuthInterceptor {A} (secret method : string) (ctx : Context)
    (handler : Context → GoM World A) : GoM World A :=
  if is_open method then handler ctx
  else userID ← extractUserID ctx secret; handler (WithUserID ctx userID).
End Interceptors.
End Auth.

Module RateLimit.
Record rateLimit := mkRateLimit { limit : Z; window : duration }.

Definition authRateLimits : list (string * rateLimit) :=
  [("/auth.v1.AuthService/Register", mkRateLimit 100 (minutes 1));
   ("/auth.v1.AuthService/Login", mkRateLimit 100 (minutes 1));
   ("/auth.v1.AuthService/VerifyOTP", mkRateLimit 100 (minutes 1));
   ("/auth.v1.AuthService/ResendOTP", mkRateLimit 100 (minutes 1))].
Definition messageSendMethods (method : string) : bool :=
  existsb (string_eqb method)
    ["/message.v1.MessageService/SendMessage"; "/message.v1.MessageService/SendDirectMessage"].
Definition friendRequestMethods (method : string) : bool :=
  existsb (string_eqb method) ["/user.v1.UserService/SendFriendRequest"].
Definition defaultLimit : rateLimit := mkRateLimit 60 (minutes 1).
Definition messageSendLimit : rateLimit := mkRateLimit 30 (minutes 1).
Definition friendRequestLimit : rateLimit := mkRateLimit 10 (minutes 1).

(** [strings.LastIndex(addr, ":")] and the cut in front of it. *)
Fixpoint before_last_colon (addr : string) : option string :=
  match addr with
  | EmptyString => None
  | String c rest =>
      match before_last_colon rest with
      | Some cut => Some (String c cut)
      | None => if Ascii.eqb c ":" then Some ""%string else None
      end
  end.
Definition peerIP (ctx : Context) : string :=
  match ctx_peer ctx with
  | Some addr => default addr (before_last_colon addr)
  | None => "unknown"
  end.

Definition resolveRateLimit (ctx : Context) (method : string) : string * rateLimit :=
  match assoc method authRateLimits with
  | Some rl => (peerIP ctx, rl)
  | None =>
      let identity := UserIDFromContext ctx in
      let identity := if string_eqb identity "" then peerIP ctx else identity in
      if messageSendMethods method then (identity, messageSendLimit)
      else if friendRequestMethods method then (identity, friendRequestLimit)
      else (identity, defaultLimit)
  end.

Definition rate_key (identity method : string) : string :=
  "ratelimit:" +:+ identity +:+ ":" +:+ method.

Section Check.
Context `{Env} `{!RedisServer} `{!Jwt}.

(** The pipeline sends both commands and reports the first error. *)
Definition checkRateLimit (key : string) (rl : rateLimit) : GoM World bool :=
  incr ← try (command (INCR key));
  expire ← try (command (EXPIRE key (window rl)));
  match incr, expire with
  | inl e, _ | _, inl e => fail e
  | inr count, inr _ => mret (count <=? limit rl)%Z
  end.

Definition RateLimitInterceptor {A} (method : string) (ctx : Context)
    (handler : Context → GoM World A) : GoM World A :=
  if HasPrefix method "/grpc.reflection." || HasPrefix method "/grpc.health." then handler ctx
  else
    let '(identity, rl) := resolveRateLimit ctx method in
    allowed ← try (checkRateLimit (rate_key identity method) rl);
    match allowed with
    | inl _ => handler ctx
    | inr false => fail (Status ResourceExhausted "rate limit exceeded: %d requests per %s")
    | inr true => handler ctx
    end.

(** [NewGRPCInterceptors]: the first interceptor of the list is the
    outermost one.  [validate] is the protovalidate check of the message. *)
Definition unary_chain {A} (secret : string) (validate : GoM World unit) (method : string)
    (ctx : Context) (handler : Context → GoM World A) : GoM World A :=
  RateLimitInterceptor method ctx (λ ctx,
    Auth.AuthInterceptor secret method ctx (λ ctx,
      _ ← validate; handler ctx)).
Definition stream_chain {A} (secret method : string) (ctx : Context)
    (handler : Context → GoM World A) : GoM World A :=
  Auth.StreamAuthInterceptor secret method ctx handler.
End Check.
End RateLimit.

Example peerIP_strips_port :
  RateLimit.peerIP (mkContext None (Some "[::1]:5000"%string) None) = "[::1]"%string.
Proof. reflexivity. Qed.

(** ** A concrete token library

    The token is the key and the claims, in binary; the key check is by
    equality. It satisfies the laws of [Jwt] and serves the examples. *)
#[global] Instance claim_eq_dec : EqDecision claim.
Proof. solve_decision. Defined.
#[global] Instance claim_countable : Countable claim.
Proof.
  refine (inj_countable'
    (λ c, match c with ClaimString s => inl s | ClaimNumber n => inr (inl n) | ClaimOther => inr (inr tt) end)
    (λ x, match x with inl s => ClaimString s | inr (inl n) => ClaimNumber n | inr (inr _) => ClaimOther end) _).
  by intros [].
Defined.

Definition demo_sign (c : MapClaims) (key : string) : error + string :=
  inr (bits_print (encode (key, map_to_list c))).
Definition demo_in_time (t : time) (c : MapClaims) : bool :=
  match c !! "exp" with Some (ClaimNumber e) => (t <? seconds e)%Z | _ => true end.
Definition demo_parse (t : time) (tok : string) (keyfunc : signing_method → error + string) :
    error + Token :=
  match (bits_parse tok ≫= decode : option (string * list (string * claim))) with
  | None => inl (Errorf "token is malformed")
  | Some (key, l) =>
      match keyfunc HS256 with
      | inl e => inl e
      | inr key' =>
          if string_eqb key key' && demo_in_time t (list_to_map l)
          then inr (mkToken HS256 (list_to_map l) true)
          else inl (Errorf "token has invalid claims")
      end
  end.

Lemma demo_parse_sign t c key keyfunc :
  demo_parse t (bits_print (encode (key, map_to_list c))) keyfunc =
  match keyfunc HS256 with
  | inl e => inl e
  | inr key' => if string_eqb key key' && demo_in_time t c then inr (mkToken HS256 c true)
                else inl (Errorf "token has invalid claims")
  end.
Proof.
  unfold demo_parse. rewrite bits_parse_print. cbn [mbind option_bind].
  rewrite (decode_encode (key, map_to_list c)).
  by rewrite list_to_map_to_list.
Qed.

Definition demo_jwt : Jwt.
Proof.
  refine {| SignedString := demo_sign; Parse := demo_parse |}.
  - intros t tok keyfunc T. unfold demo_parse. destruct (_ ≫= _) as [[key l]|]; [|done].
    destruct (keyfunc HS256) as [|key'] eqn:Hk; [done|].
    destruct (_ && _); [|done]. intros [= <-]. split; [done|]. by exists key'.
  - intros c key tok t keyfunc e [= <-] Hk He Ht. rewrite demo_parse_sign, Hk.
    unfold string_eqb, demo_in_time. rewrite bool_decide_eq_true_2, He by done.
    by rewrite (proj2 (Z.ltb_lt _ _)) by lia.
  - intros c key tok t keyfunc e [= <-] He Ht. rewrite demo_parse_sign.
    destruct (keyfunc HS256) as [err|key']; [by eexists|]. unfold demo_in_time. rewrite He.
    rewrite (proj2 (Z.ltb_ge _ _)) by lia. rewrite andb_false_r. by eexists.
Defined.
