(* ===== verification/MiddlewareFacts.v ===== *)
(** * MiddlewareFacts: what the request chain guarantees

    The auth gate lets a request of a protected method through exactly when
    it carries a token golang-jwt accepts under the HMAC secret, with the
    user of its [sub] claim; the rate limiter admits the first [limit]
    requests of a busy period and refuses all later ones; in the chain the
    server installs, the limiter runs before the gate and so counts by peer
    address, never by user. *)
From S2P Require Import Prelude Realtime Store Redis Middleware.

Section Gate.
Context `{Env} `{!Jwt}.

(** The request carries the user: the first authorization header parses. *)
Definition carries (ctx : Context) (secret : string) (t : time) (userID : string) : Prop :=
  ∃ md header rest T,
    ctx_metadata ctx = Some md ∧ default [] (md !! "authorization") = header :: rest ∧
    Parse t (TrimPrefix header "Bearer ")
      (hmac_key secret (Status Unauthenticated "invalid signing method")) = inr T ∧
    Claims T !! "sub" = Some (ClaimString userID).

Lemma carries_unique ctx secret t u v : carries ctx secret t u → carries ctx secret t v → u = v.
Proof.
  intros (md & h & rest & T & Hmd & Hh & HT & Hs) (md' & h' & rest' & T' & Hmd' & Hh' & HT' & Hs').
  assert (md' = md) as -> by congruence. assert (h' = h) as -> by congruence. congruence.
Qed.

Lemma extractUserID_Ok ctx secret w userID w' :
  Auth.extractUserID ctx secret w = (Ok userID, w') →
  carries ctx secret (clock (tick w)) userID ∧ w' = bump w.
Proof.
  unfold Auth.extractUserID. destruct (ctx_metadata ctx) as [md|] eqn:Hmd; [|done].
  destruct (default [] (md !! "authorization")) as [|header rest] eqn:Hh; [done|].
  intros (t & w1 & Hnow & E)%bind_Ok_inv. injection Hnow as <- <-.
  destruct (Parse _ _ _) as [|T] eqn:HT; [done|].
  apply bind_Ok_inv in E as (u & w2 & [_ ->]%ensure_Ok_inv & E).
  destruct (Claims T !! "sub") as [[s| |]|] eqn:Hs; try done.
  injection E as <- <-. split; [|done]. by exists md, header, rest, T.
Qed.

Lemma extractUserID_carries ctx secret w userID :
  carries ctx secret (clock (tick w)) userID →
  Auth.extractUserID ctx secret w = (Ok userID, bump w).
Proof.
  intros (md & header & rest & T & Hmd & Hh & HT & Hs).
  destruct (Parse_accepted _ _ _ _ HT) as [Hv _].
  unfold Auth.extractUserID. rewrite Hmd, Hh. unfold mbind, gom_bind, now. rewrite HT, Hv. simpl.
  by rewrite Hs.
Qed.

Lemma extractUserID_Err ctx secret w o w' :
  Auth.extractUserID ctx secret w = (o, w') →
  (∃ userID, o = Ok userID) ∨
  (∃ msg, o = Err (Status Unauthenticated msg)) ∧ (w' = w ∨ w' = bump w).
Proof.
  unfold Auth.extractUserID. destruct (ctx_metadata ctx) as [md|]; [|intros [= <- <-]; eauto].
  destruct (default [] _); [intros [= <- <-]; eauto|].
  unfold mbind, gom_bind, now. destruct (Parse _ _ _) as [|T]; [intros [= <- <-]; eauto|].
  destruct (Valid T); simpl; [|intros [= <- <-]; eauto].
  destruct (Claims T !! "sub") as [[u| |]|]; intros [= <- <-]; eauto.
Qed.

(** C15: the authentication gate, for unary and stream calls alike. A method
    outside the public list (and reflection and health) reaches its handler
    only with a user identifier, and that identifier is the [sub] claim of
    the token in the first authorization header, accepted at the time of the
    call; without such a token the handler does not run, nothing is written,
    and the caller gets Unauthenticated. *)
Theorem AuthInterceptor_gate {A} secret method ctx (handler : Context → GoM World A) w :
  (Auth.is_open method = true →
     Auth.AuthInterceptor secret method ctx handler w = handler ctx w) ∧
  (Auth.is_open method = false →
     (∃ userID, carries ctx secret (clock (tick w)) userID ∧
        Auth.AuthInterceptor secret method ctx handler w = handler (WithUserID ctx userID) (bump w) ∧
        UserIDFromContext (WithUserID ctx userID) = userID) ∨
     ((∀ userID, ¬ carries ctx secret (clock (tick w)) userID) ∧
      ∃ msg w', Auth.AuthInterceptor secret method ctx handler w = (Err (Status Unauthenticated msg), w') ∧
        (w' = w ∨ w' = bump w))) ∧
  Auth.StreamAuthInterceptor secret method ctx handler w =
  Auth.AuthInterceptor secret method ctx handler w.
Proof.
  unfold Auth.AuthInterceptor. split_and!; [by intros ->| |done]. intros ->.
  unfold mbind, gom_bind. destruct (Auth.extractUserID ctx secret w) as [o w'] eqn:E.
  destruct (extractUserID_Err _ _ _ _ _ E) as [[userID ->]|[[msg ->] Hw]].
  - left. apply extractUserID_Ok in E as [Hc ->]. by exists userID.
  - right. split; [|by exists msg, w'].
    intros userID Hc. apply extractUserID_carries in Hc. congruence.
Qed.
End Gate.

Section Limiter.
Context `{Env} `{!RedisServer} `{!Jwt}.

(** The counter of [key] stands at [n] and outlives the next two commands. *)
Definition counted (w : World) (key : string) (n : Z) : Prop :=
  ∃ x, redis w !! key = Some (mkRedisEntry (RString (FormatInt n)) (Some x)) ∧
       (clock (tick w) < x)%Z ∧ (clock (S (tick w)) < x)%Z.

Lemma checkRateLimit_counted key rl n w :
  faults (tick w) = NoFault → faults (S (tick w)) = NoFault →
  counted w key n → in_range 64 n = true → in_range 64 (n + 1) = true →
  ∃ w', RateLimit.checkRateLimit key rl w = (Ok (n + 1 <=? RateLimit.limit rl)%Z, w') ∧
    tick w' = S (S (tick w)) ∧
    redis w' !! key = Some (mkRedisEntry (RString (FormatInt (n + 1)))
                             (Some (clock (S (tick w)) + RateLimit.window rl)%Z)).
Proof.
  intros Hf1 Hf2 (x & Hk & Hx1 & Hx2) Hr Hr1.
  pose proof (live_entry_at (clock (tick w)) _ _ _ Hk (expired_later _ _ _ Hx1)) as Hl.
  unfold RateLimit.checkRateLimit, mbind, gom_bind, try.
  rewrite command_run, INCR_law, (live_value_Some _ _ _ _ Hl), (live_expiry_Some _ _ _ _ Hl) by done.
  cbn [re_value re_expires]. rewrite ParseInt_FormatInt, Hr1 by done.
  rewrite command_run, EXPIRE_law by done. cbn [with_redis bump redis tick].
  rewrite live_entry_insert, expired_later by done.
  eexists. split_and!; [reflexivity|reflexivity|]. simpl. by rewrite lookup_insert_eq.
Qed.

Lemma checkRateLimit_fresh key rl w :
  faults (tick w) = NoFault → faults (S (tick w)) = NoFault →
  live_entry (clock (tick w)) (redis w) key = None →
  ∃ w', RateLimit.checkRateLimit key rl w = (Ok (1 <=? RateLimit.limit rl)%Z, w') ∧
    tick w' = S (S (tick w)) ∧
    redis w' !! key = Some (mkRedisEntry (RString (FormatInt 1))
                             (Some (clock (S (tick w)) + RateLimit.window rl)%Z)).
Proof.
  intros Hf1 Hf2 Hk.
  unfold RateLimit.checkRateLimit, mbind, gom_bind, try.
  rewrite command_run, INCR_law, (live_value_None _ _ _ Hk) by done.
  rewrite command_run, EXPIRE_law by done. cbn [with_redis bump redis tick].
  rewrite live_entry_insert. unfold expired. cbn [re_expires].
  eexists. split_and!; [reflexivity|reflexivity|]. simpl. by rewrite lookup_insert_eq.
Qed.

(** [n] requests of one key, one after the other. *)
Fixpoint check_many (n : nat) (key : string) (rl : RateLimit.rateLimit) : GoM World (list bool) :=
  match n with
  | O => mret []
  | S n => b ← RateLimit.checkRateLimit key rl; bs ← check_many n key rl; mret (b :: bs)
  end.

(** The requests come in faster than one window: of any three consecutive
    commands the last is sent within the window of the first. *)
Definition busy (window : duration) : Prop :=
  ∀ n, (clock n ≤ clock (S n))%Z ∧ (clock (S (S n)) < clock n + window)%Z.

Lemma seq_shift {A} (f g : nat → A) k :
  (∀ i, f i = g (S i)) → f <$> seq 1 k = g <$> seq 2 k.
Proof.
  intros Hfg. rewrite <-(fmap_S_seq 1), <-list_fmap_compose. apply list_fmap_ext.
  intros i j _. apply Hfg.
Qed.

Lemma check_many_counted key rl k n w :
  fault_free → busy (RateLimit.window rl) → counted w key n →
  (0 ≤ n)%Z → (n + Z.of_nat k < 2 ^ 63)%Z →
  ∃ w', check_many k key rl w =
    (Ok ((λ i, n + Z.of_nat i <=? RateLimit.limit rl)%Z <$> seq 1 k), w').
Proof.
  intros Hff Hbusy. revert n w. induction k as [|k IH]; intros n w Hc Hn Hk; [by eexists|].
  assert (∀ z, (0 ≤ z < 2 ^ 63)%Z → in_range 64 z = true) as Hr.
  { intros z Hz. unfold in_range. apply andb_true_iff. rewrite Z.leb_le, Z.ltb_lt. lia. }
  destruct (checkRateLimit_counted key rl n w) as (w1 & E1 & Ht & Hk1); [done..| | |].
  { apply Hr. lia. } { apply Hr. lia. }
  destruct (IH (n + 1)%Z w1) as (w2 & E2).
  - eexists. split; [exact Hk1|]. rewrite Ht.
    destruct (Hbusy (S (tick w))), (Hbusy (S (S (tick w)))). lia.
  - lia.
  - lia.
  - exists w2. cbn [check_many]. unfold mbind, gom_bind. rewrite E1, E2. cbn [seq fmap list_fmap].
    rewrite (seq_shift _ (λ i, n + Z.of_nat i <=? RateLimit.limit rl)%Z); [done|].
    intros i. f_equal. lia.
Qed.

(** C38: the rate limit of a busy period. From a key without a live counter,
    and as long as Redis answers and requests keep arriving faster than one
    per window, the first [limit] requests are allowed and every later one is
    refused, however many there are and however long they go on: since each
    request, refused ones included, renews the expiry, the counter never
    starts again while the client keeps trying. *)
Theorem rate_limit_busy_period key rl k w :
  fault_free → busy (RateLimit.window rl) →
  live_entry (clock (tick w)) (redis w) key = None → (Z.of_nat k < 2 ^ 63)%Z →
  ∃ w', check_many k key rl w =
    (Ok ((λ i, Z.of_nat i <=? RateLimit.limit rl)%Z <$> seq 1 k), w').
Proof.
  intros Hff Hbusy Hk Hsize. destruct k as [|k]; [by eexists|].
  destruct (checkRateLimit_fresh key rl w) as (w1 & E1 & Ht & Hk1); [done..|].
  destruct (check_many_counted key rl k 1 w1) as (w2 & E2); [done|done| |done|lia|].
  - eexists. split; [exact Hk1|]. rewrite Ht.
    destruct (Hbusy (S (tick w))), (Hbusy (S (S (tick w)))). lia.
  - exists w2. cbn [check_many]. unfold mbind, gom_bind. rewrite E1, E2. cbn [seq fmap list_fmap].
    rewrite (seq_shift _ (λ i, Z.of_nat i <=? RateLimit.limit rl)%Z); [done|].
    intros i. f_equal. lia.
Qed.

Lemma resolveRateLimit_peer ctx method :
  ctx_user_id ctx = None → (RateLimit.resolveRateLimit ctx method).1 = RateLimit.peerIP ctx.
Proof.
  intros Hu. unfold RateLimit.resolveRateLimit, UserIDFromContext. rewrite Hu.
  destruct (assoc _ _); [done|]. simpl. by destruct (RateLimit.messageSendMethods method), (RateLimit.friendRequestMethods method).
Qed.

(** The limiter runs in front of the gate. A request that arrives (no
    interceptor has named a user yet) is counted against its peer address,
    whatever token it carries and although the limits are meant per user: once
    the peer's counter has reached the limit of the method, any request of
    any user behind that address is refused, and its token is not looked at. *)
Theorem rate_limit_is_per_peer {A} secret validate method ctx (handler : Context → GoM World A) n w :
  HasPrefix method "/grpc.reflection." || HasPrefix method "/grpc.health." = false →
  ctx_user_id ctx = None →
  faults (tick w) = NoFault → faults (S (tick w)) = NoFault →
  counted w (RateLimit.rate_key (RateLimit.peerIP ctx) method) n →
  in_range 64 n = true → in_range 64 (n + 1) = true →
  (RateLimit.limit (RateLimit.resolveRateLimit ctx method).2 ≤ n)%Z →
  (RateLimit.unary_chain secret validate method ctx handler w).1 =
  Err (Status ResourceExhausted "rate limit exceeded: %d requests per %s").
Proof.
  intros Hm Hu Hf1 Hf2 Hc Hr Hr1 Hn. unfold RateLimit.unary_chain, RateLimit.RateLimitInterceptor.
  rewrite Hm. pose proof (resolveRateLimit_peer ctx method Hu) as Hid.
  destruct (RateLimit.resolveRateLimit ctx method) as [identity rl]. simpl in Hid, Hn. subst identity.
  destruct (checkRateLimit_counted _ rl n w Hf1 Hf2 Hc Hr Hr1) as (w' & E & _).
  unfold mbind, gom_bind, try. rewrite E. by rewrite (proj2 (Z.leb_gt _ _)) by lia.
Qed.
End Limiter.

(** ** Worked examples *)
Section Example.
#[local] Existing Instance demo_wired.
#[local] Existing Instance reference_redis.
#[local] Existing Instance demo_jwt.

Definition demo_limit_key : string := "ratelimit:10.0.0.1:/message.v1.MessageService/SendMessage".

Lemma demo_busy : busy (RateLimit.window RateLimit.messageSendLimit).
Proof.
  intros n. change (clock n) with (Z.of_nat n * 1000000)%Z.
  change (clock (S n)) with (Z.of_nat (S n) * 1000000)%Z.
  change (clock (S (S n))) with (Z.of_nat (S (S n)) * 1000000)%Z.
  change (RateLimit.window RateLimit.messageSendLimit) with (60 * 1000000)%Z. lia.
Qed.

(** Forty requests against the limit of 30: thirty pass, ten do not. *)
Lemma rate_limit_busy_period_witness :
  ∃ w', check_many 40 demo_limit_key RateLimit.messageSendLimit empty_world =
    (Ok (repeat true 30 ++ repeat false 10), w').
Proof.
  destruct (rate_limit_busy_period demo_limit_key RateLimit.messageSendLimit 40 empty_world)
    as [w' E]; [intros n; reflexivity|exact demo_busy|reflexivity|done|].
  exists w'. rewrite E. vm_compute. reflexivity.
Defined.

Definition demo_method : string := "/message.v1.MessageService/SendMessage".
Definition demo_request (token : string) : Context :=
  mkContext (Some {["authorization" := ["Bearer " +:+ token]]}) (Some "10.0.0.1:4711"%string) None.
Definition demo_spent : World :=
  with_redis {[demo_limit_key := mkRedisEntry (RString (FormatInt 30)) (Some 60000000%Z)]} empty_world.

Lemma rate_limit_is_per_peer_witness :
  (RateLimit.unary_chain "secret" (mret tt) demo_method (demo_request "token") (λ _, mret tt) demo_spent).1 =
  Err (Status ResourceExhausted "rate limit exceeded: %d requests per %s").
Proof.
  apply (rate_limit_is_per_peer "secret" (mret tt) demo_method (demo_request "token") (λ _, mret tt) 30
           demo_spent); try reflexivity.
  exists 60000000%Z. split_and!; by vm_compute.
Defined.
End Example.
