(* ===== verification/AuthService.v ===== *)
(** * AuthService: registration, one-time passwords, login and tokens

    Models [src/internal/features/auth]: [service.go] and [repository.go]
    (Module [AuthService], the section variable [cfg] is the [JWTConfig] and
    [mailer] the optional SMTP sender), and the error mapping of [handler.go]
    (Module [AuthHandler]).  bcrypt is the class [Bcrypt]; golang-jwt is the
    class [Jwt] of Middleware; one-time passwords and refresh tokens are
    Redis keys with an expiry. *)
From stdpp Require Import pretty.
From S2P Require Import Prelude Realtime Store Queries Redis Middleware.

(** golang.org/x/crypto/bcrypt: hashing draws a salt, and a hash accepts the
    password it was made from. *)
Class Bcrypt := {
  GenerateFromPassword : positive → string → error + string;
  CompareHashAndPassword : string → string → bool;
  Compare_Generate : ∀ salt p h, GenerateFromPassword salt p = inr h →
    CompareHashAndPassword h p = true
}.

Record JWTConfig := mkJWTConfig {
  Secret : string; AccessTokenTTL : duration; RefreshTokenTTL : duration }.
Record TokenPair := mkTokenPair { AccessToken : string; RefreshTokenText : string }.

Module AuthService.
Definition ErrInvalidCredentials : error :=
  Sentinel "auth.ErrInvalidCredentials" "invalid credentials".
Definition ErrInvalidToken : error := Sentinel "auth.ErrInvalidToken" "invalid token".
Definition ErrUserExists : error := Sentinel "auth.ErrUserExists" "user already exists".
Definition ErrInvalidOTP : error := Sentinel "auth.ErrInvalidOTP" "invalid or expired OTP".
Definition ErrNotVerified : error := Sentinel "auth.ErrNotVerified" "email not verified".
Definition ErrAlreadyVerified : error :=
  Sentinel "auth.ErrAlreadyVerified" "email already verified".

(** [fmt.Sprintf("%0kd", n)] for [0 ≤ n]. *)
Definition zero_padded (k : nat) (n : Z) : string :=
  let s := pretty (Z.to_N n) in
  string_of_list_ascii (repeat "0"%char (k - String.length s)) +:+ s.

(** [hex.EncodeToString]. *)
Definition hex_digit (n : Z) : ascii :=
  let k := Z.to_nat n in ascii_of_nat (if k <? 10 then 48 + k else 87 + k).
Fixpoint hex (bs : list Z) : string :=
  match bs with
  | [] => ""
  | b :: bs => String (hex_digit (Z.shiftr b 4)) (String (hex_digit (Z.land b 15)) (hex bs))
  end.

(** [isUniqueViolation]: [errors.As] finds a pg error of code 23505 in the chain. *)
Fixpoint isUniqueViolation (e : error) : bool :=
  match e with
  | Driver UniqueViolation => true
  | ErrorfW _ e => isUniqueViolation e
  | _ => false
  end.

Section Service.
Context `{Env} `{!UuidText} `{!RedisServer} `{!Jwt} `{!Bcrypt}.
Context (cfg : JWTConfig) (mailer : option (string → string → GoM World unit)).

(** ** repository.go *)
Definition refresh_key (token : string) : string := "refresh:" +:+ token.
Definition otp_key (email : string) : string := "otp:" +:+ email.

Definition randomDiscriminator : GoM World string :=
  n ← rand_Int 9999;
  n ← deref n;
  mret (zero_padded 4 (n + 1)).

Definition maxHandleAttempts : nat := 10.
Fixpoint create_with_handle (attempts : nat) (lastErr : error)
    (username email passwordHash : string) : GoM World User :=
  match attempts with
  | 0 => fail (ErrorfW "failed to allocate unique handle after %d attempts: %w" lastErr)
  | S attempts =>
      disc ← randomDiscriminator;
      r ← try (Queries.CreateUser (username +:+ "#" +:+ disc) username email passwordHash);
      match r with
      | inr user => mret user
      | inl err =>
          if isUniqueViolation err
          then create_with_handle attempts err username email passwordHash
          else fail err
      end
  end.
Definition CreateUserWithUsername (username email passwordHash : string) : GoM World User :=
  create_with_handle maxHandleAttempts (Errorf "nil") username email passwordHash.

(** go-redis sends no expiry for a zero duration. *)
Definition ttl_option (ttl : duration) : option duration :=
  if (0 <? ttl)%Z then Some ttl else None.
Definition StoreRefreshToken (userID token : string) (ttl : duration) : GoM World unit :=
  command (SET (refresh_key token) userID (ttl_option ttl)).
Definition GetRefreshToken (token : string) : GoM World string := command (GET (refresh_key token)).
Definition DeleteRefreshToken (token : string) : GoM World unit := command (DEL (refresh_key token)).
Definition StoreOTP (email otp : string) : GoM World unit :=
  command (SET (otp_key email) otp (Some (minutes 5))).
Definition GetOTP (email : string) : GoM World string := command (GET (otp_key email)).
Definition DeleteOTP (email : string) : GoM World unit := command (DEL (otp_key email)).

(** ** service.go *)
Definition generateOTP : GoM World string :=
  n ← rand_Int 999999;
  n ← deref n;
  mret (zero_padded 6 n).

Definition sendOTP (email : string) : GoM World unit :=
  otp ← generateOTP;
  _ ← StoreOTP email otp ?> ErrorfW "failed to store OTP: %w";
  match mailer with
  | None => mret tt
  | Some SendOTP => SendOTP email otp ?> ErrorfW "failed to send OTP email: %w"
  end.

Definition bcrypt_generate (password : string) : GoM World string :=
  salt ← new_uuid;
  match GenerateFromPassword salt password with inl e => fail e | inr h => mret h end.

(** The identifier the source also returns with a failed [sendOTP] is
    dropped by its only caller and has no place in an error outcome. *)
Definition Register (username email password : string) : GoM World string :=
  hash ← bcrypt_generate password ?> ErrorfW "failed to hash password: %w";
  user ← CreateUserWithUsername username email hash ?> ErrorfW "failed to create user: %w";
  _ ← sendOTP email ?> ErrorfW "user created but failed to send OTP: %w";
  mret (uuid_print (u_id user)).

Definition access_claims (userID : string) (t : time) : MapClaims :=
  <["sub" := ClaimString userID]>
    (<["iat" := ClaimNumber (Unix t)]>
       {["exp" := ClaimNumber (Unix (t + AccessTokenTTL cfg))]}).

Definition generateTokens (userID : string) : GoM World TokenPair :=
  t ← now;
  accessStr ← match SignedString (access_claims userID t) (Secret cfg) with
              | inl e => fail (ErrorfW "failed to sign access token: %w" e)
              | inr s => mret s
              end;
  refreshBytes ← rand_Read 32 ?> ErrorfW "failed to generate refresh token: %w";
  let refreshStr := hex refreshBytes in
  _ ← StoreRefreshToken userID refreshStr (RefreshTokenTTL cfg)
        ?> ErrorfW "failed to store refresh token: %w";
  mret (mkTokenPair accessStr refreshStr).

Definition VerifyOTP (email otp : string) : GoM World (string * TokenPair) :=
  storedOTP ← GetOTP email ?> (λ _, ErrInvalidOTP);
  _ ← ensure (string_eqb storedOTP otp) ErrInvalidOTP;
  user ← Queries.GetUserByEmail email ?> (λ _, ErrInvalidCredentials);
  _ ← Queries.VerifyUser (u_id user) ?> ErrorfW "failed to verify user: %w";
  _ ← ignore (DeleteOTP email);
  tokens ← generateTokens (uuid_print (u_id user));
  mret (uuid_print (u_id user), tokens).

Definition ResendOTP (email : string) : GoM World unit :=
  _ ← Queries.GetUserByEmail email ?> (λ _, ErrInvalidCredentials);
  sendOTP email.

Definition Login (email password : string) : GoM World (string * TokenPair) :=
  user ← Queries.GetUserByEmail email ?> (λ _, ErrInvalidCredentials);
  _ ← ensure (CompareHashAndPassword (u_password_hash user) password) ErrInvalidCredentials;
  _ ← ensure (u_verified user) ErrNotVerified;
  tokens ← generateTokens (uuid_print (u_id user));
  mret (uuid_print (u_id user), tokens).

Definition RefreshToken (refreshToken : string) : GoM World TokenPair :=
  userID ← GetRefreshToken refreshToken ?> (λ _, ErrInvalidToken);
  _ ← DeleteRefreshToken refreshToken ?> ErrorfW "failed to delete old refresh token: %w";
  generateTokens userID.

Definition Logout (refreshToken : string) : GoM World unit := DeleteRefreshToken refreshToken.

(** The third result, always nil, is left out. *)
Definition ValidateToken (accessToken : string) : GoM World (string * bool) :=
  t ← now;
  match Parse t accessToken (hmac_key (Secret cfg) (Errorf "unexpected signing method")) with
  | inl _ => mret (""%string, false)
  | inr token =>
      if Valid token then
        match Claims token !! "sub" with
        | Some (ClaimString userID) => mret (userID, true)
        | _ => mret (""%string, false)
        end
      else mret (""%string, false)
  end.
End Service.
End AuthService.

(** ** handler.go: the answers of the auth endpoints *)
Module AuthHandler.
(** [strings.Contains]. *)
Definition Contains (s sub : string) : bool :=
  match String.index 0 sub s with Some _ => true | None => false end.

Section Handler.
Context `{Env} `{!UuidText} `{!RedisServer} `{!Jwt} `{!Bcrypt}.
Context (cfg : JWTConfig) (mailer : option (string → string → GoM World unit)).
(** [driver_text] is [Error()] of a driver error; [SetOffline] the optional
    [PresenceUpdater]. *)
Context (driver_text : driver_error → string) (SetOffline : option (string → GoM World unit)).

(** [err.Error()]; the verbs other than [%w] stay unexpanded. *)
Fixpoint error_text (e : error) : string :=
  match e with
  | Sentinel _ text => text
  | Status _ msg => msg
  | Errorf format => format
  | Driver d => driver_text d
  | ErrorfW format e =>
      match String.index 0 "%w" format with
      | Some i => substring 0 i format +:+ error_text e +:+
                  substring (i + 2) (String.length format) format
      | None => format
      end
  end.

Definition register_error (err : error) : error :=
  if errors_Is err AuthService.ErrUserExists then Status AlreadyExists "user already exists"
  else
    let errMsg := error_text err in
    if Contains errMsg "duplicate key" || Contains errMsg "unique" || Contains errMsg "23505"
    then Status AlreadyExists "user already exists"
    else Status Internal "failed to register".
Definition verify_error (err : error) : error :=
  if errors_Is err AuthService.ErrInvalidOTP then Status InvalidArgument "invalid or expired OTP"
  else Status Internal "failed to verify OTP".
Definition resend_error (err : error) : error :=
  if errors_Is err AuthService.ErrInvalidCredentials then Status NotFoundCode "user not found"
  else Status Internal "failed to resend OTP".
Definition login_error (err : error) : error :=
  if errors_Is err AuthService.ErrInvalidCredentials
  then Status Unauthenticated "invalid credentials"
  else if errors_Is err AuthService.ErrNotVerified
  then Status FailedPrecondition "email not verified. Please verify OTP first."
  else Status Internal "failed to login".
Definition refresh_error (err : error) : error :=
  if errors_Is err AuthService.ErrInvalidToken
  then Status Unauthenticated "invalid refresh token"
  else Status Internal "failed to refresh token".

Definition Register (username email password : string) : GoM World (string * string) :=
  userID ← AuthService.Register mailer username email password ?> register_error;
  mret (userID, "OTP sent to " +:+ email +:+ ". Please verify to complete registration.").
Definition VerifyOTP (email otp : string) : GoM World (string * TokenPair) :=
  AuthService.VerifyOTP cfg email otp ?> verify_error.
Definition ResendOTP (email : string) : GoM World string :=
  _ ← AuthService.ResendOTP mailer email ?> resend_error;
  mret ("OTP sent to " +:+ email).
Definition Login (email password : string) : GoM World (string * TokenPair) :=
  AuthService.Login cfg email password ?> login_error.
Definition RefreshToken (refreshToken : string) : GoM World TokenPair :=
  AuthService.RefreshToken cfg refreshToken ?> refresh_error.
Definition Logout (ctx : Context) (refreshToken : string) : GoM World unit :=
  _ ← AuthService.Logout refreshToken ?> (λ _, Status Internal "failed to logout");
  match SetOffline with
  | None => mret tt
  | Some SetOffline =>
      let userID := UserIDFromContext ctx in
      if string_eqb userID "" then mret tt else ignore (SetOffline userID)
  end.
Definition ValidateToken (accessToken : string) : GoM World (string * bool) :=
  AuthService.ValidateToken cfg accessToken.
End Handler.
End AuthHandler.
