(* ===== verification/AuthServiceFacts.v ===== *)
(** * AuthServiceFacts: what the auth service guarantees

    Access tokens validate to the user they were minted for until they
    expire; a refresh token is traded once; a one-time password admits
    whoever presents the stored text, verifies the account and is spent;
    logging in takes the password and a verified account. *)
From S2P Require Import Prelude Realtime Store Queries Redis Middleware MiddlewareFacts.
From S2P Require Import AuthService SqlSplit.

Section Facts.
Context `{Env} `{!UuidText} `{!RedisServer} `{!Jwt} `{!Bcrypt}.
Context (cfg : JWTConfig) (mailer : option (string → string → GoM World unit)).

Implicit Types w : World.

Lemma app_inj_prefix (p s t : string) : p +:+ s = p +:+ t → s = t.
Proof. intros E. by apply app_inj_str in E as [_ E]. Qed.
Lemma refresh_key_inj s t : AuthService.refresh_key s = AuthService.refresh_key t → s = t.
Proof. apply app_inj_prefix. Qed.

(** What [generateTokens] leaves behind when it succeeds. *)
Lemma generateTokens_Ok userID w p w' :
  AuthService.generateTokens cfg userID w = (Ok p, w') →
  SignedString (AuthService.access_claims cfg userID (clock (tick w))) (Secret cfg) =
    inr (AccessToken p) ∧
  w' = with_redis
         (<[AuthService.refresh_key (RefreshTokenText p) :=
              mkRedisEntry (RString userID)
                (Z.add (clock (S (S (tick w)))) <$> AuthService.ttl_option (RefreshTokenTTL cfg))]>
            (redis w)) (bump (bump (bump w))).
Proof.
  unfold AuthService.generateTokens. intros E. go_inv E.
  injection R as <- <-.
  destruct (SignedString _ _) as [e|tok] eqn:Hs; go_inv R0.
  unfold rand_Read in R1. destruct (faults _); [|done..]. injection R1 as <- <-.
  apply command_Ok_inv in R2 as (r & E & ->). rewrite SET_law in E. by simplify_eq/=.
Qed.

(** C23: access tokens, round trip. The access token of a freshly issued pair
    is accepted by [ValidateToken] with exactly the user it was issued to, and
    as a bearer token by the authentication gate, at every time before the
    expiry [iat + AccessTokenTTL] (in whole seconds), and by neither from that
    second on. *)
Theorem access_token_roundtrip userID w p w' :
  AuthService.generateTokens cfg userID w = (Ok p, w') →
  let exp := seconds (Unix (clock (tick w) + AccessTokenTTL cfg)) in
  ∀ w2 ctx md, ctx_metadata ctx = Some md →
    md !! "authorization" = Some ["Bearer " +:+ AccessToken p] →
    ((clock (tick w2) < exp)%Z →
       AuthService.ValidateToken cfg (AccessToken p) w2 = (Ok (userID, true), bump w2) ∧
       ∀ u, carries ctx (Secret cfg) (clock (tick w2)) u ↔ u = userID) ∧
    ((exp ≤ clock (tick w2))%Z →
       AuthService.ValidateToken cfg (AccessToken p) w2 = (Ok (""%string, false), bump w2) ∧
       ∀ u, ¬ carries ctx (Secret cfg) (clock (tick w2)) u).
Proof.
  intros [Hs _]%generateTokens_Ok exp w2 ctx md Hmd Hauth.
  set (c := AuthService.access_claims cfg userID (clock (tick w))) in *.
  assert (c !! "exp" = Some (ClaimNumber (Unix (clock (tick w) + AccessTokenTTL cfg)))) as Hexp.
  { unfold c, AuthService.access_claims. rewrite !lookup_insert_ne by done. apply lookup_singleton_eq. }
  assert (c !! "sub" = Some (ClaimString userID)) as Hsub by (apply lookup_insert_eq).
  assert (∀ t u, carries ctx (Secret cfg) t u ↔
    ∃ T, Parse t (AccessToken p) (hmac_key (Secret cfg) (Status Unauthenticated "invalid signing method")) = inr T ∧
         Claims T !! "sub" = Some (ClaimString u)) as Hcar.
  { intros t u. unfold carries. rewrite Hmd. split.
    - intros (md' & h & rest & T & [= <-] & Hh & HT & Hu). rewrite Hauth in Hh. injection Hh as <- <-.
      rewrite TrimPrefix_app in HT. eauto.
    - intros (T & HT & Hu). eexists md, _, [], T. rewrite Hauth, TrimPrefix_app. eauto. }
  split; intros Ht.
  - pose proof (λ e, Parse_signed _ _ _ _ (hmac_key (Secret cfg) e) _ Hs eq_refl Hexp Ht) as HP.
    split.
    + unfold AuthService.ValidateToken, mbind, gom_bind, now. rewrite HP. simpl. by rewrite Hsub.
    + intros u. rewrite Hcar. setoid_rewrite HP. split; [|intros ->; eauto].
      intros (T & [= <-] & Hu). simpl in Hu. congruence.
  - pose proof (λ e, Parse_expired _ _ _ _ (hmac_key (Secret cfg) e) _ Hs Hexp Ht) as HP.
    split.
    + unfold AuthService.ValidateToken, mbind, gom_bind, now.
      destruct (HP (Errorf "unexpected signing method")) as [err ->]. done.
    + intros u. rewrite Hcar. intros (T & HT & _).
      destruct (HP (Status Unauthenticated "invalid signing method")) as [err Herr]. congruence.
Qed.

Lemma RefreshToken_missing tok w :
  redis w !! AuthService.refresh_key tok = None →
  (AuthService.RefreshToken cfg tok w).1 = Err AuthService.ErrInvalidToken.
Proof.
  intros Hk. unfold AuthService.RefreshToken, AuthService.GetRefreshToken, mbind, gom_bind, on_err.
  unfold command, redis_cmd, external. rewrite GET_law. unfold live_value, live_entry. rewrite Hk.
  simpl. by destruct (faults (tick w)).
Qed.

(** C17: refresh tokens rotate. A refresh succeeds only with a token stored and
    unexpired; the new pair is for the user the token was stored for, the new
    refresh token is stored to expire the configured lifetime after the moment
    it is written (the fifth interaction of the call) and the old one is gone,
    nothing else in Redis or the tables changed, and presenting the old token
    again gets ErrInvalidToken, whatever else happens. *)
Theorem RefreshToken_rotates tok w p w' :
  AuthService.RefreshToken cfg tok w = (Ok p, w') →
  ∃ userID,
    live_value (clock (tick w)) (redis w) (AuthService.refresh_key tok) = Some (RString userID) ∧
    SignedString (AuthService.access_claims cfg userID (clock (S (S (tick w))))) (Secret cfg) =
      inr (AccessToken p) ∧
    redis w' = <[AuthService.refresh_key (RefreshTokenText p) :=
                   mkRedisEntry (RString userID)
                     (Z.add (clock (4 + tick w)) <$> AuthService.ttl_option (RefreshTokenTTL cfg))]>
                 (delete (AuthService.refresh_key tok) (redis w)) ∧
    db w' = db w ∧
    (RefreshTokenText p ≠ tok → ∀ w2,
       redis w2 !! AuthService.refresh_key tok = redis w' !! AuthService.refresh_key tok →
       (AuthService.RefreshToken cfg tok w2).1 = Err AuthService.ErrInvalidToken).
Proof.
  unfold AuthService.RefreshToken at 1. intros E. go_inv E.
  apply command_Ok_inv in R as (r & Hget & ->). rewrite GET_law in Hget.
  destruct (live_value _ _ _) as [[uid|]|] eqn:Hl; [|done..]. injection Hget as <- <-.
  apply command_Ok_inv in R0 as (r & Hdel & ->). rewrite DEL_law in Hdel. injection Hdel as _ <-.
  apply generateTokens_Ok in E as [Hs ->]. simpl in Hs |- *.
  exists uid. split_and!; [done|exact Hs|reflexivity|reflexivity|].
  intros Hne w2 Hw2. apply RefreshToken_missing. rewrite Hw2.
  rewrite lookup_insert_ne; [apply lookup_delete_eq|]. intros Hk. by apply refresh_key_inj in Hk.
Qed.

(** The account [GetUserByEmail] finds: a live row with that address. *)
Definition account_of (d : Db) (email : string) (u : User) : Prop :=
  ∃ k, users d !! k = Some u ∧ u_email u = email ∧ u_deleted u = false.

Lemma GetUserByEmail_Ok email w u w' :
  Queries.GetUserByEmail email w = (Ok u, w') → account_of (db w) email u ∧ w' = bump w.
Proof.
  unfold Queries.GetUserByEmail, query. intros (d & Hq & ->)%sql_Ok_inv.
  destruct (one _) as [|a] eqn:Hone; [done|]. injection Hq as -> <-.
  destruct (head (rows _ _)) as [v|] eqn:Hh; [|done]. injection Hone as ->.
  apply head_Some_elem_of, elem_of_rows in Hh as (k & Hk & Hp).
  apply andb_true_iff in Hp as [He Hd]. unfold string_eqb in He.
  apply bool_decide_eq_true in He. apply negb_true_iff in Hd. split; [by exists k|]. by destruct w.
Qed.

Lemma VerifyUser_Ok id w u w' :
  Queries.VerifyUser id w = (Ok u, w') →
  ∃ row, users (db w) !! id = Some row ∧
    w' = with_db (with_users (<[id := user_verified (clock (tick w)) row]> (users (db w))) (db w)) (bump w).
Proof.
  unfold Queries.VerifyUser. intros (d & Hq & ->)%sql_Ok_inv.
  destruct (users (db w) !! id) as [row|]; [|done]. injection Hq as _ <-. by exists row.
Qed.

Lemma GetOTP_refused email otp w :
  live_value (clock (tick w)) (redis w) (AuthService.otp_key email) ≠ Some (RString otp) →
  ∃ w', AuthService.VerifyOTP cfg email otp w = (Err AuthService.ErrInvalidOTP, w') ∧
    db w' = db w ∧ redis w' = redis w.
Proof.
  intros Hne. unfold AuthService.VerifyOTP, AuthService.GetOTP, mbind, gom_bind, on_err.
  unfold command, redis_cmd, external. rewrite GET_law.
  assert (∀ s, live_value (clock (tick w)) (redis w) (AuthService.otp_key email) = Some (RString s) →
    string_eqb s otp = false) as Hs.
  { intros s Hl. apply bool_decide_eq_false. intros ->. by apply Hne. }
  destruct (live_value _ _ _) as [[s|]|], (faults (tick w)); simpl; try by eexists.
  rewrite (Hs s) by done. by eexists.
Qed.

(** One-time passwords. With Redis and the tables answering, verifying
    succeeds only for the password stored and unexpired under the address;
    then exactly the row of that live account becomes verified, the password
    is spent and a refresh token for the account is stored, and nothing else
    changes. Any other password, or none stored, is refused with
    ErrInvalidOTP and changes nothing, so the attempt is not even counted. *)
Theorem VerifyOTP_effect email otp w :
  fault_free →
  (∀ uid p w', AuthService.VerifyOTP cfg email otp w = (Ok (uid, p), w') →
     live_value (clock (tick w)) (redis w) (AuthService.otp_key email) = Some (RString otp) ∧
     ∃ u row t t', account_of (db w) email u ∧ uid = uuid_print (u_id u) ∧
       users (db w) !! u_id u = Some row ∧
       db w' = with_users (<[u_id u := user_verified t row]> (users (db w))) (db w) ∧
       redis w' = <[AuthService.refresh_key (RefreshTokenText p) :=
                      mkRedisEntry (RString uid) (Z.add t' <$> AuthService.ttl_option (RefreshTokenTTL cfg))]>
                    (delete (AuthService.otp_key email) (redis w))) ∧
  (live_value (clock (tick w)) (redis w) (AuthService.otp_key email) ≠ Some (RString otp) →
     ∃ w', AuthService.VerifyOTP cfg email otp w = (Err AuthService.ErrInvalidOTP, w') ∧
       db w' = db w ∧ redis w' = redis w).
Proof.
  intros Hff. split; [|apply GetOTP_refused].
  unfold AuthService.VerifyOTP. intros uid p w' E. go_inv E.
  apply command_Ok_inv in R as (r & Hget & ->). rewrite GET_law in Hget.
  destruct (live_value _ _ _) as [[s|]|] eqn:Hl; [|done..]. injection Hget as <- <-.
  unfold string_eqb in R0. apply bool_decide_eq_true in R0 as ->. split; [done|].
  apply GetUserByEmail_Ok in R1 as [Hu ->]. apply VerifyUser_Ok in R2 as (row & Hrow & ->).
  unfold ignore, AuthService.DeleteOTP in R3. rewrite command_run, DEL_law in R3 by apply Hff.
  injection R3 as _ <-. apply generateTokens_Ok in R4 as [_ ->].
  eexists _, row, _, _. split_and!; [exact Hu|done|exact Hrow|reflexivity|reflexivity].
Qed.

(** C18: logging in. A login succeeds only for a live account of the address
    whose hash accepts the password and which is verified, for that account,
    and changes nothing but to store its new refresh token; without such an
    account, or with a password its hash refuses, the answer is
    ErrInvalidCredentials; with an unverified account ErrNotVerified: no token
    is minted for an address nobody has proved to own. *)
Theorem Login_effect email password w :
  (∀ uid p w', AuthService.Login cfg email password w = (Ok (uid, p), w') →
     ∃ u t, account_of (db w) email u ∧ uid = uuid_print (u_id u) ∧
       CompareHashAndPassword (u_password_hash u) password = true ∧ u_verified u = true ∧
       db w' = db w ∧
       redis w' = <[AuthService.refresh_key (RefreshTokenText p) :=
                      mkRedisEntry (RString uid) (Z.add t <$> AuthService.ttl_option (RefreshTokenTTL cfg))]>
                    (redis w)) ∧
  ((∀ u, account_of (db w) email u → CompareHashAndPassword (u_password_hash u) password = false) →
     (AuthService.Login cfg email password w).1 = Err AuthService.ErrInvalidCredentials) ∧
  (fault_free → (∃ u, account_of (db w) email u) →
   (∀ u, account_of (db w) email u →
      CompareHashAndPassword (u_password_hash u) password = true ∧ u_verified u = false) →
     (AuthService.Login cfg email password w).1 = Err AuthService.ErrNotVerified).
Proof.
  unfold AuthService.Login. split_and!.
  - intros uid p w' E. go_inv E. apply GetUserByEmail_Ok in R as [Hu ->].
    apply generateTokens_Ok in R2 as [_ ->].
    eexists _, _. by split_and!.
  - intros Hno. unfold mbind, gom_bind, on_err.
    destruct (Queries.GetUserByEmail email w) as [[u|e|] w1] eqn:E; [|done|].
    + apply GetUserByEmail_Ok in E as [Hu _]. by rewrite (Hno _ Hu).
    + exfalso. revert E. unfold Queries.GetUserByEmail, query, sql, external.
      by destruct (one _), (faults _).
  - intros Hff [u0 Hu0] Hall. unfold mbind, gom_bind, on_err.
    destruct (Queries.GetUserByEmail email w) as [[u|e|] w1] eqn:E.
    + apply GetUserByEmail_Ok in E as [Hu _]. destruct (Hall _ Hu) as [-> ->]. done.
    + exfalso. revert E. unfold Queries.GetUserByEmail. rewrite query_run by apply Hff.
      destruct (head _) eqn:Hh; [done|]. intros _.
      destruct Hu0 as (k & Hk & He & Hd).
      assert (u0 ∈ rows (λ _ u, string_eqb (u_email u) email && negb (u_deleted u)) (users (db w))) as Hin.
      { apply elem_of_rows. exists k. split; [done|]. rewrite Hd. unfold string_eqb.
        by rewrite bool_decide_eq_true_2. }
      apply head_None in Hh. rewrite Hh in Hin. by apply not_elem_of_nil in Hin.
    + exfalso. revert E. unfold Queries.GetUserByEmail. rewrite query_run by apply Hff.
      by destruct (one _).
Qed.
End Facts.

(** ** Worked examples *)
Definition demo_bcrypt : Bcrypt.
Proof.
  refine {| GenerateFromPassword salt p := inr p; CompareHashAndPassword h p := string_eqb h p |}.
  intros salt p h [= ->]. by apply bool_decide_eq_true_2.
Defined.

Section Example.
#[local] Existing Instance demo_wired.
#[local] Existing Instance demo_uuid.
#[local] Existing Instance reference_redis.
#[local] Existing Instance demo_jwt.
#[local] Existing Instance demo_bcrypt.

Definition demo_cfg : JWTConfig := mkJWTConfig "secret" (minutes 15) (minutes 10080).
Definition demo_user : User :=
  mkUser 7 "ann#0001" "ann@example.org" "hunter2" "" "" "offline" 0 0 false false "" "ann".
Definition demo_auth : World :=
  with_db (with_users {[7%positive := demo_user]} empty_db)
    (with_redis {["otp:ann@example.org" := mkRedisEntry (RString "123456") (Some 300000000%Z)]} empty_world).

Definition demo_tokens := AuthService.generateTokens demo_cfg "ann".
Lemma demo_tokens_runs : is_Ok (demo_tokens empty_world).1 = true.
Proof. vm_compute. reflexivity. Qed.

Lemma access_token_roundtrip_witness :
  ∃ tok, AuthService.ValidateToken demo_cfg tok empty_world = (Ok ("ann"%string, true), bump empty_world).
Proof.
  destruct (run_Ok _ _ demo_tokens_runs) as [p E]. exists (AccessToken p).
  pose proof (access_token_roundtrip demo_cfg "ann" empty_world p _ E empty_world
    (mkContext (Some {["authorization" := ["Bearer " +:+ AccessToken p]]}) None None) _ eq_refl
    (lookup_singleton_eq _ _)) as [Hin _].
  apply Hin. vm_compute. reflexivity.
Defined.

Definition demo_refresh := AuthService.RefreshToken demo_cfg "old".
Definition demo_stored : World :=
  with_redis {["refresh:old" := mkRedisEntry (RString "ann") None]} empty_world.
Lemma demo_refresh_runs : is_Ok (demo_refresh demo_stored).1 = true.
Proof. vm_compute. reflexivity. Qed.

Lemma RefreshToken_rotates_witness :
  ∃ p w', demo_refresh demo_stored = (Ok p, w') ∧
    live_value (clock 0) (redis demo_stored) "refresh:old" = Some (RString "ann").
Proof.
  destruct (run_Ok _ _ demo_refresh_runs) as [p E]. exists p, (demo_refresh demo_stored).2.
  split; [exact E|].
  destruct (RefreshToken_rotates demo_cfg "old" demo_stored p _ E) as (u & Hl & _).
  change (AuthService.refresh_key "old") with "refresh:old"%string in Hl.
  change (tick demo_stored) with 0 in Hl. rewrite Hl. vm_compute in Hl. by injection Hl as <-.
Defined.

Definition demo_verify := AuthService.VerifyOTP demo_cfg "ann@example.org" "123456".
Lemma demo_verify_runs : is_Ok (demo_verify demo_auth).1 = true.
Proof. vm_compute. reflexivity. Qed.

Lemma VerifyOTP_effect_witness :
  (∃ uid p w', demo_verify demo_auth = (Ok (uid, p), w') ∧
     live_value (clock 0) (redis demo_auth) "otp:ann@example.org" = Some (RString "123456")) ∧
  ∃ w', AuthService.VerifyOTP demo_cfg "ann@example.org" "000000" demo_auth =
    (Err AuthService.ErrInvalidOTP, w').
Proof.
  split.
  - destruct (run_Ok _ _ demo_verify_runs) as [[uid p] E]. exists uid, p, (demo_verify demo_auth).2.
    split; [exact E|].
    destruct (VerifyOTP_effect demo_cfg "ann@example.org" "123456" demo_auth) as [Hok _];
      [intros n; reflexivity|].
    destruct (Hok uid p _ E) as [Hl _]. exact Hl.
  - destruct (VerifyOTP_effect demo_cfg "ann@example.org" "000000" demo_auth) as [_ Hbad];
      [intros n; reflexivity|].
    destruct Hbad as (w' & E & _); [vm_compute; done|]. by exists w'.
Defined.
End Example.
