(* ===== verification/Presence.v ===== *)
(** * Presence: who is online

    Models [src/internal/features/presence]: [service.go] (Module
    [PresenceService]) and the answers of [handler.go].  A presence is a Redis
    hash under ["presence:<user>"]; the users service is reached through the
    record [UserInfoResolver], and is handed back [GetLiveStatus] as its
    [PresenceReader] ([presence_reader]).  The Redis client is never nil. *)
From S2P Require Import Prelude Realtime Store Redis Middleware User.

(** [UserInfoResolver] of service.go. *)
Record UserInfoResolver := mkUserInfoResolver {
  LookupBasicProfile : string → GoM World (string * string);
  GetStatusIntent : string → GoM World (string * string)
}.

(** [presencev1.Status], an open protobuf enumeration. *)
Definition Status_STATUS_UNSPECIFIED : Z := 0.
Definition Status_STATUS_ONLINE : Z := 1.
Definition Status_STATUS_IDLE : Z := 2.
Definition Status_STATUS_DND : Z := 3.
Definition Status_STATUS_OFFLINE : Z := 4.

(** [presencev1.Presence]. *)
Record PresencePb := mkPresence {
  p_user_id : string; p_status : Z; p_custom_status : string; p_last_seen : option time }.

Module PresenceService.
Definition presenceKeyPrefix : string := "presence:".
Definition presence_key (userID : string) : string := presenceKeyPrefix +:+ userID.

(** The map literals; a missing key reads as the zero value. *)
Definition statusToString (st : Z) : string :=
  if (st =? Status_STATUS_ONLINE)%Z then "online"
  else if (st =? Status_STATUS_IDLE)%Z then "idle"
  else if (st =? Status_STATUS_DND)%Z then "dnd"
  else if (st =? Status_STATUS_OFFLINE)%Z then "offline"
  else "".
Definition statusToStream (st : Z) : PresenceStatus :=
  if (st =? Status_STATUS_ONLINE)%Z then PRESENCE_STATUS_ONLINE
  else if (st =? Status_STATUS_IDLE)%Z then PRESENCE_STATUS_IDLE
  else if (st =? Status_STATUS_DND)%Z then PRESENCE_STATUS_DND
  else if (st =? Status_STATUS_OFFLINE)%Z then PRESENCE_STATUS_OFFLINE
  else PRESENCE_STATUS_UNSPECIFIED.
Definition stringToStatus : list (string * Z) :=
  [("online", Status_STATUS_ONLINE); ("idle", Status_STATUS_IDLE);
   ("dnd", Status_STATUS_DND); ("offline", Status_STATUS_OFFLINE)]%string.

Section Service.
Context `{Env} `{!RedisServer}.
(** [s.lpb != nil] and [s.resolver]. *)
Variables (lpb : bool) (resolver : option UserInfoResolver).

Definition publishPresence (userID : string) (status : Z) (customStatus : string) :
    GoM World unit :=
  if negb lpb then mret tt else
  t ← now;
  '(username, avatarURL) ←
    match resolver with
    | None => mret (""%string, ""%string)
    | Some r => LookupBasicProfile r userID
    end;
  Publish (FriendActivity userID) (EvFriend
    {| fae_event := FRIEND_EVENT_PRESENCE_UPDATE; fae_user_id := userID;
       fae_username := username; fae_display_name := ""; fae_status := statusToStream status;
       fae_custom_status := customStatus; fae_avatar_url := avatarURL; fae_channel_id := "";
       fae_timestamp := Some t |}).

Definition UpdatePresence (userID : string) (st : Z) (customStatus : string) :
    GoM World PresencePb :=
  t ← now;
  let fields := <["status" := statusToString st]>
                  (<["custom_status" := customStatus]> {["last_seen" := FormatInt (Unix t)]}) in
  _ ← command (HSET (presence_key userID) fields) ?> ErrorfW "failed to set presence: %w";
  _ ← publishPresence userID st customStatus;
  mret (mkPresence userID st customStatus (Some t)).

Definition SetOffline (userID : string) : GoM World unit :=
  _ ← UpdatePresence userID Status_STATUS_OFFLINE ""; mret tt.

Definition OnUserConnect (userID : string) : GoM World unit :=
  match resolver with
  | None => mret tt
  | Some r =>
      '(status, custom) ← GetStatusIntent r userID;
      let st := default Status_STATUS_ONLINE (assoc status stringToStatus) in
      ignore (UpdatePresence userID st custom)
  end.
Definition OnUserDisconnect (userID : string) : GoM World unit := ignore (SetOffline userID).

Definition field (vals : gmap string string) (f : string) : string := default "" (vals !! f).

Definition GetLiveStatus (userID : string) : GoM World (string * string) :=
  r ← try (command (HGETALL (presence_key userID)));
  match r with
  | inl _ => mret ("offline", "")
  | inr vals =>
      if size vals =? 0 then mret ("offline", "")
      else mret (field vals "status", field vals "custom_status")
  end.

Definition parsePresence (userID : string) (vals : gmap string string) : PresencePb :=
  let status :=
    match vals !! "status" with
    | Some statusVal =>
        match assoc statusVal stringToStatus with
        | Some st => st
        | None => default Status_STATUS_UNSPECIFIED (ParseInt 32 statusVal)
        end
    | None => Status_STATUS_UNSPECIFIED
    end in
  let lastSeen := lsStr ← vals !! "last_seen"; ts ← ParseInt 64 lsStr; Some (seconds ts) in
  mkPresence userID status (field vals "custom_status") lastSeen.

(** A missing hash is an offline user. *)
Definition offline_presence (userID : string) : PresencePb :=
  mkPresence userID Status_STATUS_OFFLINE "" None.
Definition presence_of (userID : string) (vals : gmap string string) : PresencePb :=
  if size vals =? 0 then offline_presence userID else parsePresence userID vals.

Definition GetPresence (userID : string) : GoM World PresencePb :=
  vals ← command (HGETALL (presence_key userID)) ?> ErrorfW "failed to get presence: %w";
  mret (presence_of userID vals).

(** [pipe.Exec]: every command is sent, the first error is the result. *)
Fixpoint exec_pipe (userIDs : list string) :
    GoM World (option error * list (error + gmap string string)) :=
  match userIDs with
  | [] => mret (None, [])
  | uid :: userIDs =>
      r ← try (command (HGETALL (presence_key uid)));
      '(err, rs) ← exec_pipe userIDs;
      mret (match r with inl e => Some e | inr _ => err end, r :: rs)
  end.
Definition bulk_presence (uid : string) (r : error + gmap string string) : PresencePb :=
  match r with inl _ => offline_presence uid | inr vals => presence_of uid vals end.
Definition GetBulkPresence (userIDs : list string) : GoM World (list PresencePb) :=
  '(err, rs) ← exec_pipe userIDs;
  match err with
  | Some e =>
      if bool_decide (e = Driver RedisNil) then mret (zip_with bulk_presence userIDs rs)
      else fail (ErrorfW "failed to get bulk presence: %w" e)
  | None => mret (zip_with bulk_presence userIDs rs)
  end.
End Service.
End PresenceService.

(** ** handler.go *)
Module PresenceHandler.
Section Handler.
Context `{Env} `{!RedisServer} (lpb : bool) (resolver : option UserInfoResolver).
Definition UpdatePresence (ctx : Context) (status : Z) (customStatus : string) :
    GoM World PresencePb :=
  let userID := UserIDFromContext ctx in
  _ ← ensure (negb (string_eqb userID "")) (Status Unauthenticated "missing user id");
  PresenceService.UpdatePresence lpb resolver userID status customStatus
    ?> (λ _, Status Internal "failed to update presence: %v").
Definition GetPresence (userID : string) : GoM World PresencePb :=
  PresenceService.GetPresence userID ?> (λ _, Status Internal "failed to get presence: %v").
Definition GetBulkPresence (userIDs : list string) : GoM World (list PresencePb) :=
  PresenceService.GetBulkPresence userIDs
    ?> (λ _, Status Internal "failed to get bulk presence: %v").
End Handler.
End PresenceHandler.

(** ** What presence offers the users service *)
Section Reader.
Context `{Env} `{!RedisServer}.

Lemma command_db {A} (f : time → keyspace → redis_result A) : steps (on_db eq) (command f).
Proof. unfold command. apply (steps_redis_db eq). Qed.

Lemma GetLiveStatus_db userID : steps (on_db eq) (PresenceService.GetLiveStatus userID).
Proof.
  unfold PresenceService.GetLiveStatus. apply steps_bind; [apply _|apply steps_try, command_db; apply _|].
  intros [e|vals]; [apply steps_ret; apply _|]. destruct (_ =? _); apply steps_ret; apply _.
Qed.
Lemma GetLiveStatus_Ok userID w : ∃ r, (PresenceService.GetLiveStatus userID w).1 = Ok r.
Proof.
  unfold PresenceService.GetLiveStatus, mbind, gom_bind, try.
  assert (∀ k, (command (HGETALL k) w).1 ≠ Panic) as Hnp.
  { intros k. unfold command, redis_cmd, external. by destruct (HGETALL _ _ _) as [|[]], (faults _). }
  specialize (Hnp (PresenceService.presence_key userID)).
  destruct (command _ w) as [[vals|e|] w1]; simpl in *; [|by eexists|done].
  destruct (_ =? _); by eexists.
Qed.

Definition presence_reader : PresenceReader.
Proof.
  refine {| User.GetLiveStatus := Some PresenceService.GetLiveStatus |}.
  - intros f u [= <-]. apply GetLiveStatus_db.
  - intros f u w [= <-]. apply GetLiveStatus_Ok.
Defined.
End Reader.

(** What the users service offers presence. *)
Definition user_resolver `{Env} `{!UuidText} (minioBaseURL : string) : UserInfoResolver :=
  mkUserInfoResolver (UserService.LookupBasicProfile minioBaseURL) UserService.GetStatusIntent.
