(* ===== verification/PresenceFacts.v ===== *)
(** * PresenceFacts: what is stored is what is read

    A presence that was set is read back; the bulk read is the single read of
    every user; connecting restores the status stored for the user, so a user
    who never chose one comes back offline. *)
From S2P Require Import Prelude Realtime Store Queries Redis Middleware User Presence.
From S2P Require Import SqlSplit.

Section Facts.
Context `{Env} `{!RedisServer}.

(** Presence keys hold hashes without an expiry: the invariant of the part of
    the keyspace this service owns. *)
Definition presence_wf (r : keyspace) : Prop :=
  ∀ uid e, r !! PresenceService.presence_key uid = Some e →
    ∃ h, e = mkRedisEntry (RHash h) None.
(** The hash of a user, and what a reader makes of it. *)
Definition stored (r : keyspace) (uid : string) : gmap string string :=
  match r !! PresenceService.presence_key uid with
  | Some (mkRedisEntry (RHash h) _) => h
  | _ => ∅
  end.

Lemma presence_key_inj u v :
  PresenceService.presence_key u = PresenceService.presence_key v → u = v.
Proof. intros E. by apply app_inj_str in E as [_ E]. Qed.

Lemma wf_live r t uid : presence_wf r →
  hash_of (live_value t r (PresenceService.presence_key uid)) = Some (stored r uid) ∧
  live_expiry t r (PresenceService.presence_key uid) = None.
Proof.
  intros Hwf. unfold live_value, live_expiry, live_entry, stored.
  destruct (r !! _) as [e|] eqn:E; [|done]. by destruct (Hwf _ _ E) as [h ->].
Qed.

Lemma HGETALL_stored w uid : presence_wf (redis w) → faults (tick w) = NoFault →
  command (HGETALL (PresenceService.presence_key uid)) w = (Ok (stored (redis w) uid), bump w).
Proof.
  intros Hwf Hf. rewrite command_run, HGETALL_law by done.
  destruct (wf_live _ (clock (tick w)) uid Hwf) as [-> _]. by destruct w.
Qed.

(** The fields [UpdatePresence] writes. *)
Definition written (t : time) (st : Z) (cs : string) : gmap string string :=
  <["status" := PresenceService.statusToString st]>
    (<["custom_status" := cs]> {["last_seen" := FormatInt (Unix t)]}).

Lemma HSET_stored w uid fields : presence_wf (redis w) → faults (tick w) = NoFault →
  command (HSET (PresenceService.presence_key uid) fields) w =
  (Ok tt, with_redis (<[PresenceService.presence_key uid :=
                         mkRedisEntry (RHash (fields ∪ stored (redis w) uid)) None]> (redis w)) (bump w)).
Proof.
  intros Hwf Hf. rewrite command_run, HSET_law by done.
  by destruct (wf_live _ (clock (tick w)) uid Hwf) as [-> ->].
Qed.

Lemma wf_insert r uid h : presence_wf r →
  presence_wf (<[PresenceService.presence_key uid := mkRedisEntry (RHash h) None]> r).
Proof.
  intros Hwf v e. destruct (decide (uid = v)) as [->|Hne].
  - rewrite lookup_insert_eq. intros [= <-]. by exists h.
  - rewrite lookup_insert_ne; [apply Hwf|]. intros E. by apply presence_key_inj in E.
Qed.

(** Publishing does not touch Redis, if the resolver does not. *)
Definition redis_silent (resolver : option UserInfoResolver) : Prop :=
  ∀ r u w, resolver = Some r →
    redis (LookupBasicProfile r u w).2 = redis w ∧ ∃ a, (LookupBasicProfile r u w).1 = Ok a.

Lemma publishPresence_run lpb resolver uid st cs w : redis_silent resolver →
  ∃ w', PresenceService.publishPresence lpb resolver uid st cs w = (Ok tt, w') ∧ redis w' = redis w.
Proof.
  intros Hr. unfold PresenceService.publishPresence. destruct lpb; [|by eexists].
  unfold mbind, gom_bind, now. simpl.
  destruct resolver as [r|]; [|by eexists].
  destruct (Hr r uid (bump w) eq_refl) as [Hred [[u a] Ho]].
  destruct (LookupBasicProfile r uid (bump w)) as [o w1]. simpl in Hred, Ho. subst o.
  by eexists.
Qed.

Lemma UpdatePresence_run lpb resolver uid st cs w :
  fault_free → redis_silent resolver → presence_wf (redis w) →
  ∃ w', PresenceService.UpdatePresence lpb resolver uid st cs w =
    (Ok (mkPresence uid st cs (Some (clock (tick w)))), w') ∧
    redis w' = <[PresenceService.presence_key uid :=
                   mkRedisEntry (RHash (written (clock (tick w)) st cs ∪ stored (redis w) uid)) None]>
                 (redis w).
Proof.
  intros Hff Hr Hwf. unfold PresenceService.UpdatePresence.
  pose proof (HSET_stored (bump w) uid (written (clock (tick w)) st cs) Hwf (Hff _)) as Hset.
  unfold mbind, gom_bind, now, on_err. fold (written (clock (tick w)) st cs). rewrite Hset.
  edestruct (publishPresence_run lpb resolver uid st cs) as (w' & E & Hred); [done|].
  rewrite E. eexists. split; [reflexivity|exact Hred].
Qed.

(** The status a reader sees: the four named ones, anything else unspecified. *)
Definition named_status (st : Z) : Z :=
  if bool_decide (1 ≤ st ≤ 4)%Z then st else Status_STATUS_UNSPECIFIED.

Lemma status_text_parsed st :
  match assoc (PresenceService.statusToString st) PresenceService.stringToStatus with
  | Some s => s
  | None => default Status_STATUS_UNSPECIFIED (ParseInt 32 (PresenceService.statusToString st))
  end = named_status st.
Proof.
  unfold named_status. destruct (decide (st ∈ [1; 2; 3; 4]%Z)) as [Hin|Hout].
  - rewrite !elem_of_cons, elem_of_nil in Hin.
    destruct Hin as [->|[->|[->|[->|[]]]]]; by vm_compute.
  - rewrite !not_elem_of_cons in Hout. destruct Hout as (H1' & H2' & H3' & H4' & _).
    unfold PresenceService.statusToString, Status_STATUS_ONLINE, Status_STATUS_IDLE,
      Status_STATUS_DND, Status_STATUS_OFFLINE.
    do 4 rewrite (proj2 (Z.eqb_neq st _)) by done.
    rewrite bool_decide_eq_false_2 by lia. by vm_compute.
Qed.

Lemma read_written uid t st cs h :
  in_range 64 (Unix t) = true →
  PresenceService.presence_of uid (written t st cs ∪ h) =
  mkPresence uid (named_status st) cs (Some (seconds (Unix t))).
Proof.
  intros Hr. unfold PresenceService.presence_of.
  assert (∀ f v, written t st cs !! f = Some v → (written t st cs ∪ h) !! f = Some v) as Hl.
  { intros f v Hf. by apply lookup_union_Some_l. }
  assert (written t st cs !! "status" = Some (PresenceService.statusToString st)) as Hs.
  { apply lookup_insert_eq. }
  assert (written t st cs !! "custom_status" = Some cs) as Hc.
  { unfold written. rewrite lookup_insert_ne by done. apply lookup_insert_eq. }
  assert (written t st cs !! "last_seen" = Some (FormatInt (Unix t))) as Ht.
  { unfold written. rewrite !lookup_insert_ne by done. apply lookup_singleton_eq. }
  apply Hl in Hs, Hc, Ht.
  destruct (size (written t st cs ∪ h) =? 0) eqn:Hsz.
  { apply Nat.eqb_eq, map_size_empty_inv in Hsz. by rewrite Hsz, lookup_empty in Hs. }
  unfold PresenceService.parsePresence, PresenceService.field. rewrite Hs, Hc, Ht. simpl.
  rewrite ParseInt_FormatInt by done. simpl. f_equal. apply status_text_parsed.
Qed.

(** Presence, round trip. After a successful update every reader sees
    it: [GetPresence] answers the status (an unnamed enumeration value comes
    back as unspecified), the custom status and the time in whole seconds;
    the live status handed to the users service is the same; the other users'
    presences are untouched; and the invariant of the presence keys holds. *)
Theorem presence_roundtrip lpb resolver uid st cs w :
  fault_free → redis_silent resolver → presence_wf (redis w) →
  in_range 64 (Unix (clock (tick w))) = true →
  ∃ w', PresenceService.UpdatePresence lpb resolver uid st cs w =
          (Ok (mkPresence uid st cs (Some (clock (tick w)))), w') ∧
    presence_wf (redis w') ∧
    (∀ v, v ≠ uid → stored (redis w') v = stored (redis w) v) ∧
    ∀ w2, redis w2 = redis w' →
      (PresenceService.GetPresence uid w2).1 =
        Ok (mkPresence uid (named_status st) cs (Some (seconds (Unix (clock (tick w)))))) ∧
      (PresenceService.GetLiveStatus uid w2).1 = Ok (PresenceService.statusToString st, cs).
Proof.
  intros Hff Hsil Hwf Hr.
  destruct (UpdatePresence_run lpb resolver uid st cs w Hff Hsil Hwf) as (w' & E & Hred).
  exists w'. split; [done|]. rewrite Hred.
  pose proof (wf_insert _ uid (written (clock (tick w)) st cs ∪ stored (redis w) uid) Hwf) as Hwf'.
  split; [done|]. split.
  { intros v Hv. unfold stored. rewrite lookup_insert_ne; [done|].
    intros Ek. by apply presence_key_inj in Ek. }
  intros w2 Hw2. rewrite <-Hw2 in Hwf'.
  assert (stored (redis w2) uid = written (clock (tick w)) st cs ∪ stored (redis w) uid) as Hst.
  { rewrite Hw2. unfold stored at 1. by rewrite lookup_insert_eq. }
  pose proof (HGETALL_stored w2 uid Hwf' (Hff _)) as Hget. rewrite Hst in Hget.
  split.
  - unfold PresenceService.GetPresence, mbind, gom_bind, on_err. rewrite Hget. simpl.
    by rewrite read_written.
  - unfold PresenceService.GetLiveStatus, mbind, gom_bind, try. rewrite Hget. simpl.
    assert ((written (clock (tick w)) st cs ∪ stored (redis w) uid) !! "status" =
      Some (PresenceService.statusToString st)) as Hs.
    { apply lookup_union_Some_l, lookup_insert_eq. }
    destruct (size _ =? 0) eqn:Hsz.
    { apply Nat.eqb_eq, map_size_empty_inv in Hsz. by rewrite Hsz, lookup_empty in Hs. }
    unfold PresenceService.field. rewrite Hs.
    erewrite lookup_union_Some_l; [done|]. unfold written.
    rewrite lookup_insert_ne by done. apply lookup_insert_eq.
Qed.

Lemma exec_pipe_run uids w : fault_free → presence_wf (redis w) →
  ∃ w', PresenceService.exec_pipe uids w =
    (Ok (None, (λ u, inr (stored (redis w) u)) <$> uids), w') ∧ redis w' = redis w.
Proof.
  intros Hff. revert w. induction uids as [|u uids IH]; intros w Hwf; [by eexists|].
  cbn [PresenceService.exec_pipe]. unfold mbind, gom_bind, try.
  rewrite HGETALL_stored by (done || apply Hff).
  destruct (IH (bump w) Hwf) as (w' & E & Hred). unfold mbind, gom_bind, try in E. rewrite E.
  by eexists.
Qed.

(** The pipelined bulk read answers, for every user asked about and in
    their order, exactly what the single read would. *)
Theorem GetBulkPresence_pointwise uids w :
  fault_free → presence_wf (redis w) →
  ∃ ps, (PresenceService.GetBulkPresence uids w).1 = Ok ps ∧
    Forall2 (λ u p, ∀ w2, redis w2 = redis w → (PresenceService.GetPresence u w2).1 = Ok p) uids ps.
Proof.
  intros Hff Hwf. unfold PresenceService.GetBulkPresence, mbind, gom_bind.
  destruct (exec_pipe_run uids w Hff Hwf) as (w' & E & _). rewrite E.
  eexists. split; [reflexivity|]. clear E.
  induction uids as [|u uids IH]; [constructor|]. cbn [fmap list_fmap zip_with]. constructor; [|done].
  intros w2 Hw2. unfold PresenceService.GetPresence, mbind, gom_bind, on_err.
  rewrite HGETALL_stored by (rewrite ?Hw2; done || apply Hff). by rewrite Hw2.
Qed.
End Facts.

(** ** Composition with the users service *)
Section Composition.
Context `{Env} `{!RedisServer} `{!UuidText}.
Context (minioBaseURL : string).

Lemma GetUserByID_run id w : fault_free →
  ∃ o, Queries.GetUserByID id w = (o, bump w) ∧
    (o = match users (db w) !! id with Some u => Ok u | None => Err (Driver NoRows) end).
Proof.
  intros Hff. unfold Queries.GetUserByID. rewrite query_run by apply Hff.
  unfold one. destruct (users (db w) !! id); by eexists.
Qed.

Lemma user_resolver_silent : fault_free → redis_silent (Some (user_resolver minioBaseURL)).
Proof.
  intros Hff r u w [= <-]. simpl. unfold UserService.LookupBasicProfile.
  destruct (uuid_parse u) as [id|]; [|split; [done|by eexists]].
  unfold mbind, gom_bind, try. destruct (GetUserByID_run id w Hff) as (o & E & ->). rewrite E.
  destruct (users (db w) !! id); split; try done; by eexists.
Qed.

(** What connecting restores. When a stored user connects, the presence
    everybody sees becomes the status in the user's row, with that same text
    as the custom status. The row of an account that never set a status says
    ["offline"] (the column's default), so such a user is shown offline while
    connected. *)
Theorem OnUserConnect_restores lpb userID id u w :
  fault_free → presence_wf (redis w) → in_range 64 (Unix (clock (S (tick w)))) = true →
  uuid_parse userID = Some id → users (db w) !! id = Some u → u_status u ≠ "" →
  let st := default Status_STATUS_ONLINE (assoc (u_status u) PresenceService.stringToStatus) in
  ∃ w', PresenceService.OnUserConnect lpb (Some (user_resolver minioBaseURL)) userID w = (Ok tt, w') ∧
    (∀ w2, redis w2 = redis w' →
       (PresenceService.GetPresence userID w2).1 =
         Ok (mkPresence userID st (u_status u) (Some (seconds (Unix (clock (S (tick w)))))))) ∧
    (u_status u = "offline" → st = Status_STATUS_OFFLINE).
Proof.
  intros Hff Hwf Hr Hid Hu Hne st. unfold PresenceService.OnUserConnect, mbind, gom_bind.
  cbn [GetStatusIntent user_resolver]. unfold UserService.GetStatusIntent. rewrite Hid. unfold mbind, gom_bind, try.
  destruct (GetUserByID_run id w Hff) as (o & E & Ho). rewrite E, Ho, Hu.
  replace (string_eqb (u_status u) "") with false by (symmetry; by apply bool_decide_eq_false_2).
  unfold mret, gom_ret. pose proof (user_resolver_silent Hff) as Hsil.
  destruct (UpdatePresence_run lpb (Some (user_resolver minioBaseURL)) userID st (u_status u) (bump w)
              Hff Hsil Hwf) as (w' & Eup & Hred).
  unfold ignore. fold st. rewrite Eup. eexists. split; [reflexivity|]. split.
  - intros w2 Hw2. unfold PresenceService.GetPresence, mbind, gom_bind, on_err.
    assert (presence_wf (redis w2)) as Hwf2 by (rewrite Hw2, Hred; by apply wf_insert).
    rewrite HGETALL_stored by (done || apply Hff). unfold stored. rewrite Hw2, Hred, lookup_insert_eq.
    unfold mret, gom_ret. cbn [fst]. rewrite read_written by done. do 2 f_equal.
    unfold st. destruct (assoc _ _) as [v|] eqn:Ev; [|done]. apply assoc_elem_of in Ev.
    unfold PresenceService.stringToStatus in Ev. rewrite !elem_of_cons, elem_of_nil in Ev.
    by destruct Ev as [[= _ ->]|[[= _ ->]|[[= _ ->]|[[= _ ->]|[]]]]].
  - unfold st. by intros ->.
Qed.
End Composition.

(** ** Worked examples *)
Section Example.
#[local] Existing Instance demo_wired.
#[local] Existing Instance demo_uuid.
#[local] Existing Instance reference_redis.

Lemma presence_wf_empty : presence_wf ∅.
Proof. intros u e. by rewrite lookup_empty. Qed.

Lemma presence_roundtrip_witness :
  ∃ w', (PresenceService.GetPresence "ann" w').1 =
    Ok (mkPresence "ann" Status_STATUS_IDLE "lunch" (Some 0%Z)).
Proof.
  destruct (presence_roundtrip true None "ann" Status_STATUS_IDLE "lunch" empty_world)
    as (w' & _ & _ & _ & Hread); [intros n; reflexivity|done|exact presence_wf_empty|reflexivity|].
  exists w'. by destruct (Hread w' eq_refl) as [-> _].
Defined.

Lemma GetBulkPresence_pointwise_witness :
  ∃ ps, (PresenceService.GetBulkPresence ["ann"; "bob"] empty_world).1 = Ok ps ∧ length ps = 2.
Proof.
  destruct (GetBulkPresence_pointwise ["ann"; "bob"] empty_world) as (ps & E & Hps);
    [intros n; reflexivity|exact presence_wf_empty|].
  exists ps. split; [exact E|]. by rewrite <-(Forall2_length _ _ _ Hps).
Defined.

Definition fresh_user : User :=
  mkUser 7 "ann#0001" "ann@example.org" "h" "" "" "offline" 0 0 true false "" "ann".

Lemma OnUserConnect_restores_witness :
  ∃ w', (PresenceService.GetPresence (uuid_print 7%positive) w').1 =
    Ok (mkPresence (uuid_print 7%positive) Status_STATUS_OFFLINE "offline" (Some (seconds 1))).
Proof.
  destruct (OnUserConnect_restores "http://cdn/" true (uuid_print 7%positive) 7 fresh_user
      (with_db (with_users {[7%positive := fresh_user]} empty_db) empty_world)) as (w' & _ & Hread & _);
    [intros n; reflexivity|exact presence_wf_empty|reflexivity|reflexivity|reflexivity|done|].
  exists w'. apply (Hread w' eq_refl).
Defined.
End Example.
