(* ===== verification/Media.v ===== *)
(** * Media: uploads and the files behind attachments

    Models [src/internal/features/media]: [service.go] and [repository.go]
    (Module [MediaService]) and the answers of [handler.go] (Module
    [MediaHandler]).  The object store is the record [ObjectStore]: signing a
    URL is local, removing an object is a call that leaves the tables alone.
    [MediaFacts.media_resolver] hands [ResolveAttachment] to the message
    service. *)
From S2P Require Import Prelude Realtime Store Queries Middleware.
From S2P Require Import Scylla Message.

(** minio-go, as the service uses it: the internal client removes objects,
    the signer builds the upload URL. *)
Record ObjectStore := mkObjectStore {
  PresignedPutObject : string → string → error + string;
  RemoveObject : string → string → GoM World unit;
  RemoveObject_db : ∀ b k, steps (on_db eq) (RemoveObject b k)
}.

Record RequestUploadResult := mkRequestUploadResult { UploadID : string; UploadURL : string }.
Record ConfirmUploadResult := mkConfirmUploadResult { FileID : string; URL : string }.
Record GetDownloadURLResult := mkGetDownloadURLResult { DownloadURL : string; ExpiresAt : time }.

Module MediaService.
Definition ErrFileTooLarge : error :=
  Sentinel "media.ErrFileTooLarge" "file size exceeds maximum allowed size of 25MB".
Definition ErrInvalidContentType : error :=
  Sentinel "media.ErrInvalidContentType" "content type is not allowed".

Definition maxFileSize : Z := 25 * 1024 * 1024.
Definition allowedContentTypes (contentType : string) : bool :=
  existsb (string_eqb contentType)
    ["image/jpeg"; "image/png"; "image/gif"; "image/webp"; "video/mp4"; "audio/ogg";
     "audio/mpeg"; "application/pdf"].

Section Service.
Context `{Env} `{!UuidText}.
Variables (store : ObjectStore) (bucket publicBaseURL : string).

Definition publicURL (key : string) : string := publicBaseURL +:+ key.

(** ** repository.go *)
Definition scan_failed : error := Errorf "cannot parse UUID".
Definition parseUUID (s : string) : error + uuid :=
  match uuid_parse s with Some u => inr u | None => inl scan_failed end.
Definition with_id {A} (what : string) (s : string) (k : uuid → GoM World A) : GoM World A :=
  match parseUUID s with
  | inl e => fail (ErrorfW what e)
  | inr u => k u
  end.
Definition repo_CreateMediaFile (uploaderID filename contentType : string) (size : Z)
    (bucketKey : string) : GoM World MediaFile :=
  with_id "invalid uploader_id: %w" uploaderID (λ uid,
    Queries.CreateMediaFile uid filename contentType size bucketKey).
Definition repo_GetMediaFile (fileID : string) : GoM World MediaFile :=
  with_id "invalid file_id: %w" fileID Queries.GetMediaFile.
Definition repo_ConfirmMediaFile (fileID : string) : GoM World MediaFile :=
  with_id "invalid file_id: %w" fileID Queries.ConfirmMediaFile.
Definition repo_DeleteMediaFile (fileID : string) : GoM World unit :=
  with_id "invalid file_id: %w" fileID Queries.DeleteMediaFile.

(** ** service.go *)
Definition object_key (userID : string) (id : uuid) (filename : string) : string :=
  "uploads/" +:+ userID +:+ "/" +:+ uuid_print id +:+ "_" +:+ filename.

Definition RequestUpload (userID filename contentType : string) (size : Z) :
    GoM World RequestUploadResult :=
  _ ← ensure (size <=? maxFileSize)%Z ErrFileTooLarge;
  _ ← ensure (allowedContentTypes contentType) ErrInvalidContentType;
  id ← new_uuid;
  let objectKey := object_key userID id filename in
  mediaFile ← repo_CreateMediaFile userID filename contentType size objectKey
                ?> ErrorfW "failed to create media file record: %w";
  match PresignedPutObject store bucket objectKey with
  | inl e => fail (ErrorfW "failed to generate presigned PUT URL: %w" e)
  | inr presignedURL => mret (mkRequestUploadResult (uuid_print (mf_id mediaFile)) presignedURL)
  end.

Definition ConfirmUpload (uploadID : string) : GoM World ConfirmUploadResult :=
  mediaFile ← repo_ConfirmMediaFile uploadID ?> ErrorfW "failed to confirm media file: %w";
  mret (mkConfirmUploadResult (uuid_print (mf_id mediaFile)) (publicURL (mf_bucket_key mediaFile))).

Definition GetDownloadURL (fileID : string) : GoM World GetDownloadURLResult :=
  mediaFile ← repo_GetMediaFile fileID ?> ErrorfW "failed to get media file: %w";
  _ ← ensure (mf_confirmed mediaFile) (Errorf "file upload not yet confirmed");
  t ← now;
  mret (mkGetDownloadURLResult (publicURL (mf_bucket_key mediaFile))
          (t + 365 * 24 * 3600 * 1000000)%Z).

(** [uploaderID != "" && m.UploaderID.String() != uploaderID], then the two
    spellings are compared as UUIDs. *)
Definition owned_by (m : MediaFile) (uploaderID : string) : bool :=
  string_eqb uploaderID "" || string_eqb (uuid_print (mf_uploader_id m)) uploaderID ||
  match uuid_parse uploaderID with
  | Some u => bool_decide (mf_uploader_id m = u)
  | None => false
  end.

Definition ResolveAttachment (fileID uploaderID : string) :
    GoM World (string * string * string * Z) :=
  mediaFile ← repo_GetMediaFile fileID ?> ErrorfW "failed to get media file: %w";
  _ ← ensure (mf_confirmed mediaFile) (Errorf "file upload not yet confirmed");
  _ ← ensure (owned_by mediaFile uploaderID) (Errorf "attachment owned by a different user");
  mret (mf_filename mediaFile, publicURL (mf_bucket_key mediaFile),
        mf_content_type mediaFile, mf_size mediaFile).

Definition DeleteFile (fileID : string) : GoM World unit :=
  mediaFile ← repo_GetMediaFile fileID ?> ErrorfW "failed to get media file: %w";
  _ ← RemoveObject store bucket (mf_bucket_key mediaFile)
        ?> ErrorfW "failed to remove object from MinIO: %w";
  repo_DeleteMediaFile fileID ?> ErrorfW "failed to delete media file record: %w".
End Service.
End MediaService.

(** ** handler.go *)
Module MediaHandler.
Section Handler.
Context `{Env} `{!UuidText} (store : ObjectStore) (bucket publicBaseURL : string).

Definition upload_error (err : error) : error :=
  if errors_Is err MediaService.ErrFileTooLarge || errors_Is err MediaService.ErrInvalidContentType
  then Status InvalidArgument "%v" else Status Internal "failed to request upload: %v".
Definition RequestUpload (ctx : Context) (filename contentType : string) (size : Z) :
    GoM World RequestUploadResult :=
  let userID := UserIDFromContext ctx in
  _ ← ensure (negb (string_eqb userID "")) (Status Unauthenticated "missing user id");
  MediaService.RequestUpload store bucket userID filename contentType size ?> upload_error.
Definition ConfirmUpload (uploadID : string) : GoM World ConfirmUploadResult :=
  MediaService.ConfirmUpload publicBaseURL uploadID
    ?> (λ _, Status Internal "failed to confirm upload: %v").
Definition GetDownloadURL (fileID : string) : GoM World GetDownloadURLResult :=
  MediaService.GetDownloadURL publicBaseURL fileID
    ?> (λ _, Status Internal "failed to get download URL: %v").
Definition DeleteFile (fileID : string) : GoM World unit :=
  MediaService.DeleteFile store bucket fileID ?> (λ _, Status Internal "failed to delete file: %v").
End Handler.
End MediaHandler.
