(* ===== verification/MediaFacts.v ===== *)
(** * MediaFacts: the life of an uploaded file

    Every row the service writes is within the size limit and of an allowed
    type; an attachment resolves exactly for its live, confirmed file and its
    uploader; the whole path from the request for an upload to its deletion. *)
From S2P Require Import Prelude Realtime Store Queries Middleware Authz Wp.
From S2P Require Import Scylla Message Wpm Media.

Section Facts.
Context `{Env} `{!UuidText}.
Context (store : ObjectStore) (bucket publicBaseURL : string).

(** What the checks of [RequestUpload] buy, for every row ever stored. *)
Definition media_ok (m : MediaFile) : Prop :=
  (mf_size m ≤ MediaService.maxFileSize)%Z ∧
  MediaService.allowedContentTypes (mf_content_type m) = true.
Definition media_wf (d : Db) : Prop := ∀ id m, media_files d !! id = Some m → media_ok m ∧ mf_id m = id.

Lemma GetMediaFile_steps (R : relation Db) `{!PreOrder R} s :
  steps (on_db R) (MediaService.repo_GetMediaFile s).
Proof. unfold MediaService.repo_GetMediaFile, MediaService.with_id, Queries.GetMediaFile. steps_auto. Qed.

Lemma CreateMediaFile_wf uid fn ct size key :
  (size ≤ MediaService.maxFileSize)%Z → MediaService.allowedContentTypes ct = true →
  steps (on_db (inv_rel media_wf)) (Queries.CreateMediaFile uid fn ct size key).
Proof.
  intros Hs Hc. apply steps_sql; [apply _|]. intros t id d a d'.
  destruct (has _ _); [done|]. destruct (has _ _); [|done]. intros [= _ <-] Hwf k m. simpl.
  destruct (decide (id = k)) as [->|Hne]; [rewrite lookup_insert_eq; by intros [= <-]|].
  rewrite lookup_insert_ne by done. apply Hwf.
Qed.
Lemma ConfirmMediaFile_wf id : steps (on_db (inv_rel media_wf)) (Queries.ConfirmMediaFile id).
Proof.
  apply steps_sql; [apply _|]. intros t i d a d'.
  destruct (media_files d !! id) as [m0|] eqn:E; [|done]. intros [= _ <-] Hwf k m. simpl.
  destruct (decide (id = k)) as [->|Hne]; [|rewrite lookup_insert_ne by done; apply Hwf].
  rewrite lookup_insert_eq. intros [= <-]. exact (Hwf _ _ E).
Qed.
Lemma DeleteMediaFile_wf id : steps (on_db (inv_rel media_wf)) (Queries.DeleteMediaFile id).
Proof.
  apply steps_sql; [apply _|]. intros t i d a d'. intros [= _ <-] Hwf k m. simpl.
  rewrite lookup_alter_Some. intros [(<- & m0 & E & ->)|[_ E]]; [exact (Hwf _ _ E)|by eapply Hwf].
Qed.

(** The media invariant. Whatever the service is asked, and whatever
    fails on the way, every file row keeps a size within 25 MB and a content
    type of the allowed list (the size is the one the client announced; a
    negative one passes). *)
Theorem media_invariant userID filename contentType size fileID uploaderID :
  steps (on_db (inv_rel media_wf)) (MediaService.RequestUpload store bucket userID filename contentType size) ∧
  steps (on_db (inv_rel media_wf)) (MediaService.ConfirmUpload publicBaseURL fileID) ∧
  steps (on_db (inv_rel media_wf)) (MediaService.GetDownloadURL publicBaseURL fileID) ∧
  steps (on_db (inv_rel media_wf)) (MediaService.ResolveAttachment publicBaseURL fileID uploaderID) ∧
  steps (on_db (inv_rel media_wf)) (MediaService.DeleteFile store bucket fileID).
Proof.
  assert (∀ A what s (k : uuid → GoM World A), (∀ u, steps (on_db (inv_rel media_wf)) (k u)) →
    steps (on_db (inv_rel media_wf)) (MediaService.with_id what s k)) as Hid.
  { intros A what s k Hk. unfold MediaService.with_id. destruct (MediaService.parseUUID s); [steps_auto|apply Hk]. }
  assert (∀ s, steps (on_db (inv_rel media_wf)) (MediaService.repo_GetMediaFile s)) as Hget.
  { intros s. apply GetMediaFile_steps; apply _. }
  split_and!.
  - unfold MediaService.RequestUpload.
    destruct (Z.leb_spec size MediaService.maxFileSize) as [Hs|]; [|by intros w Hw].
    destruct (MediaService.allowedContentTypes contentType) eqn:Hc; [|by intros w Hw].
    unfold MediaService.repo_CreateMediaFile. steps_auto. apply Hid. intros u.
    by apply CreateMediaFile_wf.
  - unfold MediaService.ConfirmUpload, MediaService.repo_ConfirmMediaFile. steps_auto.
    apply Hid, ConfirmMediaFile_wf.
  - unfold MediaService.GetDownloadURL. steps_auto; apply Hget.
  - unfold MediaService.ResolveAttachment. steps_auto; apply Hget.
  - unfold MediaService.DeleteFile, MediaService.repo_DeleteMediaFile. steps_auto; first [apply Hget | apply Hid, DeleteMediaFile_wf | idtac].
    intros w. pose proof (RemoveObject_db store bucket (mf_bucket_key a) w) as E. unfold on_db in *.
    by rewrite <-E.
Qed.

(** ** Resolving attachments *)
Definition resolvable (d : Db) (fileID uploaderID : string) (m : MediaFile) : Prop :=
  ∃ id, uuid_parse fileID = Some id ∧ media_files d !! id = Some m ∧
        mf_deleted m = false ∧ mf_confirmed m = true ∧ MediaService.owned_by m uploaderID = true.
Definition attachment (m : MediaFile) : string * string * string * Z :=
  (mf_filename m, MediaService.publicURL publicBaseURL (mf_bucket_key m), mf_content_type m, mf_size m).

Lemma repo_GetMediaFile_Ok s w m w' :
  MediaService.repo_GetMediaFile s w = (Ok m, w') →
  ∃ id, uuid_parse s = Some id ∧ media_files (db w) !! id = Some m ∧ mf_deleted m = false ∧ w' = bump w.
Proof.
  unfold MediaService.repo_GetMediaFile, MediaService.with_id, MediaService.parseUUID.
  destruct (uuid_parse s) as [id|]; [|done]. unfold Queries.GetMediaFile, query.
  intros (d & Hq & ->)%sql_Ok_inv. unfold Queries.live, one in Hq.
  destruct (media_files (db w) !! id) as [m'|] eqn:E; [|done]. simpl in Hq.
  destruct (mf_deleted m') eqn:Hd; [done|]. injection Hq as -> <-.
  exists id. split_and!; try done.
Qed.
Lemma repo_GetMediaFile_run s id w : fault_free → uuid_parse s = Some id →
  MediaService.repo_GetMediaFile s w =
  (match media_files (db w) !! id with
   | Some m => if mf_deleted m then Err (Driver NoRows) else Ok m
   | None => Err (Driver NoRows)
   end, bump w).
Proof.
  intros Hff Hs. unfold MediaService.repo_GetMediaFile, MediaService.with_id, MediaService.parseUUID.
  rewrite Hs. unfold Queries.GetMediaFile. rewrite query_run by apply Hff. unfold Queries.live, one.
  destruct (media_files (db w) !! id) as [m|]; [|done]. simpl. by destruct (mf_deleted m).
Qed.

Lemma owned_by_spec m s :
  MediaService.owned_by m s = true ↔
  s = "" ∨ s = uuid_print (mf_uploader_id m) ∨ uuid_parse s = Some (mf_uploader_id m).
Proof.
  unfold MediaService.owned_by, string_eqb. rewrite !orb_true_iff, !bool_decide_eq_true.
  destruct (uuid_parse s) as [u|]; [rewrite bool_decide_eq_true|]; naive_solver.
Qed.

(** Attachments. [ResolveAttachment] answers exactly for a file that
    exists, is not deleted, is confirmed and was uploaded by the user who
    attaches it (however his identifier is spelled; the empty string, which no
    authenticated caller has, skips the test); the answer is the row's name,
    public URL, type and size; it never writes to the tables. *)
Theorem ResolveAttachment_decides fileID uploaderID w :
  (∀ r w', MediaService.ResolveAttachment publicBaseURL fileID uploaderID w = (Ok r, w') →
     ∃ m, resolvable (db w) fileID uploaderID m ∧ r = attachment m) ∧
  (fault_free → ∀ m, resolvable (db w) fileID uploaderID m →
     (MediaService.ResolveAttachment publicBaseURL fileID uploaderID w).1 = Ok (attachment m)) ∧
  (∀ m, MediaService.owned_by m uploaderID = true ↔
     uploaderID = "" ∨ uploaderID = uuid_print (mf_uploader_id m) ∨
     uuid_parse uploaderID = Some (mf_uploader_id m)) ∧
  db (MediaService.ResolveAttachment publicBaseURL fileID uploaderID w).2 = db w.
Proof.
  split_and!; [| |intros m; apply owned_by_spec|].
  - unfold MediaService.ResolveAttachment. intros r w' E. go_inv E.
    apply repo_GetMediaFile_Ok in R as (id & Hid & Hm & Hd & ->). exists a.
    split; [by exists id|done].
  - intros Hff m (id & Hid & Hm & Hd & Hc & Ho).
    unfold MediaService.ResolveAttachment, mbind, gom_bind, on_err.
    rewrite (repo_GetMediaFile_run _ id), Hm, Hd by done. by rewrite Hc, Ho.
  - assert (steps (on_db (same id)) (MediaService.ResolveAttachment publicBaseURL fileID uploaderID)) as Hs.
    { unfold MediaService.ResolveAttachment. steps_auto. apply GetMediaFile_steps; apply _. }
    apply Hs.
Qed.

(** ** The life of a file *)
Lemma RequestUpload_Ok uid fn ct size r w w1 :
  MediaService.RequestUpload store bucket uid fn ct size w = (Ok r, w1) →
  ∃ u id key t, uuid_parse uid = Some u ∧ UploadID r = uuid_print id ∧
    media_files (db w) !! id = None ∧
    media_files (db w1) = <[id := mkMediaFile id u fn ct size key false t false t]> (media_files (db w)).
Proof.
  unfold MediaService.RequestUpload. intros E. go_inv E.
  destruct (PresignedPutObject _ _ _) as [|url]; [done|]. injection E as <- <-.
  unfold MediaService.repo_CreateMediaFile, MediaService.with_id, MediaService.parseUUID in R2.
  destruct (uuid_parse uid) as [u|]; [|done].
  apply sql_Ok_inv in R2 as (d & Hq & ->).
  destruct (Queries.has (media_files _) _) eqn:Hh; [done|].
  destruct (Queries.has (users _) _); [|done]. injection Hq as <- <-.
  injection R1 as _ <-. simpl.
  eexists u, _, _, _. split_and!; [done|reflexivity| |reflexivity].
  unfold Queries.has in Hh. cbn [bump db] in Hh. by destruct (media_files (db w) !! _).
Qed.

Lemma DeleteFile_run w id m :
  fault_free → (∀ b k w, is_Ok (RemoveObject store b k w).1 = true) →
  media_files (db w) !! id = Some m → mf_deleted m = false →
  ∃ w' t, MediaService.DeleteFile store bucket (uuid_print id) w = (Ok tt, w') ∧
    media_files (db w') !! id = Some (media_deleted t m).
Proof.
  intros Hff Hobj Hm Hd. unfold MediaService.DeleteFile, mbind, gom_bind, on_err.
  rewrite (repo_GetMediaFile_run _ id), Hm, Hd by (done || apply uuid_parse_print).
  pose proof (Hobj bucket (mf_bucket_key m) (bump w)) as Ho.
  pose proof (RemoveObject_db store bucket (mf_bucket_key m) (bump w)) as Hdb.
  destruct (RemoveObject store bucket (mf_bucket_key m) (bump w)) as [[[]|e|] w1]; try done.
  unfold MediaService.repo_DeleteMediaFile, MediaService.with_id, MediaService.parseUUID.
  rewrite uuid_parse_print. unfold Queries.DeleteMediaFile. rewrite sql_run by apply Hff.
  eexists _, _. split; [reflexivity|]. unfold on_db in Hdb. simpl in *. rewrite <-Hdb.
  by rewrite lookup_alter_eq, Hm.
Qed.

(** The life of an upload. With the tables answering, a requested upload
    cannot be attached before it is confirmed; confirming it by the identifier
    the request returned makes it resolvable, for its uploader, to the name,
    type and size of the request and to the URL of the confirmation, and for
    nobody else; once deleted it no longer resolves. *)
Theorem upload_lifecycle uid other fn ct size r w w1 :
  fault_free → (∀ b k w, is_Ok (RemoveObject store b k w).1 = true) →
  MediaService.RequestUpload store bucket uid fn ct size w = (Ok r, w1) →
  uid ≠ "" → other ≠ "" → uuid_parse other ≠ uuid_parse uid →
  ∃ e c w2 e' w3 e'',
    (MediaService.ResolveAttachment publicBaseURL (UploadID r) uid w1).1 = Err e ∧
    MediaService.ConfirmUpload publicBaseURL (UploadID r) w1 = (Ok c, w2) ∧ FileID c = UploadID r ∧
    (MediaService.ResolveAttachment publicBaseURL (FileID c) uid w2).1 = Ok (fn, URL c, ct, size) ∧
    (MediaService.ResolveAttachment publicBaseURL (FileID c) other w2).1 = Err e' ∧
    MediaService.DeleteFile store bucket (FileID c) w2 = (Ok tt, w3) ∧
    (MediaService.ResolveAttachment publicBaseURL (FileID c) uid w3).1 = Err e''.
Proof.
  intros Hff Hobj (u & id & key & t & Hu & Hr & _ & Hm1)%RequestUpload_Ok Hne Hno Hother.
  rewrite Hr. pose proof (uuid_parse_print id) as Hid.
  set (m := mkMediaFile id u fn ct size key false t false t) in *.
  assert (media_files (db w1) !! id = Some m) as Hrow by (rewrite Hm1; apply lookup_insert_eq).
  assert (∀ w m' s, media_files (db w) !! id = Some m' →
    (MediaService.ResolveAttachment publicBaseURL (uuid_print id) s w).1 =
    if mf_deleted m' then Err (ErrorfW "failed to get media file: %w" (Driver NoRows))
    else if mf_confirmed m'
         then if MediaService.owned_by m' s then Ok (attachment m')
              else Err (Errorf "attachment owned by a different user")
         else Err (Errorf "file upload not yet confirmed")) as Hres.
  { intros w' m' s Hm'. unfold MediaService.ResolveAttachment, mbind, gom_bind, on_err.
    rewrite (repo_GetMediaFile_run _ id), Hm' by done. destruct (mf_deleted m'); [done|].
    unfold ensure. destruct (mf_confirmed m'); [|done]. simpl.
    by destruct (MediaService.owned_by m' s). }
  set (m2 := media_confirmed m).
  set (w2 := with_db (with_media_files (<[id := m2]> (media_files (db w1))) (db w1)) (bump w1)).
  assert (MediaService.ConfirmUpload publicBaseURL (uuid_print id) w1 =
    (Ok (mkConfirmUploadResult (uuid_print id) (MediaService.publicURL publicBaseURL key)), w2)) as Hconf.
  { unfold MediaService.ConfirmUpload, MediaService.repo_ConfirmMediaFile, MediaService.with_id,
      MediaService.parseUUID, mbind, gom_bind, on_err. rewrite Hid.
    unfold Queries.ConfirmMediaFile. rewrite sql_run by apply Hff. by rewrite Hrow. }
  assert (media_files (db w2) !! id = Some m2) as Hrow2 by apply lookup_insert_eq.
  destruct (DeleteFile_run w2 id m2) as (w3 & t' & Hdel & Hrow3); [done..|].
  eexists _, _, w2, _, w3, _. split_and!; [by rewrite (Hres _ _ _ Hrow)|exact Hconf|reflexivity| | |exact Hdel|].
  - rewrite (Hres _ _ _ Hrow2). simpl.
    rewrite (proj2 (owned_by_spec m2 uid)); [done|]. by right; right.
  - rewrite (Hres _ _ _ Hrow2). simpl.
    destruct (MediaService.owned_by m2 other) eqn:Ho; [|reflexivity]. exfalso.
    apply owned_by_spec in Ho as [?|[Ho|Ho]]; [done| |]; simpl in Ho.
    + apply Hother. by rewrite Ho, uuid_parse_print, Hu.
    + apply Hother. by rewrite Ho, Hu.
  - by rewrite (Hres _ _ _ Hrow3).
Qed.
End Facts.

(** ** What media offers the message service *)
Section Resolver.
Context `{Env} `{!UuidText}.

Definition media_resolver (publicBaseURL : string) : MediaResolver.
Proof.
  refine {| mr_ResolveAttachment := MediaService.ResolveAttachment publicBaseURL |}.
  - intros f u. unfold MediaService.ResolveAttachment, MediaService.repo_GetMediaFile,
      MediaService.with_id, Queries.GetMediaFile. steps_auto; apply silent_query.
  - intros f u w. unfold MediaService.ResolveAttachment, MediaService.repo_GetMediaFile,
      MediaService.with_id, Queries.GetMediaFile, query, sql, external, mbind, gom_bind, on_err, ensure.
    destruct (MediaService.parseUUID f); [done|].
    destruct (faults _); [|done|].
    all: destruct (one _) as [|m]; [done|]; try done.
    destruct (mf_confirmed m); [|done]. simpl. by destruct (MediaService.owned_by m u).
Defined.
End Resolver.

(** ** Worked example *)
Section Example.
#[local] Existing Instance demo_wired.
#[local] Existing Instance demo_uuid.

Definition demo_store : ObjectStore.
Proof.
  refine {| PresignedPutObject b k := inr ("http://minio/" +:+ b +:+ "/" +:+ k);
            RemoveObject b k := mret tt |}.
  intros b k w. reflexivity.
Defined.
Definition demo_uploader : User :=
  mkUser 7 "ann#0001" "ann@example.org" "h" "" "" "offline" 0 0 true false "" "ann".
Definition demo_media : World := with_db (with_users {[7%positive := demo_uploader]} empty_db) empty_world.
Definition demo_upload :=
  MediaService.RequestUpload demo_store "media" (uuid_print 7%positive) "a.png" "image/png" 1024.
Lemma demo_upload_runs : is_Ok (demo_upload demo_media).1 = true.
Proof. vm_compute. reflexivity. Qed.

Lemma upload_lifecycle_witness :
  ∃ r w1 c w2, demo_upload demo_media = (Ok r, w1) ∧
    MediaService.ConfirmUpload "http://cdn/" (UploadID r) w1 = (Ok c, w2) ∧ FileID c = UploadID r.
Proof.
  destruct (run_Ok _ _ demo_upload_runs) as [r E]. exists r, (demo_upload demo_media).2.
  destruct (upload_lifecycle demo_store "media" "http://cdn/" (uuid_print 7%positive)
    (uuid_print 8%positive) "a.png" "image/png" 1024 r demo_media (demo_upload demo_media).2)
    as (e & c & w2 & e' & w3 & e'' & _ & Hc & Hid & _);
    [intros n; reflexivity|intros b k w; reflexivity|exact E|done|done|by vm_compute|].
  by exists c, w2.
Defined.
End Example.
