(* ===== verification/Voice.v ===== *)
(** * Voice: rooms, participants, toggles and direct calls

    Models [src/internal/features/voice]: [state.go] (Module [VoiceState]: the
    participants of a channel as fields of the Redis hash ["voice:<channel>"],
    the time the room came alive under ["voice:<channel>:active_since"]),
    [service.go] (Module [VoiceService]: joining, leaving, moderation and
    direct calls), [webhook.go] (Module [Webhook]: the LiveKit events).
    LiveKit is the class [LiveKit], the JSON texts of encoding/json the class
    [VoiceJson]; [rdb] and [lpb] say whether the Redis client and the local
    pub/sub were wired. *)
From S2P Require Import Prelude Realtime Store Queries Authz Redis Middleware.
From S2P Require Import Scylla Message.

Record ParticipantState := mkParticipantState {
  ps_UserID : string; ps_Username : string; ps_DisplayName : string; ps_AvatarURL : string;
  ps_GuildID : string; ps_ChannelID : string;
  ps_SelfMute : bool; ps_SelfDeaf : bool; ps_Video : bool; ps_ScreenShare : bool
}.
Record roomMeta := mkRoomMeta { rm_GuildID : string; rm_ChannelID : string }.

(** [json.Marshal] and [json.Unmarshal] at the two types stored as text.
    Marshalling and reading back is the identity on states whose strings are
    valid UTF-8 (anything else is replaced on the way). *)
Class VoiceJson := {
  Marshal : ParticipantState → string;
  Unmarshal : string → option ParticipantState;
  valid_utf8 : string → bool;
  Unmarshal_Marshal : ∀ p,
    forallb valid_utf8 [ps_UserID p; ps_Username p; ps_DisplayName p; ps_AvatarURL p;
                        ps_GuildID p; ps_ChannelID p] = true →
    Unmarshal (Marshal p) = Some p;
  Unmarshal_meta : string → roomMeta
}.

(** LiveKit: the room service client and the token it mints.  It is a system
    of its own: a call leaves the tables, the keyspace and the bus alone. *)
Record TrackInfo := mkTrackInfo { t_Source : string; t_Muted : bool }.
Record ParticipantInfo := mkParticipantInfo {
  lp_Identity : string; lp_Name : string; lp_Sid : string; lp_Metadata : string;
  lp_JoinedAt : Z; lp_Tracks : list TrackInfo
}.
(** What [auth.NewAccessToken(...)] is given before it is signed: identity,
    video grant, lifetime in seconds and metadata. *)
Record AccessToken := mkAccessToken {
  at_Identity : string; at_RoomJoin : bool; at_Room : string; at_CanPublish : bool;
  at_CanSubscribe : bool; at_ValidFor : Z; at_Metadata : option string
}.
Class LiveKit := {
  CreateRoom : string → Z → Z → string → GoM World unit;
  RemoveFromRoom : string → string → GoM World unit;
  ListParticipants : string → GoM World (list ParticipantInfo);
  UpdateParticipant : string → string → bool → bool → GoM World unit;
  ToJWT : AccessToken → error + string;
  CreateRoom_silent : ∀ r e m d, steps silent (CreateRoom r e m d);
  RemoveFromRoom_silent : ∀ r i, steps silent (RemoveFromRoom r i);
  ListParticipants_silent : ∀ r, steps silent (ListParticipants r);
  UpdateParticipant_silent : ∀ r i p s, steps silent (UpdateParticipant r i p s)
}.

(** [DMMembershipResolver] and [UserProfileResolver] of service.go. *)
Record DMMembershipResolver := mkDMMembershipResolver {
  vd_IsDMMember : string → string → GoM World bool;
  vd_DMMembers : string → GoM World (list string)
}.
Definition UserProfileResolver : Type := string → GoM World (string * string).

(** [fmt.Sprintf] of the metadata texts: no escaping. *)
Definition quoted (s : string) : string :=
  let q := String (ascii_of_nat 34) "" in q +:+ s +:+ q.
Definition json_text (fields : list (string * string)) : string :=
  "{" +:+ String.concat "," (map (λ f, quoted f.1 +:+ ":" +:+ quoted f.2) fields) +:+ "}".

Definition voice_event (action : VoiceAction) : VoiceStateEvent :=
  {| vse_event := VOICE_EVENT_UNSPECIFIED; vse_guild_id := ""; vse_channel_id := "";
     vse_user_id := ""; vse_self_mute := false; vse_self_deaf := false; vse_video := false;
     vse_streaming := false; vse_timestamp := None; vse_action := action; vse_sid := "";
     vse_name := ""; vse_metadata := ""; vse_track_type := VOICE_TRACK_UNSPECIFIED;
     vse_published := false; vse_room_active_since := 0 |}.

(** ** state.go *)
Module VoiceState.
Definition ErrInsufficientPermissions : error :=
  Sentinel "voice.ErrInsufficientPermissions" "insufficient permissions".

Section State.
Context `{Env} `{!UuidText} `{!RedisServer} `{!VoiceJson}.
Variables (rdb lpb : bool).

Definition voiceKey (channelID : string) : string := "voice:" +:+ channelID.
Definition voiceActiveSinceKey (channelID : string) : string :=
  "voice:" +:+ channelID +:+ ":active_since".

(** [realtime.Publish(s.lpb, ...)] dereferences [s.lpb]. *)
Definition publish_voice (subject : string) (e : event) : GoM World unit :=
  if lpb then Publish subject e else go_panic.

(** [redis.Get(...).Int64()]. *)
Definition get_int64 (key : string) : GoM World Z :=
  s ← command (GET key);
  match ParseInt 64 s with Some n => mret n | None => fail (Errorf "strconv.ParseInt: invalid syntax") end.

Definition EnsureActiveSince (channelID : string) : GoM World Z :=
  if negb rdb then mret 0%Z else
  t ← now;
  ok ← command (SETNX (voiceActiveSinceKey channelID) (FormatInt (Unix t)));
  if (ok : bool) then mret (Unix t) else get_int64 (voiceActiveSinceKey channelID).

Definition GetActiveSince (channelID : string) : GoM World Z :=
  if negb rdb then mret 0%Z else
  v ← try (get_int64 (voiceActiveSinceKey channelID));
  mret (match v with inr n => n | inl _ => 0%Z end).

Definition ClearActiveSince (channelID : string) : GoM World unit :=
  if negb rdb then mret tt else command (DEL (voiceActiveSinceKey channelID)).

Definition SetParticipant (ps : ParticipantState) : GoM World unit :=
  if negb rdb then mret tt
  else command (HSET (voiceKey (ps_ChannelID ps)) {[ps_UserID ps := Marshal ps]}).

Definition GetParticipant (channelID userID : string) : GoM World (option ParticipantState) :=
  if negb rdb then mret None else
  data ← try (command (HGET (voiceKey channelID) userID));
  match data with
  | inl e => if bool_decide (e = Driver RedisNil) then mret None else fail e
  | inr data =>
      match Unmarshal data with
      | Some ps => mret (Some ps)
      | None => fail (Errorf "json: cannot unmarshal")
      end
  end.

(** [ps, _ := s.GetParticipant(...)]: any error reads as nil. *)
Definition participant_or_nil (channelID userID : string) : GoM World (option ParticipantState) :=
  r ← try (GetParticipant channelID userID);
  mret (match r with inr ps => ps | inl _ => None end).

Definition leave_event (t : time) (since : Z) (channelID guildID userID : string) : VoiceStateEvent :=
  {| vse_event := VOICE_EVENT_STATE_UPDATE; vse_guild_id := guildID; vse_channel_id := channelID;
     vse_user_id := userID; vse_self_mute := false; vse_self_deaf := false; vse_video := false;
     vse_streaming := false; vse_timestamp := Some t; vse_action := VOICE_ACTION_LEAVE;
     vse_sid := ""; vse_name := ""; vse_metadata := "";
     vse_track_type := VOICE_TRACK_UNSPECIFIED; vse_published := false;
     vse_room_active_since := since |}.

(** The empty room takes both of its keys with it. *)
Definition clear_if_empty (channelID : string) : GoM World unit :=
  n ← try (command (HLEN (voiceKey channelID)));
  match n with
  | inr 0%Z => _ ← ignore (command (DEL (voiceKey channelID))); ignore (ClearActiveSince channelID)
  | _ => mret tt
  end.

Definition RemoveParticipant (channelID userID : string) : GoM World unit :=
  if negb rdb then mret tt else
  ps ← participant_or_nil channelID userID;
  let guildID := match ps with Some ps => ps_GuildID ps | None => ""%string end in
  _ ← command (HDEL (voiceKey channelID) userID);
  _ ← when (negb (string_eqb guildID "") && lpb)
        (t ← now; since ← GetActiveSince channelID;
         Publish (GuildChannelVoice guildID channelID)
           (EvVoice (leave_event t since channelID guildID userID)));
  clear_if_empty channelID.

Definition ClearChannel (channelID : string) : GoM World unit :=
  if negb rdb then mret tt else command (DEL (voiceKey channelID)).

(** The fields of the hash, in the order the map is ranged over. *)
Definition GetChannelState (channelID : string) : GoM World (list ParticipantState) :=
  if negb rdb then mret [] else
  all ← command (HGETALL (voiceKey channelID));
  mret (omap Unmarshal (map_to_list all).*2).

Definition participant_metadata (ps : ParticipantState) : string :=
  json_text [("userId", ps_UserID ps); ("username", ps_Username ps);
             ("displayName", ps_DisplayName ps); ("avatarUrl", ps_AvatarURL ps)].

Definition participant_event (action : VoiceAction) (t : option time) (since : Z)
    (channelID : string) (ps : ParticipantState) : VoiceStateEvent :=
  {| vse_event := VOICE_EVENT_STATE_UPDATE; vse_guild_id := ps_GuildID ps;
     vse_channel_id := channelID; vse_user_id := ps_UserID ps;
     vse_self_mute := ps_SelfMute ps; vse_self_deaf := ps_SelfDeaf ps; vse_video := ps_Video ps;
     vse_streaming := ps_ScreenShare ps; vse_timestamp := t; vse_action := action;
     vse_sid := ""; vse_name := ps_DisplayName ps; vse_metadata := participant_metadata ps;
     vse_track_type := VOICE_TRACK_UNSPECIFIED; vse_published := false;
     vse_room_active_since := since |}.

Definition broadcastParticipant (ps : ParticipantState) : GoM World unit :=
  if string_eqb (ps_GuildID ps) "" then mret tt else
  t ← now;
  since ← GetActiveSince (ps_ChannelID ps);
  publish_voice (GuildChannelVoice (ps_GuildID ps) (ps_ChannelID ps))
    (EvVoice (participant_event VOICE_ACTION_STATE_UPDATE (Some t) since (ps_ChannelID ps) ps)).

Definition broadcastChannelState (channelID guildID : string) : GoM World (list ParticipantState) :=
  states ← GetChannelState channelID;
  _ ← for_each states broadcastParticipant;
  mret states.

Definition toggleField (userID channelID : string) (mutate : ParticipantState → ParticipantState) :
    GoM World (list ParticipantState) :=
  ps ← participant_or_nil channelID userID;
  match ps with
  | None => fail (Errorf "not in voice channel")
  | Some ps =>
      let ps := mutate ps in
      _ ← SetParticipant ps;
      _ ← now;
      _ ← broadcastParticipant ps;
      GetChannelState channelID
  end.

Definition set_audio (mute deaf : bool) (p : ParticipantState) : ParticipantState :=
  mkParticipantState (ps_UserID p) (ps_Username p) (ps_DisplayName p) (ps_AvatarURL p)
    (ps_GuildID p) (ps_ChannelID p) mute deaf (ps_Video p) (ps_ScreenShare p).
Definition set_streams (video share : bool) (p : ParticipantState) : ParticipantState :=
  mkParticipantState (ps_UserID p) (ps_Username p) (ps_DisplayName p) (ps_AvatarURL p)
    (ps_GuildID p) (ps_ChannelID p) (ps_SelfMute p) (ps_SelfDeaf p) video share.

(** [requireStreamPerm]: [false] is [ErrInsufficientPermissions]. *)
Definition requireStreamPerm (userID channelID : string) : GoM World unit :=
  if negb authz_wired then mret tt else
  ps ← participant_or_nil channelID userID;
  match ps with
  | Some ps =>
      if string_eqb (ps_GuildID ps) "" then mret tt
      else can ← Authz.CanStream userID (ps_GuildID ps); ensure can ErrInsufficientPermissions
  | None => mret tt
  end.

Definition Mute (userID channelID : string) :=
  toggleField userID channelID (λ ps, set_audio true (ps_SelfDeaf ps) ps).
Definition Unmute (userID channelID : string) :=
  toggleField userID channelID (λ ps, set_audio false (ps_SelfDeaf ps) ps).
Definition Deafen (userID channelID : string) :=
  toggleField userID channelID (λ ps, set_audio true true ps).
Definition Undeafen (userID channelID : string) :=
  toggleField userID channelID (λ ps, set_audio false false ps).
Definition EnableVideo (userID channelID : string) :=
  _ ← requireStreamPerm userID channelID;
  toggleField userID channelID (λ ps, set_streams true (ps_ScreenShare ps) ps).
Definition DisableVideo (userID channelID : string) :=
  toggleField userID channelID (λ ps, set_streams false (ps_ScreenShare ps) ps).
Definition StartScreenShare (userID channelID : string) :=
  _ ← requireStreamPerm userID channelID;
  toggleField userID channelID (λ ps, set_streams (ps_Video ps) true ps).
Definition StopScreenShare (userID channelID : string) :=
  toggleField userID channelID (λ ps, set_streams (ps_Video ps) false ps).
End State.
End VoiceState.

(** ** service.go *)
Module VoiceService.
Import VoiceState.
Definition ErrLiveKitUnavailable : error :=
  Sentinel "voice.ErrLiveKitUnavailable" "livekit not configured".
Definition ErrNotDMMember : error :=
  Sentinel "voice.ErrNotDMMember" "not a member of this DM channel".
Definition ErrDMResolverMissing : error :=
  Sentinel "voice.ErrDMResolverMissing" "dm resolver not configured".
(** [tokenTTL] in seconds. *)
Definition tokenTTL : Z := 3600.

Record JoinChannelResult := mkJoinChannelResult {
  jc_URL : string; jc_Token : string; jc_Room : string; jc_ExpiresIn : Z }.
Record VoiceParticipant := mkVoiceParticipant {
  vp_UserId : string; vp_Identity : string; vp_Sid : string; vp_Name : string;
  vp_JoinedAt : option time }.

Section Service.
Context `{Env} `{!UuidText} `{!RedisServer} `{!VoiceJson} `{!LiveKit}.
(** [s.roomClient != nil], the collaborators and [s.cfg.URL]. *)
Variables (rdb lpb roomClient : bool) (dm : option DMMembershipResolver)
  (profile : option UserProfileResolver) (cfgURL : string).

(** The zero-second guard of [p.JoinedAt]. *)
Definition joined_at (p : ParticipantInfo) : option time :=
  if (0 <? lp_JoinedAt p)%Z then Some (seconds (lp_JoinedAt p)) else None.

(** [s.profile.LookupBasicProfile], or two empty strings. *)
Definition lookup_profile (userID : string) : GoM World (string * string) :=
  match profile with None => mret (""%string, ""%string) | Some f => f userID end.

(** [SetVideoGrant], [SetIdentity], [SetValidFor] and [SetMetadata]. *)
Definition access_token (room identity : string) (meta : option string) : AccessToken :=
  mkAccessToken identity true room true true tokenTTL meta.
Definition buildToken (room identity : string) : GoM World string :=
  meta ← match profile with
         | None => mret None
         | Some f =>
             '(username, avatarURL) ← f identity;
             mret (Some (json_text [("userId", identity); ("username", username);
                                    ("avatarUrl", avatarURL)]))
         end;
  match ToJWT (access_token room identity meta) with inl e => fail e | inr token => mret token end.

Definition new_participant (userID username avatarURL guildID channelID : string) :
    ParticipantState :=
  mkParticipantState userID username username avatarURL guildID channelID false false false false.

Definition join_result (channelID token : string) : JoinChannelResult :=
  mkJoinChannelResult cfgURL token channelID (int32 tokenTTL).

(** The permission gate of [JoinChannel]. *)
Definition join_gate (userID guildID channelID : string) : GoM World unit :=
  if negb (string_eqb guildID "") && authz_wired then
    view ← Authz.CanViewChannel userID channelID;
    ok ← (if view : bool then Authz.CanConnect userID guildID else mret false);
    ensure ok ErrInsufficientPermissions
  else mret tt.

Definition JoinChannel (userID guildID channelID : string) : GoM World JoinChannelResult :=
  _ ← ensure roomClient ErrLiveKitUnavailable;
  _ ← join_gate userID guildID channelID;
  _ ← CreateRoom channelID 300 100 (json_text [("guildId", guildID); ("channelId", channelID)])
        ?> ErrorfW "failed to create livekit room: %w";
  token ← buildToken channelID userID ?> ErrorfW "failed to mint token: %w";
  '(username, avatarURL) ← lookup_profile userID;
  _ ← ignore (SetParticipant rdb (new_participant userID username avatarURL guildID channelID));
  _ ← ignore (EnsureActiveSince rdb channelID);
  _ ← now;
  _ ← ignore (broadcastChannelState rdb lpb channelID guildID);
  mret (join_result channelID token).

Definition LeaveChannel (userID guildID channelID : string) : GoM World unit :=
  _ ← ensure roomClient ErrLiveKitUnavailable;
  _ ← ignore (RemoveFromRoom channelID userID);
  _ ← ignore (RemoveParticipant rdb lpb channelID userID);
  _ ← now;
  ignore (broadcastChannelState rdb lpb channelID guildID).

Definition GetChannelParticipants (channelID : string) : GoM World (list VoiceParticipant) :=
  _ ← ensure roomClient ErrLiveKitUnavailable;
  res ← ListParticipants channelID ?> ErrorfW "failed to list participants: %w";
  mret (map (λ p, mkVoiceParticipant (lp_Identity p) (lp_Identity p) (lp_Sid p) (lp_Name p)
                    (joined_at p)) res).

Definition ServerMuteUser (channelID targetID : string) (muted : bool) : GoM World unit :=
  _ ← ensure roomClient ErrLiveKitUnavailable;
  UpdateParticipant channelID targetID (negb muted) true.
Definition ServerDeafenUser (channelID targetID : string) (deafened : bool) : GoM World unit :=
  _ ← ensure roomClient ErrLiveKitUnavailable;
  UpdateParticipant channelID targetID (negb deafened) (negb deafened).
Definition DisconnectUser (channelID targetID : string) : GoM World unit :=
  _ ← ensure roomClient ErrLiveKitUnavailable;
  ignore (RemoveFromRoom channelID targetID).

(** *** The snapshot for new subscribers *)
Definition live_participants (channelID : string) : GoM World (list ParticipantInfo) :=
  if roomClient then
    res ← try (ListParticipants channelID);
    mret (match res with inr ps => ps | inl _ => [] end)
  else mret [].
(** [GetChannelState] with its error dropped. *)
Definition channel_state_or_nil (channelID : string) : GoM World (list ParticipantState) :=
  r ← try (GetChannelState rdb channelID);
  mret (match r with inr states => states | inl _ => [] end).

Definition stale (live : list ParticipantInfo) (rs : ParticipantState) : bool :=
  negb (existsb (λ p, string_eqb (lp_Identity p) (ps_UserID rs)) live).
(** [redisMap[uid]]: the last state of that user wins. *)
Definition redis_of (states : list ParticipantState) (uid : string) : option ParticipantState :=
  last (List.filter (λ s, string_eqb (ps_UserID s) uid) states).
Definition sync_event (channelID : string) (since : Z) (states : list ParticipantState)
    (lp : ParticipantInfo) : VoiceStateEvent :=
  let bare := voice_event VOICE_ACTION_STATE_SYNC in
  match redis_of states (lp_Identity lp) with
  | Some rs =>
      let e := participant_event VOICE_ACTION_STATE_SYNC (joined_at lp) since channelID rs in
      {| vse_event := VOICE_EVENT_STATE_UPDATE; vse_guild_id := vse_guild_id e;
         vse_channel_id := channelID; vse_user_id := lp_Identity lp;
         vse_self_mute := vse_self_mute e; vse_self_deaf := vse_self_deaf e;
         vse_video := vse_video e; vse_streaming := vse_streaming e;
         vse_timestamp := joined_at lp; vse_action := VOICE_ACTION_STATE_SYNC;
         vse_sid := lp_Sid lp; vse_name := vse_name e; vse_metadata := vse_metadata e;
         vse_track_type := VOICE_TRACK_UNSPECIFIED; vse_published := false;
         vse_room_active_since := since |}
  | None =>
      {| vse_event := VOICE_EVENT_STATE_UPDATE; vse_guild_id := "";
         vse_channel_id := channelID; vse_user_id := lp_Identity lp; vse_self_mute := false;
         vse_self_deaf := false; vse_video := false; vse_streaming := false;
         vse_timestamp := joined_at lp; vse_action := VOICE_ACTION_STATE_SYNC;
         vse_sid := lp_Sid lp; vse_name := lp_Name lp; vse_metadata := lp_Metadata lp;
         vse_track_type := VOICE_TRACK_UNSPECIFIED; vse_published := false;
         vse_room_active_since := since |}
  end.
Definition SnapshotParticipants (channelID : string) : GoM World (list VoiceStateEvent) :=
  live ← live_participants channelID;
  since ← GetActiveSince rdb channelID;
  match live with
  | [] =>
      states ← channel_state_or_nil channelID;
      since ← GetActiveSince rdb channelID;
      mret (map (participant_event VOICE_ACTION_STATE_SYNC None since channelID) states)
  | _ =>
      states ← channel_state_or_nil channelID;
      _ ← for_each (List.filter (stale live) states)
            (λ rs, ignore (RemoveParticipant rdb lpb channelID (ps_UserID rs)));
      mret (map (sync_event channelID since states) live)
  end.

(** [GetGuildVoiceChannelIDs]: the keys under ["voice:"], [seen] the channels
    already listed. *)
Fixpoint guild_channels (guildID : string) (keys seen : list string) : GoM World (list string) :=
  match keys with
  | [] => mret []
  | key :: keys =>
      let chID := TrimPrefix key "voice:" in
      if existsb (string_eqb chID) seen then guild_channels guildID keys seen else
      states ← try (GetChannelState rdb chID);
      match states with
      | inr (s :: _) =>
          if string_eqb (ps_GuildID s) guildID
          then rest ← guild_channels guildID keys (chID :: seen); mret (chID :: rest)
          else guild_channels guildID keys seen
      | _ => guild_channels guildID keys seen
      end
  end.
Definition GetGuildVoiceChannelIDs (guildID : string) : GoM World (list string) :=
  if negb rdb then mret [] else
  keys ← try (command (SCAN "voice:"));
  match keys with
  | inl _ => mret []
  | inr keys => guild_channels guildID keys []
  end.

(** *** Direct calls *)
(** The membership test every DM call starts with. *)
Definition require_dm_member (channelID userID : string) : GoM World DMMembershipResolver :=
  match dm with
  | None => fail ErrDMResolverMissing
  | Some r =>
      ok ← vd_IsDMMember r channelID userID ?> ErrorfW "membership check failed: %w";
      _ ← ensure ok ErrNotDMMember;
      mret r
  end.
(** [members, _ := s.dm.DMMembers(...)]. *)
Definition members_or_nil (r : DMMembershipResolver) (channelID : string) : GoM World (list string) :=
  ms ← try (vd_DMMembers r channelID);
  mret (match ms with inr ms => ms | inl _ => [] end).
Definition publish_call (members : list string) (e : DmCallEvent) : GoM World unit :=
  for_each members (λ mid, publish_voice lpb (DmCall mid) (EvDmCall e)).
Definition call_event (type : DmCallType) (channelID caller participant : string) (video : bool)
    (t : time) : DmCallEvent :=
  {| dc_type := type; dc_channel_id := channelID; dc_caller_id := caller;
     dc_participant_id := participant; dc_video := video; dc_timestamp := Some t |}.

Definition StartDMCall (callerID channelID : string) (video : bool) : GoM World JoinChannelResult :=
  _ ← ensure roomClient ErrLiveKitUnavailable;
  r ← require_dm_member channelID callerID;
  _ ← CreateRoom channelID 60 10 "" ?> ErrorfW "failed to create livekit room: %w";
  token ← buildToken channelID callerID ?> ErrorfW "failed to mint token: %w";
  members ← members_or_nil r channelID;
  t ← now;
  _ ← publish_call members (call_event DM_CALL_INCOMING channelID callerID "" video t);
  mret (join_result channelID token).

Definition JoinDMCall (userID channelID : string) (video : bool) : GoM World JoinChannelResult :=
  _ ← ensure roomClient ErrLiveKitUnavailable;
  r ← require_dm_member channelID userID;
  _ ← CreateRoom channelID 60 10 "" ?> ErrorfW "failed to create livekit room: %w";
  token ← buildToken channelID userID ?> ErrorfW "failed to mint token: %w";
  members ← members_or_nil r channelID;
  t ← now;
  _ ← publish_call members (call_event DM_CALL_ACCEPTED channelID "" userID video t);
  mret (join_result channelID token).

Definition RejectDMCall (userID channelID : string) : GoM World unit :=
  r ← require_dm_member channelID userID;
  members ← members_or_nil r channelID;
  t ← now;
  publish_call members (call_event DM_CALL_REJECTED channelID "" userID false t).

Definition LeaveDMCall (userID channelID : string) : GoM World unit :=
  _ ← ensure roomClient ErrLiveKitUnavailable;
  r ← require_dm_member channelID userID;
  _ ← ignore (RemoveFromRoom channelID userID);
  members ← members_or_nil r channelID;
  t ← now;
  _ ← publish_call members (call_event DM_CALL_PARTICIPANT_LEFT channelID "" userID false t);
  remaining ← try (ListParticipants channelID);
  match remaining with
  | inr [] => t ← now; publish_call members (call_event DM_CALL_ENDED channelID "" "" false t)
  | _ => mret tt
  end.
End Service.
End VoiceService.

(** ** webhook.go: what LiveKit reports *)
Module Webhook.
Import VoiceState.
Record Room := mkRoom { r_Name : string; r_Metadata : string }.
Record WebhookEvent := mkWebhookEvent {
  we_Event : string; we_Room : option Room; we_Participant : option ParticipantInfo;
  we_Track : option TrackInfo
}.

Section Handler.
Context `{Env} `{!UuidText} `{!RedisServer} `{!VoiceJson}.
(** The service behind [h.voiceSvc] is always wired; [lpb] is its and the
    handler's pub/sub. *)
Variables (rdb lpb : bool).

Definition parseRoomMeta (r : option Room) : roomMeta :=
  match r with
  | None => mkRoomMeta "" ""
  | Some r =>
      let m := Unmarshal_meta (r_Metadata r) in
      if string_eqb (rm_ChannelID m) "" then mkRoomMeta (rm_GuildID m) (r_Name r) else m
  end.

(** [resolveRoomMeta]: the cache [h.roomMetas] is passed and returned. *)
Definition resolveRoomMeta (cache : gmap string roomMeta) (e : WebhookEvent) :
    roomMeta * gmap string roomMeta :=
  let meta := parseRoomMeta (we_Room e) in
  if negb (string_eqb (rm_GuildID meta) "") then (meta, <[rm_ChannelID meta := meta]> cache)
  else (default meta (cache !! rm_ChannelID meta), cache).

Definition stamp_event (meta : roomMeta) (t : option time) (since : Z) (e : VoiceStateEvent) :
    VoiceStateEvent :=
  {| vse_event := VOICE_EVENT_STATE_UPDATE; vse_guild_id := rm_GuildID meta;
     vse_channel_id := rm_ChannelID meta; vse_user_id := vse_user_id e;
     vse_self_mute := vse_self_mute e; vse_self_deaf := vse_self_deaf e;
     vse_video := vse_video e; vse_streaming := vse_streaming e; vse_timestamp := t;
     vse_action := vse_action e; vse_sid := vse_sid e; vse_name := vse_name e;
     vse_metadata := vse_metadata e; vse_track_type := vse_track_type e;
     vse_published := vse_published e; vse_room_active_since := since |}.

Definition publish (meta : roomMeta) (e : VoiceStateEvent) : GoM World unit :=
  t ← match vse_timestamp e with Some t => mret t | None => now end;
  since ← (if (vse_room_active_since e =? 0)%Z && negb (string_eqb (rm_ChannelID meta) "")
           then GetActiveSince rdb (rm_ChannelID meta) else mret (vse_room_active_since e));
  let e := stamp_event meta (Some t) since e in
  if negb (string_eqb (rm_GuildID meta) "")
  then publish_voice lpb (GuildChannelVoice (rm_GuildID meta) (rm_ChannelID meta)) (EvVoice e)
  else if negb (string_eqb (vse_user_id e) "")
  then publish_voice lpb (DmCall (vse_user_id e)) (EvVoice e)
  else mret tt.

Definition hasActive (source : string) (p : ParticipantInfo) : bool :=
  existsb (λ t, string_eqb (t_Source t) source && negb (t_Muted t)) (lp_Tracks p).
Definition hasActiveAudio : ParticipantInfo → bool := hasActive "MICROPHONE".
Definition hasActiveVideo : ParticipantInfo → bool := hasActive "CAMERA".

Definition track_type (source : string) : VoiceTrackType :=
  if string_eqb source "CAMERA" then VOICE_TRACK_VIDEO
  else if string_eqb source "SCREEN_SHARE" || string_eqb source "SCREEN_SHARE_AUDIO"
  then VOICE_TRACK_SCREEN_SHARE
  else if string_eqb source "MICROPHONE" then VOICE_TRACK_AUDIO
  else VOICE_TRACK_UNSPECIFIED.

(** An event about a participant, with the flags of [ps]. *)
Definition about (action : VoiceAction) (p : ParticipantInfo) (name : string)
    (mute deaf video streaming : bool) (track : VoiceTrackType) (published : bool) : VoiceStateEvent :=
  {| vse_event := VOICE_EVENT_UNSPECIFIED; vse_guild_id := ""; vse_channel_id := "";
     vse_user_id := lp_Identity p; vse_self_mute := mute; vse_self_deaf := deaf;
     vse_video := video; vse_streaming := streaming; vse_timestamp := None;
     vse_action := action; vse_sid := ""; vse_name := name; vse_metadata := lp_Metadata p;
     vse_track_type := track; vse_published := published; vse_room_active_since := 0 |}.

Definition publishTrackEvent (meta : roomMeta) (p : ParticipantInfo) (t : TrackInfo)
    (published : bool) : GoM World unit :=
  let tt := track_type (t_Source t) in
  ps ← participant_or_nil rdb (rm_ChannelID meta) (lp_Identity p);
  publish meta
    match ps with
    | Some ps => about VOICE_ACTION_TRACK_UPDATE p (ps_DisplayName ps) (ps_SelfMute ps)
                   (ps_SelfDeaf ps) (ps_Video ps) (ps_ScreenShare ps) tt published
    | None => about VOICE_ACTION_TRACK_UPDATE p "" (negb (hasActiveAudio p)) false
                (hasActiveVideo p) false tt published
    end.

Definition publishParticipantState (meta : roomMeta) (p : ParticipantInfo) : GoM World unit :=
  ps ← participant_or_nil rdb (rm_ChannelID meta) (lp_Identity p);
  publish meta
    match ps with
    | Some ps => about VOICE_ACTION_STATE_SYNC p (ps_DisplayName ps) (ps_SelfMute ps)
                   (ps_SelfDeaf ps) (ps_Video ps) (ps_ScreenShare ps) VOICE_TRACK_UNSPECIFIED false
    | None => about VOICE_ACTION_STATE_SYNC p (lp_Name p) false false false false
                VOICE_TRACK_UNSPECIFIED false
    end.

Definition joined_event (p : ParticipantInfo) : VoiceStateEvent :=
  {| vse_event := VOICE_EVENT_UNSPECIFIED; vse_guild_id := ""; vse_channel_id := "";
     vse_user_id := lp_Identity p; vse_self_mute := false; vse_self_deaf := false;
     vse_video := false; vse_streaming := false; vse_timestamp := None;
     vse_action := VOICE_ACTION_JOIN; vse_sid := lp_Sid p; vse_name := lp_Name p;
     vse_metadata := lp_Metadata p; vse_track_type := VOICE_TRACK_UNSPECIFIED;
     vse_published := false; vse_room_active_since := 0 |}.
Definition left_event (p : ParticipantInfo) : VoiceStateEvent :=
  {| vse_event := VOICE_EVENT_UNSPECIFIED; vse_guild_id := ""; vse_channel_id := "";
     vse_user_id := lp_Identity p; vse_self_mute := false; vse_self_deaf := false;
     vse_video := false; vse_streaming := false; vse_timestamp := None;
     vse_action := VOICE_ACTION_LEAVE; vse_sid := ""; vse_name := ""; vse_metadata := "";
     vse_track_type := VOICE_TRACK_UNSPECIFIED; vse_published := false;
     vse_room_active_since := 0 |}.

(** [handleEvent]; the result is the cache after the event. *)
Definition handleEvent (cache : gmap string roomMeta) (event : option WebhookEvent) :
    GoM World (gmap string roomMeta) :=
  match event with
  | None => mret cache
  | Some e =>
      let '(meta, cache) := resolveRoomMeta cache e in
      let with_participant (k : ParticipantInfo → GoM World unit) :=
        match we_Participant e with None => mret tt | Some p => k p end in
      if string_eqb (we_Event e) "room_started" then
        _ ← publish meta (voice_event VOICE_ACTION_ROOM_STARTED); mret cache
      else if string_eqb (we_Event e) "room_finished" then
        _ ← ignore (ClearChannel rdb (rm_ChannelID meta));
        _ ← ignore (ClearActiveSince rdb (rm_ChannelID meta));
        _ ← publish meta (voice_event VOICE_ACTION_ROOM_FINISHED);
        mret (delete (rm_ChannelID meta) cache)
      else if string_eqb (we_Event e) "participant_joined" then
        _ ← with_participant (λ p, publish meta (joined_event p)); mret cache
      else if string_eqb (we_Event e) "participant_left" then
        _ ← with_participant (λ p,
              _ ← ignore (RemoveParticipant rdb lpb (rm_ChannelID meta) (lp_Identity p));
              _ ← now;
              _ ← ignore (broadcastChannelState rdb lpb (rm_ChannelID meta) (rm_GuildID meta));
              publish meta (left_event p));
        mret cache
      else if string_eqb (we_Event e) "track_published" then
        _ ← with_participant (λ p,
              match we_Track e with None => mret tt | Some t => publishTrackEvent meta p t true end);
        mret cache
      else if string_eqb (we_Event e) "track_unpublished" then
        _ ← with_participant (λ p,
              match we_Track e with None => mret tt | Some t => publishTrackEvent meta p t false end);
        mret cache
      else if string_eqb (we_Event e) "participant_active" then
        _ ← with_participant (publishParticipantState meta); mret cache
      else mret cache
  end.
End Handler.
End Webhook.

(** ** handler.go *)
Module VoiceHandler.
Import VoiceState VoiceService.
Section Handler.
Context `{Env} `{!UuidText} `{!RedisServer} `{!VoiceJson} `{!LiveKit}.
Variables (rdb lpb roomClient : bool) (dm : option DMMembershipResolver)
  (profile : option UserProfileResolver) (cfgURL : string).

(** The first lines of every handler. *)
Definition caller (ctx : Context) : GoM World string :=
  let userID := UserIDFromContext ctx in
  _ ← ensure (negb (string_eqb userID "")) (Status Unauthenticated "missing user id");
  mret userID.

Definition join_error (err : error) : error :=
  if errors_Is err ErrInsufficientPermissions then Status PermissionDenied "insufficient permissions"
  else Status Internal "failed to join channel: %v".
Definition mapDMCallError (err : error) : error :=
  if errors_Is err ErrNotDMMember then Status PermissionDenied "%v"
  else if errors_Is err ErrDMResolverMissing || errors_Is err ErrLiveKitUnavailable
  then Status FailedPrecondition "%v"
  else Status Internal "dm call failed: %v".

Definition JoinChannel (ctx : Context) (guildID channelID : string) : GoM World JoinChannelResult :=
  userID ← caller ctx;
  VoiceService.JoinChannel rdb lpb roomClient profile cfgURL userID guildID channelID ?> join_error.
Definition LeaveChannel (ctx : Context) (guildID channelID : string) : GoM World unit :=
  userID ← caller ctx;
  VoiceService.LeaveChannel rdb lpb roomClient userID guildID channelID
    ?> (λ _, Status Internal "failed to leave channel: %v").
Definition StartDMCall (ctx : Context) (channelID : string) (video : bool) : GoM World JoinChannelResult :=
  userID ← caller ctx;
  VoiceService.StartDMCall lpb roomClient dm profile cfgURL userID channelID video ?> mapDMCallError.
Definition JoinDMCall (ctx : Context) (channelID : string) (video : bool) : GoM World JoinChannelResult :=
  userID ← caller ctx;
  VoiceService.JoinDMCall lpb roomClient dm profile cfgURL userID channelID video ?> mapDMCallError.
Definition RejectDMCall (ctx : Context) (channelID : string) : GoM World unit :=
  userID ← caller ctx; VoiceService.RejectDMCall lpb dm userID channelID ?> mapDMCallError.
Definition LeaveDMCall (ctx : Context) (channelID : string) : GoM World unit :=
  userID ← caller ctx;
  VoiceService.LeaveDMCall lpb roomClient dm userID channelID ?> mapDMCallError.

Definition voiceToggle (ctx : Context) (channelID : string)
    (action : string → string → GoM World (list ParticipantState)) :
    GoM World (list ParticipantState) :=
  userID ← caller ctx;
  action userID channelID ?> (λ _, Status Internal "%v").
(** Mute, Unmute, Deafen, ... are [voiceToggle] at the service's methods. *)

Definition ServerMuteUser (ctx : Context) (channelID targetID : string) (muted : bool) : GoM World unit :=
  _ ← caller ctx;
  VoiceService.ServerMuteUser roomClient channelID targetID muted
    ?> (λ _, Status Internal "server mute failed: %v").
Definition ServerDeafenUser (ctx : Context) (channelID targetID : string) (deafened : bool) : GoM World unit :=
  _ ← caller ctx;
  VoiceService.ServerDeafenUser roomClient channelID targetID deafened
    ?> (λ _, Status Internal "server deafen failed: %v").
Definition DisconnectUser (ctx : Context) (channelID targetID : string) : GoM World unit :=
  _ ← caller ctx;
  VoiceService.DisconnectUser roomClient channelID targetID
    ?> (λ _, Status Internal "disconnect failed: %v").
Definition GetChannelParticipants (channelID : string) : GoM World (list VoiceParticipant) :=
  VoiceService.GetChannelParticipants roomClient channelID
    ?> (λ _, Status Internal "failed to get participants: %v").
End Handler.
End VoiceHandler.
