(* ===== verification/VoiceFacts.v ===== *)
(** * VoiceFacts: who gets into a room, and what its state says

    Joining a guild's voice channel takes the right to see the channel and to
    connect, unless the request names no guild; a toggle changes the flags of
    one participant; the last participant to leave takes the room's keys
    along; a direct call is open to the members of the channel only and rings
    all of them. *)
From S2P Require Import Prelude Realtime Store Queries Redis Authz Wp AuthzFacts.
From S2P Require Import Scylla Message Wpm MessageFacts SqlSplit Voice.
Import VoiceState VoiceService.

Section Facts.
Context `{Env} `{!UuidText} `{!RedisServer} `{!VoiceJson} `{!LiveKit}.
Implicit Types (w : World) (r : keyspace).

(** ** Reading the room *)

(** The participants' hash of a channel; the keys never carry an expiry. *)
Definition room r (channelID : string) : option (gmap string string) :=
  match r !! voiceKey channelID with
  | None => Some ∅
  | Some (mkRedisEntry (RHash h) None) => Some h
  | Some _ => None
  end.
Definition participant r (channelID userID : string) : option ParticipantState :=
  h ← room r channelID; data ← h !! userID; Unmarshal data.

Lemma room_live t r ch h : room r ch = Some h →
  hash_of (live_value t r (voiceKey ch)) = Some h ∧ live_expiry t r (voiceKey ch) = None.
Proof.
  unfold room, live_value, live_expiry, live_entry.
  destruct (r !! voiceKey ch) as [[[] []]|]; simpl; by intros [= <-].
Qed.

(** [w'] is [w] after some reads. *)
Definition read_only w w' : Prop := redis w' = redis w ∧ bus w' = bus w ∧ db w' = db w.

Lemma get_int64_quiet key w : ∃ o w', get_int64 key w = (o, w') ∧ read_only w w' ∧ o ≠ Panic.
Proof.
  unfold get_int64, mbind, gom_bind, command, redis_cmd, external. rewrite GET_law.
  destruct (live_value _ _ _) as [[s|]|], (faults (tick w)); simpl;
    try destruct (ParseInt 64 s); by eexists _, _.
Qed.
Lemma GetActiveSince_quiet rdb ch w : ∃ n w', GetActiveSince rdb ch w = (Ok n, w') ∧ read_only w w'.
Proof.
  unfold GetActiveSince. destruct rdb; [|by eexists _, w].
  unfold negb, mbind, gom_bind, try.
  destruct (get_int64_quiet (voiceActiveSinceKey ch) w) as (o & w' & E & Hro & Hnp). rewrite E.
  destruct o; [by eexists _, w'|by eexists _, w'|done].
Qed.

Lemma HGETALL_room ch h w : fault_free → room (redis w) ch = Some h →
  command (HGETALL (voiceKey ch)) w = (Ok h, bump w).
Proof.
  intros Hff Hr. rewrite command_run, HGETALL_law by apply Hff.
  by destruct (room_live (clock (tick w)) _ _ _ Hr) as [-> _].
Qed.
Lemma participant_run ch u h w : fault_free → room (redis w) ch = Some h →
  participant_or_nil true ch u w = (Ok (data ← h !! u; Unmarshal data), bump w).
Proof.
  intros Hff Hr. unfold participant_or_nil, GetParticipant, mbind, gom_bind, try. change (negb true) with false; cbv beta iota.
  rewrite command_run, HGET_law by apply Hff.
  destruct (room_live (clock (tick w)) _ _ _ Hr) as [-> _].
  destruct (h !! u) as [data|]; [|by rewrite bool_decide_eq_true_2].
  cbn [mbind option_bind]. by destruct (Unmarshal data).
Qed.

(** ** Leaving *)
Lemma keys_differ ch : voiceKey ch ≠ voiceActiveSinceKey ch.
Proof.
  unfold voiceKey, voiceActiveSinceKey. intros E. apply (f_equal String.length) in E.
  rewrite !length_app_str in E. simpl in E. lia.
Qed.

(** The keyspace after [u] left the room [h]. *)
Definition after_leave r ch (h : gmap string string) (u : string) : keyspace :=
  if bool_decide (delete u h = ∅)
  then delete (voiceActiveSinceKey ch) (delete (voiceKey ch) r)
  else <[voiceKey ch := mkRedisEntry (RHash (delete u h)) None]> r.

Lemma clear_if_empty_run ch h w : fault_free → room (redis w) ch = Some h →
  ∃ w', clear_if_empty true ch w = (Ok tt, w') ∧ db w' = db w ∧ bus w' = bus w ∧
    redis w' = if bool_decide (h = ∅)
               then delete (voiceActiveSinceKey ch) (delete (voiceKey ch) (redis w)) else redis w.
Proof.
  intros Hff Hr. unfold clear_if_empty, ClearActiveSince, mbind, gom_bind, try, ignore.
  rewrite command_run, HLEN_law by apply Hff.
  destruct (room_live (clock (tick w)) _ _ _ Hr) as [-> _]. change (negb true) with false; cbv beta iota.
  destruct (decide (h = ∅)) as [->|Hne].
  - rewrite map_size_empty, bool_decide_eq_true_2 by done. change (Z.of_nat 0) with 0%Z. cbv beta iota.
    rewrite command_run, DEL_law by apply Hff. cbv beta iota.
    rewrite command_run, DEL_law by apply Hff. by eexists.
  - rewrite bool_decide_eq_false_2 by done.
    assert (size h ≠ 0) as Hsz by by rewrite map_size_empty_iff.
    destruct (size h) as [|n] eqn:E; [done|]. simpl. by eexists.
Qed.

Lemma HDEL_room ch u h w : fault_free → room (redis w) ch = Some h →
  ∃ w', command (HDEL (voiceKey ch) u) w = (Ok tt, w') ∧ db w' = db w ∧ bus w' = bus w ∧
    redis w' = (if bool_decide (delete u h = ∅) then delete (voiceKey ch) (redis w)
                else <[voiceKey ch := mkRedisEntry (RHash (delete u h)) None]> (redis w)).
Proof.
  intros Hff Hr. rewrite command_run, HDEL_law by apply Hff.
  destruct (room_live (clock (tick w)) _ _ _ Hr) as [-> ->]. by eexists.
Qed.

Lemma leave_event_run lpb ch u guildID w :
  ∃ w', when (negb (string_eqb guildID "") && lpb)
      (t ← now; since ← GetActiveSince true ch;
       Publish (GuildChannelVoice guildID ch) (EvVoice (leave_event t since ch guildID u))) w =
    (Ok tt, w') ∧ redis w' = redis w ∧ db w' = db w.
Proof.
  unfold when. destruct (_ && _); [|by eexists].
  unfold mbind, gom_bind, now.
  destruct (GetActiveSince_quiet true ch (bump w)) as (n & w' & E & Hr & Hb & Hd). rewrite E.
  eexists. split; [reflexivity|]. simpl. by rewrite Hr, Hd.
Qed.

Lemma RemoveParticipant_run lpb ch u h w : fault_free → room (redis w) ch = Some h →
  ∃ w', RemoveParticipant true lpb ch u w = (Ok tt, w') ∧ db w' = db w ∧
    redis w' = after_leave (redis w) ch h u.
Proof.
  intros Hff Hr. unfold RemoveParticipant. change (negb true) with false; cbv beta iota zeta.
  unfold mbind at 1, gom_bind at 1. rewrite (participant_run ch u h w Hff Hr).
  set (guildID := match _ with Some ps => ps_GuildID ps | None => ""%string end).
  destruct (HDEL_room ch u h (bump w) Hff Hr) as (w1 & E1 & Hd1 & Hb1 & Hr1).
  unfold mbind at 1, gom_bind at 1. rewrite E1. cbv beta iota.
  destruct (leave_event_run lpb ch u guildID w1) as (w2 & E2 & Hr2 & Hd2).
  unfold mbind at 1, gom_bind at 1. rewrite E2. cbv beta iota.
  assert (room (redis w2) ch = Some (delete u h)) as Hroom.
  { rewrite Hr2, Hr1. unfold room. case_bool_decide as Hdel; [by rewrite lookup_delete_eq, Hdel|].
    by rewrite lookup_insert_eq. }
  destruct (clear_if_empty_run ch _ w2 Hff Hroom) as (w3 & E3 & Hd3 & _ & Hr3).
  exists w3. split; [exact E3|]. split; [by rewrite Hd3, Hd2, Hd1|]. rewrite Hr3, Hr2, Hr1. unfold after_leave.
  case_bool_decide; [|done]. by rewrite delete_delete_eq.
Qed.

(** Leaving a room. With Redis answering, removing a participant deletes
    exactly his field: everybody else in the room, and every other key, stays
    as it was; when he was the last one, the room's hash and the time it came
    alive go together, and never one without the other. *)
Theorem RemoveParticipant_effect lpb ch u h w :
  fault_free → room (redis w) ch = Some h →
  ∃ w', RemoveParticipant true lpb ch u w = (Ok tt, w') ∧ db w' = db w ∧
    room (redis w') ch = Some (delete u h) ∧
    (∀ v, participant (redis w') ch v = if bool_decide (v = u) then None else participant (redis w) ch v) ∧
    (redis w' !! voiceActiveSinceKey ch =
       if bool_decide (delete u h = ∅) then None else redis w !! voiceActiveSinceKey ch) ∧
    (∀ k, k ≠ voiceKey ch → k ≠ voiceActiveSinceKey ch → redis w' !! k = redis w !! k).
Proof.
  intros Hff Hr. destruct (RemoveParticipant_run lpb ch u h w Hff Hr) as (w' & E & Hd & Hr').
  exists w'. pose proof (keys_differ ch) as Hk.
  assert (room (redis w') ch = Some (delete u h)) as Hroom.
  { rewrite Hr'. unfold after_leave, room. case_bool_decide as Hdel.
    - by rewrite lookup_delete_ne, lookup_delete_eq, Hdel.
    - by rewrite lookup_insert_eq. }
  split_and!; [done|done|done| | |].
  - intros v. unfold participant. rewrite Hroom, Hr. simpl. case_bool_decide as Hv.
    + subst v. by rewrite lookup_delete_eq.
    + by rewrite lookup_delete_ne.
  - rewrite Hr'. unfold after_leave. case_bool_decide; [by rewrite lookup_delete_eq|].
    by rewrite lookup_insert_ne.
  - intros k Hk1 Hk2. rewrite Hr'. unfold after_leave. case_bool_decide.
    + by rewrite !lookup_delete_ne.
    + by rewrite lookup_insert_ne.
Qed.

(** ** Toggles *)
Definition all_valid (ps : ParticipantState) : Prop :=
  forallb valid_utf8 [ps_UserID ps; ps_Username ps; ps_DisplayName ps; ps_AvatarURL ps;
                      ps_GuildID ps; ps_ChannelID ps] = true.

Lemma broadcast_run ps w :
  ∃ w', broadcastParticipant true true ps w = (Ok tt, w') ∧ redis w' = redis w ∧ db w' = db w ∧
    ∃ t n, bus w' = bus w ++
      (if string_eqb (ps_GuildID ps) "" then []
       else [(GuildChannelVoice (ps_GuildID ps) (ps_ChannelID ps),
              EvVoice (participant_event VOICE_ACTION_STATE_UPDATE (Some t) n (ps_ChannelID ps) ps))]).
Proof.
  unfold broadcastParticipant. destruct (string_eqb _ _).
  { eexists. split_and!; [reflexivity|done|done|]. exists 0%Z, 0%Z. by rewrite app_nil_r. }
  unfold mbind, gom_bind, now.
  destruct (GetActiveSince_quiet true (ps_ChannelID ps) (bump w)) as (n & w' & E & Hr & Hb & Hd). rewrite E.
  eexists. split_and!; [reflexivity|by simpl; rewrite Hr|by simpl; rewrite Hd|].
  eexists _, _. simpl. by rewrite Hb.
Qed.

(** What a toggle may change of a state: its flags. *)
Definition same_identity (f : ParticipantState → ParticipantState) : Prop :=
  ∀ ps, ps_UserID (f ps) = ps_UserID ps ∧ ps_Username (f ps) = ps_Username ps ∧
    ps_DisplayName (f ps) = ps_DisplayName ps ∧ ps_AvatarURL (f ps) = ps_AvatarURL ps ∧
    ps_GuildID (f ps) = ps_GuildID ps ∧ ps_ChannelID (f ps) = ps_ChannelID ps.

Lemma toggleField_run f u ch h ps w :
  fault_free → same_identity f → room (redis w) ch = Some h →
  participant (redis w) ch u = Some ps → ps_UserID ps = u → ps_ChannelID ps = ch → all_valid ps →
  ∃ w', toggleField true true u ch f w = (Ok (omap Unmarshal (map_to_list (<[u := Marshal (f ps)]> h)).*2), w') ∧
    db w' = db w ∧
    redis w' = <[voiceKey ch := mkRedisEntry (RHash (<[u := Marshal (f ps)]> h)) None]> (redis w) ∧
    ∃ t n, bus w' = bus w ++
      (if string_eqb (ps_GuildID ps) "" then []
       else [(GuildChannelVoice (ps_GuildID ps) ch,
              EvVoice (participant_event VOICE_ACTION_STATE_UPDATE (Some t) n ch (f ps)))]).
Proof.
  intros Hff Hf Hr Hp Hu Hch Hv. destruct (Hf ps) as (Fu & _ & _ & _ & Fg & Fc).
  unfold participant in Hp. rewrite Hr in Hp. cbn [mbind option_bind] in Hp.
  unfold toggleField. unfold mbind at 1, gom_bind at 1. rewrite (participant_run ch u h w Hff Hr).
  cbn [mbind option_bind]. rewrite Hp. cbv beta iota zeta.
  unfold SetParticipant. change (negb true) with false; cbv beta iota.
  unfold mbind at 1, gom_bind at 1. rewrite command_run, HSET_law by apply Hff.
  rewrite Fc, Fu, Hu, Hch. cbn [bump redis].
  destruct (room_live (clock (tick (bump w))) _ _ _ Hr) as [-> ->]. cbv beta iota.
  rewrite <-insert_union_singleton_l.
  unfold mbind at 1, gom_bind at 1, now at 1. cbv beta iota.
  set (w1 := bump (with_redis _ _)).
  destruct (broadcast_run (f ps) w1) as (w2 & E2 & Hr2 & Hd2 & t & n & Hb2).
  unfold mbind at 1, gom_bind at 1. rewrite E2. cbv beta iota.
  assert (room (redis w2) ch = Some (<[u := Marshal (f ps)]> h)) as Hroom.
  { rewrite Hr2. unfold room, w1. simpl. by rewrite lookup_insert_eq. }
  unfold GetChannelState. change (negb true) with false; cbv beta iota.
  unfold mbind, gom_bind. rewrite (HGETALL_room ch _ w2 Hff Hroom).
  eexists. split; [reflexivity|]. split_and!; [by simpl; rewrite Hd2|by simpl; rewrite Hr2|].
  exists t, n. simpl. rewrite Hb2, Fg, Fc, Hch. done.
Qed.

(** The four audio buttons and what they make of the two flags. *)
Inductive audio_button := BMute | BUnmute | BDeafen | BUndeafen.
Definition press (b : audio_button) : string → string → GoM World (list ParticipantState) :=
  match b with
  | BMute => Mute true true | BUnmute => Unmute true true
  | BDeafen => Deafen true true | BUndeafen => Undeafen true true
  end.
Definition flags_after (b : audio_button) (ps : ParticipantState) : bool * bool :=
  match b with
  | BMute => (true, ps_SelfDeaf ps)
  | BUnmute => (false, ps_SelfDeaf ps)
  | BDeafen => (true, true)
  | BUndeafen => (false, false)
  end.

(** The audio buttons. Pressing one in a room one is in, with Redis
    answering, changes exactly the mute and deaf flags of one's own stored
    state as the button says (deafening mutes, undeafening unmutes, a mute
    chosen before included), leaves every other participant and key alone,
    tells the guild's subscribers the new flags and returns the room with
    the new state in it. *)
Theorem audio_button_effect b u ch h ps w :
  fault_free → room (redis w) ch = Some h → participant (redis w) ch u = Some ps →
  ps_UserID ps = u → ps_ChannelID ps = ch → all_valid ps →
  let ps' := set_audio (flags_after b ps).1 (flags_after b ps).2 ps in
  ∃ states w', press b u ch w = (Ok states, w') ∧ ps' ∈ states ∧
    participant (redis w') ch u = Some ps' ∧
    (∀ v, v ≠ u → participant (redis w') ch v = participant (redis w) ch v) ∧
    (∀ k, k ≠ voiceKey ch → redis w' !! k = redis w !! k) ∧
    (ps_GuildID ps ≠ "" → ∃ t n, bus w' = bus w ++
       [(GuildChannelVoice (ps_GuildID ps) ch,
         EvVoice (participant_event VOICE_ACTION_STATE_UPDATE (Some t) n ch ps'))]).
Proof.
  intros Hff Hr Hp Hu Hch Hv ps'.
  assert (∃ f, press b u ch = toggleField true true u ch f ∧ same_identity f ∧ f ps = ps') as (f & -> & Hf & Hfps).
  { destruct b; eexists; (split_and!; [reflexivity|by intros ?|reflexivity]). }
  destruct (toggleField_run f u ch h ps w) as (w' & E & Hd & Hr' & t & n & Hb); [done..|].
  rewrite Hfps in *.
  assert (Unmarshal (Marshal ps') = Some ps') as Hjson by (apply Unmarshal_Marshal; exact Hv).
  assert (room (redis w') ch = Some (<[u := Marshal ps']> h)) as Hroom.
  { rewrite Hr'. unfold room. by rewrite lookup_insert_eq. }
  eexists _, w'. split; [exact E|]. split_and!.
  - apply list_elem_of_omap. exists (Marshal ps'). split; [|done].
    apply list_elem_of_fmap. exists (u, Marshal ps'). split; [done|].
    apply elem_of_map_to_list, lookup_insert_eq.
  - unfold participant. rewrite Hroom. simpl. by rewrite lookup_insert_eq.
  - intros v Hne. unfold participant. rewrite Hroom, Hr. simpl. by rewrite lookup_insert_ne.
  - intros k Hk. rewrite Hr'. by rewrite lookup_insert_ne.
  - intros Hg. exists t, n. rewrite Hb. unfold string_eqb. by rewrite bool_decide_eq_false_2.
Qed.
End Facts.

(** ** Worked examples

    JSON texts as numbers, a LiveKit that accepts everything, and the room of
    channel [uuid 9] with one participant in it. *)
Definition fields_of (p : ParticipantState) : list string * list bool :=
  ([ps_UserID p; ps_Username p; ps_DisplayName p; ps_AvatarURL p; ps_GuildID p; ps_ChannelID p],
   [ps_SelfMute p; ps_SelfDeaf p; ps_Video p; ps_ScreenShare p]).
Definition of_fields (f : list string * list bool) : option ParticipantState :=
  match f with
  | ([u; n; d; a; g; c], [m; de; v; s]) => Some (mkParticipantState u n d a g c m de v s)
  | _ => None
  end.
Definition demo_marshal (p : ParticipantState) : string := FormatInt (Zpos (encode (fields_of p))).
Definition demo_unmarshal (s : string) : option ParticipantState :=
  n ← parse_int s;
  match n with Zpos p => f ← decode p; of_fields f | _ => None end.
Lemma demo_unmarshal_marshal p : demo_unmarshal (demo_marshal p) = Some p.
Proof.
  unfold demo_unmarshal, demo_marshal. rewrite parse_FormatInt. simpl.
  rewrite decode_encode. by destruct p.
Qed.
Definition demo_json : VoiceJson := {|
  Marshal := demo_marshal; Unmarshal := demo_unmarshal; valid_utf8 := λ _, true;
  Unmarshal_Marshal := λ p _, demo_unmarshal_marshal p;
  Unmarshal_meta := λ s, mkRoomMeta "" s
|}.

Definition demo_livekit `{Env} : LiveKit.
Proof.
  refine {|
    CreateRoom := λ _ _ _ _, mret tt; RemoveFromRoom := λ _ _, mret tt;
    ListParticipants := λ _, mret []; UpdateParticipant := λ _ _ _ _, mret tt;
    ToJWT := λ t, inr (at_Room t +:+ "/" +:+ at_Identity t)
  |}; by intros.
Defined.

Section Example.
#[local] Existing Instance demo_wired.
#[local] Existing Instance demo_uuid.
#[local] Existing Instance reference_redis.
#[local] Existing Instance demo_json.

Definition ann : ParticipantState :=
  mkParticipantState "ann" "Ann" "Ann" "" "g" "ch" false false false false.
Definition ann_room : gmap string string := {["ann" := Marshal ann]}.
Definition voice_demo_world : World :=
  with_redis {[voiceKey "ch" := mkRedisEntry (RHash ann_room) None]} empty_world.

Lemma demo_room : room (redis voice_demo_world) "ch" = Some ann_room.
Proof. reflexivity. Qed.
Lemma demo_participant : participant (redis voice_demo_world) "ch" "ann" = Some ann.
Proof. unfold participant. rewrite demo_room. simpl. apply demo_unmarshal_marshal. Qed.

Lemma RemoveParticipant_effect_witness :
  ∃ w', RemoveParticipant true true "ch" "ann" voice_demo_world = (Ok tt, w') ∧
    participant (redis w') "ch" "ann" = None.
Proof.
  destruct (RemoveParticipant_effect true "ch" "ann" ann_room voice_demo_world)
    as (w' & E & _ & _ & Hp & _); [intros n; reflexivity|exact demo_room|].
  exists w'. split; [exact E|]. exact (Hp "ann").
Defined.

Lemma audio_button_effect_witness :
  ∃ states w', Deafen true true "ann" "ch" voice_demo_world = (Ok states, w') ∧
    participant (redis w') "ch" "ann" = Some (set_audio true true ann).
Proof.
  destruct (audio_button_effect BDeafen "ann" "ch" ann_room ann voice_demo_world)
    as (states & w' & E & _ & Hp & _);
    [intros n; reflexivity|exact demo_room|exact demo_participant|reflexivity..|].
  exists states, w'. split; [exact E|exact Hp].
Defined.
End Example.
