(* ===== verification/VoiceCalls.v ===== *)
(** * VoiceCalls: getting into a room

    The gate of [JoinChannel] and its gap, and the membership rule of the
    direct calls. *)
From S2P Require Import Prelude Realtime Store Queries Redis Authz Wp AuthzFacts.
From S2P Require Import Scylla Message Wpm MessageFacts SqlSplit Voice VoiceFacts.
Import VoiceState VoiceService.

(** ** Programs that never panic *)
Definition no_panic {A} (m : GoM World A) : Prop := ∀ w, (m w).1 ≠ Panic.
Create HintDb no_panic.

Section NoPanic.
Context `{Env}.
Lemma np_ret {A} (a : A) : no_panic (mret a).
Proof. by intros w. Qed.
Lemma np_fail {A} e : no_panic (fail e : GoM World A).
Proof. by intros w. Qed.
Lemma np_bind {A B} (m : GoM World A) (k : A → GoM World B) :
  no_panic m → (∀ a, no_panic (k a)) → no_panic (m ≫= k).
Proof.
  intros Hm Hk w. unfold mbind, gom_bind. specialize (Hm w).
  destruct (m w) as [[a|e|] w1]; [apply Hk|done|done].
Qed.
Lemma np_try {A} (m : GoM World A) : no_panic m → no_panic (try m).
Proof. intros Hm w. specialize (Hm w). unfold try. by destruct (m w) as [[]]. Qed.
Lemma np_ignore {A} (m : GoM World A) : no_panic m → no_panic (ignore m).
Proof. intros Hm w. specialize (Hm w). unfold ignore. by destruct (m w) as [[]]. Qed.
Lemma np_now : no_panic now.
Proof. by intros w. Qed.
Lemma np_command {A} (f : time → keyspace → redis_result A) : no_panic (command f).
Proof. intros w. unfold command, redis_cmd, external. by destruct (f _ _) as [|[]], (faults _). Qed.
Lemma np_publish s e : no_panic (publish_voice true s e).
Proof. by intros w. Qed.
Lemma np_for_each {A} (xs : list A) body : (∀ x, no_panic (body x)) → no_panic (for_each xs body : GoM World unit).
Proof. intros Hb. induction xs as [|x xs IH]; [apply np_ret|]. apply np_bind; [apply Hb|]. intros _. exact IH. Qed.

(** An ignored call that cannot panic always goes on. *)
Lemma ignore_run {A} (m : GoM World A) w : no_panic m → ∃ w', ignore m w = (Ok tt, w').
Proof. intros Hm. specialize (Hm w). unfold ignore. destruct (m w) as [[] w1]; [by eexists..|done]. Qed.
End NoPanic.
#[export] Hint Resolve np_ret np_fail np_bind np_try np_ignore np_now np_command np_publish
  np_for_each : no_panic.
Ltac np_auto :=
  repeat first
    [ progress intros
    | solve [eauto 2 with no_panic]
    | apply np_bind
    | match goal with
      | |- no_panic (if ?b then _ else _) => destruct b
      | |- no_panic (match ?x with _ => _ end) => destruct x
      end ].

Section Calls.
Context `{Env} `{!UuidText} `{!RedisServer} `{!VoiceJson} `{!LiveKit}.
Implicit Types (w : World).

Lemma np_SetParticipant rdb ps : no_panic (SetParticipant rdb ps).
Proof. unfold SetParticipant. np_auto. Qed.
Lemma np_get_int64 k : no_panic (get_int64 k).
Proof. unfold get_int64. np_auto. Qed.
Lemma np_EnsureActiveSince rdb ch : no_panic (EnsureActiveSince rdb ch).
Proof. unfold EnsureActiveSince. np_auto; apply np_get_int64. Qed.
Lemma np_GetActiveSince rdb ch : no_panic (GetActiveSince rdb ch).
Proof. unfold GetActiveSince. np_auto. apply np_try, np_get_int64. Qed.
Lemma np_broadcastParticipant rdb ps : no_panic (broadcastParticipant rdb true ps).
Proof. unfold broadcastParticipant. np_auto. apply np_GetActiveSince. Qed.
Lemma np_broadcastChannelState rdb ch g : no_panic (broadcastChannelState rdb true ch g).
Proof.
  unfold broadcastChannelState, GetChannelState. np_auto.
  apply np_for_each. intros ps. apply np_broadcastParticipant.
Qed.

Lemma join_gate_Ok u g ch w w' :
  authz_wired = true →
  join_gate (uuid_print u) (uuid_print g) (uuid_print ch) w = (Ok tt, w') →
  Authorized w.(db) u g "CONNECT" ∧
  (fault_free → overrides_wf w.(db) → cache_coherent w → ChannelAuthorized w.(db) u ch "VIEW_CHANNELS").
Proof.
  intros Hw. unfold join_gate, string_eqb.
  rewrite bool_decide_eq_false_2, Hw by apply uuid_print_nonempty. simpl.
  intros (view & w1 & Ev & E)%bind_Ok_inv.
  apply bind_Ok_inv in E as (ok & w2 & Eok & E). apply ensure_Ok_inv in E as [-> _].
  destruct view; [|done]. unfold Authz.CanViewChannel in Ev. split.
  - pose proof (silent_checkChannel (uuid_print u) (uuid_print ch) "can_view_channels" w) as (Hdb & _).
    rewrite Ev in Hdb. simpl in Hdb. rewrite <-Hdb.
    by eapply (Check_true u g "can_connect"); [reflexivity|done|exact Eok].
  - intros Hff Hwf Hco.
    destruct (checkChannel_run u ch "can_view_channels" "VIEW_CHANNELS" w Hw Hff eq_refl Hwf Hco)
      as (b & w1' & Ec & _ & Hb).
    rewrite Ec in Ev. injection Ev as -> _. by apply Hb.
Qed.

(** C24: joining a voice channel of a guild.  With a permission client, and
    whatever fails, a join that names a guild succeeds only for a user who
    holds CONNECT in that guild (the guild the request names: it is not
    compared with the channel's).  When moreover every statement is answered,
    the override rows are well formed and the channel cache agrees with the
    tables, the user may see the channel; without that he need not, because a
    lost override query and a cached channel that was deleted pass the test.
    The token handed out is LiveKit's for exactly that room and that user: it
    lets him join, publish and subscribe for one hour. *)
Theorem JoinChannel_authorized rdb lpb profile cfgURL u g ch res w w' :
  authz_wired = true →
  JoinChannel rdb lpb true profile cfgURL (uuid_print u) (uuid_print g) (uuid_print ch) w = (Ok res, w') →
  Authorized w.(db) u g "CONNECT" ∧
  (fault_free → overrides_wf w.(db) → cache_coherent w → ChannelAuthorized w.(db) u ch "VIEW_CHANNELS") ∧
  jc_Room res = uuid_print ch ∧
  ∃ meta, ToJWT (mkAccessToken (uuid_print u) true (uuid_print ch) true true 3600 meta) = inr (jc_Token res).
Proof.
  intros Hw E. unfold JoinChannel in E.
  apply bind_Ok_inv in E as (? & w0 & Hens & E). apply ensure_Ok_inv in Hens as [_ ->].
  apply bind_Ok_inv in E as ([] & w1 & Hgate & E).
  destruct (join_gate_Ok u g ch w w1 Hw Hgate) as [Hc Hv].
  apply bind_Ok_inv in E as (? & w2 & _ & E).
  apply bind_Ok_inv in E as (token & w3 & Htok & E). apply on_err_Ok_inv in Htok.
  assert (res = join_result cfgURL (uuid_print ch) token) as ->.
  { apply bind_Ok_inv in E as ([name avatar] & ? & _ & E).
    do 4 (apply bind_Ok_inv in E as (? & ? & _ & E)). by injection E as <- _. }
  split_and!; [done|done|done|].
  unfold buildToken in Htok. apply bind_Ok_inv in Htok as (meta & w4 & _ & Htok). exists meta.
  unfold access_token in Htok. destruct (ToJWT _) as [|tok]; [done|]. by injection Htok as <- _.
Qed.

(** A join that names no guild is unguarded. Whatever the tables say,
    any user gets a token for any channel, the voice channel of a guild he was
    banned from included, by leaving the guild out of the request. *)
Theorem JoinChannel_without_guild_is_unguarded rdb cfgURL userID channelID token w :
  (∀ d w, (CreateRoom channelID 300 100 d w).1 = Ok tt) →
  ToJWT (access_token channelID userID None) = inr token →
  ∃ w', JoinChannel rdb true true None cfgURL userID "" channelID w =
    (Ok (mkJoinChannelResult cfgURL token channelID 3600), w').
Proof.
  intros Hroom Hjwt. unfold JoinChannel.
  rewrite (bind_run _ _ w tt w) by done.
  rewrite (bind_run _ _ w tt w) by done.
  match goal with |- context [CreateRoom ?r ?e ?m ?d] =>
    pose proof (Hroom d w) as Hr; destruct (CreateRoom r e m d w) as [o w1] eqn:Ecr end.
  simpl in Hr. subst o.
  rewrite (bind_run _ _ w tt w1) by (unfold on_err; by rewrite Ecr).
  assert (buildToken None channelID userID w1 = (Ok token, w1)) as Etok.
  { unfold buildToken, mbind, gom_bind, mret, gom_ret. by rewrite Hjwt. }
  rewrite (bind_run _ _ w1 token w1) by (unfold on_err; by rewrite Etok).
  rewrite (bind_run _ _ w1 (""%string, ""%string) w1) by done.
  set (ps := new_participant _ _ _ _ _).
  destruct (ignore_run (SetParticipant rdb ps) w1 (np_SetParticipant rdb ps)) as [w2 E2].
  rewrite (bind_run _ _ w1 tt w2) by done.
  destruct (ignore_run (EnsureActiveSince rdb channelID) w2 (np_EnsureActiveSince _ _)) as [w3 E3].
  rewrite (bind_run _ _ w2 tt w3) by done.
  rewrite (bind_run _ _ w3 (clock (tick w3)) (bump w3)) by done.
  destruct (ignore_run (broadcastChannelState rdb true channelID "") (bump w3)
              (np_broadcastChannelState _ _ _)) as [w4 E4].
  rewrite (bind_run _ _ (bump w3) tt w4) by done. by eexists.
Qed.

(** ** Direct calls *)
Lemma publish_call_run members e w :
  publish_call true members e w =
  (Ok tt, with_bus (bus w ++ map (λ m, (DmCall m, EvDmCall e)) members) w).
Proof.
  unfold publish_call. revert w. induction members as [|m members IH]; intros w.
  { cbn [for_each map]. rewrite app_nil_r. by destruct w. }
  cbn [for_each map]. unfold mbind, gom_bind. unfold publish_voice at 1, Publish, modify.
  rewrite IH. simpl. by rewrite <-app_assoc.
Qed.

Lemma require_dm_member_Ok dm ch u w r w' :
  require_dm_member dm ch u w = (Ok r, w') →
  dm = Some r ∧ vd_IsDMMember r ch u w = (Ok true, w').
Proof.
  unfold require_dm_member. destruct dm as [r'|]; [|done].
  intros E. go_inv E. subst. by split.
Qed.

(** What the membership resolver may do: answer, and nothing else. *)
Definition quiet_resolver (r : DMMembershipResolver) : Prop :=
  (∀ ch u, steps silent (vd_IsDMMember r ch u)) ∧ (∀ ch, steps silent (vd_DMMembers r ch)).
Definition quiet_profile (p : option UserProfileResolver) : Prop :=
  ∀ f u, p = Some f → steps silent (f u).

Lemma silent_Ok {A} (m : GoM World A) w a w' : steps silent m → m w = (Ok a, w') → silent w w'.
Proof. intros Hs E. specialize (Hs w). by rewrite E in Hs. Qed.
Lemma silent_members_or_nil r ch : quiet_resolver r → steps silent (members_or_nil r ch).
Proof. intros [_ Hm]. unfold members_or_nil. steps_auto. Qed.
Lemma silent_buildToken profile room identity : quiet_profile profile →
  steps silent (buildToken profile room identity).
Proof.
  intros Hp. unfold buildToken. apply steps_bind; [apply _| |intros meta; steps_auto].
  destruct profile as [f|]; [|steps_auto]. apply steps_bind; [apply _|by apply Hp|]. intros [n a]. steps_auto.
Qed.

(** Direct calls. Starting a call in a channel succeeds only for a member
    of it, with a token for that room and caller; the tables, the message
    store and Redis stay as they are, and the only events sent are the
    incoming-call event, once to each member the resolver lists, in its
    order. *)
Theorem StartDMCall_effect dm profile cfgURL caller ch video res w w' :
  (∀ r, dm = Some r → quiet_resolver r) → quiet_profile profile →
  StartDMCall true true dm profile cfgURL caller ch video w = (Ok res, w') →
  ∃ r w1 members t,
    dm = Some r ∧ vd_IsDMMember r ch caller w = (Ok true, w1) ∧
    (∃ w2, silent w w2 ∧ ((vd_DMMembers r ch w2).1 = Ok members ∨
       members = [] ∧ ∃ e, (vd_DMMembers r ch w2).1 = Err e)) ∧
    jc_Room res = ch ∧ (∃ meta, ToJWT (access_token ch caller meta) = inr (jc_Token res)) ∧
    db w' = db w ∧ cass w' = cass w ∧ redis w' = redis w ∧
    bus w' = bus w ++
      map (λ m, (DmCall m, EvDmCall (call_event DM_CALL_INCOMING ch caller "" video t))) members.
Proof.
  intros Hdm Hprof E. unfold StartDMCall in E.
  apply bind_Ok_inv in E as (? & w0 & Hens & E). apply ensure_Ok_inv in Hens as [_ ->].
  apply bind_Ok_inv in E as (r & w1 & Hr & E). apply require_dm_member_Ok in Hr as [-> Hmem].
  specialize (Hdm r eq_refl). pose proof (silent_Ok _ _ _ _ (proj1 Hdm ch caller) Hmem) as S1.
  apply bind_Ok_inv in E as (? & w2 & Hroom & E). apply on_err_Ok_inv in Hroom.
  pose proof (silent_Ok _ _ _ _ (CreateRoom_silent _ _ _ _) Hroom) as S2.
  apply bind_Ok_inv in E as (token & w3 & Htok & E). apply on_err_Ok_inv in Htok.
  pose proof (silent_Ok _ _ _ _ (silent_buildToken profile ch caller Hprof) Htok) as S3.
  apply bind_Ok_inv in E as (members & w4 & Hms & E).
  pose proof (silent_Ok _ _ _ _ (silent_members_or_nil r ch Hdm) Hms) as S4.
  apply bind_Ok_inv in E as (t & w5 & Hnow & E). injection Hnow as <- <-.
  unfold mbind, gom_bind in E. rewrite publish_call_run in E. injection E as <- <-.
  assert (silent w w3) as S13 by (etrans; [exact S1|etrans; [exact S2|exact S3]]).
  assert (silent w w4) as (D & C & R & B) by (etrans; [exact S13|exact S4]).
  exists r, w1, members, (clock (tick w4)). split_and!; try done.
  - exists w3. split; [done|]. unfold members_or_nil in Hms.
    apply bind_Ok_inv in Hms as (ms & w6 & Htry & Hms). injection Hms as <- <-.
    apply try_Ok_inv in Htry. destruct ms; rewrite Htry; simpl; eauto.
  - unfold buildToken in Htok. apply bind_Ok_inv in Htok as (meta & w6 & _ & Htok). exists meta.
    destruct (ToJWT _) as [|tok]; [done|]. by injection Htok as <- _.
  - simpl. by rewrite B.
Qed.
End Calls.

(** ** Worked examples: the owner of guild 2 joins channel 9; user 1 calls the
    members of the DM channel 10. *)
Section Example.
#[local] Existing Instance demo_wired.
#[local] Existing Instance demo_uuid.
#[local] Existing Instance reference_redis.
#[local] Existing Instance demo_json.
#[local] Existing Instance demo_livekit.

Definition demo_join : GoM World JoinChannelResult :=
  JoinChannel true true true None "wss://lk" (uuid_print 1) (uuid_print 2) (uuid_print 9).
Lemma demo_join_runs : is_Ok (demo_join demo_world).1 = true.
Proof. vm_compute. reflexivity. Qed.

Lemma JoinChannel_authorized_witness :
  ChannelAuthorized demo_db 1 9 "VIEW_CHANNELS" ∧ Authorized demo_db 1 2 "CONNECT".
Proof.
  assert (authz_wired = true) as Hw by reflexivity.
  destruct (run_Ok demo_join demo_world demo_join_runs) as [res E].
  destruct (JoinChannel_authorized true true None "wss://lk" 1 2 9 res demo_world _ Hw E) as (Hc & Hv & _).
  split; [exact (Hv demo_fault_free demo_overrides_wf demo_cache_coherent)|exact Hc].
Defined.

Lemma JoinChannel_without_guild_is_unguarded_witness :
  ∃ w', JoinChannel true true true None "wss://lk" "mallory" "" (uuid_print 9) demo_world =
    (Ok (mkJoinChannelResult "wss://lk" (uuid_print 9 +:+ "/mallory") (uuid_print 9) 3600), w').
Proof.
  apply (JoinChannel_without_guild_is_unguarded true "wss://lk" "mallory" (uuid_print 9)
           (uuid_print 9 +:+ "/mallory") demo_world); reflexivity.
Defined.

Definition demo_dm : DMMembershipResolver :=
  mkDMMembershipResolver (λ ch u, mret (bool_decide (u ∈ ["ann"; "bob"])))
    (λ ch, mret ["ann"; "bob"]).
Lemma demo_dm_quiet : quiet_resolver demo_dm.
Proof. split; by intros. Qed.
Lemma demo_no_profile : quiet_profile None.
Proof. by intros f u. Qed.
Definition demo_call : GoM World JoinChannelResult :=
  StartDMCall true true (Some demo_dm) None "wss://lk" "ann" "dm" true.
Lemma demo_call_runs : is_Ok (demo_call demo_world).1 = true.
Proof. vm_compute. reflexivity. Qed.

Lemma StartDMCall_effect_witness :
  ∃ t members w', bus w' = map (λ m, (DmCall m,
     EvDmCall (call_event DM_CALL_INCOMING "dm" "ann" "" true t))) members.
Proof.
  destruct (run_Ok demo_call demo_world demo_call_runs) as [res E].
  destruct (StartDMCall_effect (Some demo_dm) None "wss://lk" "ann" "dm" true res demo_world _
    ltac:(by intros r [= <-]; exact demo_dm_quiet) demo_no_profile E)
    as (r & w1 & members & t & _ & _ & _ & _ & _ & _ & _ & _ & Hbus).
  exists t, members, (demo_call demo_world).2. exact Hbus.
Defined.
End Example.
