(* ===== verification/Sync.v ===== *)
(** * Sync: what changed since the last visit

    Models [src/internal/features/sync/handler.go].  The handler runs one query
    per section and drops a section whose query fails; the messages come from
    the message store, channel by channel.  [presence] is the reader the module
    wires ([SetPresenceReader]), [msgRepo] says whether the repository is
    there.  Timestamps of rows are never null here, so [ts] is the identity;
    [ustr] of a null identifier is the empty text. *)
From S2P Require Import Prelude Realtime Store Queries Middleware User.
From S2P Require Import Scylla.

(** ** The response *)
Record SyncUser := mkSyncUser {
  su_Id : string; su_IsDeleted : bool; su_UpdatedAt : option time; su_Username : string;
  su_Email : string; su_AvatarUrl : string; su_Bio : string; su_Status : string;
  su_Verified : bool; su_BackgroundColor : string }.
Record SyncGuild := mkSyncGuild {
  sg_Id : string; sg_IsDeleted : bool; sg_UpdatedAt : option time; sg_Name : string;
  sg_Description : string; sg_IconUrl : string; sg_OwnerId : string }.
Record SyncChannel := mkSyncChannel {
  sc_Id : string; sc_IsDeleted : bool; sc_UpdatedAt : option time; sc_GuildId : string;
  sc_Name : string; sc_Type : Z; sc_Topic : string; sc_Position : Z; sc_ParentId : string }.
Record SyncRole := mkSyncRole {
  sr_Id : string; sr_IsDeleted : bool; sr_UpdatedAt : option time; sr_GuildId : string;
  sr_Name : string; sr_Color : string; sr_Position : Z }.
Record SyncGuildMember := mkSyncGuildMember {
  sgm_GuildId : string; sgm_UserId : string; sgm_IsDeleted : bool;
  sgm_UpdatedAt : option time; sgm_Nickname : string }.
Record SyncFriendship := mkSyncFriendship {
  sf_UserId : string; sf_FriendId : string; sf_Username : string; sf_AvatarUrl : string;
  sf_DmId : string; sf_IsDeleted : bool; sf_UpdatedAt : option time; sf_Status : string }.
Record SyncMessage := mkSyncMessage {
  sm_ChannelId : string; sm_Id : string; sm_IsDeleted : bool; sm_UpdatedAt : option time;
  sm_AuthorId : string; sm_Content : string; sm_Type : Z; sm_ReplyToId : string;
  sm_Pinned : bool }.
Record SyncDmMember := mkSyncDmMember {
  sdm_ChannelId : string; sdm_UserId : string; sdm_IsDeleted : bool;
  sdm_UpdatedAt : option time }.
Record SyncResponse := mkSyncResponse {
  ServerTime : time; Users : list SyncUser; Guilds : list SyncGuild;
  Channels : list SyncChannel; Roles : list SyncRole; GuildMembers : list SyncGuildMember;
  Friendships : list SyncFriendship; SyncMessages : list SyncMessage;
  DmMembers : list SyncDmMember }.

Module SyncHandler.
Section Handler.
Context `{Env} `{!UuidText} `{!CqlTypes} `{!PresenceReader}.
Variables (msgRepo : bool).

(** [uuid.UUID(u.Bytes).String()], empty for a null value. *)
Definition ustr (u : option uuid) : string :=
  match u with Some u => uuid_print u | None => "" end.

(** [rows, err := q(...); if err == nil { for ... append }]. *)
Definition section {A B} (q : GoM World (list A)) (f : A → GoM World B) : GoM World (list B) :=
  r ← try q;
  match r with inl _ => mret [] | inr xs => mapM f xs end.
(** [rows, _ := q(...)]. *)
Definition list_or_nil {A} (q : GoM World (list A)) : GoM World (list A) :=
  r ← try q;
  mret (match r with inr xs => xs | inl _ => [] end).

(** The live status, when a reader is wired and knows one. *)
Definition live_status (u : User) : GoM World string :=
  match User.GetLiveStatus with
  | None => mret (u_status u)
  | Some reader =>
      live ← reader (uuid_print (u_id u));
      mret (if string_eqb live.1 "" then u_status u else live.1)
  end.
Definition sync_user (u : User) : GoM World SyncUser :=
  statusStr ← live_status u;
  mret (mkSyncUser (uuid_print (u_id u)) (u_deleted u) (Some (u_updated_at u)) (u_username u)
          (u_email u) (u_avatar_url u) (u_bio u) statusStr (u_verified u)
          (u_background_color u)).
Definition sync_guild (g : Guild) : GoM World SyncGuild :=
  mret (mkSyncGuild (uuid_print (g_id g)) (g_deleted g) (Some (g_updated_at g)) (g_name g)
          (g_description g) (g_icon_url g) (uuid_print (g_owner_id g))).
Definition sync_channel (c : Channel) : GoM World SyncChannel :=
  mret (mkSyncChannel (uuid_print (c_id c)) (c_deleted c) (Some (c_updated_at c))
          (ustr (c_guild_id c)) (c_name c) (c_type c) (c_topic c) (c_position c)
          (ustr (c_parent_id c))).
Definition sync_role (r : Role) : GoM World SyncRole :=
  mret (mkSyncRole (uuid_print (r_id r)) (r_deleted r) (Some (r_updated_at r))
          (uuid_print (r_guild_id r)) (r_name r) (r_color r) (r_position r)).
Definition sync_member (m : GuildMember) : GoM World SyncGuildMember :=
  mret (mkSyncGuildMember (uuid_print (gm_guild_id m)) (uuid_print (gm_user_id m))
          (gm_deleted m) (Some (gm_updated_at m)) (gm_nickname m)).
(** [*f.Username] and [*f.AvatarUrl] panic on the nulls of the outer join. *)
Definition sync_friendship (row : Queries.SyncFriendshipsRow) : GoM World SyncFriendship :=
  let f := Queries.sfr_friendship row in
  u ← deref (Queries.sfr_user row);
  mret (mkSyncFriendship (uuid_print (f_user_id f)) (uuid_print (f_friend_id f))
          (u_username u) (u_avatar_url u) (ustr (Queries.sfr_channel row)) (f_deleted f)
          (Some (f_updated_at f)) (f_status f)).
Definition sync_dm_member (m : DmChannelMember) : GoM World SyncDmMember :=
  mret (mkSyncDmMember (uuid_print (dm_channel_id m)) (uuid_print (dm_user_id m))
          (dm_deleted m) (Some (dm_updated_at m))).
(** Every cell but [updated_at] is dereferenced. *)
Definition sync_message (m : Messages) : GoM World SyncMessage :=
  channelID ← deref (m_channel_id m);
  id ← deref (m_id m);
  deleted ← deref (m_deleted m);
  authorID ← deref (m_author_id m);
  content ← deref (m_content m);
  type ← deref (m_type m);
  replyToID ← deref (m_reply_to_id m);
  pinned ← deref (m_pinned m);
  mret (mkSyncMessage (uuid_print channelID) (uuid_print id) deleted (m_updated_at m)
          (uuid_print authorID) content (int32 type) (uuid_print replyToID) pinned).

(** The channels whose messages are read: those of the caller's guilds (the
    guilds touched after the epoch), then his direct messages. *)
Definition sync_channel_ids (uid : uuid) : GoM World (list uuid) :=
  guilds ← list_or_nil (Queries.SyncGuilds uid 0);
  chs ← mapM (λ g, list_or_nil (Queries.ListGuildChannels (g_id g))) guilds;
  dms ← list_or_nil (Queries.ListDMChannels uid);
  mret (omap (λ c, uuid_parse (uuid_print (c_id c))) (concat chs ++ dms)).
Definition channel_messages (lastSync : time) (chID : uuid) : GoM World (list SyncMessage) :=
  section (Scylla.Getmessagessince chID lastSync) sync_message.
Definition sync_messages (uid : uuid) (lastSync : time) : GoM World (list SyncMessage) :=
  ids ← sync_channel_ids uid;
  msgs ← mapM (channel_messages lastSync) ids;
  mret (concat msgs).

(** The handler after the caller is known. *)
Definition sync_since (uid : uuid) (lastSync : time) : GoM World SyncResponse :=
  serverTime ← now;
  users ← section (Queries.SyncUsers lastSync uid) sync_user;
  guilds ← section (Queries.SyncGuilds uid lastSync) sync_guild;
  channels ← section (Queries.SyncChannels uid lastSync) sync_channel;
  roles ← section (Queries.SyncRoles uid lastSync) sync_role;
  members ← section (Queries.SyncGuildMembers uid lastSync) sync_member;
  friendships ← section (Queries.SyncFriendships uid) sync_friendship;
  dmMembers ← section (Queries.SyncDmMembers uid lastSync) sync_dm_member;
  messages ← (if msgRepo then sync_messages uid lastSync else mret []);
  mret (mkSyncResponse serverTime users guilds channels roles members friendships messages
          dmMembers).

Definition Sync (ctx : Context) (lastSyncTime : option time) : GoM World SyncResponse :=
  let userID := UserIDFromContext ctx in
  _ ← ensure (negb (string_eqb userID "")) (Status Unauthenticated "not authenticated");
  match uuid_parse userID with
  | None => fail (Status Internal "invalid user id")
  | Some uid => sync_since uid (default 0%Z lastSyncTime)
  end.
End Handler.
End SyncHandler.
