(* ===== verification/SyncFacts.v ===== *)
(** * SyncFacts: what a sync may reveal, what it omits and what crashes it

    A sync is a read: it changes no store, a failing query drops its section
    and nothing else, and what it returns belongs to the caller's guilds and
    direct messages, but for the direct message named in a friendship entry.
    The message section filters on [updated_at], which only
    deletions write, so it returns tombstones only; and it dereferences cells
    that a tombstone of a message nobody wrote does not have. *)
From S2P Require Import Prelude Realtime Store Queries Redis Middleware User Presence.
From S2P Require Import Authz Wp AuthzFacts Scylla Message Wpm MessageFacts MessageStateFacts MessageReads Sync.
Import SyncHandler.

(** ** Reading programs

    [gives d c m P]: on the tables [d] and the message store [c], [m] changes
    nothing and either panics or returns a value in [P]; it returns no error.
    [lists] is the same for queries, which may fail; [panics] says that [m]
    always panics. *)
Section Gives.
Context `{Env} (d : Db) (c : Cass).
Definition gives {A} (m : GoM World A) (P : A → Prop) : Prop := ∀ w,
  db w = d → cass w = c → silent w (m w).2 ∧
  match (m w).1 with Ok a => P a | Err _ => False | Panic => True end.
Definition lists {A} (q : GoM World (list A)) (P : list A → Prop) : Prop := ∀ w,
  db w = d → cass w = c → silent w (q w).2 ∧
  match (q w).1 with Ok l => P l | _ => True end.
Definition panics {A} (m : GoM World A) : Prop := ∀ w,
  db w = d → cass w = c → (m w).1 = Panic.

Lemma silent_refl w : silent w w.
Proof. reflexivity. Qed.
Lemma silent_same w w' : silent w w' → db w = d → cass w = c → db w' = d ∧ cass w' = c.
Proof. intros (-> & -> & _) ? ?. by split. Qed.

Lemma gives_mono {A} (m : GoM World A) (P Q : A → Prop) :
  gives m P → (∀ a, P a → Q a) → gives m Q.
Proof. intros Hm HPQ w Hd Hc. destruct (Hm w Hd Hc) as [Hs Hr]. split; [done|]. destruct (m w).1; auto. Qed.
Lemma gives_ret {A} (a : A) (P : A → Prop) : P a → gives (mret a) P.
Proof. intros Ha w _ _. split; [apply silent_refl|done]. Qed.
Lemma gives_deref {A} (p : option A) (P : A → Prop) : (∀ a, p = Some a → P a) → gives (deref p) P.
Proof. intros HP w _ _. destruct p; (split; [apply silent_refl|]); [by apply HP|done]. Qed.
Lemma gives_deref_eq {A} (p : option A) : gives (deref p) (λ a, p = Some a).
Proof. by apply gives_deref. Qed.
Lemma gives_now (P : time → Prop) : (∀ t, P t) → gives now P.
Proof. intros HP w _ _. split; [by split_and!|apply HP]. Qed.
Lemma gives_bind {A B} (m : GoM World A) (k : A → GoM World B) P Q :
  gives m P → (∀ a, P a → gives (k a) Q) → gives (m ≫= k) Q.
Proof.
  intros Hm Hk w Hd Hc. specialize (Hm w Hd Hc) as [Hs Hr]. unfold mbind, gom_bind.
  destruct (m w) as [[a|e|] w1]; simpl in *; [|done..].
  destruct (silent_same _ _ Hs Hd Hc) as [Hd1 Hc1].
  destruct (Hk a Hr w1 Hd1 Hc1) as [Hs' Hr']. split; [by etrans|done].
Qed.
Lemma gives_mapM {A B} (f : A → GoM World B) (Q : A → B → Prop) xs :
  (∀ x, x ∈ xs → gives (f x) (Q x)) → gives (mapM f xs) (λ ys, Forall2 Q xs ys).
Proof.
  induction xs as [|x xs IH]; intros Hf; cbn [mapM].
  { apply gives_ret. constructor. }
  eapply gives_bind; [apply Hf; left|]. intros y Hy.
  eapply gives_bind; [apply IH; intros; apply Hf; by right|]. intros ys Hys.
  apply gives_ret. by constructor.
Qed.

(** A failed query is an empty list. *)
Lemma gives_list_or_nil {A} (q : GoM World (list A)) (P : list A → Prop) :
  lists q P → P [] → gives (list_or_nil q) (P : list A → Prop).
Proof.
  intros Hq Hnil w Hd Hc. destruct (Hq w Hd Hc) as [Hs Hr].
  unfold list_or_nil, mbind, gom_bind, try. destruct (q w) as [[l|e|] w1]; simpl in *; by split.
Qed.
Lemma gives_section {A B} (q : GoM World (list A)) (f : A → GoM World B) (P : A → Prop) (Q : B → Prop) :
  lists q (Forall P) → (∀ x, P x → gives (f x) Q) → gives (section q f) (Forall Q).
Proof.
  intros Hq Hf. unfold section.
  apply (gives_bind _ _ (λ r, match r with inr l => Forall P l | inl _ => True end)).
  - intros w Hd Hc. destruct (Hq w Hd Hc) as [Hs Hr].
    unfold try. by destruct (q w) as [[l|e|] w1].
  - intros [e|l] Hl; [apply gives_ret; constructor|].
    eapply gives_mono; [apply (gives_mapM f (λ _, Q))|].
    + intros x Hx. apply Hf. rewrite Forall_forall in Hl. by apply Hl.
    + intros ys Hys. eapply Forall2_Forall_r; [exact Hys|]. by apply Forall_forall.
Qed.

Lemma lists_query {A} (f : Db → error + list A) (P : list A → Prop) :
  (∀ l, f d = inr l → P l) → lists (query f) P.
Proof.
  intros HP w Hd Hc. split; [apply silent_query|].
  unfold query, sql, external. rewrite Hd.
  destruct (f d) as [e|l], (faults (tick w)); simpl; auto.
Qed.
Lemma lists_select `{!CqlTypes} {A} ids ok (f : Cass → error + list A) (P : list A → Prop) :
  (∀ l, f c = inr l → P l) → lists (Scylla.select ids ok f) P.
Proof.
  intros HP w Hd Hc. unfold Scylla.select, cql, external. rewrite Hc.
  destruct (_ && ok); [destruct (f c) as [e|l]|]; destruct (faults (tick w)); simpl;
    (split; [split_and!; (done || by destruct w)|auto]).
Qed.

(** Rows of a filtered table. *)
Lemma Forall_rows `{Countable K} {V} (p : K → V → bool) (m : gmap K V) (P : V → Prop) :
  (∀ k v, m !! k = Some v → p k v = true → P v) → Forall P (rows p m).
Proof. intros HP. apply Forall_forall. intros v (k & Hk & Hp)%elem_of_rows. by eapply HP. Qed.

(** ** Panics *)
Lemma panics_bind_r {A B} (m : GoM World A) (k : A → GoM World B) P :
  gives m P → (∀ a, P a → panics (k a)) → panics (m ≫= k).
Proof.
  intros Hm Hk w Hd Hc. destruct (Hm w Hd Hc) as [Hs Hr]. unfold mbind, gom_bind.
  destruct (m w) as [[a|e|] w1]; simpl in *; [|done..].
  destruct (silent_same _ _ Hs Hd Hc). by apply Hk.
Qed.
Lemma panics_bind_l {A B} (m : GoM World A) (k : A → GoM World B) : panics m → panics (m ≫= k).
Proof.
  intros Hm w Hd Hc. specialize (Hm w Hd Hc). unfold mbind, gom_bind.
  destruct (m w) as [[] ?]; simpl in *; congruence.
Qed.
Lemma panics_mapM {A B} (f : A → GoM World B) xs x :
  x ∈ xs → panics (f x) → (∀ y, y ∈ xs → gives (f y) (λ _, True)) → panics (mapM f xs).
Proof.
  intros Hx Hp Hf. induction xs as [|y xs IH]; [by apply not_elem_of_nil in Hx|]. cbn [mapM].
  apply elem_of_cons in Hx as [Heq|Hx]; [subst y; by apply panics_bind_l|].
  eapply panics_bind_r; [apply Hf; left|]. intros ? _.
  apply panics_bind_l, IH; [done|]. intros z Hz. apply Hf. by right.
Qed.
End Gives.

(** ** What a sync may reveal *)
Section Scope.
Context `{Env} `{!UuidText} `{!CqlTypes} `{!PresenceReader}.
(** The presence reader reads. *)
Hypothesis presence_silent : ∀ f u, User.GetLiveStatus = Some f → steps silent (f u).
Implicit Types (d : Db) (c : Cass) (uid : uuid).

(** The caller's guilds, and the channels he is in. *)
Definition his_guild d uid (g : uuid) : Prop := Queries.member_of d uid g = true.
Definition his_dm d uid (ch : uuid) : Prop := Queries.dm_live d ch uid = true.
Definition his_channel d uid (row : Channel) : Prop :=
  ∃ k, channels d !! k = Some row ∧
    ((∃ g, c_guild_id row = Some g ∧ his_guild d uid g) ∨ his_dm d uid k).

(** The channels whose messages are read. *)
Definition his_live_channel d uid (ch : uuid) : Prop :=
  ∃ row k, channels d !! k = Some row ∧ c_id row = ch ∧ c_deleted row = false ∧
    ((∃ g k' grow, c_guild_id row = Some g ∧ guilds d !! k' = Some grow ∧ g_id grow = g ∧
                   his_guild d uid k') ∨ his_dm d uid k).

Lemma gives_sync_user_id d c u : gives d c (sync_user u) (λ s, su_Id s = uuid_print (u_id u)).
Proof.
  unfold sync_user, live_status. apply (gives_bind _ _ _ _ (λ _, True)); [|intros; by apply gives_ret].
  destruct User.GetLiveStatus as [f|] eqn:Ef; [|by apply gives_ret].
  apply (gives_bind _ _ _ _ (λ _, True)); [|intros; by apply gives_ret].
  intros w _ _. split; [by apply presence_silent|].
  by destruct (PresenceReader_Ok f (uuid_print (u_id u)) w Ef) as [r ->].
Qed.

Lemma gives_sync_message d c m :
  gives d c (sync_message m) (λ s,
    sm_ChannelId <$> Some s = uuid_print <$> m_channel_id m ∧
    Some (sm_IsDeleted s) = m_deleted m ∧ Some (sm_Content s) = m_content m).
Proof.
  unfold sync_message.
  eapply gives_bind; [apply gives_deref_eq|]; intros ch Hch.
  eapply gives_bind; [apply gives_deref_eq|]; intros id Hid.
  eapply gives_bind; [apply gives_deref_eq|]; intros del Hdel.
  eapply gives_bind; [apply gives_deref_eq|]; intros au Hau.
  eapply gives_bind; [apply gives_deref_eq|]; intros co Hco.
  do 3 (eapply gives_bind; [apply gives_deref_eq|]; intros ? ?).
  apply gives_ret. by rewrite Hch, Hdel, Hco.
Qed.

(** The channels collected for the message section are the caller's. *)
Lemma gives_channel_ids d c uid :
  gives d c (sync_channel_ids uid) (Forall (his_live_channel d uid)).
Proof.
  unfold sync_channel_ids.
  apply (gives_bind _ _ _ _ (Forall (λ g, ∃ k, guilds d !! k = Some g ∧ his_guild d uid k))).
  { apply gives_list_or_nil; [|constructor]. apply lists_query. intros l [= <-].
    apply Forall_rows. intros k g Hk [Hm _]%andb_true_iff. by exists k. }
  intros gs Hgs.
  set (P := λ row, ∃ k, channels d !! k = Some row ∧ c_deleted row = false ∧
    ((∃ g k' grow, c_guild_id row = Some g ∧ guilds d !! k' = Some grow ∧ g_id grow = g ∧
                   his_guild d uid k') ∨ his_dm d uid k)).
  apply (gives_bind _ _ _ _ (λ chs, Forall P (concat chs))).
  { eapply gives_mono; [apply (gives_mapM _ _ _ (λ _, Forall P))|].
    - intros g Hg. apply gives_list_or_nil; [|constructor]. apply lists_query. intros l [= <-].
      unfold Queries.order_by. rewrite merge_sort_Permutation.
      apply Forall_rows. intros k row Hk [Ho Hd]%andb_true_iff. exists k.
      apply negb_true_iff in Hd. apply bool_decide_eq_true in Ho. split_and!; [done..|].
      rewrite Forall_forall in Hgs. destruct (Hgs g Hg) as (k' & Hk' & Hm). left. by exists (g_id g), k', g.
    - intros chs Hchs. apply Forall_concat. eapply Forall2_Forall_r; [exact Hchs|]. by apply Forall_true. }
  intros chs Hchs. apply (gives_bind _ _ _ _ (Forall P)).
  { apply gives_list_or_nil; [|constructor]. apply lists_query. intros l [= <-].
    apply Forall_rows. intros k row Hk [[_ Hd]%andb_true_iff Hm]%andb_true_iff.
    apply negb_true_iff in Hd. exists k. split_and!; [done..|]. by right. }
  intros dms Hdms. apply gives_ret.
  assert (Forall P (concat chs ++ dms)) as HP by by apply Forall_app.
  apply Forall_forall. intros ch (row & Hrow & Hch)%list_elem_of_omap.
  rewrite uuid_parse_print in Hch. injection Hch as <-.
  rewrite Forall_forall in HP. destruct (HP row Hrow) as (k & Hk & Hd & Hor). by exists row, k.
Qed.

(** The rows [Getmessagessince] selects. *)
Definition since c (t : time) (ch : uuid) : list Messages :=
  Scylla.matching (Scylla.updated_after t) (Scylla.newest_first c ch).
Lemma elem_of_since c t ch m :
  m ∈ since c t ch ↔ ∃ id u, messages c !! (ch, id) = Some m ∧ m_updated_at m = Some u ∧
    (cql_timestamp t < u)%Z.
Proof.
  unfold since, Scylla.matching. rewrite list_elem_of_fmap. split.
  - intros ([id m'] & -> & Hin). apply list_elem_of_In, filter_In in Hin as [Hin Hu].
    apply list_elem_of_In, elem_of_newest_first in Hin. unfold Scylla.updated_after in Hu. simpl in *.
    destruct (m_updated_at m') as [u|] eqn:E; [|done]. exists id, u. by apply Z.ltb_lt in Hu.
  - intros (id & u & Hm & Hu & Hlt). exists (id, m). split; [done|].
    apply list_elem_of_In, filter_In. split; [by apply list_elem_of_In, elem_of_newest_first|].
    unfold Scylla.updated_after. simpl. rewrite Hu. by apply Z.ltb_lt.
Qed.

(** A message of the response and the stored row it shows. *)
Definition shows c (ch : uuid) (s : SyncMessage) : Prop := ∃ id m,
  messages c !! (ch, id) = Some m ∧ m_updated_at m ≠ None ∧
  uuid_print <$> m_channel_id m = Some (sm_ChannelId s) ∧
  m_deleted m = Some (sm_IsDeleted s) ∧ m_content m = Some (sm_Content s).

Lemma gives_channel_messages d c t ch : gives d c (channel_messages t ch) (Forall (shows c ch)).
Proof.
  unfold channel_messages. eapply (gives_section _ _ _ _ (λ m, m ∈ since c t ch)).
  - apply lists_select. intros l [= <-]. by apply Forall_forall.
  - intros m (id & u & Hm & Hu & _)%elem_of_since.
    eapply gives_mono; [apply gives_sync_message|]. intros s (Hch & Hdel & Hco).
    exists id, m. split_and!; try done. by rewrite Hu.
Qed.
Lemma gives_sync_messages d c uid t :
  gives d c (sync_messages uid t) (Forall (λ s, ∃ ch, his_live_channel d uid ch ∧ shows c ch s)).
Proof.
  unfold sync_messages. eapply gives_bind; [apply gives_channel_ids|]. intros ids Hids.
  eapply gives_bind.
  { apply (gives_mapM _ _ _ (λ ch, Forall (shows c ch))). intros ch _. apply gives_channel_messages. }
  intros msgs Hmsgs. apply gives_ret, Forall_concat.
  clear -Hids Hmsgs. induction Hmsgs as [|ch ss ids msgs Hs Hmsgs IH]; [constructor|].
  apply Forall_cons in Hids as [Hch Hids]. constructor; [|by apply IH].
  eapply Forall_impl; [exact Hs|]. intros s Hsh. by exists ch.
Qed.

(** The scope of a response: whom and what the caller is told about. *)
Definition knows d uid (v : uuid) : Prop :=
  v = uid ∨ (∃ f, (friendships d !! (uid, v) = Some f ∨ friendships d !! (v, uid) = Some f) ∧ f_deleted f = false) ∨
  (∃ k m, guild_members d !! k = Some m ∧ k.2 = v ∧ his_guild d uid k.1).
Definition user_in_scope d uid (s : SyncUser) : Prop :=
  ∃ k u, users d !! k = Some u ∧ su_Id s = uuid_print (u_id u) ∧ knows d uid k.
Definition guild_in_scope d uid (s : SyncGuild) : Prop :=
  ∃ k g, guilds d !! k = Some g ∧ sg_Id s = uuid_print (g_id g) ∧ his_guild d uid k.
Definition channel_in_scope d uid (s : SyncChannel) : Prop :=
  ∃ ch, his_channel d uid ch ∧ sc_Id s = uuid_print (c_id ch).
Definition role_in_scope d uid (s : SyncRole) : Prop :=
  ∃ k ro, roles d !! k = Some ro ∧ sr_Id s = uuid_print (r_id ro) ∧ his_guild d uid (r_guild_id ro).
Definition member_in_scope d uid (s : SyncGuildMember) : Prop :=
  ∃ k m, guild_members d !! k = Some m ∧ sgm_UserId s = uuid_print (gm_user_id m) ∧ his_guild d uid k.1.
Definition friendship_in_scope d uid (s : SyncFriendship) : Prop :=
  ∃ k f, friendships d !! k = Some f ∧ (k.1 = uid ∨ k.2 = uid) ∧
    sf_UserId s = uuid_print (f_user_id f) ∧ sf_FriendId s = uuid_print (f_friend_id f) ∧
    sf_Status s = f_status f ∧
    (∃ u, users d !! (if uuid_eqb (f_user_id f) uid then f_friend_id f else f_user_id f) = Some u ∧
          sf_Username s = u_username u ∧ sf_AvatarUrl s = u_avatar_url u) ∧
    (sf_DmId s = "" ∨ ∃ k' m, dm_channel_members d !! k' = Some m ∧ k'.2 = f_friend_id f ∧
                             sf_DmId s = uuid_print (dm_channel_id m)).
Definition dm_member_in_scope d uid (s : SyncDmMember) : Prop :=
  ∃ k m, dm_channel_members d !! k = Some m ∧ sdm_UserId s = uuid_print (dm_user_id m) ∧ his_dm d uid k.1.
Definition message_in_scope d c uid (s : SyncMessage) : Prop :=
  ∃ ch, his_live_channel d uid ch ∧ shows c ch s.
Record in_scope d c uid (r : SyncResponse) : Prop := {
  scope_users : Forall (user_in_scope d uid) (Users r);
  scope_guilds : Forall (guild_in_scope d uid) (Guilds r);
  scope_channels : Forall (channel_in_scope d uid) (Channels r);
  scope_roles : Forall (role_in_scope d uid) (Roles r);
  scope_members : Forall (member_in_scope d uid) (GuildMembers r);
  scope_friendships : Forall (friendship_in_scope d uid) (Friendships r);
  scope_dm_members : Forall (dm_member_in_scope d uid) (DmMembers r);
  scope_messages : Forall (message_in_scope d c uid) (SyncMessages r)
}.

(** One section whose rows come from a filtered table. *)
Lemma gives_rows_section `{Countable K} {V B} d c (tbl : Db → gmap K V) p (f : V → GoM World B)
    (Q : B → Prop) :
  (∀ k v, tbl d !! k = Some v → p d k v = true → gives d c (f v) Q) →
  gives d c (section (query (λ d, inr (rows (p d) (tbl d)))) f) (Forall Q).
Proof.
  intros Hp. apply (gives_section _ _ _ _ (λ v, ∃ k, tbl d !! k = Some v ∧ p d k v = true)).
  - apply lists_query. intros l [= <-]. apply Forall_rows. eauto.
  - intros v (k & Hk & Hpk). by eapply Hp.
Qed.

Lemma knows_query d uid k u :
  (uuid_eqb k uid ||
   match friendships d !! (uid, k) with Some f => negb (f_deleted f) | None => false end ||
   match friendships d !! (k, uid) with Some f => negb (f_deleted f) | None => false end ||
   map_existsb (λ k' _, uuid_eqb k'.2 k && Queries.member_of d uid k'.1) (guild_members d)) = true →
  users d !! k = Some u → knows d uid k.
Proof.
  intros Hor _. unfold knows. rewrite !orb_true_iff in Hor. destruct Hor as [[[Heq|Hf]|Hf]|Hm].
  - left. by apply bool_decide_eq_true in Heq.
  - right; left. destruct (friendships d !! (uid, k)) as [f|]; [|done]. exists f. split; [by left|]. by apply negb_true_iff.
  - right; left. destruct (friendships d !! (k, uid)) as [f|]; [|done]. exists f. split; [by right|]. by apply negb_true_iff.
  - right; right. apply map_existsb_true in Hm as (k' & m & Hk' & [Hv Hg]%andb_true_iff).
    apply bool_decide_eq_true in Hv. by exists k', m.
Qed.

Lemma dm_left_join_from d v (o : option uuid) : o ∈ Queries.dm_left_join d v →
  o = None ∨ ∃ k m, dm_channel_members d !! k = Some m ∧ k.2 = v ∧ o = Some (dm_channel_id m).
Proof.
  unfold Queries.dm_left_join.
  destruct (rows _ _) as [|m ms] eqn:E; [intros ->%list_elem_of_singleton; by left|].
  intros (m' & -> & Hin)%list_elem_of_fmap. rewrite <-E in Hin. right.
  apply elem_of_rows in Hin as (k & Hk & Hv%bool_decide_eq_true). by exists k, m'.
Qed.
Lemma gives_friendships d c uid :
  gives d c (section (Queries.SyncFriendships uid) sync_friendship) (Forall (friendship_in_scope d uid)).
Proof.
  apply (gives_section _ _ _ _ (λ row, let f := Queries.sfr_friendship row in
    (∃ k, friendships d !! k = Some f ∧ (k.1 = uid ∨ k.2 = uid)) ∧
    Queries.sfr_user row = users d !! (if uuid_eqb (f_user_id f) uid then f_friend_id f else f_user_id f) ∧
    Queries.sfr_channel row ∈ Queries.dm_left_join d (f_friend_id f))).
  - apply lists_query. intros l [= <-]. apply Forall_forall. intros row Hrow.
    apply list_elem_of_bind in Hrow as (f & (o & Hrow & Ho)%list_elem_of_bind & (k & Hk & Hor)%elem_of_rows).
    apply list_elem_of_singleton in Hrow as ->. split; [|done]. exists k. split; [done|].
    apply orb_true_iff in Hor as [?%bool_decide_eq_true|?%bool_decide_eq_true]; auto.
  - intros row ((k & Hk & Hor) & Hu & Hc). unfold sync_friendship.
    eapply gives_bind; [apply gives_deref_eq|]. intros u Hu'. apply gives_ret.
    exists k, (Queries.sfr_friendship row). rewrite Hu in Hu'. split_and!; [done..|by exists u|].
    apply dm_left_join_from in Hc as [->|(k' & m & Hm & Hv & ->)]; [by left|right; by exists k', m].
Qed.
Lemma gives_users d c uid t :
  gives d c (section (Queries.SyncUsers t uid) sync_user) (Forall (user_in_scope d uid)).
Proof.
  apply (gives_rows_section _ _ users). intros k u Hk [_ Hor]%andb_true_iff.
  eapply gives_mono; [apply gives_sync_user_id|]. intros s Hs. exists k, u.
  split_and!; [done..|]. by eapply knows_query.
Qed.
Lemma gives_channels d c uid t :
  gives d c (section (Queries.SyncChannels uid t) sync_channel) (Forall (channel_in_scope d uid)).
Proof.
  apply (gives_rows_section _ _ channels). intros k ch Hk [_ Hor]%andb_true_iff.
  apply gives_ret. exists ch. split; [|done]. exists k. split; [done|].
  apply orb_true_iff in Hor as [Hg|Hdm]; [left|by right].
  destruct (c_guild_id ch) as [g|]; [by exists g|done].
Qed.

Lemma gives_sync_since (msgRepo : bool) d c uid t : gives d c (sync_since msgRepo uid t) (in_scope d c uid).
Proof.
  unfold sync_since. apply (gives_bind _ _ _ _ (λ _, True)); [by apply gives_now|]. intros st _.
  eapply gives_bind; [apply gives_users|]. intros us Hus.
  apply (gives_bind _ _ _ _ (Forall (guild_in_scope d uid))).
  { apply (gives_rows_section _ _ guilds). intros k g Hk [Hm _]%andb_true_iff.
    apply gives_ret. by exists k, g. }
  intros gs Hgs. eapply gives_bind; [apply gives_channels|]. intros cs Hcs.
  apply (gives_bind _ _ _ _ (Forall (role_in_scope d uid))).
  { apply (gives_rows_section _ _ roles). intros k ro Hk [_ Hm]%andb_true_iff.
    apply gives_ret. by exists k, ro. }
  intros rs Hrs. apply (gives_bind _ _ _ _ (Forall (member_in_scope d uid))).
  { apply (gives_rows_section _ _ guild_members). intros k m Hk [_ Hm]%andb_true_iff.
    apply gives_ret. by exists k, m. }
  intros ms Hms. eapply gives_bind; [apply gives_friendships|]. intros fs Hfs.
  apply (gives_bind _ _ _ _ (Forall (dm_member_in_scope d uid))).
  { apply (gives_rows_section _ _ dm_channel_members). intros k m Hk [_ Hm]%andb_true_iff.
    apply gives_ret. by exists k, m. }
  intros dms Hdms. apply (gives_bind _ _ _ _ (Forall (message_in_scope d c uid))).
  { destruct msgRepo; [apply gives_sync_messages|by apply gives_ret]. }
  intros msgs Hmsgs. apply gives_ret. by constructor.
Qed.

(** C25: the scope of a sync. Whatever fails, a sync changes no store, and
    answers an error only to a caller without a valid identity: no failing
    query makes it one.  (It may crash, on a message
    row with empty cells.)  What a response holds, complete or not, are guilds
    the caller is a live member of with their roles and member rows, channels
    of those guilds and direct messages he is in, users he is linked to,
    messages of undeleted channels among those, and friendship rows he is part
    of.  A friendship entry shows the other user's name and avatar, and as its
    direct message any channel that the [friend_id] of the row ever was in,
    which may be a conversation the caller has no part in. *)
Theorem Sync_scope msgRepo ctx t w :
  let r := Sync msgRepo ctx t w in
  silent w r.2 ∧
  match r.1 with
  | Ok resp => ∃ uid, uuid_parse (UserIDFromContext ctx) = Some uid ∧ in_scope (db w) (cass w) uid resp
  | Err _ => uuid_parse (UserIDFromContext ctx) = None
  | Panic => True
  end.
Proof.
  unfold Sync. unfold mbind, gom_bind.
  destruct (string_eqb (UserIDFromContext ctx) "") eqn:E; simpl.
  { split; [apply silent_refl|]. apply bool_decide_eq_true in E. rewrite E. apply uuid_parse_empty. }
  destruct (uuid_parse _) as [uid|] eqn:Eu; [|split; [apply silent_refl|done]].
  destruct (gives_sync_since msgRepo (db w) (cass w) uid (default 0%Z t) w eq_refl eq_refl) as [Hs Hr].
  split; [exact Hs|]. destruct (sync_since _ _ _ w).1; [|done..]. by exists uid.
Qed.
End Scope.

(** ** Only deletions are delivered *)

(** Whatever has an [updated_at] is a tombstone. *)
Definition stamped_deleted (m : Messages) : Prop := m_updated_at m ≠ None → m_deleted m = Some true.
Definition stamps_are_deletions (c : Cass) : Prop := map_Forall (λ _ m, stamped_deleted m) (messages c).
Definition keeps_stamps : relation World := on_cass (inv_rel stamps_are_deletions).

Section Stamps.
Context `{Env} `{!UuidText} `{!CqlTypes}.

Lemma silent_keeps {A} (m : GoM World A) : steps silent m → steps keeps_stamps m.
Proof. intros Hm w. destruct (Hm w) as (_ & Hc & _). unfold keeps_stamps, on_cass, inv_rel. by rewrite Hc. Qed.
Lemma keeps_select {A} ids ok (f : Cass → error + A) : steps keeps_stamps (Scylla.select ids ok f).
Proof.
  apply steps_cql; [apply _|]. intros t u c a c'. destruct (_ && ok); [|done].
  destruct (f c); intros E; simplify_eq. done.
Qed.
Lemma keeps_exec ids ok (f : Cass → Cass) :
  (∀ c, stamps_are_deletions c → stamps_are_deletions (f c)) → steps keeps_stamps (Scylla.exec ids ok f).
Proof.
  intros Hf. apply steps_cql; [apply _|]. intros t u c a c'. destruct (_ && ok); [|done].
  intros [= _ <-]. exact (Hf c).
Qed.
Lemma keeps_upsert ids ok ch id f :
  (∀ m, stamped_deleted m → stamped_deleted (f m)) →
  steps keeps_stamps (Scylla.exec ids ok (upsert_message ch id f)).
Proof.
  intros Hf. apply keeps_exec. intros c Hc. unfold stamps_are_deletions, upsert_message. simpl.
  apply map_Forall_insert_2; [|done]. apply Hf. destruct (messages c !! (ch, id)) as [m|] eqn:E; simpl.
  - exact (Hc _ _ E).
  - by intros [].
Qed.
Lemma keeps_Create arg : steps keeps_stamps (Scylla.Createmessage arg).
Proof. by apply keeps_upsert. Qed.
Lemma keeps_Edit s t ch id : steps keeps_stamps (Scylla.Updatemessagecontent s t ch id).
Proof. by apply keeps_upsert. Qed.
Lemma keeps_Pin b ch id : steps keeps_stamps (Scylla.Setpinned b ch id).
Proof. by apply keeps_upsert. Qed.
Lemma keeps_Delete t ch id : steps keeps_stamps (Scylla.Deletemessage t ch id).
Proof. by apply keeps_upsert. Qed.
Lemma keeps_other ids ok f : (∀ c, messages (f c) = messages c) → steps keeps_stamps (Scylla.exec ids ok f).
Proof. intros Hf. apply keeps_exec. intros c. unfold stamps_are_deletions. by rewrite Hf. Qed.
#[local] Hint Extern 1 (steps keeps_stamps (Scylla.Addmessageattachment _ _ _ _ _ _ _)) => by apply keeps_other : steps.
#[local] Hint Extern 1 (steps keeps_stamps (Scylla.Saveedithistory _ _ _ _)) => by apply keeps_other : steps.
#[local] Hint Extern 1 (steps keeps_stamps (Scylla.Upsertreadstate _ _ _ _)) => by apply keeps_other : steps.
#[local] Hint Extern 1 (steps keeps_stamps (Scylla.Deletemessageattachments _ _)) => by apply keeps_other : steps.
#[local] Hint Extern 1 (steps keeps_stamps (Scylla.Deletemessagereactions _ _)) => by apply keeps_other : steps.
#[local] Hint Extern 1 (steps keeps_stamps (Scylla.Deleteedithistory _ _)) => by apply keeps_other : steps.
#[local] Hint Resolve keeps_select keeps_Create keeps_Edit keeps_Pin keeps_Delete : steps.

Context (lpb : bool) (media : option MediaResolver) (dml : option DMChannelLister).

(** The operations of the service that write messages. *)
Inductive message_op :=
  | OpSend (userID channelID guildID content : string) (msgType : Z) (replyToID : string)
      (attachmentIDs : list string) (forward : option MessageService.ForwardSource) (mentionIDs : list string)
  | OpEdit (userID channelID guildID messageID content : string)
  | OpDelete (userID channelID guildID messageID : string)
  | OpPin (userID channelID guildID messageID : string) (pinned : bool)
  | OpBulkDelete (userID channelID guildID : string) (messageIDs : list string).
Definition run_message (op : message_op) : GoM World unit :=
  match op with
  | OpSend u ch g content ty re atts fw ms =>
      ignore (MessageService.SendMessage lpb dml media u ch g content ty re atts fw ms)
  | OpEdit u ch g id content => ignore (MessageService.EditMessage lpb dml u ch g id content)
  | OpDelete u ch g id => ignore (MessageService.DeleteMessage lpb dml u ch g id)
  | OpPin u ch g id pinned => ignore (MessageService.setPinned lpb dml u ch g id pinned)
  | OpBulkDelete u ch g ids => ignore (MessageService.BulkDeleteMessages u ch g ids)
  end.
Lemma keeps_now : steps keeps_stamps now.
Proof. exact (steps_now_cass _). Qed.
Lemma keeps_uuid : steps keeps_stamps new_uuid.
Proof. exact (steps_new_uuid_cass _). Qed.
Lemma keeps_Publish s e : steps keeps_stamps (Publish s e).
Proof. exact (steps_Publish_cass _ s e). Qed.
Lemma keeps_check u ch r : steps keeps_stamps (Authz.checkChannel u ch r).
Proof. apply silent_keeps, silent_checkChannel. Qed.
Lemma keeps_Check u r g : steps keeps_stamps (Authz.Check u r g).
Proof. apply silent_keeps, silent_Check. Qed.
Lemma keeps_resolve (m : MediaResolver) f u : steps keeps_stamps (mr_ResolveAttachment m f u).
Proof. apply silent_keeps, mr_silent. Qed.
Lemma keeps_members (l : DMChannelLister) ch : steps keeps_stamps (dml_GetDMChannelMemberIDs l ch).
Proof. apply silent_keeps, dml_members_silent. Qed.
#[local] Hint Resolve keeps_now keeps_uuid keeps_Publish keeps_check keeps_Check keeps_resolve keeps_members : steps.
Lemma keeps_parse s e : steps keeps_stamps (MessageService.gocqlParseUUID s e).
Proof. unfold MessageService.gocqlParseUUID. steps_auto. Qed.
#[local] Hint Resolve keeps_parse : steps.
Lemma keeps_reply c s : steps keeps_stamps (MessageService.reply_target c s).
Proof. unfold MessageService.reply_target. steps_auto. Qed.
Lemma keeps_attachments ch id u fs : steps keeps_stamps (MessageService.resolve_attachments media ch id u fs).
Proof. unfold MessageService.resolve_attachments. steps_auto. Qed.
Lemma keeps_publish g ch e : steps keeps_stamps (MessageService.publishChannelEvent lpb dml g ch e).
Proof. unfold MessageService.publishChannelEvent, MessageService.dm_members. steps_auto. Qed.
#[local] Hint Resolve keeps_reply keeps_attachments keeps_publish : steps.
Lemma keeps_run op : steps keeps_stamps (run_message op).
Proof.
  destruct op; simpl; apply steps_ignore.
  - unfold MessageService.SendMessage, MessageService.post_message, MessageService.send_gate. steps_auto.
  - unfold MessageService.EditMessage, MessageService.edit_gate, MessageService.apply_edit. steps_auto.
  - unfold MessageService.DeleteMessage, MessageService.delete_gate, MessageService.apply_delete. steps_auto.
  - unfold MessageService.setPinned, MessageService.apply_pin. steps_auto.
  - unfold MessageService.BulkDeleteMessages, MessageRepo.BulkDeleteMessages. steps_auto.
Qed.
Definition run_messages (ops : list message_op) : GoM World unit := for_each ops run_message.
Lemma keeps_runs ops : steps keeps_stamps (run_messages ops).
Proof. apply steps_for_each; [apply _|]. apply keeps_run. Qed.

Context `{!PresenceReader}.
Hypothesis presence_silent : ∀ f u, User.GetLiveStatus = Some f → steps silent (f u).

(** C30: what a sync omits. From a message store in which only deletions are
    stamped (an empty one, say), after any sequence of sends, edits,
    deletions, pins and bulk deletions, every message a sync delivers is a
    deleted one: a message sent or edited since the last visit is never
    among them. *)
Theorem Sync_delivers_only_tombstones ops w msgRepo ctx t w2 resp w3 :
  stamps_are_deletions (cass w) →
  cass w2 = cass (run_messages ops w).2 →
  Sync msgRepo ctx t w2 = (Ok resp, w3) →
  Forall (λ s, sm_IsDeleted s = true) (SyncMessages resp).
Proof.
  intros Hw Hc E. pose proof (keeps_runs ops w Hw) as Hst. rewrite <-Hc in Hst.
  unfold Sync in E. apply bind_Ok_inv in E as (? & w4 & Hens & E). apply ensure_Ok_inv in Hens as [_ ->].
  destruct (uuid_parse _) as [uid|]; [|done].
  destruct (gives_sync_since presence_silent msgRepo _ _ uid (default 0%Z t) w2 eq_refl eq_refl) as [_ Hr].
  rewrite E in Hr. simpl in Hr. eapply Forall_impl; [exact (scope_messages _ _ _ _ Hr)|].
  intros s (ch & _ & id & m & Hm & Hu & _ & Hd & _).
  pose proof (Hst _ _ Hm Hu) as Hdel. simpl in Hdel. congruence.
Qed.

(** *** A row that crashes the handler *)
Lemma panics_sync_message d c m : m_author_id m = None → panics d c (sync_message m).
Proof.
  intros Ha. unfold sync_message.
  do 3 (eapply panics_bind_r; [apply gives_deref_eq|]; intros ? _).
  apply panics_bind_l. intros w _ _. by rewrite Ha.
Qed.
Lemma gives_any_message d c m : gives d c (sync_message m) (λ _, True).
Proof. eapply gives_mono; [apply gives_sync_message|done]. Qed.

(** A query that answers gives its rows. *)
Lemma gives_query_rows d c {A} (f : Db → error + list A) l : fault_free → f d = inr l →
  gives d c (list_or_nil (query f)) (λ xs, xs = l).
Proof.
  intros Hff Hf w Hd Hc. unfold list_or_nil, mbind, gom_bind, try.
  rewrite query_run by apply Hff. rewrite Hd, Hf. split; [by split_and!|done].
Qed.
Lemma panics_channel_messages d c t ch m : fault_free → m ∈ since c t ch → m_author_id m = None →
  panics d c (channel_messages t ch).
Proof.
  intros Hff Hm Ha. unfold channel_messages, section.
  eapply (panics_bind_r _ _ _ _ (λ r, r = inr (since c t ch))).
  - intros w Hd Hc. unfold try, Scylla.Getmessagessince, Scylla.select, cql, external.
    rewrite Hc. simpl. rewrite (Hff (tick w)). split; [split_and!; by destruct w|done].
  - intros ? ->. eapply panics_mapM; [exact Hm|by apply panics_sync_message|].
    intros y _. apply gives_any_message.
Qed.

(** The DM channels of the caller are read. *)
Definition live_dm d uid (ch : uuid) : Prop := ∃ row,
  channels d !! ch = Some row ∧ c_id row = ch ∧ (c_type row = 5%Z ∨ c_type row = 6%Z) ∧
  c_deleted row = false ∧ his_dm d uid ch.
Lemma gives_dm_ids d c uid ch : fault_free → live_dm d uid ch →
  gives d c (sync_channel_ids uid) (λ ids, ch ∈ ids).
Proof.
  intros Hff (row & Hrow & Hid & Hty & Hdel & Hdm). unfold sync_channel_ids.
  eapply gives_bind; [by eapply gives_query_rows|]. intros gs _.
  apply (gives_bind _ _ _ _ (λ _, True)).
  { eapply gives_mono; [apply (gives_mapM _ _ _ (λ _ _, True))|done]. intros g _.
    by apply gives_list_or_nil; [apply lists_query|]. }
  intros chs _. eapply gives_bind; [by eapply gives_query_rows|]. intros dms ->.
  apply gives_ret, list_elem_of_omap. exists row. rewrite uuid_parse_print, Hid. split; [|done].
  apply elem_of_app. right. apply elem_of_rows. exists ch. split; [done|].
  rewrite Hdel, !andb_true_iff. split_and!; [|done|exact Hdm].
  destruct Hty as [-> | ->]; done.
Qed.

Lemma panics_sync_since d c uid t ch m : fault_free → live_dm d uid ch →
  m ∈ since c t ch → m_author_id m = None → panics d c (sync_since true uid t).
Proof.
  intros Hff Hdm Hm Ha. unfold sync_since.
  apply (panics_bind_r _ _ _ _ (λ _, True)); [by apply gives_now|]. intros ? _.
  eapply panics_bind_r; [by apply gives_users|]. intros ? _.
  do 4 (eapply panics_bind_r; [apply (gives_section _ _ _ _ (λ _, True) (λ _, True));
    [by apply lists_query; intros; apply Forall_true|intros; by apply gives_ret]|]; intros ? _).
  eapply panics_bind_r; [apply gives_friendships|]. intros ? _.
  eapply panics_bind_r; [apply (gives_section _ _ _ _ (λ _, True) (λ _, True));
    [by apply lists_query; intros; apply Forall_true|intros; by apply gives_ret]|]; intros ? _.
  apply panics_bind_l. unfold sync_messages.
  eapply panics_bind_r; [by apply gives_dm_ids|]. intros ids Hids.
  apply panics_bind_l. eapply panics_mapM; [exact Hids|by eapply panics_channel_messages|].
  intros y _. eapply gives_mono; [apply gives_channel_messages|done].
Qed.
(** One bulk-deleted identifier, without a guild in the request. *)
Lemma bulk_delete_one attacker ch id w : fault_free → is_timeuuid id = true →
  let r := MessageService.BulkDeleteMessages attacker (uuid_print ch) "" [uuid_print id] w in
  r.1 = Ok 1%Z ∧ db r.2 = db w ∧
  cass r.2 = upsert_message ch id (set_deleted (cql_timestamp (clock (tick w)))) (cass w).
Proof.
  intros Hff Hid. unfold MessageService.BulkDeleteMessages, MessageService.gocqlParseUUID.
  rewrite uuid_parse_print. simpl. rewrite uuid_parse_print.
  unfold MessageRepo.BulkDeleteMessages, MessageRepo.DeleteMessage, Scylla.Deletemessage, Scylla.exec, cql, external.
  unfold mbind, gom_bind, mret, gom_ret, try, now. simpl. rewrite Hid. simpl.
  unfold mbind, gom_bind, mret, gom_ret. cbv beta. by rewrite !Hff.
Qed.

(** C31: one request takes the server down. Bulk-deleting, without naming a
    guild, one identifier nobody wrote succeeds for any caller, member or not,
    and leaves a row without an author in the channel; from then on a first
    sync of any member of that DM channel panics, and nothing recovers
    panics. *)
Theorem BulkDelete_then_Sync_panics attacker ch id w ctx uid w2 :
  fault_free → is_timeuuid id = true → messages (cass w) !! (ch, id) = None →
  (1000 ≤ clock (tick w))%Z →
  uuid_parse (UserIDFromContext ctx) = Some uid → live_dm (db w) uid ch →
  let r := MessageService.BulkDeleteMessages attacker (uuid_print ch) "" [uuid_print id] w in
  db w2 = db w → cass w2 = cass r.2 →
  r.1 = Ok 1%Z ∧ (Sync true ctx None w2).1 = Panic.
Proof.
  intros Hff Hid Hnew Hclock Huid Hdm r Hd Hc.
  destruct (bulk_delete_one attacker ch id w Hff Hid) as (Hok & _ & Hcr). split; [exact Hok|].
  unfold Sync. unfold string_eqb. rewrite bool_decide_eq_false_2.
  2: { intros E. rewrite E, uuid_parse_empty in Huid. done. }
  rewrite Huid. change (sync_since true uid (default 0%Z None)) with (sync_since true uid 0%Z).
  set (row := set_deleted (cql_timestamp (clock (tick w))) (empty_message ch id)).
  apply (panics_sync_since (db w) (cass w2) uid 0 ch row); try done.
  apply elem_of_since. exists id, (cql_timestamp (clock (tick w))). split_and!; [|done|].
  - rewrite Hc. unfold r. rewrite Hcr. unfold upsert_message. simpl. by rewrite lookup_insert_eq, Hnew.
  - unfold cql_timestamp. change (1000 * (0 `div` 1000))%Z with 0%Z.
    assert (1 ≤ clock (tick w) `div` 1000)%Z; [|lia]. apply Z.div_le_lower_bound; lia.
Qed.
End Stamps.

(** ** Worked examples, with the presence service behind the reader *)
Lemma presence_reader_silent `{Env} `{!RedisServer} f u :
  @User.GetLiveStatus presence_reader = Some f → steps silent (f u).
Proof.
  intros [= <-] w. unfold PresenceService.GetLiveStatus, mbind, gom_bind, try, command, redis_cmd, external.
  rewrite HGETALL_law. destruct (hash_of _) as [h|], (faults (tick w)); simpl; try destruct (size h =? 0); by split_and!.
Qed.

Section Example.
#[local] Existing Instance demo_wired.
#[local] Existing Instance demo_uuid.
#[local] Existing Instance demo_cql.
#[local] Existing Instance reference_redis.
#[local] Existing Instance presence_reader.

Definition demo_ctx (u : uuid) : Context := WithUserID (mkContext None None None) (uuid_print u).
Definition sync_demo_world : World := bump message_demo_world.

Lemma Sync_scope_witness :
  silent sync_demo_world (Sync true (demo_ctx 3) None sync_demo_world).2.
Proof. apply (Sync_scope presence_reader_silent true (demo_ctx 3) None sync_demo_world). Defined.

Definition demo_history : list message_op :=
  [OpSend (uuid_print 3) (uuid_print 10) "" "hi" 0 "" [] None [];
   OpDelete (uuid_print 3) (uuid_print 10) "" (uuid_print 50)].
Definition demo_after : World := (run_messages true None None demo_history sync_demo_world).2.
Lemma demo_sync_runs : is_Ok (Sync true (demo_ctx 3) None demo_after).1 = true.
Proof. vm_compute. reflexivity. Qed.
Lemma demo_stamps : stamps_are_deletions (cass sync_demo_world).
Proof.
  intros k m Hm. unfold sync_demo_world in Hm. simpl in Hm.
  repeat (apply lookup_insert_Some in Hm as [[_ <-]|[_ Hm]]; [by intros []|]). apply lookup_singleton_Some in Hm as [_ <-]. by intros [].
Qed.

Lemma Sync_delivers_only_tombstones_witness :
  ∃ resp, (Sync true (demo_ctx 3) None demo_after).1 = Ok resp ∧
    Forall (λ s, sm_IsDeleted s = true) (SyncMessages resp).
Proof.
  destruct (run_Ok _ _ demo_sync_runs) as [resp E]. exists resp. split; [by rewrite E|].
  apply (Sync_delivers_only_tombstones true None None presence_reader_silent demo_history sync_demo_world
    true (demo_ctx 3) None demo_after resp _ demo_stamps eq_refl E).
Defined.

Lemma BulkDelete_then_Sync_panics_witness :
  (Sync true (demo_ctx 3) None
     (MessageService.BulkDeleteMessages "mallory" (uuid_print 10) "" [uuid_print 77] sync_demo_world).2).1 = Panic.
Proof.
  assert (live_dm (db sync_demo_world) 3 10) as Hdm.
  { eexists. split; [reflexivity|]. split; [reflexivity|]. split; [by left|]. by split. }
  destruct (BulkDelete_then_Sync_panics presence_reader_silent "mallory" 10 77 sync_demo_world
    (demo_ctx 3) 3 (MessageService.BulkDeleteMessages "mallory" (uuid_print 10) "" [uuid_print 77] sync_demo_world).2)
    as [_ HP]; [intros n; reflexivity|reflexivity|reflexivity|vm_compute; discriminate|reflexivity|exact Hdm|reflexivity|reflexivity|exact HP].
Defined.
End Example.
