(* ===== verification/Rpc.v ===== *)
(** * Rpc: what the gRPC handlers share

    The first lines of a handler ([middleware.UserIDFromContext], [parseUUID]
    of the caller and of the request's identifiers), the [switch] on
    [errors.Is] that turns a service's error into a status, and the logic
    [answers] in which the handlers are shown to end in a value or in a status
    error and never to crash.  The [parseUUID] of
    [src/internal/features/guild/handler.go] and of
    [src/internal/features/user/handler.go] is [parse_arg]. *)
From S2P Require Import Prelude Realtime Store Middleware.

(** ** The first lines of a handler *)
Definition not_authenticated : error := Status Unauthenticated "not authenticated".

Section Caller.
Context `{Env} `{!UuidText}.

Definition caller_id (ctx : Context) : GoM World string :=
  let userID := UserIDFromContext ctx in
  _ ← ensure (negb (string_eqb userID "")) not_authenticated;
  mret userID.

(** [parseUUID(s)], with the status the handler answers when it fails. *)
Definition parse_arg (s : string) (e : error) : GoM World uuid :=
  match uuid_parse s with Some u => mret u | None => fail e end.
Definition caller_uuid (ctx : Context) : GoM World uuid :=
  callerID ← caller_id ctx; parse_arg callerID (Status Internal "invalid caller id").
Definition uuid_arg (field s : string) : GoM World uuid :=
  parse_arg s (Status InvalidArgument ("invalid " +:+ field)).
End Caller.

(** [switch { case errors.Is(err, a), errors.Is(err, b): return s; ...;
    default: return dflt }]. *)
Fixpoint switch_is (cases : list (list error * error)) (dflt err : error) : error :=
  match cases with
  | [] => dflt
  | (targets, s) :: cases =>
      if existsb (errors_Is err) targets then s else switch_is cases dflt err
  end.

(** [v, _ := f()]: the zero value when it fails. *)
Definition or_zero {A} (zero : A) (m : GoM World A) : GoM World A :=
  r ← try m;
  mret (match r with inr a => a | inl _ => zero end).

(** ** Answers

    [answers P m]: a run of [m] ends in a value, or in an error of which [P]
    holds; it never panics, whatever the state and the faults. *)
Definition is_status (e : error) : Prop := match e with Status _ _ => True | _ => False end.
Definition any_error (e : error) : Prop := True.

Definition answers {S A} (P : error → Prop) (m : GoM S A) : Prop :=
  ∀ w, match (m w).1 with Ok _ => True | Err e => P e | Panic => False end.

Section Answers.
Context {S : Type} (P : error → Prop).

Lemma answers_ret {A} (a : A) : answers P (mret a : GoM S A).
Proof. by intros w. Qed.
Lemma answers_fail {A} e : P e → answers P (fail e : GoM S A).
Proof. by intros He w. Qed.
Lemma answers_gets {A} (f : S → A) : answers P (gets f).
Proof. by intros w. Qed.
Lemma answers_bind {A B} (m : GoM S A) (k : A → GoM S B) :
  answers P m → (∀ a, answers P (k a)) → answers P (m ≫= k).
Proof.
  intros Hm Hk w. specialize (Hm w). unfold mbind, gom_bind.
  destruct (m w) as [[a|e|] w1]; [apply Hk|done..].
Qed.
Lemma answers_try {A} Q (m : GoM S A) : answers Q m → answers P (try m).
Proof. intros Hm w. specialize (Hm w). unfold try. by destruct (m w) as [[?|?|] ?]. Qed.
Lemma answers_ignore {A} Q (m : GoM S A) : answers Q m → answers P (ignore m).
Proof. intros Hm w. specialize (Hm w). unfold ignore. by destruct (m w) as [[?|?|] ?]. Qed.
Lemma answers_on_err {A} Q (m : GoM S A) h :
  answers Q m → (∀ e, Q e → P (h e)) → answers P (m ?> h).
Proof.
  intros Hm Hh w. specialize (Hm w). unfold on_err.
  destruct (m w) as [[?|?|] ?]; simpl in *; auto.
Qed.
Lemma answers_ensure b e : (b = false → P e) → answers P (ensure b e : GoM S unit).
Proof. intros He. destruct b; [apply answers_ret|by apply answers_fail, He]. Qed.
Lemma answers_when b (m : GoM S unit) : answers P m → answers P (when b m).
Proof. by destruct b. Qed.
Lemma answers_for_each {A} (xs : list A) (body : A → GoM S unit) :
  (∀ x, answers P (body x)) → answers P (for_each xs body).
Proof.
  intros Hb. induction xs as [|x xs IH]; [apply answers_ret|]. by apply answers_bind.
Qed.
Lemma answers_for_fold {A B} (xs : list A) (body : B → A → GoM S B) acc :
  (∀ b x, answers P (body b x)) → answers P (for_fold xs acc body).
Proof.
  intros Hb. revert acc. induction xs as [|x xs IH]; intros acc; [apply answers_ret|].
  by apply answers_bind.
Qed.
Lemma answers_mapM {A B} (f : A → GoM S B) (xs : list A) :
  (∀ x, answers P (f x)) → answers P (mapM f xs).
Proof.
  intros Hf. induction xs as [|x xs IH]; [apply answers_ret|].
  apply answers_bind; [done|]. intros y. apply answers_bind; [done|]. intros ys. apply answers_ret.
Qed.
Lemma answers_weaken {A} (Q : error → Prop) (m : GoM S A) :
  (∀ e, Q e → P e) → answers Q m → answers P m.
Proof. intros HQ Hm w. specialize (Hm w). destruct (m w).1; auto. Qed.
End Answers.

Lemma any_errorI e : any_error e.
Proof. done. Qed.

(** ** The primitives *)
Section Primitives.
Context `{Env} `{!UuidText}.

Lemma answers_external {T A} (get : World → T) put f :
  answers any_error (external (A := A) get put f).
Proof.
  intros w. unfold external. destruct (faults _); [|done|];
    by destruct (f _ _ _) as [|[]].
Qed.
Lemma answers_RandomUUID : answers any_error RandomUUID.
Proof. intros w. unfold RandomUUID. by destruct (faults _). Qed.
Lemma answers_rand_Read n : answers any_error (rand_Read n).
Proof. intros w. unfold rand_Read. by destruct (faults _). Qed.
Lemma answers_rand_Int P max : answers P (rand_Int max).
Proof. by intros w. Qed.
Lemma answers_TimeUUID `{!CqlTypes} P : answers P TimeUUID.
Proof. by intros w. Qed.
Lemma answers_modify P (f : World → World) : answers P (modify f).
Proof. by intros w. Qed.
Lemma answers_now P : answers P now.
Proof. by intros w. Qed.
Lemma answers_new_uuid P : answers P new_uuid.
Proof. by intros w. Qed.
Lemma answers_caller_id ctx : answers is_status (caller_id ctx).
Proof. apply answers_bind; [by apply answers_ensure|]. intros _. apply answers_ret. Qed.
Lemma answers_parse_arg P s e : P e → answers P (parse_arg s e).
Proof. intros He. unfold parse_arg. destruct (uuid_parse s); [apply answers_ret|by apply answers_fail]. Qed.
Lemma answers_caller_uuid ctx : answers is_status (caller_uuid ctx).
Proof.
  apply answers_bind; [apply answers_caller_id|]. intros u. by apply answers_parse_arg.
Qed.
Lemma answers_uuid_arg field s : answers is_status (uuid_arg field s).
Proof. by apply answers_parse_arg. Qed.
Lemma answers_or_zero {A} P (zero : A) m : answers any_error m → answers P (or_zero zero m).
Proof.
  intros Hm. apply answers_bind; [by eapply answers_try|]. intros r. apply answers_ret.
Qed.

(** Without an identity nothing runs. *)
Lemma caller_id_anonymous ctx w :
  UserIDFromContext ctx = "" → caller_id ctx w = (Err not_authenticated, w).
Proof. intros E. unfold caller_id. by rewrite E. Qed.
Lemma caller_uuid_anonymous ctx w :
  UserIDFromContext ctx = "" → caller_uuid ctx w = (Err not_authenticated, w).
Proof. intros E. unfold caller_uuid, mbind, gom_bind. by rewrite caller_id_anonymous. Qed.
Lemma caller_id_known ctx w :
  UserIDFromContext ctx ≠ "" → caller_id ctx w = (Ok (UserIDFromContext ctx), w).
Proof.
  intros E. unfold caller_id. unfold string_eqb. by rewrite bool_decide_eq_false_2.
Qed.
Lemma caller_uuid_known ctx u w :
  UserIDFromContext ctx = uuid_print u → caller_uuid ctx w = (Ok u, w).
Proof.
  intros E. unfold caller_uuid, mbind, gom_bind.
  rewrite caller_id_known by (rewrite E; apply uuid_print_nonempty).
  unfold parse_arg. by rewrite E, uuid_parse_print.
Qed.
Lemma caller_uuid_parsed ctx u w :
  uuid_parse (UserIDFromContext ctx) = Some u → caller_uuid ctx w = (Ok u, w).
Proof.
  intros E. unfold caller_uuid, mbind, gom_bind. rewrite caller_id_known.
  - unfold parse_arg. by rewrite E.
  - intros E'. by rewrite E', uuid_parse_empty in E.
Qed.
Lemma uuid_arg_print field u w : uuid_arg field (uuid_print u) w = (Ok u, w).
Proof. unfold uuid_arg, parse_arg. by rewrite uuid_parse_print. Qed.
End Primitives.

Lemma switch_is_status cases dflt err :
  Forall (λ c : list error * error, is_status c.2) cases → is_status dflt →
  is_status (switch_is cases dflt err).
Proof.
  intros Hc Hd. induction Hc as [|[targets s] cases Hs Hc IH]; [done|]. simpl. by destruct (existsb _ _).
Qed.

Create HintDb answers.
#[export] Hint Resolve any_errorI answers_ret answers_gets answers_external answers_now
  answers_new_uuid answers_RandomUUID answers_rand_Read answers_rand_Int answers_TimeUUID
  answers_modify answers_caller_id answers_caller_uuid answers_uuid_arg : answers.

(** [answers_auto] walks a program and unfolds its calls, down to the
    primitives and to the lemmas of the [answers] database. *)
Ltac answers_step :=
  first
    [ solve [eauto 3 with answers]
    | match goal with |- ∀ _, _ => intro end
    | apply answers_bind
    | apply answers_fail | apply answers_ensure
    | apply (answers_try _ any_error) | apply (answers_ignore _ any_error)
    | apply (answers_on_err _ any_error)
    | apply answers_when | apply answers_for_each | apply answers_for_fold | apply answers_mapM
    | apply answers_or_zero
    | progress cbv zeta
    | exact I
    | match goal with
      | |- answers _ (match ?x with _ => _ end) => destruct x
      | |- is_status (switch_is _ _ _) => apply switch_is_status; [repeat constructor|exact I]
      | |- is_status (match ?x with _ => _ end) => destruct x
      | |- is_status ?e => let f := head_of e in unfold f
      | |- answers _ ?m => let f := head_of m in unfold f
      end ].
Ltac answers_auto := repeat answers_step.
