(* ===== verification/GuildApi.v ===== *)
(** * GuildApi: the gRPC surface of the guild service

    Models [src/internal/features/guild/handler.go] (Module [GuildHandler]):
    one definition per RPC, with the identity check, the parsing of the
    request, the call of the service and the table of error statuses in the
    order of the code, and the conversions of rows to protobuf messages.  The
    enum [Permission] is that of [src/gen/guild/v1/guild.pb.go].  [GuildRPC]
    lists the requests of the service with the type of their response, and
    [serve] is the dispatch that [guild_grpc.pb.go] generates. *)
From S2P Require Import Prelude Realtime Store Queries Authz Guild Redis Middleware Rpc.

(** ** Messages *)
Record GuildPb := mkGuildPb {
  gpb_Id : string; gpb_Name : string; gpb_Description : string; gpb_IconUrl : string;
  gpb_BannerUrl : string; gpb_OwnerId : string; gpb_MemberCount : Z; gpb_CreatedAt : option time }.
Record GuildMemberPb := mkGuildMemberPb {
  gmpb_UserId : string; gmpb_GuildId : string; gmpb_Nickname : string;
  gmpb_JoinedAt : option time }.
Record RolePb := mkRolePb {
  rpb_Id : string; rpb_GuildId : string; rpb_Name : string; rpb_Color : string;
  rpb_Position : Z; rpb_CreatedAt : option time }.
Record InvitePb := mkInvitePb {
  ipb_Code : string; ipb_GuildId : string; ipb_ChannelId : string; ipb_CreatorId : string;
  ipb_MaxUses : Z; ipb_Uses : Z; ipb_Url : string; ipb_ExpiresAt : option time;
  ipb_CreatedAt : option time }.
Record InviteChannelInfo := mkInviteChannelInfo {
  ici_Id : string; ici_Name : string; ici_Type : Z; ici_Topic : string; ici_Position : Z;
  ici_ParentId : string }.
Record InvitePreview := mkInvitePreview {
  ip_Code : string; ip_GuildId : string; ip_GuildName : string; ip_GuildIconUrl : string;
  ip_Description : string; ip_MemberCount : Z; ip_ChannelCount : Z; ip_InviterUsername : string;
  ip_MaxUses : Z; ip_Uses : Z; ip_AlreadyMember : bool; ip_ExpiresAt : option time }.
Record JoinGuildResponse := mkJoinGuildResponse {
  jgr_Guild : GuildPb; jgr_Channels : list InviteChannelInfo; jgr_MemberCount : Z }.

(** ** The enum Permission *)
Definition Permission_list : list string :=
  ["UNSPECIFIED"; "VIEW_CHANNELS"; "SEND_MESSAGES"; "MANAGE_MESSAGES"; "MANAGE_CHANNELS";
   "MANAGE_GUILD"; "KICK_MEMBERS"; "BAN_MEMBERS"; "MANAGE_ROLES"; "MANAGE_INVITES";
   "ADD_REACTIONS"; "CONNECT"; "SPEAK"; "STREAM"; "MUTE_MEMBERS"; "DEAFEN_MEMBERS";
   "MENTION_EVERYONE"; "MANAGE_EMOJIS"; "MANAGE_WEBHOOKS"; "ADMINISTRATOR"; "VIEW_AUDIT_LOG";
   "VIEW_GUILD_INSIGHTS"; "MANAGE_NICKNAMES"; "CHANGE_NICKNAME"; "CREATE_GUILD_EXPRESSIONS";
   "MODERATE_MEMBERS"; "VIEW_CREATOR_MONETIZATION_ANALYTICS"; "SEND_TTS_MESSAGES";
   "EMBED_LINKS"; "ATTACH_FILES"; "READ_MESSAGE_HISTORY"; "USE_EXTERNAL_EMOJIS";
   "USE_EXTERNAL_STICKERS"; "USE_EXTERNAL_SOUNDS"; "USE_EXTERNAL_APPS"; "PRIORITY_SPEAKER";
   "MOVE_MEMBERS"; "USE_VAD"; "REQUEST_TO_SPEAK"; "USE_SOUNDBOARD"; "USE_EMBEDDED_ACTIVITIES";
   "SEND_VOICE_MESSAGES"; "SEND_POLLS"; "PIN_MESSAGES"; "BYPASS_SLOWMODE";
   "CREATE_PUBLIC_THREADS"; "CREATE_PRIVATE_THREADS"; "SEND_MESSAGES_IN_THREADS";
   "MANAGE_THREADS"; "CREATE_EVENTS"; "MANAGE_EVENTS"].
(** [Permission_name]: the value of index [n] is [PERMISSION_] and the [n]-th
    text of the list. *)
Definition Permission_name : list (Z * string) :=
  imap (λ n s, (Z.of_nat n, "PERMISSION_" +:+ s)) Permission_list.
(** [Permission.String]: the name, or the number of an unknown value. *)
Definition Permission_String (p : Z) : string :=
  match find (λ e : Z * string, Z.eqb e.1 p) Permission_name with
  | Some (_, name) => name
  | None => FormatInt p
  end.
Definition nameToEnum : gmap string Z :=
  list_to_map ((λ e : Z * string, (TrimPrefix e.2 "PERMISSION_", e.1)) <$> Permission_name).

Module GuildHandler.
Import GuildService.
Section Handler.
Context `{Env} `{!UuidText}.
(** The fields of the service the handler was built with. *)
Variables (minio signer : option MinioClient) (bucket inviteBaseURL : string).

(** *** Conversions *)
Definition dbGuildToProto (g : Guild) (memberCount : Z) : GuildPb :=
  mkGuildPb (uuid_print (g_id g)) (g_name g) (g_description g) (g_icon_url g) (g_banner_url g)
    (uuid_print (g_owner_id g)) memberCount (Some (g_created_at g)).
Definition toProto (g : Guild) (memberCount : Z) : GuildPb :=
  let pg := dbGuildToProto g memberCount in
  mkGuildPb (gpb_Id pg) (gpb_Name pg) (gpb_Description pg)
    (ResolveIconURL signer bucket (g_icon_url g)) (ResolveBannerURL signer bucket (g_banner_url g))
    (gpb_OwnerId pg) (gpb_MemberCount pg) (gpb_CreatedAt pg).
Definition dbGuildMemberToProto (m : GuildMember) : GuildMemberPb :=
  mkGuildMemberPb (uuid_print (gm_user_id m)) (uuid_print (gm_guild_id m)) (gm_nickname m)
    (Some (gm_joined_at m)).
Definition dbRoleToProto (r : Role) : RolePb :=
  mkRolePb (uuid_print (r_id r)) (uuid_print (r_guild_id r)) (r_name r) (r_color r)
    (r_position r) (Some (r_created_at r)).
Definition inviteToProto (inv : Invite) : InvitePb :=
  mkInvitePb (i_code inv) (uuid_print (i_guild_id inv)) (uuid_print (i_channel_id inv))
    (uuid_print (i_creator_id inv)) (i_max_uses inv) (i_uses inv)
    (BuildInviteURL inviteBaseURL (i_code inv)) (i_expires_at inv) (Some (i_created_at inv)).
Definition dbChannelsToInfos (channels : list Channel) : list InviteChannelInfo :=
  (λ c, mkInviteChannelInfo (uuid_print (c_id c)) (c_name c) (c_type c) (c_topic c)
          (c_position c) (match c_parent_id c with Some p => uuid_print p | None => "" end))
  <$> channels.

(** *** Guilds *)
Definition CreateGuild (ctx : Context) (name description iconURL : string) : GoM World GuildPb :=
  ownerPgID ← caller_uuid ctx;
  guild ← GuildService.CreateGuild ownerPgID name description iconURL
          ?> (λ _, Status Internal "failed to create guild");
  mret (toProto guild 1).

Definition GetGuild (ctx : Context) (guildID : string) : GoM World GuildPb :=
  pgID ← uuid_arg "guild_id" guildID;
  '(guild, memberCount) ← GuildService.GetGuild pgID
    ?> switch_is [([ErrGuildNotFound], Status NotFoundCode "guild not found")]
         (Status Internal "failed to get guild");
  mret (toProto guild (int32 memberCount)).

Definition upload_status : error → error :=
  switch_is
    [([ErrInsufficientPermissions], Status PermissionDenied "cannot manage this guild");
     ([ErrGuildNotFound], Status NotFoundCode "guild not found")]
    (Status Internal "%v").
Definition UploadGuildIcon (ctx : Context) (guildID filename contentType data : string) :
    GoM World (string * GuildPb) :=
  callerPgID ← caller_uuid ctx;
  guildPgID ← uuid_arg "guild_id" guildID;
  '(guild, iconURL) ← GuildService.UploadGuildIcon minio signer bucket callerPgID guildPgID
                        filename contentType data ?> upload_status;
  mret (iconURL, toProto guild 0).
Definition UploadGuildBanner (ctx : Context) (guildID filename contentType data : string) :
    GoM World (string * GuildPb) :=
  callerPgID ← caller_uuid ctx;
  guildPgID ← uuid_arg "guild_id" guildID;
  '(guild, bannerURL) ← GuildService.UploadGuildBanner minio signer bucket callerPgID guildPgID
                          filename contentType data ?> upload_status;
  mret (bannerURL, toProto guild 0).

Definition UpdateGuild (ctx : Context) (guildID : string)
    (name description iconURL bannerURL : option string) : GoM World GuildPb :=
  callerPgID ← caller_uuid ctx;
  guildPgID ← uuid_arg "guild_id" guildID;
  let params := Queries.mkUpdateGuildParams guildPgID name description iconURL bannerURL in
  guild ← GuildService.UpdateGuild callerPgID guildPgID params
    ?> switch_is
         [([ErrGuildNotFound], Status NotFoundCode "guild not found");
          ([ErrNotGuildOwner],
           Status PermissionDenied "only the guild owner can update the guild")]
         (Status Internal "failed to update guild");
  count ← or_zero 0%Z (Queries.CountGuildMembers guildPgID);
  mret (toProto guild (int32 count)).

Definition DeleteGuild (ctx : Context) (guildID : string) : GoM World unit :=
  callerPgID ← caller_uuid ctx;
  guildPgID ← uuid_arg "guild_id" guildID;
  GuildService.DeleteGuild callerPgID guildPgID
    ?> switch_is
         [([ErrGuildNotFound], Status NotFoundCode "guild not found");
          ([ErrNotGuildOwner],
           Status PermissionDenied "only the guild owner can delete the guild")]
         (Status Internal "failed to delete guild").

Definition ListUserGuilds (ctx : Context) : GoM World (list GuildPb) :=
  pgID ← caller_uuid ctx;
  guilds ← GuildService.ListUserGuilds pgID ?> (λ _, Status Internal "failed to list guilds");
  mret ((λ g, toProto g 0) <$> guilds).

(** *** Invites *)
Definition JoinGuild (ctx : Context) (inviteCode : string) : GoM World JoinGuildResponse :=
  pgID ← caller_uuid ctx;
  result ← GuildService.JoinGuild pgID inviteCode
    ?> switch_is
         [([ErrInviteNotFound], Status NotFoundCode "invite not found");
          ([ErrInviteExpired], Status FailedPrecondition "invite has expired");
          ([ErrInviteMaxUses], Status FailedPrecondition "invite has reached maximum uses");
          ([ErrUserBanned], Status PermissionDenied "you are banned from this guild");
          ([ErrAlreadyMember], Status AlreadyExists "already a member of this guild")]
         (Status Internal "failed to join guild");
  mret (mkJoinGuildResponse (toProto (jr_Guild result) (int32 (jr_MemberCount result)))
          (dbChannelsToInfos (jr_Channels result)) (int32 (jr_MemberCount result))).

(** The caller, when the context has one that parses. *)
Definition optional_caller (ctx : Context) : option uuid :=
  let callerID := UserIDFromContext ctx in
  if string_eqb callerID "" then None else uuid_parse callerID.
Definition PreviewInvite (ctx : Context) (inviteCode : string) : GoM World InvitePreview :=
  result ← GuildService.PreviewInvite (optional_caller ctx) inviteCode
    ?> switch_is
         [([ErrInviteNotFound; ErrGuildNotFound], Status NotFoundCode "invite not found");
          ([ErrInviteExpired], Status FailedPrecondition "invite has expired");
          ([ErrInviteMaxUses], Status FailedPrecondition "invite has reached maximum uses");
          ([ErrUserBanned], Status PermissionDenied "you are banned from this guild")]
         (Status Internal "failed to preview invite");
  let inv := pr_Invite result in
  let g := pr_Guild result in
  mret (mkInvitePreview (i_code inv) (uuid_print (g_id g)) (g_name g)
          (ResolveIconURL signer bucket (g_icon_url g)) (g_description g)
          (int32 (pr_MemberCount result)) (pr_ChannelCount result) (pr_InviterUsername result)
          (i_max_uses inv) (i_uses inv) (pr_AlreadyMember result) (i_expires_at inv)).

Definition CreateInvite (ctx : Context) (guildID channelID : string) (maxUses maxAge : Z) :
    GoM World InvitePb :=
  callerPgID ← caller_uuid ctx;
  guildPgID ← uuid_arg "guild_id" guildID;
  channelPgID ← (if string_eqb channelID "" then mret None
                 else c ← uuid_arg "channel_id" channelID; mret (Some c));
  invite ← GuildService.CreateInvite callerPgID guildPgID channelPgID maxUses maxAge
    ?> switch_is
         [([ErrNotGuildMember],
           Status PermissionDenied "must be a guild member to create invites")]
         (Status Internal "failed to create invite");
  mret (inviteToProto invite).

(** *** Members *)
Definition LeaveGuild (ctx : Context) (guildID : string) : GoM World unit :=
  callerPgID ← caller_uuid ctx;
  guildPgID ← uuid_arg "guild_id" guildID;
  GuildService.LeaveGuild callerPgID guildPgID
    ?> switch_is
         [([ErrGuildNotFound], Status NotFoundCode "guild not found");
          ([ErrOwnerCannotLeave], Status FailedPrecondition "guild owner cannot leave the guild");
          ([ErrNotGuildMember], Status NotFoundCode "not a member of this guild")]
         (Status Internal "failed to leave guild").

(** [after] is read and dropped: the offset is always zero. *)
Definition ListMembers (ctx : Context) (guildID : string) (limit : Z) (after : string) :
    GoM World (list GuildMemberPb) :=
  guildPgID ← uuid_arg "guild_id" guildID;
  let limit := if (limit <=? 0)%Z then 50%Z else limit in
  members ← GuildService.ListMembers guildPgID limit 0
            ?> (λ _, Status Internal "failed to list members");
  mret (dbGuildMemberToProto <$> members).

Definition KickMember (ctx : Context) (guildID userID : string) : GoM World unit :=
  callerPgID ← caller_uuid ctx;
  guildPgID ← uuid_arg "guild_id" guildID;
  targetPgID ← uuid_arg "user_id" userID;
  GuildService.KickMember callerPgID guildPgID targetPgID
    ?> switch_is
         [([ErrGuildNotFound], Status NotFoundCode "guild not found");
          ([ErrNotGuildOwner; ErrInsufficientPermissions],
           Status PermissionDenied "only the guild owner can kick members");
          ([ErrCannotKickOwner], Status InvalidArgument "cannot kick the guild owner");
          ([ErrMemberNotFound], Status NotFoundCode "member not found")]
         (Status Internal "failed to kick member").

Definition BanMember (ctx : Context) (guildID userID reason : string) : GoM World unit :=
  callerPgID ← caller_uuid ctx;
  guildPgID ← uuid_arg "guild_id" guildID;
  targetPgID ← uuid_arg "user_id" userID;
  GuildService.BanMember callerPgID guildPgID targetPgID reason
    ?> switch_is
         [([ErrGuildNotFound], Status NotFoundCode "guild not found");
          ([ErrNotGuildOwner; ErrInsufficientPermissions],
           Status PermissionDenied "only the guild owner can ban members");
          ([ErrCannotBanOwner], Status InvalidArgument "cannot ban the guild owner")]
         (Status Internal "failed to ban member").

Definition UnbanMember (ctx : Context) (guildID userID : string) : GoM World unit :=
  callerPgID ← caller_uuid ctx;
  guildPgID ← uuid_arg "guild_id" guildID;
  targetPgID ← uuid_arg "user_id" userID;
  GuildService.UnbanMember callerPgID guildPgID targetPgID
    ?> switch_is
         [([ErrGuildNotFound], Status NotFoundCode "guild not found");
          ([ErrNotGuildOwner; ErrInsufficientPermissions],
           Status PermissionDenied "only the guild owner can unban members");
          ([ErrUserNotBanned], Status NotFoundCode "user is not banned")]
         (Status Internal "failed to unban member").

(** *** Roles *)
Definition CreateRole (ctx : Context) (guildID name color : string) : GoM World RolePb :=
  callerPgID ← caller_uuid ctx;
  guildPgID ← uuid_arg "guild_id" guildID;
  role ← GuildService.CreateRole callerPgID guildPgID name color
    ?> switch_is
         [([ErrNotGuildOwner], Status PermissionDenied "only the guild owner can create roles")]
         (Status Internal "failed to create role");
  mret (dbRoleToProto role).

Definition UpdateRole (ctx : Context) (guildID roleID : string)
    (name color : option string) (position : option Z) : GoM World RolePb :=
  callerPgID ← caller_uuid ctx;
  guildPgID ← uuid_arg "guild_id" guildID;
  rolePgID ← uuid_arg "role_id" roleID;
  let params := Queries.mkUpdateRoleParams rolePgID name color position in
  role ← GuildService.UpdateRole callerPgID guildPgID params
    ?> switch_is
         [([ErrNotGuildOwner], Status PermissionDenied "only the guild owner can update roles")]
         (Status Internal "failed to update role");
  mret (dbRoleToProto role).

Definition DeleteRole (ctx : Context) (guildID roleID : string) : GoM World unit :=
  callerPgID ← caller_uuid ctx;
  guildPgID ← uuid_arg "guild_id" guildID;
  rolePgID ← uuid_arg "role_id" roleID;
  GuildService.DeleteRole callerPgID guildPgID rolePgID
    ?> switch_is
         [([ErrNotGuildOwner; ErrInsufficientPermissions],
           Status PermissionDenied "only the guild owner can delete roles");
          ([ErrRoleNotFound], Status NotFoundCode "role not found")]
         (Status Internal "failed to delete role").

Definition AssignRole (ctx : Context) (guildID userID roleID : string) : GoM World unit :=
  callerPgID ← caller_uuid ctx;
  guildPgID ← uuid_arg "guild_id" guildID;
  targetPgID ← uuid_arg "user_id" userID;
  rolePgID ← uuid_arg "role_id" roleID;
  GuildService.AssignRole callerPgID guildPgID targetPgID rolePgID
    ?> switch_is
         [([ErrNotGuildOwner; ErrInsufficientPermissions],
           Status PermissionDenied "only the guild owner can assign roles");
          ([ErrMemberNotFound], Status NotFoundCode "member not found");
          ([ErrRoleNotFound], Status NotFoundCode "role not found")]
         (Status Internal "failed to assign role").

Definition RemoveRole (ctx : Context) (guildID userID roleID : string) : GoM World unit :=
  callerPgID ← caller_uuid ctx;
  guildPgID ← uuid_arg "guild_id" guildID;
  targetPgID ← uuid_arg "user_id" userID;
  rolePgID ← uuid_arg "role_id" roleID;
  GuildService.RemoveRole callerPgID guildPgID targetPgID rolePgID
    ?> switch_is
         [([ErrNotGuildOwner], Status PermissionDenied "only the guild owner can remove roles")]
         (Status Internal "failed to remove role").

Definition TransferOwnership (ctx : Context) (guildID newOwnerID : string) : GoM World GuildPb :=
  callerPgID ← caller_uuid ctx;
  guildPgID ← uuid_arg "guild_id" guildID;
  newOwnerPgID ← uuid_arg "new_owner_id" newOwnerID;
  guild ← GuildService.TransferOwnership callerPgID guildPgID newOwnerPgID
    ?> switch_is
         [([ErrGuildNotFound], Status NotFoundCode "guild not found");
          ([ErrNotGuildOwner],
           Status PermissionDenied "only the guild owner can transfer ownership");
          ([ErrMemberNotFound], Status NotFoundCode "new owner must be a member of the guild")]
         (Status Internal "failed to transfer ownership");
  count ← or_zero 0%Z (Queries.CountGuildMembers guildPgID);
  mret (toProto guild (int32 count)).

(** *** Permissions *)
Definition GrantPermission (ctx : Context) : GoM World unit :=
  fail (Status Unimplemented "user-scoped guild permissions are no longer supported; use GrantRolePermission, or SetChannelOverride for per-channel rules").
Definition RevokePermission (ctx : Context) : GoM World unit :=
  fail (Status Unimplemented "user-scoped guild permissions are no longer supported; use RevokeRolePermission, or DeleteChannelOverride for per-channel rules").

Definition role_permission_status : error → error :=
  switch_is
    [([ErrInsufficientPermissions], Status PermissionDenied "cannot manage roles");
     ([ErrRoleNotFound], Status NotFoundCode "role not found");
     ([ErrInvalidPermission], Status InvalidArgument "unknown permission")]
    (Status Internal "%v").
Definition GrantRolePermission (ctx : Context) (guildID roleID : string) (permission : Z) :
    GoM World unit :=
  callerPg ← caller_uuid ctx;
  guildPg ← uuid_arg "guild_id" guildID;
  rolePg ← uuid_arg "role_id" roleID;
  GuildService.GrantRolePermission callerPg guildPg rolePg
    (TrimPrefix (Permission_String permission) "PERMISSION_") ?> role_permission_status.
Definition RevokeRolePermission (ctx : Context) (guildID roleID : string) (permission : Z) :
    GoM World unit :=
  callerPg ← caller_uuid ctx;
  guildPg ← uuid_arg "guild_id" guildID;
  rolePg ← uuid_arg "role_id" roleID;
  GuildService.RevokeRolePermission callerPg guildPg rolePg
    (TrimPrefix (Permission_String permission) "PERMISSION_") ?> role_permission_status.

Definition GetUserPermissions (ctx : Context) (userID guildID : string) : GoM World (list Z) :=
  _ ← caller_id ctx;
  names ← Authz.ListGuildPermissions userID guildID ?> (λ _, Status Internal "%v");
  mret (omap (λ n, nameToEnum !! n) names).
End Handler.
End GuildHandler.

(** ** The service as gRPC sees it *)
Inductive GuildRPC : Type → Type :=
  | RpcCreateGuild (name description iconURL : string) : GuildRPC GuildPb
  | RpcGetGuild (guildID : string) : GuildRPC GuildPb
  | RpcUpdateGuild (guildID : string) (name description iconURL bannerURL : option string) :
      GuildRPC GuildPb
  | RpcUploadGuildIcon (guildID filename contentType data : string) : GuildRPC (string * GuildPb)
  | RpcUploadGuildBanner (guildID filename contentType data : string) : GuildRPC (string * GuildPb)
  | RpcDeleteGuild (guildID : string) : GuildRPC unit
  | RpcListUserGuilds : GuildRPC (list GuildPb)
  | RpcPreviewInvite (inviteCode : string) : GuildRPC InvitePreview
  | RpcJoinGuild (inviteCode : string) : GuildRPC JoinGuildResponse
  | RpcLeaveGuild (guildID : string) : GuildRPC unit
  | RpcListMembers (guildID : string) (limit : Z) (after : string) : GuildRPC (list GuildMemberPb)
  | RpcKickMember (guildID userID : string) : GuildRPC unit
  | RpcBanMember (guildID userID reason : string) : GuildRPC unit
  | RpcUnbanMember (guildID userID : string) : GuildRPC unit
  | RpcCreateInvite (guildID channelID : string) (maxUses maxAge : Z) : GuildRPC InvitePb
  | RpcCreateRole (guildID name color : string) : GuildRPC RolePb
  | RpcUpdateRole (guildID roleID : string) (name color : option string) (position : option Z) :
      GuildRPC RolePb
  | RpcDeleteRole (guildID roleID : string) : GuildRPC unit
  | RpcAssignRole (guildID userID roleID : string) : GuildRPC unit
  | RpcRemoveRole (guildID userID roleID : string) : GuildRPC unit
  | RpcTransferOwnership (guildID newOwnerID : string) : GuildRPC GuildPb
  | RpcGrantPermission : GuildRPC unit
  | RpcRevokePermission : GuildRPC unit
  | RpcGetUserPermissions (userID guildID : string) : GuildRPC (list Z)
  | RpcGrantRolePermission (guildID roleID : string) (permission : Z) : GuildRPC unit
  | RpcRevokeRolePermission (guildID roleID : string) (permission : Z) : GuildRPC unit.

Definition guild_method {A} (r : GuildRPC A) : string :=
  "/guild.v1.GuildService/" +:+
  match r with
  | RpcCreateGuild _ _ _ => "CreateGuild" | RpcGetGuild _ => "GetGuild"
  | RpcUpdateGuild _ _ _ _ _ => "UpdateGuild" | RpcUploadGuildIcon _ _ _ _ => "UploadGuildIcon"
  | RpcUploadGuildBanner _ _ _ _ => "UploadGuildBanner" | RpcDeleteGuild _ => "DeleteGuild"
  | RpcListUserGuilds => "ListUserGuilds" | RpcPreviewInvite _ => "PreviewInvite"
  | RpcJoinGuild _ => "JoinGuild" | RpcLeaveGuild _ => "LeaveGuild"
  | RpcListMembers _ _ _ => "ListMembers" | RpcKickMember _ _ => "KickMember"
  | RpcBanMember _ _ _ => "BanMember" | RpcUnbanMember _ _ => "UnbanMember"
  | RpcCreateInvite _ _ _ _ => "CreateInvite" | RpcCreateRole _ _ _ => "CreateRole"
  | RpcUpdateRole _ _ _ _ _ => "UpdateRole" | RpcDeleteRole _ _ => "DeleteRole"
  | RpcAssignRole _ _ _ => "AssignRole" | RpcRemoveRole _ _ _ => "RemoveRole"
  | RpcTransferOwnership _ _ => "TransferOwnership" | RpcGrantPermission => "GrantPermission"
  | RpcRevokePermission => "RevokePermission" | RpcGetUserPermissions _ _ => "GetUserPermissions"
  | RpcGrantRolePermission _ _ _ => "GrantRolePermission"
  | RpcRevokeRolePermission _ _ _ => "RevokeRolePermission"
  end.

Section Serve.
Context `{Env} `{!UuidText} `{!Jwt}.
Variables (minio signer : option GuildService.MinioClient) (bucket inviteBaseURL secret : string).
Import GuildHandler.

(** The dispatch of the generated service descriptor. *)
Definition guild_serve {A} (r : GuildRPC A) (ctx : Context) : GoM World A :=
  match r in GuildRPC A return GoM World A with
  | RpcCreateGuild name description iconURL =>
      CreateGuild signer bucket ctx name description iconURL
  | RpcGetGuild guildID => GetGuild signer bucket ctx guildID
  | RpcUpdateGuild guildID name description iconURL bannerURL =>
      UpdateGuild signer bucket ctx guildID name description iconURL bannerURL
  | RpcUploadGuildIcon guildID filename contentType data =>
      UploadGuildIcon minio signer bucket ctx guildID filename contentType data
  | RpcUploadGuildBanner guildID filename contentType data =>
      UploadGuildBanner minio signer bucket ctx guildID filename contentType data
  | RpcDeleteGuild guildID => DeleteGuild ctx guildID
  | RpcListUserGuilds => ListUserGuilds signer bucket ctx
  | RpcPreviewInvite inviteCode => PreviewInvite signer bucket ctx inviteCode
  | RpcJoinGuild inviteCode => JoinGuild signer bucket ctx inviteCode
  | RpcLeaveGuild guildID => LeaveGuild ctx guildID
  | RpcListMembers guildID limit after => ListMembers ctx guildID limit after
  | RpcKickMember guildID userID => KickMember ctx guildID userID
  | RpcBanMember guildID userID reason => BanMember ctx guildID userID reason
  | RpcUnbanMember guildID userID => UnbanMember ctx guildID userID
  | RpcCreateInvite guildID channelID maxUses maxAge =>
      CreateInvite inviteBaseURL ctx guildID channelID maxUses maxAge
  | RpcCreateRole guildID name color => CreateRole ctx guildID name color
  | RpcUpdateRole guildID roleID name color position =>
      UpdateRole ctx guildID roleID name color position
  | RpcDeleteRole guildID roleID => DeleteRole ctx guildID roleID
  | RpcAssignRole guildID userID roleID => AssignRole ctx guildID userID roleID
  | RpcRemoveRole guildID userID roleID => RemoveRole ctx guildID userID roleID
  | RpcTransferOwnership guildID newOwnerID =>
      TransferOwnership signer bucket ctx guildID newOwnerID
  | RpcGrantPermission => GrantPermission ctx
  | RpcRevokePermission => RevokePermission ctx
  | RpcGetUserPermissions userID guildID => GetUserPermissions ctx userID guildID
  | RpcGrantRolePermission guildID roleID permission =>
      GrantRolePermission ctx guildID roleID permission
  | RpcRevokeRolePermission guildID roleID permission =>
      RevokeRolePermission ctx guildID roleID permission
  end.

(** A call as it arrives: the authentication interceptor in front of the
    handler. *)
Definition guild_call {A} (r : GuildRPC A) (ctx : Context) : GoM World A :=
  Auth.AuthInterceptor secret (guild_method r) ctx (guild_serve r).
End Serve.
