(* ===== verification/GuildApiFacts.v ===== *)
(** * GuildApiFacts: what a caller of the guild service sees

    Every call ends in a response or a gRPC status.  Whatever the faults, a
    call that succeeds or changes a table comes from an identified account
    with the authority [guild_access] demands of that method: the access
    matrix of the service, from the bearer token to the tables.  The preview
    of an invite is served outside the authentication gate, and so never knows
    who is asking. *)
From S2P Require Import Prelude Realtime Store Queries Authz Wp AuthzFacts Guild GuildFacts Redis Middleware MiddlewareFacts Rpc GuildApi.
Import GuildService(pr_AlreadyMember).

(** ** The access matrix *)
Section Access.
Context `{!UuidText}.

Definition at_id (s : string) (P : uuid → Prop) : Prop := ∃ g, uuid_parse s = Some g ∧ P g.
Definition live_invite (d : Db) (code : string) : Prop :=
  ∃ i, d.(invites) !! code = Some i ∧ i_deleted i = false.

(** What the account [u] must be entitled to, in the tables [d], for a call. *)
Definition guild_access {A} (r : GuildRPC A) (d : Db) (u : uuid) : Prop :=
  let holds name g := Authorized d u g name in
  match r with
  | RpcUpdateGuild gid _ _ _ _ | RpcUploadGuildIcon gid _ _ _ | RpcUploadGuildBanner gid _ _ _ =>
      at_id gid (holds "MANAGE_GUILD")
  | RpcDeleteGuild gid | RpcTransferOwnership gid _ => at_id gid (IsOwner d u)
  | RpcKickMember gid uid =>
      at_id gid (λ g, holds "KICK_MEMBERS" g ∧ at_id uid (λ t, canActOnSQL d u t g = true))
  | RpcBanMember gid uid _ =>
      at_id gid (λ g, holds "BAN_MEMBERS" g ∧ at_id uid (λ t, canActOnSQL d u t g = true))
  | RpcUnbanMember gid _ => at_id gid (holds "BAN_MEMBERS")
  | RpcCreateInvite gid _ _ _ => at_id gid (holds "MANAGE_INVITES")
  | RpcCreateRole gid _ _ | RpcUpdateRole gid _ _ _ _ | RpcDeleteRole gid _
  | RpcAssignRole gid _ _ | RpcRemoveRole gid _ _ => at_id gid (holds "MANAGE_ROLES")
  | RpcGrantRolePermission gid _ p | RpcRevokeRolePermission gid _ p =>
      at_id gid (λ g, holds "MANAGE_ROLES" g ∧
                      holds (TrimPrefix (Permission_String p) "PERMISSION_") g)
  | RpcLeaveGuild gid => at_id gid (λ g, ¬ IsOwner d u g)
  | RpcJoinGuild code => live_invite d code
  | _ => True
  end.

(** The methods that insist on an account; the others only read. *)
Definition identified {A} (r : GuildRPC A) : bool :=
  match r with
  | RpcGetGuild _ | RpcPreviewInvite _ | RpcListMembers _ _ _ | RpcGrantPermission
  | RpcRevokePermission | RpcGetUserPermissions _ _ => false
  | _ => true
  end.
End Access.

(** ** Guarded programs

    [wpd m (guard d P) d]: if [m], run on the tables [d], succeeds or changes
    them, then [P]. *)
Definition guard {A} (d : Db) (P : Prop) (o : outcome A) (d' : Db) : Prop :=
  (∃ a, o = Ok a) ∨ d' ≠ d → P.

Section Guards.
Context `{Env} `{!UuidText}.
Implicit Types (P : Prop) (d : Db).

Lemma guard_known {A} (m : GoM World A) P d : P → wpd m (guard d P) d.
Proof. by intros HP w _ _. Qed.
Lemma guard_refused {A} e P d : guard d P (Err e : outcome A) d.
Proof. by intros [[a Ha]|]. Qed.
Lemma guard_bind_l {A B} (m : GoM World A) (k : A → GoM World B) P d :
  wpd m (guard d P) d → wpd (m ≫= k) (guard d P) d.
Proof.
  intros Hm w Hw. specialize (Hm w Hw). unfold mbind, gom_bind.
  destruct (m w) as [[a|e|] w1]; simpl in *.
  - intros _. apply Hm. eauto.
  - intros [[? ?]|?]; [done|]. apply Hm. by right.
  - intros [[? ?]|?]; [done|]. apply Hm. by right.
Qed.
Lemma guard_on_err {A} (m : GoM World A) h P d :
  wpd m (guard d P) d → wpd (m ?> h) (guard d P) d.
Proof.
  intros Hm. apply wpd_on_err. eapply wpd_mono; [exact Hm|]. intros [a|e|] d'; [done| |done].
  intros He [[? ?]|?]; [done|]. apply He. by right.
Qed.
Lemma guard_arg {B} s e (k : uuid → GoM World B) P d :
  (∀ u, uuid_parse s = Some u → wpd (k u) (guard d P) d) →
  wpd (parse_arg s e ≫= k) (guard d P) d.
Proof.
  intros Hk. apply wpd_bind. unfold parse_arg. destruct (uuid_parse s) as [u|].
  - by apply wpd_ret, Hk.
  - apply wpd_fail, guard_refused.
Qed.
Lemma guard_ensure {B} b e (k : unit → GoM World B) P d :
  (b = true → wpd (k tt) (guard d P) d) → wpd (ensure b e ≫= k) (guard d P) d.
Proof. intros Hk. apply wpd_bind, wpd_ensure; [done|]. intros _. apply guard_refused. Qed.
Lemma guard_caller {B} ctx (k : uuid → GoM World B) P d :
  (∀ u, uuid_parse (UserIDFromContext ctx) = Some u → wpd (k u) (guard d P) d) →
  wpd (caller_uuid ctx ≫= k) (guard d P) d.
Proof.
  intros Hk. apply wpd_bind. unfold caller_uuid, caller_id.
  apply wpd_bind, wpd_bind, wpd_ensure; [intros _|intros _; apply guard_refused].
  apply wpd_ret. unfold parse_arg. destruct (uuid_parse _) as [u|].
  - by apply wpd_ret, Hk.
  - apply wpd_fail, guard_refused.
Qed.
(** A test of the permission layer, and the early return behind it. *)
Lemma guard_Check {B} u g relation name e (k : unit → GoM World B) P d :
  authz_wired = true → assoc relation relationToName = Some name →
  (Authorized d u g name → wpd (k tt) (guard d P) d) →
  wpd (ok ← Authz.Check (UserKey (uuid_print u)) relation (GuildKey (uuid_print g));
       ensure ok e ≫= k) (guard d P) d.
Proof.
  intros Hw Hr Hk. apply wpd_bind. apply (wpd_Check _ _ _ name); [done|]. intros b Hb _.
  apply guard_ensure. intros ->. by apply Hk, Hb.
Qed.
Lemma guard_CanActOn {B} a b g e (k : unit → GoM World B) P d :
  authz_wired = true →
  (canActOnSQL d a b g = true → wpd (k tt) (guard d P) d) →
  wpd (ok ← Authz.CanActOn (uuid_print a) (uuid_print b) (uuid_print g); ensure ok e ≫= k)
    (guard d P) d.
Proof.
  intros Hw Hk. apply wpd_bind, wpd_CanActOn. intros x Hx.
  apply guard_ensure. intros ->. by apply Hk, Hx.
Qed.
Lemma guard_row {A B} (f : Db → option A) h (k : A → GoM World B) P d :
  (∀ a, f d = Some a → wpd (k a) (guard d P) d) →
  wpd ((query (λ d, one (f d)) ?> h) ≫= k) (guard d P) d.
Proof.
  intros Hk. apply wpd_bind, wpd_on_err, wpd_one; [done|intros _; apply guard_refused..].
Qed.
(** A program that leaves the tables alone. *)
Lemma guard_read {A B} (m : GoM World A) (k : A → GoM World B) P d :
  steps (on_db eq) m → (∀ a, wpd (k a) (guard d P) d) → wpd (m ≫= k) (guard d P) d.
Proof.
  intros Hm Hk. apply wpd_bind, (wpd_steps eq); [done|].
  intros [a|e|] d' <-; [apply Hk|apply guard_refused|]. by intros [[? ?]|].
Qed.
Lemma reads_only {A} (m : GoM World A) w : steps (on_db eq) m → db (m w).2 = db w.
Proof. intros Hm. symmetry. apply Hm. Qed.
Lemma steps_parse_arg s e : steps (on_db eq) (parse_arg s e).
Proof. unfold parse_arg. steps_auto. Qed.
End Guards.
#[export] Hint Resolve steps_parse_arg : steps.

Section Authority.
Context `{Env} `{!UuidText} `{!Jwt}.
Variables (minio signer : option GuildService.MinioClient) (bucket inviteBaseURL secret : string).
Notation serve := (guild_serve minio signer bucket inviteBaseURL).
Notation call := (guild_call minio signer bucket inviteBaseURL secret).

Lemma live_owner d g u row :
  live g_deleted (d.(guilds) !! g) = Some row → IsOwner d u g ↔ uuid_eqb (g_owner_id row) u = true.
Proof.
  intros [Hg Hl]%live_Some. rewrite uuid_eqb_true. split; [|intros; by exists row].
  intros (row' & ? & _ & <-). by simplify_eq.
Qed.
Lemma not_live_owner d g u row :
  live g_deleted (d.(guilds) !! g) = Some row → negb (uuid_eqb (g_owner_id row) u) = true →
  ¬ IsOwner d u g.
Proof. intros Hl Hn%negb_true_iff Ho%(live_owner _ _ _ _ Hl). congruence. Qed.
Lemma live_owner_2 d g u row :
  live g_deleted (d.(guilds) !! g) = Some row → uuid_eqb (g_owner_id row) u = true → IsOwner d u g.
Proof. intros Hl. apply (live_owner _ _ _ _ Hl). Qed.
Lemma live_invite_intro d code i : live i_deleted (d.(invites) !! code) = Some i → live_invite d code.
Proof. intros [? ?]%live_Some. by exists i. Qed.
Local Hint Resolve live_owner_2 not_live_owner live_invite_intro : core.

(** The permission a grant names, held by the caller. *)
Lemma guard_permission {B} u g permission e (k : string → unit → GoM World B) P d :
  authz_wired = true →
  (Authorized d u g permission → ∀ relation, wpd (k relation tt) (guard d P) d) →
  wpd (relation ← GuildService.permission_relation permission;
       holds ← Authz.CanGuildPermission (uuid_print u) (uuid_print g) relation;
       ensure holds e ≫= k relation) (guard d P) d.
Proof.
  intros Hw Hk. apply wpd_bind. unfold GuildService.permission_relation.
  destruct (assoc permission PermissionRelation) as [rel|] eqn:Hrel;
    [|by apply wpd_fail, guard_refused].
  apply wpd_ret. eapply guard_Check; [done|by apply relation_of_permission|].
  intros Ha. by apply Hk.
Qed.

Ltac guarded :=
  repeat first
    [ apply guard_caller; intros ? ? | apply guard_arg; intros ? ?
    | eapply guard_Check; [assumption|reflexivity|intros ?]
    | apply guard_CanActOn; [assumption|intros ?]
    | apply guard_row; intros ? ? | apply guard_permission; [assumption|intros ? ?] | apply guard_ensure; intros ? ].

Lemma guild_serve_guarded {A} (r : GuildRPC A) ctx d :
  authz_wired = true → identified r = true →
  wpd (serve r ctx)
    (guard d (∃ u, uuid_parse (UserIDFromContext ctx) = Some u ∧ guild_access r d u)) d.
Proof.
  intros Hw Hi. destruct r; try discriminate Hi; cbn [guild_serve];
  lazymatch goal with |- wpd ?m _ _ => let f := head_of m in unfold f end; guarded.
  all: try (apply guard_known; eexists; split; [eassumption|exact I]).
  all: try (apply guard_read; [solve [unfold uuid_arg; steps_auto]|intros ?]).
  all: first [apply guard_bind_l, guard_on_err|apply guard_on_err].
  all: lazymatch goal with |- wpd ?m _ _ => let f := head_of m in unfold f end.
  all: try (destruct minio; [|by apply wpd_fail, guard_refused]); guarded.
  all: apply guard_known; eexists; split; [eassumption|]; cbn [guild_access]; unfold at_id; eauto 10.
Qed.

(** The methods that ask for no account only read. *)
Lemma guild_serve_reads {A} (r : GuildRPC A) ctx :
  identified r = false → steps (on_db eq) (serve r ctx).
Proof.
  intros Hi. destruct r; try discriminate Hi; cbn [guild_serve].
  all: repeat first [steps_step|match goal with |- steps _ ?m => let f := head_of m in unfold f end].
Qed.

Lemma guild_serve_answers {A} (r : GuildRPC A) ctx : answers is_status (serve r ctx).
Proof. destruct r; cbn [guild_serve]; answers_auto. Qed.

Lemma guild_method_open {A} (r : GuildRPC A) :
  Auth.is_open (guild_method r) = match r with RpcPreviewInvite _ => true | _ => false end.
Proof. by destruct r. Qed.

(** A call outside the gate, or behind it. *)
Lemma guild_call_cases {A} (r : GuildRPC A) ctx w :
  identified r = false ∧ call r ctx w = serve r ctx w ∨
  (∃ userID, carries ctx secret (clock (tick w)) userID ∧
     call r ctx w = serve r (WithUserID ctx userID) (bump w)) ∨
  ∃ msg w', call r ctx w = (Err (Status Unauthenticated msg), w') ∧ db w' = db w.
Proof.
  unfold guild_call, Auth.AuthInterceptor. rewrite guild_method_open.
  assert (match r with RpcPreviewInvite _ => true | _ => false end = true → identified r = false)
    as Hid by by destruct r.
  destruct (match r with RpcPreviewInvite _ => true | _ => false end); [left; auto|right].
  unfold mbind, gom_bind. destruct (Auth.extractUserID ctx secret w) as [o w1] eqn:E.
  destruct (extractUserID_Err _ _ _ _ _ E) as [[userID ->]|[[msg ->] Hw]].
  - left. apply extractUserID_Ok in E as [Hc ->]. eauto.
  - right. exists msg, w1. by destruct Hw as [->| ->].
Qed.

Lemma guild_call_access {A} (r : GuildRPC A) ctx w o w' :
  authz_wired = true → call r ctx w = (o, w') →
  (identified r = true ∧ ∃ a, o = Ok a) ∨ db w' ≠ db w →
  ∃ userID u, carries ctx secret (clock (tick w)) userID ∧ uuid_parse userID = Some u ∧
    guild_access r (db w) u.
Proof.
  intros Hw Hrun Hdone.
  destruct (guild_call_cases r ctx w) as [[Hid E]|[(userID & Hc & E)|(msg & w1 & E & Hdb)]];
    rewrite E in Hrun.
  - pose proof (reads_only _ w (guild_serve_reads r ctx Hid)) as Hdb. rewrite Hrun in Hdb. simpl in Hdb.
    destruct Hdone as [[? _]|]; congruence.
  - destruct (identified r) eqn:Hid.
    + destruct (guild_serve_guarded r (WithUserID ctx userID) (db w) Hw Hid (bump w) eq_refl)
        as (u & Hu & Ha); [|by exists userID, u].
      rewrite Hrun. destruct Hdone as [[_ ?]|?]; auto.
    + pose proof (reads_only _ (bump w) (guild_serve_reads r (WithUserID ctx userID) Hid)) as Hdb.
      rewrite Hrun in Hdb. simpl in Hdb. by destruct Hdone as [[? _]|].
  - injection Hrun as <- <-. by destruct Hdone as [[_ [? ?]]|?].
Qed.

(** C3: who may do what with guilds.  Whatever the faults, when a call of
    the guild service changes a table, or when a call of a method that asks
    for an account succeeds, the request carried a token accepted at that
    moment, its subject is the identifier of an account, and that account
    held, in the tables the call found, the authority the method requires:
    ownership, the permission at the guild level, the rank over the member
    concerned, the permission it hands out. *)
Theorem guild_call_authorized {A} (r : GuildRPC A) ctx w o w' :
  authz_wired = true → call r ctx w = (o, w') →
  (identified r = true ∧ ∃ a, o = Ok a) ∨ db w' ≠ db w →
  ∃ userID u, carries ctx secret (clock (tick w)) userID ∧ uuid_parse userID = Some u ∧
    guild_access r (db w) u.
Proof. apply guild_call_access. Qed.

(** C16: every answer is a response or a status.  Whatever the request, the
    context, the state and the faults, a call of the guild service ends in a
    value or in a gRPC status error: it never panics and never hands a raw
    Go, driver or storage error to the transport. *)
Theorem guild_call_answers {A} (r : GuildRPC A) ctx w :
  (∃ a, (call r ctx w).1 = Ok a) ∨ ∃ c msg, (call r ctx w).1 = Err (Status c msg).
Proof.
  assert (∀ ctx w, (∃ a, (serve r ctx w).1 = Ok a) ∨
                   ∃ c msg, (serve r ctx w).1 = Err (Status c msg)) as Hs.
  { intros ctx1 w1. pose proof (guild_serve_answers r ctx1 w1) as Ha.
    destruct (serve r ctx1 w1).1 as [a|[]|]; try done; eauto. }
  destruct (guild_call_cases r ctx w) as [[_ ->]|[(userID & _ & ->)|(msg & w1 & -> & _)]]; eauto.
Qed.

(** *** Denials *)

(** The guild, the permission and the status code of a denial. *)
Definition guild_denial {A} (r : GuildRPC A) : option (string * string * code) :=
  match r with
  | RpcUpdateGuild gid _ _ _ _ => Some (gid, "MANAGE_GUILD", Internal)
  | RpcKickMember gid _ => Some (gid, "KICK_MEMBERS", PermissionDenied)
  | RpcBanMember gid _ _ | RpcUnbanMember gid _ => Some (gid, "BAN_MEMBERS", PermissionDenied)
  | RpcCreateRole gid _ _ | RpcUpdateRole gid _ _ _ _ | RpcRemoveRole gid _ _ =>
      Some (gid, "MANAGE_ROLES", Internal)
  | RpcDeleteRole gid _ | RpcAssignRole gid _ _ | RpcGrantRolePermission gid _ _
  | RpcRevokeRolePermission gid _ _ => Some (gid, "MANAGE_ROLES", PermissionDenied)
  | _ => None
  end.
(** The identifiers of the request besides the guild. *)
Definition guild_args {A} (r : GuildRPC A) : list string :=
  match r with
  | RpcKickMember _ uid | RpcBanMember _ uid _ | RpcUnbanMember _ uid => [uid]
  | RpcUpdateRole _ rid _ _ _ | RpcDeleteRole _ rid | RpcGrantRolePermission _ rid _
  | RpcRevokeRolePermission _ rid _ => [rid]
  | RpcAssignRole _ uid rid | RpcRemoveRole _ uid rid => [uid; rid]
  | _ => []
  end.

Lemma uuid_arg_known field s u w : uuid_parse s = Some u → uuid_arg field s w = (Ok u, w).
Proof. intros E. unfold uuid_arg, parse_arg. by rewrite E. Qed.

Lemma Check_denied {B} u g relation name e (k : unit → GoM World B) w :
  authz_wired = true → assoc relation relationToName = Some name → ¬ Authorized (db w) u g name →
  (ok ← Authz.Check (UserKey (uuid_print u)) relation (GuildKey (uuid_print g));
   ensure ok e ≫= k) w = (Err e, bump w).
Proof.
  intros Hw Hr Hna. unfold mbind at 1, gom_bind at 1.
  assert (Authz.Check (UserKey (uuid_print u)) relation (GuildKey (uuid_print g)) w =
          (Ok false, bump w)) as ->; [|done].
  unfold Authz.Check. rewrite Hw, Hr. cbn [negb].
  unfold UserKey, GuildKey, Authz.with_uuid. rewrite !TrimPrefix_app, !uuid_parse_print.
  assert (checkSQL (db w) u g name = false) as Hc
    by (apply not_true_iff_false; by rewrite checkSQL_true).
  unfold Authz.query_or, mbind, gom_bind, try, query, sql, external.
  destruct (faults (tick w)); try rewrite Hc; by destruct w.
Qed.

Lemma on_err_status {B} (m : GoM World B) h w e w' c msg :
  m w = (Err e, w') → h e = Status c msg → (m ?> h) w = (Err (Status c msg), w').
Proof. intros E Hh. rewrite <-Hh. by apply on_err_Err. Qed.

Ltac denied_service :=
  lazymatch goal with |- ?m _ = _ => let f := head_of m in unfold f end;
  eapply Check_denied; [done|reflexivity|done].
Ltac denied :=
  first
    [ apply bind_Err; eapply on_err_status; [denied_service|reflexivity]
    | eapply on_err_status; [denied_service|reflexivity] ].

(** What a denied caller is told.  When the account lacks the permission,
    the call is refused at that point, nothing but the clock moves, and the
    status is PermissionDenied for the methods whose table of errors knows
    [ErrInsufficientPermissions], but Internal ("failed to ...") for
    UpdateGuild, CreateRole, UpdateRole and RemoveRole, whose tables still
    test the [ErrNotGuildOwner] that the service no longer returns. *)
Theorem guild_denial_status {A} (r : GuildRPC A) ctx u g gid name c w :
  authz_wired = true → guild_denial r = Some (gid, name, c) →
  uuid_parse (UserIDFromContext ctx) = Some u → uuid_parse gid = Some g →
  Forall (λ s, is_Some (uuid_parse s)) (guild_args r) →
  ¬ Authorized (db w) u g name →
  ∃ msg, serve r ctx w = (Err (Status c msg), bump w).
Proof.
  intros Hw Hd Hu Hg Hargs Hna.
  assert (∀ w, caller_uuid ctx w = (Ok u, w)) as Hcaller by (intros w'; by apply caller_uuid_parsed).
  destruct r; try discriminate Hd; injection Hd as <- <- <-; cbn [guild_serve guild_args] in *;
    repeat match goal with
    | H : Forall _ (_ :: _) |- _ => apply Forall_cons in H as [? H]
    end;
    lazymatch goal with |- ∃ _, ?m _ = _ => let f := head_of m in unfold f end;
    rewrite (bind_run _ _ _ _ _ (Hcaller w)); rewrite (bind_run _ _ _ _ _ (uuid_arg_known _ _ _ w Hg));
    repeat match goal with
    | H : is_Some (uuid_parse ?s) |- _ =>
        let x := fresh in let E := fresh in destruct H as [x E];
        rewrite (bind_run _ _ _ _ _ (uuid_arg_known _ _ _ w E))
    end;
    eexists; denied.
Qed.

(** *** The preview of an invite *)
Lemma wpd_anonymous_preview code d :
  wpd (GuildService.PreviewInvite None code)
    (λ o _, match o with
            | Ok r => pr_AlreadyMember r = false
            | Err e => errors_Is e GuildService.ErrUserBanned = false
            | Panic => False
            end) d.
Proof.
  unfold GuildService.PreviewInvite. wpd_auto; first [reflexivity|discriminate].
Qed.

(** The preview is served to anybody as to a stranger.  The method is on
    the public list, so the interceptor adds no account to its context, not
    even when the request carries a valid token: every request that arrives
    gets the answer of an anonymous one, [already_member] is never set, and
    the refusal of banned accounts is never given. *)
Theorem PreviewInvite_never_knows_its_caller code ctx w :
  ctx_user_id ctx = None →
  call (RpcPreviewInvite code) ctx w =
    GuildHandler.PreviewInvite signer bucket (mkContext None None None) code w ∧
  match (call (RpcPreviewInvite code) ctx w).1 with
  | Ok preview => ip_AlreadyMember preview = false
  | Err e => e ≠ Status PermissionDenied "you are banned from this guild"
  | Panic => False
  end.
Proof.
  intros Hctx. assert (call (RpcPreviewInvite code) ctx w =
    GuildHandler.PreviewInvite signer bucket (mkContext None None None) code w) as E.
  { unfold guild_call, Auth.AuthInterceptor. cbn [guild_method guild_serve].
    unfold GuildHandler.PreviewInvite, GuildHandler.optional_caller, UserIDFromContext.
    by rewrite Hctx. }
  split; [done|]. rewrite E. unfold GuildHandler.PreviewInvite, mbind, gom_bind, on_err.
  change (GuildHandler.optional_caller _) with (@None uuid).
  pose proof (wpd_anonymous_preview code (db w) w eq_refl) as Hp.
  destruct (GuildService.PreviewInvite None code w) as [[r|e|] w']; simpl in *; [done| |done].
  rewrite Hp. repeat case_match; done.
Qed.
End Authority.

(** ** Worked examples *)
Section Example.
#[local] Existing Instance demo_wired.
#[local] Existing Instance demo_uuid.
#[local] Existing Instance demo_jwt.

(** A request with a token for user [u], signed with the server's secret. *)
Definition demo_bearer (u : uuid) : Context :=
  match SignedString {["sub" := ClaimString (uuid_print u); "exp" := ClaimNumber 100]} "secret" with
  | inr tok => mkContext (Some {["authorization" := ["Bearer " +:+ tok]]}) None None
  | inl _ => mkContext None None None
  end.

Lemma guild_call_authorized_witness :
  ∃ userID u, carries (demo_bearer 1) "secret" (clock 0) userID ∧ uuid_parse userID = Some u ∧
    guild_access (RpcKickMember (uuid_print 2) (uuid_print 3)) guild_demo_db u.
Proof.
  eapply (guild_call_authorized None None "" "" "secret"
           (RpcKickMember (uuid_print 2) (uuid_print 3)) (demo_bearer 1) guild_demo_world);
    [reflexivity|apply surjective_pairing|].
  left. split; [reflexivity|]. exists tt. vm_compute. reflexivity.
Defined.

Lemma guild_denial_status_witness :
  ∃ msg, guild_serve None None "" "" (RpcUpdateGuild (uuid_print 2) (Some "x"%string) None None None)
           (WithUserID (demo_bearer 4) (uuid_print 4)) guild_demo_world =
         (Err (Status Internal msg), bump guild_demo_world).
Proof.
  apply (guild_denial_status None None "" "" _ _ 4 2 (uuid_print 2) "MANAGE_GUILD");
    [reflexivity..|constructor|].
  rewrite <-checkSQL_true. vm_compute. discriminate.
Defined.

(** The banned user 6, with a valid token, is shown the guild as a stranger. *)
Lemma PreviewInvite_never_knows_its_caller_witness :
  let r := guild_call None None "" "" "secret" (RpcPreviewInvite "abc") (demo_bearer 6)
             guild_demo_world in
  r = GuildHandler.PreviewInvite None "" (mkContext None None None) "abc" guild_demo_world ∧
  match r.1 with
  | Ok preview => ip_AlreadyMember preview = false
  | Err e => e ≠ Status PermissionDenied "you are banned from this guild"
  | Panic => False
  end.
Proof. apply PreviewInvite_never_knows_its_caller. reflexivity. Defined.
End Example.
