(* ===== verification/UserApi.v ===== *)
(** * UserApi: the gRPC surface of the user service

    Models [src/internal/features/user/handler.go] (Module [UserHandler]):
    profiles, friendships and blocks.  [blockChecker] says whether
    [SetBlockChecker] was called; the checker is [UserService.IsBlocked].  The
    ILIKE operator of the search is an argument. *)
From S2P Require Import Prelude Realtime Store Queries Guild User Middleware Rpc.

(** ** Messages *)
Record UserPb := mkUserPb {
  upb_Id : string; upb_Username : string; upb_DisplayName : string; upb_Email : string;
  upb_AvatarUrl : string; upb_Bio : string; upb_Status : string; upb_BackgroundColor : string;
  upb_CreatedAt : option time; upb_UpdatedAt : option time }.
Inductive FriendshipStatus :=
  | FRIENDSHIP_STATUS_UNSPECIFIED | FRIENDSHIP_STATUS_PENDING | FRIENDSHIP_STATUS_ACCEPTED
  | FRIENDSHIP_STATUS_BLOCKED.
Record FriendshipPb := mkFriendshipPb {
  fpb_UserId : string; fpb_FriendId : string; fpb_Username : string; fpb_AvatarUrl : string;
  fpb_Status : FriendshipStatus; fpb_CreatedAt : option time }.

Definition friendship_status (s : string) : FriendshipStatus :=
  if string_eqb s "pending" then FRIENDSHIP_STATUS_PENDING
  else if string_eqb s "accepted" then FRIENDSHIP_STATUS_ACCEPTED
  else if string_eqb s "blocked" then FRIENDSHIP_STATUS_BLOCKED
  else FRIENDSHIP_STATUS_UNSPECIFIED.

Module UserHandler.
Import UserService.
Section Handler.
Context `{Env} `{!UuidText} `{!DMOpener} `{!PresenceReader}.
Variables (nats : bool) (minio : option GuildService.MinioClient) (bucket minioBaseURL : string)
  (blockChecker : bool) (ILIKE : string → string → bool).

(** *** Conversions *)
Definition dbUserToProto (u : User) : UserPb :=
  mkUserPb (uuid_print (u_id u)) (u_username u) (u_display_name u) (u_email u) (u_avatar_url u)
    (u_bio u) (u_status u) (u_background_color u) (Some (u_created_at u)) (Some (u_updated_at u)).
Definition toProto (u : User) : UserPb :=
  let pu := dbUserToProto u in
  mkUserPb (upb_Id pu) (upb_Username pu) (upb_DisplayName pu) (upb_Email pu)
    (ResolveAvatarURL minioBaseURL (u_avatar_url u)) (upb_Bio pu) (upb_Status pu)
    (upb_BackgroundColor pu) (upb_CreatedAt pu) (upb_UpdatedAt pu).
Definition dbFriendshipToProto (f : Friendship) : FriendshipPb :=
  mkFriendshipPb (uuid_print (f_user_id f)) (uuid_print (f_friend_id f)) "" ""
    (friendship_status (f_status f)) (Some (f_created_at f)).
(** [statusUpdate] fills in the status and the creation time of the row it is
    given. *)
Definition statusUpdate (pf : FriendshipPb) (f : Friendship) : FriendshipPb :=
  mkFriendshipPb (fpb_UserId pf) (fpb_FriendId pf) (fpb_Username pf) (fpb_AvatarUrl pf)
    (friendship_status (f_status f)) (Some (f_created_at f)).
(** The row passed to it has [CreatedAt: f.CreatedAt_2]: in the joined row
    [created_at] is the friendship's and [created_at_2] the other user's. *)
Definition pendingToProto (row : Friendship * User) : FriendshipPb :=
  let '(f, u) := row in
  statusUpdate
    (mkFriendshipPb (uuid_print (f_user_id f)) (uuid_print (f_friend_id f)) (u_username u)
       (ResolveAvatarURL minioBaseURL (u_avatar_url u)) FRIENDSHIP_STATUS_UNSPECIFIED None)
    (mkFriendship (f_user_id f) (f_friend_id f) (f_status f) (u_created_at u) false
       (u_updated_at u)).

(** *** Profiles *)

(** The caller is somebody else, and the profile's owner has blocked him. *)
Definition hidden (ctx : Context) (targetID : string) : GoM World bool :=
  let callerID := UserIDFromContext ctx in
  if negb (string_eqb callerID "") && negb (string_eqb callerID targetID) && blockChecker
  then IsBlocked targetID callerID else mret false.
Definition user_not_found_status : error := Status NotFoundCode "user not found".

Definition GetUser (ctx : Context) (userID : string) : GoM World UserPb :=
  pgID ← uuid_arg "user_id" userID;
  h ← hidden ctx userID;
  _ ← ensure (negb h) user_not_found_status;
  user ← UserService.GetUser minioBaseURL pgID
    ?> switch_is [([ErrUserNotFound], user_not_found_status)]
         (Status Internal "failed to get user");
  mret (toProto user).

Definition UpdateUser (ctx : Context)
    (displayName avatarURL bio status backgroundColor : option string) : GoM World UserPb :=
  pgID ← caller_uuid ctx;
  let params := Queries.mkUpdateUserParams pgID None displayName avatarURL bio status
                  backgroundColor in
  user ← UserService.UpdateUser nats minioBaseURL params
         ?> (λ _, Status Internal "failed to update user");
  mret (toProto user).

Definition UpdateUsername (ctx : Context) (username : string) : GoM World UserPb :=
  pgID ← caller_uuid ctx;
  user ← UserService.UpdateUsername nats minioBaseURL pgID username
    ?> switch_is
         [([ErrUsernameAlreadySet], Status FailedPrecondition "username is already set");
          ([ErrUserNotFound], user_not_found_status)]
         (Status Internal "failed to update username");
  mret (toProto user).

Definition UpdateStatus (ctx : Context) (status : string) : GoM World UserPb :=
  pgID ← caller_uuid ctx;
  user ← UserService.UpdateStatus nats minioBaseURL pgID status
         ?> (λ _, Status Internal "failed to update status");
  mret (toProto user).

Definition DeleteUser (ctx : Context) : GoM World unit :=
  pgID ← caller_uuid ctx;
  UserService.DeleteUser pgID ?> (λ _, Status Internal "failed to delete user").

Definition GetUserByUsername (ctx : Context) (username : string) : GoM World UserPb :=
  user ← UserService.GetUserByUsername minioBaseURL username
    ?> switch_is [([ErrUserNotFound], user_not_found_status)]
         (Status Internal "failed to get user");
  h ← hidden ctx (uuid_print (u_id user));
  _ ← ensure (negb h) user_not_found_status;
  mret (toProto user).

Definition SearchUsers (ctx : Context) (query : string) (limit offset : Z) :
    GoM World (list UserPb * Z) :=
  let limit := if Z.eqb limit 0 then 20%Z else limit in
  '(users, total) ← UserService.SearchUsers minioBaseURL ILIKE query limit offset
    ?> (λ _, Status Internal "failed to search users");
  mret (toProto <$> users, int32 total).

Definition UploadUserAvatar (ctx : Context) (filename contentType data : string) :
    GoM World (string * UserPb) :=
  pgID ← caller_uuid ctx;
  '(user, avatarURL) ← UserService.UploadAvatar nats minio bucket minioBaseURL pgID filename
                         contentType data ?> (λ _, Status Internal "%v");
  mret (avatarURL, toProto user).

(** *** Friendships *)
Definition SendFriendRequest (ctx : Context) (targetUsername : string) : GoM World FriendshipPb :=
  userPgID ← caller_uuid ctx;
  targetUser ← UserService.GetUserByUsername minioBaseURL targetUsername
    ?> switch_is [([ErrUserNotFound], user_not_found_status)]
         (Status Internal "failed to resolve target user");
  friendship ← UserService.SendFriendRequest nats minioBaseURL userPgID (u_id targetUser)
    ?> switch_is
         [([ErrCannotFriendSelf],
           Status InvalidArgument "cannot send friend request to yourself");
          ([ErrAlreadyFriends], Status AlreadyExists "already friends");
          ([ErrFriendRequestExists], Status AlreadyExists "friend request already exists");
          ([ErrUserBlocked], Status FailedPrecondition "user is blocked")]
         (Status Internal "failed to send friend request");
  mret (dbFriendshipToProto friendship).

Definition no_request (dflt : string) : error → error :=
  switch_is [([ErrNoFriendRequest], Status NotFoundCode "no pending friend request found")]
    (Status Internal dflt).
Definition AcceptFriendRequest (ctx : Context) (requesterID : string) : GoM World FriendshipPb :=
  userPgID ← caller_uuid ctx;
  requesterPgID ← uuid_arg "requester_user_id" requesterID;
  friendship ← UserService.AcceptFriendRequest nats minioBaseURL userPgID requesterPgID
               ?> no_request "failed to accept friend request";
  mret (dbFriendshipToProto friendship).
Definition DeclineFriendRequest (ctx : Context) (requesterID : string) : GoM World unit :=
  userPgID ← caller_uuid ctx;
  requesterPgID ← uuid_arg "requester_user_id" requesterID;
  UserService.DeclineFriendRequest nats minioBaseURL userPgID requesterPgID
    ?> no_request "failed to decline friend request".
Definition CancelFriendRequest (ctx : Context) (targetID : string) : GoM World unit :=
  userPgID ← caller_uuid ctx;
  targetPgID ← uuid_arg "target_user_id" targetID;
  UserService.CancelFriendRequest nats minioBaseURL userPgID targetPgID
    ?> no_request "failed to cancel friend request".
Definition RemoveFriend (ctx : Context) (friendID : string) : GoM World unit :=
  userPgID ← caller_uuid ctx;
  friendPgID ← uuid_arg "friend_id" friendID;
  UserService.RemoveFriend nats minioBaseURL userPgID friendPgID
    ?> switch_is [([ErrNotFriends], Status NotFoundCode "not friends")]
         (Status Internal "failed to remove friend").

Definition BlockUser (ctx : Context) (targetID : string) : GoM World unit :=
  userPgID ← caller_uuid ctx;
  targetPgID ← uuid_arg "target_user_id" targetID;
  UserService.BlockUser userPgID targetPgID
    ?> switch_is [([ErrCannotFriendSelf], Status InvalidArgument "cannot block yourself")]
         (Status Internal "failed to block user").
Definition UnblockUser (ctx : Context) (targetID : string) : GoM World unit :=
  userPgID ← caller_uuid ctx;
  targetPgID ← uuid_arg "target_user_id" targetID;
  UserService.UnblockUser userPgID targetPgID
    ?> switch_is [([ErrNotBlocked], Status NotFoundCode "user is not blocked")]
         (Status Internal "failed to unblock user").

Definition ListFriends (ctx : Context) : GoM World (list UserPb) :=
  pgID ← caller_uuid ctx;
  friends ← UserService.ListFriends minioBaseURL pgID
            ?> (λ _, Status Internal "failed to list friends");
  mret (toProto <$> friends).
Definition ListPendingRequests (ctx : Context) :
    GoM World (list FriendshipPb * list FriendshipPb) :=
  pgID ← caller_uuid ctx;
  '(incoming, outgoing) ← UserService.ListPendingRequests pgID
    ?> (λ _, Status Internal "failed to list pending requests");
  mret (pendingToProto <$> incoming, pendingToProto <$> outgoing).
Definition ListBlocked (ctx : Context) : GoM World (list UserPb) :=
  pgID ← caller_uuid ctx;
  blocked ← UserService.ListBlocked pgID ?> (λ _, Status Internal "failed to list blocked users");
  mret (toProto <$> blocked).
End Handler.
End UserHandler.
