(* ===== verification/UserApiFacts.v ===== *)
(** * UserApiFacts: what the user endpoints reveal

    A block hides the profile of the account from the two endpoints that look
    one account up, exactly as if it did not exist, and from no other: the
    search still returns it.  The list of pending requests dates a request by
    the creation of the other account. *)
From S2P Require Import Prelude Realtime Store Queries Guild AuthzFacts User UserFacts Middleware Rpc UserApi.

Section Profiles.
Context `{Env} `{!UuidText} `{!DMOpener} `{!PresenceReader}.
Variables (minioBaseURL : string) (ILIKE : string → string → bool).
Notation GetUser := (UserHandler.GetUser minioBaseURL true).
Notation GetUserByUsername := (UserHandler.GetUserByUsername minioBaseURL true).
Notation profile := (UserHandler.toProto minioBaseURL).
(** The row with the avatar's key resolved, as the service returns it. *)
Definition resolved (u : User) : User :=
  UserService.set_avatar u (UserService.ResolveAvatarURL minioBaseURL (u_avatar_url u)).

(** The account a name designates. *)
Definition named (d : Db) (username : string) : option User :=
  head (rows (λ _ u, string_eqb (u_username u) username && negb (u_deleted u)) d.(users)).

Lemma string_eqb_ne s t : s ≠ t → string_eqb s t = false.
Proof. intros Hne. unfold string_eqb. by rewrite bool_decide_eq_false_2. Qed.

Lemma hidden_blocked ctx caller target w :
  fault_free → UserIDFromContext ctx = uuid_print caller → caller ≠ target →
  friends_wf w.(db).(friendships) → blocked_row w.(db) target caller →
  UserHandler.hidden true ctx (uuid_print target) w = (Ok true, bump w).
Proof.
  intros Hff Hc Hne Hw Hb. unfold UserHandler.hidden. rewrite Hc.
  rewrite (string_eqb_ne _ "") by apply uuid_print_nonempty.
  rewrite string_eqb_ne by (intros E%(inj uuid_print); done). cbn [negb andb].
  destruct (IsBlocked_run target caller w Hff) as (x & -> & Hx). by rewrite Hx.
Qed.

Lemma hidden_answers ctx caller target w :
  fault_free → UserIDFromContext ctx = uuid_print caller →
  ∃ x w', UserHandler.hidden true ctx (uuid_print target) w = (Ok x, w') ∧ db w' = db w.
Proof.
  intros Hff Hc. unfold UserHandler.hidden. rewrite Hc.
  destruct (negb _ && negb _ && true); [|by exists false, w].
  destruct (IsBlocked_run target caller w Hff) as (x & -> & _). by exists x, (bump w).
Qed.

Lemma GetUser_absent_run target w :
  faults (tick w) = NoFault → w.(db).(users) !! target = None →
  ∃ e, UserService.GetUser minioBaseURL target w = (Err (UserService.user_not_found e), bump w).
Proof.
  intros Hn Hu. unfold UserService.GetUser, Queries.GetUserByID, on_err, mbind, gom_bind.
  rewrite query_run by done. rewrite Hu. by eexists.
Qed.

(** A search with room for all the matches returns each of them. *)
Lemma SearchUsers_lists ctx q limit row w :
  fault_free → row ∈ Queries.search_rows ILIKE q w.(db) →
  (Z.of_nat (length (Queries.search_rows ILIKE q w.(db))) ≤ limit)%Z →
  ∃ users total w', UserHandler.SearchUsers minioBaseURL ILIKE ctx q limit 0 w =
    (Ok (users, total), w') ∧ profile (resolved row) ∈ users.
Proof.
  intros Hff Hin Hlen.
  assert (0 < length (Queries.search_rows ILIKE q (db w))) as Hpos
    by (destruct (Queries.search_rows ILIKE q (db w)); [by apply elem_of_nil in Hin|simpl; lia]).
  set (page := merge_sort Queries.username_le (Queries.search_rows ILIKE q (db w))).
  assert (Permutation page (Queries.search_rows ILIKE q (db w))) as Hperm by apply merge_sort_Permutation.
  assert (Queries.limit_offset limit 0 page = inr page) as Hpage.
  { unfold Queries.limit_offset. rewrite (proj2 (Z.ltb_ge limit 0)) by lia.
    change (Z.to_nat 0) with 0. rewrite drop_0, take_ge; [done|].
    apply Permutation_length in Hperm. lia. }
  unfold UserHandler.SearchUsers. rewrite (proj2 (Z.eqb_neq limit 0)) by lia.
  unfold UserService.SearchUsers, Queries.CountSearchUsers, Queries.SearchUsers.
  unfold on_err, mbind, gom_bind. rewrite query_run by apply Hff.
  rewrite query_run by apply Hff. cbn [bump db]. fold page. rewrite Hpage.
  eexists _, _, _. split; [reflexivity|]. rewrite <-list_fmap_compose.
  apply list_elem_of_fmap. exists row. split; [done|]. by rewrite Hperm.
Qed.

(** C33: what a block hides.  When every statement is answered, no pair of
    users has two live friendship rows and the account [target] has blocked
    the caller, looking it up by identifier or by name gives the very answer
    an account that does not exist gives; a search whose pattern matches its
    name, and whose page has room for all the accounts it matches, still lists
    its profile, e-mail address included.  The conditions are needed: the
    check answers "not blocked" when its lookup fails, and with two live rows
    the database may hand it the other one. *)
Theorem blocked_profile_hidden_from_lookup_only ctx caller target row q limit w :
  fault_free → UserIDFromContext ctx = uuid_print caller → caller ≠ target →
  w.(db).(users) !! target = Some row → u_id row = target →
  friends_wf w.(db).(friendships) → blocked_row w.(db) target caller →
  (GetUser ctx (uuid_print target) w).1 = Err UserHandler.user_not_found_status ∧
  (∀ absent, w.(db).(users) !! absent = None →
     (GetUser ctx (uuid_print absent) w).1 = (GetUser ctx (uuid_print target) w).1) ∧
  (named w.(db) (u_username row) = Some row →
     (GetUserByUsername ctx (u_username row) w).1 = Err UserHandler.user_not_found_status) ∧
  (ILIKE (u_username row) (Queries.search_pattern q) = true → u_deleted row = false →
   (Z.of_nat (length (Queries.search_rows ILIKE q w.(db))) ≤ limit)%Z →
     ∃ users total w', UserHandler.SearchUsers minioBaseURL ILIKE ctx q limit 0 w =
       (Ok (users, total), w') ∧ profile (resolved row) ∈ users).
Proof.
  intros Hff Hc Hne Hrow Hid Hw Hb.
  assert ((GetUser ctx (uuid_print target) w).1 = Err UserHandler.user_not_found_status) as Hget.
  { unfold UserHandler.GetUser. rewrite (bind_run _ _ _ _ _ (uuid_arg_print _ _ _)).
    by rewrite (bind_run _ _ _ _ _ (hidden_blocked _ _ _ _ Hff Hc Hne Hw Hb)). }
  split_and!; [done|..].
  - intros absent Habs. rewrite Hget. unfold UserHandler.GetUser.
    rewrite (bind_run _ _ _ _ _ (uuid_arg_print _ _ _)).
    destruct (hidden_answers ctx caller absent w Hff Hc) as (x & w' & E & Hdb).
    rewrite (bind_run _ _ _ _ _ E). destruct x; [done|].
    destruct (GetUser_absent_run absent w') as [e He]; [apply Hff|by rewrite Hdb|].
    unfold ensure. cbn [negb]. rewrite bind_ret_l.
    by rewrite (bind_Err _ _ _ _ _ (on_err_Err _ _ _ _ _ He)).
  - intros Hnamed. unfold UserHandler.GetUserByUsername, UserService.GetUserByUsername.
    assert (Queries.GetUserByUsername (u_username row) w = (Ok row, bump w)) as Hq.
    { unfold Queries.GetUserByUsername. rewrite query_run by apply Hff. fold (named (db w) (u_username row)).
      by rewrite Hnamed. }
    unfold mbind at 1, gom_bind at 1, on_err at 1. unfold mbind at 1, gom_bind at 1, on_err at 1.
    rewrite Hq. cbn [mret gom_ret]. unfold resolved. cbn [u_id UserService.set_avatar]. rewrite Hid.
    by rewrite (bind_run _ _ _ _ _ (hidden_blocked ctx caller target (bump w) Hff Hc Hne Hw Hb)).
  - intros Hlike Hlive Hlen.
    apply SearchUsers_lists; [done| |done]. apply elem_of_rows. exists target.
    split; [done|]. by rewrite Hlike, Hlive.
Qed.

(** A pending request between the accounts of its key, listed for the first
    or for the second of them together with the other's row. *)
Definition pending_row (d : Db) (k : uuid * uuid) (otherID : Friendship → uuid) (f : Friendship)
    (other : User) : Prop :=
  d.(friendships) !! k = Some f ∧ f_status f = "pending" ∧ f_deleted f = false ∧
  d.(users) !! otherID f = Some other.
(** What the endpoint says of it. *)
Definition dated_by_account (f : Friendship) (other : User) (pf : FriendshipPb) : Prop :=
  fpb_UserId pf = uuid_print (f_user_id f) ∧ fpb_FriendId pf = uuid_print (f_friend_id f) ∧
  fpb_Status pf = FRIENDSHIP_STATUS_PENDING ∧ fpb_Username pf = u_username other ∧
  fpb_CreatedAt pf = Some (u_created_at other).

Lemma pending_query (P : uuid * uuid → bool) (otherID : Friendship → uuid) d pf :
  pf ∈ UserHandler.pendingToProto minioBaseURL <$>
    omap (λ f, pair f <$> d.(users) !! otherID f)
      (rows (λ k f, P k && string_eqb (f_status f) "pending" && negb (f_deleted f)) d.(friendships)) →
  ∃ k f other, P k = true ∧ pending_row d k otherID f other ∧ dated_by_account f other pf.
Proof.
  intros ([f other] & -> & (f' & Hin & Hf)%list_elem_of_omap)%list_elem_of_fmap.
  apply elem_of_rows in Hin as (k & Hk & [[HP Hs]%andb_true_iff Hd%negb_true_iff]%andb_true_iff).
  destruct (users d !! otherID f') as [u|] eqn:Hu; simplify_eq/=.
  exists k, f, other. apply bool_decide_eq_true in Hs. unfold dated_by_account. simpl. by rewrite Hs.
Qed.

(** The date of a pending request.  Every request the endpoint lists is a
    live pending row from or to the caller, with the other account's name, and
    the [created_at] it shows is the instant that account was created, not the
    one the request was made. *)
Theorem pending_request_date ctx u w incoming outgoing w' :
  UserIDFromContext ctx = uuid_print u →
  UserHandler.ListPendingRequests minioBaseURL ctx w = (Ok (incoming, outgoing), w') →
  (∀ pf, pf ∈ incoming → ∃ k f other, k.2 = u ∧ pending_row w.(db) k f_user_id f other ∧
     dated_by_account f other pf) ∧
  (∀ pf, pf ∈ outgoing → ∃ k f other, k.1 = u ∧ pending_row w.(db) k f_friend_id f other ∧
     dated_by_account f other pf).
Proof.
  intros Hc Hrun. unfold UserHandler.ListPendingRequests in Hrun.
  rewrite (bind_run _ _ _ _ _ (caller_uuid_known ctx u w Hc)) in Hrun.
  apply bind_Ok_inv in Hrun as ([inc out] & w1 & Hs%on_err_Ok_inv & [= <- <- <-]).
  unfold UserService.ListPendingRequests in Hs.
  apply bind_Ok_inv in Hs as (inc' & w2 & [Hq1 Hdb1]%on_err_Ok_inv%query_Ok_inv & Hs).
  apply bind_Ok_inv in Hs as (out' & w3 & [Hq2 _]%on_err_Ok_inv%query_Ok_inv & [= -> -> _]).
  rewrite Hdb1 in Hq2. injection Hq1 as <-. injection Hq2 as <-.
  split; intros pf (k & f & other & Hk%bool_decide_eq_true & Hrow & Hpf)%pending_query;
    by exists k, f, other.
Qed.
End Profiles.

(** ** Worked examples *)
Section Example.
#[local] Existing Instance demo_wired.
#[local] Existing Instance demo_uuid.
#[local] Existing Instance nil_DMOpener.
#[local] Existing Instance nil_PresenceReader.

Definition as_user (u : uuid) : Context := mkContext None None (Some (uuid_print u)).

(** User 4 has blocked user 1; the search matches every name. *)
Lemma blocked_profile_hidden_from_lookup_only_witness :
  let ctx := as_user 1 in
  let w := friends_demo_world in
  let row := mkUser 4 "4" "" "" "" "" "" 0 0 true false "" "" in
  (UserHandler.GetUser "" true ctx (uuid_print 4) w).1 = Err UserHandler.user_not_found_status ∧
  (∀ absent, w.(db).(users) !! absent = None →
     (UserHandler.GetUser "" true ctx (uuid_print absent) w).1 =
     (UserHandler.GetUser "" true ctx (uuid_print 4) w).1) ∧
  (named w.(db) "4" = Some row →
     (UserHandler.GetUserByUsername "" true ctx "4" w).1 = Err UserHandler.user_not_found_status) ∧
  ((λ _ _, true) "4" (Queries.search_pattern "") = true → false = false →
   (Z.of_nat (length (Queries.search_rows (λ _ _, true) "" w.(db))) ≤ 20)%Z →
     ∃ users total w', UserHandler.SearchUsers "" (λ _ _, true) ctx "" 20 0 w =
       (Ok (users, total), w') ∧ UserHandler.toProto "" (resolved "" row) ∈ users).
Proof.
  apply (blocked_profile_hidden_from_lookup_only "" (λ _ _, true) (as_user 1) 1 4
           (mkUser 4 "4" "" "" "" "" "" 0 0 true false "" "") "" 20 friends_demo_world);
    [exact demo_fault_free|reflexivity|done|vm_compute; reflexivity|reflexivity|exact friends_demo_wf|].
  eexists. split; vm_compute; reflexivity.
Defined.

Lemma pending_request_date_witness :
  ∃ incoming outgoing, (UserHandler.ListPendingRequests "" (as_user 1) friends_demo_world).1 =
    Ok (incoming, outgoing) ∧ length incoming = 1 ∧
  (∀ pf, pf ∈ incoming → ∃ k f other, k.2 = 1%positive ∧
     pending_row friends_demo_db k f_user_id f other ∧ dated_by_account f other pf) ∧
  (∀ pf, pf ∈ outgoing → ∃ k f other, k.1 = 1%positive ∧
     pending_row friends_demo_db k f_friend_id f other ∧ dated_by_account f other pf).
Proof.
  eexists _, _. split; [vm_compute; reflexivity|]. split; [reflexivity|].
  eapply (pending_request_date "" (as_user 1) 1 friends_demo_world); [reflexivity|].
  apply run_fst. vm_compute. reflexivity.
Defined.
End Example.
