(* ===== verification/ChannelApi.v ===== *)
(** * ChannelApi: the gRPC surface of the channel service

    Models [src/internal/features/channel/handler.go] (Module
    [ChannelHandler]).  GetChannel, UpdateChannel, DeleteChannel and
    ListGuildChannels do not insist on a caller. *)
From S2P Require Import Prelude Realtime Store Queries Authz Channel Middleware Rpc.

Record ChannelPb := mkChannelPb {
  cpb_Id : string; cpb_GuildId : string; cpb_Name : string; cpb_Type : Z; cpb_Topic : string;
  cpb_Position : Z; cpb_ParentId : string; cpb_CreatedAt : option time }.
Record DMMember := mkDMMember {
  dmm_Id : string; dmm_Username : string; dmm_DisplayName : string; dmm_AvatarUrl : string;
  dmm_Status : string }.
Record ChannelOverridePb := mkChannelOverridePb {
  copb_TargetType : string; copb_TargetId : string; copb_Permission : string;
  copb_Effect : string }.

Module ChannelHandler.
Import ChannelService.
Section Handler.
Context `{Env} `{!UuidText} (lpb : bool).

(** *** Conversions *)
Definition dmMemberToProto (r : Queries.DMChannelMemberProfile) : DMMember :=
  mkDMMember (uuid_print (Queries.dp_ID r)) (Queries.dp_Username r) (Queries.dp_DisplayName r)
    (Queries.dp_AvatarUrl r) (Queries.dp_Status r).
Definition channelToProto (ch : Channel) : ChannelPb :=
  mkChannelPb (uuid_print (c_id ch)) (uuidToString (c_guild_id ch)) (c_name ch) (c_type ch)
    (c_topic ch) (c_position ch) (uuidToString (c_parent_id ch)) (Some (c_created_at ch)).

Definition mapError : error → error :=
  switch_is
    [([ErrChannelNotFound], Status NotFoundCode "%v");
     ([ErrGuildIDRequired; ErrNameRequired; ErrInvalidChannelType; ErrRecipientRequired;
       ErrInvalidUUID], Status InvalidArgument "%v");
     ([ErrNotGroupDM], Status InvalidArgument "%v");
     ([ErrNotGuildMember; ErrInsufficientPermissions; ErrNotDMChannelMember],
      Status PermissionDenied "%v");
     ([ErrAlreadyDMChannelMember], Status AlreadyExists "%v")]
    (Status Internal "%v").
(** [if s == "" { return InvalidArgument }]. *)
Definition required (s msg : string) : GoM World unit :=
  ensure (negb (string_eqb s "")) (Status InvalidArgument msg).

(** *** Channels *)
Definition CreateChannel (ctx : Context) (guildID name : string) (type : Z)
    (topic parentID : string) : GoM World ChannelPb :=
  userID ← caller_id ctx;
  _ ← required name "channel name is required";
  ch ← ChannelService.CreateChannel lpb userID guildID name (int32 type) topic parentID ?> mapError;
  mret (channelToProto ch).
Definition GetChannel (ctx : Context) (channelID : string) : GoM World ChannelPb :=
  _ ← required channelID "channel_id is required";
  ch ← ChannelService.GetChannel channelID ?> mapError;
  mret (channelToProto ch).
Definition UpdateChannel (ctx : Context) (channelID : string) (name topic : option string)
    (position : option Z) (parentID : option string) : GoM World ChannelPb :=
  let userID := UserIDFromContext ctx in
  _ ← required channelID "channel_id is required";
  ch ← ChannelService.UpdateChannel lpb userID channelID name topic position parentID ?> mapError;
  mret (channelToProto ch).
Definition DeleteChannel (ctx : Context) (channelID : string) : GoM World unit :=
  let userID := UserIDFromContext ctx in
  _ ← required channelID "channel_id is required";
  ChannelService.DeleteChannel lpb userID channelID ?> mapError.
Definition ListGuildChannels (ctx : Context) (guildID : string) : GoM World (list ChannelPb) :=
  _ ← required guildID "guild_id is required";
  channels ← ChannelService.ListGuildChannels guildID ?> mapError;
  mret (channelToProto <$> channels).

(** *** Direct messages *)
Definition CreateDMChannel (ctx : Context) (recipientIDs : list string) : GoM World ChannelPb :=
  userID ← caller_id ctx;
  _ ← ensure (negb (bool_decide (recipientIDs = [])))
        (Status InvalidArgument "at least one recipient is required");
  ch ← ChannelService.CreateDMChannel lpb userID recipientIDs ?> mapError;
  mret (channelToProto ch).
Definition ListDMChannels (ctx : Context) : GoM World (list ChannelPb) :=
  userID ← caller_id ctx;
  channels ← ChannelService.ListDMChannels userID ?> mapError;
  mret (channelToProto <$> channels).
Definition ListDMChannelMembers (ctx : Context) (channelID : string) : GoM World (list DMMember) :=
  callerID ← caller_id ctx;
  rows ← ChannelService.ListDMChannelMembers callerID channelID ?> mapError;
  mret (dmMemberToProto <$> rows).
Definition ListDMChannelsWithMembers (ctx : Context) :
    GoM World (list (ChannelPb * list DMMember)) :=
  userID ← caller_id ctx;
  items ← ChannelService.ListDMChannelsWithMembers userID ?> mapError;
  mret ((λ it, (channelToProto (dw_Channel it), dmMemberToProto <$> dw_Members it)) <$> items).
Definition AddDMGroupMember (ctx : Context) (channelID userID : string) : GoM World unit :=
  callerID ← caller_id ctx;
  ChannelService.AddDMGroupMember lpb callerID channelID userID ?> mapError.
Definition RemoveDMGroupMember (ctx : Context) (channelID userID : string) : GoM World unit :=
  callerID ← caller_id ctx;
  ChannelService.RemoveDMGroupMember lpb callerID channelID userID ?> mapError.

(** *** Overrides *)
Definition SetChannelOverride (ctx : Context)
    (channelID targetType targetID permission effect : string) : GoM World unit :=
  userID ← caller_id ctx;
  ChannelService.SetChannelOverride lpb userID channelID targetType targetID permission effect
    ?> mapError.
Definition DeleteChannelOverride (ctx : Context)
    (channelID targetType targetID permission : string) : GoM World unit :=
  userID ← caller_id ctx;
  ChannelService.DeleteChannelOverride lpb userID channelID targetType targetID permission
    ?> mapError.
Definition ListChannelOverrides (ctx : Context) (channelID : string) :
    GoM World (list ChannelOverridePb) :=
  userID ← caller_id ctx;
  rows ← ChannelService.ListChannelOverrides userID channelID ?> mapError;
  mret ((λ r, mkChannelOverridePb (Authz.co_TargetType r) (uuid_print (Authz.co_TargetID r))
                (Authz.co_Permission r) (Authz.co_Effect r)) <$> rows).
End Handler.
End ChannelHandler.
