(* ===== verification/MessageApi.v ===== *)
(** * MessageApi: the gRPC surface of the message service

    Models [src/internal/features/message/handler.go] (Module
    [MessageHandler]).  [guildResolver] is [h.guildResolver]: the guild of a
    channel, the empty text when there is none or the lookup fails
    ([ChannelService.GetChannelGuildID]); the permission checks of the service
    hang on it.  [guild_id], [channel_name] and [sender_name] of an unread
    entry are fields the service never fills. *)
From S2P Require Import Prelude Realtime Store Queries Authz Scylla Mentions Message Middleware Rpc.

Record ReactionPb := mkReactionPb { rxpb_Emoji : string; rxpb_Count : Z; rxpb_Me : bool }.
Record AttachmentPb := mkAttachmentPb {
  apb_Id : string; apb_Filename : string; apb_Url : string; apb_ContentType : string;
  apb_Size : Z }.
Record ForwardedReference := mkForwardedReference {
  fr_ChannelId : string; fr_MessageId : string; fr_AuthorId : string }.
Record MessagePb := mkMessagePb {
  mpb_Id : string; mpb_ChannelId : string; mpb_AuthorId : string; mpb_Content : string;
  mpb_Type : Z; mpb_Pinned : bool; mpb_CreatedAt : time; mpb_ReplyToId : string;
  mpb_EditedAt : option time; mpb_ForwardedFrom : option ForwardedReference;
  mpb_MentionUserIds : list string; mpb_Reactions : list ReactionPb;
  mpb_Attachments : list AttachmentPb }.
Record UnreadDM := mkUnreadDM {
  ud_ChannelId : string; ud_SenderId : string; ud_SenderName : string; ud_UnreadCount : Z;
  ud_MentionCount : Z; ud_LastReadMessageId : string; ud_Messages : list MessagePb;
  ud_LastMessageAt : time }.
Record UnreadChannelMessage := mkUnreadChannelMessage {
  uc_ChannelId : string; uc_GuildId : string; uc_ChannelName : string; uc_UnreadCount : Z;
  uc_MentionCount : Z; uc_LastReadMessageId : string; uc_Messages : list MessagePb;
  uc_LastMessageAt : time }.

Definition with_attachments (m : MessagePb) (atts : list AttachmentPb) : MessagePb :=
  mkMessagePb (mpb_Id m) (mpb_ChannelId m) (mpb_AuthorId m) (mpb_Content m) (mpb_Type m)
    (mpb_Pinned m) (mpb_CreatedAt m) (mpb_ReplyToId m) (mpb_EditedAt m) (mpb_ForwardedFrom m)
    (mpb_MentionUserIds m) (mpb_Reactions m) atts.

Module MessageHandler.
Import MessageService.
Section Handler.
Context `{Env} `{!UuidText} `{!CqlTypes}.
Variables (lpb : bool) (dmResolver : option DMChannelResolver)
  (blockChecker : option BlockChecker) (dmChannelList : option DMChannelLister)
  (media : option MediaResolver) (guildResolver : option (string → GoM World string))
  (ToLower : string → string).

Definition resolveGuildID (channelID : string) : GoM World string :=
  match guildResolver with Some f => f channelID | None => mret "" end.

Definition mapError : error → error :=
  switch_is
    [([ErrMessageNotFound], Status NotFoundCode "%v");
     ([ErrInvalidUUID; ErrChannelRequired; ErrContentRequired; ErrEmojiRequired;
       ErrMessageRequired], Status InvalidArgument "%v");
     ([ErrUserBlocked], Status FailedPrecondition "%v");
     ([ErrNotMessageAuthor; ErrInsufficientPermissions], Status PermissionDenied "%v")]
    (Status Internal "%v").

(** *** Conversions *)
Definition attachmentToProto (a : MessageAttachments) : AttachmentPb :=
  mkAttachmentPb (uuid_print (MessageRepo.uuidValue (ma_id a))) (stringValue (ma_filename a))
    (stringValue (ma_url a)) (stringValue (ma_content_type a)) (default 0%Z (ma_size a)).
Definition attachmentsToProto (atts : list MessageAttachments) : list AttachmentPb :=
  attachmentToProto <$> atts.

Definition forwarded_reference (msg : Messages) : option ForwardedReference :=
  let messageID := MessageRepo.uuidValue (m_forwarded_from_message_id msg) in
  if decide (messageID = zero_uuid) then None
  else Some (mkForwardedReference
         (uuid_print (MessageRepo.uuidValue (m_forwarded_from_channel_id msg)))
         (uuid_print messageID)
         (uuid_print (MessageRepo.uuidValue (m_forwarded_from_author_id msg)))).
(** The reactions and the attachments are read back; a failed read leaves
    them empty. *)
Definition messageToProto (msg : Messages) (currentUserID : string) : GoM World MessagePb :=
  let msgID := uuid_print (MessageRepo.uuidValue (m_id msg)) in
  let channelID := uuid_print (MessageRepo.uuidValue (m_channel_id msg)) in
  let replyToID := MessageRepo.uuidValue (m_reply_to_id msg) in
  reactions ← or_zero [] (GetReactions channelID msgID currentUserID);
  atts ← or_zero [] (GetAttachments channelID msgID);
  mret (mkMessagePb msgID channelID (uuid_print (MessageRepo.uuidValue (m_author_id msg)))
          (stringValue (m_content msg)) (int32 (default 0%Z (m_type msg)))
          (boolValue (m_pinned msg)) (timeValue (m_created_at msg))
          (if decide (replyToID = zero_uuid) then "" else uuid_print replyToID)
          (m_edited_at msg) (forwarded_reference msg)
          (uuid_print <$> default [] (m_mention_user_ids msg))
          ((λ r, mkReactionPb (rc_Emoji r) (rc_Count r) (rc_Me r)) <$> reactions)
          (attachmentsToProto atts)).

(** *** Writing *)
Definition forward_request (forwardedFrom : option (string * string)) : option ForwardSource :=
  match forwardedFrom with
  | Some (channelID, messageID) =>
      if string_eqb messageID "" then None else Some (mkForwardSource channelID messageID)
  | None => None
  end.
Definition SendMessage (ctx : Context) (channelID content : string) (type : Z)
    (replyToID : string) (attachmentIDs : list string) (forwardedFrom : option (string * string))
    (mentionIDs : list string) : GoM World MessagePb :=
  userID ← caller_id ctx;
  _ ← ensure (negb (string_eqb content "" && bool_decide (attachmentIDs = [])))
        (Status InvalidArgument "content or attachments required");
  guildID ← resolveGuildID channelID;
  '(msg, atts) ← MessageService.SendMessage lpb dmChannelList media userID channelID guildID
                   content (int32 type) replyToID attachmentIDs (forward_request forwardedFrom)
                   mentionIDs ?> mapError;
  pbMsg ← messageToProto msg userID;
  mret (with_attachments pbMsg (attachmentsToProto atts)).
Definition EditMessage (ctx : Context) (channelID messageID content : string) :
    GoM World MessagePb :=
  userID ← caller_id ctx;
  guildID ← resolveGuildID channelID;
  msg ← MessageService.EditMessage lpb dmChannelList userID channelID guildID messageID content
        ?> mapError;
  messageToProto msg userID.
Definition DeleteMessage (ctx : Context) (channelID messageID : string) : GoM World unit :=
  userID ← caller_id ctx;
  guildID ← resolveGuildID channelID;
  MessageService.DeleteMessage lpb dmChannelList userID channelID guildID messageID ?> mapError.
(** The guild passed to the service is the empty text. *)
Definition BulkDeleteMessages (ctx : Context) (channelID : string) (messageIDs : list string) :
    GoM World Z :=
  userID ← caller_id ctx;
  count ← MessageService.BulkDeleteMessages userID channelID "" messageIDs ?> mapError;
  mret (int32 count).
Definition PinMessage (ctx : Context) (channelID messageID : string) : GoM World unit :=
  let userID := UserIDFromContext ctx in
  guildID ← resolveGuildID channelID;
  MessageService.PinMessage lpb dmChannelList userID channelID guildID messageID ?> mapError.
Definition UnpinMessage (ctx : Context) (channelID messageID : string) : GoM World unit :=
  let userID := UserIDFromContext ctx in
  guildID ← resolveGuildID channelID;
  MessageService.UnpinMessage lpb dmChannelList userID channelID guildID messageID ?> mapError.
Definition AddReaction (ctx : Context) (channelID messageID emoji : string) : GoM World unit :=
  userID ← caller_id ctx;
  guildID ← resolveGuildID channelID;
  MessageService.AddReaction lpb dmChannelList userID channelID guildID messageID emoji ?> mapError.
Definition RemoveReaction (ctx : Context) (channelID messageID emoji : string) : GoM World unit :=
  userID ← caller_id ctx;
  guildID ← resolveGuildID channelID;
  MessageService.RemoveReaction lpb dmChannelList userID channelID guildID messageID emoji
    ?> mapError.
Definition AckMessage (ctx : Context) (channelID messageID : string) : GoM World unit :=
  userID ← caller_id ctx;
  guildID ← resolveGuildID channelID;
  MessageService.AckMessage lpb dmChannelList userID channelID guildID messageID ?> mapError.
Definition StartTyping (ctx : Context) (userName channelID : string) : GoM World unit :=
  userID ← caller_id ctx;
  guildID ← resolveGuildID channelID;
  MessageService.StartTyping lpb dmChannelList userName userID channelID guildID ?> mapError.
Definition SendDirectMessage (ctx : Context) (recipientID content : string) :
    GoM World (string * MessagePb) :=
  userID ← caller_id ctx;
  '(channelID, msg) ← MessageService.SendDirectMessage lpb dmResolver blockChecker dmChannelList
                        media userID recipientID content ?> mapError;
  pbMsg ← messageToProto msg userID;
  mret (channelID, pbMsg).

(** *** Reading *)
Definition GetMessage (ctx : Context) (channelID messageID : string) : GoM World MessagePb :=
  let userID := UserIDFromContext ctx in
  msg ← MessageService.GetMessage channelID messageID ?> mapError;
  messageToProto msg userID.
Definition ListMessages (ctx : Context) (channelID before after : string) (limit : Z) :
    GoM World (list MessagePb) :=
  let userID := UserIDFromContext ctx in
  messages ← MessageService.ListMessages dmChannelList userID channelID before after limit
             ?> mapError;
  mapM (λ msg, messageToProto msg userID) messages.
Definition SearchMessages (ctx : Context) (channelID query : string) (limit : Z) :
    GoM World (list MessagePb * Z) :=
  userID ← caller_id ctx;
  msgs ← MessageService.SearchMessages ToLower channelID query limit ?> mapError;
  pb ← mapM (λ m, messageToProto m userID) msgs;
  mret (pb, int32 (Z.of_nat (length pb))).
Definition GetThreadMessages (ctx : Context) (channelID parentID : string) (limit : Z) :
    GoM World (list MessagePb) :=
  userID ← caller_id ctx;
  msgs ← MessageService.GetThreadMessages channelID parentID limit ?> mapError;
  mapM (λ m, messageToProto m userID) msgs.
Definition GetEditHistory (ctx : Context) (channelID messageID : string) :
    GoM World (list (string * time)) :=
  _ ← caller_id ctx;
  edits ← MessageService.GetEditHistory channelID messageID ?> mapError;
  mret ((λ e, (stringValue (mh_old_content e), timeValue (mh_edited_at e))) <$> edits).

Definition unread_entry (userID : string) (acc : list UnreadDM * list UnreadChannelMessage)
    (u : UnreadInfo) : GoM World (list UnreadDM * list UnreadChannelMessage) :=
  let '(dms, chMsgs) := acc in
  pbMsgs ← mapM (λ m, messageToProto m userID) (ui_RecentMessages u);
  mret (if ui_IsDM u
        then (dms ++ [mkUnreadDM (ui_ChannelID u) (ui_SenderID u) "" (ui_UnreadCount u)
                        (ui_MentionCount u) (ui_LastReadMsgID u) pbMsgs (ui_LastMessageTime u)],
              chMsgs)
        else (dms,
              chMsgs ++ [mkUnreadChannelMessage (ui_ChannelID u) "" "" (ui_UnreadCount u)
                           (ui_MentionCount u) (ui_LastReadMsgID u) pbMsgs
                           (ui_LastMessageTime u)])).
Definition GetUnreadCounts (ctx : Context) :
    GoM World (list UnreadDM * list UnreadChannelMessage * Z) :=
  userID ← caller_id ctx;
  '(unreads, total) ← MessageService.GetUnreadCounts dmChannelList userID ?> mapError;
  entries ← for_fold unreads ([], []) (unread_entry userID);
  mret (entries, total).
End Handler.
End MessageHandler.
