(* ===== verification/MessageApiFacts.v ===== *)
(** * MessageApiFacts: the message endpoints and the guild of a channel

    The service checks the permissions of a guild when it is told the guild,
    and the handler tells it what [GetChannelGuildID] answers.  The empty text
    stands for "a direct message" and for "the lookup failed" alike, so a lost
    lookup turns the checks off; the handler of the bulk deletion passes the
    empty text always. *)
From S2P Require Import Prelude Realtime Store Queries Authz AuthzFacts Guild GuildFacts Channel Scylla Mentions Message.
From S2P Require Import Wpm MessageFacts MessageStateFacts Middleware Rpc MessageApi.

Section Api.
Context `{Env} `{!UuidText} `{!CqlTypes}.
Variables (lpb : bool) (lister : option DMChannelLister) (media : option MediaResolver).
(** The resolver the module wires. *)
Notation resolver := (Some ChannelService.GetChannelGuildID).
Notation SendMessage := (MessageHandler.SendMessage lpb lister media resolver).

(** The guild is not learnt: the statement fails, or finds no live row. *)
Definition guild_unknown (ch : uuid) (w : World) : Prop :=
  faults (tick w) ≠ NoFault ∨ live c_deleted (w.(db).(channels) !! ch) = None.

Lemma resolve_unknown channelID ch w :
  uuid_parse channelID = Some ch → guild_unknown ch w →
  MessageHandler.resolveGuildID resolver channelID w = (Ok "", bump w).
Proof.
  intros Hp Hun. cbn [MessageHandler.resolveGuildID].
  unfold ChannelService.GetChannelGuildID, ChannelService.GetChannel, ChannelService.parseUUID.
  rewrite Hp. unfold Queries.GetChannelByID, query, sql, external, mbind, gom_bind, try, on_err.
  cbn [mret gom_ret]. destruct Hun as [Hf|Hl].
  - destruct (faults (tick w)); [done|done|]. destruct (one _); [done|by destruct w].
  - rewrite Hl. simpl. by destruct (faults (tick w)).
Qed.

(** The body of the handler behind every check. *)
Definition unchecked_send (userID channelID content : string) (type : Z) (replyToID : string)
    (attachmentIDs : list string) (forwardedFrom : option (string * string))
    (mentionIDs : list string) : GoM World MessagePb :=
  '(msg, atts) ← MessageService.post_message lpb lister media userID channelID "" content
    (int32 type) replyToID attachmentIDs (MessageHandler.forward_request forwardedFrom) mentionIDs
    ?> MessageHandler.mapError;
  pbMsg ← MessageHandler.messageToProto msg userID;
  mret (with_attachments pbMsg (MessageHandler.attachmentsToProto atts)).

(** C32: the checks of a send fail open.  When the channel's guild is not
    learnt, because the statement that looks the channel up fails, or because
    the channel is deleted or was never there, the endpoint runs the bare
    posting of the message, for any caller: neither the channel permission nor
    the attachment and mass-mention permissions are asked for. *)
Theorem SendMessage_fails_open ctx channelID ch content type replyToID attachmentIDs
    forwardedFrom mentionIDs w :
  UserIDFromContext ctx ≠ "" → uuid_parse channelID = Some ch → content ≠ "" →
  guild_unknown ch w →
  SendMessage ctx channelID content type replyToID attachmentIDs forwardedFrom mentionIDs w =
  unchecked_send (UserIDFromContext ctx) channelID content type replyToID attachmentIDs
    forwardedFrom mentionIDs (bump w).
Proof.
  intros Hu Hp Hcontent Hun. unfold MessageHandler.SendMessage.
  rewrite (bind_run _ _ _ _ _ (caller_id_known ctx w Hu)).
  assert (channelID ≠ "") as Hch by (intros ->; by rewrite uuid_parse_empty in Hp).
  assert (∀ s, s ≠ "" → string_eqb s "" = false) as Hne
    by (intros s Hs; by apply bool_decide_eq_false_2).
  rewrite (Hne content) by done. unfold ensure at 1. cbn [negb andb]. rewrite bind_ret_l.
  rewrite (bind_run _ _ _ _ _ (resolve_unknown _ _ _ Hp Hun)).
  unfold MessageService.SendMessage, MessageService.send_gate.
  rewrite (Hne channelID), (Hne content) by done. cbn [negb andb ensure]. rewrite !bind_ret_l.
  reflexivity.
Qed.

(** Bulk deletion asks for no right.  When the database answers, any
    caller with an identity, whatever the tables say of him, turns every
    identifier of the list into a tombstone in the channel he names, a guild
    channel or not, whoever wrote the messages. *)
Theorem BulkDeleteMessages_any_caller ctx channelID ch ids w :
  fault_free → UserIDFromContext ctx ≠ "" → uuid_parse channelID = Some ch →
  Forall (λ id, is_timeuuid id = true) ids →
  let r := MessageHandler.BulkDeleteMessages ctx channelID (uuid_print <$> ids) w in
  r.1 = Ok (int32 (Z.of_nat (length ids))) ∧ bulk_deleted ch ids w.(cass) r.2.(cass) ∧
  r.2.(bus) = w.(bus).
Proof.
  intros Hff Hu Hp Hids r. subst r. unfold MessageHandler.BulkDeleteMessages.
  rewrite (bind_run _ _ _ _ _ (caller_id_known ctx w Hu)).
  destruct (BulkDeleteMessages_unguarded (UserIDFromContext ctx) channelID ch ids w Hff Hp Hids)
    as (Hok & Hdel & Hbus).
  unfold mbind, gom_bind, on_err.
  destruct (MessageService.BulkDeleteMessages _ _ _ _ w) as [[n|e|] w'] eqn:E; simpl in *; try done.
  by simplify_eq.
Qed.
End Api.

(** ** Worked examples *)

(** The channel lookup of the first statement is lost: user 6, who holds
    nothing in guild 2, posts in its channel 9. *)
Lemma SendMessage_fails_open_witness :
  let ctx := mkContext None None (Some (@uuid_print demo_uuid 6)) in
  let send := @MessageHandler.SendMessage (lossy_env 0) demo_uuid demo_cql true None None
    (Some (@ChannelService.GetChannelGuildID (lossy_env 0) demo_uuid)) ctx
    (@uuid_print demo_uuid 9) "hi" 0 "" [] None [] message_demo_world in
  (@Authz.CanSendInChannel demo_wired demo_uuid (@uuid_print demo_uuid 6) (@uuid_print demo_uuid 9)
     message_demo_world).1 = Ok false ∧
  send = @unchecked_send (lossy_env 0) demo_uuid demo_cql true None None
           (@uuid_print demo_uuid 6) (@uuid_print demo_uuid 9) "hi" 0 "" [] None []
           (bump message_demo_world) ∧
  size (messages (cass send.2)) = S (size (messages (cass message_demo_world))) ∧
  ∃ pb, send.1 = Ok pb.
Proof.
  cbv zeta. split_and!.
  - vm_compute. reflexivity.
  - apply (@SendMessage_fails_open (lossy_env 0) demo_uuid demo_cql true None None
      (mkContext None None (Some (@uuid_print demo_uuid 6))) (@uuid_print demo_uuid 9) 9 "hi");
      [vm_compute; discriminate|reflexivity|discriminate|left; vm_compute; discriminate].
  - vm_compute. reflexivity.
  - eexists. vm_compute. reflexivity.
Defined.

Lemma BulkDeleteMessages_any_caller_witness :
  let r := @MessageHandler.BulkDeleteMessages demo_wired demo_uuid demo_cql
             (mkContext None None (Some "mallory"%string)) (@uuid_print demo_uuid 9)
             (@uuid_print demo_uuid <$> [77%positive]) message_demo_world in
  r.1 = Ok 1%Z ∧
  bulk_deleted 9 [77%positive] (cass message_demo_world) (cass r.2) ∧
  bus r.2 = bus message_demo_world.
Proof.
  apply (BulkDeleteMessages_any_caller (H := demo_wired)
           (mkContext None None (Some "mallory"%string))); [exact demo_fault_free|done|reflexivity|].
  by repeat constructor.
Defined.
