(* ===== verification/Stream.v ===== *)
(** * Stream: subscriptions to the event bus

    Models [src/internal/features/stream]: [resolver.go] (Module [Resolver]),
    [handler.go] (Module [StreamHandler]) and the wiring of [modules.go]; and
    [MultiSubscribe] of [src/internal/shared/realtime/nats.go] (Module
    [PubSub]).  A stream is open for as long as its client stays: what happens
    meanwhile is a list of [action]s, the messages NATS brings to one of the
    stream's subscriptions and everything else that goes on in the system, in
    any interleaving.  The NATS server is the class [NatsServer], the JSON
    library the class [StreamJson]. *)
From S2P Require Import Prelude Realtime Store Queries Authz Redis Middleware.
From S2P Require Import User Presence Voice Rpc.

(** ** NATS

    [subject_ok] is the check of a subject in [nc.Subscribe];
    [subject_matches p s] says whether a message on [s] reaches a subscription
    of [p].  The law is the documented one: a subject is tokens separated by
    dots, [*] stands for one token, a final [>] for one or more. *)
Fixpoint tokens (s : string) : list string :=
  match s with
  | "" => [""%string]
  | String c s =>
      if Ascii.eqb c "." then ""%string :: tokens s
      else match tokens s with
           | t :: ts => String c t :: ts
           | [] => [String c ""]
           end
  end%string.
Fixpoint tokens_match (p s : list string) : bool :=
  match p, s with
  | [], [] => true
  | [">"%string], _ :: _ => true
  | t :: p, u :: s => (string_eqb t "*" || string_eqb t u) && tokens_match p s
  | _, _ => false
  end.

Class NatsServer := {
  subject_ok : string → bool;
  subject_matches : string → string → bool;
  subject_matches_law : ∀ p s, subject_matches p s = tokens_match (tokens p) (tokens s)
}.

(** [json.Unmarshal] into each of the stream messages; [None] when the text
    does not decode to a message. *)
Class StreamJson := {
  Unmarshal_DmChat : string → option DmChatEvent;
  Unmarshal_DmChannel : string → option DmChannelEvent;
  Unmarshal_DmCall : string → option DmCallEvent;
  Unmarshal_TextChannel : string → option TextChannelEvent;
  Unmarshal_VoiceChat : string → option VoiceChatEvent;
  Unmarshal_Guild : string → option GuildEvent;
  Unmarshal_VoiceState : string → option VoiceStateEvent;
  Unmarshal_Typing : string → option TypingEvent;
  Unmarshal_FriendActivity : string → option FriendActivityEvent
}.

(** ** An open stream

    The world, the stream's subscriptions on the NATS connection, and what was
    handed to [stream.Send] so far. *)
Record Conn (T : Type) := mkConn { world : World; subs : list string; sent : list T }.
Arguments mkConn {_} _ _ _. Arguments world {_} _. Arguments subs {_} _. Arguments sent {_} _.

Definition with_world {T} (w : World) (c : Conn T) : Conn T := mkConn w (subs c) (sent c).
Definition with_subs {T} (l : list string) (c : Conn T) : Conn T := mkConn (world c) l (sent c).
Definition with_sent {T} (l : list T) (c : Conn T) : Conn T := mkConn (world c) (subs c) l.

(** A call that only concerns the world. *)
Definition lift {T A} (m : GoM World A) : GoM (Conn T) A := λ c,
  let (o, w) := m (world c) in (o, with_world w c).
(** A fresh connection. *)
Definition connect {T} (w : World) : Conn T := mkConn w [] [].

(** [defer cleanup()]: it runs however the body ends. *)
Definition deferred {S A} (cleanup : GoM S unit) (m : GoM S A) : GoM S A := λ s,
  let (o, s1) := m s in
  match cleanup s1 with
  | (Panic, s2) => (Panic, s2)
  | (_, s2) => (o, s2)
  end.

Inductive action :=
  | Deliver (sub subject data : string)
  | Elsewhere (f : World → World).

(** ** nats.go *)
Module PubSub.
Definition ErrBadSubject : error := Sentinel "nats.ErrBadSubject" "nats: invalid subject".

Section PubSub.
Context `{Env} `{!RedisServer} `{!NatsServer} {T : Type}.

(** [stream.Send(e)]: it fails when the client is gone. *)
Definition Send (e : T) : GoM (Conn T) unit := λ c,
  let c' := with_world (bump (world c)) c in
  match faults (tick (world c)) with
  | NoFault => (Ok tt, with_sent (sent c ++ [e]) c')
  | _ => (Err (Status UnavailableCode "transport is closing"), c')
  end.

(** [lps.nc.Subscribe(subject, callback)] *)
Definition nc_Subscribe (subject : string) : GoM (Conn T) unit := λ c,
  let c' := with_world (bump (world c)) c in
  match faults (tick (world c)) with
  | NoFault =>
      if subject_ok subject then (Ok tt, with_subs (subs c ++ [subject]) c')
      else (Err ErrBadSubject, c')
  | _ => (Err (Driver Unavailable), c')
  end.
Definition unsubscribe_all : GoM (Conn T) unit := modify (with_subs []).

Definition to_string (subjects : list string) : string :=
  "nats:subscribe:" +:+ String.concat ":" subjects.

Section Multi.
Variables (unmarshal : string → option T) (subjects : list string) (isChache : bool)
  (handler : T → GoM (Conn T) unit).

(** The last message is shown first, when the cache still has it. *)
Definition replay : GoM (Conn T) unit :=
  if isChache then
    data ← try (lift (command (GET (to_string subjects))));
    match data with
    | inl _ => mret tt
    | inr data => match unmarshal data with Some value => handler value | None => mret tt end
    end
  else mret tt.

(** The callback of a subscription. *)
Definition callback (data : string) : GoM (Conn T) unit :=
  match unmarshal data with
  | None => mret tt
  | Some value =>
      _ ← handler value;
      if isChache then ignore (lift (command (SET (to_string subjects) data (Some (minutes 5)))))
      else mret tt
  end.

(** One thing that happens while the stream is open: NATS calls back only
    for a subscription of the stream that the message's subject matches. *)
Definition receive (a : action) : GoM (Conn T) unit :=
  match a with
  | Elsewhere f => modify (λ c, with_world (f (world c)) c)
  | Deliver sub subject data => λ c,
      if existsb (string_eqb sub) (subs c) && subject_matches sub subject
      then callback data c else (Ok tt, c)
  end.

Definition subscribe_all : GoM (Conn T) unit := λ c,
  match for_each subjects nc_Subscribe c with
  | (Err e, c') => (unsubscribe_all ≫= λ _, fail e) c'
  | r => r
  end.

(** Up to the point where the stream waits for [ctx.Done()]. *)
Definition open : GoM (Conn T) unit := replay ≫= λ _, subscribe_all.

(** [acts] happen before the context is done, [ctx_err] is [ctx.Err()]. *)
Definition MultiSubscribe (ctx_err : error) (acts : list action) : GoM (Conn T) unit :=
  _ ← open;
  deferred unsubscribe_all (
    _ ← for_each acts receive;
    fail ctx_err).
End Multi.
End PubSub.
End PubSub.

(** ** What the handler needs of the other components *)
Record UserDataResolver := mkUserDataResolver {
  GetUserGuildIDs : string → GoM World (list string);
  GetUserFriendIDs : string → GoM World (list string)
}.
Record VoiceSnapshotProvider := mkVoiceSnapshotProvider {
  snap_GetChannelParticipants : string → GoM World (list VoiceStateEvent);
  snap_GetGuildVoiceChannelIDs : string → GoM World (list string)
}.
Record PresenceController := mkPresenceController {
  pc_OnUserConnect : string → GoM World unit;
  pc_OnUserDisconnect : string → GoM World unit
}.
Definition ChannelViewer : Type := string → string → GoM World bool.

(** ** resolver.go *)
Module Resolver.
Section Resolver.
Context `{Env} `{!UuidText}.
Definition parseUUID (s : string) : GoM World uuid :=
  match uuid_parse s with
  | Some u => mret u
  | None => fail (ErrorfW "invalid UUID %q: %w" (Driver InvalidRequest))
  end.
Definition GetUserGuildIDs (userID : string) : GoM World (list string) :=
  uid ← parseUUID userID;
  guilds ← Queries.ListUserGuilds uid ?> ErrorfW "list user guilds: %w";
  mret (map (λ g, uuid_print (g_id g)) guilds).
Definition GetUserFriendIDs (userID : string) : GoM World (list string) :=
  uid ← parseUUID userID;
  friends ← Queries.ListFriends uid ?> ErrorfW "list friends: %w";
  mret (map (λ f, uuid_print (u_id f.1)) friends).
Definition NewResolver : UserDataResolver := mkUserDataResolver GetUserGuildIDs GetUserFriendIDs.
End Resolver.
End Resolver.

(** ** handler.go *)
Record Handler := mkHandler {
  resolver : option UserDataResolver;
  voiceSnapshot : option VoiceSnapshotProvider;
  presence : option PresenceController;
  viewer : option ChannelViewer
}.

Module StreamHandler.
Definition NewHandler (r : UserDataResolver) : Handler := mkHandler (Some r) None None None.
Definition SetVoiceSnapshotProvider (v : VoiceSnapshotProvider) (h : Handler) : Handler :=
  mkHandler (resolver h) (Some v) (presence h) (viewer h).
Definition SetPresenceController (p : PresenceController) (h : Handler) : Handler :=
  mkHandler (resolver h) (voiceSnapshot h) (Some p) (viewer h).
Definition SetChannelViewer (v : ChannelViewer) (h : Handler) : Handler :=
  mkHandler (resolver h) (voiceSnapshot h) (presence h) (Some v).

Section Handler.
Context `{Env} `{!UuidText} `{!RedisServer} `{!NatsServer} `{!StreamJson}.
(** The handler, the request's context with the error it ends with, and what
    happens while the stream is open. *)
Variables (h : Handler) (ctx : Context) (ctx_err : error) (acts : list action).

Definition send {T} (data : T) : GoM (Conn T) unit := ignore (PubSub.Send data).

Definition canSeeChannel (userID channelID : string) : GoM World bool :=
  match viewer h with
  | None => mret true
  | Some see => if string_eqb channelID "" then mret true else see userID channelID
  end.
(** [if h.canSeeChannel(...) { stream.Send(data) }] *)
Definition send_if_seen {T} (userID channelID : string) (data : T) : GoM (Conn T) unit :=
  ok ← lift (canSeeChannel userID channelID);
  when ok (send data).

(** The caller and his guilds: the first lines of the guild streams. *)
Definition caller_guilds : GoM World (string * list string) :=
  userID ← caller_id ctx;
  r ← deref (resolver h);
  guildIDs ← GetUserGuildIDs r userID ?> (λ _, Status Internal "failed to get guilds");
  mret (userID, guildIDs).

Definition StreamDmChat : GoM (Conn DmChatEvent) unit :=
  userID ← lift (caller_id ctx);
  PubSub.MultiSubscribe Unmarshal_DmChat [DmAllMessages userID] true send ctx_err acts.

Definition StreamDmChannels : GoM (Conn DmChannelEvent) unit :=
  userID ← lift (caller_id ctx);
  PubSub.MultiSubscribe Unmarshal_DmChannel [DmChannels userID] true send ctx_err acts.

Definition StreamDmCalls : GoM (Conn DmCallEvent) unit :=
  userID ← lift (caller_id ctx);
  PubSub.MultiSubscribe Unmarshal_DmCall [DmCall userID] true send ctx_err acts.

Definition StreamTextChannels : GoM (Conn TextChannelEvent) unit :=
  '(userID, guildIDs) ← lift caller_guilds;
  PubSub.MultiSubscribe Unmarshal_TextChannel (map GuildAllMessages guildIDs) true
    (λ data, send_if_seen userID (tce_channel_id data) data) ctx_err acts.

Definition StreamVoiceChat : GoM (Conn VoiceChatEvent) unit :=
  '(userID, guildIDs) ← lift caller_guilds;
  PubSub.MultiSubscribe Unmarshal_VoiceChat (map GuildAllVoiceChat guildIDs) true
    (λ data, send_if_seen userID (vce_channel_id data) data) ctx_err acts.

Definition StreamGuildEvents : GoM (Conn GuildEvent) unit :=
  '(_, guildIDs) ← lift caller_guilds;
  PubSub.MultiSubscribe Unmarshal_Guild (map GuildEvents guildIDs) true send ctx_err acts.

(** [evt.GuildId = gid] *)
Definition set_guild_id (gid : string) (e : VoiceStateEvent) : VoiceStateEvent :=
  {| vse_event := vse_event e; vse_guild_id := gid; vse_channel_id := vse_channel_id e;
     vse_user_id := vse_user_id e; vse_self_mute := vse_self_mute e;
     vse_self_deaf := vse_self_deaf e; vse_video := vse_video e;
     vse_streaming := vse_streaming e; vse_timestamp := vse_timestamp e;
     vse_action := vse_action e; vse_sid := vse_sid e; vse_name := vse_name e;
     vse_metadata := vse_metadata e; vse_track_type := vse_track_type e;
     vse_published := vse_published e; vse_room_active_since := vse_room_active_since e |}.
(** The participants of one channel: a failure skips the channel, a failed
    send ends the stream. *)
Definition snapshot_channel (v : VoiceSnapshotProvider) (userID gid chID : string) :
    GoM (Conn VoiceStateEvent) unit :=
  see ← lift (canSeeChannel userID chID);
  if negb see then mret tt else
  events ← try (lift (snap_GetChannelParticipants v chID));
  match events with
  | inl _ => mret tt
  | inr events => for_each events (λ evt, PubSub.Send (set_guild_id gid evt))
  end.
Definition snapshot_guild (v : VoiceSnapshotProvider) (userID gid : string) :
    GoM (Conn VoiceStateEvent) unit :=
  channelIDs ← try (lift (snap_GetGuildVoiceChannelIDs v gid));
  match channelIDs with
  | inl _ => mret tt
  | inr channelIDs => for_each channelIDs (snapshot_channel v userID gid)
  end.
Definition StreamVoiceState : GoM (Conn VoiceStateEvent) unit :=
  '(userID, guildIDs) ← lift caller_guilds;
  _ ← match voiceSnapshot h with
      | None => mret tt
      | Some v => for_each guildIDs (snapshot_guild v userID)
      end;
  PubSub.MultiSubscribe Unmarshal_VoiceState (map GuildAllVoice guildIDs) true
    (λ data, send_if_seen userID (vse_channel_id data) data) ctx_err acts.

Definition typing_handler (userID : string) (data : TypingEvent) : GoM (Conn TypingEvent) unit :=
  if string_eqb (te_guild_id data) "" then send data
  else send_if_seen userID (te_channel_id data) data.
Definition StreamTyping : GoM (Conn TypingEvent) unit :=
  userID ← lift (caller_id ctx);
  r ← deref (resolver h);
  guildIDs ← lift (or_zero [] (GetUserGuildIDs r userID));
  PubSub.MultiSubscribe Unmarshal_Typing
    (DmAllTyping userID :: map GuildAllTyping guildIDs) false (typing_handler userID) ctx_err acts.

Definition friend_subjects (userID : string) : GoM World (list string) :=
  match resolver h with
  | None => mret [FriendActivity userID]
  | Some r =>
      friendIDs ← or_zero [] (GetUserFriendIDs r userID);
      mret (FriendActivity userID :: map FriendActivity friendIDs)
  end.
Definition friend_stream (userID : string) : GoM (Conn FriendActivityEvent) unit :=
  subjects ← lift (friend_subjects userID);
  PubSub.MultiSubscribe Unmarshal_FriendActivity subjects true send ctx_err acts.
Definition StreamFriendActivity : GoM (Conn FriendActivityEvent) unit :=
  userID ← lift (caller_id ctx);
  match presence h with
  | None => friend_stream userID
  | Some p =>
      _ ← lift (pc_OnUserConnect p userID);
      deferred (lift (pc_OnUserDisconnect p userID)) (friend_stream userID)
  end.
End Handler.
End StreamHandler.

(** ** modules.go: the handler as it is wired *)
Section Wiring.
Context `{Env} `{!UuidText} `{!RedisServer} `{!VoiceJson} `{!LiveKit}.
(** The clients of the voice and presence services, and the base URL the users
    service builds its links from. *)
Variables (rdb lpb roomClient : bool) (minioBaseURL : string).

Definition VoiceSnapshot : VoiceSnapshotProvider :=
  mkVoiceSnapshotProvider (VoiceService.SnapshotParticipants rdb lpb roomClient)
    (VoiceService.GetGuildVoiceChannelIDs rdb).
Definition presence_controller : PresenceController :=
  mkPresenceController (PresenceService.OnUserConnect lpb (Some (user_resolver minioBaseURL)))
    (PresenceService.OnUserDisconnect lpb (Some (user_resolver minioBaseURL))).
Definition provideHandler : Handler := StreamHandler.NewHandler Resolver.NewResolver.
Definition wireDependencies : Handler :=
  StreamHandler.SetVoiceSnapshotProvider VoiceSnapshot
    (StreamHandler.SetChannelViewer Authz.CanViewChannel
      (StreamHandler.SetPresenceController presence_controller provideHandler)).
End Wiring.
