(* ===== verification/StreamFacts.v ===== *)
(** * StreamFacts: what a stream delivers, and to whom

    The text stream shows a message only to a caller who may see its channel
    when the message arrives, and only from the guilds he was in when he
    opened the stream; the guild stream goes on after he has left the guild;
    reconnecting repeats the last cached message, a call that is over
    included; closing one stream shows its user offline. *)
From S2P Require Import Prelude Realtime Store Queries Authz AuthzFacts Redis Middleware.
From S2P Require Import Guild GuildFacts User Presence PresenceFacts Voice VoiceFacts VoiceCalls.
From S2P Require Import Rpc Stream.

(** ** Subjects *)
Section Subjects.
Context `{!NatsServer}.

Fixpoint dotless (s : string) : bool :=
  match s with
  | "" => true
  | String c s => negb (Ascii.eqb c ".") && dotless s
  end%string.
(** A text that is one literal token of a subject. *)
Definition is_token (s : string) : Prop := dotless s = true ∧ s ≠ "*"%string.

Lemma tokens_not_nil s : ∃ t ts, tokens s = t :: ts.
Proof.
  induction s as [|c s (t & ts & IH)]; [by eexists _, _|]. simpl. rewrite IH.
  destruct (Ascii.eqb c "."); by eexists _, _.
Qed.
Lemma tokens_dotless s : dotless s = true → tokens s = [s].
Proof.
  induction s as [|c s IH]; [done|]. simpl. intros [Hc%negb_true_iff Hs]%andb_true_iff.
  by rewrite Hc, IH.
Qed.
Lemma tokens_app s r : dotless s = true → tokens (s +:+ String "." r) = s :: tokens r.
Proof.
  induction s as [|c s IH]; [done|]. cbn [dotless]. intros [Hc%negb_true_iff Hs]%andb_true_iff.
  change (tokens (String c (s +:+ String "." r)) = String c s :: tokens r).
  cbn [tokens]. by rewrite Hc, IH.
Qed.
Lemma tokens_match_refl l : tokens_match l l = true.
Proof.
  induction l as [|t l IH]; [done|]. cbn [tokens_match]. unfold string_eqb.
  rewrite (bool_decide_eq_true_2 (t = t)), IH, orb_true_r by done.
  by repeat case_match.
Qed.
(** A token that is not the last is matched on its own. *)
Lemma tokens_match_cons t t' p u s :
  tokens_match (t :: t' :: p) (u :: s) =
  (string_eqb t "*" || string_eqb t u) && tokens_match (t' :: p) s.
Proof. simpl. by repeat case_match. Qed.
(** A subject without wildcards reaches its own subscription. *)
Lemma subject_matches_refl s : subject_matches s s = true.
Proof. rewrite subject_matches_law. apply tokens_match_refl. Qed.

Lemma tokens_guild g r : dotless g = true →
  tokens ("guild." +:+ g +:+ String "." r) = "guild"%string :: g :: tokens r.
Proof. intros Hg. by rewrite <-(tokens_app g r). Qed.

(** A message of a guild's channel reaches that guild's subscription only. *)
Lemma guild_messages_routed g g' ch : is_token g → dotless g' = true →
  subject_matches (GuildAllMessages g) (GuildChannelMessage g' ch) = true → g = g'.
Proof.
  intros [Hg Hs] Hg'. rewrite subject_matches_law. unfold GuildAllMessages, GuildChannelMessage.
  change (".channel.message." +:+ ch) with (String "." ("channel.message." +:+ ch)).
  rewrite (tokens_guild g "channel.message.*") by done.
  rewrite (tokens_guild g' ("channel.message." +:+ ch)) by done.
  destruct (tokens_not_nil "channel.message.*") as (t & ts & ->).
  rewrite !tokens_match_cons, !andb_true_iff, !orb_true_iff. intros (_ & Hm & _).
  unfold string_eqb in Hm. rewrite !bool_decide_eq_true in Hm. by destruct Hm.
Qed.
End Subjects.

(** ** Runs of a stream *)
Section Runs.
Context {T : Type}.
Implicit Types c : Conn T.

Lemma lift_sent {A} (m : GoM World A) c : sent (lift m c).2 = sent c.
Proof. unfold lift. by destruct (m _). Qed.
Lemma lift_subs {A} (m : GoM World A) : steps (same subs) (lift m : GoM (Conn T) A).
Proof. intros c. unfold same, lift. by destruct (m _). Qed.
Lemma lift_run {A} (m : GoM World A) c o w : m (world c) = (o, w) →
  lift m c = (o, with_world w c).
Proof. unfold lift. by intros ->. Qed.

Lemma for_each_snoc {S A} (xs : list A) x (body : A → GoM S unit) s :
  for_each (xs ++ [x]) body s =
  match for_each xs body s with (Ok _, s') => body x s' | r => r end.
Proof.
  revert s. induction xs as [|y xs IH]; intros s; cbn [for_each app].
  - unfold mbind, gom_bind, mret, gom_ret. by destruct (body x s) as [[[]|e|] s'].
  - unfold mbind, gom_bind. destruct (body y s) as [[[]|e|] s']; [apply IH|done..].
Qed.

Section Multi.
Context `{Env} `{!RedisServer} `{!NatsServer}.
Context (unmarshal : string → option T) (subjects : list string) (cache : bool)
  (handler : T → GoM (Conn T) unit).
(** What the handler may hand to the client for a value, and when. *)
Context (P : T → World → T → Prop).
Hypothesis handler_sends : ∀ v c, ∃ l, sent (handler v c).2 = sent c ++ l ∧
  ∀ e, e ∈ l → P v (world c) e.
Hypothesis handler_subs : ∀ v, steps (same subs) (handler v).

Notation receive := (PubSub.receive unmarshal subjects cache handler).
Notation callback := (PubSub.callback unmarshal subjects cache handler).

Lemma callback_sends data c : ∃ l, sent (callback data c).2 = sent c ++ l ∧
  ∀ e, e ∈ l → ∃ v, unmarshal data = Some v ∧ P v (world c) e.
Proof.
  unfold PubSub.callback. destruct (unmarshal data) as [v|].
  - destruct (handler_sends v c) as (l & Hl & HP). exists l. split; [|eauto].
    rewrite <-Hl. unfold mbind, gom_bind. destruct (handler v c) as [[[]|e|] c1]; [|done..].
    destruct cache; [|done]. unfold ignore.
    pose proof (lift_sent (command (SET (PubSub.to_string subjects) data (Some (minutes 5)))) c1) as Hs.
    by destruct (lift _ c1) as [[]].
  - exists []. split; [by rewrite app_nil_r|]. intros e He. by apply elem_of_nil in He.
Qed.

Lemma receive_subs a : steps (same subs) (receive a).
Proof.
  destruct a as [sub subject data|f]; [|by intros c]. intros c. cbn [PubSub.receive].
  destruct (_ && _); [|done]. revert c. unfold PubSub.callback. destruct (unmarshal data) as [v|];
    [|apply steps_ret, _]. apply steps_bind; [apply _|apply handler_subs|]. intros _.
  destruct cache; [apply steps_ignore, lift_subs|apply steps_ret, _].
Qed.

(** Where everything the client got while the stream was open comes from. *)
Lemma received_from acts c e :
  e ∈ sent (for_each acts receive c).2 →
  e ∈ sent c ∨
  ∃ acts1 sub subject data acts2 v, acts = acts1 ++ Deliver sub subject data :: acts2 ∧
    sub ∈ subs c ∧ subject_matches sub subject = true ∧ unmarshal data = Some v ∧
    P v (world (for_each acts1 receive c).2) e.
Proof.
  induction acts as [|a acts IH] using rev_ind; [by left|]. rewrite for_each_snoc.
  assert (e ∈ sent (for_each acts receive c).2 →
    e ∈ sent c ∨ ∃ acts1 sub subject data acts2 v, acts ++ [a] = acts1 ++ Deliver sub subject data :: acts2 ∧
    sub ∈ subs c ∧ subject_matches sub subject = true ∧ unmarshal data = Some v ∧
    P v (world (for_each acts1 receive c).2) e) as Hold.
  { intros [He|(acts1 & sub & subject & data & acts2 & v & -> & Hr)]%IH; [by left|right].
    exists acts1, sub, subject, data, (acts2 ++ [a]), v. by rewrite <-app_assoc. }
  destruct (for_each acts receive c) as [[[]|err|] c1] eqn:E; [|exact Hold..]. intros He.
  destruct a as [sub subject data|f]; [|by apply Hold]. cbn [PubSub.receive] in He.
  destruct (_ && _) eqn:Hm; [|by apply Hold].
  apply andb_true_iff in Hm as [Hsub Hm].
  destruct (callback_sends data c1) as (l & Hl & HP). rewrite Hl in He.
  apply elem_of_app in He as [He|He]; [by apply Hold|]. right.
  destruct (HP e He) as (v & Hv & HPv). exists acts, sub, subject, data, [], v.
  split_and!; [done| |done|done|by rewrite E].
  assert (subs c1 = subs c) as <-.
  { pose proof (steps_for_each (same subs) acts receive receive_subs c) as Hs. by rewrite E in Hs. }
  apply existsb_exists in Hsub as (s & Hs%list_elem_of_In & ->%bool_decide_eq_true). done.
Qed.

Lemma subscribe_sent : steps (same sent) (PubSub.subscribe_all subjects (T := T)).
Proof.
  assert (steps (same sent) (for_each subjects (PubSub.nc_Subscribe (T := T)))) as Hs.
  { apply steps_for_each; [apply _|]. intros s c. unfold PubSub.nc_Subscribe.
    destruct (faults _); [|done..]. by destruct (subject_ok s). }
  intros c. specialize (Hs c). unfold PubSub.subscribe_all.
  by destruct (for_each subjects _ c) as [[[]|e|] c1].
Qed.
Lemma subscribe_subs c s : s ∈ subs (PubSub.subscribe_all subjects (T := T) c).2 →
  s ∈ subs c ∨ s ∈ subjects.
Proof.
  assert (∀ l c, s ∈ subs (for_each l (PubSub.nc_Subscribe (T := T)) c).2 → s ∈ subs c ∨ s ∈ l) as Hs.
  { intros l. induction l as [|x l IH]; intros c0; [by left|]. cbn [for_each].
    unfold mbind, gom_bind. destruct (PubSub.nc_Subscribe x c0) as [o c1] eqn:E.
    assert (s ∈ subs c1 → s ∈ subs c0 ∨ s ∈ x :: l) as Hx1.
    { revert E. unfold PubSub.nc_Subscribe.
      destruct (faults _); [destruct (subject_ok x)|..]; intros [= <- <-]; simpl; rewrite ?elem_of_app, ?list_elem_of_singleton, ?elem_of_cons; tauto. }
    destruct o; [|done..]. intros [Hx|Hx]%IH; [by auto|]. right. by right. }
  unfold PubSub.subscribe_all. specialize (Hs subjects c).
  destruct (for_each subjects _ c) as [[[]|e|] c1]; [done| |done].
  simpl. intros Hx. by apply elem_of_nil in Hx.
Qed.
(** A stream up to the point where [acts] have happened. *)
Definition so_far (acts : list action) : GoM (Conn T) unit :=
  PubSub.open unmarshal subjects cache handler ≫= λ _, for_each acts receive.

Lemma MultiSubscribe_sent ctx_err acts c :
  sent (PubSub.MultiSubscribe unmarshal subjects cache handler ctx_err acts c).2 =
  sent (so_far acts c).2.
Proof.
  unfold PubSub.MultiSubscribe, so_far, mbind, gom_bind, deferred, fail.
  destruct (PubSub.open _ _ _ _ c) as [[[]|e|] c1]; [|done..].
  by destruct (for_each acts _ c1) as [[[]|e|] c2].
Qed.

Lemma replayed_from c e : e ∈ sent (PubSub.replay unmarshal subjects cache handler c).2 →
  e ∈ sent c ∨
  ∃ data w1 v, command (GET (PubSub.to_string subjects)) (world c) = (Ok data, w1) ∧
    unmarshal data = Some v ∧ P v w1 e.
Proof.
  unfold PubSub.replay. destruct cache; [|by left]. unfold mbind, gom_bind, try, lift.
  destruct (command _ _) as [[data|err|] w1]; [|by left..].
  destruct (unmarshal data) as [v|] eqn:Hv; [|by left].
  destruct (handler_sends v (with_world w1 c)) as (l & -> & HP).
  intros [He|He]%elem_of_app; [by left|]. right. exists data, w1, v. split_and!; auto.
Qed.
Lemma replay_subs : steps (same subs) (PubSub.replay unmarshal subjects cache handler).
Proof.
  unfold PubSub.replay. destruct cache; [|apply steps_ret, _].
  apply steps_bind; [apply _|apply steps_try, lift_subs|]. intros [err|data]; [apply steps_ret, _|].
  destruct (unmarshal data); [apply handler_subs|apply steps_ret, _].
Qed.

Notation replayed c e := (∃ data w1 v,
  command (GET (PubSub.to_string subjects)) (world c) = (Ok data, w1) ∧
  unmarshal data = Some v ∧ P v w1 e).

Lemma opened_from c e : e ∈ sent (PubSub.open unmarshal subjects cache handler c).2 →
  e ∈ sent c ∨ replayed c e.
Proof.
  intros He. apply replayed_from. revert He. unfold PubSub.open, mbind, gom_bind.
  destruct (PubSub.replay _ _ _ _ c) as [[[]|err|] c1]; [|done..].
  by rewrite (subscribe_sent c1).
Qed.
Lemma opened_subs c s : s ∈ subs (PubSub.open unmarshal subjects cache handler c).2 →
  s ∈ subs c ∨ s ∈ subjects.
Proof.
  pose proof (replay_subs c) as Hrs. unfold PubSub.open, mbind, gom_bind. revert Hrs. unfold same.
  destruct (PubSub.replay _ _ _ _ c) as [[[]|err|] c1]; simpl; intros <-; [|by left..].
  apply subscribe_subs.
Qed.

(** Where everything a client gets comes from: the last cached message, or
    a message that NATS brought to a subscription of the stream. *)
Lemma streamed_from ctx_err acts c e :
  e ∈ sent (PubSub.MultiSubscribe unmarshal subjects cache handler ctx_err acts c).2 →
  e ∈ sent c ∨ replayed c e ∨
  ∃ acts1 sub subject data acts2 v, acts = acts1 ++ Deliver sub subject data :: acts2 ∧
    (sub ∈ subs c ∨ sub ∈ subjects) ∧ subject_matches sub subject = true ∧
    unmarshal data = Some v ∧ P v (world (so_far acts1 c).2) e.
Proof.
  rewrite MultiSubscribe_sent. unfold so_far, mbind, gom_bind.
  pose proof (opened_from c e) as Hf. pose proof (opened_subs c) as Hs.
  destruct (PubSub.open _ _ _ _ c) as [[[]|err|] c1]; simpl in Hf, Hs; [|tauto..].
  intros [He|(acts1 & sub & subject & data & acts2 & v & Ha & Hsub & Hr)]%received_from; [tauto|].
  right. right. exists acts1, sub, subject, data, acts2, v. auto.
Qed.
End Multi.
End Runs.

(** ** The text stream *)
Section Handlers.
Context `{Env} `{!UuidText} `{!RedisServer} `{!NatsServer} `{!StreamJson}.
Context `{!VoiceJson} `{!LiveKit}.
Context (rdb lpb roomClient : bool) (minioBaseURL : string).
Implicit Types (w : World).

Notation wired := (wireDependencies rdb lpb roomClient minioBaseURL).

Lemma Send_subs {T} (e : T) : steps (same subs) (PubSub.Send e).
Proof. intros c. unfold same, PubSub.Send. by destruct (faults _). Qed.
Lemma send_sends {T} (v : T) c : ∃ l, sent (StreamHandler.send v c).2 = sent c ++ l ∧
  ∀ e, e ∈ l → e = v.
Proof.
  unfold StreamHandler.send, ignore, PubSub.Send. destruct (faults _); [exists [v]|exists []..];
    rewrite ?app_nil_r; (split; [done|]); intros e He; [by apply list_elem_of_singleton in He|..];
    by apply elem_of_nil in He.
Qed.
Lemma send_if_seen_sends {T} h userID ch (v : T) c : ∃ l,
  sent (StreamHandler.send_if_seen h userID ch v c).2 = sent c ++ l ∧
  ∀ e, e ∈ l → e = v ∧ ∃ w', StreamHandler.canSeeChannel h userID ch (world c) = (Ok true, w').
Proof.
  unfold StreamHandler.send_if_seen, mbind, gom_bind, lift.
  destruct (StreamHandler.canSeeChannel _ _ _ _) as [[[]|e|] w1];
    [|exists []; rewrite app_nil_r; split; [done|]; intros e' He; by apply elem_of_nil in He..].
  destruct (send_sends v (with_world w1 c)) as (l & Hl & HP). exists l. split; [exact Hl|]. eauto.
Qed.
Lemma send_if_seen_subs {T} h userID ch (v : T) :
  steps (same subs) (StreamHandler.send_if_seen h userID ch v).
Proof.
  apply steps_bind; [apply _|apply lift_subs|]. intros b. apply steps_when; [apply _|].
  apply steps_ignore, Send_subs.
Qed.

(** *** The caller's guilds *)
Definition his_guilds (d : Db) (u : uuid) : list uuid :=
  map g_id (rows (λ id g, negb (g_deleted g) &&
    match d.(guild_members) !! (id, u) with
    | Some gm => negb (gm_deleted gm)
    | None => false
    end) d.(guilds)).
(** He is a live member of the live guild. *)
Definition in_guild (d : Db) (u g : uuid) : Prop :=
  Queries.member_of d u g = true ∧ ∃ row, d.(guilds) !! g = Some row ∧ g_deleted row = false.

Lemma his_guilds_in d u g : guild_wf d → g ∈ his_guilds d u ↔ in_guild d u g.
Proof.
  intros Hwf. unfold his_guilds. rewrite list_elem_of_fmap. setoid_rewrite elem_of_rows. split.
  - intros (row & -> & k & Hk & [Hd%negb_true_iff Hm]%andb_true_iff).
    rewrite (wf_guild_id d Hwf k row Hk) in *. split; [exact Hm|eauto].
  - intros (Hm & row & Hg & Hd). exists row. split; [by rewrite (wf_guild_id d Hwf g row Hg)|].
    exists g. split; [done|]. by rewrite Hd.
Qed.

Lemma caller_guilds_run ctx u w : faults (tick w) = NoFault → UserIDFromContext ctx = uuid_print u →
  StreamHandler.caller_guilds wired ctx w =
  (Ok (uuid_print u, map uuid_print (his_guilds (db w) u)), bump w).
Proof.
  intros Hff Hu. unfold StreamHandler.caller_guilds, mbind, gom_bind.
  rewrite caller_id_known, Hu by (rewrite Hu; apply uuid_print_nonempty).
  cbn [deref resolver wireDependencies StreamHandler.SetVoiceSnapshotProvider mret gom_ret
    StreamHandler.SetChannelViewer StreamHandler.SetPresenceController provideHandler
    StreamHandler.NewHandler]. unfold mret, gom_ret, on_err. cbn [GetUserGuildIDs Resolver.NewResolver].
  unfold Resolver.GetUserGuildIDs, Resolver.parseUUID. rewrite uuid_parse_print.
  unfold mbind, gom_bind, mret, gom_ret, on_err, Queries.ListUserGuilds.
  rewrite query_run by done. cbn [fst]. unfold his_guilds. by rewrite map_map.
Qed.

Lemma lifted_guilds {T} ctx u w : fault_free → UserIDFromContext ctx = uuid_print u →
  lift (StreamHandler.caller_guilds wired ctx) (connect w : Conn T) =
  (Ok (uuid_print u, map uuid_print (his_guilds (db w) u)), connect (bump w)).
Proof. intros Hff Hu. apply (lift_run _ (connect w)), caller_guilds_run; [apply Hff|done]. Qed.
(** A lookup that is lost ends the stream. *)
Lemma caller_guilds_lost {T} ctx u w : faults (tick w) ≠ NoFault → UserIDFromContext ctx = uuid_print u →
  ∃ e c, lift (StreamHandler.caller_guilds wired ctx) (connect w : Conn T) = (Err e, c) ∧ sent c = [].
Proof.
  intros Hf Hu. unfold lift, StreamHandler.caller_guilds, mbind, gom_bind.
  rewrite caller_id_known, Hu by (rewrite Hu; apply uuid_print_nonempty).
  cbn [deref resolver wireDependencies StreamHandler.SetVoiceSnapshotProvider mret gom_ret
    StreamHandler.SetChannelViewer StreamHandler.SetPresenceController provideHandler
    StreamHandler.NewHandler]. unfold mret, gom_ret, on_err. cbn [GetUserGuildIDs Resolver.NewResolver].
  unfold Resolver.GetUserGuildIDs, Resolver.parseUUID. rewrite uuid_parse_print.
  unfold mbind, gom_bind, mret, gom_ret, on_err, Queries.ListUserGuilds, query, sql, external.
  cbn [world connect]. destruct (faults (tick w)); [done|by do 2 eexists..].
Qed.

(** *** What the filter reads *)
Definition clock_monotone : Prop := ∀ n m, n ≤ m → (clock n ≤ clock m)%Z.
Definition sound_world w : Prop := overrides_wf w.(db) ∧ cache_coherent w.

Lemma sound_later w w' : clock_monotone → sound_world w → db w' = db w →
  chanGuildCache w' = chanGuildCache w → tick w ≤ tick w' → sound_world w'.
Proof.
  intros Hc [Ho Hco] Hdb Hca Ht. unfold sound_world, cache_coherent. rewrite Hdb, Hca.
  split; [done|]. intros text e He Hexp. apply (Hco text e He).
  specialize (Hc _ _ Ht). lia.
Qed.

Lemma canSee_sound u ch w w' : authz_wired = true → fault_free → sound_world w →
  StreamHandler.canSeeChannel wired (uuid_print u) (uuid_print ch) w = (Ok true, w') →
  ChannelAuthorized w.(db) u ch "VIEW_CHANNELS".
Proof.
  intros Hw Hff [Ho Hco]. unfold StreamHandler.canSeeChannel, string_eqb.
  cbn [viewer wireDependencies StreamHandler.SetVoiceSnapshotProvider StreamHandler.SetChannelViewer].
  rewrite bool_decide_eq_false_2 by apply uuid_print_nonempty.
  destruct (checkChannel_run u ch "can_view_channels" "VIEW_CHANNELS" w Hw Hff eq_refl Ho Hco)
    as (b & w1 & Ec & _ & Hb).
  unfold Authz.CanViewChannel. rewrite Ec. intros [= -> _]. by apply Hb.
Qed.

(** The text stream after [acts]. *)
Definition text_so_far ctx (acts : list action) : GoM (Conn TextChannelEvent) unit :=
  '(userID, guildIDs) ← lift (StreamHandler.caller_guilds wired ctx);
  so_far Unmarshal_TextChannel (map GuildAllMessages guildIDs) true
    (λ data, StreamHandler.send_if_seen wired userID (tce_channel_id data) data) acts.

(** C26: the scope of the text stream.  Whatever fails and whatever happens
    while the stream is open, in whatever interleaving, every event of a
    channel that it hands to its client is either the cached one replayed at
    the opening; or it decodes from a message NATS brought to the subscription
    of one guild, of which the caller was a live member when he connected, so
    a message of any other guild never arrives.  If moreover every statement
    is answered, and at the moment of the test the override rows are well
    formed and the channel cache agrees with the tables, the caller was
    authorized to view the channel at that moment (the opening, or the arrival
    of the message).  Without these conditions he need not be: a lost override
    query and a channel deleted within the lifetime of its cache entry pass. *)
Theorem StreamTextChannels_scope ctx ctx_err u ch acts w e :
  authz_wired = true → clock_monotone → guild_wf w.(db) →
  (∀ v, is_token (uuid_print v)) → UserIDFromContext ctx = uuid_print u →
  e ∈ sent (StreamHandler.StreamTextChannels wired ctx ctx_err acts (connect w)).2 →
  tce_channel_id e = uuid_print ch →
  (∃ data, live_value (clock (S (tick w))) (redis w)
      (PubSub.to_string (map GuildAllMessages (map uuid_print (his_guilds w.(db) u)))) = Some (RString data) ∧
    Unmarshal_TextChannel data = Some e ∧
    (fault_free → sound_world w → ChannelAuthorized w.(db) u ch "VIEW_CHANNELS")) ∨
  ∃ acts1 g subject data acts2,
    acts = acts1 ++ Deliver (GuildAllMessages (uuid_print g)) subject data :: acts2 ∧
    in_guild w.(db) u g ∧ Unmarshal_TextChannel data = Some e ∧
    (∀ g' text, subject = GuildChannelMessage (uuid_print g') text → g' = g) ∧
    (fault_free → sound_world (world (text_so_far ctx acts1 (connect w)).2) →
     ChannelAuthorized (world (text_so_far ctx acts1 (connect w)).2).(db) u ch "VIEW_CHANNELS").
Proof.
  intros Hw Hcl Hgw Htok Hu He Hch.
  unfold StreamHandler.StreamTextChannels in He.
  assert (faults (tick w) = NoFault ∨ faults (tick w) ≠ NoFault) as [Hf|Hf]
    by (destruct (faults (tick w)); [by left|by right..]); cycle 1.
  { destruct (caller_guilds_lost (T := TextChannelEvent) ctx u w Hf Hu) as (err & c & E & Hs).
    rewrite (bind_Err _ _ _ _ _ E) in He. cbn [snd] in He. rewrite Hs in He. by apply elem_of_nil in He. }
  pose proof (lift_run (T := TextChannelEvent) _ (connect w) _ _ (caller_guilds_run ctx u w Hf Hu)) as Hcg.
  rewrite (bind_run _ _ _ _ _ Hcg) in He.
  eapply (streamed_from _ _ _ _ (λ v wd e, e = v ∧ ∃ w', StreamHandler.canSeeChannel wired
    (uuid_print u) (tce_channel_id v) wd = (Ok true, w'))) in He;
    [|intros; apply send_if_seen_sends|intros; apply send_if_seen_subs].
  destruct He as [He|[(data & w1 & v & Hget & Hv & -> & w' & Hsee)|
    (acts1 & sub & subject & data & acts2 & v & Hacts & Hsub & Hm & Hv & -> & w' & Hsee)]].
  - by apply elem_of_nil in He.
  - left. rewrite Hch in Hsee. exists data. cbn [world with_world connect] in Hget.
    apply command_Ok_inv in Hget as (r & Hget & ->). rewrite GET_law in Hget.
    destruct (live_value _ _ _) as [[s|h]|] eqn:El; [|done..]. injection Hget as -> <-.
    split_and!; [done|done|]. intros Hff Hso.
    refine (canSee_sound u ch _ w' Hw Hff _ Hsee). eapply sound_later; [done|exact Hso|done|done|]. simpl. lia.
  - right. destruct Hsub as [Hsub|Hsub]; [by apply elem_of_nil in Hsub|].
    apply list_elem_of_fmap in Hsub as (gid & -> & (g & -> & Hg)%list_elem_of_fmap).
    exists acts1, g, subject, data, acts2. split_and!; [done|by apply his_guilds_in|done| |].
    + intros g' text ->. symmetry. apply (inj uuid_print). eapply guild_messages_routed; [done| |exact Hm].
      apply Htok.
    + intros Hff Hso. rewrite Hch in Hsee. unfold text_so_far in *.
      rewrite (bind_run _ _ _ _ _ Hcg) in *. by eapply canSee_sound.
Qed.

(** *** Streams that send everything *)
Section Unfiltered.
Context {T : Type} (unmarshal : string → option T) (subjects : list string) (cache : bool).
Implicit Types c : Conn T.

(** The message the cache holds for these subjects. *)
Definition cached_events w : list T :=
  if cache then
    match live_value (clock (tick w)) (redis w) (PubSub.to_string subjects) with
    | Some (RString data) => omap unmarshal [data]
    | _ => []
    end
  else [].
(** What an action gives the client of a stream subscribed to [subjects]. *)
Definition accepted (a : action) : option T :=
  match a with
  | Deliver sub subject data =>
      if existsb (string_eqb sub) subjects && subject_matches sub subject then unmarshal data else None
  | Elsewhere _ => None
  end.

Lemma send_run e c : fault_free →
  StreamHandler.send e c = (Ok tt, mkConn (bump (world c)) (subs c) (sent c ++ [e])).
Proof. intros Hff. unfold StreamHandler.send, ignore, PubSub.Send. by rewrite Hff. Qed.

Lemma SET_run k data ttl w : fault_free →
  command (SET k data ttl) w =
  (Ok tt, with_redis (<[k := mkRedisEntry (RString data) (Z.add (clock (tick w)) <$> ttl)]> (redis w)) (bump w)).
Proof. intros Hff. by rewrite command_run, SET_law by apply Hff. Qed.

Lemma callback_run data c : fault_free → ∃ w',
  PubSub.callback unmarshal subjects cache StreamHandler.send data c =
    (Ok tt, mkConn w' (subs c) (sent c ++ omap unmarshal [data])).
Proof.
  intros Hff. unfold PubSub.callback. simpl. destruct (unmarshal data) as [v|];
    [|rewrite app_nil_r; exists (world c); by destruct c].
  rewrite (bind_run _ _ _ _ _ (send_run v c Hff)). destruct cache; [|by eexists].
  unfold ignore, lift. rewrite SET_run by done. by eexists.
Qed.

Lemma receive_run a c : fault_free → subs c = subjects → ∃ w',
  PubSub.receive unmarshal subjects cache StreamHandler.send a c =
    (Ok tt, mkConn w' subjects (sent c ++ omap accepted [a])).
Proof.
  intros Hff Hs. destruct a as [sub subject data|f]; simpl.
  - rewrite Hs. destruct (_ && _).
    + destruct (callback_run data c Hff) as [w' ->]. exists w'. by rewrite Hs.
    + rewrite app_nil_r, <-Hs. exists (world c). by destruct c.
  - rewrite app_nil_r, <-Hs. by eexists.
Qed.
Lemma receives_run acts c : fault_free → subs c = subjects → ∃ w',
  for_each acts (PubSub.receive unmarshal subjects cache StreamHandler.send) c =
    (Ok tt, mkConn w' subjects (sent c ++ omap accepted acts)).
Proof.
  intros Hff. revert c. induction acts as [|a acts IH]; intros c Hs.
  { exists (world c). simpl. rewrite app_nil_r, <-Hs. by destruct c. }
  cbn [for_each]. destruct (receive_run a c Hff Hs) as [w1 E]. rewrite (bind_run _ _ _ _ _ E).
  destruct (IH (mkConn w1 subjects (sent c ++ omap accepted [a])) eq_refl) as [w2 ->].
  exists w2. cbn [sent]. rewrite <-app_assoc, <-omap_app. done.
Qed.

Lemma replay_run c : fault_free → ∃ w',
  PubSub.replay unmarshal subjects cache StreamHandler.send c =
    (Ok tt, mkConn w' (subs c) (sent c ++ cached_events (world c))).
Proof.
  intros Hff. unfold PubSub.replay, cached_events.
  destruct cache; [|rewrite app_nil_r; exists (world c); by destruct c].
  unfold mbind, gom_bind, try, lift. rewrite command_run, GET_law by apply Hff.
  destruct (live_value _ _ _) as [[data|h]|]; [|rewrite app_nil_r; by eexists..].
  simpl. destruct (unmarshal data) as [v|]; [|rewrite app_nil_r; by eexists].
  rewrite send_run by done. by eexists.
Qed.
Lemma nc_Subscribe_run s c : fault_free → subject_ok s = true →
  PubSub.nc_Subscribe s c = (Ok tt, mkConn (bump (world c)) (subs c ++ [s]) (sent c)).
Proof. intros Hff Hs. unfold PubSub.nc_Subscribe. by rewrite Hff, Hs. Qed.
Lemma subscribe_run l c : fault_free → Forall (λ s, subject_ok s = true) l → ∃ w',
  for_each l PubSub.nc_Subscribe c = (Ok tt, mkConn w' (subs c ++ l) (sent c)).
Proof.
  intros Hff Hl. revert c. induction Hl as [|s l Hs Hl IH]; intros c.
  { exists (world c). rewrite app_nil_r. by destruct c. }
  cbn [for_each]. rewrite (bind_run _ _ _ _ _ (nc_Subscribe_run s c Hff Hs)).
  destruct (IH (mkConn (bump (world c)) (subs c ++ [s]) (sent c))) as [w' ->].
  exists w'. cbn [subs sent]. by rewrite <-app_assoc.
Qed.

(** The whole run: the cached message, then whatever NATS brings, until the
    context is done. *)
Lemma unfiltered_run ctx_err acts w : fault_free → Forall (λ s, subject_ok s = true) subjects →
  ∃ w', PubSub.MultiSubscribe unmarshal subjects cache StreamHandler.send ctx_err acts (connect w) =
    (Err ctx_err, mkConn w' [] (cached_events w ++ omap accepted acts)).
Proof.
  intros Hff Hs. unfold PubSub.MultiSubscribe, PubSub.open.
  destruct (replay_run (connect w) Hff) as [w1 E1].
  destruct (subscribe_run subjects (mkConn w1 [] (cached_events w)) Hff Hs) as [w2 E2].
  destruct (receives_run acts (mkConn w2 subjects (cached_events w)) Hff eq_refl) as [w3 E3].
  exists w3. unfold mbind, gom_bind, deferred, PubSub.subscribe_all. cbn [world sent subs connect app] in *.
  by rewrite E1, E2, E3.
Qed.
End Unfiltered.

(** C27: what the guild stream delivers is fixed when it opens. It sends the
    cached message and then, in the order in which they arrive, exactly the
    messages of the guilds the caller was in when he connected: nothing that
    happens elsewhere while it is open takes a guild away, so a member who is
    kicked or banned, or leaves, keeps receiving the guild's events, and a
    guild he joins stays silent, until he reconnects. *)
Theorem StreamGuildEvents_fixed_at_opening ctx ctx_err u acts w :
  fault_free → UserIDFromContext ctx = uuid_print u →
  (∀ v, subject_ok (GuildEvents (uuid_print v)) = true) →
  let subjects := map (λ g, GuildEvents (uuid_print g)) (his_guilds w.(db) u) in
  ∃ w', StreamHandler.StreamGuildEvents wired ctx ctx_err acts (connect w) =
    (Err ctx_err, mkConn w' []
      (cached_events Unmarshal_Guild subjects true (bump w) ++
       omap (accepted Unmarshal_Guild subjects) acts)).
Proof.
  intros Hff Hu Hok subjects. unfold StreamHandler.StreamGuildEvents.
  rewrite (bind_run _ _ _ _ _ (lifted_guilds ctx u w Hff Hu)), map_map. apply unfiltered_run; [done|].
  apply Forall_forall. intros s (g & -> & _)%list_elem_of_fmap. apply Hok.
Qed.

(** *** Reconnecting *)
Lemma callback_cached {T} (unmarshal : string → option T) subjects data v (c : Conn T) :
  fault_free → unmarshal data = Some v → ∃ w', let n := S (tick (world c)) in
  PubSub.callback unmarshal subjects true StreamHandler.send data c =
    (Ok tt, mkConn w' (subs c) (sent c ++ [v])) ∧ tick w' = S n ∧
  redis w' !! PubSub.to_string subjects =
    Some (mkRedisEntry (RString data) (Some (clock n + minutes 5)%Z)).
Proof.
  intros Hff Hv. unfold PubSub.callback. rewrite Hv, (bind_run _ _ _ _ _ (send_run v c Hff)).
  unfold ignore, lift. rewrite SET_run by done. eexists. split; [reflexivity|].
  split; [done|]. apply lookup_insert_eq.
Qed.

(** A stream leaves the last message it was brought in the cache. *)
Lemma leaves_cached {T} (unmarshal : string → option T) subjects p ctx_err acts data e w :
  fault_free → Forall (λ s, subject_ok s = true) subjects → p ∈ subjects →
  unmarshal data = Some e →
  let c1 := (PubSub.MultiSubscribe unmarshal subjects true StreamHandler.send ctx_err
               (acts ++ [Deliver p p data]) (connect w)).2 in
  (∃ before, sent c1 = before ++ [e]) ∧ ∃ n, tick (world c1) = S n ∧
  redis (world c1) !! PubSub.to_string subjects =
    Some (mkRedisEntry (RString data) (Some (clock n + minutes 5)%Z)).
Proof.
  intros Hff Hok Hp He. cbv zeta.
  unfold PubSub.MultiSubscribe, PubSub.open, PubSub.subscribe_all, deferred, mbind, gom_bind.
  destruct (replay_run unmarshal subjects true (connect w) Hff) as [w1 ->].
  destruct (subscribe_run subjects
    (mkConn w1 [] (cached_events unmarshal subjects true w)) Hff Hok) as [w2 E2].
  cbn [subs sent world connect app] in *. rewrite E2, for_each_snoc.
  destruct (receives_run unmarshal subjects true acts
    (mkConn w2 subjects (cached_events unmarshal subjects true w)) Hff eq_refl) as [w3 ->].
  cbn [PubSub.receive subs sent].
  replace (existsb (string_eqb p) subjects) with true; cycle 1.
  { symmetry. apply existsb_exists. exists p. split; [by apply list_elem_of_In|].
    by apply bool_decide_eq_true. }
  rewrite subject_matches_refl. cbn [andb].
  edestruct (callback_cached unmarshal subjects data e) as (w4 & -> & Ht & Hk); [done..|].
  simpl. split; [by eexists|]. eexists. by rewrite Ht.
Qed.

(** C28: reconnecting rings again. When the last thing a call stream showed
    before its client went away was [e], an incoming call say, then a client
    that connects again within five minutes is shown [e] once more, whatever
    became of the call meanwhile: only an open stream writes the cache, so the
    end of the call, published while the client was away, does not clear it. *)
Theorem StreamDmCalls_replays ctx ctx_err ctx_err' userID acts data e w w2 :
  fault_free → UserIDFromContext ctx = userID → userID ≠ "" →
  subject_ok (DmCall userID) = true → Unmarshal_DmCall data = Some e →
  let c1 := (StreamHandler.StreamDmCalls ctx ctx_err
              (acts ++ [Deliver (DmCall userID) (DmCall userID) data]) (connect w)).2 in
  redis w2 !! PubSub.to_string [DmCall userID] = redis (world c1) !! PubSub.to_string [DmCall userID] →
  (clock (tick w2) < clock (pred (tick (world c1))) + minutes 5)%Z →
  (∃ before, sent c1 = before ++ [e]) ∧
  ∃ w3, StreamHandler.StreamDmCalls ctx ctx_err' [] (connect w2) = (Err ctx_err', mkConn w3 [] [e]).
Proof.
  intros Hff <- Hne Hok He c1.
  assert (Forall (λ s, subject_ok s = true) [DmCall (UserIDFromContext ctx)]) as Hoks by by constructor.
  assert (∀ w, lift (caller_id ctx) (connect w : Conn DmCallEvent) =
    (Ok (UserIDFromContext ctx), connect w)) as Hid.
  { intros w0. unfold lift. by rewrite (caller_id_known ctx (world (connect w0)) Hne). }
  unfold c1, StreamHandler.StreamDmCalls. rewrite !(bind_run _ _ _ _ _ (Hid _)).
  destruct (leaves_cached Unmarshal_DmCall [DmCall (UserIDFromContext ctx)]
    (DmCall (UserIDFromContext ctx)) ctx_err acts data e w) as (Hb & n & Hn & Hr); [done|done| |done|].
  { by apply list_elem_of_singleton. }
  intros Hkey Htime. split; [exact Hb|]. rewrite Hr in Hkey. rewrite Hn in Htime.
  destruct (unfiltered_run Unmarshal_DmCall [DmCall (UserIDFromContext ctx)] true ctx_err' [] w2 Hff Hoks)
    as [w3 ->]. exists w3. do 2 f_equal. unfold cached_events, live_value, live_entry.
  rewrite Hkey. cbn [mbind option_bind]. rewrite expired_later by exact Htime.
  simpl. by rewrite He.
Qed.

(** *** Leaving *)
(** The key of a user, if it holds a hash, says offline. *)
Definition says_offline (r : keyspace) (userID : string) : Prop :=
  ∀ h x, r !! PresenceService.presence_key userID = Some (mkRedisEntry (RHash h) x) →
    PresenceService.field h "status" = "offline"%string ∧
    PresenceService.field h "custom_status" = ""%string.

Lemma OnUserDisconnect_says_offline userID w : fault_free → ∃ w',
  pc_OnUserDisconnect (presence_controller lpb minioBaseURL) userID w = (Ok tt, w') ∧
  says_offline (redis w') userID.
Proof.
  intros Hff. cbn [pc_OnUserDisconnect presence_controller].
  unfold PresenceService.OnUserDisconnect, PresenceService.SetOffline, PresenceService.UpdatePresence,
    ignore, mbind, gom_bind, now, on_err.
  rewrite command_run, HSET_law by apply Hff. cbn [redis bump].
  destruct (hash_of _) as [h|] eqn:El; cbn -[PresenceService.publishPresence].
  - match goal with |- context [PresenceService.publishPresence _ _ _ _ _ ?x] =>
      destruct (publishPresence_run lpb (Some (user_resolver minioBaseURL)) userID
        Status_STATUS_OFFLINE "" x) as (w' & -> & Hr); [by apply user_resolver_silent|] end.
    eexists. split; [reflexivity|]. rewrite Hr. intros h' x. cbn [redis with_redis].
    rewrite lookup_insert_eq. intros [= <- _]. unfold PresenceService.field.
    split; erewrite lookup_union_Some_l by reflexivity; done.
  - eexists. split; [reflexivity|]. intros h x Hk. unfold live_value, live_entry in El.
    cbn [redis bump] in Hk. rewrite Hk in El. simpl in El. by destruct (expired _ _).
Qed.

Lemma GetLiveStatus_offline userID w : says_offline (redis w) userID →
  (PresenceService.GetLiveStatus userID w).1 = Ok ("offline", "")%string.
Proof.
  intros Hoff. unfold PresenceService.GetLiveStatus, mbind, gom_bind, try.
  unfold command, redis_cmd, external. rewrite HGETALL_law.
  destruct (faults _); [|done|by destruct (hash_of _)].
  destruct (live_value _ _ _) as [[s|h]|] eqn:El; simpl; [done| |done].
  unfold live_value, live_entry in El.
  destruct (redis w !! _) as [[v x]|] eqn:Ek; [|done]. simpl in El.
  destruct (expired _ _); [done|]. injection El as ->.
  destruct (Hoff h x Ek) as [-> ->]. by destruct (size h =? 0).
Qed.

Lemma np_on_err {A} (m : GoM World A) f : no_panic m → no_panic (m ?> f).
Proof. intros Hm w. specialize (Hm w). unfold on_err. by destruct (m w) as [[]]. Qed.
Lemma np_GetUserByID id : no_panic (Queries.GetUserByID id).
Proof.
  intros w. unfold Queries.GetUserByID, query, sql, external, one.
  by destruct (users _ !! id), (faults _).
Qed.
Lemma GetStatusIntent_returns userID w : ∃ r w', UserService.GetStatusIntent userID w = (Ok r, w').
Proof.
  unfold UserService.GetStatusIntent. destruct (uuid_parse userID) as [id|]; [|by eexists _, _].
  unfold mbind, gom_bind, try. pose proof (np_GetUserByID id w) as Hn.
  destruct (Queries.GetUserByID id w) as [[u|e|] w1]; [|by eexists _, _|done].
  destruct (string_eqb (u_status u) ""); by eexists _, _.
Qed.
Lemma OnUserConnect_returns userID w :
  ∃ w', pc_OnUserConnect (presence_controller lpb minioBaseURL) userID w = (Ok tt, w').
Proof.
  cbn [pc_OnUserConnect presence_controller]. unfold PresenceService.OnUserConnect.
  cbn [GetStatusIntent user_resolver].
  destruct (GetStatusIntent_returns userID w) as ([st cs] & w1 & E).
  rewrite (bind_run _ _ _ _ _ E). apply ignore_run.
  unfold PresenceService.UpdatePresence, PresenceService.publishPresence.
  cbn [LookupBasicProfile user_resolver]. unfold UserService.LookupBasicProfile.
  np_auto; [apply np_on_err, np_command|apply np_try, np_GetUserByID].
Qed.

(** C29: one device signs off for all. When a friend stream ends, whatever
    happened while it was open and whatever the state it was opened in (another
    stream of the same user open on another device included), the user's live
    status reads offline. *)
Theorem StreamFriendActivity_leaves_offline ctx ctx_err acts w w2 :
  fault_free → UserIDFromContext ctx ≠ "" →
  redis w2 = redis (world (StreamHandler.StreamFriendActivity wired ctx ctx_err acts (connect w)).2) →
  (PresenceService.GetLiveStatus (UserIDFromContext ctx) w2).1 = Ok ("offline", "")%string.
Proof.
  intros Hff Hne Hw2. apply GetLiveStatus_offline. rewrite Hw2. clear Hw2 w2.
  unfold StreamHandler.StreamFriendActivity.
  rewrite (bind_run _ _ _ (UserIDFromContext ctx) (connect w))
    by (unfold lift; by rewrite (caller_id_known ctx (world (connect w)) Hne)).
  destruct (OnUserConnect_returns (UserIDFromContext ctx) w) as [w1 E].
  cbn [presence wireDependencies StreamHandler.SetVoiceSnapshotProvider
    StreamHandler.SetChannelViewer StreamHandler.SetPresenceController].
  rewrite (bind_run _ _ _ tt (connect w1))
    by exact (lift_run _ (connect w) _ _ E).
  unfold deferred. destruct (StreamHandler.friend_stream _ _ _ _ _) as [o c].
  destruct (OnUserDisconnect_says_offline (UserIDFromContext ctx) (world c) Hff) as (w2 & E2 & Hoff).
  unfold lift. by rewrite E2.
Qed.

(** *** The snapshot of the voice stream *)
Lemma sends_each (gid : string) (events : list VoiceStateEvent) c e :
  e ∈ sent (for_each events (λ evt, PubSub.Send (StreamHandler.set_guild_id gid evt)) c).2 →
  e ∈ sent c ∨ ∃ evt, evt ∈ events ∧ e = StreamHandler.set_guild_id gid evt.
Proof.
  revert c. induction events as [|evt events IH]; intros c; [by left|].
  cbn [for_each]. unfold mbind, gom_bind, PubSub.Send.
  destruct (faults _); [|by left..]. intros [He|(v & Hv & ->)]%IH.
  - apply elem_of_app in He as [He|He]; [by left|]. apply list_elem_of_singleton in He as ->.
    right. exists evt. split; [by left|done].
  - right. exists v. split; [by right|done].
Qed.

(** What the snapshot shows of a channel: nothing unless the caller may see
    it, and then its participants, under the guild that was asked about. *)
Theorem snapshot_channel_scope h v userID gid chID c e :
  e ∈ sent (StreamHandler.snapshot_channel h v userID gid chID c).2 → e ∈ sent c ∨
  (∃ w1, StreamHandler.canSeeChannel h userID chID (world c) = (Ok true, w1)) ∧
  ∃ w1 w2 events evt, snap_GetChannelParticipants v chID w1 = (Ok events, w2) ∧
    evt ∈ events ∧ e = StreamHandler.set_guild_id gid evt.
Proof.
  unfold StreamHandler.snapshot_channel, lift, mbind, gom_bind, try.
  destruct (StreamHandler.canSeeChannel _ _ _ _) as [[[]|err|] w1] eqn:Es; [|by left..].
  cbn [negb world with_world].
  destruct (snap_GetChannelParticipants v chID w1) as [[events|err|] w2] eqn:Ep; [|by left..].
  intros [He|(evt & Hevt & ->)]%sends_each; [by left|]. right. split; [by exists w1|].
  by exists w1, w2, events, evt.
Qed.
End Handlers.

(** ** Worked examples *)
Section Example.
#[local] Existing Instance demo_wired.
#[local] Existing Instance demo_uuid.
#[local] Existing Instance reference_redis.
#[local] Existing Instance demo_json.
#[local] Existing Instance demo_livekit.

(** A NATS server that follows the documentation. *)
Definition demo_nats : NatsServer := {|
  subject_ok s := negb (existsb (string_eqb "") (tokens s));
  subject_matches p s := tokens_match (tokens p) (tokens s);
  subject_matches_law p s := eq_refl
|}.
#[local] Existing Instance demo_nats.

(** Texts that stand for the event with that one field. *)
Definition demo_text_event (ch : string) : TextChannelEvent :=
  {| tce_type := CHAT_EVENT_CREATE; tce_guild_id := ""; tce_channel_id := ch; tce_message_id := "";
     tce_author_id := ""; tce_sender_id := ""; tce_content := ""; tce_msg_type := 0;
     tce_pinned := false; tce_deleted := false; tce_emoji := ""; tce_reply_to_id := "";
     tce_edited_at := None; tce_created_at := None; tce_attachments := [];
     tce_mention_user_ids := []; tce_reactions := []; tce_forwarded_from := None |}.
Definition demo_call (ch : string) : DmCallEvent :=
  {| dc_type := DM_CALL_INCOMING; dc_channel_id := ch; dc_caller_id := "";
     dc_participant_id := ""; dc_video := false; dc_timestamp := None |}.
Definition demo_stream_json : StreamJson := {|
  Unmarshal_DmChat _ := None; Unmarshal_DmChannel _ := None;
  Unmarshal_DmCall s := Some (demo_call s);
  Unmarshal_TextChannel s := Some (demo_text_event s);
  Unmarshal_VoiceChat _ := None;
  Unmarshal_Guild s := Some (guild_event GUILD_EVENT_UPDATE s);
  Unmarshal_VoiceState _ := None; Unmarshal_Typing _ := None; Unmarshal_FriendActivity _ := None
|}.
#[local] Existing Instance demo_stream_json.

Definition demo_ctx (u : uuid) : Context := WithUserID (mkContext None None None) (uuid_print u).
Definition demo_done : error := Sentinel "context.Canceled" "context canceled".

Lemma demo_tokens v : is_token (uuid_print v).
Proof.
  split; [|by destruct v]. change (dotless (bits_print v) = true).
  induction v as [v IH|v IH|]; simpl; [|done..]. exact IH.
Qed.
Lemma demo_clock_monotone : clock_monotone.
Proof. intros n m Hnm. simpl. lia. Qed.
Lemma demo_sound w : db w = guild_demo_db → chanGuildCache w = ∅ → sound_world w.
Proof.
  intros Hdb Hca. split; [rewrite Hdb; exact demo_overrides_wf|].
  intros text e. by rewrite Hca, lookup_empty.
Qed.

(** The owner of guild 2 gets the message of its channel 9. *)
Definition demo_message : action :=
  Deliver (GuildAllMessages (uuid_print 2)) (GuildChannelMessage (uuid_print 2) (uuid_print 9))
    (uuid_print 9).

Lemma StreamTextChannels_scope_witness :
  ChannelAuthorized guild_demo_db 1 9 "VIEW_CHANNELS" ∨ ∃ g, in_guild guild_demo_db 1 g.
Proof.
  destruct (StreamTextChannels_scope true true true "" (demo_ctx 1) demo_done 1 9 [demo_message]
    guild_demo_world (demo_text_event (uuid_print 9))) as [(data & _ & _ & Ha)|(_ & g & _ & _ & _ & _ & Hg & _)];
    [reflexivity|exact demo_clock_monotone|exact guild_demo_wf
    |exact demo_tokens|reflexivity| |reflexivity| |right; by exists g].
  - assert (sent (StreamHandler.StreamTextChannels (wireDependencies true true true "") (demo_ctx 1)
      demo_done [demo_message] (connect guild_demo_world)).2 = [demo_text_event (uuid_print 9)]) as ->
      by (vm_compute; reflexivity).
    left.
  - left. by apply (Ha demo_fault_free), demo_sound.
Defined.

(** User 3 is kicked while his stream is open, and hears of the guild still. *)
Definition demo_kick : action := Elsewhere (λ w, (GuildService.KickMember 1 2 3 w).2).
Definition demo_news : action :=
  Deliver (GuildEvents (uuid_print 2)) (GuildEvents (uuid_print 2)) (uuid_print 2).

Lemma StreamGuildEvents_fixed_at_opening_witness :
  sent (StreamHandler.StreamGuildEvents (wireDependencies true true true "") (demo_ctx 3) demo_done
    [demo_kick; demo_news] (connect guild_demo_world)).2 =
    [guild_event GUILD_EVENT_UPDATE (uuid_print 2)] ∧
  Queries.member_of (GuildService.KickMember 1 2 3 guild_demo_world).2.(db) 3 2 = false.
Proof.
  split; [|vm_compute; reflexivity].
  destruct (StreamGuildEvents_fixed_at_opening true true true "" (demo_ctx 3) demo_done 3
    [demo_kick; demo_news] guild_demo_world) as (w' & ->);
    [exact demo_fault_free|reflexivity| |vm_compute; reflexivity].
  intros v. destruct (demo_tokens v) as [Hd _]. unfold GuildEvents. cbn [subject_ok demo_nats].
  rewrite (tokens_guild (uuid_print v) "events" Hd). simpl. by destruct v.
Defined.

(** The caller hangs up while the callee is away; the callee's telephone
    rings when he is back. *)
Definition demo_ring : action :=
  Deliver (DmCall (uuid_print 3)) (DmCall (uuid_print 3)) "call".
Definition demo_rung : Conn DmCallEvent :=
  (StreamHandler.StreamDmCalls (demo_ctx 3) demo_done [demo_ring] (connect guild_demo_world)).2.
Definition demo_hung_up : World :=
  (Publish (DmCall (uuid_print 3))
     (EvDmCall {| dc_type := DM_CALL_ENDED; dc_channel_id := "call"; dc_caller_id := "";
                  dc_participant_id := ""; dc_video := false; dc_timestamp := None |})
     (world demo_rung)).2.

Lemma StreamDmCalls_replays_witness :
  ∃ w3, StreamHandler.StreamDmCalls (demo_ctx 3) demo_done [] (connect demo_hung_up) =
    (Err demo_done, mkConn w3 [] [demo_call "call"]).
Proof.
  apply (StreamDmCalls_replays (demo_ctx 3) demo_done demo_done (uuid_print 3) [] "call"
    (demo_call "call") guild_demo_world demo_hung_up);
    [exact demo_fault_free|reflexivity|done|vm_compute; reflexivity|reflexivity|reflexivity
    |vm_compute; reflexivity].
Defined.

(** A device signs off while another stream of the user is open. *)
Lemma StreamFriendActivity_leaves_offline_witness :
  (PresenceService.GetLiveStatus (UserIDFromContext (demo_ctx 3))
    (world (StreamHandler.StreamFriendActivity (wireDependencies true true true "") (demo_ctx 3)
       demo_done [] (connect
         (PresenceService.OnUserConnect true (Some (user_resolver "")) (uuid_print 3)
            guild_demo_world).2)).2)).1 = Ok ("offline", "")%string.
Proof.
  apply (StreamFriendActivity_leaves_offline true true true "" (demo_ctx 3) demo_done []
    (PresenceService.OnUserConnect true (Some (user_resolver "")) (uuid_print 3) guild_demo_world).2);
    [exact demo_fault_free|done|reflexivity].
Defined.
End Example.
