(* ===== verification/Gateway.v ===== *)
(** * Gateway: HTTP in front of the gRPC services

    Models [src/internal/app/gateway.go] (which requests are gRPC, the public
    HTTP paths), [src/internal/app/gateway_sse.go] (the framing of streamed
    messages) and the way the generated gateway code turns an HTTP request
    into a call: a route ([mux.Handle]), the request message filled from body,
    path and query (the generated [request_*] functions, as the list of their
    [step]s), and the gRPC chain behind the in-process connection.  The
    grpc-gateway runtime is the class [GatewayRuntime].  The routes themselves
    are in [GatewayRoutes]. *)
From S2P Require Import Prelude Realtime Store Redis Guild Middleware GuildApi.

(** ** HTTP requests

    Header names are in canonical form; [Header.Get] reads the first value. *)
Record HttpRequest := mkHttpRequest {
  hr_method : string; hr_proto_major : Z; hr_path : string; hr_query : string;
  hr_header : gmap string string; hr_body : string; hr_remote : string }.
Definition header (rq : HttpRequest) (name : string) : string := default "" (hr_header rq !! name).

(** [IsGRPCRequest] *)
Definition IsGRPCRequest (rq : HttpRequest) : bool :=
  (hr_proto_major rq =? 2)%Z && HasPrefix (header rq "Content-Type") "application/grpc".

(** [NewPublicHTTPHandler]: what the path of a plain HTTP request leads to.
    [http.ServeMux] serves the longest registered prefix, and redirects to a
    registered subtree that is named without its last slash. *)
Inductive page := PageGateway | PageSpec | PageSwagger | PageRedirect (target : string) | PageNotFound.
Definition NewPublicHTTPHandler (path : string) : page :=
  if HasPrefix path "/v1/" then PageGateway
  else if string_eqb path "/v1" then PageRedirect "/v1/"
  else if string_eqb path "/openapi.json" then PageSpec
  else if HasPrefix path "/swagger/" then PageSwagger
  else if string_eqb path "/swagger" then PageRedirect "/swagger/"
  else PageNotFound.

(** ** gateway_sse.go *)
Definition newline : string := String "010" "".
Definition sse_ContentType : string := "text/event-stream".
(** [sseMarshaler.Marshal], on the marshalled body. *)
Definition sse_Marshal (body : string) : string :=
  "data: " +:+ body +:+ newline +:+ newline.
Definition sse_Delimiter : string := "".
(** The bytes of a stream: every message through [Marshal], each followed by
    the delimiter. *)
Fixpoint sse_stream (bodies : list string) : string :=
  match bodies with
  | [] => ""
  | b :: bodies => sse_Marshal b +:+ sse_Delimiter +:+ sse_stream bodies
  end.

(** ** Routes *)
Inductive segment := Lit (s : string) | Var (field : string).
#[global] Instance segment_eq_dec : EqDecision segment.
Proof. solve_decision. Defined.
Record route := mkRoute {
  rt_method : string; rt_template : list segment; rt_verb : string; rt_rpc : string }.
#[global] Instance route_eq_dec : EqDecision route.
Proof. solve_decision. Defined.

(** The components of a path: [strings.Split(path[1:], "/")]. *)
Fixpoint split_slash (s : string) : list string :=
  match s with
  | "" => [""%string]
  | String c s =>
      if Ascii.eqb c "/" then ""%string :: split_slash s
      else match split_slash s with
           | t :: ts => String c t :: ts
           | [] => [String c ""]
           end
  end%string.
Definition path_components (path : string) : option (list string) :=
  match path with String "/" path => Some (split_slash path) | _ => None end.

(** A template against the components: a variable takes one component. *)
Fixpoint match_segments (t : list segment) (cs : list string) : option (gmap string string) :=
  match t, cs with
  | [], [] => Some ∅
  | Lit l :: t, c :: cs => if string_eqb l c then match_segments t cs else None
  | Var f :: t, c :: cs => params ← match_segments t cs; Some (<[f := c]> params)
  | _, _ => None
  end.
(** [s] without its suffix [suf]. *)
Fixpoint cut_suffix (suf s : string) : option string :=
  if string_eqb s suf then Some ""%string
  else match s with "" => None | String c s => String c <$> cut_suffix suf s end%string.
(** The last component without [":" + verb]; something must be left of it. *)
Fixpoint cut_verb (verb : string) (cs : list string) : option (list string) :=
  match cs with
  | [] => None
  | [c] => match cut_suffix (":" +:+ verb) c with
           | Some (String _ _ as c) => Some [c]
           | _ => None
           end
  | c :: cs => cs ← cut_verb verb cs; Some (c :: cs)
  end.
Definition match_route (r : route) (path : string) : option (gmap string string) :=
  cs ← path_components path;
  if string_eqb (rt_verb r) "" then match_segments (rt_template r) cs
  else cs ← cut_verb (rt_verb r) cs; match_segments (rt_template r) cs.

(** ** Request messages

    A message is its fields by name; a generated [request_*] function decodes
    the body into it, then sets the fields bound in the path, then the query
    parameters other than those. *)
Inductive pvalue := PString (s : string) | PInt (n : Z) | POther.
Notation message := (gmap string pvalue).
Inductive step :=
  | Body
  | Path (field : string)
  | PathEnum (field : string) (values : list (string * Z))
  | Query (filter : list string).
Record request := mkRequest { rq_type : string; rq_steps : list step }.
Record registration := mkRegistration { rg_route : route; rg_request : request }.
(** [mux.Handle(method, pattern, ...)]: the pattern, the method that is
    called and the function that fills its request. *)
Definition handle (method : string) (template : list segment) (verb rpc : string) (r : request) :
    registration := mkRegistration (mkRoute method template verb rpc) r.

(** ** The grpc-gateway runtime *)
(** Outside the special cases of the mux: the method is not overridden, the
    body is no HTML form (a POST of one may be served as a GET), and the last
    component is not a bare verb. *)
Definition plain (rq : HttpRequest) : bool :=
  string_eqb (header rq "X-Http-Method-Override") "" &&
  negb (string_eqb (header rq "Content-Type") "application/x-www-form-urlencoded") &&
  match path_components (hr_path rq) with
  | Some cs => negb (HasPrefix (default "" (last cs)) ":")
  | None => true
  end.
(** What a registration makes of a request, and the registration that was
    added last among those that take it. *)
Definition takes (reg : registration) (method path : string) : option (gmap string string) :=
  if string_eqb (rt_method (rg_route reg)) method then match_route (rg_route reg) path else None.
Definition last_match (regs : list registration) (method path : string) :
    option (registration * gmap string string) :=
  foldl (λ found reg,
    match takes reg method path with Some params => Some (reg, params) | None => found end)
    None regs.
(** [Decode]: [Decoder.Decode] into a message of a type, [None] for [io.EOF].
    [ParseForm] and [PopulateQueryParameters]: the documented law is that the
    fields of the filter are left alone.  [Enum]: a name or a number of an
    enumeration.  [AnnotateContext]: the context the server sees behind the
    in-process connection; the Authorization header becomes the metadata
    ["authorization"] (to which a client may add further values with a
    Grpc-Metadata-Authorization header), and the peer is the one end of that
    connection for all.
    [mux_find]: the registration that serves a request; for a [plain] one, its
    path is matched against the templates of its method, and of those that
    match the last one registered is taken. *)
Class GatewayRuntime := {
  Decode : string → string → error + option message;
  PopulateQueryParameters : string → message → string → list string → error + message;
  Enum : string → list (string * Z) → option Z;
  AnnotateContext : HttpRequest → string → error + Context;
  loopback_peer : string;
  mux_find : list registration → HttpRequest → option (registration * gmap string string);
  Populate_filtered : ∀ ty m q filter m' f, PopulateQueryParameters ty m q filter = inr m' →
    f ∈ filter → m' !! f = m !! f;
  Annotate_law : ∀ rq rpc ctx, AnnotateContext rq rpc = inr ctx →
    ctx_peer ctx = Some loopback_peer ∧ ctx_user_id ctx = None ∧
    ∀ v, hr_header rq !! "Grpc-Metadata-Authorization"%string = None →
      hr_header rq !! "Authorization"%string = Some v →
      ∃ md, ctx_metadata ctx = Some md ∧ md !! "authorization"%string = Some [v];
  mux_find_law : ∀ regs rq, plain rq = true →
    mux_find regs rq = last_match regs (hr_method rq) (hr_path rq)
}.

Section Serve.
Context `{!GatewayRuntime}.

Definition missing_parameter : error := Status InvalidArgument "missing parameter %s".
Definition type_mismatch : error := Status InvalidArgument "type mismatch, parameter: %s, error: %v".
Definition malformed : error := Status InvalidArgument "%v".

(** One statement of a [request_*] function. *)
Definition run_step (ty : string) (rq : HttpRequest) (params : gmap string string)
    (m : message) (s : step) : error + message :=
  match s with
  | Body =>
      match Decode ty (hr_body rq) with
      | inl _ => inl malformed
      | inr None => inr m
      | inr (Some decoded) => inr decoded
      end
  | Path f =>
      match params !! f with
      | None => inl missing_parameter
      | Some val => inr (<[f := PString val]> m)
      end
  | PathEnum f values =>
      match params !! f with
      | None => inl missing_parameter
      | Some val =>
          match Enum val values with
          | None => inl type_mismatch
          | Some e => inr (<[f := PInt e]> m)
          end
      end
  | Query filter =>
      match PopulateQueryParameters ty m (hr_query rq) filter with
      | inl _ => inl malformed
      | inr m' => inr m'
      end
  end.
Fixpoint run_steps (ty : string) (rq : HttpRequest) (params : gmap string string)
    (m : message) (steps : list step) : error + message :=
  match steps with
  | [] => inr m
  | s :: steps =>
      match run_step ty rq params m s with
      | inl e => inl e
      | inr m' => run_steps ty rq params m' steps
      end
  end.
Definition run_request (r : request) (rq : HttpRequest) (params : gmap string string) :
    error + message := run_steps (rq_type r) rq params ∅ (rq_steps r).

Context `{Env} `{!RedisServer} `{!Jwt}.

Definition of_result {A} (r : error + A) : GoM World A :=
  match r with inl e => fail e | inr a => mret a end.
Definition no_route : error := Status NotFoundCode "Not Found".

(** The closure every [mux.Handle] registers, with the unary gRPC chain at
    the other end of the connection: [validate] is protovalidate on the
    message, [serve] the service the method belongs to. *)
Definition rest_call {A} (regs : list registration) (secret : string)
    (validate : message → error + unit) (serve : string → message → Context → GoM World A)
    (rq : HttpRequest) : GoM World A :=
  match mux_find regs rq with
  | None => fail no_route
  | Some (reg, params) =>
      let rpc := rt_rpc (rg_route reg) in
      ctx ← of_result (AnnotateContext rq rpc);
      m ← of_result (run_request (rg_request reg) rq params);
      RateLimit.unary_chain secret (of_result (validate m)) rpc ctx (serve rpc m)
  end.
End Serve.

(** ** The guild service behind the gateway

    The typed request of a message ([req.GetGuildId()] and the like: a field
    that was not set reads as its zero value). *)
Section GuildMessages.
Variable m : message.
Definition get_string (f : string) : string :=
  match m !! f with Some (PString s) => s | _ => "" end.
Definition get_int (f : string) : Z := match m !! f with Some (PInt n) => n | _ => 0%Z end.
Definition get_optional (f : string) : option string :=
  match m !! f with Some (PString s) => Some s | _ => None end.
Definition get_optional_int (f : string) : option Z :=
  match m !! f with Some (PInt n) => Some n | _ => None end.

Definition some_rpc {A} (r : GuildRPC A) : option (sigT GuildRPC) := Some (existT A r).
Definition guild_rpc (method : string) : option (sigT GuildRPC) :=
  let s := get_string in
  let named n := string_eqb method ("/guild.v1.GuildService/" +:+ n) in
  if named "CreateGuild" then some_rpc (RpcCreateGuild (s "name") (s "description") (s "icon_url"))
  else if named "GetGuild" then some_rpc (RpcGetGuild (s "guild_id"))
  else if named "UpdateGuild" then
    some_rpc (RpcUpdateGuild (s "guild_id") (get_optional "name") (get_optional "description")
      (get_optional "icon_url") (get_optional "banner_url"))
  else if named "UploadGuildIcon" then
    some_rpc (RpcUploadGuildIcon (s "guild_id") (s "filename") (s "content_type") (s "data"))
  else if named "UploadGuildBanner" then
    some_rpc (RpcUploadGuildBanner (s "guild_id") (s "filename") (s "content_type") (s "data"))
  else if named "DeleteGuild" then some_rpc (RpcDeleteGuild (s "guild_id"))
  else if named "ListUserGuilds" then some_rpc RpcListUserGuilds
  else if named "PreviewInvite" then some_rpc (RpcPreviewInvite (s "invite_code"))
  else if named "JoinGuild" then some_rpc (RpcJoinGuild (s "invite_code"))
  else if named "LeaveGuild" then some_rpc (RpcLeaveGuild (s "guild_id"))
  else if named "ListMembers" then
    some_rpc (RpcListMembers (s "guild_id") (get_int "limit") (s "after"))
  else if named "KickMember" then some_rpc (RpcKickMember (s "guild_id") (s "user_id"))
  else if named "BanMember" then some_rpc (RpcBanMember (s "guild_id") (s "user_id") (s "reason"))
  else if named "UnbanMember" then some_rpc (RpcUnbanMember (s "guild_id") (s "user_id"))
  else if named "CreateInvite" then
    some_rpc (RpcCreateInvite (s "guild_id") (s "channel_id") (get_int "max_uses")
      (get_int "max_age_seconds"))
  else if named "CreateRole" then some_rpc (RpcCreateRole (s "guild_id") (s "name") (s "color"))
  else if named "UpdateRole" then
    some_rpc (RpcUpdateRole (s "guild_id") (s "role_id") (get_optional "name")
      (get_optional "color") (get_optional_int "position"))
  else if named "DeleteRole" then some_rpc (RpcDeleteRole (s "guild_id") (s "role_id"))
  else if named "AssignRole" then
    some_rpc (RpcAssignRole (s "guild_id") (s "user_id") (s "role_id"))
  else if named "RemoveRole" then
    some_rpc (RpcRemoveRole (s "guild_id") (s "user_id") (s "role_id"))
  else if named "TransferOwnership" then
    some_rpc (RpcTransferOwnership (s "guild_id") (s "new_owner_id"))
  else if named "GrantPermission" then some_rpc RpcGrantPermission
  else if named "RevokePermission" then some_rpc RpcRevokePermission
  else if named "GetUserPermissions" then
    some_rpc (RpcGetUserPermissions (s "user_id") (s "guild_id"))
  else if named "GrantRolePermission" then
    some_rpc (RpcGrantRolePermission (s "guild_id") (s "role_id") (get_int "permission"))
  else if named "RevokeRolePermission" then
    some_rpc (RpcRevokeRolePermission (s "guild_id") (s "role_id") (get_int "permission"))
  else None.
End GuildMessages.

(** The guild service as the server of a connection; the response is
    marshalled. *)
Definition guild_rest `{Env} `{!UuidText} (minio signer : option GuildService.MinioClient)
    (bucket inviteBaseURL method : string) (m : message) (ctx : Context) : GoM World unit :=
  match guild_rpc m method with
  | Some (existT A r) => _ ← guild_serve minio signer bucket inviteBaseURL r ctx; mret tt
  | None => fail no_route
  end.
