(* ===== verification/GatewayRoutes.v ===== *)
(** * GatewayRoutes: the HTTP surface, route by route

    Models the generated [src/gen/<service>/v1/<service>.pb.gw.go]: for every
    method the [request_*] function that fills its message, and for every
    service the registrations of its [Register*HandlerClient], in their order;
    the method names of [<service>_grpc.pb.go]; and the order in which
    [NewGatewayMux] of [src/internal/app/gateway.go] registers the services.
    The [local_request_*] twins and [Register*HandlerServer] are called by
    nothing. *)
From S2P Require Import Prelude GuildApi Gateway.
Open Scope string_scope.

(** The enumeration that is bound in a path. *)
Definition Permission_value : list (string * Z) := (λ e, (e.2, e.1)) <$> Permission_name.

(** ** auth/v1: [AuthService] *)
Definition request_AuthService_Register_0 : request :=
  mkRequest "RegisterRequest" [Body].
Definition request_AuthService_VerifyOTP_0 : request :=
  mkRequest "VerifyOTPRequest" [Body].
Definition request_AuthService_ResendOTP_0 : request :=
  mkRequest "ResendOTPRequest" [Body].
Definition request_AuthService_Login_0 : request :=
  mkRequest "LoginRequest" [Body].
Definition request_AuthService_RefreshToken_0 : request :=
  mkRequest "RefreshTokenRequest" [Body].
Definition request_AuthService_Logout_0 : request :=
  mkRequest "LogoutRequest" [Body].
Definition request_AuthService_ValidateToken_0 : request :=
  mkRequest "ValidateTokenRequest" [Body].
Definition RegisterAuthServiceHandlerClient : list registration := [
    handle "POST" [Lit "v1"; Lit "auth"; Lit "register"] ""
      "/auth.v1.AuthService/Register" request_AuthService_Register_0;
    handle "POST" [Lit "v1"; Lit "auth"; Lit "verify-otp"] ""
      "/auth.v1.AuthService/VerifyOTP" request_AuthService_VerifyOTP_0;
    handle "POST" [Lit "v1"; Lit "auth"; Lit "resend-otp"] ""
      "/auth.v1.AuthService/ResendOTP" request_AuthService_ResendOTP_0;
    handle "POST" [Lit "v1"; Lit "auth"; Lit "login"] ""
      "/auth.v1.AuthService/Login" request_AuthService_Login_0;
    handle "POST" [Lit "v1"; Lit "auth"; Lit "refresh"] ""
      "/auth.v1.AuthService/RefreshToken" request_AuthService_RefreshToken_0;
    handle "POST" [Lit "v1"; Lit "auth"; Lit "logout"] ""
      "/auth.v1.AuthService/Logout" request_AuthService_Logout_0;
    handle "POST" [Lit "v1"; Lit "auth"; Lit "validate"] ""
      "/auth.v1.AuthService/ValidateToken" request_AuthService_ValidateToken_0
  ].

(** ** user/v1: [UserService] *)
Definition request_UserService_GetUser_0 : request :=
  mkRequest "GetUserRequest" [Path "user_id"].
Definition request_UserService_UpdateUser_0 : request :=
  mkRequest "UpdateUserRequest" [Body].
Definition request_UserService_UpdateUsername_0 : request :=
  mkRequest "UpdateUsernameRequest" [Body].
Definition request_UserService_UpdateStatus_0 : request :=
  mkRequest "UpdateStatusRequest" [Body].
Definition request_UserService_UploadUserAvatar_0 : request :=
  mkRequest "UploadUserAvatarRequest" [Body].
Definition request_UserService_DeleteUser_0 : request :=
  mkRequest "DeleteUserRequest" [Query []].
Definition request_UserService_GetUserByUsername_0 : request :=
  mkRequest "GetUserByUsernameRequest" [Path "username"].
Definition request_UserService_SearchUsers_0 : request :=
  mkRequest "SearchUsersRequest" [Query []].
Definition request_UserService_SendFriendRequest_0 : request :=
  mkRequest "SendFriendRequestRequest" [Body].
Definition request_UserService_AcceptFriendRequest_0 : request :=
  mkRequest "AcceptFriendRequestRequest" [Body; Path "requester_user_id"].
Definition request_UserService_DeclineFriendRequest_0 : request :=
  mkRequest "DeclineFriendRequestRequest" [Body; Path "requester_user_id"].
Definition request_UserService_CancelFriendRequest_0 : request :=
  mkRequest "CancelFriendRequestRequest" [Body; Path "target_user_id"].
Definition request_UserService_RemoveFriend_0 : request :=
  mkRequest "RemoveFriendRequest" [Path "friend_id"].
Definition request_UserService_BlockUser_0 : request :=
  mkRequest "BlockUserRequest" [Body; Path "target_user_id"].
Definition request_UserService_UnblockUser_0 : request :=
  mkRequest "UnblockUserRequest" [Path "target_user_id"].
Definition request_UserService_ListFriends_0 : request :=
  mkRequest "ListFriendsRequest" [].
Definition request_UserService_ListPendingRequests_0 : request :=
  mkRequest "ListPendingRequestsRequest" [].
Definition request_UserService_ListBlocked_0 : request :=
  mkRequest "ListBlockedRequest" [].
Definition RegisterUserServiceHandlerClient : list registration := [
    handle "GET" [Lit "v1"; Lit "users"; Var "user_id"] ""
      "/user.v1.UserService/GetUser" request_UserService_GetUser_0;
    handle "PATCH" [Lit "v1"; Lit "users"; Lit "me"] ""
      "/user.v1.UserService/UpdateUser" request_UserService_UpdateUser_0;
    handle "PATCH" [Lit "v1"; Lit "users"; Lit "me"; Lit "username"] ""
      "/user.v1.UserService/UpdateUsername" request_UserService_UpdateUsername_0;
    handle "PATCH" [Lit "v1"; Lit "users"; Lit "me"; Lit "status"] ""
      "/user.v1.UserService/UpdateStatus" request_UserService_UpdateStatus_0;
    handle "POST" [Lit "v1"; Lit "users"; Lit "me"; Lit "avatar"] ""
      "/user.v1.UserService/UploadUserAvatar" request_UserService_UploadUserAvatar_0;
    handle "DELETE" [Lit "v1"; Lit "users"; Lit "me"] ""
      "/user.v1.UserService/DeleteUser" request_UserService_DeleteUser_0;
    handle "GET" [Lit "v1"; Lit "users"; Lit "by-username"; Var "username"] ""
      "/user.v1.UserService/GetUserByUsername" request_UserService_GetUserByUsername_0;
    handle "GET" [Lit "v1"; Lit "users"; Lit "search"] ""
      "/user.v1.UserService/SearchUsers" request_UserService_SearchUsers_0;
    handle "POST" [Lit "v1"; Lit "friends"; Lit "requests"] ""
      "/user.v1.UserService/SendFriendRequest" request_UserService_SendFriendRequest_0;
    handle "POST" [Lit "v1"; Lit "friends"; Var "requester_user_id"; Lit "accept"] ""
      "/user.v1.UserService/AcceptFriendRequest" request_UserService_AcceptFriendRequest_0;
    handle "POST" [Lit "v1"; Lit "friends"; Var "requester_user_id"; Lit "decline"] ""
      "/user.v1.UserService/DeclineFriendRequest" request_UserService_DeclineFriendRequest_0;
    handle "POST" [Lit "v1"; Lit "friends"; Var "target_user_id"; Lit "cancel"] ""
      "/user.v1.UserService/CancelFriendRequest" request_UserService_CancelFriendRequest_0;
    handle "DELETE" [Lit "v1"; Lit "friends"; Var "friend_id"] ""
      "/user.v1.UserService/RemoveFriend" request_UserService_RemoveFriend_0;
    handle "PUT" [Lit "v1"; Lit "blocks"; Var "target_user_id"] ""
      "/user.v1.UserService/BlockUser" request_UserService_BlockUser_0;
    handle "DELETE" [Lit "v1"; Lit "blocks"; Var "target_user_id"] ""
      "/user.v1.UserService/UnblockUser" request_UserService_UnblockUser_0;
    handle "GET" [Lit "v1"; Lit "friends"] ""
      "/user.v1.UserService/ListFriends" request_UserService_ListFriends_0;
    handle "GET" [Lit "v1"; Lit "friends"; Lit "pending"] ""
      "/user.v1.UserService/ListPendingRequests" request_UserService_ListPendingRequests_0;
    handle "GET" [Lit "v1"; Lit "blocks"] ""
      "/user.v1.UserService/ListBlocked" request_UserService_ListBlocked_0
  ].

(** ** guild/v1: [GuildService] *)
Definition request_GuildService_CreateGuild_0 : request :=
  mkRequest "CreateGuildRequest" [Body].
Definition request_GuildService_GetGuild_0 : request :=
  mkRequest "GetGuildRequest" [Path "guild_id"].
Definition request_GuildService_UpdateGuild_0 : request :=
  mkRequest "UpdateGuildRequest" [Body; Path "guild_id"].
Definition request_GuildService_UploadGuildIcon_0 : request :=
  mkRequest "UploadGuildIconRequest" [Body; Path "guild_id"].
Definition request_GuildService_UploadGuildBanner_0 : request :=
  mkRequest "UploadGuildBannerRequest" [Body; Path "guild_id"].
Definition request_GuildService_DeleteGuild_0 : request :=
  mkRequest "DeleteGuildRequest" [Path "guild_id"].
Definition request_GuildService_ListUserGuilds_0 : request :=
  mkRequest "ListUserGuildsRequest" [Path "user_id"].
Definition request_GuildService_PreviewInvite_0 : request :=
  mkRequest "PreviewInviteRequest" [Path "invite_code"].
Definition request_GuildService_JoinGuild_0 : request :=
  mkRequest "JoinGuildRequest" [Body; Path "invite_code"].
Definition request_GuildService_LeaveGuild_0 : request :=
  mkRequest "LeaveGuildRequest" [Path "guild_id"].
Definition request_GuildService_ListMembers_0 : request :=
  mkRequest "ListMembersRequest" [Path "guild_id"; Query ["guild_id"]].
Definition request_GuildService_KickMember_0 : request :=
  mkRequest "KickMemberRequest" [Path "guild_id"; Path "user_id"].
Definition request_GuildService_BanMember_0 : request :=
  mkRequest "BanMemberRequest" [Body; Path "guild_id"; Path "user_id"].
Definition request_GuildService_UnbanMember_0 : request :=
  mkRequest "UnbanMemberRequest" [Path "guild_id"; Path "user_id"].
Definition request_GuildService_CreateInvite_0 : request :=
  mkRequest "CreateInviteRequest" [Body; Path "guild_id"].
Definition request_GuildService_CreateRole_0 : request :=
  mkRequest "CreateRoleRequest" [Body; Path "guild_id"].
Definition request_GuildService_UpdateRole_0 : request :=
  mkRequest "UpdateRoleRequest" [Body; Path "guild_id"; Path "role_id"].
Definition request_GuildService_DeleteRole_0 : request :=
  mkRequest "DeleteRoleRequest" [Path "guild_id"; Path "role_id"].
Definition request_GuildService_AssignRole_0 : request :=
  mkRequest "AssignRoleRequest" [Body; Path "guild_id"; Path "user_id"; Path "role_id"].
Definition request_GuildService_RemoveRole_0 : request :=
  mkRequest "RemoveRoleRequest" [Path "guild_id"; Path "user_id"; Path "role_id"].
Definition request_GuildService_TransferOwnership_0 : request :=
  mkRequest "TransferOwnershipRequest" [Body; Path "guild_id"].
Definition request_GuildService_GrantPermission_0 : request :=
  mkRequest "GrantPermissionRequest"
    [Body; Path "guild_id"; Path "user_id"; PathEnum "permission" Permission_value].
Definition request_GuildService_RevokePermission_0 : request :=
  mkRequest "RevokePermissionRequest"
    [Path "guild_id"; Path "user_id"; PathEnum "permission" Permission_value].
Definition request_GuildService_GetUserPermissions_0 : request :=
  mkRequest "GetUserPermissionsRequest" [Path "guild_id"; Path "user_id"].
Definition request_GuildService_GrantRolePermission_0 : request :=
  mkRequest "GrantRolePermissionRequest"
    [Body; Path "guild_id"; Path "role_id"; PathEnum "permission" Permission_value].
Definition request_GuildService_RevokeRolePermission_0 : request :=
  mkRequest "RevokeRolePermissionRequest"
    [Path "guild_id"; Path "role_id"; PathEnum "permission" Permission_value].
Definition RegisterGuildServiceHandlerClient : list registration := [
    handle "POST" [Lit "v1"; Lit "guilds"] ""
      "/guild.v1.GuildService/CreateGuild" request_GuildService_CreateGuild_0;
    handle "GET" [Lit "v1"; Lit "guilds"; Var "guild_id"] ""
      "/guild.v1.GuildService/GetGuild" request_GuildService_GetGuild_0;
    handle "PATCH" [Lit "v1"; Lit "guilds"; Var "guild_id"] ""
      "/guild.v1.GuildService/UpdateGuild" request_GuildService_UpdateGuild_0;
    handle "POST" [Lit "v1"; Lit "guilds"; Var "guild_id"; Lit "icon"] ""
      "/guild.v1.GuildService/UploadGuildIcon" request_GuildService_UploadGuildIcon_0;
    handle "POST" [Lit "v1"; Lit "guilds"; Var "guild_id"; Lit "banner"] ""
      "/guild.v1.GuildService/UploadGuildBanner" request_GuildService_UploadGuildBanner_0;
    handle "DELETE" [Lit "v1"; Lit "guilds"; Var "guild_id"] ""
      "/guild.v1.GuildService/DeleteGuild" request_GuildService_DeleteGuild_0;
    handle "GET" [Lit "v1"; Lit "users"; Var "user_id"; Lit "guilds"] ""
      "/guild.v1.GuildService/ListUserGuilds" request_GuildService_ListUserGuilds_0;
    handle "GET" [Lit "v1"; Lit "invites"; Var "invite_code"] ""
      "/guild.v1.GuildService/PreviewInvite" request_GuildService_PreviewInvite_0;
    handle "POST" [Lit "v1"; Lit "invites"; Var "invite_code"; Lit "join"] ""
      "/guild.v1.GuildService/JoinGuild" request_GuildService_JoinGuild_0;
    handle "DELETE" [Lit "v1"; Lit "guilds"; Var "guild_id"; Lit "members"; Lit "me"] ""
      "/guild.v1.GuildService/LeaveGuild" request_GuildService_LeaveGuild_0;
    handle "GET" [Lit "v1"; Lit "guilds"; Var "guild_id"; Lit "members"] ""
      "/guild.v1.GuildService/ListMembers" request_GuildService_ListMembers_0;
    handle "DELETE" [Lit "v1"; Lit "guilds"; Var "guild_id"; Lit "members"; Var "user_id"] ""
      "/guild.v1.GuildService/KickMember" request_GuildService_KickMember_0;
    handle "PUT" [Lit "v1"; Lit "guilds"; Var "guild_id"; Lit "bans"; Var "user_id"] ""
      "/guild.v1.GuildService/BanMember" request_GuildService_BanMember_0;
    handle "DELETE" [Lit "v1"; Lit "guilds"; Var "guild_id"; Lit "bans"; Var "user_id"] ""
      "/guild.v1.GuildService/UnbanMember" request_GuildService_UnbanMember_0;
    handle "POST" [Lit "v1"; Lit "guilds"; Var "guild_id"; Lit "invites"] ""
      "/guild.v1.GuildService/CreateInvite" request_GuildService_CreateInvite_0;
    handle "POST" [Lit "v1"; Lit "guilds"; Var "guild_id"; Lit "roles"] ""
      "/guild.v1.GuildService/CreateRole" request_GuildService_CreateRole_0;
    handle "PATCH" [Lit "v1"; Lit "guilds"; Var "guild_id"; Lit "roles"; Var "role_id"] ""
      "/guild.v1.GuildService/UpdateRole" request_GuildService_UpdateRole_0;
    handle "DELETE" [Lit "v1"; Lit "guilds"; Var "guild_id"; Lit "roles"; Var "role_id"] ""
      "/guild.v1.GuildService/DeleteRole" request_GuildService_DeleteRole_0;
    handle "PUT"
      [Lit "v1"; Lit "guilds"; Var "guild_id"; Lit "members"; Var "user_id"; Lit "roles"; Var "role_id"] ""
      "/guild.v1.GuildService/AssignRole" request_GuildService_AssignRole_0;
    handle "DELETE"
      [Lit "v1"; Lit "guilds"; Var "guild_id"; Lit "members"; Var "user_id"; Lit "roles"; Var "role_id"] ""
      "/guild.v1.GuildService/RemoveRole" request_GuildService_RemoveRole_0;
    handle "PUT" [Lit "v1"; Lit "guilds"; Var "guild_id"; Lit "owner"] ""
      "/guild.v1.GuildService/TransferOwnership" request_GuildService_TransferOwnership_0;
    handle "PUT"
      [Lit "v1"; Lit "guilds"; Var "guild_id"; Lit "members"; Var "user_id"; Lit "permissions"; Var "permission"] ""
      "/guild.v1.GuildService/GrantPermission" request_GuildService_GrantPermission_0;
    handle "DELETE"
      [Lit "v1"; Lit "guilds"; Var "guild_id"; Lit "members"; Var "user_id"; Lit "permissions"; Var "permission"] ""
      "/guild.v1.GuildService/RevokePermission" request_GuildService_RevokePermission_0;
    handle "GET"
      [Lit "v1"; Lit "guilds"; Var "guild_id"; Lit "members"; Var "user_id"; Lit "permissions"] ""
      "/guild.v1.GuildService/GetUserPermissions" request_GuildService_GetUserPermissions_0;
    handle "PUT"
      [Lit "v1"; Lit "guilds"; Var "guild_id"; Lit "roles"; Var "role_id"; Lit "permissions"; Var "permission"] ""
      "/guild.v1.GuildService/GrantRolePermission" request_GuildService_GrantRolePermission_0;
    handle "DELETE"
      [Lit "v1"; Lit "guilds"; Var "guild_id"; Lit "roles"; Var "role_id"; Lit "permissions"; Var "permission"] ""
      "/guild.v1.GuildService/RevokeRolePermission" request_GuildService_RevokeRolePermission_0
  ].

(** ** channel/v1: [ChannelService] *)
Definition request_ChannelService_CreateChannel_0 : request :=
  mkRequest "CreateChannelRequest" [Body; Path "guild_id"].
Definition request_ChannelService_GetChannel_0 : request :=
  mkRequest "GetChannelRequest" [Path "channel_id"].
Definition request_ChannelService_UpdateChannel_0 : request :=
  mkRequest "UpdateChannelRequest" [Body; Path "channel_id"].
Definition request_ChannelService_DeleteChannel_0 : request :=
  mkRequest "DeleteChannelRequest" [Path "channel_id"].
Definition request_ChannelService_ListGuildChannels_0 : request :=
  mkRequest "ListGuildChannelsRequest" [Path "guild_id"].
Definition request_ChannelService_CreateDMChannel_0 : request :=
  mkRequest "CreateDMChannelRequest" [Body].
Definition request_ChannelService_ListDMChannels_0 : request :=
  mkRequest "ListDMChannelsRequest" [].
Definition request_ChannelService_ListDMChannelMembers_0 : request :=
  mkRequest "ListDMChannelMembersRequest" [Path "channel_id"].
Definition request_ChannelService_ListDMChannelsWithMembers_0 : request :=
  mkRequest "ListDMChannelsWithMembersRequest" [].
Definition request_ChannelService_AddDMGroupMember_0 : request :=
  mkRequest "AddDMGroupMemberRequest" [Body; Path "channel_id"; Path "user_id"].
Definition request_ChannelService_RemoveDMGroupMember_0 : request :=
  mkRequest "RemoveDMGroupMemberRequest" [Path "channel_id"; Path "user_id"].
Definition request_ChannelService_SetChannelOverride_0 : request :=
  mkRequest "SetChannelOverrideRequest"
    [Body; Path "channel_id"; Path "target_type"; Path "target_id"; Path "permission"].
Definition request_ChannelService_DeleteChannelOverride_0 : request :=
  mkRequest "DeleteChannelOverrideRequest"
    [Path "channel_id"; Path "target_type"; Path "target_id"; Path "permission"].
Definition request_ChannelService_ListChannelOverrides_0 : request :=
  mkRequest "ListChannelOverridesRequest" [Path "channel_id"].
Definition RegisterChannelServiceHandlerClient : list registration := [
    handle "POST" [Lit "v1"; Lit "guilds"; Var "guild_id"; Lit "channels"] ""
      "/channel.v1.ChannelService/CreateChannel" request_ChannelService_CreateChannel_0;
    handle "GET" [Lit "v1"; Lit "channels"; Var "channel_id"] ""
      "/channel.v1.ChannelService/GetChannel" request_ChannelService_GetChannel_0;
    handle "PATCH" [Lit "v1"; Lit "channels"; Var "channel_id"] ""
      "/channel.v1.ChannelService/UpdateChannel" request_ChannelService_UpdateChannel_0;
    handle "DELETE" [Lit "v1"; Lit "channels"; Var "channel_id"] ""
      "/channel.v1.ChannelService/DeleteChannel" request_ChannelService_DeleteChannel_0;
    handle "GET" [Lit "v1"; Lit "guilds"; Var "guild_id"; Lit "channels"] ""
      "/channel.v1.ChannelService/ListGuildChannels" request_ChannelService_ListGuildChannels_0;
    handle "POST" [Lit "v1"; Lit "dms"] ""
      "/channel.v1.ChannelService/CreateDMChannel" request_ChannelService_CreateDMChannel_0;
    handle "GET" [Lit "v1"; Lit "dms"] ""
      "/channel.v1.ChannelService/ListDMChannels" request_ChannelService_ListDMChannels_0;
    handle "GET" [Lit "v1"; Lit "dms"; Var "channel_id"; Lit "members"] ""
      "/channel.v1.ChannelService/ListDMChannelMembers" request_ChannelService_ListDMChannelMembers_0;
    handle "GET" [Lit "v1"; Lit "dms"] "withMembers"
      "/channel.v1.ChannelService/ListDMChannelsWithMembers" request_ChannelService_ListDMChannelsWithMembers_0;
    handle "PUT" [Lit "v1"; Lit "dms"; Var "channel_id"; Lit "members"; Var "user_id"] ""
      "/channel.v1.ChannelService/AddDMGroupMember" request_ChannelService_AddDMGroupMember_0;
    handle "DELETE" [Lit "v1"; Lit "dms"; Var "channel_id"; Lit "members"; Var "user_id"] ""
      "/channel.v1.ChannelService/RemoveDMGroupMember" request_ChannelService_RemoveDMGroupMember_0;
    handle "PUT"
      [Lit "v1"; Lit "channels"; Var "channel_id"; Lit "overrides"; Var "target_type"; Var "target_id"; Var "permission"] ""
      "/channel.v1.ChannelService/SetChannelOverride" request_ChannelService_SetChannelOverride_0;
    handle "DELETE"
      [Lit "v1"; Lit "channels"; Var "channel_id"; Lit "overrides"; Var "target_type"; Var "target_id"; Var "permission"] ""
      "/channel.v1.ChannelService/DeleteChannelOverride" request_ChannelService_DeleteChannelOverride_0;
    handle "GET" [Lit "v1"; Lit "channels"; Var "channel_id"; Lit "overrides"] ""
      "/channel.v1.ChannelService/ListChannelOverrides" request_ChannelService_ListChannelOverrides_0
  ].

(** ** message/v1: [MessageService] *)
Definition request_MessageService_SendMessage_0 : request :=
  mkRequest "SendMessageRequest" [Body; Path "channel_id"].
Definition request_MessageService_GetMessage_0 : request :=
  mkRequest "GetMessageRequest" [Path "channel_id"; Path "message_id"].
Definition request_MessageService_EditMessage_0 : request :=
  mkRequest "EditMessageRequest" [Body; Path "channel_id"; Path "message_id"].
Definition request_MessageService_DeleteMessage_0 : request :=
  mkRequest "DeleteMessageRequest" [Path "channel_id"; Path "message_id"].
Definition request_MessageService_ListMessages_0 : request :=
  mkRequest "ListMessagesRequest" [Path "channel_id"; Query ["channel_id"]].
Definition request_MessageService_PinMessage_0 : request :=
  mkRequest "PinMessageRequest" [Body; Path "channel_id"; Path "message_id"].
Definition request_MessageService_UnpinMessage_0 : request :=
  mkRequest "UnpinMessageRequest" [Path "channel_id"; Path "message_id"].
Definition request_MessageService_AddReaction_0 : request :=
  mkRequest "AddReactionRequest" [Body; Path "channel_id"; Path "message_id"; Path "emoji"].
Definition request_MessageService_RemoveReaction_0 : request :=
  mkRequest "RemoveReactionRequest" [Path "channel_id"; Path "message_id"; Path "emoji"].
Definition request_MessageService_AckMessage_0 : request :=
  mkRequest "AckMessageRequest" [Body; Path "channel_id"; Path "message_id"].
Definition request_MessageService_StartTyping_0 : request :=
  mkRequest "StartTypingRequest" [Body; Path "channel_id"].
Definition request_MessageService_SendDirectMessage_0 : request :=
  mkRequest "SendDirectMessageRequest" [Body; Path "recipient_id"].
Definition request_MessageService_GetUnreadCounts_0 : request :=
  mkRequest "GetUnreadCountsRequest" [].
Definition request_MessageService_SearchMessages_0 : request :=
  mkRequest "SearchMessagesRequest" [Path "channel_id"; Query ["channel_id"]].
Definition request_MessageService_GetThreadMessages_0 : request :=
  mkRequest "GetThreadMessagesRequest"
    [Path "channel_id"; Path "parent_message_id"; Query ["channel_id"; "parent_message_id"]].
Definition request_MessageService_BulkDeleteMessages_0 : request :=
  mkRequest "BulkDeleteMessagesRequest" [Body; Path "channel_id"].
Definition request_MessageService_GetEditHistory_0 : request :=
  mkRequest "GetEditHistoryRequest" [Path "channel_id"; Path "message_id"].
Definition RegisterMessageServiceHandlerClient : list registration := [
    handle "POST" [Lit "v1"; Lit "channels"; Var "channel_id"; Lit "messages"] ""
      "/message.v1.MessageService/SendMessage" request_MessageService_SendMessage_0;
    handle "GET" [Lit "v1"; Lit "channels"; Var "channel_id"; Lit "messages"; Var "message_id"] ""
      "/message.v1.MessageService/GetMessage" request_MessageService_GetMessage_0;
    handle "PATCH" [Lit "v1"; Lit "channels"; Var "channel_id"; Lit "messages"; Var "message_id"] ""
      "/message.v1.MessageService/EditMessage" request_MessageService_EditMessage_0;
    handle "DELETE"
      [Lit "v1"; Lit "channels"; Var "channel_id"; Lit "messages"; Var "message_id"] ""
      "/message.v1.MessageService/DeleteMessage" request_MessageService_DeleteMessage_0;
    handle "GET" [Lit "v1"; Lit "channels"; Var "channel_id"; Lit "messages"] ""
      "/message.v1.MessageService/ListMessages" request_MessageService_ListMessages_0;
    handle "PUT"
      [Lit "v1"; Lit "channels"; Var "channel_id"; Lit "messages"; Var "message_id"; Lit "pin"] ""
      "/message.v1.MessageService/PinMessage" request_MessageService_PinMessage_0;
    handle "DELETE"
      [Lit "v1"; Lit "channels"; Var "channel_id"; Lit "messages"; Var "message_id"; Lit "pin"] ""
      "/message.v1.MessageService/UnpinMessage" request_MessageService_UnpinMessage_0;
    handle "PUT"
      [Lit "v1"; Lit "channels"; Var "channel_id"; Lit "messages"; Var "message_id"; Lit "reactions"; Var "emoji"] ""
      "/message.v1.MessageService/AddReaction" request_MessageService_AddReaction_0;
    handle "DELETE"
      [Lit "v1"; Lit "channels"; Var "channel_id"; Lit "messages"; Var "message_id"; Lit "reactions"; Var "emoji"] ""
      "/message.v1.MessageService/RemoveReaction" request_MessageService_RemoveReaction_0;
    handle "PUT"
      [Lit "v1"; Lit "channels"; Var "channel_id"; Lit "messages"; Var "message_id"; Lit "ack"] ""
      "/message.v1.MessageService/AckMessage" request_MessageService_AckMessage_0;
    handle "POST" [Lit "v1"; Lit "channels"; Var "channel_id"; Lit "typing"] ""
      "/message.v1.MessageService/StartTyping" request_MessageService_StartTyping_0;
    handle "POST" [Lit "v1"; Lit "users"; Var "recipient_id"; Lit "messages"] ""
      "/message.v1.MessageService/SendDirectMessage" request_MessageService_SendDirectMessage_0;
    handle "GET" [Lit "v1"; Lit "messages"; Lit "unread"] ""
      "/message.v1.MessageService/GetUnreadCounts" request_MessageService_GetUnreadCounts_0;
    handle "GET" [Lit "v1"; Lit "channels"; Var "channel_id"; Lit "messages"] "search"
      "/message.v1.MessageService/SearchMessages" request_MessageService_SearchMessages_0;
    handle "GET"
      [Lit "v1"; Lit "channels"; Var "channel_id"; Lit "messages"; Var "parent_message_id"; Lit "thread"] ""
      "/message.v1.MessageService/GetThreadMessages" request_MessageService_GetThreadMessages_0;
    handle "POST" [Lit "v1"; Lit "channels"; Var "channel_id"; Lit "messages"] "bulk-delete"
      "/message.v1.MessageService/BulkDeleteMessages" request_MessageService_BulkDeleteMessages_0;
    handle "GET"
      [Lit "v1"; Lit "channels"; Var "channel_id"; Lit "messages"; Var "message_id"; Lit "edits"] ""
      "/message.v1.MessageService/GetEditHistory" request_MessageService_GetEditHistory_0
  ].

(** ** stream/v1: [StreamService] *)
Definition request_StreamService_StreamDmChat_0 : request :=
  mkRequest "StreamDmChatRequest" [].
Definition request_StreamService_StreamDmChannels_0 : request :=
  mkRequest "StreamDmChannelsRequest" [].
Definition request_StreamService_StreamDmCalls_0 : request :=
  mkRequest "StreamDmCallsRequest" [].
Definition request_StreamService_StreamTextChannels_0 : request :=
  mkRequest "StreamTextChannelsRequest" [].
Definition request_StreamService_StreamVoiceChat_0 : request :=
  mkRequest "StreamVoiceChatRequest" [].
Definition request_StreamService_StreamGuildEvents_0 : request :=
  mkRequest "StreamGuildEventsRequest" [].
Definition request_StreamService_StreamVoiceState_0 : request :=
  mkRequest "StreamVoiceStateRequest" [].
Definition request_StreamService_StreamTyping_0 : request :=
  mkRequest "StreamTypingRequest" [].
Definition request_StreamService_StreamFriendActivity_0 : request :=
  mkRequest "StreamFriendActivityRequest" [].
Definition RegisterStreamServiceHandlerClient : list registration := [
    handle "GET" [Lit "v1"; Lit "stream"; Lit "dm"; Lit "chat"] ""
      "/stream.v1.StreamService/StreamDmChat" request_StreamService_StreamDmChat_0;
    handle "GET" [Lit "v1"; Lit "stream"; Lit "dm"; Lit "channels"] ""
      "/stream.v1.StreamService/StreamDmChannels" request_StreamService_StreamDmChannels_0;
    handle "GET" [Lit "v1"; Lit "stream"; Lit "dm"; Lit "calls"] ""
      "/stream.v1.StreamService/StreamDmCalls" request_StreamService_StreamDmCalls_0;
    handle "GET" [Lit "v1"; Lit "stream"; Lit "channels"; Lit "text"] ""
      "/stream.v1.StreamService/StreamTextChannels" request_StreamService_StreamTextChannels_0;
    handle "GET" [Lit "v1"; Lit "stream"; Lit "channels"; Lit "voice-chat"] ""
      "/stream.v1.StreamService/StreamVoiceChat" request_StreamService_StreamVoiceChat_0;
    handle "GET" [Lit "v1"; Lit "stream"; Lit "guilds"] ""
      "/stream.v1.StreamService/StreamGuildEvents" request_StreamService_StreamGuildEvents_0;
    handle "GET" [Lit "v1"; Lit "stream"; Lit "voice-state"] ""
      "/stream.v1.StreamService/StreamVoiceState" request_StreamService_StreamVoiceState_0;
    handle "GET" [Lit "v1"; Lit "stream"; Lit "typing"] ""
      "/stream.v1.StreamService/StreamTyping" request_StreamService_StreamTyping_0;
    handle "GET" [Lit "v1"; Lit "stream"; Lit "friends"] ""
      "/stream.v1.StreamService/StreamFriendActivity" request_StreamService_StreamFriendActivity_0
  ].

(** ** sync/v1: [SyncService] *)
Definition request_SyncService_Sync_0 : request :=
  mkRequest "SyncRequest" [Body].
Definition RegisterSyncServiceHandlerClient : list registration := [
    handle "POST" [Lit "v1"; Lit "sync"] ""
      "/sync.v1.SyncService/Sync" request_SyncService_Sync_0
  ].

(** ** presence/v1: [PresenceService] *)
Definition request_PresenceService_UpdatePresence_0 : request :=
  mkRequest "UpdatePresenceRequest" [Body].
Definition request_PresenceService_GetPresence_0 : request :=
  mkRequest "GetPresenceRequest" [Path "user_id"].
Definition request_PresenceService_GetBulkPresence_0 : request :=
  mkRequest "GetBulkPresenceRequest" [Query []].
Definition RegisterPresenceServiceHandlerClient : list registration := [
    handle "PATCH" [Lit "v1"; Lit "users"; Lit "me"; Lit "presence"] ""
      "/presence.v1.PresenceService/UpdatePresence" request_PresenceService_UpdatePresence_0;
    handle "GET" [Lit "v1"; Lit "users"; Var "user_id"; Lit "presence"] ""
      "/presence.v1.PresenceService/GetPresence" request_PresenceService_GetPresence_0;
    handle "GET" [Lit "v1"; Lit "presence"] ""
      "/presence.v1.PresenceService/GetBulkPresence" request_PresenceService_GetBulkPresence_0
  ].

(** ** media/v1: [MediaService] *)
Definition request_MediaService_RequestUpload_0 : request :=
  mkRequest "RequestUploadRequest" [Body].
Definition request_MediaService_ConfirmUpload_0 : request :=
  mkRequest "ConfirmUploadRequest" [Body; Path "upload_id"].
Definition request_MediaService_GetDownloadURL_0 : request :=
  mkRequest "GetDownloadURLRequest" [Path "file_id"].
Definition request_MediaService_DeleteFile_0 : request :=
  mkRequest "DeleteFileRequest" [Path "file_id"].
Definition RegisterMediaServiceHandlerClient : list registration := [
    handle "POST" [Lit "v1"; Lit "media"; Lit "uploads"] ""
      "/media.v1.MediaService/RequestUpload" request_MediaService_RequestUpload_0;
    handle "POST" [Lit "v1"; Lit "media"; Lit "uploads"; Var "upload_id"; Lit "confirm"] ""
      "/media.v1.MediaService/ConfirmUpload" request_MediaService_ConfirmUpload_0;
    handle "GET" [Lit "v1"; Lit "media"; Lit "files"; Var "file_id"; Lit "download"] ""
      "/media.v1.MediaService/GetDownloadURL" request_MediaService_GetDownloadURL_0;
    handle "DELETE" [Lit "v1"; Lit "media"; Lit "files"; Var "file_id"] ""
      "/media.v1.MediaService/DeleteFile" request_MediaService_DeleteFile_0
  ].

(** ** voice/v1: [VoiceService] *)
Definition request_VoiceService_JoinChannel_0 : request :=
  mkRequest "JoinChannelRequest" [Body; Path "channel_id"].
Definition request_VoiceService_LeaveChannel_0 : request :=
  mkRequest "LeaveChannelRequest" [Path "channel_id"; Query ["channel_id"]].
Definition request_VoiceService_GetChannelParticipants_0 : request :=
  mkRequest "GetChannelParticipantsRequest" [Path "channel_id"].
Definition request_VoiceService_StartDMCall_0 : request :=
  mkRequest "StartDMCallRequest" [Body; Path "channel_id"].
Definition request_VoiceService_JoinDMCall_0 : request :=
  mkRequest "JoinDMCallRequest" [Body; Path "channel_id"].
Definition request_VoiceService_RejectDMCall_0 : request :=
  mkRequest "RejectDMCallRequest" [Body; Path "channel_id"].
Definition request_VoiceService_LeaveDMCall_0 : request :=
  mkRequest "LeaveDMCallRequest" [Path "channel_id"].
Definition request_VoiceService_Mute_0 : request :=
  mkRequest "VoiceChannelRequest" [Body; Path "channel_id"].
Definition request_VoiceService_Unmute_0 : request :=
  mkRequest "VoiceChannelRequest" [Path "channel_id"].
Definition request_VoiceService_Deafen_0 : request :=
  mkRequest "VoiceChannelRequest" [Body; Path "channel_id"].
Definition request_VoiceService_Undeafen_0 : request :=
  mkRequest "VoiceChannelRequest" [Path "channel_id"].
Definition request_VoiceService_EnableVideo_0 : request :=
  mkRequest "VoiceChannelRequest" [Body; Path "channel_id"].
Definition request_VoiceService_DisableVideo_0 : request :=
  mkRequest "VoiceChannelRequest" [Path "channel_id"].
Definition request_VoiceService_StartScreenShare_0 : request :=
  mkRequest "VoiceChannelRequest" [Body; Path "channel_id"].
Definition request_VoiceService_StopScreenShare_0 : request :=
  mkRequest "VoiceChannelRequest" [Path "channel_id"].
Definition request_VoiceService_ServerMuteUser_0 : request :=
  mkRequest "ServerMuteUserRequest" [Body; Path "channel_id"; Path "target_user_id"].
Definition request_VoiceService_ServerDeafenUser_0 : request :=
  mkRequest "ServerDeafenUserRequest" [Body; Path "channel_id"; Path "target_user_id"].
Definition request_VoiceService_DisconnectUser_0 : request :=
  mkRequest "DisconnectUserRequest" [Path "channel_id"; Path "target_user_id"].
Definition RegisterVoiceServiceHandlerClient : list registration := [
    handle "POST" [Lit "v1"; Lit "channels"; Var "channel_id"; Lit "voice"; Lit "join"] ""
      "/voice.v1.VoiceService/JoinChannel" request_VoiceService_JoinChannel_0;
    handle "DELETE" [Lit "v1"; Lit "channels"; Var "channel_id"; Lit "voice"; Lit "me"] ""
      "/voice.v1.VoiceService/LeaveChannel" request_VoiceService_LeaveChannel_0;
    handle "GET" [Lit "v1"; Lit "channels"; Var "channel_id"; Lit "voice"; Lit "participants"] ""
      "/voice.v1.VoiceService/GetChannelParticipants" request_VoiceService_GetChannelParticipants_0;
    handle "POST" [Lit "v1"; Lit "channels"; Var "channel_id"; Lit "calls"] ""
      "/voice.v1.VoiceService/StartDMCall" request_VoiceService_StartDMCall_0;
    handle "POST" [Lit "v1"; Lit "channels"; Var "channel_id"; Lit "calls"; Lit "join"] ""
      "/voice.v1.VoiceService/JoinDMCall" request_VoiceService_JoinDMCall_0;
    handle "POST" [Lit "v1"; Lit "channels"; Var "channel_id"; Lit "calls"; Lit "reject"] ""
      "/voice.v1.VoiceService/RejectDMCall" request_VoiceService_RejectDMCall_0;
    handle "DELETE" [Lit "v1"; Lit "channels"; Var "channel_id"; Lit "calls"; Lit "me"] ""
      "/voice.v1.VoiceService/LeaveDMCall" request_VoiceService_LeaveDMCall_0;
    handle "PUT" [Lit "v1"; Lit "channels"; Var "channel_id"; Lit "voice"; Lit "me"; Lit "mute"] ""
      "/voice.v1.VoiceService/Mute" request_VoiceService_Mute_0;
    handle "DELETE"
      [Lit "v1"; Lit "channels"; Var "channel_id"; Lit "voice"; Lit "me"; Lit "mute"] ""
      "/voice.v1.VoiceService/Unmute" request_VoiceService_Unmute_0;
    handle "PUT" [Lit "v1"; Lit "channels"; Var "channel_id"; Lit "voice"; Lit "me"; Lit "deaf"] ""
      "/voice.v1.VoiceService/Deafen" request_VoiceService_Deafen_0;
    handle "DELETE"
      [Lit "v1"; Lit "channels"; Var "channel_id"; Lit "voice"; Lit "me"; Lit "deaf"] ""
      "/voice.v1.VoiceService/Undeafen" request_VoiceService_Undeafen_0;
    handle "PUT" [Lit "v1"; Lit "channels"; Var "channel_id"; Lit "voice"; Lit "me"; Lit "video"] ""
      "/voice.v1.VoiceService/EnableVideo" request_VoiceService_EnableVideo_0;
    handle "DELETE"
      [Lit "v1"; Lit "channels"; Var "channel_id"; Lit "voice"; Lit "me"; Lit "video"] ""
      "/voice.v1.VoiceService/DisableVideo" request_VoiceService_DisableVideo_0;
    handle "PUT"
      [Lit "v1"; Lit "channels"; Var "channel_id"; Lit "voice"; Lit "me"; Lit "screen"] ""
      "/voice.v1.VoiceService/StartScreenShare" request_VoiceService_StartScreenShare_0;
    handle "DELETE"
      [Lit "v1"; Lit "channels"; Var "channel_id"; Lit "voice"; Lit "me"; Lit "screen"] ""
      "/voice.v1.VoiceService/StopScreenShare" request_VoiceService_StopScreenShare_0;
    handle "PUT"
      [Lit "v1"; Lit "channels"; Var "channel_id"; Lit "voice"; Lit "participants"; Var "target_user_id"; Lit "mute"] ""
      "/voice.v1.VoiceService/ServerMuteUser" request_VoiceService_ServerMuteUser_0;
    handle "PUT"
      [Lit "v1"; Lit "channels"; Var "channel_id"; Lit "voice"; Lit "participants"; Var "target_user_id"; Lit "deaf"] ""
      "/voice.v1.VoiceService/ServerDeafenUser" request_VoiceService_ServerDeafenUser_0;
    handle "DELETE"
      [Lit "v1"; Lit "channels"; Var "channel_id"; Lit "voice"; Lit "participants"; Var "target_user_id"] ""
      "/voice.v1.VoiceService/DisconnectUser" request_VoiceService_DisconnectUser_0
  ].

(** ** gateway.go: the mux *)
Definition NewGatewayMux : list registration :=
  RegisterAuthServiceHandlerClient ++
  RegisterUserServiceHandlerClient ++
  RegisterGuildServiceHandlerClient ++
  RegisterChannelServiceHandlerClient ++
  RegisterMessageServiceHandlerClient ++
  RegisterStreamServiceHandlerClient ++
  RegisterSyncServiceHandlerClient ++
  RegisterPresenceServiceHandlerClient ++
  RegisterMediaServiceHandlerClient ++
  RegisterVoiceServiceHandlerClient.

(** ** The methods of the gRPC services *)
Definition AuthService_FullMethodNames : list string := (λ n, "/auth.v1.AuthService/" +:+ n) <$> [
    "Register"; "VerifyOTP"; "ResendOTP"; "Login"; "RefreshToken"; "Logout";
    "ValidateToken"].
Definition UserService_FullMethodNames : list string := (λ n, "/user.v1.UserService/" +:+ n) <$> [
    "GetUser"; "UpdateUser"; "UpdateUsername"; "UpdateStatus"; "UploadUserAvatar";
    "DeleteUser"; "GetUserByUsername"; "SearchUsers"; "SendFriendRequest";
    "AcceptFriendRequest"; "DeclineFriendRequest"; "CancelFriendRequest"; "RemoveFriend";
    "BlockUser"; "UnblockUser"; "ListFriends"; "ListPendingRequests"; "ListBlocked"].
Definition GuildService_FullMethodNames : list string := (λ n, "/guild.v1.GuildService/" +:+ n) <$> [
    "CreateGuild"; "GetGuild"; "UpdateGuild"; "UploadGuildIcon"; "UploadGuildBanner";
    "DeleteGuild"; "ListUserGuilds"; "PreviewInvite"; "JoinGuild"; "LeaveGuild";
    "ListMembers"; "KickMember"; "BanMember"; "UnbanMember"; "CreateInvite"; "CreateRole";
    "UpdateRole"; "DeleteRole"; "AssignRole"; "RemoveRole"; "TransferOwnership";
    "GrantPermission"; "RevokePermission"; "GetUserPermissions"; "GrantRolePermission";
    "RevokeRolePermission"].
Definition ChannelService_FullMethodNames : list string := (λ n, "/channel.v1.ChannelService/" +:+ n) <$> [
    "CreateChannel"; "GetChannel"; "UpdateChannel"; "DeleteChannel"; "ListGuildChannels";
    "CreateDMChannel"; "ListDMChannels"; "ListDMChannelMembers";
    "ListDMChannelsWithMembers"; "AddDMGroupMember"; "RemoveDMGroupMember";
    "SetChannelOverride"; "DeleteChannelOverride"; "ListChannelOverrides"].
Definition MessageService_FullMethodNames : list string := (λ n, "/message.v1.MessageService/" +:+ n) <$> [
    "SendMessage"; "GetMessage"; "EditMessage"; "DeleteMessage"; "ListMessages";
    "PinMessage"; "UnpinMessage"; "AddReaction"; "RemoveReaction"; "AckMessage";
    "StartTyping"; "SendDirectMessage"; "GetUnreadCounts"; "SearchMessages";
    "GetThreadMessages"; "BulkDeleteMessages"; "GetEditHistory"].
Definition StreamService_FullMethodNames : list string := (λ n, "/stream.v1.StreamService/" +:+ n) <$> [
    "StreamDmChat"; "StreamDmChannels"; "StreamDmCalls"; "StreamTextChannels";
    "StreamVoiceChat"; "StreamGuildEvents"; "StreamVoiceState"; "StreamTyping";
    "StreamFriendActivity"].
Definition SyncService_FullMethodNames : list string := (λ n, "/sync.v1.SyncService/" +:+ n) <$> [
    "Sync"].
Definition PresenceService_FullMethodNames : list string := (λ n, "/presence.v1.PresenceService/" +:+ n) <$> [
    "UpdatePresence"; "GetPresence"; "GetBulkPresence"].
Definition MediaService_FullMethodNames : list string := (λ n, "/media.v1.MediaService/" +:+ n) <$> [
    "RequestUpload"; "ConfirmUpload"; "GetDownloadURL"; "DeleteFile"].
Definition VoiceService_FullMethodNames : list string := (λ n, "/voice.v1.VoiceService/" +:+ n) <$> [
    "JoinChannel"; "LeaveChannel"; "GetChannelParticipants"; "StartDMCall"; "JoinDMCall";
    "RejectDMCall"; "LeaveDMCall"; "Mute"; "Unmute"; "Deafen"; "Undeafen"; "EnableVideo";
    "DisableVideo"; "StartScreenShare"; "StopScreenShare"; "ServerMuteUser";
    "ServerDeafenUser"; "DisconnectUser"].
Definition all_methods : list string :=
  AuthService_FullMethodNames ++
  UserService_FullMethodNames ++
  GuildService_FullMethodNames ++
  ChannelService_FullMethodNames ++
  MessageService_FullMethodNames ++
  StreamService_FullMethodNames ++
  SyncService_FullMethodNames ++
  PresenceService_FullMethodNames ++
  MediaService_FullMethodNames ++
  VoiceService_FullMethodNames.
