(* ===== verification/GatewayFacts.v ===== *)
(** * GatewayFacts: what a REST caller can reach

    Every request is served by the last route that matches it: the routes that
    shadow another one are exactly four pairs, one of which leaves a method
    without a URL.  A variable of the URL always wins over body and query.
    The guild service over REST changes a table only for the authority the
    method requires.  All REST callers share the rate limits. *)
From S2P Require Import Prelude Realtime Store Queries Authz Guild Redis Middleware Wp AuthzFacts GuildFacts.
From S2P Require Import Rpc GuildApi MiddlewareFacts GuildApiFacts Gateway GatewayRoutes.

(** ** Matching *)

(** The components a template stands for, whatever it binds. *)
Definition fits_segment (s : segment) (c : string) : Prop :=
  match s with Lit l => l = c | Var _ => True end.
Notation fits := (Forall2 fits_segment).

(** The template of a route with the verb in its last component. *)
Fixpoint flatten (t : list segment) (verb : string) : list segment :=
  match t with
  | [] => []
  | [Lit l] => [Lit (l +:+ ":" +:+ verb)]
  | s :: t => s :: flatten t verb
  end.
Definition flat (r : route) : list segment :=
  if string_eqb (rt_verb r) "" then rt_template r else flatten (rt_template r) (rt_verb r).

Lemma match_segments_fits t cs params : match_segments t cs = Some params → fits t cs.
Proof.
  revert cs params. induction t as [|[l|f] t IH]; intros [|c cs] params; try done; simpl; intros E.
  - destruct (string_eqb l c) eqn:El; [|done]. apply string_eqb_true in El. constructor; eauto.
  - apply bind_Some in E as (ps & Ep & _). constructor; [done|eauto].
Qed.

Lemma cut_suffix_app suf s t : cut_suffix suf s = Some t → s = t +:+ suf.
Proof.
  revert t. induction s as [|c s IH]; intros t; simpl.
  - destruct (string_eqb "" suf) eqn:E; [|done]. apply string_eqb_true in E. by intros [= <-].
  - destruct (string_eqb (String c s) suf) eqn:E.
    + apply string_eqb_true in E. by intros [= <-].
    + intros (t' & E' & ->)%fmap_Some. simpl. by rewrite (IH _ E').
Qed.

Lemma cut_verb_flatten verb t cs cs' :
  cut_verb verb cs = Some cs' → fits t cs' → fits (flatten t verb) cs.
Proof.
  revert t cs'. induction cs as [|c cs IH]; intros t cs'; [done|].
  destruct cs as [|c' cs]; simpl cut_verb.
  - destruct (cut_suffix _ c) as [[|a d]|] eqn:E; try done. intros [= <-] Hf.
    apply cut_suffix_app in E as ->.
    inversion Hf as [|s c' t' ? Hs Ht]; subst. inversion Ht; subst.
    destruct s as [l|f]; repeat constructor. simpl in *. by subst.
  - intros E Hf. apply bind_Some in E as (cs2 & E & [= <-]).
    inversion Hf as [|s ? t' ? Hs Ht]; subst.
    specialize (IH _ _ E Ht).
    destruct t' as [|s' t']; [by inversion IH|].
    destruct s; by constructor.
Qed.

Lemma match_route_flat r path params :
  match_route r path = Some params → ∃ cs, path_components path = Some cs ∧ fits (flat r) cs.
Proof.
  unfold match_route, flat. intros (cs & Ec & E)%bind_Some. exists cs. split; [done|].
  destruct (string_eqb (rt_verb r) "").
  - by eapply match_segments_fits.
  - apply bind_Some in E as (cs' & Ev & E). eapply cut_verb_flatten; [done|].
    by eapply match_segments_fits.
Qed.

(** Two templates that stand for a common path. *)
Definition segments_meet (a b : segment) : bool :=
  match a, b with Lit a, Lit b => string_eqb a b | _, _ => true end.
Fixpoint meet (a b : list segment) : bool :=
  match a, b with
  | [], [] => true
  | s :: a, t :: b => segments_meet s t && meet a b
  | _, _ => false
  end.
Lemma fits_meet a b cs : fits a cs → fits b cs → meet a b = true.
Proof.
  intros Ha. revert b. induction Ha as [|s c a cs Hs _ IH]; intros b Hb; inversion Hb as [|t ? b' ? Ht]; subst; [done|].
  simpl. rewrite IH by done. destruct s, t; simpl in *; subst; try done.
  by rewrite string_eqb_refl.
Qed.

(** ** The last route wins *)
Notation rpc reg := (rt_rpc (rg_route reg)).

Lemma takes_Some reg method path params :
  takes reg method path = Some params →
  rt_method (rg_route reg) = method ∧ match_route (rg_route reg) path = Some params.
Proof.
  unfold takes. destruct (string_eqb _ _) eqn:E; [|done]. by apply string_eqb_true in E.
Qed.

Lemma last_match_snoc regs reg method path :
  last_match (regs ++ [reg]) method path =
  match takes reg method path with
  | Some params => Some (reg, params)
  | None => last_match regs method path
  end.
Proof. unfold last_match. by rewrite foldl_app. Qed.

Lemma last_match_app regs regs' method path :
  last_match (regs ++ regs') method path =
  match last_match regs' method path with
  | Some found => Some found
  | None => last_match regs method path
  end.
Proof.
  induction regs' as [|reg regs' IH] using rev_ind; [by rewrite app_nil_r|].
  rewrite app_assoc, !last_match_snoc, IH. by destruct (takes _ _ _).
Qed.

Lemma last_match_Some regs method path reg params :
  last_match regs method path = Some (reg, params) →
  reg ∈ regs ∧ takes reg method path = Some params.
Proof.
  induction regs as [|reg' regs IH] using rev_ind; [done|].
  rewrite last_match_snoc, elem_of_app, list_elem_of_singleton.
  destruct (takes reg' _ _) eqn:E; [intros [= <- <-]; auto|naive_solver].
Qed.

(** A route that takes the request serves it, or a later one does. *)
Lemma last_match_takes regs method path reg params :
  reg ∈ regs → takes reg method path = Some params →
  last_match regs method path = Some (reg, params) ∨
  ∃ reg' params' l1 l2 l3, last_match regs method path = Some (reg', params') ∧
    takes reg' method path = Some params' ∧ regs = (l1 ++ reg :: l2 ++ reg' :: l3)%list.
Proof.
  intros Hin Ht. induction regs as [|reg' regs IH] using rev_ind; [by apply not_elem_of_nil in Hin|].
  rewrite last_match_snoc. destruct (takes reg' method path) as [params'|] eqn:E.
  - apply elem_of_app in Hin as [Hin|Hin%list_elem_of_singleton].
    + right. apply list_elem_of_split in Hin as (l1 & l2 & ->).
      exists reg', params', l1, l2, []. by rewrite <-app_assoc.
    + left. congruence.
  - apply elem_of_app in Hin as [Hin|Hin%list_elem_of_singleton]; [|congruence].
    destruct (IH Hin) as [?|(r & ps & l1 & l2 & l3 & Hl & Hr & ->)]; [by left|right].
    exists r, ps, l1, l2, (l3 ++ [reg'])%list. split_and!; [done..|].
    by rewrite <-app_assoc; simpl; rewrite <-app_assoc.
Qed.

(** The pairs of routes that can meet, the earlier one first. *)
Definition may_meet (a b : registration) : bool :=
  string_eqb (rt_method (rg_route a)) (rt_method (rg_route b)) &&
  meet (flat (rg_route a)) (flat (rg_route b)).
Fixpoint conflicts (regs : list registration) : list (string * string) :=
  match regs with
  | [] => []
  | reg :: regs =>
      ((λ reg', (rpc reg, rpc reg')) <$> filter (λ reg', may_meet reg reg' = true) regs) ++
      conflicts regs
  end.

Lemma takes_may_meet a b method path ps qs :
  takes a method path = Some ps → takes b method path = Some qs → may_meet a b = true.
Proof.
  intros [<- (cs & Ec & Ha)%match_route_flat]%takes_Some [E (cs' & Ec' & Hb)%match_route_flat]%takes_Some.
  unfold may_meet. rewrite E, string_eqb_refl. simpl.
  eapply fits_meet; [done|]. by assert (cs' = cs) as <- by congruence.
Qed.

Lemma elem_of_conflicts l1 a l2 b l3 :
  may_meet a b = true → (rpc a, rpc b) ∈ conflicts (l1 ++ a :: l2 ++ b :: l3)%list.
Proof.
  intros Hm. induction l1 as [|c l1 IH]; simpl; apply elem_of_app; [left|by right].
  apply list_elem_of_fmap. exists b. split; [done|]. apply list_elem_of_filter. split; [done|].
  apply elem_of_app. right. by left.
Qed.

(** Which method loses a request to which. *)
Definition shadowed : list (string * string) :=
  [("/user.v1.UserService/GetUser", "/user.v1.UserService/SearchUsers");
   ("/user.v1.UserService/GetUserByUsername", "/guild.v1.GuildService/ListUserGuilds");
   ("/user.v1.UserService/GetUserByUsername", "/presence.v1.PresenceService/GetPresence");
   ("/guild.v1.GuildService/LeaveGuild", "/guild.v1.GuildService/KickMember")]%string.

Lemma conflicts_NewGatewayMux : conflicts NewGatewayMux = shadowed.
Proof. vm_compute. reflexivity. Qed.

(** Whatever [b]'s template accepts, [a]'s accepts. *)
Fixpoint covers (a b : list segment) : bool :=
  match a, b with
  | [], [] => true
  | Var _ :: a, _ :: b => covers a b
  | Lit k :: a, Lit l :: b => string_eqb k l && covers a b
  | _, _ => false
  end.
Lemma covers_match a b cs ps :
  covers a b = true → match_segments b cs = Some ps → is_Some (match_segments a cs).
Proof.
  revert b cs ps. induction a as [|s' a IH]; intros [|s b] cs ps Hc Hb; try done.
  { simpl in Hc. by destruct s'. }
  destruct cs as [|c cs]; [by destruct s|].
  assert (is_Some (match_segments a cs)) as [qs E].
  { destruct s as [l|g]; simpl in Hb.
    - destruct (string_eqb l c); [|done]. eapply IH; [|done].
      destruct s'; simpl in Hc; [by apply andb_true_iff in Hc as [_ ?]|done].
    - apply bind_Some in Hb as (? & Hb & _). eapply IH; [|done]. by destruct s'. }
  destruct s' as [k|f]; simpl; rewrite E; [|by eexists].
  destruct s as [l|]; [|done]. simpl in Hc, Hb. apply andb_true_iff in Hc as [->%string_eqb_true _].
  by destruct (string_eqb l c).
Qed.

Section Dispatch.
Context `{!GatewayRuntime}.

Lemma mux_dispatch rq reg params :
  plain rq = true → reg ∈ NewGatewayMux →
  hr_method rq = rt_method (rg_route reg) → match_route (rg_route reg) (hr_path rq) = Some params →
  mux_find NewGatewayMux rq = Some (reg, params) ∨
  ∃ reg' params', mux_find NewGatewayMux rq = Some (reg', params') ∧
    match_route (rg_route reg') (hr_path rq) = Some params' ∧ (rpc reg, rpc reg') ∈ shadowed.
Proof.
  intros Hp Hin Hm Hr. rewrite mux_find_law by done.
  assert (takes reg (hr_method rq) (hr_path rq) = Some params) as Ht.
  { unfold takes. by rewrite Hm, string_eqb_refl. }
  destruct (last_match_takes _ _ _ _ _ Hin Ht) as [?|(reg' & ps & l1 & l2 & l3 & Hl & Ht' & Hs)]; [by left|].
  right. exists reg', ps. split_and!; [done|by apply takes_Some in Ht' as [_ ?]|].
  rewrite <-conflicts_NewGatewayMux, Hs. apply elem_of_conflicts. by eapply takes_may_meet.
Qed.

(** C19: which method a URL calls.  Every method of the ten services has
    exactly one route.  A request that matches the route of a method, in any
    spelling of its variables, is dispatched to that method with the
    variables bound, unless a later route matches too; and the only pairs of
    methods where that can happen are the four of [shadowed]: a user called
    "search", a name "guilds" or "presence", and leaving a guild. *)
Theorem rest_dispatch :
  ((λ reg, rpc reg) <$> NewGatewayMux) ≡ₚ all_methods ∧ NoDup all_methods ∧
  ∀ rq reg params,
    plain rq = true → reg ∈ NewGatewayMux →
    hr_method rq = rt_method (rg_route reg) →
    match_route (rg_route reg) (hr_path rq) = Some params →
    mux_find NewGatewayMux rq = Some (reg, params) ∨
    ∃ reg' params', mux_find NewGatewayMux rq = Some (reg', params') ∧
      match_route (rg_route reg') (hr_path rq) = Some params' ∧ (rpc reg, rpc reg') ∈ shadowed.
Proof. split_and!; [by apply (bool_decide_unpack _); vm_compute..|]. exact mux_dispatch. Qed.

(** The registrations from that of KickMember on. *)
Definition LeaveGuild_method : string := "/guild.v1.GuildService/LeaveGuild".
Definition KickMember_registration : registration :=
  handle "DELETE" [Lit "v1"; Lit "guilds"; Var "guild_id"; Lit "members"; Var "user_id"] ""
    "/guild.v1.GuildService/KickMember" request_GuildService_KickMember_0.
Definition LeaveGuild_registration : registration :=
  handle "DELETE" [Lit "v1"; Lit "guilds"; Var "guild_id"; Lit "members"; Lit "me"] ""
    LeaveGuild_method request_GuildService_LeaveGuild_0.
Lemma mux_from_KickMember :
  ∃ earlier later, NewGatewayMux = (earlier ++ KickMember_registration :: later)%list ∧
    LeaveGuild_method ∉ (λ reg, rpc reg) <$> (KickMember_registration :: later).
Proof.
  exists (take 36 NewGatewayMux), (drop 37 NewGatewayMux). split; [vm_compute; reflexivity|].
  apply (bool_decide_unpack _). vm_compute. done.
Qed.

Lemma LeaveGuild_unique reg :
  reg ∈ NewGatewayMux → rpc reg = LeaveGuild_method → reg = LeaveGuild_registration.
Proof.
  intros Hin Hl.
  assert (filter (λ reg, rpc reg = LeaveGuild_method) NewGatewayMux = [LeaveGuild_registration]) as E
    by (vm_compute; reflexivity).
  apply list_elem_of_singleton. rewrite <-E. by apply list_elem_of_filter.
Qed.

Lemma LeaveGuild_taken_by_KickMember rq params :
  takes LeaveGuild_registration (hr_method rq) (hr_path rq) = Some params →
  is_Some (takes KickMember_registration (hr_method rq) (hr_path rq)).
Proof.
  intros [Hm E]%takes_Some. unfold takes. rewrite <-Hm. simpl.
  unfold match_route in *. destruct (path_components _) as [cs|]; [|done].
  by apply (covers_match (rt_template (rg_route KickMember_registration))
              (rt_template (rg_route LeaveGuild_registration)) cs params).
Qed.

(** ** Variables of the URL *)
Definition template_vars (t : list segment) : list string :=
  omap (λ s, match s with Var f => Some f | Lit _ => None end) t.
Definition binds_field (f : string) (s : step) : bool :=
  match s with Path g | PathEnum g _ => string_eqb f g | _ => false end.
Definition keeps_field (f : string) (s : step) : bool :=
  match s with
  | Body => false
  | Path g | PathEnum g _ => negb (string_eqb f g)
  | Query filter => existsb (string_eqb f) filter
  end.
Fixpoint sets_field (f : string) (steps : list step) : bool :=
  match steps with
  | [] => false
  | s :: steps => binds_field f s && forallb (keeps_field f) steps || sets_field f steps
  end.

(** The field holds the text of the URL, or the number of the name there. *)
Definition bound (m : message) (f v : string) : Prop :=
  m !! f = Some (PString v) ∨ ∃ values e, Enum v values = Some e ∧ m !! f = Some (PInt e).

Lemma run_step_keeps ty rq params m s m' f :
  keeps_field f s = true → run_step ty rq params m s = inr m' → m' !! f = m !! f.
Proof.
  destruct s as [|g|g values|filter]; simpl; [done|..].
  - intros Hg. destruct (params !! g); [|done]. intros [= <-]. apply lookup_insert_ne.
    intros ->. by rewrite string_eqb_refl in Hg.
  - intros Hg. destruct (params !! g); [|done]. destruct (Enum _ _); [|done]. intros [= <-].
    apply lookup_insert_ne. intros ->. by rewrite string_eqb_refl in Hg.
  - intros (g & Hg & ->%string_eqb_true)%existsb_exists.
    destruct (PopulateQueryParameters _ _ _ _) eqn:E; [done|]. intros [= <-].
    eapply Populate_filtered; [done|]. by apply list_elem_of_In.
Qed.

Lemma run_steps_keeps ty rq params steps m m' f :
  forallb (keeps_field f) steps = true → run_steps ty rq params m steps = inr m' → m' !! f = m !! f.
Proof.
  revert m. induction steps as [|s steps IH]; intros m; simpl; [by intros _ [= ->]|].
  intros [Hs Hk]%andb_true_iff. destruct (run_step _ _ _ _ _) as [|m1] eqn:E; [done|].
  intros Hr. rewrite (IH m1 Hk Hr). by eapply run_step_keeps.
Qed.

Lemma run_steps_sets ty rq params steps m m' f :
  sets_field f steps = true → run_steps ty rq params m steps = inr m' →
  ∃ v, params !! f = Some v ∧ bound m' f v.
Proof.
  revert m. induction steps as [|s steps IH]; intros m; simpl; [done|].
  destruct (run_step _ _ _ _ _) as [|m1] eqn:E; [done|].
  intros [[Hb Hk]%andb_true_iff|Hs]%orb_true_iff Hr; [|by eapply IH].
  apply (run_steps_keeps _ _ _ _ _ _ _ Hk) in Hr. unfold bound. rewrite Hr.
  destruct s as [|g|g values|]; simpl in Hb, E; try done; apply string_eqb_true in Hb as <-;
    destruct (params !! f) as [v|]; try done.
  - injection E as <-. exists v. rewrite lookup_insert_eq. auto.
  - destruct (Enum v values) as [e|] eqn:He; [|done]. injection E as <-. exists v.
    rewrite lookup_insert_eq. eauto 6.
Qed.

Lemma match_segments_vars t cs params f :
  match_segments t cs = Some params → is_Some (params !! f) → f ∈ template_vars t.
Proof.
  revert cs params. induction t as [|[l|g] t IH]; intros [|c cs] params; simpl; try done.
  - intros [= <-] [? []%lookup_empty_Some].
  - destruct (string_eqb l c); [|done]. apply IH.
  - intros (ps & E & [= <-])%bind_Some. rewrite lookup_insert_is_Some', elem_of_cons.
    intros [->|?]; eauto.
Qed.
Lemma match_route_vars r path params f :
  match_route r path = Some params → is_Some (params !! f) → f ∈ template_vars (rt_template r).
Proof.
  unfold match_route. intros (cs & _ & E)%bind_Some.
  destruct (string_eqb _ _); [by eapply match_segments_vars|].
  apply bind_Some in E as (cs' & _ & E). by eapply match_segments_vars.
Qed.

Lemma routes_set_variables :
  forallb (λ reg, forallb (λ f, sets_field f (rq_steps (rg_request reg)))
                          (template_vars (rt_template (rg_route reg)))) NewGatewayMux = true.
Proof. vm_compute. reflexivity. Qed.

Lemma url_variables_bound reg path rq params m f v :
  reg ∈ NewGatewayMux → match_route (rg_route reg) path = Some params →
  run_request (rg_request reg) rq params = inr m → params !! f = Some v → bound m f v.
Proof.
  intros Hin Hr Hm Hf. pose proof routes_set_variables as Ht.
  rewrite forallb_forall in Ht. specialize (Ht reg (proj1 (list_elem_of_In _ _) Hin)). simpl in Ht.
  rewrite forallb_forall in Ht.
  assert (In f (template_vars (rt_template (rg_route reg)))) as Hv.
  { apply list_elem_of_In. eapply match_route_vars; [done|]. by eexists. }
  destruct (run_steps_sets _ _ _ _ _ _ _ (Ht f Hv) Hm) as (v' & Hv' & Hb). by simplify_eq.
Qed.

(** C20: the URL wins.  Whatever the body and the query of a request say, in
    the message that reaches the service every variable of the route holds
    the text (or the value of the name) that stands in the path: a request
    cannot name one object in its URL and act on another one. *)
Theorem path_variables_win reg path rq params m f v :
  reg ∈ NewGatewayMux → match_route (rg_route reg) path = Some params →
  run_request (rg_request reg) rq params = inr m → params !! f = Some v → bound m f v.
Proof. apply url_variables_bound. Qed.
End Dispatch.

(** ** Calls through the gateway *)
Section Calls.
Context `{!GatewayRuntime} `{Env} `{!RedisServer} `{!Jwt}.

(** Every method with a URL is limited. *)
Lemma rest_methods_limited reg :
  reg ∈ NewGatewayMux →
  HasPrefix (rpc reg) "/grpc.reflection." || HasPrefix (rpc reg) "/grpc.health." = false.
Proof.
  intros Hin. apply negb_true_iff.
  assert (forallb (λ reg, negb (HasPrefix (rpc reg) "/grpc.reflection." || HasPrefix (rpc reg) "/grpc.health."))
            NewGatewayMux = true) as Ht by (vm_compute; reflexivity).
  rewrite forallb_forall in Ht. by apply Ht, list_elem_of_In.
Qed.

Lemma try_command {A} (f : time → keyspace → redis_result A) w :
  ∃ r w', try (command f) w = (Ok r, w') ∧ tick w' = S (tick w).
Proof.
  pose proof (external_tick redis with_redis (λ t _ r, f t r) w ltac:(done)) as Ht.
  unfold try, command, redis_cmd. destruct (external _ _ _ w) as [[a|e|] w'] eqn:E; simpl in Ht; eauto.
  exfalso. revert E. unfold external. destruct (faults _), (f (clock (tick w)) (redis w)) as [?|[? ?]]; by intros [=].
Qed.
(** The limiter lets a call through or refuses it, and touches no table. *)
Lemma limiter_cases {A} method ctx (handler : Context → GoM World A) w :
  ∃ w1, db w1 = db w ∧
    tick w1 = (if HasPrefix method "/grpc.reflection." || HasPrefix method "/grpc.health."
               then tick w else S (S (tick w))) ∧
    (RateLimit.RateLimitInterceptor method ctx handler w = handler ctx w1 ∨
     RateLimit.RateLimitInterceptor method ctx handler w =
       (Err (Status ResourceExhausted "rate limit exceeded: %d requests per %s"), w1)).
Proof.
  unfold RateLimit.RateLimitInterceptor. destruct (_ || _); [by exists w; auto|].
  destruct (RateLimit.resolveRateLimit ctx method) as [identity rl].
  set (check := RateLimit.checkRateLimit _ _).
  assert (steps (on_db eq) check) as Hd.
  { unfold check, RateLimit.checkRateLimit, command. steps_auto. destruct a, a0; steps_auto. }
  assert (answers any_error check) as Ha.
  { unfold check, RateLimit.checkRateLimit, command. answers_auto. destruct a, a0; answers_auto. }
  assert (tick (check w).2 = S (S (tick w))) as Ht.
  { unfold check, RateLimit.checkRateLimit.
    destruct (try_command (INCR (RateLimit.rate_key identity method)) w) as (x & w1 & E1 & T1).
    destruct (try_command (EXPIRE (RateLimit.rate_key identity method) (RateLimit.window rl)) w1)
      as (y & w2 & E2 & T2).
    rewrite (bind_run _ _ _ _ _ E1), (bind_run _ _ _ _ _ E2). rewrite <-T1, <-T2. by destruct x, y. }
  specialize (Hd w). specialize (Ha w). unfold on_db in Hd. unfold mbind, gom_bind, try.
  destruct (check w) as [[[|]|e|] w1]; simpl in *; try done; exists w1; auto.
Qed.

Context `{!UuidText}.
Variables (minio signer : option GuildService.MinioClient) (bucket inviteBaseURL secret : string).
Variable validate : message → error + unit.
Notation rest := (rest_call NewGatewayMux secret validate (guild_rest minio signer bucket inviteBaseURL)).

Lemma guild_rpc_method m method x :
  guild_rpc m method = Some x → guild_method (projT2 x) = method.
Proof.
  unfold guild_rpc, some_rpc. cbv zeta.
  repeat (destruct (string_eqb method _) eqn:E;
    [apply string_eqb_true in E as ->; by intros [= <-]|clear E]). done.
Qed.

Lemma of_result_inr {A B} (a : A) (k : A → GoM World B) w : (of_result (inr a) ≫= k) w = k a w.
Proof. done. Qed.

Lemma gate_keeps {A} method ctx (handler : Context → GoM World A) :
  (∀ ctx, steps (on_db eq) (handler ctx)) →
  steps (on_db eq) (Auth.AuthInterceptor secret method ctx handler).
Proof. intros Hh. unfold Auth.AuthInterceptor, Auth.extractUserID. steps_auto. Qed.

Lemma gate_marshals {A} method ctx (handler : Context → GoM World A) w :
  (Auth.AuthInterceptor secret method ctx (λ ctx, _ ← handler ctx; mret tt) w).2 =
  (Auth.AuthInterceptor secret method ctx handler w).2.
Proof.
  assert (∀ ctx w, ((_ ← handler ctx; mret tt : GoM World unit) w).2 = (handler ctx w).2) as Hd.
  { intros ctx1 w1. unfold mbind, gom_bind. by destruct (handler ctx1 w1) as [[] ?]. }
  unfold Auth.AuthInterceptor. destruct (Auth.is_open method); [apply Hd|].
  unfold mbind at 1 3, gom_bind at 1 3.
  destruct (Auth.extractUserID ctx secret w) as [[u|e|] w1]; [apply Hd|done..].
Qed.

(** A call that changes a table passed every stage. *)
Lemma rest_changes rq w :
  db (rest rq w).2 ≠ db w →
  ∃ reg params ctx m A (r : GuildRPC A) w1,
    mux_find NewGatewayMux rq = Some (reg, params) ∧ AnnotateContext rq (rpc reg) = inr ctx ∧
    run_request (rg_request reg) rq params = inr m ∧ validate m = inr tt ∧
    guild_rpc m (rpc reg) = Some (existT A r) ∧ db w1 = db w ∧
    tick w1 = (if HasPrefix (rpc reg) "/grpc.reflection." || HasPrefix (rpc reg) "/grpc.health."
               then tick w else S (S (tick w))) ∧
    db (guild_call minio signer bucket inviteBaseURL secret r ctx w1).2 = db (rest rq w).2.
Proof.
  unfold rest_call. destruct (mux_find _ rq) as [[reg params]|]; [|done].
  destruct (AnnotateContext rq (rpc reg)) as [|ctx] eqn:Ec; [done|].
  destruct (run_request (rg_request reg) rq params) as [|m] eqn:Em; [done|].
  cbv zeta. rewrite !of_result_inr. unfold RateLimit.unary_chain.
  destruct (limiter_cases (rpc reg) ctx (λ ctx, Auth.AuthInterceptor secret (rpc reg) ctx (λ ctx,
    _ ← of_result (validate m); guild_rest minio signer bucket inviteBaseURL (rpc reg) m ctx)) w)
    as (w1 & Hd & Ht & [E|E]); rewrite E; [|done].
  rewrite <-Hd. intros Hne. destruct (validate m) as [e|[]] eqn:Ev.
  { destruct Hne. symmetry. apply (gate_keeps (rpc reg) ctx (λ _, fail e)). steps_auto. }
  change (λ ctx, _ ← of_result (inr tt); guild_rest minio signer bucket inviteBaseURL (rpc reg) m ctx)
    with (guild_rest minio signer bucket inviteBaseURL (rpc reg) m) in *.
  destruct (guild_rpc m (rpc reg)) as [[A r]|] eqn:Eg.
  - exists reg, params, ctx, m, A, r, w1. split_and!; [done..|].
    unfold guild_call. apply guild_rpc_method in Eg as Em'. simpl in Em'. rewrite Em'.
    rewrite <-gate_marshals. unfold guild_rest. by rewrite Eg.
  - destruct Hne. symmetry. apply (gate_keeps (rpc reg) ctx). intros ctx'. unfold guild_rest. rewrite Eg. steps_auto.
Qed.

(** C4: who changes a guild over REST.  Whatever the HTTP request and whatever
    fails, when serving it changes a table, it was dispatched to a method of
    the guild service, its message passed the rules, the variables of its URL
    are the ones the method acted on, the call carried a token accepted at
    the moment of the authentication (behind the two commands of the rate
    limiter), and the account of its subject held the authority the method
    requires. *)
Theorem rest_guild_authorized rq w :
  authz_wired = true → plain rq = true → db (rest rq w).2 ≠ db w →
  ∃ reg params ctx m A (r : GuildRPC A) userID u,
    mux_find NewGatewayMux rq = Some (reg, params) ∧ AnnotateContext rq (rpc reg) = inr ctx ∧
    run_request (rg_request reg) rq params = inr m ∧ validate m = inr tt ∧
    guild_rpc m (rpc reg) = Some (existT A r) ∧
    (∀ f v, params !! f = Some v → bound m f v) ∧
    carries ctx secret (clock (S (S (tick w)))) userID ∧ uuid_parse userID = Some u ∧
    guild_access r (db w) u.
Proof.
  intros Hw Hp Hch. destruct (rest_changes rq w Hch) as (reg & params & ctx & m & A & r & w1 & Hmux & Hctx & Hm & Hv & Hr & Hd & Ht & Hne).
  assert (db (guild_call minio signer bucket inviteBaseURL secret r ctx w1).2 ≠ db w1) as Hch1
    by congruence.
  destruct (guild_call_access minio signer bucket inviteBaseURL secret r ctx w1 _ _ Hw
              (surjective_pairing _) (or_intror Hch1)) as (userID & u & Hc & Hu & Ha).
  rewrite Hd in Ha. pose proof Hmux as Hl. rewrite mux_find_law in Hl by done.
  apply last_match_Some in Hl as [Hin [_ Hr']%takes_Some].
  rewrite rest_methods_limited in Ht by done. rewrite Ht in Hc.
  exists reg, params, ctx, m, A, r, userID, u. split_and!; [done..| |done|done|done]. intros f v Hf.
  by eapply url_variables_bound.
Qed.

(** *** Leaving a guild *)

(** A service that only refuses, behind the gate. *)
Lemma gate_refuses {A} method ctx (handler : Context → GoM World A) d :
  (∀ ctx, wpd (handler ctx) (λ o d', (∃ e, o = Err e) ∧ d' = d) d) →
  wpd (Auth.AuthInterceptor secret method ctx handler) (λ o d', (∃ e, o = Err e) ∧ d' = d) d.
Proof.
  intros Hh. unfold Auth.AuthInterceptor. destruct (Auth.is_open method); [apply Hh|].
  apply wpd_bind. unfold Auth.extractUserID. wpd_auto; eauto.
Qed.

Lemma KickMember_me_refused g ctx d :
  uuid_parse "me" = None →
  wpd (guild_serve minio signer bucket inviteBaseURL (RpcKickMember g "me") ctx)
    (λ o d', (∃ e, o = Err e) ∧ d' = d) d.
Proof.
  intros Hme. cbn [guild_serve]. unfold GuildHandler.KickMember, caller_uuid, caller_id, uuid_arg, parse_arg.
  rewrite Hme. wpd_auto; eauto.
Qed.

(** C21: nobody can leave a guild over REST.  No request is ever dispatched to
    LeaveGuild: its route [DELETE /v1/guilds/{guild_id}/members/me] is
    registered in front of [.../members/{user_id}], and the route registered
    last wins.  The request that was meant to leave is served by KickMember
    with the user "me", which is no identifier: whoever sends it, whatever
    token it carries, it is answered with an error and changes no table. *)
Theorem LeaveGuild_has_no_url rq :
  plain rq = true →
  (∀ reg params, mux_find NewGatewayMux rq = Some (reg, params) → rpc reg ≠ LeaveGuild_method) ∧
  ∀ g w, hr_method rq = "DELETE"%string →
    path_components (hr_path rq) = Some ["v1"; "guilds"; g; "members"; "me"]%string →
    uuid_parse "me" = None →
    (∃ e, (rest rq w).1 = Err e) ∧ db (rest rq w).2 = db w.
Proof.
  intros Hp. split.
  - intros reg params Hmux Hl. rewrite mux_find_law in Hmux by done.
    destruct mux_from_KickMember as (earlier & later & Hs & Hno).
    rewrite Hs, last_match_app in Hmux.
    destruct (last_match (_ :: later) _ _) as [[reg' ps]|] eqn:E.
    + injection Hmux as -> ->. apply last_match_Some in E as [Hin _].
      destruct Hno. rewrite <-Hl. by apply (list_elem_of_fmap_2 (λ reg, rpc reg)).
    + apply last_match_Some in Hmux as [Hin Ht].
      assert (reg = LeaveGuild_registration) as -> by (eapply LeaveGuild_unique; [|done]; rewrite Hs; apply elem_of_app; auto).
      apply LeaveGuild_taken_by_KickMember in Ht as [ps Ht].
      destruct (last_match_takes (KickMember_registration :: later) (hr_method rq) (hr_path rq) KickMember_registration ps)
        as [?|(?&?&?&?&?&?&_)]; [by left|done|congruence..].
  - intros g w Hm Hpath Hme.
    set (params := {["guild_id" := g; "user_id" := "me"]}%string : gmap string string).
    assert (mux_find NewGatewayMux rq = Some (KickMember_registration, params)) as Hmux.
    { assert (KickMember_registration ∈ NewGatewayMux) as Hin.
      { destruct mux_from_KickMember as (? & ? & -> & _). apply elem_of_app. right. by left. }
      destruct (mux_dispatch rq KickMember_registration params) as [?|(reg & ? & _ & _ & Hsh)];
        [done..| |done|].
      - unfold match_route. by rewrite Hpath.
      - apply list_elem_of_In in Hsh. simpl in Hsh. naive_solver. }
    unfold rest_call. rewrite Hmux.
    destruct (AnnotateContext rq _) as [e|ctx]; [split; [by eexists|done]|].
    assert (run_request (rg_request KickMember_registration) rq params =
      inr {["user_id" := PString "me"; "guild_id" := PString g]}%string) as -> by reflexivity.
    cbv zeta. rewrite !of_result_inr. unfold RateLimit.unary_chain.
    match goal with |- context [RateLimit.RateLimitInterceptor ?method _ ?h w] =>
      destruct (limiter_cases method ctx h w) as (w1 & <- & _ & [E|E]); rewrite E end; [|by eauto].
    apply gate_refuses; [|done]. intros ctx'. destruct (validate _) as [e|[]].
    + apply wpd_fail. eauto.
    + unfold of_result. apply wpd_bind, wpd_ret.
      set (m := {[_ := _; _ := _]}).
      assert (guild_rpc m (rpc KickMember_registration) = some_rpc (RpcKickMember g "me")) as Er
        by reflexivity.
      unfold guild_rest. rewrite Er. apply wpd_bind. eapply wpd_mono; [by apply KickMember_me_refused|].
      simpl. intros o d' [[e ->] ->]. eauto.
Qed.
(** *** Limits *)
(** The counter of a method for everybody behind the in-process connection. *)
Definition rest_key (method : string) : string :=
  RateLimit.rate_key (RateLimit.peerIP (mkContext None (Some loopback_peer) None)) method.

(** C22: REST callers share one limit.  The limits are meant per user, or at
    least per address.  Behind the in-process connection every request has
    the same peer and none has a user yet, so all REST requests for a method
    count on one key, whatever address and token they come with: once that
    counter has reached the limit, every REST request for the method is
    refused, of every user, and the service is not asked. *)
Theorem rest_callers_share_limits {A} (serve : string → message → Context → GoM World A)
    rq reg params ctx m n w :
  plain rq = true → mux_find NewGatewayMux rq = Some (reg, params) →
  AnnotateContext rq (rpc reg) = inr ctx → run_request (rg_request reg) rq params = inr m →
  faults (tick w) = NoFault → faults (S (tick w)) = NoFault →
  counted w (rest_key (rpc reg)) n → in_range 64 n = true → in_range 64 (n + 1) = true →
  (RateLimit.limit (RateLimit.resolveRateLimit ctx (rpc reg)).2 ≤ n)%Z →
  (rest_call NewGatewayMux secret validate serve rq w).1 =
  Err (Status ResourceExhausted "rate limit exceeded: %d requests per %s").
Proof.
  intros Hp Hmux Hctx Hm Hf1 Hf2 Hn Hr1 Hr2 Hl. unfold rest_call. rewrite Hmux. cbv zeta.
  rewrite Hctx, of_result_inr, Hm, of_result_inr.
  rewrite mux_find_law in Hmux by done. apply last_match_Some in Hmux as [Hin _].
  destruct (Annotate_law _ _ _ Hctx) as (Hpeer & Hu & _).
  apply (rate_limit_is_per_peer _ _ _ _ _ n); try done.
  - by apply rest_methods_limited.
  - unfold rest_key, RateLimit.peerIP in Hn. unfold RateLimit.peerIP. by rewrite Hpeer.
Qed.
End Calls.

(** ** Streams over HTTP

    What an event stream client reads: lines, of which those that start with
    ["data: "] are collected, and an empty one ends an event. *)
Fixpoint split_lines (s : string) : list string :=
  match s with
  | "" => [""]
  | String c s =>
      if Ascii.eqb c "010" then "" :: split_lines s
      else match split_lines s with
           | l :: ls => String c l :: ls
           | [] => [String c ""]
           end
  end%string.
Fixpoint sse_events (data : option string) (lines : list string) : list string :=
  match lines with
  | [] => []
  | l :: lines =>
      if string_eqb l "" then
        match data with Some d => d :: sse_events None lines | None => sse_events None lines end
      else if HasPrefix l "data: " then
        let d := TrimPrefix l "data: " in
        sse_events (Some match data with Some d0 => d0 +:+ newline +:+ d | None => d end) lines
      else sse_events data lines
  end.
Definition one_line (s : string) : Prop := split_lines s = [s].

Lemma split_lines_app s r : one_line s → split_lines (s +:+ newline +:+ r) = s :: split_lines r.
Proof.
  unfold one_line. induction s as [|c s IH]; [done|].
  change (String c s +:+ newline +:+ r) with (String c (s +:+ newline +:+ r)).
  cbn [split_lines]. destruct (Ascii.eqb c "010"); [done|].
  destruct (split_lines s) as [|l ls] eqn:E; [by destruct s; simpl in E; repeat case_match|].
  intros [= -> ->]. by rewrite IH.
Qed.
Lemma append_assoc (a b c : string) : (a +:+ b) +:+ c = a +:+ b +:+ c.
Proof. induction a as [|x a IH]; [done|]. exact (f_equal (String x) IH). Qed.
Lemma one_line_data s : one_line s → one_line ("data: " +:+ s).
Proof.
  unfold one_line. intros E. change ("data: " +:+ s) with (String "d" (String "a" (String "t" (String "a"
    (String ":" (String " " s)))))).
  cbn [split_lines]. rewrite E. reflexivity.
Qed.

(** Every streamed message arrives as one event, in order. *)
Lemma sse_roundtrip bodies :
  Forall one_line bodies → sse_events None (split_lines (sse_stream bodies)) = bodies.
Proof.
  induction 1 as [|b bodies Hb _ IH]; [done|].
  assert (sse_stream (b :: bodies) = ("data: " +:+ b) +:+ newline +:+ "" +:+ newline +:+ sse_stream bodies) as ->.
  { cbn [sse_stream]. unfold sse_Marshal, sse_Delimiter. by rewrite !append_assoc. }
  rewrite split_lines_app by by apply one_line_data. rewrite split_lines_app by done.
  cbn [sse_events]. unfold HasPrefix. rewrite TrimPrefix_app, strip_prefix_app. simpl. by rewrite IH.
Qed.

(** ** A gateway runtime for worked examples

    A body is a list of fields, a query is empty. *)
Definition demo_decode (ty body : string) : error + option message :=
  if string_eqb body "" then inr None
  else match bits_parse body ≫= decode : option (list (string * string)) with
       | Some fields => inr (Some (list_to_map (prod_map id PString <$> fields)))
       | None => inl malformed
       end.
Definition demo_body (fields : list (string * string)) : string := bits_print (encode fields).
Definition demo_gateway : GatewayRuntime.
Proof.
  refine {| Decode := demo_decode;
            PopulateQueryParameters := λ _ m query _, if string_eqb query "" then inr m else inl malformed;
            Enum := λ s values, assoc s values;
            AnnotateContext := λ rq _, inr (mkContext
              (Some (match hr_header rq !! "Authorization"%string with
                     | Some v => {["authorization"%string := [v]]} | None => ∅ end))
              (Some "bufconn"%string) None);
            loopback_peer := "bufconn";
            mux_find := λ regs rq,
              if plain rq then last_match regs (hr_method rq) (hr_path rq) else None |}.
  - intros ty m q filter m' f. destruct (string_eqb q ""); [|done]. by intros [= ->].
  - intros rq rpc ctx [= <-]. split_and!; [done..|]. intros v _ E. rewrite E. by eexists.
  - intros regs rq ->. done.
Defined.

Section Example.
#[local] Existing Instance demo_wired.
#[local] Existing Instance demo_uuid.
#[local] Existing Instance reference_redis.
#[local] Existing Instance demo_jwt.
#[local] Existing Instance demo_gateway.

Definition demo_authorization (u : uuid) : gmap string string :=
  match SignedString {["sub" := ClaimString (uuid_print u); "exp" := ClaimNumber 100]} "secret" with
  | inr tok => {["Authorization"%string := "Bearer " +:+ tok]}
  | inl _ => ∅
  end.
Definition demo_delete (u : uuid) (path : string) : HttpRequest :=
  mkHttpRequest "DELETE" 1 path "" (demo_authorization u) "" "10.0.0.1:4711".
Definition demo_member_path (member : string) : string :=
  "/v1/guilds/" +:+ uuid_print 2 +:+ "/members/" +:+ member.
Definition demo_rest : HttpRequest → GoM World unit :=
  rest_call NewGatewayMux "secret" (λ _, inr tt) (guild_rest None None "" "").

(** The owner removes member 3 of the guild. *)
Lemma rest_guild_authorized_witness :
  ∃ reg params ctx m A (r : GuildRPC A) userID u,
    mux_find NewGatewayMux (demo_delete 1 (demo_member_path (uuid_print 3))) = Some (reg, params) ∧
    AnnotateContext (demo_delete 1 (demo_member_path (uuid_print 3))) (rpc reg) = inr ctx ∧
    run_request (rg_request reg) (demo_delete 1 (demo_member_path (uuid_print 3))) params = inr m ∧
    inr tt = inr tt :> error + unit ∧ guild_rpc m (rpc reg) = Some (existT A r) ∧
    (∀ f v, params !! f = Some v → bound m f v) ∧
    carries ctx "secret" (clock 2) userID ∧ uuid_parse userID = Some u ∧ guild_access r guild_demo_db u.
Proof.
  apply (rest_guild_authorized None None "" "" "secret" (λ _, inr tt)
           (demo_delete 1 (demo_member_path (uuid_print 3))) guild_demo_world);
    [reflexivity|vm_compute; reflexivity|].
  intros E. apply (f_equal (λ d, Queries.member_of d 3 2)) in E. vm_compute in E. discriminate.
Defined.

(** Member 3 asks to leave. *)
Lemma LeaveGuild_has_no_url_witness :
  let rq := demo_delete 3 (demo_member_path "me") in
  (∃ e, (demo_rest rq guild_demo_world).1 = Err e) ∧ db (demo_rest rq guild_demo_world).2 = guild_demo_db.
Proof.
  apply (proj2 (LeaveGuild_has_no_url None None "" "" "secret" (λ _, inr tt)
    (demo_delete 3 (demo_member_path "me")) eq_refl) (uuid_print 2)); vm_compute; reflexivity.
Defined.

(** Sixty removals by others in this minute, and the owner cannot remove. *)
Definition demo_rest_spent : World :=
  with_redis {[rest_key "/guild.v1.GuildService/KickMember" :=
    mkRedisEntry (RString (FormatInt 60)) (Some 60000000%Z)]} guild_demo_world.
Lemma rest_callers_share_limits_witness :
  (demo_rest (demo_delete 1 (demo_member_path (uuid_print 3))) demo_rest_spent).1 =
  Err (Status ResourceExhausted "rate limit exceeded: %d requests per %s").
Proof.
  set (rq := demo_delete 1 (demo_member_path (uuid_print 3))).
  destruct (AnnotateContext rq "") as [|ctx] eqn:Hctx; [discriminate Hctx|].
  apply (rest_callers_share_limits "secret" (λ _, inr tt) (guild_rest None None "" "") rq
    KickMember_registration {["guild_id" := uuid_print 2; "user_id" := uuid_print 3]}%string ctx
    {["user_id" := PString (uuid_print 3); "guild_id" := PString (uuid_print 2)]}%string 60);
    try (vm_compute; reflexivity); [exact Hctx|exists 60000000%Z; split_and!; by vm_compute|].
  injection Hctx as <-. vm_compute. discriminate.
Defined.

(** A body that names channel 9 and a URL that names channel 7. *)
Definition demo_post : HttpRequest :=
  mkHttpRequest "POST" 1 "/v1/channels/7/messages" ""  ∅
    (demo_body [("channel_id", "9"); ("content", "hello")]%string) "10.0.0.1:4711".
Definition demo_send_route : registration :=
  handle "POST" [Lit "v1"; Lit "channels"; Var "channel_id"; Lit "messages"] ""
    "/message.v1.MessageService/SendMessage" request_MessageService_SendMessage_0.
Lemma path_variables_win_witness :
  ∃ m, run_request (rg_request demo_send_route) demo_post {["channel_id" := "7"]}%string = inr m ∧
    m !! "content"%string = Some (PString "hello") ∧ bound m "channel_id" "7".
Proof.
  destruct (run_request (rg_request demo_send_route) demo_post {["channel_id" := "7"]}%string)
    as [e|m] eqn:E; [vm_compute in E; discriminate|].
  exists m. split_and!; [reflexivity| |].
  - assert (Some m = Some {["channel_id" := PString "7"; "content" := PString "hello"]}%string) as [= ->]
      by (vm_compute in E; injection E as <-; vm_compute; reflexivity).
    reflexivity.
  - eapply (path_variables_win demo_send_route "/v1/channels/7/messages" demo_post); [|reflexivity|exact E|reflexivity].
    apply list_elem_of_In. vm_compute. tauto.
Defined.

Lemma rest_dispatch_witness :
  mux_find NewGatewayMux demo_post = Some (demo_send_route, {["channel_id" := "7"]}%string).
Proof.
  destruct (proj2 (proj2 rest_dispatch) demo_post demo_send_route {["channel_id" := "7"]}%string)
    as [E|(reg & params & _ & _ & Hsh)];
    [vm_compute; reflexivity|apply list_elem_of_In; vm_compute; tauto|reflexivity|vm_compute; reflexivity|exact E|].
  apply list_elem_of_In in Hsh. destruct Hsh as [E|[E|[E|[E|[]]]]]; discriminate E.
Defined.
End Example.
