(* ===== verification/Reach.v ===== *)
(** * Reach: from a message sent to the streams that show it

    The message service, NATS, the permission layer and the text stream
    together: a message that was sent reaches every member who has a stream
    open and may see the channel. *)
From S2P Require Import Prelude Realtime Store Scylla Queries Authz AuthzFacts Redis Middleware.
From S2P Require Import Guild GuildFacts User Presence PresenceFacts Voice VoiceFacts VoiceCalls.
From S2P Require Import Message MessageFacts Rpc Stream StreamFacts.

(** ** Streams that never stop by themselves *)
Lemma for_each_app {S A} (xs ys : list A) (body : A → GoM S unit) s :
  for_each (xs ++ ys) body s = (for_each xs body ≫= λ _, for_each ys body) s.
Proof.
  revert s. induction xs as [|x xs IH]; intros s; [done|]. cbn [for_each app].
  unfold mbind, gom_bind. destruct (body x s) as [[[]|e|] s']; [apply IH|done..].
Qed.

Section Runs.
Context {T : Type} `{Env} `{!RedisServer} `{!NatsServer}.
Context (unmarshal : string → option T) (subjects : list string) (handler : T → GoM (Conn T) unit).
(** What [handler] hands to the client, and that it returns. *)
Hypothesis handler_runs : ∀ v c, ∃ w' l,
  handler v c = (Ok tt, mkConn w' (subs c) (sent c ++ l)).
Hypothesis all_answer : fault_free.
Implicit Types c : Conn T.
Notation receive := (PubSub.receive unmarshal subjects true handler).

Lemma callback_runs data c : ∃ w' l,
  PubSub.callback unmarshal subjects true handler data c = (Ok tt, mkConn w' (subs c) (sent c ++ l)).
Proof.
  unfold PubSub.callback. destruct (unmarshal data) as [v|];
    [|exists (world c), []; rewrite app_nil_r; by destruct c].
  destruct (handler_runs v c) as (w' & l & E). rewrite (bind_run _ _ _ _ _ E).
  unfold ignore, lift. rewrite SET_run by done. by eexists _, l.
Qed.
Lemma receive_runs a c : ∃ w' l, receive a c = (Ok tt, mkConn w' (subs c) (sent c ++ l)).
Proof.
  destruct a as [sub subject data|f]; simpl; [destruct (_ && _); [apply callback_runs|]|].
  - exists (world c), []. rewrite app_nil_r. by destruct c.
  - eexists _, []. by rewrite app_nil_r.
Qed.
Lemma receives_runs acts c : ∃ w' l,
  for_each acts receive c = (Ok tt, mkConn w' (subs c) (sent c ++ l)).
Proof.
  revert c. induction acts as [|a acts IH]; intros c.
  { exists (world c), []. rewrite app_nil_r. by destruct c. }
  cbn [for_each]. destruct (receive_runs a c) as (w1 & l1 & E). rewrite (bind_run _ _ _ _ _ E).
  destruct (IH (mkConn w1 (subs c) (sent c ++ l1))) as (w2 & l2 & ->).
  exists w2, (l1 ++ l2). cbn [sent subs]. by rewrite app_assoc.
Qed.
Lemma open_runs w : Forall (λ s, subject_ok s = true) subjects → ∃ w' l,
  PubSub.open unmarshal subjects true handler (connect w) = (Ok tt, mkConn w' subjects l).
Proof.
  intros Hok.
  assert (∃ w1 l, PubSub.replay unmarshal subjects true handler (connect w) = (Ok tt, mkConn w1 [] l))
    as (w1 & l & E1).
  { unfold PubSub.replay, mbind, gom_bind, try, lift. rewrite command_run, GET_law by apply all_answer.
    destruct (live_value _ _ _) as [[data|h]|]; [|by eexists _, _..].
    simpl. destruct (unmarshal data) as [v|]; [|by eexists _, _].
    destruct (handler_runs v (with_world (bump w) (connect w))) as (w' & l & E).
    exists w', l. unfold with_world, connect in *. simpl in E. exact E. }
  destruct (subscribe_run subjects (mkConn w1 [] l) all_answer Hok) as [w2 E2].
  exists w2, l. unfold PubSub.open. rewrite (bind_run _ _ _ _ _ E1). unfold PubSub.subscribe_all.
  by rewrite E2.
Qed.

(** The stream is open after any actions, and shows the value an action
    brings if the handler shows it. *)
Lemma so_far_runs acts w : Forall (λ s, subject_ok s = true) subjects → ∃ w' l,
  so_far unmarshal subjects true handler acts (connect w) = (Ok tt, mkConn w' subjects l).
Proof.
  intros Hok. destruct (open_runs w Hok) as (w1 & l1 & E1). unfold so_far.
  rewrite (bind_run _ _ _ _ _ E1). destruct (receives_runs acts (mkConn w1 subjects l1)) as (w2 & l2 & ->).
  by eexists _, _.
Qed.
Lemma so_far_app acts1 acts2 c :
  so_far unmarshal subjects true handler (acts1 ++ acts2) c =
  (so_far unmarshal subjects true handler acts1 ≫= λ _, for_each acts2 receive) c.
Proof.
  unfold so_far, mbind, gom_bind. destruct (PubSub.open _ _ _ _ c) as [[[]|e|] c1]; [|done..].
  apply for_each_app.
Qed.

(** A change elsewhere, then a message for a subscription of the stream, then
    anything. *)
Lemma delivered_shown p subject data v f c acts w' :
  handler v (with_world (f (world c)) c) = (Ok tt, mkConn w' (subs c) (sent c ++ [v])) →
  unmarshal data = Some v → p ∈ subs c → subject_matches p subject = true →
  v ∈ sent (for_each (Elsewhere f :: Deliver p subject data :: acts) receive c).2.
Proof.
  intros Hv Hd Hp Hm. cbn [for_each].
  assert (receive (Elsewhere f) c = (Ok tt, with_world (f (world c)) c)) as E by done.
  rewrite (bind_run _ _ _ _ _ E). clear E.
  assert (∃ w1, receive (Deliver p subject data) (with_world (f (world c)) c) =
    (Ok tt, mkConn w1 (subs c) (sent c ++ [v]))) as [w1 E].
  { simpl. replace (existsb (string_eqb p) (subs c)) with true; cycle 1.
    { symmetry. apply existsb_exists. exists p. split; [by apply list_elem_of_In|apply string_eqb_refl]. }
    rewrite Hm. simpl. unfold PubSub.callback. rewrite Hd, (bind_run _ _ _ _ _ Hv).
    unfold ignore, lift. rewrite SET_run by done. by eexists. }
  rewrite (bind_run _ _ _ _ _ E).
  destruct (receives_runs acts (mkConn w1 (subs c) (sent c ++ [v]))) as (w2 & l & ->).
  simpl. apply elem_of_app. left. apply elem_of_app. right. by left.
Qed.
End Runs.

Section Reach.
Context `{Env} `{!UuidText} `{!RedisServer} `{!NatsServer} `{!StreamJson} `{!CqlTypes}.
Context `{!VoiceJson} `{!LiveKit}.
Context (rdb roomClient : bool) (minioBaseURL : string).
Context (lister : option DMChannelLister) (media : option MediaResolver).

Notation wired := (wireDependencies rdb true roomClient minioBaseURL).
Notation shows u := (λ data, StreamHandler.send_if_seen wired (uuid_print u) (tce_channel_id data) data).

(** The channel check answers whatever it is asked. *)
Lemma canSee_answers userID ch w : ∃ b w',
  StreamHandler.canSeeChannel wired userID ch w = (Ok b, w').
Proof.
  assert (answers (λ _, False) (StreamHandler.canSeeChannel wired userID ch)) as Ha.
  { unfold StreamHandler.canSeeChannel. simpl. destruct (string_eqb ch ""); answers_auto. }
  specialize (Ha w). destruct (StreamHandler.canSeeChannel wired userID ch w) as [[b|e|] w'];
    [by eexists _, _|done..].
Qed.
Lemma shows_runs u v (c : Conn TextChannelEvent) : fault_free → ∃ w' l,
  shows u v c = (Ok tt, mkConn w' (subs c) (sent c ++ l)).
Proof.
  intros Hff. destruct (canSee_answers (uuid_print u) (tce_channel_id v) (world c)) as (b & w1 & E).
  unfold StreamHandler.send_if_seen. rewrite (bind_run _ _ _ _ _ (lift_run _ c _ _ E)).
  destruct b; simpl when.
  - rewrite send_run by done. by eexists _, [v].
  - exists w1, []. by rewrite app_nil_r.
Qed.
Lemma shows_viewer u ch v (c : Conn TextChannelEvent) :
  authz_wired = true → fault_free → sound_world (world c) → tce_channel_id v = uuid_print ch →
  ChannelAuthorized (world c).(db) u ch "VIEW_CHANNELS" → ∃ w',
  shows u v c = (Ok tt, mkConn w' (subs c) (sent c ++ [v])).
Proof.
  intros Hw Hff [Ho Hco] Hch Ha.
  destruct (checkChannel_run u ch "can_view_channels" "VIEW_CHANNELS" (world c) Hw Hff eq_refl Ho Hco)
    as (b & w1 & E & _ & Hb).
  assert (StreamHandler.canSeeChannel wired (uuid_print u) (tce_channel_id v) (world c) = (Ok true, w1)) as E'.
  { unfold StreamHandler.canSeeChannel. simpl. rewrite Hch. unfold string_eqb.
    rewrite bool_decide_eq_false_2 by apply uuid_print_nonempty.
    unfold Authz.CanViewChannel. rewrite E. by rewrite (proj2 Hb Ha). }
  unfold StreamHandler.send_if_seen. rewrite (bind_run _ _ _ _ _ (lift_run _ c _ _ E')).
  simpl when. rewrite send_run by done. by eexists.
Qed.

(** A message of a guild's channel reaches that guild's subscription. *)
Lemma own_messages_routed g ch : is_token g → dotless ch = true →
  subject_matches (GuildAllMessages g) (GuildChannelMessage g ch) = true.
Proof.
  intros [Hg _] Hch. rewrite subject_matches_law. unfold GuildAllMessages, GuildChannelMessage.
  change (".channel.message." +:+ ch) with (String "." ("channel.message." +:+ ch)).
  rewrite (tokens_guild g "channel.message.*") by done.
  rewrite (tokens_guild g ("channel.message." +:+ ch)) by done.
  change ("channel.message." +:+ ch) with ("channel" +:+ String "." ("message" +:+ String "." ch)).
  change "channel.message.*"%string with ("channel" +:+ String "." ("message" +:+ String "." "*")).
  rewrite !tokens_app by done. rewrite (tokens_dotless ch) by done.
  change (tokens "*") with ["*"%string].
  assert (∀ s, string_eqb s "*" || string_eqb s s = true) as Hs
    by (intros s; by rewrite string_eqb_refl, orb_true_r).
  rewrite !tokens_match_cons, !Hs. reflexivity.
Qed.

(** C9: a message that is sent is seen.  Suppose that every statement is
    answered, and that when the message is published the override rows are
    well formed and the channel cache agrees with the tables.  Whatever a
    member of a guild's stream has been through since it was opened, when
    somebody's message to a channel of the guild succeeds and the message NATS then brings decodes to the
    event that was published, the member who may view the channel is shown it,
    with the identifier and the content of the stored message; and nothing
    that happens afterwards takes it back. *)
Theorem sent_message_reaches_viewers ctx ctx_err u g ch acts1 sender content ty replyToID attachmentIDs
    forward mentionIDs msg atts w w2 :
  authz_wired = true → fault_free → guild_wf w.(db) →
  (∀ v, is_token (uuid_print v)) → (∀ v, subject_ok (GuildAllMessages (uuid_print v)) = true) →
  UserIDFromContext ctx = uuid_print u → in_guild w.(db) u g →
  let send := MessageService.SendMessage true lister media sender (uuid_print ch) (uuid_print g)
                content ty replyToID attachmentIDs forward mentionIDs in
  let w1 := world (text_so_far rdb true roomClient minioBaseURL ctx acts1 (connect w)).2 in
  send w1 = (Ok (msg, atts), w2) →
  sound_world w2 → ChannelAuthorized w2.(db) u ch "VIEW_CHANNELS" →
  ∃ e, bus w2 = bus w1 ++ [(GuildChannelMessage (uuid_print g) (uuid_print ch), EvText e)] ∧
    tce_type e = CHAT_EVENT_CREATE ∧ Some (tce_content e) = m_content msg ∧
    Some (tce_message_id e) = uuid_print <$> m_id msg ∧
    ∀ data acts2, Unmarshal_TextChannel data = Some e →
      e ∈ sent (StreamHandler.StreamTextChannels wired ctx ctx_err
        (acts1 ++ Elsewhere (λ w, (send w).2) ::
         Deliver (GuildAllMessages (uuid_print g))
           (GuildChannelMessage (uuid_print g) (uuid_print ch)) data :: acts2) (connect w)).2.
Proof.
  intros Hw Hff Hgw Htok Hok Hu Hin send w1 Hsend Hso Hview.
  destruct (SendMessage_sent _ _ _ _ _ _ _ _ _ _ _ _ _ _ _ _ Hsend)
    as (_ & _ & ch' & s & create & Hch & _ & (_ & _ & _ & _ & _ & _ & l & e & Hbus & Hdel & Ht & Hce & Hct & _ & Hid)
        & -> & _).
  unfold delivered, string_eqb in Hdel. rewrite bool_decide_eq_false_2 in Hdel by apply uuid_print_nonempty.
  exists e. subst l. split_and!; [done|done|by rewrite Hct|by rewrite Hid|].
  intros data acts2 Hdata.
  pose proof (lifted_guilds (T := TextChannelEvent) rdb true roomClient minioBaseURL ctx u w Hff Hu) as Hcg.
  unfold StreamHandler.StreamTextChannels. rewrite (bind_run _ _ _ _ _ Hcg), MultiSubscribe_sent.
  subst w1. unfold text_so_far in *. rewrite (bind_run _ _ _ _ _ Hcg) in *.
  set (subjects := map GuildAllMessages _) in *.
  assert (∀ v c, ∃ w' l, shows u v c = (Ok tt, mkConn w' (subs c) (sent c ++ l))) as Hruns
    by (intros; by apply shows_runs).
  assert (Forall (λ s, subject_ok s = true) subjects) as Hsub.
  { apply Forall_forall. intros x (y & -> & (v & -> & _)%list_elem_of_fmap)%list_elem_of_fmap. apply Hok. }
  destruct (so_far_runs Unmarshal_TextChannel subjects _ Hruns Hff acts1 (bump w) Hsub) as (w1 & l & E1).
  rewrite so_far_app. rewrite E1 in Hsend. simpl in Hsend.
  destruct (shows_viewer u ch e (mkConn w2 subjects l) Hw Hff Hso Hce Hview) as [w3 E3].
  rewrite (bind_run _ _ _ _ _ E1). apply (delivered_shown _ _ _ Hruns Hff _ _ _ e _ _ _ w3); [|done|..].
  - unfold with_world. simpl. by rewrite Hsend.
  - simpl. apply list_elem_of_fmap. eexists. split; [reflexivity|]. apply list_elem_of_fmap.
    exists g. split; [done|]. by apply his_guilds_in.
  - by apply own_messages_routed; apply Htok.
Qed.
End Reach.

(** ** Worked example: the owner writes into channel 9 and reads along elsewhere *)
Section Example.
#[local] Existing Instance demo_wired.
#[local] Existing Instance demo_uuid.
#[local] Existing Instance demo_cql.
#[local] Existing Instance reference_redis.
#[local] Existing Instance demo_json.
#[local] Existing Instance demo_livekit.
#[local] Existing Instance demo_nats.

Definition reach_send : GoM World (Messages * list MessageAttachments) :=
  MessageService.SendMessage true None None (uuid_print 1) (uuid_print 9) (uuid_print 2) "hello" 1 "" []
    None [].
Definition reach_opened (j : StreamJson) : World :=
  world (text_so_far true true true "" (demo_ctx 1) [] (connect guild_demo_world)).2.
Definition reach_event : option TextChannelEvent :=
  match last (bus (reach_send (reach_opened demo_stream_json)).2) with
  | Some (_, EvText e) => Some e
  | _ => None
  end.
(** The one text that stands for that event. *)
Definition reach_json : StreamJson := {|
  Unmarshal_DmChat _ := None; Unmarshal_DmChannel _ := None; Unmarshal_DmCall _ := None;
  Unmarshal_TextChannel s := if string_eqb s "hello" then reach_event else None;
  Unmarshal_VoiceChat _ := None; Unmarshal_Guild _ := None;
  Unmarshal_VoiceState _ := None; Unmarshal_Typing _ := None; Unmarshal_FriendActivity _ := None
|}.
#[local] Existing Instance reach_json.

Lemma reach_sound : sound_world (reach_send (reach_opened reach_json)).2.
Proof.
  split; [exact demo_overrides_wf|].
  intros text e He. assert (chanGuildCache (reach_send (reach_opened reach_json)).2 =
    {[uuid_print 9 := default e (chanGuildCache (reach_send (reach_opened reach_json)).2 !! uuid_print 9)]}) as E
    by (vm_compute; reflexivity).
  rewrite E in He. apply lookup_singleton_Some in He as [<- <-]. intros _.
  exists 9%positive. eexists. split; [reflexivity|].
  split; [vm_compute; reflexivity|]. split; vm_compute; reflexivity.
Qed.

Lemma sent_message_reaches_viewers_witness :
  ∃ e, reach_event = Some e ∧ tce_content e = "hello"%string ∧
    e ∈ sent (StreamHandler.StreamTextChannels (wireDependencies true true true "") (demo_ctx 1) demo_done
      [Elsewhere (λ w, (reach_send w).2);
       Deliver (GuildAllMessages (uuid_print 2)) (GuildChannelMessage (uuid_print 2) (uuid_print 9)) "hello"]
      (connect guild_demo_world)).2.
Proof.
  assert (is_Ok (reach_send (reach_opened reach_json)).1 = true) as Hok by (vm_compute; reflexivity).
  destruct (run_Ok _ _ Hok) as [[msg atts] E].
  pose proof (@sent_message_reaches_viewers demo_wired demo_uuid reference_redis demo_nats reach_json
    demo_cql demo_json demo_livekit true true "" None None (demo_ctx 1) demo_done 1 2 9 []
    (uuid_print 1) "hello" 1 "" [] None [] msg atts guild_demo_world
    (reach_send (reach_opened reach_json)).2) as Hr.
  destruct Hr as (e & Hbus & _ & Hct & _ & Hshown);
    [reflexivity|exact demo_fault_free|exact guild_demo_wf|exact demo_tokens| |reflexivity| |exact E
    |exact reach_sound| |].
  - intros v. destruct (demo_tokens v) as [Hd _]. unfold GuildAllMessages. cbn [subject_ok demo_nats].
    change ("guild." +:+ uuid_print v +:+ ".channel.message.*") with
      ("guild." +:+ uuid_print v +:+ String "." "channel.message.*").
    rewrite (tokens_guild (uuid_print v) "channel.message.*" Hd). simpl. by destruct v.
  - split; [vm_compute; reflexivity|]. eexists. split; vm_compute; reflexivity.
  - eapply (canSee_sound true true true ""); [reflexivity|exact demo_fault_free|exact reach_sound|].
    apply run_fst. vm_compute. reflexivity.
  - assert (reach_event = Some e) as He.
    { unfold reach_event. change (reach_opened demo_stream_json) with (reach_opened reach_json).
      unfold reach_opened, reach_send in *. by rewrite Hbus, last_snoc. }
    exists e. split; [exact He|]. split.
    + assert (m_content msg = Some "hello"%string) as Hm; [|congruence].
      apply (f_equal fst) in E. vm_compute in E. injection E as <- _. reflexivity.
    + apply (Hshown "hello"%string []). simpl. exact He.
Defined.
End Example.
