(* ===== verification/Threads.v ===== *)
(** * Threads: requests that interleave

    The operations of the guild service as the server runs them: a request is
    a goroutine, and between two of its statements any other request may run.
    A [thread] is a program cut at its statements; the threads of
    [src/internal/features/guild/service.go] are written statement by
    statement, and [ThreadsFacts] shows that a thread that runs alone is the
    definition of [Guild].  A helper of several statements
    ([assignEveryoneRole], [removeEveryoneRole], [buildJoinResult]) is left in
    one piece: nothing proved depends on where it would be cut. *)
From S2P Require Import Prelude Realtime Store Queries Authz Guild.

(** ** Programs in pieces *)
Inductive thread (A : Type) :=
  | Done (o : outcome A)
  | Await (m : World → thread A * World).
Arguments Done {_} _. Arguments Await {_} _.

Fixpoint run {A} (t : thread A) (w : World) : outcome A * World :=
  match t with
  | Done o => (o, w)
  | Await m => let (t', w') := m w in run t' w'
  end.

(** Induction: what holds of the rest of a program after every first piece. *)
Definition thread_induction {A} (P : thread A → Prop) (done : ∀ o, P (Done o))
    (await : ∀ m, (∀ w, P (m w).1) → P (Await m)) : ∀ t, P t :=
  fix go t :=
    match t with
    | Done o => done o
    | Await m => await m (λ w, match m w as r return P r.1 with (t', _) => go t' end)
    end.

(** One statement, and what follows it. *)
Definition after {A B} (m : GoM World B) (k : B → thread A) : thread A :=
  Await (λ w,
    match m w with
    | (Ok b, w') => (k b, w')
    | (Err e, w') => (Done (Err e), w')
    | (Panic, w') => (Done Panic, w')
    end).
Definition finish {B} (m : GoM World B) : thread unit := after m (λ _, Done (Ok tt)).

(** The requests in progress and the world they share: any one of them goes
    on by one piece. *)
Definition pool : Type := list (thread unit) * World.
Inductive pool_step : pool → pool → Prop :=
  | PoolStep before m after t w w' : m w = (t, w') →
      pool_step (before ++ Await m :: after, w) (before ++ t :: after, w').

(** ** The requests of the guild service *)
Section Requests.
Context `{Env} `{!UuidText}.
Import GuildService.

(** [JoinGuild] from its first write on: the membership, the count of the
    invite, the rest. *)
Definition join_rest (userID : uuid) (inviteCode : string) (invite : Invite) : thread unit :=
  after (ignore (Queries.RecordInviteUse inviteCode (i_guild_id invite) userID
                   (i_creator_id invite))) (λ _,
  after (assignEveryoneRole (i_guild_id invite) userID) (λ _,
  after (publishGuildEvent (i_guild_id invite) GUILD_EVENT_MEMBER_ADD
           [("user_id", uuid_print userID)]) (λ _,
  finish (buildJoinResult (i_guild_id invite))))).
Definition join_count (userID : uuid) (inviteCode : string) (invite : Invite) : thread unit :=
  after (ignore (Queries.IncrementInviteUses inviteCode)) (λ _, join_rest userID inviteCode invite).
Definition join_commit (userID : uuid) (inviteCode : string) (invite : Invite) : thread unit :=
  after (Queries.AddGuildMember (i_guild_id invite) userID "" (Some inviteCode)
           (Some (i_creator_id invite)) ?> ErrorfW "failed to add guild member: %w") (λ _,
  join_count userID inviteCode invite).

Definition JoinGuild_thread (userID : uuid) (inviteCode : string) : thread unit :=
  after (Queries.GetInvite inviteCode ?> (λ _, ErrInviteNotFound)) (λ invite,
  after (invite_expired invite) (λ expired,
  after (_ ← ensure (negb expired) ErrInviteExpired;
         _ ← ensure (negb (invite_exhausted invite)) ErrInviteMaxUses;
         try (Queries.GetBan (i_guild_id invite) userID)) (λ ban,
  after (_ ← ensure (match ban with inr _ => false | inl _ => true end) ErrUserBanned;
         try (Queries.GetGuildMember (i_guild_id invite) userID)) (λ member,
  match member with
  | inr _ => finish (buildJoinResult (i_guild_id invite))
  | inl _ => join_commit userID inviteCode invite
  end)))).

Definition LeaveGuild_thread (userID guildID : uuid) : thread unit :=
  after (Queries.GetGuildByID guildID ?> guild_not_found) (λ guild,
  after (_ ← ensure (negb (uuid_eqb (g_owner_id guild) userID)) ErrOwnerCannotLeave;
         Queries.GetGuildMember guildID userID ?> (λ _, ErrNotGuildMember)) (λ _,
  after (Queries.RemoveGuildMember guildID userID) (λ _,
  after (removeEveryoneRole guildID userID) (λ _,
  finish (publishGuildEvent guildID GUILD_EVENT_MEMBER_REMOVE [("user_id", uuid_print userID)]))))).

Definition KickMember_thread (callerID guildID targetID : uuid) : thread unit :=
  after (Authz.CanKick (uuid_print callerID) (uuid_print guildID)) (λ ok,
  after (_ ← ensure ok ErrInsufficientPermissions;
         Authz.CanActOn (uuid_print callerID) (uuid_print targetID) (uuid_print guildID)) (λ outranks,
  after (_ ← ensure outranks ErrInsufficientPermissions;
         Queries.GetGuildByID guildID ?> guild_not_found) (λ guild,
  after (_ ← ensure (negb (uuid_eqb (g_owner_id guild) targetID)) ErrCannotKickOwner;
         Queries.GetGuildMember guildID targetID ?> (λ _, ErrMemberNotFound)) (λ _,
  after (Queries.RemoveGuildMember guildID targetID) (λ _,
  after (removeEveryoneRole guildID targetID) (λ _,
  finish (publishGuildEvent guildID GUILD_EVENT_MEMBER_REMOVE [("user_id", uuid_print targetID)]))))))).

Definition BanMember_thread (callerID guildID targetID : uuid) (reason : string) : thread unit :=
  after (Authz.CanBan (uuid_print callerID) (uuid_print guildID)) (λ ok,
  after (_ ← ensure ok ErrInsufficientPermissions;
         Authz.CanActOn (uuid_print callerID) (uuid_print targetID) (uuid_print guildID)) (λ outranks,
  after (_ ← ensure outranks ErrInsufficientPermissions;
         Queries.GetGuildByID guildID ?> guild_not_found) (λ guild,
  after (_ ← ensure (negb (uuid_eqb (g_owner_id guild) targetID)) ErrCannotBanOwner;
         ignore (Queries.RemoveGuildMember guildID targetID)) (λ _,
  after (Queries.CreateBan guildID targetID reason ?> ErrorfW "failed to create ban: %w") (λ _,
  after (removeEveryoneRole guildID targetID) (λ _,
  finish (publishGuildEvent guildID GUILD_EVENT_MEMBER_BAN
            [("user_id", uuid_print targetID); ("reason", reason)]))))))).

Definition TransferOwnership_thread (callerID guildID newOwnerID : uuid) : thread unit :=
  after (Queries.GetGuildByID guildID ?> guild_not_found) (λ guild,
  after (_ ← ensure (uuid_eqb (g_owner_id guild) callerID) ErrNotGuildOwner;
         Queries.GetGuildMember guildID newOwnerID ?> (λ _, ErrMemberNotFound)) (λ _,
  after (Queries.TransferGuildOwnership guildID newOwnerID
           ?> ErrorfW "failed to transfer ownership: %w") (λ _,
  finish (publishGuildEvent guildID GUILD_EVENT_UPDATE
            [("transferred_to", uuid_print newOwnerID)])))).
End Requests.
