(* ===== verification/ThreadsFacts.v ===== *)
(** * ThreadsFacts: what survives interleaving, and what does not

    A thread alone is the operation it was cut from.  Whatever the
    interleaving of joins, leaves, kicks and bans, every guild keeps its owner
    among its members; a ban, an invite's limit and a transfer of ownership do
    not hold against a request that has passed its checks already. *)
From S2P Require Import Prelude Realtime Store Queries Authz Wp AuthzFacts Guild GuildFacts Threads.

(** ** Threads *)
Lemma run_after {A B} (m : GoM World B) (k : B → thread A) w :
  run (after m k) w = (m ≫= λ b, run (k b)) w.
Proof. unfold after, mbind, gom_bind. simpl. by destruct (m w) as [[b|e|] w']. Qed.
Lemma bind_ext {A B} (m : GoM World A) (k k' : A → GoM World B) w :
  (∀ a w, k a w = k' a w) → (m ≫= k) w = (m ≫= k') w.
Proof. intros E. unfold mbind, gom_bind. by destruct (m w) as [[a|e|] w']. Qed.
Lemma bind_bind {A B C} (m : GoM World A) (f : A → GoM World B) (g : B → GoM World C) w :
  ((m ≫= f) ≫= g) w = (m ≫= λ a, f a ≫= g) w.
Proof. unfold mbind, gom_bind. by destruct (m w) as [[a|e|] w']. Qed.
Lemma run_finish {B} (m : GoM World B) w : run (finish m) w = (m ≫= λ _, mret tt) w.
Proof. unfold finish. by rewrite run_after. Qed.

(** The cuts of a thread are where its statements meet. *)
Ltac cut_step :=
  first [ rewrite run_after | rewrite run_finish | rewrite bind_bind
        | apply bind_ext; intros ? ? | reflexivity
        | match goal with |- run (match ?x with _ => _ end) _ = _ => destruct x end ].

Section Alone.
Context `{Env} `{!UuidText}.

Lemma JoinGuild_alone u code w :
  run (JoinGuild_thread u code) w = (_ ← GuildService.JoinGuild u code; mret tt) w.
Proof.
  unfold JoinGuild_thread, GuildService.JoinGuild, join_commit, join_count, join_rest. repeat cut_step.
Qed.
Lemma LeaveGuild_alone u g w : run (LeaveGuild_thread u g) w = (_ ← GuildService.LeaveGuild u g; mret tt) w.
Proof. unfold LeaveGuild_thread, GuildService.LeaveGuild. repeat cut_step. Qed.
Lemma KickMember_alone c g u w :
  run (KickMember_thread c g u) w = (_ ← GuildService.KickMember c g u; mret tt) w.
Proof. unfold KickMember_thread, GuildService.KickMember. repeat cut_step. Qed.
Lemma BanMember_alone c g u r w :
  run (BanMember_thread c g u r) w = (_ ← GuildService.BanMember c g u r; mret tt) w.
Proof. unfold BanMember_thread, GuildService.BanMember. repeat cut_step. Qed.
Lemma TransferOwnership_alone c g u w :
  run (TransferOwnership_thread c g u) w = (_ ← GuildService.TransferOwnership c g u; mret tt) w.
Proof. unfold TransferOwnership_thread, GuildService.TransferOwnership. repeat cut_step. Qed.
End Alone.

(** ** Pools *)
Section Pools.
Implicit Types (t : thread unit) (w : World).

Lemma pool_cons t ts ts' w w' : rtc pool_step (ts, w) (ts', w') → rtc pool_step (t :: ts, w) (t :: ts', w').
Proof.
  intros Hs. remember (ts, w) as p eqn:Ep. remember (ts', w') as p' eqn:Ep'.
  revert ts w Ep. induction Hs as [p|p1 p2 p3 Hs _ IH]; intros ts w ->; [by simplify_eq; apply rtc_refl|].
  inversion Hs as [before m aft t' w1 w2 E]; subst.
  eapply rtc_l; [|by apply IH]. exact (PoolStep (t :: before) m aft t' w w2 E).
Qed.
Lemma pool_first t t' ts w w' : rtc pool_step ([t], w) ([t'], w') → rtc pool_step (t :: ts, w) (t' :: ts, w').
Proof.
  intros Hs. remember ([t], w) as p eqn:Ep. remember ([t'], w') as p' eqn:Ep'.
  revert t w Ep. induction Hs as [p|p1 p2 p3 Hs _ IH]; intros t w ->; [by simplify_eq; apply rtc_refl|].
  inversion Hs as [before m aft t1 w1 w2 E Eb]; subst.
  destruct before as [|? [|]]; simplify_eq/=.
  eapply rtc_l; [|by apply IH]. exact (PoolStep [] m ts t1 w w2 E).
Qed.
(** One piece of the first request. *)
Lemma pool_after {B} (m : GoM World B) k b ts w w' :
  m w = (Ok b, w') → pool_step (after m k :: ts, w) (k b :: ts, w').
Proof. intros E. apply (PoolStep [] _ ts). by rewrite E. Qed.

(** A request may run to its end at once: sequential runs are among the
    interleavings. *)
Lemma pool_alone t w : rtc pool_step ([t], w) ([Done (run t w).1], (run t w).2).
Proof.
  revert w. induction t as [o|m IH] using thread_induction; intros w; [apply rtc_refl|].
  specialize (IH w). simpl. destruct (m w) as [t' w'] eqn:E.
  eapply rtc_l; [exact (PoolStep [] m [] t' w w' E)|]. apply IH.
Qed.

(** *** Facts that every piece of every request keeps *)
Fixpoint secure {A} (I : Db → Prop) (t : thread A) : Prop :=
  match t with
  | Done _ => True
  | Await m => ∀ w, I (db w) → match m w with (t', w') => I (db w') ∧ secure I t' end
  end.

Lemma secure_after {A B} (I : Db → Prop) (m : GoM World B) (k : B → thread A) :
  (∀ d, I d → wpd m (λ o d', I d' ∧ match o with Ok b => secure I (k b) | _ => True end) d) →
  secure I (after m k).
Proof.
  intros Hm w Hw. destruct (Hm (db w) Hw w eq_refl) as [Hi Hk].
  by destruct (m w) as [[b|e|] w'].
Qed.
Lemma secure_finish {B} (I : Db → Prop) (m : GoM World B) :
  (∀ d, I d → wpd m (λ _ d', I d') d) → secure I (finish m).
Proof.
  intros Hm. apply secure_after. intros d Hd. eapply wpd_mono; [by apply Hm|].
  intros o d' Hd'. by destruct o.
Qed.

Lemma secure_same {A B C} (f : Db → C) v (m : GoM World B) (k : B → thread A) :
  steps (on_db (same f)) m → (∀ b, secure (λ d, f d = v) (k b)) → secure (λ d, f d = v) (after m k).
Proof.
  intros Hm Hk. apply secure_after. intros d Hd. apply (wpd_steps (same f)); [done|].
  intros o d' E. split; [by rewrite E|]. by destruct o.
Qed.
Lemma secure_run {A} I (t : thread A) w : secure I t → I (db w) → I (db (run t w).2).
Proof.
  revert w. induction t as [o|m IH] using thread_induction; intros w; [done|].
  intros Ht Hi. specialize (Ht w Hi). specialize (IH w). simpl. destruct (m w) as [t' w'].
  destruct Ht. by apply IH.
Qed.

Lemma pool_secure I ts w ts' w' :
  rtc pool_step (ts, w) (ts', w') → Forall (secure I) ts → I (db w) → I (db w').
Proof.
  intros Hs. remember (ts, w) as p eqn:Ep. remember (ts', w') as p' eqn:Ep'.
  revert ts w Ep. induction Hs as [p|p1 p2 p3 Hs _ IH]; intros ts w ->; [by simplify_eq|].
  inversion Hs as [before m aft t w1 w2 E]; subst. intros Hts Hi.
  apply Forall_app in Hts as [Hb [Hm Ha]%Forall_cons].
  specialize (Hm w Hi). rewrite E in Hm. destruct Hm as [Hi' Ht].
  eapply IH; [done|reflexivity| |done]. apply Forall_app. split; [done|]. by constructor.
Qed.
End Pools.

(** ** Ownership under interleaving *)
Inductive member_request :=
  | ReqJoin (userID : uuid) (inviteCode : string)
  | ReqLeave (userID guildID : uuid)
  | ReqKick (callerID guildID targetID : uuid)
  | ReqBan (callerID guildID targetID : uuid) (reason : string).

Section Interleaved.
Context `{Env} `{!UuidText}.

Definition request_thread (r : member_request) : thread unit :=
  match r with
  | ReqJoin u code => JoinGuild_thread u code
  | ReqLeave u g => LeaveGuild_thread u g
  | ReqKick c g u => KickMember_thread c g u
  | ReqBan c g u reason => BanMember_thread c g u reason
  end.

(** The guilds are [gs], and every live one has its owner among its members. *)
Definition owned (gs : gmap uuid Guild) (d : Db) : Prop :=
  guilds d = gs ∧ ∀ g r, gs !! g = Some r → g_deleted r = false →
    Queries.member_of d (g_owner_id r) g = true.

Lemma owned_members gs d d' :
  guilds d' = guilds d → guild_members d' = guild_members d → owned gs d → owned gs d'.
Proof. intros Hg Hm [Hgs Ho]. split; [congruence|]. unfold Queries.member_of in *. by rewrite Hm. Qed.
Lemma owned_core gs d d' : guild_core d' = guild_core d → owned gs d → owned gs d'.
Proof. intros [= Hg Hm _ _]. by apply owned_members. Qed.
Lemma owned_set gs d d' g u b : member_set d d' g u b →
  (b = false → ∀ r, gs !! g = Some r → g_deleted r = false → g_owner_id r ≠ u) →
  owned gs d → owned gs d'.
Proof.
  intros (Hg & _ & _ & Hm) Hb [Hgs Ho]. split; [congruence|]. intros g' r Hr Hl. rewrite Hm.
  case_bool_decide as E; [|by apply Ho]. destruct E as [-> E]. destruct b; [done|].
  by destruct (Hb eq_refl r Hr Hl).
Qed.

(** A piece that keeps the tables of the guilds, then a secure rest. *)
Lemma secure_frame {A B} gs (m : GoM World B) (k : B → thread A) :
  steps (on_db (same guild_core)) m → (∀ b, secure (owned gs) (k b)) → secure (owned gs) (after m k).
Proof.
  intros Hm Hk. apply secure_after. intros d Hd. apply (wpd_steps (same guild_core)); [done|].
  intros o d' E. split; [by eapply owned_core|]. by destruct o.
Qed.
Lemma secure_frame_last {B} gs (m : GoM World B) :
  steps (on_db (same guild_core)) m → secure (owned gs) (finish m).
Proof. intros Hm. by apply secure_frame. Qed.

Lemma frame_buildJoinResult g : steps (on_db (same guild_core)) (GuildService.buildJoinResult g).
Proof. unfold GuildService.buildJoinResult. steps_auto. Qed.
Lemma frame_invite_expired i : steps (on_db (same guild_core)) (GuildService.invite_expired i).
Proof. unfold GuildService.invite_expired. steps_auto. Qed.
Lemma frame_CanActOn a b g : steps (on_db (same guild_core)) (Authz.CanActOn a b g).
Proof. unfold Authz.CanActOn, Authz.with_uuid, Authz.query_or. steps_auto. Qed.
Lemma frame_CanKick a g : steps (on_db (same guild_core)) (Authz.CanKick a g).
Proof. apply frame_Check. Qed.
Lemma frame_CanBan a g : steps (on_db (same guild_core)) (Authz.CanBan a g).
Proof. apply frame_Check. Qed.
#[local] Hint Resolve frame_buildJoinResult frame_invite_expired frame_CanActOn frame_CanKick frame_CanBan
  frame_assignEveryoneRole frame_removeEveryoneRole frame_RecordInviteUse : steps.

(** Removing somebody who is not the owner of the guild. *)
Lemma owned_removed gs d g u t : (∀ r, gs !! g = Some r → g_deleted r = false → g_owner_id r ≠ u) →
  owned gs d →
  owned gs (with_guild_members (alter (guild_member_deleted t) (g, u) d.(guild_members)) d).
Proof. intros Ho. apply (owned_set gs d _ g u false); [apply member_set_removed|done]. Qed.
Lemma not_owner_of gs d g u row :
  owned gs d → live g_deleted (d.(guilds) !! g) = Some row → negb (uuid_eqb (g_owner_id row) u) = true →
  ∀ r, gs !! g = Some r → g_deleted r = false → g_owner_id r ≠ u.
Proof.
  intros [<- _] Hg Hn r Hr _. destruct (not_owner _ _ _ _ Hg Hn) as [Hg' Ho]. by simplify_eq.
Qed.

Ltac secure_step :=
  first
    [ exact I
    | match goal with |- ∀ _, _ => intro end
    | apply secure_frame_last; [solve [steps_auto]]
    | apply secure_frame; [solve [steps_auto]|]
    | match goal with |- secure _ (match ?x with _ => _ end) => destruct x end ].
Ltac secure_auto := repeat secure_step.

Lemma secure_join_count gs u code i : secure (owned gs) (join_count u code i).
Proof.
  assert (secure (owned gs) (join_rest u code i)) as Hrest by (unfold join_rest; secure_auto).
  apply secure_after. intros d Hd. apply wpd_ignore. unfold Queries.IncrementInviteUses.
  wpd_auto; [|by split]. by destruct (invites d !! code); [destruct (_ <? _)%Z|].
Qed.
Lemma secure_join_commit gs u code i : secure (owned gs) (join_commit u code i).
Proof.
  apply secure_after. intros d Hd. apply wpd_on_err. unfold Queries.AddGuildMember.
  apply wpd_sql; [|done]. intros t _. destruct (_ && _); [|done]. cbv zeta.
  assert (∀ m, gm_deleted m = false → owned gs (with_guild_members (<[(i_guild_id i, u) := m]> (guild_members d)) d)
    ∧ secure (owned gs) (join_count u code i)) as Hk.
  { intros m Hm. split; [|apply secure_join_count].
    apply (owned_set gs d _ (i_guild_id i) u true); [by apply member_set_added|done|done]. }
  split; [|intros _; split; [|done]]; apply Hk; by destruct (guild_members d !! _).
Qed.
Lemma secure_JoinGuild gs u code : secure (owned gs) (JoinGuild_thread u code).
Proof. unfold JoinGuild_thread. secure_auto. apply secure_join_commit. Qed.
(** The removal of a member who does not own the guild, and what follows. *)
Lemma removal_keeps gs g u d : (∀ r, gs !! g = Some r → g_deleted r = false → g_owner_id r ≠ u) →
  owned gs d → wpd (Queries.RemoveGuildMember g u) (λ o d', o ≠ Panic ∧ owned gs d') d.
Proof.
  intros Ho Hd. unfold Queries.RemoveGuildMember. apply wpd_sql; [|done]. intros t _.
  split; [|intros _]; (split; [done|by apply owned_removed]).
Qed.
Lemma secure_removal {A} gs g u (k : unit → thread A) :
  (∀ r, gs !! g = Some r → g_deleted r = false → g_owner_id r ≠ u) → secure (owned gs) (k tt) →
  secure (owned gs) (after (Queries.RemoveGuildMember g u) k).
Proof.
  intros Ho Hk. apply secure_after. intros d Hd. eapply wpd_mono; [by apply removal_keeps|].
  intros [[]|e|] d' [? ?]; by split.
Qed.
Lemma secure_LeaveGuild gs u g : secure (owned gs) (LeaveGuild_thread u g).
Proof.
  apply secure_after. intros d Hd. apply wpd_on_err, wpd_one; [|done..]. intros row Hrow. split; [done|].
  apply secure_after. intros d2 Hd2. apply wpd_bind, wpd_ensure; [intros Ho|done].
  apply wpd_on_err, wpd_one; [|done..]. intros m _. split; [done|].
  apply secure_removal; [exact (not_owner_of gs d g u row Hd Hrow Ho)|secure_auto].
Qed.
Lemma secure_KickMember gs c g u : secure (owned gs) (KickMember_thread c g u).
Proof.
  apply secure_frame; [solve [steps_auto]|intros ok].
  apply secure_frame; [solve [steps_auto]|intros outranks].
  apply secure_after. intros d Hd. apply wpd_bind, wpd_ensure; [intros _|done].
  apply wpd_on_err, wpd_one; [|done..]. intros row Hrow. split; [done|].
  apply secure_after. intros d2 Hd2. apply wpd_bind, wpd_ensure; [intros Ho|done].
  apply wpd_on_err, wpd_one; [|done..]. intros m _. split; [done|].
  apply secure_removal; [exact (not_owner_of gs d g u row Hd Hrow Ho)|secure_auto].
Qed.
Lemma secure_BanMember gs c g u reason : secure (owned gs) (BanMember_thread c g u reason).
Proof.
  apply secure_frame; [solve [steps_auto]|intros ok].
  apply secure_frame; [solve [steps_auto]|intros outranks].
  apply secure_after. intros d Hd. apply wpd_bind, wpd_ensure; [intros _|done].
  apply wpd_on_err, wpd_one; [|done..]. intros row Hrow. split; [done|].
  apply secure_after. intros d2 Hd2. apply wpd_bind, wpd_ensure; [intros Ho|done].
  apply wpd_ignore. eapply wpd_mono; [apply removal_keeps; [exact (not_owner_of gs d g u row Hd Hrow Ho)|done]|].
  assert (secure (owned gs) (after (Queries.CreateBan g u reason ?> ErrorfW "failed to create ban: %w")
    (λ _, after (GuildService.removeEveryoneRole g u) (λ _,
      finish (GuildService.publishGuildEvent g GUILD_EVENT_MEMBER_BAN
        [("user_id", uuid_print u); ("reason", reason)]%string))))) as Hrest.
  { apply secure_after. intros d3 Hd3. apply wpd_on_err. unfold Queries.CreateBan.
    apply wpd_sql; [|done]. intros t _. destruct (_ && _); [|done]. cbv zeta.
    split; [split; [by eapply owned_members|secure_auto]|]. intros _. split; [by eapply owned_members|done]. }
  intros [[]|e|] d' [? ?]; by split.
Qed.
Lemma secure_request gs r : secure (owned gs) (request_thread r).
Proof.
  destruct r; [apply secure_JoinGuild|apply secure_LeaveGuild|apply secure_KickMember|apply secure_BanMember].
Qed.

(** C6: owners stay members, whatever interleaves.  Take any joins, leaves,
    kicks and bans, of any callers, for any guilds, with any statements lost:
    however their statements interleave, at every moment every live guild has
    its owner among its live members. *)
Theorem owners_stay_members (requests : list member_request) w ts w' :
  (∀ g r, guilds (db w) !! g = Some r → g_deleted r = false →
     Queries.member_of (db w) (g_owner_id r) g = true) →
  rtc pool_step (request_thread <$> requests, w) (ts, w') →
  guilds (db w') = guilds (db w) ∧
  ∀ g r, guilds (db w') !! g = Some r → g_deleted r = false →
    Queries.member_of (db w') (g_owner_id r) g = true.
Proof.
  intros Ho Hs. assert (owned (guilds (db w)) (db w')) as [E Ho'].
  { apply (pool_secure (owned (guilds (db w))) _ _ _ _ Hs); [|by split]. apply Forall_fmap, Forall_true. apply secure_request. }
  by rewrite E.
Qed.
End Interleaved.

(** ** Checks that were made too early *)
Section Races.
Context `{Env} `{!UuidText}.

(** The checks of a join, as [JoinGuild_outcome] lists them. *)
Definition may_join (d : Db) (u : uuid) (code : string) (i : Invite) (t : time) : Prop :=
  live i_deleted (d.(invites) !! code) = Some i ∧ join_refusal d u t i = None ∧
  Queries.member_of d u (i_guild_id i) = false.

(** A join that has passed them waits in front of its first write. *)
Lemma join_checked u code i w :
  fault_free → may_join (db w) u code i (clock (S (tick w))) →
  ∃ w1, db w1 = db w ∧ rtc pool_step ([JoinGuild_thread u code], w) ([join_commit u code i], w1).
Proof.
  intros Hff (Hi & Hr & Hm). unfold join_refusal in Hr.
  unfold JoinGuild_thread.
  destruct (invite_expired_run i (bump w)) as (w1 & Hw1 & Hexp). simpl in Hw1, Hexp.
  destruct (match i_expires_at i with Some _ => _ | None => _ end); [done|].
  destruct (GuildService.invite_exhausted i) eqn:Hex; [done|].
  destruct (banned _ _ _) eqn:Hb; [done|].
  exists (bump (bump w1)). split; [done|].
  eapply rtc_l.
  { apply (pool_after _ _ i [] w (bump w)). unfold Queries.GetInvite, on_err.
    rewrite query_run by apply Hff. by rewrite Hi. }
  eapply rtc_l; [exact (pool_after _ _ _ _ _ _ Hexp)|].
  eapply rtc_l.
  { apply (pool_after _ _ (inl (Driver NoRows)) [] w1 (bump w1)). rewrite Hex. simpl.
    unfold Queries.GetBan, mbind, gom_bind, mret, gom_ret, try. rewrite query_run by apply Hff.
    rewrite Hw1. rewrite banned_live in Hb. by destruct (live b_deleted _). }
  eapply rtc_l; [|apply rtc_refl].
  match goal with |- pool_step ([after ?m ?k], _) _ =>
    apply (pool_after m k (inl (Driver NoRows)) []) end. simpl.
  unfold Queries.GetGuildMember, mbind, gom_bind, mret, gom_ret, try. rewrite query_run by apply Hff.
  simpl. rewrite Hw1. rewrite member_live in Hm. by destruct (live gm_deleted _).
Qed.

(** The writes of a join ask nothing again. *)
Lemma join_commits u code i j w :
  fault_free → invites (db w) !! code = Some j → (i_uses j < max_int32)%Z → join_fks (db w) u i →
  member_set (with_invites (<[code := invite_used j]> (invites (db w))) (db w))
    (db (run (join_commit u code i) w).2) (i_guild_id i) u true ∧
  (is_Some (live g_deleted (guilds (db w) !! i_guild_id i)) → (run (join_commit u code i) w).1 = Ok tt).
Proof.
  intros Hff Hi Hlt Hfk.
  pose proof (wpd_join_new u code i j (db w)
    (λ o d', member_set (with_invites (<[code := invite_used j]> (invites (db w))) (db w)) d' (i_guild_id i) u true ∧
       (is_Some (live g_deleted (guilds (db w) !! i_guild_id i)) → is_Ok o = true))
    Hff Hi Hlt Hfk) as Hwp.
  assert (run (join_commit u code i) w = (
    _ ← (_ ← Queries.AddGuildMember (i_guild_id i) u "" (Some code) (Some (i_creator_id i))
           ?> ErrorfW "failed to add guild member: %w";
       _ ← ignore (Queries.IncrementInviteUses code);
       _ ← ignore (Queries.RecordInviteUse code (i_guild_id i) u (i_creator_id i));
       _ ← GuildService.assignEveryoneRole (i_guild_id i) u;
       _ ← GuildService.publishGuildEvent (i_guild_id i) GUILD_EVENT_MEMBER_ADD
             [("user_id", uuid_print u)]%string;
       GuildService.buildJoinResult (i_guild_id i)); mret tt) w) as E.
  { unfold join_commit, join_count, join_rest. repeat cut_step. }
  rewrite E. clear E. match type of Hwp with _ → wpd ?m _ _ => generalize dependent m end.
  intros m Hwp. destruct (Hwp) with (w := w) as [Hset Hok]; [|done|].
  { intros o d' Hset Ho. split; [done|]. intros [row Hrow].
    by destruct Ho as [?|(? & ? & ? & _ & ->)]; [congruence|]. }
  unfold mbind, gom_bind. destruct (m w) as [[a|e|] w']; simpl in *; (split; [done|]);
    intros Hl; by specialize (Hok Hl).
Qed.

(** A ban that is allowed succeeds, and leaves guilds, users and invites. *)
Definition may_ban (d : Db) (c g u : uuid) : Prop :=
  Authorized d c g "BAN_MEMBERS" ∧ canActOnSQL d c u g = true ∧ has (users d) u = true ∧
  ∃ row, live g_deleted (guilds d !! g) = Some row ∧ g_owner_id row ≠ u.

Lemma ban_succeeds c g u reason d :
  fault_free → authz_wired = true → roles_wf d → may_ban d c g u →
  wpd (GuildService.BanMember c g u reason)
    (λ o d', o = Ok tt ∧ banned d' u g = true ∧
       guilds d' = guilds d ∧ invites d' = invites d) d.
Proof.
  intros Hff Hw Hwf (Ha & Hact & Hu & row & Hrow & Ho). pose proof (fault_free_not_can_fail Hff) as Hno.
  unfold GuildService.BanMember, Authz.CanBan.
  apply wpd_bind. eapply wpd_Check; [reflexivity|]. intros b _ Hb. rewrite Hb by done. clear Hb.
  apply wpd_bind, wpd_ret, wpd_bind. unfold Authz.CanActOn, Authz.with_uuid. rewrite Hw, !uuid_parse_print.
  simpl (negb _). cbv iota. apply wpd_query_or; [|by intros ?%Hno]. rewrite Hact.
  apply wpd_bind, wpd_ret, wpd_bind, wpd_on_err. apply wpd_one; [|congruence|by intros ?%Hno].
  intros r Hr. assert (r = row) as -> by congruence.
  assert (uuid_eqb (g_owner_id row) u = false) as ->.
  { apply not_true_iff_false. by rewrite uuid_eqb_true. }
  apply wpd_bind, wpd_ret, wpd_bind, wpd_ignore. unfold Queries.RemoveGuildMember.
  apply wpd_sql; [|by intros ?%Hno]. intros t _. split; [|by intros ?%Hno].
  apply wpd_bind, wpd_on_err. unfold Queries.CreateBan. apply wpd_sql; [|by intros ?%Hno].
  intros t2 _. simpl guilds. simpl users. apply live_Some in Hrow as [Hrow _].
  assert (has (guilds d) g = true) as -> by (apply has_true; by eexists). rewrite Hu. simpl (_ && _).
  cbv iota zeta. split; [|by intros ?%Hno].
  apply wpd_bind, wpd_removeEveryoneRole; [done|]. intros d' Hd'. apply wpd_Publish.
  destruct Hd' as ([= Hg _ Hb Hi] & _).
  split_and!; [done| |by rewrite Hg|by rewrite Hi].
  unfold banned. rewrite Hb. simpl. rewrite lookup_insert_eq. by destruct (bans d !! _).
Qed.
Lemma ban_keeps_users c g u reason : steps (on_db (same users)) (GuildService.BanMember c g u reason).
Proof.
  assert (∀ r v, steps (on_db (same users)) (Queries.RemoveRole r v)) as Hr by (intros; frame_sql).
  assert (steps (on_db (same users)) (Queries.RemoveGuildMember g u)) as Hm by frame_sql.
  assert (steps (on_db (same users)) (Queries.CreateBan g u reason)) as Hb by frame_sql.
  assert (∀ v r, steps (on_db (same users)) (Authz.RemoveUserFromRole v r)) as Ha.
  { intros. unfold Authz.RemoveUserFromRole, Authz.parseUUID. steps_auto; auto. }
  unfold GuildService.BanMember, Authz.CanBan, Authz.Check, Authz.CanActOn, Authz.with_uuid,
    Authz.query_or, GuildService.removeEveryoneRole, Queries.GetEveryoneRole, Queries.GetGuildByID,
    GuildService.publishGuildEvent. steps_auto; auto.
Qed.

(** C10: a ban does not stop a join that has begun.  When a user passes the
    checks of a join and is banned before its first write, by anybody who may
    ban him, both requests succeed, and he ends up banned and a member: the
    table of bans is read once, early, and nothing that is written later
    looks at it. *)
Theorem join_outruns_ban u c code i reason w :
  fault_free → authz_wired = true → roles_wf (db w) →
  may_join (db w) u code i (clock (S (tick w))) → join_fks (db w) u i → (i_uses i < max_int32)%Z →
  may_ban (db w) c (i_guild_id i) u →
  ∃ w', rtc pool_step
      ([JoinGuild_thread u code; BanMember_thread c (i_guild_id i) u reason], w)
      ([Done (Ok tt); Done (Ok tt)], w') ∧
    banned (db w') u (i_guild_id i) = true ∧ Queries.member_of (db w') u (i_guild_id i) = true.
Proof.
  intros Hff Hw Hwf Hj Hfk Hlt Hban.
  destruct (join_checked u code i w Hff Hj) as (w1 & E1 & S1).
  rewrite <-E1 in Hwf, Hfk, Hban. pose proof (proj1 (live_Some _ _ _) (proj1 Hj)) as [Hi _].
  destruct (ban_succeeds c (i_guild_id i) u reason (db w1) Hff Hw Hwf Hban w1 eq_refl)
    as (Hok & Hb & Hg & Hinv).
  pose proof (ban_keeps_users c (i_guild_id i) u reason w1) as Hus.
  assert (∃ w2, run (BanMember_thread c (i_guild_id i) u reason) w1 = (Ok tt, w2) ∧
    w2 = (GuildService.BanMember c (i_guild_id i) u reason w1).2) as (w2 & E2 & Ew2).
  { rewrite BanMember_alone. unfold mbind, gom_bind.
    destruct (GuildService.BanMember _ _ _ _ w1) as [o w2]. simpl in Hok. subst o. by exists w2. }
  rewrite <-Ew2 in *. unfold on_db, same in Hus.
  destruct (join_commits u code i i w2 Hff) as [Hset Hfin];
    [by rewrite Hinv, E1|done|unfold join_fks in *; by rewrite Hg, Hus|].
  exists (run (join_commit u code i) w2).2. split_and!.
  - etrans; [apply pool_first, S1|]. etrans; [apply pool_cons, (pool_alone _ w1)|].
    rewrite E2. simpl. etrans; [apply pool_first, (pool_alone _ w2)|].
    rewrite Hfin; [apply rtc_refl|]. rewrite Hg. destruct Hban as (_ & _ & _ & row & -> & _). by eexists.
  - destruct Hset as (_ & Hbans & _). unfold banned in *. by rewrite Hbans.
  - destruct Hset as (_ & _ & _ & Hm). rewrite Hm. by rewrite bool_decide_eq_true_2.
Qed.

(** *** The limit of an invite *)
Lemma join_keeps_users us u code i : secure (λ d, users d = us) (join_commit u code i).
Proof.
  assert (∀ r v, steps (on_db (same users)) (Queries.AssignRole r v)) as H1 by (intros; frame_sql).
  assert (∀ g n c p, steps (on_db (same users)) (Queries.CreateRole g n c p)) as H2 by (intros; frame_sql).
  assert (∀ c g v x, steps (on_db (same users)) (Queries.RecordInviteUse c g v x)) as H3 by (intros; frame_sql).
  assert (∀ g v n c x, steps (on_db (same users)) (Queries.AddGuildMember g v n c x)) as H4 by (intros; frame_sql).
  assert (∀ c, steps (on_db (same users)) (Queries.IncrementInviteUses c)) as H5 by (intros; frame_sql).
  assert (∀ v r, steps (on_db (same users)) (Authz.AddUserToRole v r)) as H6.
  { intros. unfold Authz.AddUserToRole, Authz.parseUUID. steps_auto; auto. }
  assert (∀ g v, steps (on_db (same users)) (GuildService.ensureEveryoneRole g v)) as H7.
  { intros. unfold GuildService.ensureEveryoneRole, Queries.GetEveryoneRole. steps_auto; auto. }
  assert (∀ g v, steps (on_db (same users)) (GuildService.assignEveryoneRole g v)) as H8.
  { intros. unfold GuildService.assignEveryoneRole, Queries.GetEveryoneRole. steps_auto; auto. }
  assert (∀ g, steps (on_db (same users)) (GuildService.buildJoinResult g)) as H9.
  { intros. unfold GuildService.buildJoinResult. steps_auto. }
  unfold join_commit, join_count, join_rest, finish.
  repeat (apply secure_same; [steps_auto; auto|intros ?]); exact I.
Qed.
(** An invite lets in more users than it allows.  When two users pass the
    checks of an invite with one use left, and then write, both become
    members and the invite counts one use more than its maximum. *)
Theorem joins_overrun_limit u v code i w :
  fault_free → u ≠ v → (i_uses i + 1 = i_max_uses i)%Z →
  (i_max_uses i < max_int32)%Z → is_Some (live g_deleted (guilds (db w) !! i_guild_id i)) →
  (∀ x, x = u ∨ x = v → (∀ t, may_join (db w) x code i t) ∧ join_fks (db w) x i) →
  ∃ w' i', rtc pool_step ([JoinGuild_thread u code; JoinGuild_thread v code], w)
      ([Done (Ok tt); Done (Ok tt)], w') ∧
    Queries.member_of (db w') u (i_guild_id i) = true ∧
    Queries.member_of (db w') v (i_guild_id i) = true ∧
    invites (db w') !! code = Some i' ∧ i_max_uses i' = i_max_uses i ∧
    (i_uses i' = i_max_uses i + 1)%Z.
Proof.
  intros Hff Huv Hlast Hmax Hlive Hboth.
  destruct (Hboth u (or_introl eq_refl)) as [Hju Hfu]. destruct (Hboth v (or_intror eq_refl)) as [Hjv Hfv].
  destruct (join_checked u code i w Hff (Hju _)) as (w1 & E1 & S1).
  rewrite <-E1 in Hjv. destruct (join_checked v code i w1 Hff (Hjv _)) as (w2 & E2 & S2).
  pose proof (proj1 (live_Some _ _ _) (proj1 (Hju 0%Z))) as [Hi _].
  destruct (join_commits u code i i w2 Hff) as [(Hg & Hb & Hinv & Hm) Hok];
    [by rewrite E2, E1|lia|unfold join_fks in *; by rewrite E2, E1|].
  set (w3 := (run (join_commit u code i) w2).2) in *.
  assert (users (db w3) = users (db w2)) as Hus by (by apply (secure_run _ _ w2 (join_keeps_users _ u code i))).
  destruct (join_commits v code i (invite_used i) w3 Hff) as [(Hg' & Hb' & Hinv' & Hm') Hok'].
  { rewrite Hinv. simpl. by rewrite lookup_insert_eq. }
  { simpl. lia. }
  { unfold join_fks in *. rewrite Hg, Hus. simpl. by rewrite E2, E1. }
  set (w4 := (run (join_commit v code i) w3).2) in *.
  exists w4, (invite_used (invite_used i)). split_and!.
  - etrans; [apply pool_first, S1|]. etrans; [apply pool_cons, S2|].
    etrans; [apply pool_first, (pool_alone _ w2)|]. rewrite Hok by by rewrite E2, E1.
    etrans; [apply pool_cons, (pool_alone _ w3)|]. rewrite Hok'; [apply rtc_refl|].
    rewrite Hg. simpl. by rewrite E2, E1.
  - rewrite Hm'. rewrite bool_decide_eq_false_2 by (intros [_ ?]; done). unfold Queries.member_of in *. simpl.
    rewrite Hm. by rewrite bool_decide_eq_true_2.
  - rewrite Hm'. by rewrite bool_decide_eq_true_2.
  - rewrite Hinv'. simpl. by rewrite lookup_insert_eq.
  - done.
  - simpl. lia.
Qed.

(** *** Ownership and leaving *)
Lemma transfer_succeeds c g u d row :
  fault_free → live g_deleted (guilds d !! g) = Some row → g_owner_id row = c →
  Queries.member_of d u g = true → has (users d) u = true →
  wpd (GuildService.TransferOwnership c g u)
    (λ o d', o = Ok (guild_owned_by u row) ∧ guilds d' = <[g := guild_owned_by u row]> (guilds d) ∧
       roles d' = roles d ∧ guild_members d' = guild_members d) d.
Proof.
  intros Hff Hrow <- Hm Hu. pose proof (fault_free_not_can_fail Hff) as Hno.
  unfold GuildService.TransferOwnership.
  apply wpd_bind, wpd_on_err, wpd_one; [|congruence|by intros ?%Hno]. intros r Hr.
  assert (r = row) as -> by congruence. rewrite (proj2 (uuid_eqb_true _ _) eq_refl).
  apply wpd_bind, wpd_ret, wpd_bind, wpd_on_err, wpd_one; [intros m _| |by intros ?%Hno].
  2:{ intros E. by rewrite member_live, E in Hm. }
  apply wpd_bind, wpd_on_err. unfold Queries.TransferGuildOwnership.
  apply wpd_sql; [|by intros ?%Hno]. intros _ _. apply live_Some in Hrow as [-> _]. rewrite Hu.
  cbv zeta. split; [|by intros ?%Hno]. unfold GuildService.publishGuildEvent.
  apply wpd_bind, wpd_Publish, wpd_ret. by split_and!.
Qed.

(** A leave that has passed its checks. *)
Definition leave_commit (u g : uuid) : thread unit :=
  after (Queries.RemoveGuildMember g u) (λ _,
  after (GuildService.removeEveryoneRole g u) (λ _,
  finish (GuildService.publishGuildEvent g GUILD_EVENT_MEMBER_REMOVE [("user_id", uuid_print u)]%string))).
Lemma leave_checked u g row w :
  fault_free → live g_deleted (guilds (db w) !! g) = Some row → g_owner_id row ≠ u →
  Queries.member_of (db w) u g = true →
  ∃ w1, db w1 = db w ∧ rtc pool_step ([LeaveGuild_thread u g], w) ([leave_commit u g], w1).
Proof.
  intros Hff Hrow Ho Hm. exists (bump (bump w)). split; [done|]. unfold LeaveGuild_thread.
  eapply rtc_l.
  { apply (pool_after _ _ row [] w (bump w)). unfold Queries.GetGuildByID, on_err.
    rewrite query_run by apply Hff. by rewrite Hrow. }
  cbv beta. assert (uuid_eqb (g_owner_id row) u = false) as ->.
  { apply not_true_iff_false. by rewrite uuid_eqb_true. }
  rewrite member_live in Hm. destruct (live gm_deleted _) as [m|] eqn:Em; [|done].
  eapply rtc_l; [|apply rtc_refl].
  match goal with |- pool_step ([after ?m' ?k], _) _ => apply (pool_after m' k m []) end.
  unfold Queries.GetGuildMember, mbind, gom_bind, mret, gom_ret, on_err. simpl.
  rewrite query_run by apply Hff. simpl. by rewrite Em.
Qed.
Lemma leave_commits u g d : fault_free → roles_wf d →
  wpd (λ w, run (leave_commit u g) w) (λ o d', o = Ok tt ∧ guilds d' = guilds d ∧
    Queries.member_of d' u g = false) d.
Proof.
  intros Hff Hwf. pose proof (fault_free_not_can_fail Hff) as Hno.
  assert (wpd (_ ← Queries.RemoveGuildMember g u; _ ← GuildService.removeEveryoneRole g u;
    GuildService.publishGuildEvent g GUILD_EVENT_MEMBER_REMOVE [("user_id", uuid_print u)]%string)
    (λ o d', o = Ok tt ∧ guilds d' = guilds d ∧ Queries.member_of d' u g = false) d) as Hwp.
  { apply wpd_bind. unfold Queries.RemoveGuildMember. apply wpd_sql; [|by intros ?%Hno].
    intros t _. split; [|by intros ?%Hno]. apply wpd_bind, wpd_removeEveryoneRole; [done|].
    intros d' (Hcore & _). apply wpd_Publish. split; [done|].
    destruct (member_set_core d _ d' g u false Hcore (member_set_removed d g u t)) as (Hg & _ & _ & Hm).
    split; [done|]. rewrite Hm. by rewrite bool_decide_eq_true_2. }
  intros w Hd. specialize (Hwp w Hd).
  assert (run (leave_commit u g) w = (_ ← Queries.RemoveGuildMember g u; _ ← GuildService.removeEveryoneRole g u;
    GuildService.publishGuildEvent g GUILD_EVENT_MEMBER_REMOVE [("user_id", uuid_print u)]%string) w) as ->; [|done].
  unfold leave_commit, finish. repeat first [rewrite run_after|apply bind_ext; intros ? ?].
  unfold GuildService.publishGuildEvent. reflexivity.
Qed.

(** C11: a guild loses its owner.  When a member's request to leave has passed
    its checks and the owner then hands the guild to him, both requests
    succeed, and the live guild's owner is not a member of it any more: the
    state that [LeaveGuild] is meant to refuse. *)
Theorem leave_outruns_transfer c g u row w :
  fault_free → roles_wf (db w) → live g_deleted (guilds (db w) !! g) = Some row → g_owner_id row = c →
  c ≠ u → Queries.member_of (db w) u g = true → has (users (db w)) u = true →
  ∃ w', rtc pool_step ([LeaveGuild_thread u g; TransferOwnership_thread c g u], w)
      ([Done (Ok tt); Done (Ok tt)], w') ∧
    (∃ row', guilds (db w') !! g = Some row' ∧ g_deleted row' = false ∧ g_owner_id row' = u) ∧
    Queries.member_of (db w') u g = false.
Proof.
  intros Hff Hwf Hrow Ho Hcu Hm Hu.
  destruct (leave_checked u g row w Hff Hrow) as (w1 & E1 & S1); [congruence|done|].
  rewrite <-E1 in *.
  destruct (transfer_succeeds c g u (db w1) row Hff Hrow Ho Hm Hu w1 eq_refl) as (Hok & Hg & Hr & Hgm).
  assert (∃ w2, run (TransferOwnership_thread c g u) w1 = (Ok tt, w2) ∧
    w2 = (GuildService.TransferOwnership c g u w1).2) as (w2 & E2 & Ew2).
  { rewrite TransferOwnership_alone. unfold mbind, gom_bind.
    destruct (GuildService.TransferOwnership _ _ _ w1) as [o w2]. simpl in Hok. subst o. by exists w2. }
  rewrite <-Ew2 in *.
  destruct (leave_commits u g (db w2) Hff) with (w := w2) as (Hfin & Hg' & Hm'); [|done|].
  { unfold roles_wf in *. by rewrite Hr. }
  exists (run (leave_commit u g) w2).2. split_and!; [| |done].
  - etrans; [apply pool_first, S1|]. etrans; [apply pool_cons, (pool_alone _ w1)|].
    rewrite E2. simpl. etrans; [apply pool_first, (pool_alone _ w2)|]. by rewrite Hfin.
  - exists (guild_owned_by u row). rewrite Hg', Hg, lookup_insert_eq.
    apply live_Some in Hrow as [_ Hd]. by split_and!.
Qed.
End Races.

(** ** Worked examples *)
Section Example.
#[local] Existing Instance demo_wired.
#[local] Existing Instance demo_uuid.

(** User 5 joins while the owner kicks user 3: the kick runs between the
    checks and the writes of the join. *)
Definition demo_kicked : World := (run (KickMember_thread 1 2 3) guild_demo_world).2.
Lemma owners_stay_members_witness :
  guilds (db demo_kicked) !! 2%positive = Some demo_guild ∧
  Queries.member_of (db demo_kicked) (g_owner_id demo_guild) 2 = true.
Proof.
  assert (guilds (db demo_kicked) !! 2%positive = Some demo_guild) as Hg by (vm_compute; reflexivity).
  split; [exact Hg|].
  apply (owners_stay_members [ReqJoin 5 "abc"; ReqKick 1 2 3] guild_demo_world
    [JoinGuild_thread 5 "abc"; Done (run (KickMember_thread 1 2 3) guild_demo_world).1] demo_kicked)
    with (r := demo_guild); [| |exact Hg|reflexivity].
  - intros g r Hr. by apply (wf_owner_member _ guild_demo_wf).
  - apply (pool_cons (JoinGuild_thread 5 "abc")), pool_alone.
Defined.

Lemma join_outruns_ban_witness :
  ∃ w', rtc pool_step ([JoinGuild_thread 5 "abc"; BanMember_thread 1 2 5 "spam"], guild_demo_world)
      ([Done (Ok tt); Done (Ok tt)], w') ∧ banned (db w') 5 2 = true ∧ ¬ guild_wf (db w').
Proof.
  destruct (join_outruns_ban 5 1 "abc" demo_invite "spam" guild_demo_world) as (w' & Hs & Hb & Hm);
    [exact demo_fault_free|reflexivity|exact guild_demo_roles_wf
    |split_and!; vm_compute; reflexivity|vm_compute; reflexivity|vm_compute; reflexivity| |].
  - split; [rewrite <-checkSQL_true; vm_compute; reflexivity|]. split; [vm_compute; reflexivity|].
    split; [vm_compute; reflexivity|]. exists demo_guild. split; [vm_compute; reflexivity|discriminate].
  - exists w'. split_and!; [exact Hs|exact Hb|]. intros Hwf.
    pose proof (wf_ban_excludes _ Hwf 2%positive 5%positive Hb) as Hn. simpl in Hm. congruence.
Defined.

(** The invite of the example with a single use, and one more account. *)
Definition single_invite : Invite := mkInvite "one" 2 9 1 1 0 None 0 false 0.
Definition single_world : World :=
  with_db (with_invites {["one" := single_invite]}
    (with_users (<[7%positive := demo_user 7]> (users guild_demo_db)) guild_demo_db)) empty_world.
Lemma joins_overrun_limit_witness :
  ∃ w' i', rtc pool_step ([JoinGuild_thread 5 "one"; JoinGuild_thread 7 "one"], single_world)
      ([Done (Ok tt); Done (Ok tt)], w') ∧
    invites (db w') !! "one"%string = Some i' ∧ i_max_uses i' = 1%Z ∧ i_uses i' = 2%Z.
Proof.
  destruct (joins_overrun_limit 5 7 "one" single_invite single_world)
    as (w' & i' & Hs & _ & _ & Hi & Hmax & Huses);
    [exact demo_fault_free|discriminate|reflexivity|reflexivity|eexists; vm_compute; reflexivity| |].
  - intros x [-> | ->]; (split; [intros t; split_and!|]); vm_compute; reflexivity.
  - exists w', i'. split_and!; [exact Hs|exact Hi|exact Hmax|exact Huses].
Defined.

Lemma leave_outruns_transfer_witness :
  ∃ w', rtc pool_step ([LeaveGuild_thread 3 2; TransferOwnership_thread 1 2 3], guild_demo_world)
      ([Done (Ok tt); Done (Ok tt)], w') ∧ Queries.member_of (db w') 3 2 = false ∧ ¬ guild_wf (db w').
Proof.
  destruct (leave_outruns_transfer 1 2 3 demo_guild guild_demo_world)
    as (w' & Hs & (row & Hg & Hd & Ho) & Hm);
    [exact demo_fault_free|exact guild_demo_roles_wf|vm_compute; reflexivity|reflexivity|discriminate
    |vm_compute; reflexivity|vm_compute; reflexivity|].
  exists w'. split_and!; [exact Hs|exact Hm|]. intros Hwf.
  pose proof (wf_owner_member _ Hwf 2%positive row Hg Hd) as Hn. rewrite Ho, Hm in Hn. discriminate.
Defined.
End Example.
