(* ===== verification/Config.v ===== *)
(** * Config: what the process reads from its environment

    Models [src/internal/shared/config/config.go]: the records of the
    configuration, [env] and its typed variants, [Load], the address of the
    database, and [GetMinioBaseURL] of [src/internal/shared/util/baseurl.go],
    the prefix of every avatar.  [os.Getenv] is a function from names to
    texts (an unset variable reads as the empty text) and
    [time.ParseDuration] is an argument.  The theorems: what a variable that
    is missing, empty or unreadable means, which fields come from which
    variables, and where the database address loses information. *)
From S2P Require Import Prelude Realtime Store Redis.

Module Config.
Record ServerConfig := mkServerConfig { GRPCPort : Z; ServerHost : string }.
Record DatabaseConfig := mkDatabaseConfig {
  DbHost : string; DbPort : Z; DbUser : string; DbPassword : string; DBName : string; SSLMode : string
}.
Record RedisConfig := mkRedisConfig { Addr : string; RedisPassword : string; DB : Z }.
Record ScyllaDBConfig := mkScyllaDBConfig { Hosts : list string; Keyspace : string }.
Record LiveKitConfig := mkLiveKitConfig {
  LiveKitURL : string; HTTPURL : string; APIKey : string; APISecret : string
}.
Record MinIOConfig := mkMinIOConfig {
  Endpoint : string; PublicEndpoint : string; AccessKey : string; SecretKey : string;
  Bucket : string; UseSSL : bool
}.
Record JWTConfig := mkJWTConfig { Secret : string; AccessTokenTTL : duration; RefreshTokenTTL : duration }.
Record VoiceConfig := mkVoiceConfig { UDPHost : string; UDPPort : Z }.
Record SMTPConfig := mkSMTPConfig { SmtpHost : string; SmtpPort : Z; From : string }.
Record NATSConfig := mkNATSConfig { NatsURL : string }.
Record Config := mkConfig {
  Server : ServerConfig;
  Database : DatabaseConfig;
  Redis : RedisConfig;
  ScyllaDB : ScyllaDBConfig;
  MinIO : MinIOConfig;
  JWT : JWTConfig;
  Voice : VoiceConfig;
  LiveKit : LiveKitConfig;
  SMTP : SMTPConfig;
  NATS : NATSConfig;
  InviteBaseURL : string
}.

(** [strconv.Atoi] (an [int] has 64 bits) and [strconv.ParseBool]. *)
Definition Atoi (s : string) : option Z := ParseInt 64 s.
Definition ParseBool (s : string) : option bool :=
  if bool_decide (s ∈ ["1"; "t"; "T"; "TRUE"; "true"; "True"]%string) then Some true
  else if bool_decide (s ∈ ["0"; "f"; "F"; "FALSE"; "false"; "False"]%string) then Some false
  else None.

Section Load.
Variable Getenv : string → string.
Variable ParseDuration : string → option duration.

Definition env (key fallback : string) : string :=
  let v := Getenv key in if negb (string_eqb v "") then v else fallback.

(** [envInt], [envBool] and [envDuration] differ in the parser only. *)
Definition env_parsed {A} (parse : string → option A) (key : string) (fallback : A) : A :=
  let v := Getenv key in if negb (string_eqb v "") then default fallback (parse v) else fallback.
Definition envInt : string → Z → Z := env_parsed Atoi.
Definition envBool : string → bool → bool := env_parsed ParseBool.
Definition envDuration : string → duration → duration := env_parsed ParseDuration.

(** [7*24*time.Hour] *)
Definition week : duration := (7 * 24 * minutes 60)%Z.

Definition Load : Config :=
  mkConfig
    (mkServerConfig (envInt "GRPC_PORT" 50051) (env "HOST" "0.0.0.0"))
    (mkDatabaseConfig (env "DB_HOST" "localhost") (envInt "DB_PORT" 5432) (env "DB_USER" "ndiscord")
       (env "DB_PASSWORD" "ndiscord") (env "DB_NAME" "ndiscord") (env "DB_SSLMODE" "disable"))
    (mkRedisConfig (env "REDIS_ADDR" "localhost:6379") (env "REDIS_PASSWORD" "") (envInt "REDIS_DB" 0))
    (mkScyllaDBConfig [env "SCYLLA_HOST" "localhost:9042"] (env "SCYLLA_KEYSPACE" "ndiscord"))
    (mkMinIOConfig (env "MINIO_ENDPOINT" "localhost:9000")
       (env "MINIO_PUBLIC_ENDPOINT" (env "MINIO_ENDPOINT" "localhost:9000"))
       (env "MINIO_ACCESS_KEY" "ndiscord") (env "MINIO_SECRET_KEY" "ndiscord123")
       (env "MINIO_BUCKET" "ndiscord") (envBool "MINIO_USE_SSL" false))
    (mkJWTConfig (env "JWT_SECRET" "change-me-in-production")
       (envDuration "JWT_ACCESS_TTL" week) (envDuration "JWT_REFRESH_TTL" week))
    (mkVoiceConfig (env "VOICE_UDP_HOST" "0.0.0.0") (envInt "VOICE_UDP_PORT" 50052))
    (mkLiveKitConfig (env "LIVEKIT_URL" "ws://localhost:7880")
       (env "LIVEKIT_HTTP_URL" "http://localhost:7880")
       (env "LIVEKIT_API_KEY" "devkey") (env "LIVEKIT_API_SECRET" "secret"))
    (mkSMTPConfig (env "SMTP_HOST" "localhost") (envInt "SMTP_PORT" 1025)
       (env "SMTP_FROM" "noreply@ndiscord.local"))
    (mkNATSConfig (env "NATS_URL" "nats://localhost:4222"))
    (env "INVITE_BASE_URL" "https://ndiscord.app/invite").

(** [GetMinioBaseURL] reads the environment again on every call. *)
Definition GetMinioBaseURL : string :=
  "http://" +:+ PublicEndpoint (MinIO Load) +:+ "/" +:+ Bucket (MinIO Load) +:+ "/".
End Load.

(** [strconv.Itoa] is [FormatInt]. *)
Definition DSN (d : DatabaseConfig) : string :=
  "postgres://" +:+ DbUser d +:+ ":" +:+ DbPassword d +:+ "@" +:+ DbHost d +:+ ":" +:+
  FormatInt (DbPort d) +:+ "/" +:+ DBName d +:+ "?sslmode=" +:+ SSLMode d.
End Config.

Import Config.

(** ** Properties *)
Section Properties.
Context {Getenv : string → string} {ParseDuration : string → option duration}.

Lemma env_empty key fallback : Getenv key = ""%string → env Getenv key fallback = fallback.
Proof. unfold env. by intros ->. Qed.
Lemma env_set key fallback : Getenv key ≠ ""%string → env Getenv key fallback = Getenv key.
Proof. intros Hne. unfold env, string_eqb. by rewrite bool_decide_eq_false_2. Qed.

(** A typed variable counts only when it can be read: whatever else it holds
    is the fallback, without a word. *)
Lemma env_parsed_spec {A} (parse : string → option A) key fallback : parse ""%string = None →
  env_parsed Getenv parse key fallback = default fallback (parse (Getenv key)).
Proof.
  intros He. unfold env_parsed, string_eqb. case_bool_decide as E; [|done].
  rewrite E. simpl. by rewrite He.
Qed.
Lemma Atoi_empty : Atoi "" = None. Proof. reflexivity. Qed.
Lemma ParseBool_empty : ParseBool "" = None. Proof. reflexivity. Qed.

(** An integer that was printed is the integer that is loaded. *)
Lemma envInt_roundtrip key fallback n : in_range 64 n = true →
  Getenv key = FormatInt n → envInt Getenv key fallback = n.
Proof.
  intros Hr He. unfold envInt. rewrite (env_parsed_spec Atoi _ _ Atoi_empty), He.
  unfold Atoi. by rewrite (ParseInt_FormatInt 64 n Hr).
Qed.

(** The objects' public address: the public endpoint if one is set, else the
    internal one, else the default of the internal one. *)
Lemma public_endpoint :
  PublicEndpoint (MinIO (Load Getenv ParseDuration)) =
  (if string_eqb (Getenv "MINIO_PUBLIC_ENDPOINT") "" then Endpoint (MinIO (Load Getenv ParseDuration))
   else Getenv "MINIO_PUBLIC_ENDPOINT").
Proof. cbn [Load MinIO PublicEndpoint Endpoint]. unfold env at 1. by destruct (string_eqb _ ""). Qed.

(** [Load] depends on the variables it names and on nothing else. *)
Definition variables : list string :=
  ["GRPC_PORT"; "HOST"; "DB_HOST"; "DB_PORT"; "DB_USER"; "DB_PASSWORD"; "DB_NAME"; "DB_SSLMODE";
   "REDIS_ADDR"; "REDIS_PASSWORD"; "REDIS_DB"; "SCYLLA_HOST"; "SCYLLA_KEYSPACE"; "MINIO_ENDPOINT";
   "MINIO_PUBLIC_ENDPOINT"; "MINIO_ACCESS_KEY"; "MINIO_SECRET_KEY"; "MINIO_BUCKET"; "MINIO_USE_SSL";
   "JWT_SECRET"; "JWT_ACCESS_TTL"; "JWT_REFRESH_TTL"; "VOICE_UDP_HOST"; "VOICE_UDP_PORT";
   "LIVEKIT_URL"; "LIVEKIT_HTTP_URL"; "LIVEKIT_API_KEY"; "LIVEKIT_API_SECRET"; "SMTP_HOST";
   "SMTP_PORT"; "SMTP_FROM"; "NATS_URL"; "INVITE_BASE_URL"]%string.
Lemma Load_reads_variables Getenv' : Forall (λ k, Getenv k = Getenv' k) variables →
  Load Getenv ParseDuration = Load Getenv' ParseDuration.
Proof.
  unfold variables. intros HF. unfold Load, env, envInt, envBool, envDuration, env_parsed.
  repeat match goal with
  | H : Forall _ (_ :: _) |- _ => apply Forall_cons in H as [-> H]
  end. reflexivity.
Qed.
End Properties.

(** ** Worked examples *)
Definition demo_env (l : list (string * string)) (key : string) : string := default ""%string (assoc key l).

(** A misspelt lifetime or port is the default. *)
Example misread_settings :
  let c := Load (demo_env [("JWT_ACCESS_TTL", "15 minutes"); ("GRPC_PORT", "8O80");
                           ("REDIS_DB", "9223372036854775808"); ("MINIO_USE_SSL", "yes")]%string)
             (λ _, None) in
  AccessTokenTTL (JWT c) = week ∧ GRPCPort (Server c) = 50051%Z ∧ DB (Redis c) = 0%Z ∧
  UseSSL (MinIO c) = false.
Proof. vm_compute. split_and!; reflexivity. Qed.

(** Nothing in the address is escaped: a password with a slash in it is the
    address of another server. *)
Example DSN_ambiguous :
  DSN (mkDatabaseConfig "db" 5432 "app" "a@evil:1/x" "ndiscord" "disable") =
  DSN (mkDatabaseConfig "evil" 1 "app" "a" "x@db:5432/ndiscord" "disable").
Proof. vm_compute. reflexivity. Qed.
