(* ===== verification/HttpLog.v ===== *)
(** * HttpLog: the logging middleware of the gateway

    Models [src/internal/shared/middleware/http.go]: [httpPeerIP], the
    wrapper [statusWriter] that remembers the status of a response, and the
    line [HTTPLoggingMiddleware] writes.  The writer it wraps is that of
    [net/http]: the first final status wins, a body or a flush without one is
    a 200, and a status below 100 or above 999 panics.  The theorems: the
    status that is logged is the one that was sent, unless the handler
    flushes before it sets one. *)
From S2P Require Import Prelude SqlSplit Middleware.

Module HttpLog.
(** ** [net/http] *)
Record response := mkResponse {
  rs_status : option Z;
  rs_informational : list Z;
  rs_body : string;
}.
Definition no_response : response := mkResponse None [] "".

(** [http.ResponseWriter.WriteHeader]: an informational status (1xx, but not
    101) is sent at once and does not count; a second final one is dropped. *)
Definition http_WriteHeader (code : Z) : GoM response unit := λ r,
  match rs_status r with
  | Some _ => (Ok tt, r)
  | None =>
      if (code <? 100)%Z || (999 <? code)%Z then (Panic, r)
      else if (code <=? 199)%Z && negb (code =? 101)%Z
      then (Ok tt, mkResponse None (rs_informational r ++ [code]) (rs_body r))
      else (Ok tt, mkResponse (Some code) (rs_informational r) (rs_body r))
  end.
Definition http_Write (b : string) : GoM response unit := λ r,
  let status := default 200%Z (rs_status r) in
  (Ok tt, mkResponse (Some status) (rs_informational r) (rs_body r +:+ b)).
Definition http_Flush : GoM response unit := λ r,
  (Ok tt, mkResponse (Some (default 200%Z (rs_status r))) (rs_informational r) (rs_body r)).
(** What the client sees once the handler has returned. *)
Definition finished (r : response) : Z := default 200%Z (rs_status r).

(** ** The wrapper *)
Record statusWriter := mkStatusWriter {
  ResponseWriter : response;
  status : Z;
  wroteHeader : bool;
}.
Definition forward (m : GoM response unit) : GoM statusWriter unit := λ s,
  let (o, r) := m (ResponseWriter s) in (o, mkStatusWriter r (status s) (wroteHeader s)).

Definition WriteHeader (code : Z) : GoM statusWriter unit := λ s,
  if wroteHeader s then (Ok tt, s)
  else forward (http_WriteHeader code) (mkStatusWriter (ResponseWriter s) code true).
Definition Write (b : string) : GoM statusWriter unit := λ s,
  forward (http_Write b)
    (if wroteHeader s then s else mkStatusWriter (ResponseWriter s) (status s) true).
Definition Flush : GoM statusWriter unit := forward http_Flush.

(** What a handler does to its writer. *)
Inductive call := CallWriteHeader (code : Z) | CallWrite (b : string) | CallFlush.
Definition perform (c : call) : GoM statusWriter unit :=
  match c with
  | CallWriteHeader code => WriteHeader code
  | CallWrite b => Write b
  | CallFlush => Flush
  end.
Definition ServeHTTP (next : list call) : GoM statusWriter unit := for_each next perform.

(** ** The line that is logged *)
Record request := mkRequest {
  Method : string; Path : string; Forwarded : string; RealIP : string; RemoteAddr : string
}.
(** [strings.IndexByte(xff, ',')] and the cut in front of it. *)
Fixpoint before_comma (s : string) : option string :=
  match s with
  | EmptyString => None
  | String c rest => if Ascii.eqb c "," then Some ""%string else String c <$> before_comma rest
  end.
Definition httpPeerIP (r : request) : string :=
  if negb (string_eqb (Forwarded r) "") then
    match before_comma (Forwarded r) with
    | Some (String _ _ as first) => SqlSplit.TrimSpace first
    | _ => SqlSplit.TrimSpace (Forwarded r)
    end
  else if negb (string_eqb (RealIP r) "") then SqlSplit.TrimSpace (RealIP r)
  else default (RemoteAddr r) (RateLimit.before_last_colon (RemoteAddr r)).

(** Method, path, status, user and remote address; [userID] is
    [UserIDFromContext] of the request's context. *)
Record log_line := mkLogLine {
  l_method : string; l_path : string; l_status : Z; l_user_id : string; l_remote : string
}.
Definition HTTPLoggingMiddleware (next : list call) (r : request) (userID : string) :
    outcome log_line * response :=
  let (o, sw) := ServeHTTP next (mkStatusWriter no_response 200 false) in
  (match o with
   | Ok _ => Ok (mkLogLine (Method r) (Path r) (status sw) userID (httpPeerIP r))
   | Err e => Err e
   | Panic => Panic
   end, ResponseWriter sw).
End HttpLog.

Import HttpLog.

(** ** The status *)

(** A final status; a call that does not open the response with a flush. *)
Definition final (c : call) : Prop :=
  match c with CallWriteHeader code => (200 ≤ code ≤ 999)%Z | _ => True end.
Definition opened_properly (calls : list call) : Prop :=
  match calls with CallFlush :: _ => False | _ => True end.

(** The wrapper and what it wraps agree: before the header nothing was sent
    and the status is 200; after it the status is the one that was sent. *)
Definition agree (s : statusWriter) : Prop :=
  if wroteHeader s then rs_status (ResponseWriter s) = Some (status s)
  else rs_status (ResponseWriter s) = None ∧ status s = 200%Z.

Lemma agree_WriteHeader code s : (200 ≤ code ≤ 999)%Z → agree s →
  ∃ s', WriteHeader code s = (Ok tt, s') ∧ agree s' ∧ wroteHeader s' = true.
Proof.
  intros Hc. unfold agree, WriteHeader, forward, http_WriteHeader.
  destruct (wroteHeader s) eqn:Ew; [intros Hs; exists s; by rewrite Ew|]. intros [Hn _]. cbn [ResponseWriter]. rewrite Hn.
  replace (code <? 100)%Z with false by lia. replace (999 <? code)%Z with false by lia.
  replace (code <=? 199)%Z with false by lia. cbn. eexists. split_and!; reflexivity.
Qed.
Lemma agree_Write b s : agree s →
  ∃ s', Write b s = (Ok tt, s') ∧ agree s' ∧ wroteHeader s' = true.
Proof.
  unfold agree, Write, forward, http_Write. destruct (wroteHeader s) eqn:Ew.
  - intros Hs. rewrite Hs. eexists. split_and!; [done|cbn; by rewrite ?Ew|done].
  - intros [Hn Hst]. cbn. rewrite Hn, Hst. eexists. split_and!; reflexivity.
Qed.
Lemma agree_Flush s : wroteHeader s = true → agree s →
  ∃ s', Flush s = (Ok tt, s') ∧ agree s' ∧ wroteHeader s' = true.
Proof.
  unfold agree, Flush, forward, http_Flush. intros Ew. rewrite Ew. intros Hs. rewrite Hs.
  eexists. split_and!; [done|cbn; by rewrite ?Ew|done].
Qed.
Lemma agree_perform c s : final c → (c = CallFlush → wroteHeader s = true) → agree s →
  ∃ s', perform c s = (Ok tt, s') ∧ agree s' ∧ wroteHeader s' = true.
Proof.
  destruct c; cbn [perform final]; intros Hf Hw;
    eauto using agree_WriteHeader, agree_Write, agree_Flush.
Qed.
Lemma agree_ServeHTTP calls s : Forall final calls →
  (wroteHeader s = true ∨ opened_properly calls) → agree s →
  ∃ s', ServeHTTP calls s = (Ok tt, s') ∧ agree s'.
Proof.
  intros HF. revert s. induction HF as [|c calls Hc HF IH]; intros s Hw Hs; [by exists s|].
  destruct (agree_perform c s Hc) as (s1 & E1 & Hs1 & Hw1); [|done|].
  { intros ->. by destruct Hw. }
  destruct (IH s1 (or_introl Hw1) Hs1) as (s2 & E2 & Hs2). exists s2. split; [|done].
  unfold ServeHTTP. cbn [for_each]. unfold mbind, gom_bind. by rewrite E1.
Qed.

(** The logged status is the one the client got, for every handler that sets
    final statuses and does not flush before its first byte. *)
Theorem logged_status_is_sent calls r userID :
  Forall final calls → opened_properly calls →
  ∃ line rs, HTTPLoggingMiddleware calls r userID = (Ok line, rs) ∧ l_status line = finished rs.
Proof.
  intros HF Ho.
  destruct (agree_ServeHTTP calls (mkStatusWriter no_response 200 false) HF (or_intror Ho))
    as (s & E & Hs); [done|].
  unfold HTTPLoggingMiddleware. rewrite E. eexists _, _. split; [done|]. cbn [l_status].
  unfold finished. unfold agree in Hs. destruct (wroteHeader s); [by rewrite Hs|].
  by destruct Hs as [-> ->].
Qed.
Lemma logged_status_is_sent_witness :
  l_status (mkLogLine "" "" 404 "" "") =
  finished (HTTPLoggingMiddleware [CallWriteHeader 404; CallWrite "x"; CallWriteHeader 500]
              (mkRequest "GET" "/" "" "" "") "").2.
Proof.
  destruct (logged_status_is_sent [CallWriteHeader 404; CallWrite "x"; CallWriteHeader 500]
    (mkRequest "GET" "/" "" "" "") "") as (l & rs & E & Hl).
  - repeat constructor; lia.
  - exact I.
  - rewrite E. cbn [snd]. rewrite <-Hl. injection E as <- _. reflexivity.
Defined.

(** ** Worked examples *)

(** [Flush] does not note that it opened the response: the status that comes
    after it is logged and was never sent. *)
Example flush_hides_status :
  let '(o, rs) := HTTPLoggingMiddleware [CallFlush; CallWriteHeader 503] (mkRequest "GET" "/" "" "" "") "" in
  (∃ l, o = Ok l ∧ l_status l = 503%Z) ∧ finished rs = 200%Z.
Proof. split; [eexists; split; reflexivity|reflexivity]. Qed.

(** The left-most entry of the chain; a client that writes the header itself
    chooses the address in the log. *)
Example peer_of_chain :
  httpPeerIP (mkRequest "GET" "/" " 10.0.0.7 , 192.168.1.1" "" "127.0.0.1:5000") = "10.0.0.7"%string ∧
  httpPeerIP (mkRequest "GET" "/" ",10.0.0.7" "" "127.0.0.1:5000") = ",10.0.0.7"%string ∧
  httpPeerIP (mkRequest "GET" "/" "" "" "[::1]:5000") = "[::1]"%string.
Proof. vm_compute. split_and!; reflexivity. Qed.
