(* ===== verification/Init.v ===== *)
(** * Init: the program that prepares the databases

    Models [src/cmd/init/main.go]: [migratePG], [migrateScylla] and their
    composition in [main].  The databases and the files are arguments: a
    connection attempt and a statement are programs over a state, the
    directory is a function from names to texts.  Sleeping between attempts
    and closing connections are left out; the log is left out, but not the
    failures it hides.  The theorems: which statements are executed, in which
    order, and that the failure of a statement never stops the program. *)
From S2P Require Import Prelude Realtime Store Redis SqlSplit Config.

Module Init.
(** [strings.Split(s, sep)] for a separator of one byte. *)
Fixpoint Split (sep : ascii) (s : string) : list string :=
  match s with
  | EmptyString => [""%string]
  | String c rest =>
      if Ascii.eqb c sep then ""%string :: Split sep rest
      else match Split sep rest with
           | x :: l => String c x :: l
           | [] => [String c ""]
           end
  end.
(** [sort.Strings] *)
#[global] Instance le_dec : RelDecision String.le.
Proof. intros a b. unfold String.le. apply _. Defined.
Definition sort_Strings : list string → list string := merge_sort String.le.

Section Migrate.
Context {S : Type}.

(** [for range n { ...; if err == nil { break } }]: the last attempt counts. *)
Fixpoint attempts (n : nat) (connect : GoM S unit) : GoM S unit :=
  match n with
  | O => mret tt
  | 1 => connect
  | Datatypes.S n => r ← try connect; match r with inr _ => mret tt | inl _ => attempts n connect end
  end.

Variable Glob : string → option (list string).
Variable ReadFile : string → error + string.

(** [pgxpool.New] followed by [Ping]; [pool.Exec]. *)
Variable pg_connect : string → GoM S unit.
Variable pg_Exec : string → GoM S unit.

Definition pg_statements (data : string) : list string :=
  SqlSplit.SplitStatements (SqlSplit.GooseUpSection data).
Definition migratePG (cfg : Config.DatabaseConfig) : GoM S unit :=
  _ ← attempts 30 (pg_connect (Config.DSN cfg)) ?> ErrorfW "could not connect to postgres: %w";
  let no_files := Errorf "no migration files found in db/timescale/migrations/" in
  match Glob "db/timescale/migrations/*.sql" with
  | None | Some [] => fail no_files
  | Some files =>
      for_each (sort_Strings files) (λ f,
        match ReadFile f with
        | inl e => fail (ErrorfW "failed to read %s: %w" e)
        | inr data => for_each (pg_statements data) (λ stmt, ignore (pg_Exec stmt))
        end)
  end.

(** [cluster.CreateSession], with and without a keyspace; [session.Query(q).Exec()]. *)
Variable CreateSession : list string → option string → GoM S unit.
Variable cql_Exec : string → GoM S unit.
Variable ToUpper : string → string.

Definition comment_line (line : string) : bool := HasPrefix (SqlSplit.TrimSpace line) "--".
Definition cql_skipped (stmt : string) : bool :=
  string_eqb stmt "" || HasPrefix (ToUpper stmt) "USE " || HasPrefix (ToUpper stmt) "CREATE KEYSPACE".
Definition cql_statements (data : string) : list string :=
  let cleaned := String.concat SqlSplit.nl
                   (filter (λ line, comment_line line = false) (Split SqlSplit.newline data)) in
  filter (λ stmt, cql_skipped stmt = false) (SqlSplit.TrimSpace <$> Split ";" cleaned).
Definition create_keyspace (keyspace : string) : string :=
  SqlSplit.nl +:+ SqlSplit.tab +:+ SqlSplit.tab +:+ "CREATE KEYSPACE IF NOT EXISTS " +:+ keyspace +:+
  SqlSplit.nl +:+ SqlSplit.tab +:+ SqlSplit.tab +:+
  "WITH replication = {'class': 'SimpleStrategy', 'replication_factor': 1}" +:+
  SqlSplit.nl +:+ SqlSplit.tab.
Definition migrateScylla (cfg : Config.ScyllaDBConfig) : GoM S unit :=
  _ ← attempts 60 (CreateSession (Config.Hosts cfg) None)
      ?> ErrorfW "could not connect to scylladb: %w";
  _ ← cql_Exec (create_keyspace (Config.Keyspace cfg)) ?> ErrorfW "create keyspace: %w";
  _ ← CreateSession (Config.Hosts cfg) (Some (Config.Keyspace cfg))
      ?> ErrorfW "connect to keyspace: %w";
  match Glob "db/scylla/migrations/*.cql" with
  | None | Some [] => mret tt
  | Some files =>
      for_each (sort_Strings files) (λ f,
        match ReadFile f with
        | inl e => fail (ErrorfW "failed to read %s: %w" e)
        | inr data => for_each (cql_statements data) (λ stmt, ignore (cql_Exec stmt))
        end)
  end.

(** [log.Fatal] ends the process: the error is the program's. *)
Definition main (cfg : Config.Config) : GoM S unit :=
  _ ← migratePG (Config.Database cfg);
  migrateScylla (Config.ScyllaDB cfg).
End Migrate.
End Init.

Import Init.

(** ** Attempts *)

(** Connecting succeeds when any of the attempts does. *)
Lemma attempts_spec {S} (connect : GoM S unit) n k s s' :
  (∀ i, i < k → ∃ e, (connect (Nat.iter i (λ x, (connect x).2) s)).1 = Err e) →
  connect (Nat.iter k (λ x, (connect x).2) s) = (Ok tt, s') → k < n →
  attempts n connect s = (Ok tt, s').
Proof.
  revert k s. induction n as [|n IH]; intros k s Hfail Hok Hk; [lia|].
  assert (attempts (Datatypes.S n) connect s =
    match connect s with
    | (Err e, s1) => match n with O => (Err e, s1) | _ => attempts n connect s1 end
    | r => r
    end) as ->.
  { destruct n; cbn [attempts].
    - by destruct (connect s) as [[[]| |] ?].
    - unfold mbind, gom_bind, try. by destruct (connect s) as [[[]| |] ?]. }
  destruct k as [|k].
  { simpl in Hok. by rewrite Hok. }
  destruct (Hfail 0) as [e He]; [lia|]. simpl in He.
  destruct (connect s) as [o s1] eqn:Ec. simpl in He. subst o.
  destruct n as [|n]; [lia|]. apply (IH k); [|rewrite <-Hok|lia].
  - intros i Hi. destruct (Hfail (Datatypes.S i)) as [e' He']; [lia|]. exists e'.
    by rewrite Nat.iter_succ_r, Ec in He'.
  - by rewrite Nat.iter_succ_r, Ec.
Qed.

(** ** What is executed *)
Section Facts.
Context {S : Type}.
Variable Glob : string → option (list string).
Variable ReadFile : string → error + string.

(** The state after a list of statements, whatever each of them answered. *)
Definition executed (Exec : string → GoM S unit) (stmts : list string) (s : S) : S :=
  foldl (λ s stmt, (Exec stmt s).2) s stmts.
Definition no_panic (Exec : string → GoM S unit) : Prop := ∀ stmt s, (Exec stmt s).1 ≠ Panic.

Lemma for_each_ignored Exec stmts s : no_panic Exec →
  for_each stmts (λ stmt, ignore (Exec stmt)) s = (Ok tt, executed Exec stmts s).
Proof.
  intros Hnp. revert s. induction stmts as [|stmt stmts IH]; intros s; [done|].
  cbn [for_each executed foldl]. unfold mbind, gom_bind, ignore at 1.
  pose proof (Hnp stmt s) as Hp.
  destruct (Exec stmt s) as [[| |] s'] eqn:E; try done; by rewrite IH.
Qed.

(** The texts of the files, in the order of their names. *)
Definition contents (files : list string) (texts : list string) : Prop :=
  Forall2 (λ f text, ReadFile f = inr text) (sort_Strings files) texts.
Lemma for_each_files Exec (cut : string → list string) names texts s : no_panic Exec →
  Forall2 (λ f text, ReadFile f = inr text) names texts →
  for_each names (λ f,
    match ReadFile f with
    | inl e => fail (ErrorfW "failed to read %s: %w" e)
    | inr data => for_each (cut data) (λ stmt, ignore (Exec stmt))
    end) s = (Ok tt, executed Exec (texts ≫= cut) s).
Proof.
  intros Hnp HF. revert s. induction HF as [|f text names texts Hf HF IH]; intros s; [done|].
  cbn [for_each mbind list_bind]. unfold mbind, gom_bind. rewrite Hf, (for_each_ignored _ _ _ Hnp).
  rewrite IH. unfold executed. by rewrite foldl_app.
Qed.

(** The PostgreSQL migrations: when a connection is made and the files can be
    read, every statement of every file is executed, in the order of the file
    names and of the texts, and the program reports success, also when
    statements fail. *)
Theorem migratePG_executes pg_connect pg_Exec cfg files texts s s1 :
  no_panic pg_Exec → attempts 30 (pg_connect (Config.DSN cfg)) s = (Ok tt, s1) →
  Glob "db/timescale/migrations/*.sql" = Some files → files ≠ [] → contents files texts →
  migratePG Glob ReadFile pg_connect pg_Exec cfg s =
    (Ok tt, executed pg_Exec (texts ≫= pg_statements) s1).
Proof.
  intros Hnp Hc Hg Hne HF. unfold migratePG. unfold mbind at 1, gom_bind at 1, on_err.
  rewrite Hc, Hg. destruct files as [|f files]; [done|].
  by apply for_each_files.
Qed.

(** The Scylla migrations likewise, after the keyspace was created; with no
    file in the directory nothing but the keyspace is created, and that is a
    success too. *)
Lemma migrateScylla_executes CreateSession cql_Exec ToUpper cfg texts s s1 s2 s3 :
  no_panic cql_Exec →
  attempts 60 (CreateSession (Config.Hosts cfg) None) s = (Ok tt, s1) →
  cql_Exec (create_keyspace (Config.Keyspace cfg)) s1 = (Ok tt, s2) →
  CreateSession (Config.Hosts cfg) (Some (Config.Keyspace cfg)) s2 = (Ok tt, s3) →
  contents (default [] (Glob "db/scylla/migrations/*.cql")) texts →
  migrateScylla Glob ReadFile CreateSession cql_Exec ToUpper cfg s =
    (Ok tt, executed cql_Exec (texts ≫= cql_statements ToUpper) s3).
Proof.
  intros Hnp H1 H2 H3 HF. unfold migrateScylla, on_err. unfold mbind, gom_bind.
  rewrite H1, H2, H3. destruct (Glob _) as [[|f files]|]; simpl in HF.
  - inversion HF; subst. done.
  - by apply for_each_files.
  - inversion HF; subst. done.
Qed.
End Facts.

(** ** Splitting *)
Lemma Split_not_nil sep s : Split sep s ≠ [].
Proof.
  destruct s as [|c s]; [done|]. simpl. destruct (Ascii.eqb c sep); [done|].
  by destruct (Split sep s).
Qed.
(** No byte is lost, and no piece holds the separator. *)
Lemma Split_concat sep s : String.concat (String sep "") (Split sep s) = s.
Proof.
  induction s as [|c s IH]; [done|]. simpl. pose proof (Split_not_nil sep s) as Hne.
  destruct (Ascii.eqb_spec c sep) as [->|]; destruct (Split sep s) as [|x l]; try done.
  - cbn [String.concat]. cbn [String.concat] in IH. by rewrite IH.
  - cbn [String.concat] in *. destruct l; by rewrite <-IH.
Qed.
Fixpoint occurs (c : ascii) (s : string) : bool :=
  match s with EmptyString => false | String d s => Ascii.eqb d c || occurs c s end.
Lemma Split_pieces sep s : Forall (λ p, occurs sep p = false) (Split sep s).
Proof.
  induction s as [|c s IH]; simpl; [by repeat constructor|].
  destruct (Ascii.eqb c sep) eqn:E; [by constructor|].
  destruct IH as [|x l Hx Hl]; [by repeat constructor; simpl; rewrite E|].
  constructor; [|done]. simpl. by rewrite E.
Qed.

(** ** Worked examples *)
Local Open Scope string_scope.
Definition ascii_upper (c : ascii) : ascii :=
  if SqlSplit.between "a" "z" c then ascii_of_nat (nat_of_ascii c - 32) else c.
Fixpoint demo_upper (s : string) : string :=
  match s with EmptyString => EmptyString | String c s => String (ascii_upper c) (demo_upper s) end.

(** A comment on a line of its own is dropped; one behind a statement is
    not, and its semicolon cuts the statement, and so does one in a quoted
    text. *)
Example cql_comments :
  cql_statements demo_upper ("-- tables; first" +:+ nl +:+ "use ks;" +:+ nl +:+ "CREATE TABLE t (a int);") =
    ["CREATE TABLE t (a int)"] ∧
  cql_statements demo_upper ("CREATE TABLE t ( -- keys; and values" +:+ nl +:+ "a int);") =
    ["CREATE TABLE t ( -- keys"; "and values" +:+ nl +:+ "a int)"] ∧
  cql_statements demo_upper "INSERT INTO t (a) VALUES ('x;y');" = ["INSERT INTO t (a) VALUES ('x"; "y')"].
Proof. vm_compute. split_and!; reflexivity. Qed.

(** A database that answers every statement with an error: the run is a
    success. *)
Definition refusing (stmt : string) : GoM (list string) unit :=
  λ log, (Err (Driver Unavailable), (log ++ [stmt])%list).
Definition demo_files (f : string) : error + string :=
  if string_eqb f "1.sql" then inr "CREATE TABLE a;" else inr "CREATE TABLE b; CREATE TABLE c;".
Lemma migratePG_executes_witness :
  migratePG (λ _, Some ["2.sql"; "1.sql"]) demo_files (λ _, mret tt) refusing
      (Config.Database (Config.Load (λ _, "") (λ _, None))) [] =
    (Ok tt, ["CREATE TABLE a"; "CREATE TABLE b"; "CREATE TABLE c"]).
Proof.
  rewrite (migratePG_executes _ demo_files (λ _, mret tt) refusing _ ["2.sql"; "1.sql"]
    ["CREATE TABLE a;"; "CREATE TABLE b; CREATE TABLE c;"] [] []).
  - vm_compute. reflexivity.
  - done.
  - reflexivity.
  - reflexivity.
  - done.
  - repeat constructor.
Defined.
