(* ===== verification/TokenThreads.v ===== *)
(** * TokenThreads: refreshes that interleave

    [RefreshToken] of [src/internal/features/auth/service.go] cut at its
    Redis commands, and what two requests with the same token can do: the
    rotation that [RefreshToken_rotates] shows for requests in sequence does
    not hold for requests that overlap. *)
From S2P Require Import Prelude Realtime Store Redis Middleware.
From S2P Require Import AuthService AuthServiceFacts Threads ThreadsFacts.

(** [generateTokens] is left in one piece: what it writes is under a key of
    its own. *)
Definition RefreshToken_thread `{Env} `{!RedisServer} `{!Jwt} (cfg : JWTConfig)
    (refreshToken : string) : thread unit :=
  after (AuthService.GetRefreshToken refreshToken ?> (λ _, AuthService.ErrInvalidToken)) (λ userID,
  after (AuthService.DeleteRefreshToken refreshToken
           ?> ErrorfW "failed to delete old refresh token: %w") (λ _,
  finish (AuthService.generateTokens cfg userID))).

Section Refreshes.
Context `{Env} `{!UuidText} `{!RedisServer} `{!Jwt} (cfg : JWTConfig).

Lemma RefreshToken_alone tok w :
  run (RefreshToken_thread cfg tok) w = (_ ← AuthService.RefreshToken cfg tok; mret tt) w.
Proof.
  unfold RefreshToken_thread, AuthService.RefreshToken. rewrite run_after, bind_bind. apply bind_ext.
  intros userID w1. rewrite run_after, bind_bind. apply bind_ext. intros _ w2. by rewrite run_finish.
Qed.

Lemma get_runs tok uid w : fault_free →
  live_value (clock (tick w)) (redis w) (AuthService.refresh_key tok) = Some (RString uid) →
  (AuthService.GetRefreshToken tok ?> (λ _, AuthService.ErrInvalidToken)) w =
    (Ok uid, with_redis (redis w) (bump w)).
Proof.
  intros Hff Hl. unfold AuthService.GetRefreshToken, on_err. rewrite command_run by apply Hff.
  by rewrite GET_law, Hl.
Qed.
Lemma delete_runs tok w : fault_free →
  (AuthService.DeleteRefreshToken tok ?> ErrorfW "failed to delete old refresh token: %w") w =
    (Ok tt, with_redis (delete (AuthService.refresh_key tok) (redis w)) (bump w)).
Proof.
  intros Hff. unfold AuthService.DeleteRefreshToken, on_err. rewrite command_run by apply Hff.
  by rewrite DEL_law.
Qed.
Lemma generateTokens_runs uid w : fault_free → (∀ c, ∃ s, SignedString c (Secret cfg) = inr s) →
  ∃ p w', AuthService.generateTokens cfg uid w = (Ok p, w').
Proof.
  intros Hff Hsign. unfold AuthService.generateTokens, mbind, gom_bind, now.
  destruct (Hsign (AuthService.access_claims cfg uid (clock (tick w)))) as [s ->].
  unfold on_err, rand_Read. cbn -[AuthService.StoreRefreshToken seq]. rewrite (Hff _).
  unfold AuthService.StoreRefreshToken. rewrite command_run by apply Hff. rewrite SET_law. by do 2 eexists.
Qed.

(** A refresh token can be spent twice.  When two refreshes look the same
    stored token up before either of them deletes it, both succeed, and two
    new pairs for its user are stored: deleting a token that is gone is not
    an error, and nobody looks at what was deleted. *)
Theorem refresh_spends_twice tok uid w :
  fault_free → (∀ c, ∃ s, SignedString c (Secret cfg) = inr s) →
  live_value (clock (tick w)) (redis w) (AuthService.refresh_key tok) = Some (RString uid) →
  live_value (clock (S (tick w))) (redis w) (AuthService.refresh_key tok) = Some (RString uid) →
  ∃ p1 p2 w1 w2 w', rtc pool_step ([RefreshToken_thread cfg tok; RefreshToken_thread cfg tok], w)
      ([Done (Ok tt); Done (Ok tt)], w') ∧
    w1 = Nat.iter 4 bump (with_redis (delete (AuthService.refresh_key tok) (redis w)) w) ∧
    AuthService.generateTokens cfg uid w1 = (Ok p1, w2) ∧
    AuthService.generateTokens cfg uid w2 = (Ok p2, w').
Proof.
  intros Hff Hsign Hl1 Hl2.
  set (wa := with_redis (redis w) (bump w)). set (wb := with_redis (redis wa) (bump wa)).
  set (wc := with_redis (delete (AuthService.refresh_key tok) (redis wb)) (bump wb)).
  set (wd := with_redis (delete (AuthService.refresh_key tok) (redis wc)) (bump wc)).
  destruct (generateTokens_runs uid wd Hff Hsign) as (p1 & we & E1).
  destruct (generateTokens_runs uid we Hff Hsign) as (p2 & wf & E2).
  exists p1, p2, wd, we, wf. split; [|split_and!; [|done..]]; cycle 1.
  { subst wa wb wc wd. destruct w. unfold with_redis, bump. cbn. by rewrite delete_delete_eq. }
  unfold RefreshToken_thread, finish.
  eapply rtc_l; [apply pool_after, (get_runs tok uid w Hff Hl1)|].
  etrans; [apply pool_cons, rtc_once, pool_after, (get_runs tok uid wa Hff Hl2)|].
  eapply rtc_l; [apply pool_after, (delete_runs tok wb Hff)|].
  etrans; [apply pool_cons, rtc_once, pool_after, (delete_runs tok wc Hff)|].
  eapply rtc_l; [apply pool_after, E1|].
  apply pool_cons, rtc_once, (pool_after _ (λ _, Done (Ok tt)) _ [] _ _ E2).
Qed.
End Refreshes.

(** ** Worked example *)
Section Example.
#[local] Existing Instance demo_wired.
#[local] Existing Instance demo_uuid.
#[local] Existing Instance reference_redis.
#[local] Existing Instance demo_jwt.

(** Two refreshes of the token [old]: its user holds two tokens afterwards. *)
Lemma refresh_spends_twice_witness :
  ∃ w' k1 k2,
    rtc pool_step ([RefreshToken_thread demo_cfg "old"; RefreshToken_thread demo_cfg "old"], demo_stored)
      ([Done (Ok tt); Done (Ok tt)], w') ∧
    k1 ≠ k2 ∧ (re_value <$> redis w' !! k1) = Some (RString "ann") ∧
    (re_value <$> redis w' !! k2) = Some (RString "ann").
Proof.
  destruct (refresh_spends_twice demo_cfg "old" "ann" demo_stored)
    as (p1 & p2 & w1 & w2 & w' & Hs & Hw & E1 & E2);
    [intros n; reflexivity|intros c; eexists; reflexivity|vm_compute; reflexivity|vm_compute; reflexivity|].
  exists w', (AuthService.refresh_key (RefreshTokenText p1)), (AuthService.refresh_key (RefreshTokenText p2)).
  split; [exact Hs|]. rewrite Hw in E1.
  vm_compute in E1. injection E1 as <- <-. vm_compute in E2. injection E2 as <- <-.
  split_and!; vm_compute; [discriminate|reflexivity..].
Defined.
End Example.
